(* ===== verification/_CoqProject ===== *)
-Q . S2P
Prelude.v
Hw.v
Desc.v
Types.v
Request.v
StatusDump.v
Engine.v
EngineFacts.v
EngineSys.v
ServiceFacts.v
Transfer.v
TransferFacts.v
Submit.v
SubmitFacts.v
Aperture.v
ApertureFacts.v
Threads.v
Nupa.v
NupaFacts.v
Device.v
Irq.v
Bars.v
Init.v
InitFacts.v
Life.v
LifeFacts.v
Adapter.v
Debug.v
Pci.v
Examples.v
DescProps.v
RequestProps.v
StatusProps.v
EngineProps.v
EngineLive.v
TransferProps.v
SubmitProps.v
ApertureProps.v
PollProps.v
ThreadsProps.v
NupaDma.v
NupaProps.v
NupaSys.v
IrqProps.v
BarsProps.v
InitProps.v
LifeInv.v
LifeProps.v
SuspendProps.v
PciProps.v
DebugProps.v
