(* ===== verification/Prelude.v ===== *)
(** * A model of the XDMA driver and of the network driver on top of it

    The repository holds a Linux driver for the Xilinx XDMA PCIe DMA engine
    ([src/src/libxdma.c], [libxdma.h], [xdma_thread.c]) and a network driver
    that uses it to exchange packets between hosts that share a card
    ([src/src/nupanet_main.c]).  A request to move memory is a scatter-gather
    table.  The library cuts it into software descriptors ([xdma_init_request]),
    packs as many as fit into the engine's descriptor ring as a transfer
    ([transfer_init]), appends the transfer to the engine's queue
    ([transfer_queue]) and starts the engine when it is idle ([engine_start]).
    An interrupt or a polling thread services the engine ([engine_service]):
    it reads how many descriptors are complete, retires the transfers they make
    up, wakes the waiters and restarts the engine.  The network driver puts
    packets in rings that lie in shared memory and moves their bytes with one
    engine per direction.

    ** How the code is modelled

    Stateful functions are functions in a state monad ([M] of this file), the
    results are those of the C functions.  A C array is a list indexed by an
    integer, a pointer into one an index; an integer of the code is a [Z] and
    its wrap-around is written out ([u32], [i32], ...).  Reads and writes of
    registers, kernel calls and wake-ups are events of a trace, newest first
    (Hw); what the hardware and the kernel answer is the parameter [Platform],
    a function of the trace so far, so that no answer is excluded.  The module
    parameters are [ModParams].  Locks are not modelled: a step of a model runs
    under the lock that the code takes, and what others do between two such
    steps is an explicit step relation (EngineSys) or a parameter ([interfere],
    Submit).

    ** The files

    - Prelude: integers, the monad, arrays, loops, record update, tactics.
    - Hw: register blocks and bits of [libxdma.h], the trace, [Platform].
    - Desc: [struct xdma_desc]; [xdma_get_next_adj], [transfer_desc_init],
      [xdma_desc_adjacent], [xdma_desc_control_set], [xdma_desc_set],
      [xdma_desc_done].  DescProps: the chain the hardware follows, the fields
      each routine sets and keeps, where the adjacent count stops.
    - Types: [xdma_transfer], [xdma_request_cb], [xdma_engine], [xdma_dev].
      [est] is one engine, its device, its transfers by identifier and the
      trace; a list of transfers is a list of identifiers.
    - Request: [xdma_request_alloc], [xdma_init_request].  RequestProps: the
      software descriptors cover the table's bytes, in order, and have room in
      the memory allocated.
    - StatusDump: [engine_status_dump].  StatusProps: its buffer, which is large
      enough for one direction of engine only.
    - Engine: start, stop, service (interrupt and polled), queue, abort.
      EngineFacts, ServiceFacts: how a service retires transfers.  EngineSys:
      the engine as a system whose actions ([action], [act]) are the functions
      above in any order, with time-outs of any transfer; [careful] is what is
      asked of the submitters.  EngineProps: the invariant of the reachable
      states, that no transfer leaves the queue without its waiter learning how it
      ended, the order of the register writes that start an engine, which
      transfers a service completes and which it fails.  EngineLive: the queue
      drains if the device goes on.  PollProps: the busy-wait ends on a clock that
      wraps around, with the expected count, an error or a time-out.
    - Transfer: [transfer_init], [transfer_build], [transfer_destroy].
      TransferFacts, TransferProps: the descriptors written move exactly the
      bytes of the software descriptors, carry the right control bits and stay
      in the engine's ring.
    - Submit: [xdma_xfer_submit], [xdma_xfer_submit_nowait],
      [xdma_xfer_completion].  SubmitFacts, SubmitProps: a submission returns,
      whatever others do to the queue meanwhile, with the bytes of the transfers
      that it has seen completed or the code of the pass that ended it.
    - Threads: [xdma_thread.c].  ThreadsProps: work lists and thread pointers
      of the engines agree, a pass polls each of the thread's engines that has
      transfers and touches no other.
    - Aperture: [xdma_xfer_aperture], which transfers to a window of the card.
      ApertureFacts, ApertureProps: the descriptors of a pass move the bytes
      that are left, to addresses that wrap around in the window; a request
      that fits into the ring ends, with all its bytes or an error; a second pass
      goes back to bytes that the first has moved.
    - Nupa: the packet path of [nupanet_main.c].  NupaFacts: the packet ring as
      a queue.  NupaProps: sending appends a packet in a slot of its own, a poll
      delivers packets in order, the memory layout; they rely on the DMA library
      through the class [DmaService] only, which NupaDma gives an instance of
      and where a transfer is shown to move its whole buffer.  NupaSys: the steps
      of [nupanet_xmit_frame] and [nupanet_poll] on one ring in any order, with
      transfers and allocations that may fail ([rstep]), refine a queue; the bytes
      are those sent when both transfers succeeded.
    - Device: [dvst], a device with its two arrays of engines, and the lifting
      of the functions on one engine.
    - Irq: handlers, masks, vectors and the three ways of requesting interrupts.
      IrqProps: [xdma_isr] wakes exactly the engines and user handlers whose
      bits are set; the vectors an engine or a user gets are the ones requested.
    - Bars: mapping the BARs and finding their roles.  BarsProps: every BAR that
      exists is mapped or none is, and which BAR gets which role.
    - Init: [engine_init], [engine_destroy], [probe_engines], [remove_engines].
      InitFacts, InitProps: what a probed engine looks like, which engines are
      probed and which bits they have in the interrupt mask.
    - Life: the library's list of devices ([lst]), [xdma_device_open] with its
      exits, close, offline, online, the functions for user interrupts.
      LifeFacts, LifeInv: what each of them changes of the list and of the
      resources taken from the PCI core, counted for all PCI devices or for one
      ([Selection]).  LifeProps: the invariant of the reachable states, per PCI
      device, and that a failed open undoes what it did.
      SuspendProps: offline and online give back the same engines.
    - Adapter: [gst], the devices with the adapters of the network driver.
      Debug: [debug.c].  Pci: [probe_one], [remove_one] and the callbacks for
      bus errors.  PciProps: adding and removing a card, and the failure of
      adding one.  DebugProps: what the debug device takes and gives back by the
      answers of the kernel, and which writes it accepts.
    - Examples: concrete platforms and states for the witnesses.

    The states nest: [est] (an engine) is part of [dvst] (a device), which is
    part of [lst] (the library), which is part of [gst] (the driver);
    [on_engine], [on_xdev] and [on_lib] run a function of the smaller state in
    the larger one.  [nst] (the packet path) has the two engines it uses.

    ** Loops and fuel

    A loop over a list or an array is structural.  [sg_split] has enough fuel
    for the table entry it splits ([sg_fuel]) unless [desc_blen_max] is 0, when
    the loop of the code does not end either.  [service_loop] removes a
    transfer per iteration and starts with one unit per queued transfer.
    [submit_loop] has one unit per software descriptor and each iteration
    queues at least one.  [poll_loop] has [budget + 2] and counts its
    iterations against the budget.  [wb_poll] waits for the clock: its fuel is
    a parameter and the theorem about it says how much is enough.

    [xdma_xfer_aperture] has its number of passes as a parameter; one is enough
    when the request fits into the ring ([aperture_fits]).  [fill_entry] has
    what is left of the ring and one more ([entry_fuel]), and stops at the end
    of the ring.  The busy-waits of the packet path answer [Spin], a [BUG_ON]
    [Bug], an access through a null pointer [Fault].

    ** What is not modelled

    - Code that is compiled out: [#if 0] ([engine_cyclic_stop],
      [xdma_performance_submit], the work queues of the network driver), the
      dumps under [__LIBXDMA_DEBUG__], the variants for kernels before 5.16,
      [USE_WAKE_UP] 1 and [XDMA_CONFIG_BAR_NUM].
    - The callbacks of [struct net_device] that only print or return a constant,
      module entry and exit (calls of [pci_register_driver] and its inverse) and
      [debug_open], which stores a pointer.
    - Messages to the kernel log, except for the text of [engine_status_dump],
      which is built in a fixed buffer.
    - Locks and what the kernel does with the resources it hands out: its calls
      are events with an answer.
    - The test programs under [src/test], which run in user space. *)
From stdpp Require Export base list strings gmap.
From Stdlib Require Export ZArith Lia.
From Stdlib Require Import Bool.

#[global] Open Scope Z_scope.

(** * Machine integers *)

(** Values of the C types [u8], [u16], [u32], [u64] and [int]: an integer and
    its wrap-around.  [int] wraps too: the kernel is built with
    [-fno-strict-overflow]. *)
Definition u8 (z : Z) : Z := z mod 2 ^ 8.
Definition u16 (z : Z) : Z := z mod 2 ^ 16.
Definition u32 (z : Z) : Z := z mod 2 ^ 32.
Definition u64 (z : Z) : Z := z mod 2 ^ 64.
Definition i8 (z : Z) : Z := (z + 2 ^ 7) mod 2 ^ 8 - 2 ^ 7.
Definition i32 (z : Z) : Z := (z + 2 ^ 31) mod 2 ^ 32 - 2 ^ 31.

(** The C test [if (v & m)]. *)
Definition has_bits (v m : Z) : bool := negb (Z.land v m =? 0).

(** [v & ~m] at width 32. *)
Definition andn32 (v m : Z) : Z := Z.land v (Z.lxor (u32 m) (Z.ones 32)).

(** * A state monad *)

(** Stateful code is a function from the state before the call to the result
    and the state after it. *)
Definition M (S A : Type) : Type := S -> A * S.
Definition ret {S A} (a : A) : M S A := fun s => (a, s).
Definition bind {S A B} (m : M S A) (k : A -> M S B) : M S B :=
  fun s => let (a, s') := m s in k a s'.
Definition gets {S A} (f : S -> A) : M S A := fun s => (f s, s).
Definition modify {S} (f : S -> S) : M S unit := fun s => (tt, f s).
Definition when {S} (b : bool) (m : M S unit) : M S unit :=
  if b then m else ret tt.

(** [for (i = i0; ...; i++)] with [n] iterations left, over a state. *)
Fixpoint for_upto {S} (n : nat) (i : Z) (body : Z -> S -> S) (s : S) : S :=
  match n with
  | O => s
  | Datatypes.S n' => for_upto n' (i + 1) body (body i s)
  end.

(** The same loop whose body is stateful code. *)
Fixpoint for_m {S} (n : nat) (i : Z) (body : Z -> M S unit) : M S unit :=
  match n with
  | O => ret tt
  | Datatypes.S n' => bind (body i) (fun _ => for_m n' (i + 1) body)
  end.

Declare Scope prog_scope.
Delimit Scope prog_scope with prog.
Notation "'let*' x ':=' m 'in' k" := (bind m (fun x => k))
  (at level 10, x pattern, m at level 100, k at level 200,
   format "'[v' 'let*'  x  ':='  m  'in' '/' k ']'") : prog_scope.
Notation "'do*' m 'in' k" := (bind m (fun _ : unit => k))
  (at level 10, m at level 100, k at level 200,
   format "'[v' 'do*'  m  'in' '/' k ']'") : prog_scope.
#[global] Open Scope prog_scope.

(** * Functional record update *)

(** [Eta R] lists the fields of a record once; from it the update of any field
    is built with the record's own projections, so that a projection of an
    updated record reduces. *)
Class Eta (R : Type) := eta_record : R -> R.

Class Upd {R E : Type} (proj : R -> E) := upd_field : (E -> E) -> R -> R.
Arguments upd_field {R E} proj {_} f r : assert.

Ltac build_upd proj :=
  match goal with
  | |- @Upd ?R ?E _ =>
      let e := constr:(@eta_record R _) in
      let e := eval cbv delta [eta_record] in e in
      let i := match e with ?i => i end in
      let t := eval hnf in i in
      let t' := eval pattern proj in t in
      match t' with
      | ?g _ =>
          let u := eval cbv beta in
            (fun (f : E -> E) (r : R) => g (fun r0 => f (proj r0)) r) in
          exact u
      end
  end.
#[export] Hint Extern 0 (Upd ?proj) => build_upd proj : typeclass_instances.

Notation "r <| f := v |>" := (upd_field f (fun _ => v) r)
  (at level 1, left associativity, f at level 1, v at level 200,
   format "r  <| f  :=  v |>") : prog_scope.
Notation "r <| f ::= g |>" := (upd_field f g r)
  (at level 1, left associativity, f at level 1, g at level 200,
   format "r  <| f  ::=  g |>") : prog_scope.


(** * Arrays *)

(** C arrays are lists indexed by an integer.  Reading outside the array gives
    [None]; writing outside leaves the list alone, so the theorems about code
    that writes to an array also prove that the index is in range. *)
Definition zlookup {A} (l : list A) (i : Z) : option A :=
  if i <? 0 then None else l !! Z.to_nat i.
Definition zalter {A} (f : A -> A) (i : Z) (l : list A) : list A :=
  if i <? 0 then l else alter f (Z.to_nat i) l.
Definition zset {A} (x : A) : Z -> list A -> list A := zalter (fun _ => x).
Definition zlength {A} (l : list A) : Z := Z.of_nat (length l).

(** * Assertions about stateful code *)

Definition preserves {S A} (I : S -> Prop) (m : M S A) : Prop :=
  forall s, I s -> I (snd (m s)).

(** [hoare P m Q]: from a state in [P], [m] ends with a result and a state in
    [Q]. *)
Definition hoare {S A} (P : S -> Prop) (m : M S A) (Q : A -> S -> Prop) : Prop :=
  forall s, P s -> Q (fst (m s)) (snd (m s)).

(** * Integer lemmas *)

Ltac dlia := Z.div_mod_to_equations; lia.

Lemma u32_range z : 0 <= u32 z < 2 ^ 32.
Proof. unfold u32. apply Z.mod_pos_bound. lia. Qed.

Lemma u64_range z : 0 <= u64 z < 2 ^ 64.
Proof. unfold u64. apply Z.mod_pos_bound. lia. Qed.

Lemma u32_small z : 0 <= z < 2 ^ 32 -> u32 z = z.
Proof. apply Z.mod_small. Qed.

Lemma u64_small z : 0 <= z < 2 ^ 64 -> u64 z = z.
Proof. apply Z.mod_small. Qed.

Lemma i32_small z : - 2 ^ 31 <= z < 2 ^ 31 -> i32 z = z.
Proof. intros H. unfold i32. rewrite Z.mod_small; lia. Qed.

Lemma i32_range z : - 2 ^ 31 <= i32 z < 2 ^ 31.
Proof.
  unfold i32. pose proof (Z.mod_pos_bound (z + 2 ^ 31) (2 ^ 32)). lia.
Qed.

Lemma u64_add_l a b : u64 (u64 a + b) = u64 (a + b).
Proof. unfold u64. apply Zplus_mod_idemp_l. Qed.

Lemma u32_sub_l a b : u32 (u32 a - b) = u32 (a - b).
Proof. apply Zminus_mod_idemp_l. Qed.
Lemma u32_add_l a b : u32 (u32 a + b) = u32 (a + b).
Proof. unfold u32. apply Zplus_mod_idemp_l. Qed.

(** * Array lemmas *)

Section arrays.
Context {A : Type}.
Implicit Types (l : list A) (f : A -> A).

Lemma zlookup_lt_Some l i x : zlookup l i = Some x -> 0 <= i < zlength l.
Proof.
  unfold zlookup, zlength. destruct (Z.ltb_spec i 0); [done|].
  intros ?%lookup_lt_Some. lia.
Qed.

Lemma zlookup_is_Some l i : is_Some (zlookup l i) <-> 0 <= i < zlength l.
Proof.
  split.
  - intros [x Hx]. by eapply zlookup_lt_Some.
  - intros Hi. unfold zlookup, zlength in *.
    destruct (Z.ltb_spec i 0); [lia|]. apply lookup_lt_is_Some. lia.
Qed.

Lemma zlookup_None l i : zlookup l i = None <-> i < 0 \/ zlength l <= i.
Proof. rewrite eq_None_not_Some, zlookup_is_Some. lia. Qed.

Lemma zlookup_zalter f i j l :
  zlookup (zalter f i l) j =
  if decide (i = j) then f <$> zlookup l j else zlookup l j.
Proof.
  unfold zlookup, zalter.
  destruct (Z.ltb_spec j 0), (Z.ltb_spec i 0); case_decide; subst;
    try done; try lia.
  - by rewrite list_lookup_alter_eq.
  - rewrite list_lookup_alter_ne; [done|]. lia.
Qed.

Lemma zlookup_zset x i j l :
  zlookup (zset x i l) j =
  if decide (i = j /\ 0 <= i < zlength l) then Some x else zlookup l j.
Proof.
  unfold zset. rewrite zlookup_zalter.
  destruct (decide (i = j)) as [->|Hij].
  - destruct (zlookup l j) eqn:E; case_decide as Hd; try done.
    + apply zlookup_lt_Some in E. tauto.
    + apply zlookup_None in E. lia.
  - case_decide; [tauto|done].
Qed.

Lemma zlength_zalter f i l : zlength (zalter f i l) = zlength l.
Proof.
  unfold zlength, zalter. destruct (i <? 0); [done|]. by rewrite length_alter.
Qed.

Lemma zlength_zset x i l : zlength (zset x i l) = zlength l.
Proof. apply zlength_zalter. Qed.

Lemma zset_zset x y i l : zset x i (zset y i l) = zset x i l.
Proof.
  unfold zset, zalter. destruct (i <? 0); [done|]. generalize (Z.to_nat i) as n.
  induction l as [|a l IH]; intros [|n]; [done..|]. cbn. f_equal. apply IH.
Qed.

Lemma zlength_nonneg l : 0 <= zlength l.
Proof. unfold zlength. lia. Qed.

Lemma zlength_app l1 l2 : zlength (l1 ++ l2) = zlength l1 + zlength l2.
Proof. unfold zlength. rewrite length_app. lia. Qed.

Lemma zlength_cons x l : zlength (x :: l) = zlength l + 1.
Proof. unfold zlength. cbn [length]. lia. Qed.

Lemma zlookup_cons x l i : 0 <= i < zlength l -> zlookup (x :: l) (i + 1) = zlookup l i.
Proof.
  intros Hi. unfold zlookup. destruct (Z.ltb_spec (i + 1) 0), (Z.ltb_spec i 0); try lia.
  by replace (Z.to_nat (i + 1)) with (S (Z.to_nat i)) by lia.
Qed.

Lemma zlookup_snoc x l i y :
  zlookup (l ++ [x]) i = Some y -> i = zlength l /\ y = x \/ zlookup l i = Some y.
Proof.
  unfold zlookup, zlength. destruct (Z.ltb_spec i 0); [done|].
  intros [Hk|[Hge Hk]]%lookup_app_Some; [by right|left].
  destruct (Z.to_nat i - length l)%nat eqn:E; [|done].
  injection Hk as <-. split; [lia|done].
Qed.

Lemma zlist_eq l1 l2 : (forall i, zlookup l1 i = zlookup l2 i) -> l1 = l2.
Proof.
  intros H. apply list_eq. intros i. specialize (H (Z.of_nat i)).
  unfold zlookup in H. destruct (Z.ltb_spec (Z.of_nat i) 0); [lia|].
  by rewrite Nat2Z.id in H.
Qed.

Lemma zalter_zalter f g i l :
  zalter f i (zalter g i l) = zalter (fun x => f (g x)) i l.
Proof.
  apply zlist_eq. intros j. rewrite !zlookup_zalter. case_decide; [|done].
  by destruct (zlookup l j).
Qed.

Lemma zalter_ext f g i l : (forall x, f x = g x) -> zalter f i l = zalter g i l.
Proof.
  intros E. apply zlist_eq. intros j. rewrite !zlookup_zalter.
  case_decide; [|done]. destruct (zlookup l j); cbn; [by rewrite E|done].
Qed.

(** A loop that changes one element per iteration. *)
Lemma zlookup_for_alter n i0 (g : Z -> A -> A) base l j :
  zlookup (for_upto n i0 (fun i => zalter (g i) (base + i)) l) j =
  if decide (base + i0 <= j < base + i0 + Z.of_nat n)
  then g (j - base) <$> zlookup l j else zlookup l j.
Proof.
  revert i0 l. induction n as [|n IH]; intros i0 l; cbn [for_upto].
  - case_decide; [lia|done].
  - rewrite IH, zlookup_zalter.
    repeat case_decide; try lia; try done.
    subst. by replace (base + i0 - base) with i0 by lia.
Qed.
End arrays.

(** * Loop lemmas *)

Section loops.
Context {S : Type}.
Implicit Types (I : Z -> S -> Prop).

Lemma for_upto_inv n i body I (s : S) :
  I i s ->
  (forall j s', i <= j < i + Z.of_nat n -> I j s' -> I (j + 1) (body j s')) ->
  I (i + Z.of_nat n) (for_upto n i body s).
Proof.
  revert i s. induction n as [|n IH]; intros i s H0 Hstep; cbn [for_upto].
  - by replace (i + Z.of_nat 0) with i by lia.
  - replace (i + Z.of_nat (Datatypes.S n)) with (i + 1 + Z.of_nat n) by lia.
    apply IH; [apply Hstep; [lia|done]|].
    intros j s' Hj. apply Hstep. lia.
Qed.

Lemma for_upto_ext n i body body' (s : S) :
  (forall j s', i <= j < i + Z.of_nat n -> body j s' = body' j s') ->
  for_upto n i body s = for_upto n i body' s.
Proof.
  revert i s. induction n as [|n IH]; intros i s H; cbn [for_upto]; [done|].
  rewrite H by lia. apply IH. intros. apply H. lia.
Qed.

Lemma for_upto_snoc n i body (s : S) :
  for_upto (Datatypes.S n) i body s =
  body (i + Z.of_nat n) (for_upto n i body s).
Proof.
  revert i s. induction n as [|n IH]; intros i s.
  - cbn [for_upto]. f_equal. lia.
  - change (for_upto (Datatypes.S (Datatypes.S n)) i body s)
      with (for_upto (Datatypes.S n) (i + 1) body (body i s)).
    rewrite IH. cbn [for_upto]. f_equal. lia.
Qed.
End loops.

(** * Proof rules for stateful code *)

Section rules.
Context {S : Type}.
Implicit Types (I P : S -> Prop).

Lemma preserves_ret {A} I (a : A) : preserves I (ret a).
Proof. by intros s Hs. Qed.

Lemma preserves_gets {A} I (f : S -> A) : preserves I (gets f).
Proof. by intros s Hs. Qed.

Lemma preserves_modify I f :
  (forall s, I s -> I (f s)) -> preserves I (modify f).
Proof. intros H s Hs. by apply H. Qed.

Lemma preserves_bind {A B} I (m : M S A) (k : A -> M S B) :
  preserves I m -> (forall a, preserves I (k a)) -> preserves I (bind m k).
Proof.
  intros Hm Hk s Hs. unfold bind. specialize (Hm s Hs).
  destruct (m s) as [a s']. by apply Hk.
Qed.

Lemma preserves_when I b m :
  (b = true -> preserves I m) -> preserves I (when b m).
Proof. destruct b; intros H; [by apply H|apply preserves_ret]. Qed.

Lemma preserves_for I n i body :
  (forall j, preserves I (body j)) -> preserves I (for_m n i body).
Proof.
  intros H. revert i. induction n as [|n IH]; intros i; cbn [for_m].
  - apply preserves_ret.
  - apply preserves_bind; [apply H|]. intros _. apply IH.
Qed.

Lemma hoare_bind {A B} P (m : M S A) (k : A -> M S B) Q R :
  hoare P m Q -> (forall a, hoare (Q a) (k a) R) -> hoare P (bind m k) R.
Proof.
  intros Hm Hk s Hs. unfold bind. specialize (Hm s Hs).
  destruct (m s) as [a s']. by apply Hk.
Qed.

Lemma bind_run {A B} (m : M S A) (k : A -> M S B) s :
  bind m k s = k (fst (m s)) (snd (m s)).
Proof. unfold bind. by destruct (m s). Qed.

Lemma when_run b (m : M S unit) s :
  when b m s = if b then m s else (tt, s).
Proof. by destruct b. Qed.
End rules.

Lemma gets_run {S A} (f : S -> A) s : gets f s = (f s, s).
Proof. done. Qed.

Lemma modify_run {S} (f : S -> S) s : modify f s = (tt, f s).
Proof. done. Qed.

Lemma ret_run {S A} (a : A) (s : S) : ret a s = (a, s).
Proof. done. Qed.

(** Run stateful code one operation at a time. *)
Create Rewrite HintDb run.
#[export] Hint Rewrite @bind_run @when_run @gets_run @modify_run @ret_run : run.
Ltac exec := repeat (autorewrite with run; cbn [fst snd]).

Create HintDb prog discriminated.
#[export] Hint Resolve preserves_ret preserves_gets preserves_bind
  preserves_when preserves_for : prog.

Create Rewrite HintDb ints.
#[export] Hint Rewrite @zlength_zalter @zlength_zset : ints.

(** Case analysis on the innermost [if] or [match] of the goal. *)
Ltac split_case :=
  match goal with
  | |- context [if ?c then _ else _] =>
      lazymatch c with
      | context [if _ then _ else _] => fail
      | context [match _ with _ => _ end] => fail
      | _ => destruct c eqn:?
      end
  | |- context [match ?c with _ => _ end] =>
      lazymatch c with
      | context [if _ then _ else _] => fail
      | context [match _ with _ => _ end] => fail
      | _ => destruct c eqn:?
      end
  end.

(** Turn boolean comparisons of the context into propositions. *)
Ltac bprop :=
  repeat match goal with
  | H : _ && _ = true |- _ => apply andb_true_iff in H; destruct H
  | H : _ || _ = false |- _ => apply orb_false_iff in H; destruct H
  | H : negb _ = true |- _ => apply negb_true_iff in H
  | H : negb _ = false |- _ => apply negb_false_iff in H
  | H : (_ =? _) = true |- _ => apply Z.eqb_eq in H
  | H : (_ =? _) = false |- _ => apply Z.eqb_neq in H
  | H : (_ <? _) = true |- _ => apply Z.ltb_lt in H
  | H : (_ <? _) = false |- _ => apply Z.ltb_ge in H
  | H : (_ <=? _) = true |- _ => apply Z.leb_le in H
  | H : (_ <=? _) = false |- _ => apply Z.leb_gt in H
  end.

(** Run stateful code symbolically: unfold the monad and the record updates. *)
Ltac run_code :=
  unfold bind, ret, gets, modify, when, upd_field; cbn beta iota.

(** * Bit lemmas *)

Lemma u32_land z : u32 z = Z.land z 0xffffffff.
Proof. change 0xffffffff with (Z.ones 32). by rewrite Z.land_ones. Qed.

Lemma testbit_small a n i : 0 <= a < 2 ^ n -> n <= i -> Z.testbit a i = false.
Proof.
  intros Ha Hi. destruct (Z.eq_dec a 0) as [->|]; [apply Z.bits_0|].
  apply Z.bits_above_log2; [lia|].
  assert (Z.log2 a < n); [|lia].
  apply Z.log2_lt_pow2; lia.
Qed.

(** A mask below [2 ^ n] does not see what is shifted above bit [n]. *)
Lemma land_shiftl_low a m n :
  0 <= n -> 0 <= m < 2 ^ n -> Z.land (Z.shiftl a n) m = 0.
Proof.
  intros Hn Hm. apply Z.bits_inj'. intros i Hi.
  rewrite Z.land_spec, Z.shiftl_spec, Z.bits_0 by lia.
  destruct (Z.lt_ge_cases i n).
  - rewrite Z.testbit_neg_r by lia. done.
  - rewrite (testbit_small m n i) by lia. apply andb_false_r.
Qed.

Lemma land_small a n : 0 <= n -> 0 <= a < 2 ^ n -> Z.land a (Z.ones n) = a.
Proof. intros Hn Ha. rewrite Z.land_ones by lia. by apply Z.mod_small. Qed.

Lemma lor_shiftl_add hi lo n :
  0 <= n -> 0 <= lo < 2 ^ n -> Z.lor (Z.shiftl hi n) lo = hi * 2 ^ n + lo.
Proof.
  intros Hn Hlo. pose proof (Z.add_lor_land (Z.shiftl hi n) lo) as E.
  rewrite (land_shiftl_low hi lo n) in E by lia.
  rewrite <- Z.shiftl_mul_pow2 by lia. lia.
Qed.

Lemma lor_range a b n :
  0 <= n -> 0 <= a < 2 ^ n -> 0 <= b < 2 ^ n -> 0 <= Z.lor a b < 2 ^ n.
Proof.
  intros Hn Ha Hb. split; [apply Z.lor_nonneg; lia|].
  assert (Z.lor a b = Z.lor a b mod 2 ^ n) as ->.
  { rewrite <- Z.land_ones by lia. rewrite Z.land_lor_distr_l.
    by rewrite !land_small by lia. }
  apply Z.mod_pos_bound. lia.
Qed.

Lemma land_range_r a m : 0 <= m -> 0 <= Z.land a m <= m.
Proof.
  intros Hm. apply Z.ldiff_le; [done|].
  rewrite Z.ldiff_land, <- Z.land_assoc, Z.land_lnot_diag. apply Z.land_0_r.
Qed.

Lemma has_bits_0_l m : has_bits 0 m = false.
Proof. done. Qed.

Lemma has_bits_lor v a b : has_bits v (Z.lor a b) = has_bits v a || has_bits v b.
Proof.
  unfold has_bits. rewrite Z.land_lor_distr_r.
  destruct (Z.eqb_spec (Z.land v a) 0) as [->|Ha];
    destruct (Z.eqb_spec (Z.land v b) 0) as [->|Hb]; cbn; try done.
  - rewrite Z.lor_0_l. by destruct (Z.eqb_spec (Z.land v b) 0).
  - rewrite Z.lor_0_r. by destruct (Z.eqb_spec (Z.land v a) 0).
  - destruct (Z.eqb_spec (Z.lor (Z.land v a) (Z.land v b)) 0) as [E|]; [|done].
    by apply Z.lor_eq_0_iff in E as [??].
Qed.

Lemma land_andn32 a m b :
  0 <= a < 2 ^ 32 -> Z.land a b = 0 -> Z.land a (andn32 m b) = Z.land a m.
Proof.
  intros Ha Hab. apply Z.bits_inj'. intros i Hi.
  assert (Hb : Z.testbit (Z.land a b) i = false) by (rewrite Hab; apply Z.bits_0).
  unfold andn32. rewrite u32_land. change 0xffffffff with (Z.ones 32).
  rewrite Z.land_spec in Hb. rewrite !Z.land_spec, Z.lxor_spec, Z.land_spec.
  destruct (Z.testbit a i) eqn:Ea; [|done]. cbn in Hb.
  destruct (Z.lt_ge_cases i 32) as [Hlt|Hge].
  - rewrite Z.ones_spec_low by lia. rewrite Hb. cbn. by rewrite andb_true_r.
  - by rewrite (testbit_small a 32) in Ea by lia.
Qed.

Lemma has_bits_pow2 w i : 0 <= i -> has_bits w (2 ^ i) = Z.testbit w i.
Proof.
  intros Hi. unfold has_bits. destruct (Z.testbit w i) eqn:E.
  - apply negb_true_iff, Z.eqb_neq. intros H0.
    assert (Hb : Z.testbit (Z.land w (2 ^ i)) i = false) by (rewrite H0; apply Z.bits_0).
    rewrite Z.land_spec, E, Z.pow2_bits_true in Hb by done. done.
  - apply negb_false_iff, Z.eqb_eq, Z.bits_inj'. intros j Hj.
    rewrite Z.land_spec, Z.bits_0.
    destruct (Z.eq_dec i j) as [->|Hne]; [by rewrite E|].
    rewrite Z.pow2_bits_false by done. apply andb_false_r.
Qed.

Lemma testbit_andn32 w i j :
  0 <= i < 32 -> 0 <= j < 32 -> i <> j ->
  Z.testbit (andn32 w (2 ^ i)) j = Z.testbit w j.
Proof.
  intros Hi Hj Hne. unfold andn32. rewrite Z.land_spec, Z.lxor_spec.
  rewrite u32_small by (split; [lia|apply Z.pow_lt_mono_r; lia]).
  rewrite Z.pow2_bits_false, Z.ones_spec_low by lia. by rewrite andb_true_r.
Qed.

(** * Ranges of integers *)

Lemma zlength_seqZ i n : 0 <= n -> zlength (seqZ i n) = n.
Proof. intros Hn. unfold zlength. rewrite length_seqZ. lia. Qed.

Lemma in_seqZ i n x : In x (seqZ i n) <-> i <= x < i + n.
Proof. rewrite <- list_elem_of_In, elem_of_seqZ. lia. Qed.

Lemma seqZ_to_nat i n : seqZ i (Z.of_nat (Z.to_nat n)) = seqZ i n.
Proof. unfold seqZ. by rewrite Nat2Z.id. Qed.

(** * Removing an element of a list *)

Lemma filter_ne_id {A} `{EqDecision A} (e : A) (l : list A) :
  e ∉ l -> filter (fun x => x <> e) l = l.
Proof.
  induction l as [|x l IH]; intros Hn; [done|].
  rewrite filter_cons_True by set_solver. f_equal. apply IH. set_solver.
Qed.
