(* ===== verification/Hw.v ===== *)
(** The hardware interface of the XDMA core, from [src/src/libxdma.h]: the
    register blocks with the offsets of their fields, the bits of the control
    and status registers, and the model of the accesses.

    The device and the kernel are not part of the driver.  They answer a read
    of a register or a call of a kernel function with a value that may depend
    on everything that happened before, so a [Platform] maps the trace of past
    events to the answer; the driver's code appends its accesses to the
    trace. *)
From S2P Require Import Prelude.

(** * Register blocks *)

(** A block of 32-bit registers: the fields in order with their number of
    words ([reserved_n] fields are padding). *)
Definition layout : Type := list (string * Z).

Fixpoint offsetof (l : layout) (field : string) : Z :=
  match l with
  | [] => 0
  | (f, n) :: l' => if String.eqb f field then 0 else 4 * n + offsetof l' field
  end.

Definition sizeof (l : layout) : Z :=
  foldr (fun fld acc => 4 * snd fld + acc) 0 l.

Definition config_regs : layout :=
  [("identifier", 1); ("reserved_1", 4); ("msi_enable", 1)]%string.

Definition engine_regs : layout :=
  [("identifier", 1); ("control", 1); ("control_w1s", 1); ("control_w1c", 1);
   ("reserved_1", 12);
   ("status", 1); ("status_rc", 1); ("completed_desc_count", 1);
   ("alignments", 1); ("reserved_2", 14);
   ("poll_mode_wb_lo", 1); ("poll_mode_wb_hi", 1);
   ("interrupt_enable_mask", 1); ("interrupt_enable_mask_w1s", 1);
   ("interrupt_enable_mask_w1c", 1); ("reserved_3", 9);
   ("perf_ctrl", 1); ("perf_cyc_lo", 1); ("perf_cyc_hi", 1);
   ("perf_dat_lo", 1); ("perf_dat_hi", 1); ("perf_pnd_lo", 1);
   ("perf_pnd_hi", 1)]%string.

Definition engine_sgdma_regs : layout :=
  [("identifier", 1); ("reserved_1", 31); ("first_desc_lo", 1);
   ("first_desc_hi", 1); ("first_desc_adjacent", 1); ("credits", 1)]%string.

Definition interrupt_regs : layout :=
  [("identifier", 1); ("user_int_enable", 1); ("user_int_enable_w1s", 1);
   ("user_int_enable_w1c", 1); ("channel_int_enable", 1);
   ("channel_int_enable_w1s", 1); ("channel_int_enable_w1c", 1);
   ("reserved_1", 9);
   ("user_int_request", 1); ("channel_int_request", 1);
   ("user_int_pending", 1); ("channel_int_pending", 1); ("reserved_2", 12);
   ("user_msi_vector", 8); ("channel_msi_vector", 8)]%string.

Definition sgdma_common_regs : layout :=
  [("padding", 8); ("credit_mode_enable", 1); ("credit_mode_enable_w1s", 1);
   ("credit_mode_enable_w1c", 1)]%string.

(** Offsets used by the driver. *)
Definition R_identifier : Z := Eval cbv in offsetof engine_regs "identifier".
Definition R_control : Z := Eval cbv in offsetof engine_regs "control".
Definition R_control_w1s : Z := Eval cbv in offsetof engine_regs "control_w1s".
Definition R_control_w1c : Z := Eval cbv in offsetof engine_regs "control_w1c".
Definition R_status : Z := Eval cbv in offsetof engine_regs "status".
Definition R_status_rc : Z := Eval cbv in offsetof engine_regs "status_rc".
Definition R_completed_desc_count : Z :=
  Eval cbv in offsetof engine_regs "completed_desc_count".
Definition R_alignments : Z := Eval cbv in offsetof engine_regs "alignments".
Definition R_poll_mode_wb_lo : Z :=
  Eval cbv in offsetof engine_regs "poll_mode_wb_lo".
Definition R_poll_mode_wb_hi : Z :=
  Eval cbv in offsetof engine_regs "poll_mode_wb_hi".
Definition R_interrupt_enable_mask : Z :=
  Eval cbv in offsetof engine_regs "interrupt_enable_mask".
Definition R_interrupt_enable_mask_w1s : Z :=
  Eval cbv in offsetof engine_regs "interrupt_enable_mask_w1s".
Definition R_interrupt_enable_mask_w1c : Z :=
  Eval cbv in offsetof engine_regs "interrupt_enable_mask_w1c".
Definition R_perf_ctrl : Z := Eval cbv in offsetof engine_regs "perf_ctrl".

Definition R_first_desc_lo : Z :=
  Eval cbv in offsetof engine_sgdma_regs "first_desc_lo".
Definition R_first_desc_hi : Z :=
  Eval cbv in offsetof engine_sgdma_regs "first_desc_hi".
Definition R_first_desc_adjacent : Z :=
  Eval cbv in offsetof engine_sgdma_regs "first_desc_adjacent".
Definition R_credits : Z := Eval cbv in offsetof engine_sgdma_regs "credits".

Definition R_user_int_enable : Z :=
  Eval cbv in offsetof interrupt_regs "user_int_enable".
Definition R_user_int_enable_w1s : Z :=
  Eval cbv in offsetof interrupt_regs "user_int_enable_w1s".
Definition R_user_int_enable_w1c : Z :=
  Eval cbv in offsetof interrupt_regs "user_int_enable_w1c".
Definition R_channel_int_enable : Z :=
  Eval cbv in offsetof interrupt_regs "channel_int_enable".
Definition R_channel_int_enable_w1s : Z :=
  Eval cbv in offsetof interrupt_regs "channel_int_enable_w1s".
Definition R_channel_int_enable_w1c : Z :=
  Eval cbv in offsetof interrupt_regs "channel_int_enable_w1c".
Definition R_user_int_request : Z :=
  Eval cbv in offsetof interrupt_regs "user_int_request".
Definition R_channel_int_request : Z :=
  Eval cbv in offsetof interrupt_regs "channel_int_request".
Definition R_user_int_pending : Z :=
  Eval cbv in offsetof interrupt_regs "user_int_pending".
Definition R_channel_int_pending : Z :=
  Eval cbv in offsetof interrupt_regs "channel_int_pending".
Definition R_user_msi_vector : Z :=
  Eval cbv in offsetof interrupt_regs "user_msi_vector".
Definition R_channel_msi_vector : Z :=
  Eval cbv in offsetof interrupt_regs "channel_msi_vector".

Definition R_credit_mode_enable_w1s : Z :=
  Eval cbv in offsetof sgdma_common_regs "credit_mode_enable_w1s".
Definition R_credit_mode_enable_w1c : Z :=
  Eval cbv in offsetof sgdma_common_regs "credit_mode_enable_w1c".

(** * Constants *)

Definition XDMA_BAR_NUM : Z := 6.
Definition XDMA_BAR_SIZE : Z := 0x8000.
Definition NUM_POLLS_PER_SCHED : Z := 100.
Definition XDMA_CHANNEL_NUM_MAX : Z := 4.
Definition XDMA_ENG_IRQ_NUM : Z := 1.
Definition XDMA_MAX_ADJ_BLOCK_SIZE : Z := 0x40.
Definition XDMA_PAGE_SIZE : Z := 0x1000.
Definition RX_STATUS_EOP : Z := 1.
Definition XDMA_OFS_INT_CTRL : Z := 0x2000.
Definition XDMA_OFS_CONFIG : Z := 0x3000.
Definition XDMA_ENGINE_XFER_MAX_DESC : Z := 0x800.
Definition XDMA_ENGINE_CREDIT_XFER_MAX_DESC : Z := 0x3FF.
Definition XDMA_DESC_BLEN_BITS : Z := 28.
Definition XDMA_DESC_BLEN_MAX : Z :=
  Eval cbv in Z.shiftl 1 XDMA_DESC_BLEN_BITS - 1.

Definition XDMA_CTRL_RUN_STOP : Z := Eval cbv in Z.shiftl 1 0.
Definition XDMA_CTRL_IE_DESC_STOPPED : Z := Eval cbv in Z.shiftl 1 1.
Definition XDMA_CTRL_IE_DESC_COMPLETED : Z := Eval cbv in Z.shiftl 1 2.
Definition XDMA_CTRL_IE_DESC_ALIGN_MISMATCH : Z := Eval cbv in Z.shiftl 1 3.
Definition XDMA_CTRL_IE_MAGIC_STOPPED : Z := Eval cbv in Z.shiftl 1 4.
Definition XDMA_CTRL_IE_IDLE_STOPPED : Z := Eval cbv in Z.shiftl 1 6.
Definition XDMA_CTRL_IE_READ_ERROR : Z := Eval cbv in Z.shiftl 0x1F 9.
Definition XDMA_CTRL_IE_DESC_ERROR : Z := Eval cbv in Z.shiftl 0x1F 19.
Definition XDMA_CTRL_NON_INCR_ADDR : Z := Eval cbv in Z.shiftl 1 25.
Definition XDMA_CTRL_POLL_MODE_WB : Z := Eval cbv in Z.shiftl 1 26.

Definition XDMA_STAT_BUSY : Z := Eval cbv in Z.shiftl 1 0.
Definition XDMA_STAT_DESC_STOPPED : Z := Eval cbv in Z.shiftl 1 1.
Definition XDMA_STAT_DESC_COMPLETED : Z := Eval cbv in Z.shiftl 1 2.
Definition XDMA_STAT_ALIGN_MISMATCH : Z := Eval cbv in Z.shiftl 1 3.
Definition XDMA_STAT_MAGIC_STOPPED : Z := Eval cbv in Z.shiftl 1 4.
Definition XDMA_STAT_INVALID_LEN : Z := Eval cbv in Z.shiftl 1 5.
Definition XDMA_STAT_IDLE_STOPPED : Z := Eval cbv in Z.shiftl 1 6.
Definition XDMA_STAT_COMMON_ERR_MASK : Z :=
  Eval cbv in Z.lor XDMA_STAT_ALIGN_MISMATCH
                (Z.lor XDMA_STAT_MAGIC_STOPPED XDMA_STAT_INVALID_LEN).

Definition XDMA_STAT_DESC_UNSUPP_REQ : Z := Eval cbv in Z.shiftl 1 19.
Definition XDMA_STAT_DESC_COMPL_ABORT : Z := Eval cbv in Z.shiftl 1 20.
Definition XDMA_STAT_DESC_PARITY_ERR : Z := Eval cbv in Z.shiftl 1 21.
Definition XDMA_STAT_DESC_HEADER_EP : Z := Eval cbv in Z.shiftl 1 22.
Definition XDMA_STAT_DESC_UNEXP_COMPL : Z := Eval cbv in Z.shiftl 1 23.
Definition XDMA_STAT_DESC_ERR_MASK : Z :=
  Eval cbv in foldr Z.lor 0
    [XDMA_STAT_DESC_UNSUPP_REQ; XDMA_STAT_DESC_COMPL_ABORT;
     XDMA_STAT_DESC_PARITY_ERR; XDMA_STAT_DESC_HEADER_EP;
     XDMA_STAT_DESC_UNEXP_COMPL].

Definition XDMA_STAT_H2C_R_UNSUPP_REQ : Z := Eval cbv in Z.shiftl 1 9.
Definition XDMA_STAT_H2C_R_COMPL_ABORT : Z := Eval cbv in Z.shiftl 1 10.
Definition XDMA_STAT_H2C_R_PARITY_ERR : Z := Eval cbv in Z.shiftl 1 11.
Definition XDMA_STAT_H2C_R_HEADER_EP : Z := Eval cbv in Z.shiftl 1 12.
Definition XDMA_STAT_H2C_R_UNEXP_COMPL : Z := Eval cbv in Z.shiftl 1 13.
Definition XDMA_STAT_H2C_R_ERR_MASK : Z :=
  Eval cbv in foldr Z.lor 0
    [XDMA_STAT_H2C_R_UNSUPP_REQ; XDMA_STAT_H2C_R_COMPL_ABORT;
     XDMA_STAT_H2C_R_PARITY_ERR; XDMA_STAT_H2C_R_HEADER_EP;
     XDMA_STAT_H2C_R_UNEXP_COMPL].

Definition XDMA_STAT_H2C_W_DECODE_ERR : Z := Eval cbv in Z.shiftl 1 14.
Definition XDMA_STAT_H2C_W_SLAVE_ERR : Z := Eval cbv in Z.shiftl 1 15.
Definition XDMA_STAT_H2C_W_ERR_MASK : Z :=
  Eval cbv in Z.lor XDMA_STAT_H2C_W_DECODE_ERR XDMA_STAT_H2C_W_SLAVE_ERR.

Definition XDMA_STAT_C2H_R_DECODE_ERR : Z := Eval cbv in Z.shiftl 1 9.
Definition XDMA_STAT_C2H_R_SLAVE_ERR : Z := Eval cbv in Z.shiftl 1 10.
Definition XDMA_STAT_C2H_R_ERR_MASK : Z :=
  Eval cbv in Z.lor XDMA_STAT_C2H_R_DECODE_ERR XDMA_STAT_C2H_R_SLAVE_ERR.

Definition XDMA_STAT_H2C_ERR_MASK : Z :=
  Eval cbv in foldr Z.lor 0
    [XDMA_STAT_COMMON_ERR_MASK; XDMA_STAT_DESC_ERR_MASK;
     XDMA_STAT_H2C_R_ERR_MASK; XDMA_STAT_H2C_W_ERR_MASK].
Definition XDMA_STAT_C2H_ERR_MASK : Z :=
  Eval cbv in foldr Z.lor 0
    [XDMA_STAT_COMMON_ERR_MASK; XDMA_STAT_DESC_ERR_MASK;
     XDMA_STAT_C2H_R_ERR_MASK].

Definition XDMA_DESC_STOPPED : Z := Eval cbv in Z.shiftl 1 0.
Definition XDMA_DESC_COMPLETED : Z := Eval cbv in Z.shiftl 1 1.
Definition XDMA_DESC_EOP : Z := Eval cbv in Z.shiftl 1 4.

Definition XDMA_PERF_RUN : Z := Eval cbv in Z.shiftl 1 0.
Definition XDMA_PERF_CLEAR : Z := Eval cbv in Z.shiftl 1 1.
Definition XDMA_PERF_AUTO : Z := Eval cbv in Z.shiftl 1 2.

Definition MAGIC_ENGINE : Z := 0xEEEEEEEE.
Definition MAGIC_DEVICE : Z := 0xDDDDDDDD.
Definition XDMA_ID_H2C : Z := 0x1fc0.
Definition XDMA_ID_C2H : Z := 0x1fc1.
Definition LS_BYTE_MASK : Z := 0x000000FF.
Definition BLOCK_ID_MASK : Z := 0xFFF00000.
Definition BLOCK_ID_HEAD : Z := 0x1FC00000.
Definition IRQ_BLOCK_ID : Z := 0x1fc20000.
Definition CONFIG_BLOCK_ID : Z := 0x1fc30000.
Definition WB_COUNT_MASK : Z := 0x00ffffff.
Definition WB_ERR_MASK : Z := Eval cbv in Z.shiftl 1 31.
Definition POLL_TIMEOUT_SECONDS : Z := 10.
Definition MAX_USER_IRQ : Z := 16.
Definition DESC_MAGIC : Z := 0xAD4B0000.
Definition H2C_CHANNEL_OFFSET : Z := 0x1000.
Definition SGDMA_OFFSET_FROM_CHANNEL : Z := 0x4000.
Definition CHANNEL_SPACING : Z := 0x100.
Definition TARGET_SPACING : Z := 0x1000.
Definition BYPASS_MODE_SPACING : Z := 0x0100.
Definition XDEV_FLAG_OFFLINE : Z := 0x1.

Definition ENGINE_SHUTDOWN_NONE : Z := 0.
Definition ENGINE_SHUTDOWN_REQUEST : Z := 1.
Definition ENGINE_SHUTDOWN_IDLE : Z := 2.

(** Error numbers of the kernel. *)
Definition EIO : Z := 5.
Definition ENOMEM : Z := 12.
Definition EFAULT : Z := 14.
Definition EBUSY : Z := 16.
Definition EINVAL : Z := 22.
Definition ERESTARTSYS : Z := 512.
Definition EIOCBQUEUED : Z := 529.

Definition PCI_DMA_H (addr : Z) : Z := Z.shiftr (Z.shiftr addr 16) 16.
Definition PCI_DMA_L (addr : Z) : Z := Z.land addr 0xffffffff.

Inductive dma_data_direction := DMA_TO_DEVICE | DMA_FROM_DEVICE.

Inductive transfer_state :=
| TRANSFER_STATE_NEW
| TRANSFER_STATE_SUBMITTED
| TRANSFER_STATE_COMPLETED
| TRANSFER_STATE_FAILED
| TRANSFER_STATE_ABORTED.

#[export] Instance dir_eq_dec : EqDecision dma_data_direction.
Proof. solve_decision. Defined.
#[export] Instance transfer_state_eq_dec : EqDecision transfer_state.
Proof. solve_decision. Defined.

Definition is_to_device (d : dma_data_direction) : bool :=
  match d with DMA_TO_DEVICE => true | DMA_FROM_DEVICE => false end.
Definition is_from_device (d : dma_data_direction) : bool :=
  negb (is_to_device d).

(** * Events *)

Inductive event : Type :=
| MmioRead (addr val : Z)            (* ioread32 *)
| MmioWrite (addr val : Z)           (* iowrite32 *)
| WakeTransfer (xfer : nat)          (* xlx_wake_up(&transfer->wq) *)
| WakeShutdown                       (* xlx_wake_up(&engine->shutdown_wq) *)
| IoDone (cb err : Z)                (* cb->io_done(cb, err) *)
| ScheduleWork (d : dma_data_direction) (channel : Z)
                                     (* schedule_work(&engine->work) *)
| WbRead (val : Z)                   (* read of the writeback location *)
| WbClear                            (* zero stored to it *)
| Call (f : string) (args : list Z) (rv : Z).

(** The device and the kernel: the answer to a register read, the value of the
    writeback location in memory and the result of a kernel call, after the
    given past events (newest first), and what the compiler and the architecture
    fix: the size of a [struct xdma_request_cb] and the bounds of the [vmalloc]
    area. *)
Class Platform := {
  mmio_answer : list event -> Z -> Z;
  wb_answer : list event -> Z;
  kernel_answer : list event -> string -> list Z -> Z;
  sizeof_xdma_request_cb : Z;
  VMALLOC_START : Z;
  VMALLOC_END : Z;
}.

(** The module parameters of [libxdma.c]. *)
Class ModParams := {
  poll_mode : bool;
  interrupt_mode : Z;
  enable_st_c2h_credit : bool;
  desc_blen_max : Z;
}.

(** States that carry a trace. *)
Class Traced (S : Type) := {
  trace_of : S -> list event;
  with_trace : list event -> S -> S;
}.

Section access.
Context `{Platform} {S : Type} `{Traced S}.

Definition emit (e : event) : M S unit :=
  modify (fun s => with_trace (e :: trace_of s) s).

Definition read_register (addr : Z) : M S Z :=
  let* t := gets trace_of in
  let v := u32 (mmio_answer t addr) in
  do* emit (MmioRead addr v) in
  ret v.

Definition write_register (v addr : Z) : M S unit :=
  emit (MmioWrite addr (u32 v)).

Definition read_writeback : M S Z :=
  let* t := gets trace_of in
  let v := u32 (wb_answer t) in
  do* emit (WbRead v) in
  ret v.

Definition kcall (f : string) (args : list Z) : M S Z :=
  let* t := gets trace_of in
  let rv := kernel_answer t f args in
  do* emit (Call f args rv) in
  ret rv.
End access.
