(* ===== verification/Desc.v ===== *)
(** DMA descriptors ([src/src/libxdma.c], [transfer_desc_init] to
    [xdma_desc_set], and [xdma_get_next_adj]): the 32-byte descriptor records in
    root-complex memory, the operations that fill and link them, and what the
    SGDMA hardware reads when it follows the links.

    The values are those of a little-endian host, where [cpu_to_le32] and
    [le32_to_cpu] do nothing. *)
From S2P Require Import Prelude Hw.

(** * Data *)

Record xdma_desc := {
  d_control : Z;
  d_bytes : Z;
  d_src_addr_lo : Z;
  d_src_addr_hi : Z;
  d_dst_addr_lo : Z;
  d_dst_addr_hi : Z;
  d_next_lo : Z;
  d_next_hi : Z;
}.

#[export] Instance eta_desc : Eta xdma_desc := fun r =>
  Build_xdma_desc (d_control r) (d_bytes r) (d_src_addr_lo r)
    (d_src_addr_hi r) (d_dst_addr_lo r) (d_dst_addr_hi r) (d_next_lo r)
    (d_next_hi r).

(** Bytes of [struct xdma_desc] and [struct xdma_result]. *)
Definition sizeof_xdma_desc : Z := 32.
Definition sizeof_xdma_result : Z := 32.

Record xdma_result := {
  r_status : Z;
  r_length : Z;
}.

Definition zero_desc : xdma_desc := Build_xdma_desc 0 0 0 0 0 0 0 0.
Definition zero_result : xdma_result := Build_xdma_result 0 0.

(** * Operations *)

(** Number of descriptors adjacent to the next one. *)
Definition xdma_get_next_adj (remaining next_lo : Z) : Z :=
  if remaining <=? 1 then 0
  else
    let next_index :=
      Z.shiftr (Z.land next_lo (XDMA_PAGE_SIZE - 1)) 5
        mod XDMA_MAX_ADJ_BLOCK_SIZE in
    Z.min (u32 (XDMA_MAX_ADJ_BLOCK_SIZE - next_index - 1))
          (u32 (remaining - 1)).

Definition desc_link (next : Z) (d : xdma_desc) : xdma_desc :=
  d <| d_next_lo := PCI_DMA_L next |>
    <| d_next_hi := PCI_DMA_H next |>
    <| d_bytes := 0 |>
    <| d_control := DESC_MAGIC |>.

(** [desc_virt] is the index of the first descriptor in the engine's
    descriptor array [mem], [desc_bus] its bus address. *)
Definition desc_init_step (desc_virt i : Z) (st : Z * list xdma_desc)
    : Z * list xdma_desc :=
  let '(bus, mem) := st in
  let bus := u64 (bus + sizeof_xdma_desc) in
  (bus, zalter (desc_link bus) (desc_virt + i) mem).

Definition transfer_desc_init (desc_virt desc_bus count : Z)
    (mem : list xdma_desc) : list xdma_desc :=
  let '(_, mem) :=
    for_upto (Z.to_nat (count - 1)) 0 (desc_init_step desc_virt)
      (desc_bus, mem) in
  let i := Z.max 0 (count - 1) in
  zalter (desc_link 0) (desc_virt + i) mem.

Definition xdma_desc_adjacent (next_adjacent : Z) (desc : xdma_desc)
    : xdma_desc :=
  let control := Z.land (d_control desc) 0x0000f0ff in
  let control :=
    u32 (Z.lor control (Z.lor 0xAD4B0000 (u32 (Z.shiftl next_adjacent 8)))) in
  desc <| d_control := control |>.

(** The result code and the descriptor after the call. *)
Definition xdma_desc_control_set (control_field : Z) (first : xdma_desc)
    : Z * xdma_desc :=
  let control := andn32 (d_control first) LS_BYTE_MASK in
  if negb (andn32 control_field LS_BYTE_MASK =? 0) then (- EINVAL, first)
  else (0, first <| d_control := Z.lor control control_field |>).

Definition xdma_desc_done (desc_virt count : Z) (mem : list xdma_desc)
    : list xdma_desc :=
  for_upto (Z.to_nat count) 0
    (fun i => zset zero_desc (desc_virt + i)) mem.

Definition xdma_desc_set (rc_bus_addr ep_addr len : Z)
    (dir : dma_data_direction) (desc : xdma_desc) : xdma_desc :=
  let desc := desc <| d_bytes := u32 len |> in
  match dir with
  | DMA_TO_DEVICE =>
      desc <| d_src_addr_lo := PCI_DMA_L rc_bus_addr |>
           <| d_src_addr_hi := PCI_DMA_H rc_bus_addr |>
           <| d_dst_addr_lo := PCI_DMA_L ep_addr |>
           <| d_dst_addr_hi := PCI_DMA_H ep_addr |>
  | DMA_FROM_DEVICE =>
      desc <| d_src_addr_lo := PCI_DMA_L ep_addr |>
           <| d_src_addr_hi := PCI_DMA_H ep_addr |>
           <| d_dst_addr_lo := PCI_DMA_L rc_bus_addr |>
           <| d_dst_addr_hi := PCI_DMA_H rc_bus_addr |>
  end.

(** * What the hardware reads *)

Definition desc_next (d : xdma_desc) : Z :=
  Z.lor (Z.shiftl (d_next_hi d) 32) (d_next_lo d).
Definition desc_src (d : xdma_desc) : Z :=
  Z.lor (Z.shiftl (d_src_addr_hi d) 32) (d_src_addr_lo d).
Definition desc_dst (d : xdma_desc) : Z :=
  Z.lor (Z.shiftl (d_dst_addr_hi d) 32) (d_dst_addr_lo d).
Definition desc_magic (d : xdma_desc) : Z := Z.shiftr (d_control d) 16.
Definition desc_adj (d : xdma_desc) : Z :=
  Z.land (Z.shiftr (d_control d) 8) 0x3f.
Definition desc_ctl (d : xdma_desc) : Z := Z.land (d_control d) 0xff.

(** The descriptors met from bus address [addr] on, in memory that holds the
    array [mem] at bus address [base]; [None] when an address is outside the
    array or not on a descriptor boundary, when a descriptor lacks the magic
    number, or when more than [fuel] descriptors are chained. *)
Fixpoint desc_walk (fuel : nat) (base : Z) (mem : list xdma_desc) (addr : Z)
    : option (list xdma_desc) :=
  match fuel with
  | O => None
  | S fuel' =>
      if negb ((addr - base) mod sizeof_xdma_desc =? 0) then None
      else
        d ← zlookup mem ((addr - base) / sizeof_xdma_desc);
        if negb (desc_magic d =? 0xAD4B) then None
        else if desc_next d =? 0 then Some [d]
        else ds ← desc_walk fuel' base mem (desc_next d); Some (d :: ds)
  end.

(** * Addresses and descriptor fields *)

Lemma dma_split a :
  0 <= a < 2 ^ 64 ->
  Z.lor (Z.shiftl (PCI_DMA_H a) 32) (PCI_DMA_L a) = a.
Proof.
  intros Ha. unfold PCI_DMA_H, PCI_DMA_L.
  rewrite Z.shiftr_shiftr by lia.
  change 0xffffffff with (Z.ones 32). rewrite Z.land_ones by lia.
  rewrite lor_shiftl_add by (try apply Z.mod_pos_bound; lia).
  rewrite Z.shiftr_div_pow2 by lia. change (16 + 16) with 32. dlia.
Qed.

Lemma dma_halves_range a :
  0 <= a < 2 ^ 64 -> 0 <= PCI_DMA_H a < 2 ^ 32 /\ 0 <= PCI_DMA_L a < 2 ^ 32.
Proof.
  intros Ha. unfold PCI_DMA_H, PCI_DMA_L.
  rewrite Z.shiftr_shiftr by lia. change (16 + 16) with 32.
  change 0xffffffff with (Z.ones 32). rewrite Z.land_ones by lia.
  rewrite Z.shiftr_div_pow2 by lia.
  split; [dlia|apply Z.mod_pos_bound; lia].
Qed.

Lemma desc_next_link a d : 0 <= a < 2 ^ 64 -> desc_next (desc_link a d) = a.
Proof. intros Ha. unfold desc_next, desc_link. cbn. by apply dma_split. Qed.

Lemma desc_magic_link a d : desc_magic (desc_link a d) = 0xAD4B.
Proof. reflexivity. Qed.

Lemma next_adj_range remaining next_lo :
  0 <= remaining < 2 ^ 32 ->
  0 <= xdma_get_next_adj remaining next_lo < 64 /\
  xdma_get_next_adj remaining next_lo <= Z.max 0 (remaining - 1).
Proof.
  intros Hr. unfold xdma_get_next_adj.
  destruct (Z.leb_spec remaining 1); [lia|].
  set (i := _ mod XDMA_MAX_ADJ_BLOCK_SIZE).
  assert (0 <= i < 64) by (apply Z.mod_pos_bound; reflexivity).
  unfold XDMA_MAX_ADJ_BLOCK_SIZE. rewrite !u32_small by lia. lia.
Qed.

(** A control field is set in a descriptor that has only the magic number. *)
Lemma control_set_fresh c d :
  d_control d = DESC_MAGIC -> 0 <= c < 256 ->
  snd (xdma_desc_control_set c d) = d <| d_control := Z.lor DESC_MAGIC c |>.
Proof.
  intros Hd Hc. unfold xdma_desc_control_set. rewrite Hd.
  assert (andn32 c LS_BYTE_MASK = 0) as ->; [|done].
  unfold andn32. change (Z.lxor (u32 LS_BYTE_MASK) (Z.ones 32)) with 0xffffff00.
  apply Z.bits_inj'. intros i Hi. rewrite Z.land_spec, Z.bits_0.
  destruct (Z.lt_ge_cases i 8) as [Hlt|Hge].
  - assert (Hz : Z.testbit 0xffffff00 i = false); [|by rewrite Hz, andb_false_r].
    assert (Hin : i ∈ seqZ 0 8) by (apply elem_of_seqZ; lia). clear -Hin.
    revert i Hin. change (forall i, i ∈ seqZ 0 8 -> Z.testbit 0xffffff00 i = false).
    apply Forall_forall. by vm_compute; repeat constructor.
  - by rewrite (testbit_small c 8) by lia.
Qed.

(** The closed form of the linking loop. *)
Lemma transfer_desc_init_loop dv bus0 n i mem :
  for_upto n i (desc_init_step dv) (u64 (bus0 + 32 * i), mem) =
  (u64 (bus0 + 32 * (i + Z.of_nat n)),
   for_upto n i (fun i =>
     zalter (desc_link (u64 (bus0 + 32 * (i + 1)))) (dv + i)) mem).
Proof.
  revert i mem. induction n as [|n IH]; intros i mem; cbn [for_upto].
  - do 3 f_equal. lia.
  - unfold desc_init_step at 2. unfold sizeof_xdma_desc. rewrite u64_add_l.
    replace (bus0 + 32 * i + 32) with (bus0 + 32 * (i + 1)) by lia.
    cbv zeta. rewrite IH. do 3 f_equal. lia.
Qed.

Lemma zlookup_transfer_desc_init dv bus count mem j :
  1 <= count ->
  0 <= bus < 2 ^ 64 ->
  zlookup (transfer_desc_init dv bus count mem) j =
  if decide (dv <= j < dv + count)
  then desc_link (if decide (j = dv + count - 1) then 0
                  else u64 (bus + 32 * (j - dv + 1))) <$> zlookup mem j
  else zlookup mem j.
Proof.
  intros Hc Hb. unfold transfer_desc_init.
  pose proof (transfer_desc_init_loop dv bus (Z.to_nat (count - 1)) 0 mem) as E.
  rewrite Z.mul_0_r, Z.add_0_r, u64_small in E by lia.
  rewrite E; clear E.
  rewrite zlookup_zalter, Z.max_r by lia.
  rewrite (zlookup_for_alter _ _ (fun i => desc_link (u64 (bus + 32 * (i + 1))))).
  repeat case_decide; try lia; done.
Qed.

Lemma zlength_transfer_desc_init dv bus count mem :
  zlength (transfer_desc_init dv bus count mem) = zlength mem.
Proof.
  unfold transfer_desc_init.
  pose proof (for_upto_inv (Z.to_nat (count - 1)) 0
    (desc_init_step dv) (fun _ '(_, m) => zlength m = zlength mem) (bus, mem)) as H.
  destruct (for_upto _ _ _ _) as [b' m']. rewrite zlength_zalter.
  apply H; [done|]. intros j [b'' m''] _ Hm. cbn. by rewrite zlength_zalter.
Qed.
#[export] Hint Rewrite zlength_transfer_desc_init : ints.

(** Fields of the control word. *)
Lemma control_lor_fields c adj :
  0 <= c < 2 ^ 32 -> 0 <= adj < 64 ->
  u32 (Z.lor (Z.land c 0xf0ff)
         (Z.lor 0xAD4B0000 (u32 (Z.shiftl adj 8)))) =
  Z.lor (Z.land c 0xf0ff) (Z.lor 0xAD4B0000 (Z.shiftl adj 8)).
Proof.
  intros Hc Ha.
  assert (0 <= Z.shiftl adj 8 < 2 ^ 32)
    by (rewrite Z.shiftl_mul_pow2; lia).
  rewrite (u32_small (Z.shiftl adj 8)) by done.
  apply u32_small. repeat apply lor_range; try lia.
  pose proof (land_range_r c 0xf0ff). lia.
Qed.

Lemma desc_adjacent_control adj d :
  0 <= d_control d < 2 ^ 32 -> 0 <= adj < 64 ->
  xdma_desc_adjacent adj d =
  d <| d_control := Z.lor (Z.land (d_control d) 0xf0ff)
                      (Z.lor 0xAD4B0000 (Z.shiftl adj 8)) |>.
Proof.
  intros Hc Ha. unfold xdma_desc_adjacent. cbv zeta.
  by rewrite control_lor_fields.
Qed.

Lemma control_magic c adj :
  0 <= adj < 64 ->
  Z.shiftr (Z.lor (Z.land c 0xf0ff) (Z.lor 0xAD4B0000 (Z.shiftl adj 8))) 16
  = 0xAD4B.
Proof.
  intros Ha. rewrite !Z.shiftr_lor, Z.shiftr_land by lia.
  change (Z.shiftr 0xf0ff 16) with 0. rewrite Z.land_0_r, Z.lor_0_l.
  rewrite (Z.shiftr_div_pow2 (Z.shiftl adj 8)), Z.shiftl_mul_pow2 by lia.
  rewrite Z.div_small by lia. reflexivity.
Qed.

Lemma control_ctl c adj :
  Z.land (Z.lor (Z.land c 0xf0ff) (Z.lor 0xAD4B0000 (Z.shiftl adj 8))) 0xff
  = Z.land c 0xff.
Proof.
  rewrite !Z.land_lor_distr_l, <- Z.land_assoc.
  rewrite (land_shiftl_low adj 0xff 8) by lia.
  change (Z.land 0xf0ff 0xff) with 0xff.
  change (Z.land 0xAD4B0000 0xff) with 0. by rewrite !Z.lor_0_r.
Qed.

Lemma control_adj c adj :
  0 <= adj < 64 -> Z.land c 0x3000 = 0 ->
  Z.land (Z.shiftr (Z.lor (Z.land c 0xf0ff)
                     (Z.lor 0xAD4B0000 (Z.shiftl adj 8))) 8) 0x3f = adj.
Proof.
  intros Ha Hc. rewrite !Z.shiftr_lor, Z.shiftr_land, !Z.land_lor_distr_l by lia.
  rewrite <- Z.land_assoc. change (Z.land (Z.shiftr 0xf0ff 8) 0x3f)
    with (Z.shiftr 0x3000 8).
  rewrite <- Z.shiftr_land, Hc by lia.
  change (Z.land (Z.shiftr 0xAD4B0000 8) 0x3f) with 0.
  rewrite Z.shiftr_shiftl_l, Z.shiftl_0_r by lia.
  change (Z.shiftr 0 8) with 0. rewrite !Z.lor_0_l.
  change 0x3f with (Z.ones 6). by apply land_small.
Qed.

(** * The descriptor chain as the hardware walks it *)

(** [linked mem dv bus n]: the [n] descriptors of [mem] from index [dv] on
    carry the magic number and are chained by their bus addresses, the first
    one at [bus]. *)
Definition linked (mem : list xdma_desc) (dv bus n : Z) : Prop :=
  forall k, 0 <= k < n -> exists d,
    zlookup mem (dv + k) = Some d /\ desc_magic d = 0xAD4B /\
    desc_next d = if decide (k = n - 1) then 0 else bus + 32 * (k + 1).

Definition slice {A} (l : list A) (i n : Z) : list A :=
  take (Z.to_nat n) (drop (Z.to_nat i) l).

Lemma slice_cons {A} (l : list A) i n x :
  0 <= i -> 0 < n -> zlookup l i = Some x ->
  slice l i n = x :: slice l (i + 1) (n - 1).
Proof.
  intros Hi Hn Hx. unfold slice, zlookup in *.
  destruct (Z.ltb_spec i 0); [lia|].
  rewrite (drop_S l x (Z.to_nat i)) by done.
  replace (Z.to_nat n) with (S (Z.to_nat (n - 1))) by lia.
  replace (Z.to_nat (i + 1)) with (S (Z.to_nat i)) by lia. done.
Qed.

Lemma desc_walk_linked fuel mem base dv bus n i :
  linked mem dv bus n -> bus = base + 32 * dv -> 0 <= dv -> 0 < bus ->
  0 <= i < n -> n - i <= Z.of_nat fuel ->
  desc_walk fuel base mem (bus + 32 * i) = Some (slice mem (dv + i) (n - i)).
Proof.
  intros Hl Hb Hdv Hbus. revert i.
  induction fuel as [|fuel IH]; intros i Hi Hf; [lia|].
  destruct (Hl i Hi) as (d & Hd & Hm & Hn).
  cbn [desc_walk]. unfold sizeof_xdma_desc.
  replace (bus + 32 * i - base) with ((dv + i) * 32) by lia.
  rewrite Z.mod_mul, Z.div_mul by lia. cbn [negb Z.eqb].
  rewrite Hd. cbn. rewrite Hm. cbn. rewrite Hn.
  rewrite (slice_cons mem (dv + i) (n - i) d) by (done || lia).
  destruct (decide (i = n - 1)) as [->|].
  - cbn. replace (n - (n - 1) - 1) with 0 by lia. done.
  - destruct (Z.eqb_spec (bus + 32 * (i + 1)) 0); [lia|].
    rewrite IH by lia. cbn. do 3 f_equal; lia.
Qed.
