(* ===== verification/Types.v ===== *)
(** The driver's records ([src/src/libxdma.h], [struct xdma_transfer] to
    [struct xdma_dev]) and the state of the code that works on one engine.

    Pointers become identifiers: a transfer is a key of the transfer store, an
    engine's descriptor memory is a list and [desc_virt] an index into it.
    Fields that no code of this repository reads or writes ([version],
    [device_open], [max_extra_adj], [perf_buf_virt], the wait queues and the
    locks) are left out; waking a wait queue is an event of the trace. *)
From S2P Require Import Prelude Hw Desc.

Record sw_desc := {
  sd_addr : Z;
  sd_len : Z;
}.

(** One entry of a mapped scatter-gather list: its bus address and length. *)
Record scatterlist := {
  sg_dma_address : Z;
  sg_dma_len : Z;
}.

(** [struct sg_table]: [nents] of the entries are mapped. *)
Record sg_table := {
  sgl : list scatterlist;
  nents : Z;
  orig_nents : Z;
}.

#[export] Instance eta_sg_table : Eta sg_table := fun r =>
  Build_sg_table (sgl r) (nents r) (orig_nents r).

Definition mapped (sgt : sg_table) : list scatterlist :=
  take (Z.to_nat (nents sgt)) (sgl sgt).

Definition XFER_FLAG_NEED_UNMAP : Z := 0x1.
Definition XFER_FLAG_ST_C2H_EOP_RCVED : Z := 0x2.

Record xdma_transfer := {
  x_desc_virt : Z;
  x_res_virt : Z;
  x_res_bus : Z;
  x_desc_bus : Z;
  x_desc_adjacent : Z;
  x_desc_num : Z;
  x_desc_index : Z;
  x_desc_cmpl : Z;
  x_desc_cmpl_th : Z;
  x_dir : dma_data_direction;
  x_state : transfer_state;
  x_flags : Z;
  x_cyclic : bool;
  x_last_in_request : bool;
  x_len : Z;
  x_sgt : bool;
  x_cb : option Z;
}.

#[export] Instance eta_transfer : Eta xdma_transfer := fun r =>
  Build_xdma_transfer (x_desc_virt r) (x_res_virt r) (x_res_bus r)
    (x_desc_bus r) (x_desc_adjacent r) (x_desc_num r) (x_desc_index r)
    (x_desc_cmpl r) (x_desc_cmpl_th r) (x_dir r) (x_state r) (x_flags r)
    (x_cyclic r) (x_last_in_request r) (x_len r) (x_sgt r) (x_cb r).

(** [memset(xfer, 0, sizeof)]; direction 0 of the kernel's enumeration is
    overwritten before it is read. *)
Definition zero_transfer : xdma_transfer :=
  Build_xdma_transfer 0 0 0 0 0 0 0 0 0 DMA_TO_DEVICE TRANSFER_STATE_NEW 0
    false false 0 false None.

(** The request control block.  [tfer] holds the identifiers of its two
    transfers. *)
Record xdma_request_cb := {
  rq_ptr : Z;                         (* its own address *)
  rq_ep_addr : Z;
  rq_aperture : Z;
  rq_total_len : Z;
  rq_offset : Z;
  rq_sg_idx : Z;
  rq_sg_offset : Z;
  rq_tfer : list nat;
  rq_cb : option Z;
  rq_sw_desc_idx : Z;
  rq_sw_desc_cnt : Z;
  rq_sdesc : list sw_desc;
}.

#[export] Instance eta_request : Eta xdma_request_cb := fun r =>
  Build_xdma_request_cb (rq_ptr r) (rq_ep_addr r) (rq_aperture r) (rq_total_len r)
    (rq_offset r) (rq_sg_idx r) (rq_sg_offset r) (rq_tfer r) (rq_cb r)
    (rq_sw_desc_idx r) (rq_sw_desc_cnt r) (rq_sdesc r).

Record xdma_engine := {
  e_magic : Z;
  e_name : string;
  e_regs : Z;
  e_sgdma_regs : Z;
  e_bypass_offset : Z;
  e_shutdown : Z;
  e_dir : dma_data_direction;
  e_addr_align : Z;
  e_len_granularity : Z;
  e_addr_bits : Z;
  e_channel : Z;
  e_streaming : bool;
  e_running : bool;
  e_non_incr_addr : bool;
  e_eop_flush : bool;
  e_desc_dequeued : Z;
  e_desc_max : Z;
  e_status : Z;
  e_interrupt_enable_mask_value : Z;
  e_transfer_list : list nat;
  e_cyclic_result : option (list xdma_result);
  e_cyclic_result_bus : Z;
  e_poll_mode_addr_virt : bool;       (* the writeback location is allocated *)
  e_poll_mode_bus : Z;
  e_prev_cpu : Z;
  e_msix_irq_line : Z;
  e_irq_bitmask : Z;
  e_desc : option (list xdma_desc);
  e_desc_bus : Z;
  e_desc_idx : Z;
  e_desc_used : Z;
  e_xdma_perf : bool;
  e_cmplthp : option nat;
  e_intr_work_cpu : Z;
}.

#[export] Instance eta_engine : Eta xdma_engine := fun r =>
  Build_xdma_engine (e_magic r) (e_name r) (e_regs r) (e_sgdma_regs r)
    (e_bypass_offset r) (e_shutdown r) (e_dir r) (e_addr_align r)
    (e_len_granularity r) (e_addr_bits r) (e_channel r) (e_streaming r)
    (e_running r) (e_non_incr_addr r) (e_eop_flush r) (e_desc_dequeued r)
    (e_desc_max r) (e_status r) (e_interrupt_enable_mask_value r)
    (e_transfer_list r) (e_cyclic_result r) (e_cyclic_result_bus r)
    (e_poll_mode_addr_virt r) (e_poll_mode_bus r) (e_prev_cpu r)
    (e_msix_irq_line r) (e_irq_bitmask r) (e_desc r) (e_desc_bus r)
    (e_desc_idx r) (e_desc_used r) (e_xdma_perf r) (e_cmplthp r)
    (e_intr_work_cpu r).

Definition zero_engine : xdma_engine :=
  Build_xdma_engine 0 "" 0 0 0 0 DMA_TO_DEVICE 0 0 0 0 false false false false
    0 0 0 0 [] None 0 false 0 0 0 0 None 0 0 0 false None 0.

(** The device of an engine, without its engines.  A handler of a user
    interrupt is identified by a number. *)
Record xdma_user_irq := {
  u_user_idx : Z;
  u_events_irq : Z;
  u_handler : option Z;
  u_dev : Z;
}.

#[export] Instance eta_user_irq : Eta xdma_user_irq := fun r =>
  Build_xdma_user_irq (u_user_idx r) (u_events_irq r) (u_handler r) (u_dev r).

Record xdma_dev := {
  xd_magic : Z;
  xd_pdev : Z;
  xd_idx : Z;
  xd_flags : Z;
  xd_bar : list (option Z);
  xd_user_bar_idx : Z;
  xd_config_bar_idx : Z;
  xd_bypass_bar_idx : Z;
  xd_regions_in_use : bool;
  xd_got_regions : bool;
  xd_user_max : Z;
  xd_c2h_channel_max : Z;
  xd_h2c_channel_max : Z;
  xd_irq_count : Z;
  xd_irq_line : Z;
  xd_msi_enabled : bool;
  xd_msix_enabled : bool;
  xd_user_irq : list xdma_user_irq;
  xd_mask_irq_user : Z;
  xd_engines_num : Z;
  xd_mask_irq_h2c : Z;
  xd_mask_irq_c2h : Z;
}.

#[export] Instance eta_dev : Eta xdma_dev := fun r =>
  Build_xdma_dev (xd_magic r) (xd_pdev r) (xd_idx r) (xd_flags r) (xd_bar r)
    (xd_user_bar_idx r) (xd_config_bar_idx r) (xd_bypass_bar_idx r)
    (xd_regions_in_use r) (xd_got_regions r) (xd_user_max r)
    (xd_c2h_channel_max r) (xd_h2c_channel_max r) (xd_irq_count r)
    (xd_irq_line r) (xd_msi_enabled r) (xd_msix_enabled r) (xd_user_irq r)
    (xd_mask_irq_user r) (xd_engines_num r) (xd_mask_irq_h2c r)
    (xd_mask_irq_c2h r).

(** [xdev->bar[idx]] as a base address; 0 for a BAR that is not mapped. *)
Definition bar_base (d : xdma_dev) (idx : Z) : Z :=
  default 0 (mjoin (zlookup (xd_bar d) idx)).
Definition config_base (d : xdma_dev) : Z := bar_base d (xd_config_bar_idx d).

(** The state of the code that works on one engine: the engine, its device,
    the transfers in memory and the trace. *)
Record est := {
  st_eng : xdma_engine;
  st_dev : xdma_dev;
  st_xfers : gmap nat xdma_transfer;
  st_trace : list event;
}.

#[export] Instance eta_est : Eta est := fun r =>
  Build_est (st_eng r) (st_dev r) (st_xfers r) (st_trace r).

#[export] Instance traced_est : Traced est := {|
  trace_of := st_trace;
  with_trace t s := s <| st_trace := t |>;
|}.

(** [xdma_device_flag_check] and its siblings, each one critical section of
    [xdev->lock]. *)
Definition xdma_device_flag_check (f : Z) (d : xdma_dev) : bool :=
  has_bits (xd_flags d) f.
Definition xdma_device_flag_set (f : Z) (d : xdma_dev) : xdma_dev :=
  d <| xd_flags ::= fun v => Z.lor v f |>.
Definition xdma_device_flag_clear (f : Z) (d : xdma_dev) : xdma_dev :=
  d <| xd_flags ::= fun v => andn32 v f |>.

(** [xdma_device_flag_test_n_set] with the lock it takes: [None] when the
    function releases a lock it does not hold. *)
Definition spin_unlock (locked : bool) : option bool :=
  if locked then Some false else None.
Definition xdma_device_flag_test_n_set (f : Z) (d : xdma_dev)
    : option (Z * xdma_dev) :=
  let locked := true in
  if has_bits (xd_flags d) f then
    locked ← spin_unlock locked;
    _ ← spin_unlock locked;
    Some (1, d)
  else
    _ ← spin_unlock locked;
    Some (0, xdma_device_flag_set f d).
