(* ===== verification/Request.v ===== *)
(** Building a request ([src/src/libxdma.c], [xdma_request_alloc] to
    [xdma_init_request]): the mapped scatter-gather list is cut into software
    descriptors of at most [desc_blen_max] bytes. *)
From S2P Require Import Prelude Hw Desc Types.

(** * Operations *)

Definition sizeof_sw_desc : Z := 16.

Section request.
Context `{Platform} `{ModParams} {S : Type} `{Traced S}.

(** The address of the request, or [None]. *)
Definition xdma_request_alloc (sdesc_nr : Z) : M S (option Z) :=
  let size := u32 (sizeof_xdma_request_cb + sdesc_nr * sizeof_sw_desc) in
  let* req := kcall "kzalloc" [size] in
  let* req := (if req =? 0 then kcall "vmalloc" [size] else ret req) in
  ret (if req =? 0 then None else Some req).

Definition xdma_request_free (req : Z) : M S unit :=
  let* _ :=
    (if (VMALLOC_START <=? req) && (req <? VMALLOC_END)
     then kcall "vfree" [req] else kcall "kfree" [req]) in
  ret tt.

(** First pass: software descriptors to allocate beyond one per entry. *)
Definition request_extra (sgs : list scatterlist) : Z :=
  fold_left (fun extra sg =>
    let len := sg_dma_len sg in
    if desc_blen_max <? len
    then i32 (extra + u32 (len + desc_blen_max - 1) / desc_blen_max)
    else extra) sgs 0.

(** Second pass, one entry: the inner [while (tlen)]. *)
Fixpoint sg_split (fuel : nat) (addr tlen : Z) : option (list sw_desc) :=
  match fuel with
  | O => None
  | Datatypes.S fuel' =>
      if tlen =? 0 then Some []
      else if desc_blen_max <? tlen then
        ds ← sg_split fuel' (u64 (addr + desc_blen_max))
               (u32 (tlen - desc_blen_max));
        Some (Build_sw_desc addr desc_blen_max :: ds)
      else Some [Build_sw_desc addr tlen]
  end.

Definition sg_fuel (tlen : Z) : nat := Z.to_nat (tlen / desc_blen_max + 2).

(** Second pass: the entries written to [req->sdesc], in order. *)
Fixpoint request_sdescs (sgs : list scatterlist) : option (list sw_desc) :=
  match sgs with
  | [] => Some []
  | sg :: sgs' =>
      ds ← sg_split (sg_fuel (sg_dma_len sg)) (sg_dma_address sg)
             (sg_dma_len sg);
      ds' ← request_sdescs sgs';
      Some (ds ++ ds')
  end.

Definition request_total_len (sgs : list scatterlist) : Z :=
  fold_left (fun t sg => u32 (t + sg_dma_len sg)) sgs 0.

Definition request_max (sgt : sg_table) : Z :=
  i32 (nents sgt + request_extra (mapped sgt)).

(** [None] in the outer option: the splitting loop does not end
    ([desc_blen_max = 0]).  [tfer] are the two transfers of the request. *)
Definition xdma_init_request (sgt : sg_table) (ep_addr : Z) (tfer : list nat)
    : M S (option (option xdma_request_cb)) :=
  let max := request_max sgt in
  let* req := xdma_request_alloc (u32 max) in
  match req with
  | None => ret (Some None)
  | Some p =>
      match request_sdescs (mapped sgt) with
      | None => ret None
      | Some sdesc =>
          let j := zlength sdesc in
          if max <? j then
            do* xdma_request_free p in
            ret (Some None)
          else
            ret (Some (Some {|
              rq_ptr := p;
              rq_ep_addr := ep_addr;
              rq_aperture := 0;
              rq_total_len := request_total_len (mapped sgt);
              rq_offset := 0;
              rq_sg_idx := 0;
              rq_sg_offset := 0;
              rq_tfer := tfer;
              rq_cb := None;
              rq_sw_desc_idx := 0;
              rq_sw_desc_cnt := j;
              rq_sdesc := sdesc;
            |}))
      end
  end.
End request.

(** * Lemmas *)

(** The bus addresses of the bytes an entry covers. *)
Definition sg_bytes (sg : scatterlist) : list Z :=
  seqZ (sg_dma_address sg) (sg_dma_len sg).
Definition sd_bytes (sd : sw_desc) : list Z :=
  seqZ (sd_addr sd) (sd_len sd).

(** An entry as the DMA API delivers it: a 32-bit length and no wrap-around of
    the 64-bit bus address. *)
Definition sg_wf (sg : scatterlist) : Prop :=
  0 <= sg_dma_len sg < 2 ^ 32 /\ 0 <= sg_dma_address sg /\
  sg_dma_address sg + sg_dma_len sg <= 2 ^ 64.

Section lemmas.
Context `{Platform} `{ModParams}.
Hypothesis blen_range : 1 <= desc_blen_max < 2 ^ 32.

Lemma sg_split_spec fuel addr tlen :
  0 <= tlen < 2 ^ 32 -> 0 <= addr -> addr + tlen <= 2 ^ 64 ->
  tlen / desc_blen_max + 2 <= Z.of_nat fuel ->
  exists ds, sg_split fuel addr tlen = Some ds /\
    concat (map sd_bytes ds) = seqZ addr tlen /\
    Forall (fun d => 0 < sd_len d <= desc_blen_max /\
                     addr <= sd_addr d /\
                     sd_addr d + sd_len d <= addr + tlen) ds /\
    zlength ds = (tlen + desc_blen_max - 1) / desc_blen_max.
Proof using blen_range.
  revert addr tlen. induction fuel as [|fuel IH]; intros addr tlen Ht Ha Hw Hf.
  { assert (0 <= tlen / desc_blen_max) by (apply Z.div_pos; lia). lia. }
  cbn [sg_split]. destruct (Z.eqb_spec tlen 0) as [->|Hnz].
  { exists []. repeat split; [constructor|].
    rewrite Z.div_small; [done|lia]. }
  destruct (Z.ltb_spec desc_blen_max tlen) as [Hlt|Hge].
  - assert (Ediv : tlen / desc_blen_max = (tlen - desc_blen_max) / desc_blen_max + 1).
    { replace tlen with (tlen - desc_blen_max + 1 * desc_blen_max) at 1 by lia.
      rewrite Z.div_add by lia. lia. }
    rewrite u64_small, u32_small by lia.
    destruct (IH (addr + desc_blen_max) (tlen - desc_blen_max))
      as (ds & -> & Hb & Hall & Hl); [lia..|].
    cbn. eexists; split; [done|]. cbn [map concat]. rewrite Hb.
    split; [|split].
    + unfold sd_bytes; cbn [sd_addr sd_len].
      replace tlen with (desc_blen_max + (tlen - desc_blen_max)) at 2 by lia.
      by rewrite seqZ_app by lia.
    + constructor; cbn [sd_addr sd_len]; [lia|].
      eapply Forall_impl; [exact Hall|]. cbn. lia.
    + unfold zlength in *. cbn [length]. rewrite Nat2Z.inj_succ, Hl.
      replace (tlen + desc_blen_max - 1)
        with (tlen - desc_blen_max + desc_blen_max - 1 + 1 * desc_blen_max) by lia.
      rewrite Z.div_add by lia. lia.
  - exists [Build_sw_desc addr tlen]. cbn [map concat].
    rewrite app_nil_r. split; [done|]. split; [done|]. split.
    + repeat constructor; cbn [sd_addr sd_len]; lia.
    + unfold zlength. cbn [length].
      assert ((tlen + desc_blen_max - 1) / desc_blen_max = 1) as ->; [|done].
      symmetry. apply Z.div_unique with (tlen - 1); lia.
Qed.

Lemma request_sdescs_spec sgs :
  Forall sg_wf sgs ->
  exists ds, request_sdescs sgs = Some ds /\
    concat (map sd_bytes ds) = concat (map sg_bytes sgs) /\
    Forall (fun d => 0 < sd_len d <= desc_blen_max /\ 0 <= sd_addr d /\
                     sd_addr d + sd_len d <= 2 ^ 64) ds /\
    zlength ds = foldr (fun sg n =>
      (sg_dma_len sg + desc_blen_max - 1) / desc_blen_max + n) 0 sgs.
Proof using blen_range.
  induction 1 as [|sg sgs (Hl & Ha & Hw) _ (ds & E & Hb & Hall & Hn)].
  { exists []. repeat split. constructor. }
  cbn [request_sdescs map concat foldr].
  destruct (sg_split_spec (sg_fuel (sg_dma_len sg)) (sg_dma_address sg)
              (sg_dma_len sg)) as (ds0 & -> & Hb0 & Hall0 & Hn0); try lia.
  { unfold sg_fuel. assert (0 <= sg_dma_len sg / desc_blen_max)
      by (apply Z.div_pos; lia). lia. }
  rewrite E. cbn. eexists; split; [done|].
  rewrite map_app, concat_app, Hb, Hb0. split; [done|]. split.
  - apply Forall_app; split; [|done].
    eapply Forall_impl; [exact Hall0|]. cbn. lia.
  - unfold zlength in *. rewrite length_app. lia.
Qed.

(** The first pass reserves enough room when no length is so close to [2^32]
    that rounding it up wraps. *)
Lemma request_extra_enough sgs e0 :
  Forall sg_wf sgs ->
  Forall (fun sg => sg_dma_len sg + desc_blen_max - 1 < 2 ^ 32) sgs ->
  0 <= e0 ->
  e0 + foldr (fun sg n => (sg_dma_len sg + desc_blen_max - 1) / desc_blen_max + n) 0 sgs
    < 2 ^ 31 ->
  let extra := fold_left (fun extra sg =>
    let len := sg_dma_len sg in
    if desc_blen_max <? len
    then i32 (extra + u32 (len + desc_blen_max - 1) / desc_blen_max)
    else extra) sgs e0 in
  e0 + foldr (fun sg n => (sg_dma_len sg + desc_blen_max - 1) / desc_blen_max + n) 0 sgs
    <= extra + zlength sgs /\
  e0 <= extra <=
  e0 + foldr (fun sg n => (sg_dma_len sg + desc_blen_max - 1) / desc_blen_max + n) 0 sgs.
Proof using blen_range.
  intros Hwf Hsm. revert e0. induction Hwf as [|sg sgs (Hl & Ha & Hw) Hwf IH];
    intros e0 He Hs; cbn [fold_left foldr] in *.
  { unfold zlength; cbn. lia. }
  inversion Hsm as [|? ? Hsg Hsm']; subst.
  set (n := (sg_dma_len sg + desc_blen_max - 1) / desc_blen_max) in *.
  set (r := foldr _ 0 sgs) in *.
  assert (Hn : 0 <= n) by (apply Z.div_pos; lia).
  assert (Hr : 0 <= r).
  { subst r. clear - Hwf blen_range. induction Hwf as [|? ? (?&?&?)]; cbn; [lia|].
    assert (0 <= (sg_dma_len x + desc_blen_max - 1) / desc_blen_max)
      by (apply Z.div_pos; lia). lia. }
  unfold zlength. cbn [length]. rewrite Nat2Z.inj_succ.
  fold (zlength sgs).
  destruct (Z.ltb_spec desc_blen_max (sg_dma_len sg)).
  - rewrite u32_small by lia. fold n. rewrite i32_small by lia.
    specialize (IH Hsm' (e0 + n)). lia.
  - assert (n <= 1).
    { subst n. apply Z.lt_succ_r. apply Z.div_lt_upper_bound; lia. }
    specialize (IH Hsm' e0). lia.
Qed.
End lemmas.

Section init.
Context `{Platform} `{ModParams} {S : Type} `{Traced S}.

Definition sg_descs (sgs : list scatterlist) : Z :=
  foldr (fun sg n =>
    (sg_dma_len sg + desc_blen_max - 1) / desc_blen_max + n) 0 sgs.

(** Entries the driver can split. *)
Record sgt_ok (sgt : sg_table) : Prop := {
  so_wf : Forall sg_wf (mapped sgt);
  so_round : Forall (fun sg => sg_dma_len sg + desc_blen_max - 1 < 2 ^ 32)
               (mapped sgt);
  so_nents : zlength (mapped sgt) = nents sgt;
  so_count : nents sgt + sg_descs (mapped sgt) < 2 ^ 31;
}.

Lemma init_request_run sgt ep tfer (s : S) :
  1 <= desc_blen_max < 2 ^ 32 -> sgt_ok sgt ->
  (forall t size, kernel_answer t "kzalloc" [size] <> 0) ->
  exists req s', xdma_init_request sgt ep tfer s = (Some (Some req), s') /\
    concat (map sd_bytes (rq_sdesc req)) = concat (map sg_bytes (mapped sgt)) /\
    Forall (fun d => 0 < sd_len d <= desc_blen_max /\ 0 <= sd_addr d /\
                     sd_addr d + sd_len d <= 2 ^ 64) (rq_sdesc req) /\
    rq_sw_desc_cnt req = zlength (rq_sdesc req) /\
    rq_sw_desc_cnt req <= request_max sgt /\ rq_sw_desc_cnt req < 2 ^ 31 /\
    rq_sw_desc_idx req = 0 /\ rq_ep_addr req = ep /\ rq_tfer req = tfer.
Proof.
  intros Hb [Hwf Hsm Hn Hmax] Hk.
  destruct (request_sdescs_spec Hb _ Hwf) as (ds & E & Hcov & Hall & Hlen).
  fold (sg_descs (mapped sgt)) in Hlen.
  pose proof (zlength_nonneg (mapped sgt)) as Hz.
  pose proof (zlength_nonneg ds) as Hz'.
  destruct (request_extra_enough Hb _ 0 Hwf Hsm ltac:(lia)) as [He1 He2];
    [fold (sg_descs (mapped sgt)); lia|].
  fold (sg_descs (mapped sgt)) in He1, He2.
  change (fold_left _ (mapped sgt) 0) with (request_extra (mapped sgt)) in He1, He2.
  assert (Hle : zlength ds <= request_max sgt).
  { unfold request_max. rewrite i32_small; lia. }
  assert (Ha : exists p s', xdma_request_alloc (u32 (request_max sgt)) s =
    (Some p, s')).
  { unfold xdma_request_alloc, kcall, emit. run_code.
    rewrite (proj2 (Z.eqb_neq _ 0) (Hk _ _)).
    rewrite (proj2 (Z.eqb_neq _ 0) (Hk _ _)). eauto. }
  destruct Ha as (p & s' & Ha). unfold xdma_init_request.
  rewrite bind_run, Ha. cbn [fst snd]. rewrite E.
  destruct (Z.ltb_spec (request_max sgt) (zlength ds)); [lia|].
  do 2 eexists. split; [done|]. cbn. repeat (split; [done || lia|]). done.
Qed.
End init.
