(* ===== verification/StatusDump.v ===== *)
(** The status message of an engine ([src/src/libxdma.c],
    [engine_status_dump]), which is composed with [sprintf] in a buffer of 256
    bytes on the stack. *)
From S2P Require Import Prelude Hw Desc Types.
From Stdlib Require Import Ascii.

(** * The message *)

Definition hex_digit (d : Z) : ascii :=
  if d <? 10 then ascii_of_nat (Z.to_nat (48 + d))
  else ascii_of_nat (Z.to_nat (87 + d)).

(** [%08x] of a 32-bit value. *)
Fixpoint hex_digits (n : nat) (v : Z) (acc : string) : string :=
  match n with
  | O => acc
  | S n' => hex_digits n' (v / 16) (String (hex_digit (v mod 16)) acc)
  end.
Definition hex8 (v : Z) : string := hex_digits 8 (u32 v) "".

(** [len += sprintf(buf + len, s)] *)
Definition put (buf s : string) : string := buf +:+ s.
Definition put_if (c : bool) (s buf : string) : string :=
  if c then put buf s else buf.

(** [buf[len - 1] = c] *)
Fixpoint set_last (c : ascii) (buf : string) : string :=
  match buf with
  | EmptyString => EmptyString
  | String _ EmptyString => String c EmptyString
  | String x buf' => String x (set_last c buf')
  end.

(** The buffer before the last character is overwritten by the terminator. *)
Definition engine_status_buffer (name : string) (dir : dma_data_direction)
    (v : Z) : string :=
  let buf := "SG engine " +:+ name +:+ " status: 0x" +:+ hex8 v +:+ ": " in
  let buf := put_if (has_bits v XDMA_STAT_BUSY) "BUSY," buf in
  let buf := put_if (has_bits v XDMA_STAT_DESC_STOPPED) "DESC_STOPPED," buf in
  let buf := put_if (has_bits v XDMA_STAT_DESC_COMPLETED) "DESC_COMPL," buf in
  let buf :=
    if has_bits v XDMA_STAT_COMMON_ERR_MASK then
      let buf := put_if (has_bits v XDMA_STAT_ALIGN_MISMATCH)
                   "ALIGN_MISMATCH " buf in
      let buf := put_if (has_bits v XDMA_STAT_MAGIC_STOPPED)
                   "MAGIC_STOPPED " buf in
      let buf := put_if (has_bits v XDMA_STAT_INVALID_LEN)
                   "INVLIAD_LEN " buf in
      let buf := put_if (has_bits v XDMA_STAT_IDLE_STOPPED)
                   "IDLE_STOPPED " buf in
      set_last "," buf
    else buf in
  let buf :=
    match dir with
    | DMA_TO_DEVICE =>
        let buf :=
          if has_bits v XDMA_STAT_H2C_R_ERR_MASK then
            let buf := put buf "R:" in
            let buf := put_if (has_bits v XDMA_STAT_H2C_R_UNSUPP_REQ)
                         "UNSUPP_REQ " buf in
            let buf := put_if (has_bits v XDMA_STAT_H2C_R_COMPL_ABORT)
                         "COMPL_ABORT " buf in
            let buf := put_if (has_bits v XDMA_STAT_H2C_R_PARITY_ERR)
                         "PARITY " buf in
            let buf := put_if (has_bits v XDMA_STAT_H2C_R_HEADER_EP)
                         "HEADER_EP " buf in
            let buf := put_if (has_bits v XDMA_STAT_H2C_R_UNEXP_COMPL)
                         "UNEXP_COMPL " buf in
            set_last "," buf
          else buf in
        if has_bits v XDMA_STAT_H2C_W_ERR_MASK then
          let buf := put buf "W:" in
          let buf := put_if (has_bits v XDMA_STAT_H2C_W_DECODE_ERR)
                       "DECODE_ERR " buf in
          let buf := put_if (has_bits v XDMA_STAT_H2C_W_SLAVE_ERR)
                       "SLAVE_ERR " buf in
          set_last "," buf
        else buf
    | DMA_FROM_DEVICE =>
        if has_bits v XDMA_STAT_C2H_R_ERR_MASK then
          let buf := put buf "R:" in
          let buf := put_if (has_bits v XDMA_STAT_C2H_R_DECODE_ERR)
                       "DECODE_ERR " buf in
          let buf := put_if (has_bits v XDMA_STAT_C2H_R_SLAVE_ERR)
                       "SLAVE_ERR " buf in
          set_last "," buf
        else buf
    end in
  if has_bits v XDMA_STAT_DESC_ERR_MASK then
    let buf := put buf "DESC_ERR:" in
    let buf := put_if (has_bits v XDMA_STAT_DESC_UNSUPP_REQ)
                 "UNSUPP_REQ " buf in
    let buf := put_if (has_bits v XDMA_STAT_DESC_COMPL_ABORT)
                 "COMPL_ABORT " buf in
    let buf := put_if (has_bits v XDMA_STAT_DESC_PARITY_ERR) "PARITY " buf in
    let buf := put_if (has_bits v XDMA_STAT_DESC_HEADER_EP)
                 "HEADER_EP " buf in
    let buf := put_if (has_bits v XDMA_STAT_DESC_UNEXP_COMPL)
                 "UNEXP_COMPL " buf in
    set_last "," buf
  else buf.

(** [buf[len - 1] = 0]: the message drops the last character. *)
Definition engine_status_dump (e : xdma_engine) : string :=
  let buf := engine_status_buffer (e_name e) (e_dir e) (e_status e) in
  String.substring 0 (String.length buf - 1) buf.

(** Bytes of the buffer the composition writes: the text and the terminating
    zero of the last [sprintf]. *)
Definition status_bytes (e : xdma_engine) : Z :=
  Z.of_nat (String.length
    (engine_status_buffer (e_name e) (e_dir e) (e_status e))) + 1.

Definition status_buffer_size : Z := 256.

(** * Lengths *)

Lemma length_put s buf :
  String.length (put buf s) = (String.length buf + String.length s)%nat.
Proof.
  unfold put. induction buf as [|c buf IH]; [done|].
  simpl. f_equal. exact IH.
Qed.

Lemma length_set_last c buf :
  String.length (set_last c buf) = String.length buf.
Proof.
  induction buf as [|x buf IH]; [done|]. cbn.
  destruct buf; [done|]. cbn in *. by rewrite IH.
Qed.

Lemma length_hex8 v : String.length (hex8 v) = 8%nat.
Proof. reflexivity. Qed.

Lemma length_put_if c s buf :
  (String.length (put_if c s buf) =
   String.length buf + (if c then String.length s else 0))%nat.
Proof. unfold put_if. destruct c; [apply length_put|lia]. Qed.

Create Rewrite HintDb strlen.
#[export] Hint Rewrite length_put length_set_last length_put_if length_hex8
  : strlen.
