(* ===== verification/Engine.v ===== *)
(** One SGDMA engine ([src/src/libxdma.c]): starting and stopping the hardware,
    the queue of transfers, and the service routine that the interrupt work and
    the polling thread run when descriptors have completed.

    The code below runs with [engine->lock] held, so each operation is one
    transition of the state [est].  Arguments [engine] are never [NULL] in the
    driver (every caller passes the address of an element of
    [xdev->engine_h2c] or [engine_c2h]), so the tests for it do not appear;
    a [transfer] argument that may be [NULL] is an [option]. *)
From S2P Require Import Prelude Hw Desc Types StatusDump.

(** * Accesses to the state *)

Definition engine : M est xdma_engine := gets st_eng.
Definition set_engine (f : xdma_engine -> xdma_engine) : M est unit :=
  modify (fun s => s <| st_eng ::= f |>).
Definition set_dev (f : xdma_dev -> xdma_dev) : M est unit :=
  modify (fun s => s <| st_dev ::= f |>).
Definition xfer (id : nat) : M est xdma_transfer :=
  gets (fun s => default zero_transfer (st_xfers s !! id)).
Definition set_xfer (id : nat) (f : xdma_transfer -> xdma_transfer)
    : M est unit :=
  modify (fun s => s <| st_xfers ::= alter f id |>).

(** [list_del(engine->transfer_list.next)] *)
Definition list_del_first : M est unit :=
  set_engine (fun e => e <| e_transfer_list ::= tail |>).

(** [list_entry(engine->transfer_list.next, ...)] of a list that is not
    empty. *)
Definition list_first (l : list nat) : option nat := head l.

Definition list_empty {A} (l : list A) : bool :=
  match l with [] => true | _ => false end.

Section engine.
Context `{Platform} `{ModParams}.

Definition reg_read (off : Z) : M est Z :=
  let* e := engine in read_register (u64 (e_regs e + off)).
Definition reg_write (v off : Z) : M est unit :=
  let* e := engine in write_register v (u64 (e_regs e + off)).
Definition sgdma_read (off : Z) : M est Z :=
  let* e := engine in read_register (u64 (e_sgdma_regs e + off)).
Definition sgdma_write (v off : Z) : M est unit :=
  let* e := engine in write_register v (u64 (e_sgdma_regs e + off)).

Definition is_st_c2h (e : xdma_engine) : bool :=
  e_streaming e && is_from_device (e_dir e).

(** * Status *)

Definition engine_reg_dump : M est Z :=
  let* w := reg_read R_identifier in
  let w := Z.land w BLOCK_ID_MASK in
  if negb (w =? BLOCK_ID_HEAD) then ret (- EINVAL)
  else
    let* _ := reg_read R_status in
    let* _ := reg_read R_control in
    let* _ := sgdma_read R_first_desc_lo in
    let* _ := sgdma_read R_first_desc_hi in
    let* _ := sgdma_read R_first_desc_adjacent in
    let* _ := reg_read R_completed_desc_count in
    let* _ := reg_read R_interrupt_enable_mask in
    ret 0.

(** The message of [engine_status_dump] only goes to the log. *)
Definition engine_status_read (clear dump : bool) : M est Z :=
  let* rv := (if dump then engine_reg_dump else ret 0) in
  if rv <? 0 then ret rv
  else
    let* st := reg_read (if clear then R_status_rc else R_status) in
    do* set_engine (fun e => e <| e_status := st |>) in
    ret rv.

(** * Start and stop *)

Definition stop_control : Z :=
  let w := 0 in
  let w := Z.lor w XDMA_CTRL_IE_DESC_ALIGN_MISMATCH in
  let w := Z.lor w XDMA_CTRL_IE_MAGIC_STOPPED in
  let w := Z.lor w XDMA_CTRL_IE_READ_ERROR in
  let w := Z.lor w XDMA_CTRL_IE_DESC_ERROR in
  if poll_mode then Z.lor w XDMA_CTRL_POLL_MODE_WB
  else
    let w := Z.lor w XDMA_CTRL_IE_DESC_STOPPED in
    Z.lor w XDMA_CTRL_IE_DESC_COMPLETED.

Definition xdma_engine_stop : M est Z :=
  let* e := engine in
  do* when (enable_st_c2h_credit && is_st_c2h e) (sgdma_write 0 R_credits) in
  do* reg_write stop_control R_control in
  do* set_engine (fun e => e <| e_running := false |>) in
  ret 0.

Definition perf_interrupts : Z :=
  let w := XDMA_CTRL_IE_DESC_STOPPED in
  let w := Z.lor w XDMA_CTRL_IE_DESC_COMPLETED in
  let w := Z.lor w XDMA_CTRL_IE_DESC_ALIGN_MISMATCH in
  let w := Z.lor w XDMA_CTRL_IE_MAGIC_STOPPED in
  let w := Z.lor w XDMA_CTRL_IE_IDLE_STOPPED in
  let w := Z.lor w XDMA_CTRL_IE_READ_ERROR in
  Z.lor w XDMA_CTRL_IE_DESC_ERROR.

Definition start_control (non_incr_addr : bool) : Z :=
  let w := XDMA_CTRL_RUN_STOP in
  let w := Z.lor w XDMA_CTRL_IE_READ_ERROR in
  let w := Z.lor w XDMA_CTRL_IE_DESC_ERROR in
  let w := Z.lor w XDMA_CTRL_IE_DESC_ALIGN_MISMATCH in
  let w := Z.lor w XDMA_CTRL_IE_MAGIC_STOPPED in
  let w :=
    if poll_mode then Z.lor w XDMA_CTRL_POLL_MODE_WB
    else
      let w := Z.lor w XDMA_CTRL_IE_DESC_STOPPED in
      Z.lor w XDMA_CTRL_IE_DESC_COMPLETED in
  if non_incr_addr then Z.lor w XDMA_CTRL_NON_INCR_ADDR else w.

Definition engine_start_mode_config : M est Z :=
  let* e := engine in
  do* when (e_xdma_perf e)
        (reg_write perf_interrupts R_interrupt_enable_mask) in
  do* reg_write (start_control (e_non_incr_addr e)) R_control in
  let* _ := reg_read R_status in
  ret 0.

(** The transfer the engine was started with, or [None]. *)
Definition engine_start : M est (option nat) :=
  let* e := engine in
  if e_running e then ret None
  else
    match list_first (e_transfer_list e) with
    | None => ret None
    | Some transfer =>
        do* set_engine (fun e => e <| e_shutdown := ENGINE_SHUTDOWN_NONE |>) in
        do* when (enable_st_c2h_credit && is_st_c2h e)
              (sgdma_write (u32 (e_desc_used e)) R_credits) in
        do* set_engine (fun e => e <| e_desc_dequeued := 0 |>) in
        let* x := xfer transfer in
        do* sgdma_write (PCI_DMA_L (x_desc_bus x)) R_first_desc_lo in
        do* sgdma_write (PCI_DMA_H (x_desc_bus x)) R_first_desc_hi in
        let next_adj := xdma_get_next_adj (u32 (x_desc_adjacent x))
                          (PCI_DMA_L (x_desc_bus x)) in
        do* sgdma_write next_adj R_first_desc_adjacent in
        let* rv := engine_start_mode_config in
        if rv <? 0 then ret None
        else
          let* rv := engine_status_read false false in
          if rv <? 0 then ret None
          else
            do* set_engine (fun e => e <| e_running := true |>) in
            ret (Some transfer)
    end.

(** * Service *)

Definition engine_service_shutdown : M est Z :=
  let* rv := xdma_engine_stop in
  if rv <? 0 then ret rv
  else
    do* emit WakeShutdown in
    ret 0.

Definition engine_transfer_completion (transfer : option nat)
    : M est (option nat) :=
  match transfer with
  | None => ret None
  | Some id =>
      do* emit (WakeTransfer id) in
      let* x := xfer id in
      do* match x_cb x with
          | Some cb => when (x_last_in_request x) (emit (IoDone cb 0))
          | None => ret tt
          end in
      ret (Some id)
  end.

(** The [while] loop of [engine_service_transfer_list]: all completed
    transfers but the last.  Result: the transfer and the count the caller
    goes on with.  One unit of fuel per queued transfer is enough. *)
Fixpoint service_loop (fuel : nat) (transfer : option nat) (desc_completed : Z)
    : M est (option nat * Z) :=
  match fuel, transfer with
  | O, _ | _, None => ret (transfer, desc_completed)
  | S fuel', Some id =>
      let* x := xfer id in
      if negb (x_cyclic x) && (u32 (x_desc_num x) <? desc_completed) then
        let desc_completed := u32 (desc_completed - x_desc_num x) in
        do* list_del_first in
        do* set_engine (fun e =>
              e <| e_desc_dequeued ::= fun d => i32 (d + x_desc_num x) |>) in
        do* set_xfer id (fun x => x <| x_state := TRANSFER_STATE_COMPLETED |>) in
        let* _ := engine_transfer_completion (Some id) in
        let* e := engine in
        service_loop fuel' (list_first (e_transfer_list e)) desc_completed
      else ret (transfer, desc_completed)
  end.

Definition engine_service_transfer_list (transfer : option nat)
    (desc_completed : Z) : M est (option nat * Z) :=
  match transfer with
  | None => ret (None, desc_completed)
  | Some _ =>
      let* e := engine in
      service_loop (S (length (e_transfer_list e))) transfer desc_completed
  end.

Definition engine_err_handle (transfer : nat) (desc_completed : Z) : M est Z :=
  let* e := engine in
  let* _ := (if has_bits (e_status e) XDMA_STAT_BUSY
             then reg_read R_status else ret 0) in
  do* set_xfer transfer (fun x => x <| x_state := TRANSFER_STATE_FAILED |>) in
  xdma_engine_stop.

Definition status_error (e : xdma_engine) : bool :=
  (is_from_device (e_dir e) && has_bits (e_status e) XDMA_STAT_C2H_ERR_MASK) ||
  (is_to_device (e_dir e) && has_bits (e_status e) XDMA_STAT_H2C_ERR_MASK).

(** Whether one of the first [max] results from index [i] on has EOP set. *)
Fixpoint eop_received (max : nat) (results : list xdma_result) (i : Z) : bool :=
  match max with
  | O => false
  | S max' =>
      match zlookup results i with
      | Some r => has_bits (r_status r) RX_STATUS_EOP ||
                  eop_received max' results (i + 1)
      | None => false
      end
  end.

(** The part of [engine_service_final_transfer] from the label
    [transfer_del] on. *)
Definition transfer_del (id : nat) : M est (option nat) :=
  do* list_del_first in
  engine_transfer_completion (Some id).

Definition engine_service_final_transfer (transfer : option nat)
    (desc_completed : Z) : M est (option nat) :=
  match transfer with
  | None => ret None
  | Some id =>
      let* e := engine in
      if status_error e then
        let* _ := engine_err_handle id desc_completed in
        transfer_del id
      else
        let* x := xfer id in
        if desc_completed <? u32 (x_desc_num x) then
          if e_eop_flush e then
            do* when (eop_received (Z.to_nat (i32 desc_completed))
                        (default [] (e_cyclic_result e)) (x_res_virt x))
                  (set_xfer id (fun x => x <| x_flags ::= fun f =>
                                   Z.lor f XFER_FLAG_ST_C2H_EOP_RCVED |>)) in
            do* set_xfer id (fun x => x <| x_desc_cmpl ::= fun c =>
                                 i32 (c + desc_completed) |>) in
            let* x := xfer id in
            if negb (has_bits (x_flags x) XFER_FLAG_ST_C2H_EOP_RCVED) then
              ret None
            else
              let* _ := engine_service_shutdown in
              do* set_xfer id (fun x =>
                    x <| x_state := TRANSFER_STATE_COMPLETED |>) in
              do* set_engine (fun e => e <| e_desc_dequeued ::= fun d =>
                                  i32 (d + x_desc_cmpl x) |>) in
              transfer_del id
          else
            do* set_xfer id (fun x => x <| x_state := TRANSFER_STATE_FAILED |>) in
            do* set_engine (fun e => e <| e_desc_dequeued ::= fun d =>
                                i32 (d + x_desc_num x) |>) in
            do* set_xfer id (fun x =>
                  x <| x_desc_cmpl := i32 desc_completed |>) in
            transfer_del id
        else
          do* set_xfer id (fun x =>
                x <| x_state := TRANSFER_STATE_COMPLETED |>
                  <| x_desc_cmpl := x_desc_num x |>) in
          do* set_engine (fun e => e <| e_desc_dequeued ::= fun d =>
                              i32 (d + x_desc_num x) |>) in
          transfer_del id
  end.

(** The performance counters cleared and started; reading a register makes sure
    that the write has arrived. *)
Definition enable_perf : M est unit :=
  do* reg_write XDMA_PERF_CLEAR R_perf_ctrl in
  let* _ := reg_read R_identifier in
  do* reg_write (Z.lor XDMA_PERF_AUTO XDMA_PERF_RUN) R_perf_ctrl in
  let* _ := reg_read R_identifier in
  ret tt.

(** Compiled with the performance code disabled: nothing is done. *)
Definition engine_service_perf (desc_completed : Z) : M est Z := ret 0.

Definition engine_service_resume : M est Z :=
  let* e := engine in
  if negb (e_running e) then
    if negb (list_empty (e_transfer_list e)) then
      let* transfer_started := engine_start in
      match transfer_started with
      | None => ret (- EINVAL)
      | Some _ => ret 0
      end
    else if has_bits (e_shutdown e) ENGINE_SHUTDOWN_REQUEST then
      do* set_engine (fun e =>
            e <| e_shutdown ::= fun v => Z.lor v ENGINE_SHUTDOWN_IDLE |>) in
      do* emit WakeShutdown in
      ret 0
    else ret 0
  else if list_empty (e_transfer_list e) then
    let* _ := engine_service_shutdown in
    ret 0
  else ret 0.

(** From the first queued transfer on: [desc_count] is not 0. *)
Definition service_transfers (desc_count : Z) : M est unit :=
  let* e := engine in
  let transfer := list_first (e_transfer_list e) in
  let* _ := (match transfer with
             | Some _ => engine_service_perf desc_count
             | None => ret 0 end) in
  let* e := engine in
  let desc_count := u32 (desc_count - e_desc_dequeued e) in
  let* (transfer, desc_count) :=
    engine_service_transfer_list transfer desc_count in
  let* _ := engine_service_final_transfer transfer desc_count in
  let* e := engine in
  when (negb (e_eop_flush e))
    (let* _ := engine_service_resume in ret tt).

Definition engine_service (desc_writeback : Z) : M est Z :=
  let desc_count := u32 (Z.land desc_writeback WB_COUNT_MASK) in
  let err_flag := u32 (Z.land desc_writeback WB_ERR_MASK) in
  let* e := engine in
  if negb (e_running e) then
    let* rv := engine_status_read true false in
    if rv <? 0 then ret rv else ret 0
  else
    let* rv := (if (desc_count =? 0) || negb (err_flag =? 0)
                then engine_status_read true false else ret 0) in
    if rv <? 0 then ret rv
    else
      let* e := engine in
      let* rv :=
        (if (e_running e && negb (has_bits (e_status e) XDMA_STAT_BUSY)) ||
            (negb (e_eop_flush e) && negb (desc_count =? 0))
         then engine_service_shutdown else ret 0) in
      if rv <? 0 then ret rv
      else
        let* desc_count := (if desc_count =? 0
                            then reg_read R_completed_desc_count
                            else ret desc_count) in
        do* when (negb (desc_count =? 0)) (service_transfers desc_count) in
        ret (if err_flag =? 0 then 0 else -1).

(** * The interrupt work *)

Definition int_regs (d : xdma_dev) : Z := config_base d + XDMA_OFS_INT_CTRL.

Definition channel_interrupts_enable (mask : Z) : M est unit :=
  let* d := gets st_dev in
  write_register mask (u64 (int_regs d + R_channel_int_enable_w1s)).

Definition engine_service_work : M est unit :=
  let* e := engine in
  if negb (e_magic e =? MAGIC_ENGINE) then ret tt
  else
    let* rv := engine_service 0 in
    if rv <? 0 then ret tt
    else
      let* d := gets st_dev in
      let* e := engine in
      if xd_msix_enabled d
      then reg_write (e_interrupt_enable_mask_value e)
             R_interrupt_enable_mask_w1s
      else channel_interrupts_enable (e_irq_bitmask e).

(** * Polling *)

(** [time_after (a, b)] of the kernel, on 64-bit [unsigned long] counters: the
    sign of the wrapped difference [b - a] as a signed number. *)
Definition time_after (a b : Z) : bool := 2 ^ 63 <=? u64 (b - a).

(** The loop of [engine_service_wb_monitor]; [None] when the fuel runs out
    before the expected writeback, an error or the timeout. *)
Fixpoint wb_poll (fuel : nat) (timeout expected_wb sched_limit : Z)
    : M est (option Z) :=
  match fuel with
  | O => ret None
  | S fuel' =>
      let* desc_wb := read_writeback in
      do* when (negb (desc_wb =? 0)) (emit WbClear) in
      if has_bits desc_wb WB_ERR_MASK then ret (Some desc_wb)
      else if expected_wb <=? desc_wb then ret (Some desc_wb)
      else
        let* jiffies := kcall "jiffies" [] in
        if time_after (u64 jiffies) timeout then
          ret (Some (if expected_wb <? Z.land desc_wb WB_COUNT_MASK
                     then Z.lor expected_wb WB_ERR_MASK else desc_wb))
        else
          do* when (negb (sched_limit =? 0) &&
                    (sched_limit mod NUM_POLLS_PER_SCHED =? 0))
                (let* _ := kcall "schedule" [] in ret tt) in
          wb_poll fuel' timeout expected_wb (u32 (sched_limit + 1))
  end.

(** [HZ] ticks per second. *)
Definition engine_service_wb_monitor (HZ : Z) (fuel : nat) (expected_wb : Z)
    : M est (option Z) :=
  let* jiffies := kcall "jiffies" [] in
  let timeout := u64 (u64 jiffies + POLL_TIMEOUT_SECONDS * HZ) in
  if expected_wb =? 0 then ret (Some 0)
  else wb_poll fuel timeout expected_wb 0.

Definition engine_service_poll (HZ : Z) (fuel : nat) (expected_desc_count : Z)
    : M est (option Z) :=
  let* e := engine in
  if negb (e_magic e =? MAGIC_ENGINE) then ret (Some (- EINVAL))
  else
    let* desc_wb := engine_service_wb_monitor HZ fuel expected_desc_count in
    match desc_wb with
    | None => ret None
    | Some desc_wb =>
        if desc_wb =? 0 then ret (Some 0)
        else
          let* rv := engine_service (i32 desc_wb) in
          ret (Some rv)
    end.

(** * The queue *)

(** [engine->xdev] is set by [engine_init] and never cleared while the engine
    has its magic number. *)
Definition transfer_abort (transfer : nat) : M est Z :=
  let* x := xfer transfer in
  if x_desc_num x =? 0 then ret (- EINVAL)
  else
    let* e := engine in
    do* match list_first (e_transfer_list e) with
        | Some head => when (bool_decide (head = transfer)) list_del_first
        | None => ret tt
        end in
    do* when (bool_decide (x_state x = TRANSFER_STATE_SUBMITTED))
          (set_xfer transfer (fun x =>
             x <| x_state := TRANSFER_STATE_ABORTED |>)) in
    ret 0.

Definition transfer_queue (transfer : nat) : M est Z :=
  let* x := xfer transfer in
  if x_desc_num x =? 0 then ret (- EINVAL)
  else
    let* d := gets st_dev in
    if xdma_device_flag_check XDEV_FLAG_OFFLINE d then ret (- EBUSY)
    else
      let* cpu := kcall "get_cpu" [] in
      do* set_engine (fun e => e <| e_prev_cpu := cpu |>) in
      let* e := engine in
      if has_bits (e_shutdown e) ENGINE_SHUTDOWN_REQUEST then ret (- EBUSY)
      else
        do* set_xfer transfer (fun x =>
              x <| x_state := TRANSFER_STATE_SUBMITTED |>) in
        do* set_engine (fun e =>
              e <| e_transfer_list ::= fun l => l ++ [transfer] |>) in
        let* e := engine in
        if negb (e_running e) then
          let* _ := engine_start in
          ret 0
        else ret 0.

(** A submitter that finds its transfer neither completed nor failed: the
    [default] case of the [switch] in [xdma_xfer_submit]. *)
Definition xfer_timeout (id : nat) : M est Z :=
  let* rv := engine_status_read false true in
  let* _ :=
    (if rv <? 0 then ret rv
     else if rv =? 0 then
       let* rv := transfer_abort id in
       if rv <? 0 then ret rv
       else if rv =? 0 then xdma_engine_stop
       else ret rv
     else ret rv) in
  ret (- ERESTARTSYS).

(** One engine of [xdma_device_offline] and of [xdma_device_online]. *)
Definition engine_offline : M est unit :=
  do* set_engine (fun e => e <| e_shutdown ::= fun v =>
                      Z.lor v ENGINE_SHUTDOWN_REQUEST |>) in
  let* _ := xdma_engine_stop in
  ret tt.

Definition engine_online : M est unit :=
  set_engine (fun e => e <| e_shutdown ::= fun v =>
                  andn32 v ENGINE_SHUTDOWN_REQUEST |>).
End engine.
