(* ===== verification/EngineFacts.v ===== *)
(** Lemmas about the engine code: what each operation does to the engine, the
    transfers and the trace. *)
From S2P Require Import Prelude Hw Desc Types StatusDump Engine.

(** [extends t t']: the trace [t'] continues [t]. *)
Definition extends (t t' : list event) : Prop := exists tr, t' = tr ++ t.

#[export] Instance extends_preorder : PreOrder extends.
Proof.
  split.
  - intros t. by exists [].
  - intros t1 t2 t3 [tr ->] [tr' ->]. exists (tr' ++ tr). by rewrite app_assoc.
Qed.

Lemma extends_cons e t : extends t (e :: t).
Proof. by exists [e]. Qed.
#[export] Hint Resolve extends_cons : prog.

(** What stays as it was when only the engine and the trace change. *)
Definition same_rest (s s' : est) : Prop :=
  st_dev s' = st_dev s /\ st_xfers s' = st_xfers s /\
  extends (st_trace s) (st_trace s').

#[export] Instance same_rest_preorder : PreOrder same_rest.
Proof.
  split.
  - intros s. split; [done|]. split; [done|]. reflexivity.
  - intros s1 s2 s3 (E1 & E2 & E3) (F1 & F2 & F3).
    split; [congruence|]. split; [congruence|]. by etransitivity.
Qed.

(** Only the trace changes. *)
Definition only_trace (s s' : est) : Prop :=
  exists tr, s' = s <| st_trace := tr ++ st_trace s |>.

#[export] Instance only_trace_preorder : PreOrder only_trace.
Proof.
  split.
  - intros []. by exists [].
  - intros [] s2 s3 [tr ->] [tr' ->]. exists (tr' ++ tr). cbn.
    by rewrite app_assoc.
Qed.

(** Equations of the accesses to the state. *)
Lemma engine_run s : engine s = (st_eng s, s).
Proof. done. Qed.

Lemma set_engine_run f s : set_engine f s = (tt, s <| st_eng ::= f |>).
Proof. done. Qed.

Lemma xfer_run id s :
  xfer id s = (default zero_transfer (st_xfers s !! id), s).
Proof. done. Qed.

Lemma set_xfer_run id f s :
  set_xfer id f s = (tt, s <| st_xfers ::= alter f id |>).
Proof. done. Qed.

Lemma list_del_first_run s :
  list_del_first s =
  (tt, s <| st_eng ::= fun e => e <| e_transfer_list ::= tail |> |>).
Proof. done. Qed.

#[export] Hint Rewrite engine_run set_engine_run xfer_run set_xfer_run
  list_del_first_run : run.

Section facts.
Context `{Platform} `{ModParams}.
Implicit Types (s : est).

Lemma write_register_run v a s :
  write_register v a s =
  (tt, s <| st_trace := MmioWrite a (u32 v) :: st_trace s |>).
Proof. done. Qed.

Lemma read_register_run a s :
  read_register a s =
  (u32 (mmio_answer (st_trace s) a),
   s <| st_trace := MmioRead a (u32 (mmio_answer (st_trace s) a))
                      :: st_trace s |>).
Proof. done. Qed.

Lemma reg_read_run off s :
  let a := u64 (e_regs (st_eng s) + off) in
  reg_read off s =
  (u32 (mmio_answer (st_trace s) a),
   s <| st_trace := MmioRead a (u32 (mmio_answer (st_trace s) a))
                      :: st_trace s |>).
Proof. done. Qed.

Lemma reg_read_trace off s : only_trace s (snd (reg_read off s)).
Proof. by eexists [_]. Qed.

Lemma reg_write_trace v off s : only_trace s (snd (reg_write v off s)).
Proof. by eexists [_]. Qed.

Lemma sgdma_read_trace off s : only_trace s (snd (sgdma_read off s)).
Proof. by eexists [_]. Qed.

Lemma sgdma_write_trace v off s : only_trace s (snd (sgdma_write v off s)).
Proof. by eexists [_]. Qed.

Lemma emit_trace e s : only_trace s (snd (emit e s)).
Proof. by eexists [_]. Qed.

Lemma bind_trace {A B} (m : M est A) (k : A -> M est B) s :
  only_trace s (snd (m s)) ->
  (forall a s', only_trace s' (snd (k a s'))) ->
  only_trace s (snd (bind m k s)).
Proof.
  intros Hm Hk. rewrite bind_run. etransitivity; [exact Hm|]. apply Hk.
Qed.

Lemma ret_trace {A} (a : A) s : only_trace s (snd (ret a s)).
Proof. reflexivity. Qed.

Lemma gets_trace {A} (f : est -> A) s : only_trace s (snd (gets f s)).
Proof. reflexivity. Qed.

Lemma when_trace b (m : M est unit) s :
  (forall s, only_trace s (snd (m s))) -> only_trace s (snd (when b m s)).
Proof. destruct b; intros Hm; [apply Hm|apply ret_trace]. Qed.
End facts.

#[export] Hint Resolve reg_read_trace reg_write_trace sgdma_read_trace
  sgdma_write_trace emit_trace ret_trace gets_trace : prog.

(** Solve [only_trace] goals by the structure of the code. *)
Ltac trace_only :=
  intros;
  repeat first
    [ solve [eauto with prog]
    | apply when_trace; intros
    | apply bind_trace; [|intros]
    | split_case ].

Section ops.
Context `{Platform} `{ModParams}.
Implicit Types (s : est).

Lemma engine_reg_dump_trace s : only_trace s (snd (engine_reg_dump s)).
Proof. unfold engine_reg_dump. trace_only. Qed.

Lemma engine_start_mode_config_run s :
  exists tr, engine_start_mode_config s =
    (0, s <| st_trace := tr ++ st_trace s |>).
Proof.
  unfold engine_start_mode_config, reg_write, reg_read, engine. run_code.
  destruct (e_xdma_perf (st_eng s)); [by eexists [_; _; _]|by eexists [_; _]].
Qed.

Lemma engine_status_read_run clear s :
  exists st tr, engine_status_read clear false s =
    (0, s <| st_eng ::= fun e => e <| e_status := st |> |>
          <| st_trace := tr ++ st_trace s |>).
Proof. do 2 eexists. by instantiate (2 := [_]). Qed.

Lemma xdma_engine_stop_run s :
  exists tr, xdma_engine_stop s =
    (0, s <| st_eng ::= fun e => e <| e_running := false |> |>
          <| st_trace := tr ++ st_trace s |>).
Proof.
  unfold xdma_engine_stop, sgdma_write, reg_write, engine, set_engine.
  run_code. destruct (_ && _); [by eexists [_; _]|by eexists [_]].
Qed.

Lemma engine_service_shutdown_run s :
  exists tr, engine_service_shutdown s =
    (0, s <| st_eng ::= fun e => e <| e_running := false |> |>
          <| st_trace := WakeShutdown :: tr ++ st_trace s |>).
Proof.
  unfold engine_service_shutdown. rewrite bind_run.
  destruct (xdma_engine_stop_run s) as [tr ->]. by exists tr.
Qed.

Lemma engine_start_run s id l :
  e_running (st_eng s) = false ->
  e_transfer_list (st_eng s) = id :: l ->
  exists st tr, engine_start s =
    (Some id,
     s <| st_eng ::= fun e =>
            e <| e_shutdown := ENGINE_SHUTDOWN_NONE |>
              <| e_desc_dequeued := 0 |>
              <| e_status := st |> <| e_running := true |> |>
       <| st_trace := tr ++ st_trace s |>).
Proof.
  intros Hr Hl. destruct s as [e d x t]. cbn in Hr, Hl.
  unfold engine_start, engine, gets. unfold bind at 1.
  cbn [st_eng]. rewrite Hr, Hl. cbn [list_first head].
  destruct (enable_st_c2h_credit && is_st_c2h e); cbn [when];
  unfold set_engine, sgdma_write, xfer, modify, gets, engine, bind, ret,
    write_register, emit;
  cbn -[engine_start_mode_config engine_status_read xdma_get_next_adj
        PCI_DMA_L PCI_DMA_H u32 u64];
  match goal with
  | |- context [engine_start_mode_config ?s] =>
      destruct (engine_start_mode_config_run s) as [tr1 ->]
  end;
  cbn -[engine_status_read xdma_get_next_adj PCI_DMA_L PCI_DMA_H u32 u64];
  match goal with
  | |- context [engine_status_read ?c ?d ?s] =>
      destruct (engine_status_read_run c s) as (st & tr2 & ->)
  end;
  cbn -[xdma_get_next_adj PCI_DMA_L PCI_DMA_H u32 u64];
  exists st.
  - eexists (tr2 ++ tr1 ++ [_; _; _; _]). by rewrite <- !app_assoc.
  - eexists (tr2 ++ tr1 ++ [_; _; _]). by rewrite <- !app_assoc.
Qed.
End ops.

(** * Retiring completed transfers *)

Definition desc_num_of (xs : gmap nat xdma_transfer) (id : nat) : Z :=
  x_desc_num (default zero_transfer (xs !! id)).
Definition state_of (xs : gmap nat xdma_transfer) (id : nat)
    : option transfer_state := x_state <$> xs !! id.

Definition completion_events (x : xdma_transfer) (id : nat) : list event :=
  match x_cb x with
  | Some cb => if x_last_in_request x then [IoDone cb 0; WakeTransfer id]
               else [WakeTransfer id]
  | None => [WakeTransfer id]
  end.

(** One completed transfer leaves the head of the queue. *)
Definition complete_one (s : est) (id : nat) : est :=
  s <| st_eng ::= fun e =>
         e <| e_transfer_list ::= tail |>
           <| e_desc_dequeued ::= fun d =>
                i32 (d + desc_num_of (st_xfers s) id) |> |>
    <| st_xfers ::= alter (fun x =>
         x <| x_state := TRANSFER_STATE_COMPLETED |>) id |>
    <| st_trace ::= fun t =>
         completion_events (default zero_transfer (st_xfers s !! id)) id ++ t |>.

(** How many transfers of the queue [q] are covered by [c] completed
    descriptors, all but the last one, and how many descriptors remain. *)
Fixpoint retire (num : nat -> Z) (q : list nat) (c : Z) : nat * Z :=
  match q with
  | [] => (O, c)
  | id :: q' =>
      if num id <? c
      then let (k, c') := retire num q' (c - num id) in (S k, c')
      else (O, c)
  end.

Lemma retire_ext num num' q c :
  (forall id, num id = num' id) -> retire num q c = retire num' q c.
Proof.
  intros E. revert c. induction q as [|id q IH]; intros c; cbn [retire]; [done|].
  by rewrite <- E, IH.
Qed.

Lemma retire_le num q c : (fst (retire num q c) <= length q)%nat.
Proof.
  revert c. induction q as [|id q IH]; intros c; cbn; [done|].
  destruct (_ <? _); [|cbn; lia].
  specialize (IH (c - num id)). destruct (retire num q _). cbn in *. lia.
Qed.

(** The transfers a count of exactly [sum of the first k] retires, [k > 0]. *)
Lemma retire_exact num q k :
  Forall (fun id => 0 < num id) q -> (k < length q)%nat ->
  retire num q (foldr (fun id n => num id + n) 0 (take (S k) q)) =
  (k, num (nth k q 0%nat)).
Proof.
  intros Hq. revert k. induction Hq as [|id q Hid Hq IH]; intros k Hk;
    cbn [length] in Hk; [lia|].
  rewrite firstn_cons. cbn [foldr retire].
  destruct k as [|k].
  - rewrite take_0. cbn [foldr nth]. destruct (Z.ltb_spec (num id) (num id + 0)); [lia|].
    f_equal. lia.
  - assert (Hpos : forall q, Forall (fun id => 0 < num id) q ->
      q <> [] -> 0 < foldr (fun id n => num id + n) 0 q).
    { clear. intros q Hq. induction Hq as [|x q Hx Hq IH]; [done|].
      intros _. cbn. destruct q; [cbn; lia|]. specialize (IH ltac:(done)). lia. }
    destruct (Z.ltb_spec (num id)
      (num id + foldr (fun id n => num id + n) 0 (take (S k) q))) as [_|Hle].
    + rewrite Z.add_simpl_l, IH by lia. done.
    + destruct q as [|x q]; [cbn in Hk; lia|].
      specialize (Hpos (take (S k) (x :: q)) ltac:(by apply Forall_take)).
      specialize (Hpos ltac:(done)). lia.
Qed.

Definition not_cyclic (xs : gmap nat xdma_transfer) (id : nat) : Prop :=
  exists x, xs !! id = Some x /\ x_cyclic x = false /\
    0 < x_desc_num x < 2 ^ 31.

Lemma desc_num_of_complete xs id id' :
  desc_num_of (alter (fun x => x <| x_state := TRANSFER_STATE_COMPLETED |>) id
                 xs) id' = desc_num_of xs id'.
Proof.
  unfold desc_num_of. rewrite lookup_alter.
  case_decide; subst; [|done]. by destruct (xs !! id').
Qed.

Lemma not_cyclic_complete xs id id' :
  not_cyclic xs id' ->
  not_cyclic (alter (fun x => x <| x_state := TRANSFER_STATE_COMPLETED |>) id
                xs) id'.
Proof.
  intros (x & Hx & Hc & Hn). unfold not_cyclic. rewrite lookup_alter.
  case_decide; subst; [|by eauto]. rewrite Hx. cbn. eauto.
Qed.

Section retire.
Context `{Platform} `{ModParams}.

Lemma engine_transfer_completion_run id s :
  engine_transfer_completion (Some id) s =
  (Some id, s <| st_trace ::= fun t =>
     completion_events (default zero_transfer (st_xfers s !! id)) id ++ t |>).
Proof.
  unfold engine_transfer_completion, completion_events, xfer. run_code. cbn.
  destruct (x_cb _); [|done]. by destruct (x_last_in_request _).
Qed.

Lemma service_loop_run fuel c s :
  (length (e_transfer_list (st_eng s)) < fuel)%nat ->
  Forall (not_cyclic (st_xfers s)) (e_transfer_list (st_eng s)) ->
  0 <= c < 2 ^ 32 ->
  let q := e_transfer_list (st_eng s) in
  let (k, c') := retire (desc_num_of (st_xfers s)) q c in
  service_loop fuel (list_first q) c s =
  ((list_first (drop k q), c'), foldl complete_one s (take k q)).
Proof.
  revert c s. induction fuel as [|fuel IH]; intros c s Hf Hall Hc q; [lia|].
  destruct q as [|id q'] eqn:Eq; subst q; [done|].
  rewrite Eq in Hf, Hall. inversion Hall as [|? ? (x & Hx & Hcy & Hn) Hq]; subst.
  cbn [retire list_first head service_loop].
  rewrite bind_run. unfold xfer, gets. cbn [fst snd].
  rewrite Hx. change (default zero_transfer (Some x)) with x.
  rewrite Hcy. cbn [negb andb].
  rewrite u32_small by lia.
  assert (Edn : desc_num_of (st_xfers s) id = x_desc_num x).
  { unfold desc_num_of. by rewrite Hx. }
  rewrite Edn. destruct (Z.ltb_spec (x_desc_num x) c); [|done].
  rewrite (u32_small (c - x_desc_num x)) by lia.
  set (s1 := complete_one s id).
  assert (E1 : e_transfer_list (st_eng s1) = q') by (cbn; by rewrite Eq).
  assert (Hrec : (length (e_transfer_list (st_eng s1)) < fuel)%nat)
    by (rewrite E1; cbn in Hf; lia).
  specialize (IH (c - x_desc_num x) s1 Hrec).
  rewrite E1 in IH. specialize (IH ltac:(
    eapply Forall_impl; [exact Hq|]; apply not_cyclic_complete) ltac:(lia)).
  cbn zeta in IH.
  rewrite (retire_ext _ (desc_num_of (st_xfers s))) in IH
    by apply desc_num_of_complete.
  destruct (retire _ q' _) as [k c'].
  cbn [drop take foldl]. fold s1. rewrite <- IH.
  unfold list_del_first, set_engine, set_xfer, modify.
  repeat (rewrite bind_run; cbn [fst snd]).
  rewrite engine_transfer_completion_run. cbn [fst snd].
  repeat (rewrite bind_run; cbn [fst snd]).
  unfold engine, gets. cbn [fst snd].
  match goal with
  | |- service_loop _ (list_first (e_transfer_list (st_eng ?t))) _ ?t = _ =>
      assert (t = s1) as ->
  end.
  { subst s1. unfold complete_one. destruct s as [e d xs t]. cbn in *.
    rewrite lookup_alter_eq, Hx, Edn. cbn. done. }
  by rewrite E1.
Qed.
End retire.

(** * What a service may do to the queue *)

Definition queue (s : est) : list nat := e_transfer_list (st_eng s).

Definition settled (st : transfer_state) : Prop :=
  st = TRANSFER_STATE_COMPLETED \/ st = TRANSFER_STATE_FAILED.

(** [emitted e t t']: the trace [t'] continues [t] by events with [e] among
    them. *)
Definition emitted (e : event) (t t' : list event) : Prop :=
  exists tr, t' = tr ++ t /\ e ∈ tr.

Lemma emitted_l e t1 t2 t3 : emitted e t1 t2 -> extends t2 t3 -> emitted e t1 t3.
Proof.
  intros (tr & -> & ?) [tr' ->]. exists (tr' ++ tr).
  split; [by rewrite app_assoc|set_solver].
Qed.

Lemma emitted_r e t1 t2 t3 : extends t1 t2 -> emitted e t2 t3 -> emitted e t1 t3.
Proof.
  intros [tr' ->] (tr & -> & ?). exists (tr ++ tr').
  split; [by rewrite app_assoc|set_solver].
Qed.

(** [retires_to P done s s']: the transfers [done] left the head of the queue,
    each in a state of [P] and its waiter woken; no other transfer changed. *)
Record retires_to (P : transfer_state -> Prop) (done : list nat) (s s' : est)
    : Prop := {
  rt_queue : queue s = done ++ queue s';
  rt_others : forall id, id ∉ done -> st_xfers s' !! id = st_xfers s !! id;
  rt_done : forall id, id ∈ done -> exists st,
    state_of (st_xfers s') id = Some st /\ P st /\
    emitted (WakeTransfer id) (st_trace s) (st_trace s');
  rt_trace : extends (st_trace s) (st_trace s');
  rt_dev : st_dev s' = st_dev s;
  rt_eop : e_eop_flush (st_eng s') = e_eop_flush (st_eng s);
}.

Abbreviation retires := (retires_to settled).

(** The transfers of the queue are distinct, in memory, not cyclic and not
    empty. *)
Definition queue_ok (s : est) : Prop :=
  NoDup (queue s) /\ Forall (not_cyclic (st_xfers s)) (queue s).

Lemma retires_mono (P Q : transfer_state -> Prop) done s s' :
  (forall st, P st -> Q st) -> retires_to P done s s' -> retires_to Q done s s'.
Proof.
  intros HPQ [Hq Ho Hd Ht Hv He]. split; try done.
  intros id Hid. destruct (Hd id Hid) as (st & ? & ? & ?). eauto.
Qed.

Lemma retires_nil P s s' :
  queue s' = queue s -> st_xfers s' = st_xfers s -> st_dev s' = st_dev s ->
  e_eop_flush (st_eng s') = e_eop_flush (st_eng s) ->
  extends (st_trace s) (st_trace s') -> retires_to P [] s s'.
Proof.
  intros Hq Hx Hd He Ht. split; try done.
  - intros id _. by rewrite Hx.
  - intros id Hid. by apply not_elem_of_nil in Hid.
Qed.

Lemma retires_trace P done s s' tr :
  retires_to P done s s' ->
  retires_to P done s (s' <| st_trace := tr ++ st_trace s' |>).
Proof.
  intros [Hq Ho Hd Ht Hv He]. split; try done.
  - intros id Hid. destruct (Hd id Hid) as (st & ? & ? & ?).
    exists st. split; [done|]. split; [done|].
    eapply emitted_l; [done|]. by exists tr.
  - cbn. etransitivity; [exact Ht|]. by exists tr.
Qed.

Lemma retires_trans P d1 d2 s1 s2 s3 :
  NoDup (queue s1) ->
  retires_to P d1 s1 s2 -> retires_to P d2 s2 s3 ->
  retires_to P (d1 ++ d2) s1 s3.
Proof.
  intros Hnd [Hq1 Ho1 Hd1 Ht1 Hv1 He1] [Hq2 Ho2 Hd2 Ht2 Hv2 He2].
  rewrite Hq1, Hq2 in Hnd.
  split; try congruence.
  - rewrite Hq1, Hq2. by rewrite app_assoc.
  - intros id Hid. rewrite Ho2 by set_solver. apply Ho1. set_solver.
  - intros id [Hid|Hid]%elem_of_app.
    2:{ destruct (Hd2 id Hid) as (st & Hst & Hs & Hw). exists st.
        split; [done|]. split; [done|by eapply emitted_r]. }
    destruct (Hd1 id Hid) as (st & Hst & Hs & Hw). exists st.
    split; [|split; [done|by eapply emitted_l]].
    unfold state_of in *. rewrite Ho2; [done|].
    apply NoDup_app in Hnd as (_ & Hdis & _). intros Hin.
    apply (Hdis id Hid). set_solver.
  - by etransitivity.
Qed.

Lemma retires_queue_ok P done s s' :
  retires_to P done s s' -> queue_ok s -> queue_ok s'.
Proof.
  intros [Hq Ho _ _ _ _] [Hnd Hall]. rewrite Hq in Hnd, Hall.
  apply NoDup_app in Hnd as (_ & Hdis & Hnd).
  apply Forall_app in Hall as [_ Hall]. split; [done|].
  rewrite Forall_forall in Hall |- *. intros id Hid.
  destruct (Hall id Hid) as (x & Hx & ?). exists x. split; [|done].
  rewrite Ho; [done|]. intros Hd. by apply (Hdis id Hd).
Qed.

Lemma complete_one_retires (P : transfer_state -> Prop) s id :
  P TRANSFER_STATE_COMPLETED ->
  queue_ok s -> head (queue s) = Some id ->
  retires_to P [id] s (complete_one s id).
Proof.
  intros HP [_ Hall] Hh. unfold queue in *.
  destruct (e_transfer_list (st_eng s)) as [|id' q] eqn:Eq; [done|].
  injection Hh as ->. inversion Hall as [|? ? (x & Hx & _) _]; subst.
  split; unfold queue; cbn; try rewrite Eq; try done.
  - intros id' Hid'. rewrite lookup_alter_ne; [done|]. set_solver.
  - intros id' ->%list_elem_of_singleton. exists TRANSFER_STATE_COMPLETED.
    unfold state_of. rewrite lookup_alter_eq, Hx. cbn.
    split; [done|]. split; [done|]. eexists. split; [done|].
    unfold completion_events. cbn. destruct (x_cb x); [|set_solver].
    destruct (x_last_in_request x); set_solver.
  - by eexists.
Qed.

Lemma complete_many_retires (P : transfer_state -> Prop) s k :
  P TRANSFER_STATE_COMPLETED -> queue_ok s ->
  retires_to P (take k (queue s)) s (foldl complete_one s (take k (queue s))).
Proof.
  intros HP. revert s. induction k as [|k IH]; intros s Hok.
  { rewrite take_0. by apply retires_nil. }
  destruct (queue s) as [|id q] eqn:Eq.
  { rewrite take_nil. by apply retires_nil. }
  rewrite firstn_cons. cbn [foldl].
  assert (H1 : retires_to P [id] s (complete_one s id))
    by (apply complete_one_retires; [done|done|by rewrite Eq]).
  assert (Eq1 : queue (complete_one s id) = q)
    by (unfold queue in *; cbn; by rewrite Eq).
  rewrite <- Eq1.
  change (id :: take k (queue (complete_one s id)))
    with ([id] ++ take k (queue (complete_one s id))).
  eapply retires_trans; [apply Hok|exact H1|].
  apply IH. by eapply retires_queue_ok.
Qed.

(** The engine's fields that completing transfers leaves alone. *)
Lemma complete_many_engine s ids :
  e_running (st_eng (foldl complete_one s ids)) = e_running (st_eng s) /\
  e_status (st_eng (foldl complete_one s ids)) = e_status (st_eng s) /\
  e_dir (st_eng (foldl complete_one s ids)) = e_dir (st_eng s) /\
  e_shutdown (st_eng (foldl complete_one s ids)) = e_shutdown (st_eng s).
Proof.
  revert s. induction ids as [|id ids IH]; intros s; [done|].
  cbn [foldl]. destruct (IH (complete_one s id)) as (-> & -> & -> & ->). done.
Qed.

Section service.
Context `{Platform} `{ModParams}.

Lemma transfer_del_retires (P : transfer_state -> Prop) s0 s id :
  queue_ok s0 ->
  head (queue s0) = Some id -> queue s = queue s0 ->
  (forall id', id' ≠ id -> st_xfers s !! id' = st_xfers s0 !! id') ->
  (exists st, state_of (st_xfers s) id = Some st /\ P st) ->
  extends (st_trace s0) (st_trace s) -> st_dev s = st_dev s0 ->
  e_eop_flush (st_eng s) = e_eop_flush (st_eng s0) ->
  retires_to P [id] s0 (snd (transfer_del id s)).
Proof.
  intros Hok Hh Hq Ho (st & Hst & Hs) Ht Hd He.
  unfold transfer_del. rewrite bind_run, engine_transfer_completion_run.
  destruct (queue s0) as [|id' q] eqn:Eq; [done|]. injection Hh as ->.
  split; try done.
  - unfold queue in *. cbn. by rewrite Eq, Hq.
  - intros id' Hid'. cbn. apply Ho. set_solver.
  - intros id' ->%list_elem_of_singleton. exists st. split; [done|].
    split; [done|]. eapply emitted_r; [exact Ht|]. eexists. split; [done|].
    unfold completion_events.
    destruct (x_cb _); [destruct (x_last_in_request _)|]; set_solver.
  - cbn. etransitivity; [exact Ht|]. by eexists.
Qed.

Lemma state_of_alter xs id f x :
  xs !! id = Some x -> state_of (alter f id xs) id = Some (x_state (f x)).
Proof. intros Hx. unfold state_of. by rewrite lookup_alter_eq, Hx. Qed.

Lemma engine_service_final_retires s id c :
  queue_ok s -> head (queue s) = Some id ->
  e_eop_flush (st_eng s) = false ->
  retires [id] s (snd (engine_service_final_transfer (Some id) c s)).
Proof.
  intros Hok Hh Hf. pose proof Hok as [_ Hall].
  assert (exists x, st_xfers s !! id = Some x) as [x Hx].
  { destruct (queue s); [done|]. injection Hh as ->.
    inversion Hall as [|? ? (x & ? & _)]; eauto. }
  unfold engine_service_final_transfer.
  exec. destruct (status_error (st_eng s)).
  - unfold engine_err_handle. exec.
    set (s1 := snd (_ s)). assert (H1 : only_trace s s1).
    { subst s1. destruct (has_bits _ _); auto with prog. }
    destruct H1 as [tr1 E1]. rewrite E1. clear s1 E1.
    match goal with |- context [xdma_engine_stop ?t] =>
      destruct (xdma_engine_stop_run t) as [tr2 ->] end. cbn [snd].
    apply transfer_del_retires; try done.
    + intros id' Hne. cbn. by rewrite lookup_alter_ne.
    + exists TRANSFER_STATE_FAILED. split; [|by right].
      cbn. by erewrite state_of_alter.
    + cbn. exists (tr2 ++ tr1). by rewrite app_assoc.
  - exec. rewrite Hf. destruct (_ <? _).
    + exec. apply transfer_del_retires; try done; cbn.
      * intros id' Hne. by rewrite !lookup_alter_ne.
      * exists TRANSFER_STATE_FAILED. split; [|by right].
        unfold state_of. by rewrite !lookup_alter_eq, Hx.
    + exec. apply transfer_del_retires; try done; cbn.
      * intros id' Hne. by rewrite !lookup_alter_ne.
      * exists TRANSFER_STATE_COMPLETED. split; [|by left].
        unfold state_of. by rewrite lookup_alter_eq, Hx.
Qed.

Lemma engine_service_resume_retires P s :
  retires_to P [] s (snd (engine_service_resume s)).
Proof.
  unfold engine_service_resume. exec.
  destruct (e_running (st_eng s)) eqn:Er; cbn [negb].
  - destruct (list_empty _).
    + rewrite bind_run.
      destruct (engine_service_shutdown_run s) as [tr ->].
      apply retires_nil; try done. cbn. by exists (WakeShutdown :: tr).
    + by apply retires_nil.
  - destruct (e_transfer_list (st_eng s)) as [|id q] eqn:Eq; cbn [list_empty negb].
    + destruct (has_bits _ _); apply retires_nil; cbn; auto with prog; done.
    + rewrite bind_run.
      destruct (engine_start_run s id q Er Eq) as (st & tr & ->).
      apply retires_nil; try done. by eexists.
Qed.

Lemma engine_service_resume_running s :
  e_running (st_eng (snd (engine_service_resume s))) =
  negb (list_empty (queue s)).
Proof.
  unfold engine_service_resume, queue. exec.
  destruct (e_running (st_eng s)) eqn:Er; cbn [negb].
  - destruct (list_empty _) eqn:El; exec; [|by rewrite Er].
    by destruct (engine_service_shutdown_run s) as [tr ->].
  - destruct (e_transfer_list (st_eng s)) as [|id q] eqn:Eq; cbn [list_empty negb].
    + by destruct (has_bits _ _).
    + exec. by destruct (engine_start_run s id q Er Eq) as (st & tr & ->).
Qed.
End service.

Section service2.
Context `{Platform} `{ModParams}.

Lemma engine_service_transfer_list_run c s :
  queue_ok s -> 0 <= c < 2 ^ 32 ->
  let k := fst (retire (desc_num_of (st_xfers s)) (queue s) c) in
  let c' := snd (retire (desc_num_of (st_xfers s)) (queue s) c) in
  engine_service_transfer_list (list_first (queue s)) c s =
  ((list_first (drop k (queue s)), c'), foldl complete_one s (take k (queue s))).
Proof.
  intros [Hnd Hall] Hc k c'. unfold engine_service_transfer_list.
  destruct (queue s) as [|id q] eqn:Eq; [done|]. cbn [list_first head]. exec.
  pose proof (service_loop_run (S (length (queue s))) c s) as R.
  unfold queue in *. rewrite Eq in R |- *.
  specialize (R ltac:(lia) Hall Hc). cbn zeta in R.
  subst k c'. destruct (retire _ _ _) as [k c']. exact R.
Qed.

(** The state in which the last, partly served transfer is examined. *)
Definition after_list (s : est) (c : Z) : est :=
  foldl complete_one s
    (take (fst (retire (desc_num_of (st_xfers s)) (queue s) c)) (queue s)).

Lemma after_list_retires (P : transfer_state -> Prop) s c :
  P TRANSFER_STATE_COMPLETED -> queue_ok s ->
  retires_to P (take (fst (retire (desc_num_of (st_xfers s)) (queue s) c)) (queue s))
    s (after_list s c) /\
  queue (after_list s c) =
    drop (fst (retire (desc_num_of (st_xfers s)) (queue s) c)) (queue s).
Proof.
  intros HP Hok. unfold after_list. set (k := fst _).
  pose proof (complete_many_retires P s k HP Hok) as R. split; [done|].
  pose proof (rt_queue _ _ _ _ R) as E.
  rewrite <- (take_drop k (queue s)) in E at 1.
  symmetry. by eapply app_inv_head.
Qed.

Lemma service_transfers_retires c s :
  queue_ok s -> e_eop_flush (st_eng s) = false ->
  exists done, retires done s (snd (service_transfers c s)) /\
    e_running (st_eng (snd (service_transfers c s))) =
    negb (list_empty (queue (snd (service_transfers c s)))).
Proof.
  intros Hok Hf. unfold service_transfers.
  set (c0 := u32 (c - e_desc_dequeued (st_eng s))).
  pose proof (u32_range (c - e_desc_dequeued (st_eng s))) as Hc. fold c0 in Hc.
  assert (Eperf : (match list_first (e_transfer_list (st_eng s)) with
                   | Some _ => engine_service_perf c | None => ret 0 end) s
                  = (0, s)) by (by destruct (list_first _)).
  exec. rewrite Eperf. exec. fold c0. fold (queue s).
  rewrite engine_service_transfer_list_run by done. exec.
  fold (after_list s c0).
  destruct (after_list_retires settled s c0 ltac:(by left) Hok) as [R1 Eq1].
  set (k := fst (retire _ (queue s) c0)) in *.
  set (c' := snd (retire _ (queue s) c0)).
  set (s1 := after_list s c0) in *. clearbody s1 k c'.
  assert (R2 : exists d, retires d s1
    (snd (engine_service_final_transfer (list_first (drop k (queue s))) c' s1))).
  { rewrite <- Eq1. destruct (queue s1) as [|id q] eqn:Eqq.
    - exists []. cbn. by apply retires_nil.
    - exists [id]. apply engine_service_final_retires;
        [by eapply retires_queue_ok|by rewrite Eqq|].
      by rewrite (rt_eop _ _ _ _ R1). }
  destruct R2 as [d2 R2].
  set (s2 := snd (engine_service_final_transfer _ c' s1)) in *. clearbody s2.
  pose proof (retires_trans _ _ _ _ _ _ (proj1 Hok) R1 R2) as R3.
  rewrite (rt_eop _ _ _ _ R3), Hf. cbn [negb]. exec.
  exists ((take k (queue s) ++ d2) ++ []). split.
  - eapply retires_trans; [apply Hok|exact R3|].
    apply engine_service_resume_retires.
  - rewrite engine_service_resume_running. do 2 f_equal.
    pose proof (rt_queue _ _ _ _ (engine_service_resume_retires settled s2)) as E.
    by rewrite app_nil_l in E.
Qed.

Lemma retires_nil_trans P s1 s2 s3 :
  retires_to P [] s1 s2 -> retires_to P [] s2 s3 -> retires_to P [] s1 s3.
Proof.
  intros [Q1 O1 _ T1 D1 P1] [Q2 O2 _ T2 D2 P2]. cbn in Q1, Q2.
  split; [by rewrite Q1| | |by etransitivity|congruence|congruence].
  - intros id Hid. by rewrite O2, O1.
  - intros id Hid. by destruct (not_elem_of_nil id).
Qed.

(** The first steps of a service: the status is read or not, *)
Lemma service_status_run (c : bool) s : exists st tr,
  (if c then engine_status_read true false else ret 0) s =
  (0, s <| st_eng ::= fun e => e <| e_status := st |> |>
        <| st_trace := tr ++ st_trace s |>).
Proof.
  destruct c; [apply engine_status_read_run|].
  exists (e_status (st_eng s)), []. by destruct s as [[] ? ? ?].
Qed.

(** the engine is shut down or not, *)
Lemma service_stop_run (c : bool) P s : exists s',
  (if c then engine_service_shutdown else ret 0) s = (0, s') /\
  retires_to P [] s s' /\ e_status (st_eng s') = e_status (st_eng s) /\
  e_dir (st_eng s') = e_dir (st_eng s) /\
  e_desc_dequeued (st_eng s') = e_desc_dequeued (st_eng s) /\
  e_regs (st_eng s') = e_regs (st_eng s) /\
  (e_running (st_eng s') = true -> e_running (st_eng s) = true).
Proof.
  destruct c.
  - destruct (engine_service_shutdown_run s) as [tr ->]. eexists.
    split; [done|]. split; [|done]. apply retires_nil; try done.
    by exists (WakeShutdown :: tr).
  - exists s. split; [done|]. split; [by apply retires_nil|done].
Qed.

(** and the count comes from the writeback or from the register. *)
Lemma service_count_run dc P s : exists n s',
  (if dc =? 0 then reg_read R_completed_desc_count else ret dc) s = (n, s') /\
  retires_to P [] s s' /\ e_running (st_eng s') = e_running (st_eng s).
Proof.
  destruct (dc =? 0).
  - rewrite reg_read_run. do 2 eexists. split; [done|].
    split; [|done]. apply retires_nil; try done. cbn. apply extends_cons.
  - exists dc, s. split; [done|]. split; [by apply retires_nil|done].
Qed.

(** Servicing the engine, on every path: transfers leave the queue from its
    head only, settled and with their waiter woken. *)
Lemma engine_service_retires wb s :
  queue_ok s -> e_eop_flush (st_eng s) = false ->
  exists done, retires done s (snd (engine_service wb s)) /\
    ((e_running (st_eng s) = true -> queue s <> []) ->
     e_running (st_eng (snd (engine_service wb s))) = true ->
     queue (snd (engine_service wb s)) <> []).
Proof.
  intros Hok Hf. unfold engine_service.
  set (dc := u32 (Z.land wb WB_COUNT_MASK)).
  set (ef := u32 (Z.land wb WB_ERR_MASK)). exec.
  destruct (e_running (st_eng s)) eqn:Er; cbn [negb].
  2:{ destruct (engine_status_read_run true s) as (st & tr & E).
      exec. rewrite E. cbn [fst snd]. change (0 <? 0) with false.
      exists []. split; [|cbn; by rewrite Er].
      apply retires_nil; try done. by eexists. }
  exec.
  destruct (service_status_run ((dc =? 0) || negb (ef =? 0)) s) as (st & tr & ->).
  cbn [fst snd]. change (0 <? 0) with false. cbn [negb].
  set (s1 := s <| st_eng ::= _ |> <| st_trace := _ |>).
  assert (R1 : retires [] s s1)
    by (apply retires_nil; try done; by exists tr).
  clearbody s1. exec.
  match goal with |- context [(if ?c then engine_service_shutdown else ret 0) s1] =>
    destruct (service_stop_run c settled s1) as (s2 & E2 & R2 & _ & _ & _ & _ & _)
  end.
  rewrite E2. cbn [fst snd]. change (0 <? 0) with false. cbn [negb]. exec.
  pose proof (retires_trans _ _ _ _ _ _ (proj1 Hok) R1 R2) as R12.
  destruct (service_count_run dc settled s2) as (n & s3 & -> & R3 & _).
  cbn [fst snd].
  pose proof (retires_trans _ _ _ _ _ _ (proj1 Hok) R12 R3) as R13.
  destruct (negb (n =? 0)).
  - destruct (service_transfers_retires n s3) as (done & R4 & Er4).
    { by eapply retires_queue_ok. }
    { by rewrite (rt_eop _ _ _ _ R13). }
    exists ((([] ++ []) ++ []) ++ done). split.
    + eapply retires_trans; [apply Hok|exact R13|exact R4].
    + intros _. rewrite Er4. intros E Eq. by rewrite Eq in E.
  - exists (([] ++ []) ++ []). split; [exact R13|].
    intros Hq Hr. pose proof (rt_queue _ _ _ _ R13) as Eq. cbn in Eq |- *.
    rewrite <- Eq. by apply Hq.
Qed.
End service2.
