(* ===== verification/EngineSys.v ===== *)
(** The engine as a transition system: the critical sections that run under
    [engine->lock], in any order, and the invariant they keep. *)
From S2P Require Import Prelude Hw Desc Types StatusDump Engine EngineFacts.

(** * Transitions *)

Section sys.
Context `{Platform} `{ModParams}.

(** One critical section, or a change of memory the engine does not own. *)
Inductive action :=
  | Submit (id : nat)                  (* a submitter queues transfer [id] *)
  | Work                               (* the interrupt's work item *)
  | Poll (HZ : Z) (fuel : nat) (expected : Z)   (* the polling thread *)
  | TimeOut (id : nat)                 (* the submitter of [id] gives up on it *)
  | Offline
  | Online
  | Memory (id : nat) (x : xdma_transfer)  (* the memory of [id] is (re)used *)
  | Device (d : xdma_dev).             (* other code changes the device *)

Definition act (a : action) (s : est) : est :=
  match a with
  | Submit id => snd (transfer_queue id s)
  | Work => snd (engine_service_work s)
  | Poll HZ fuel expected => snd (engine_service_poll HZ fuel expected s)
  | TimeOut id => snd (xfer_timeout id s)
  | Offline => snd (engine_offline s)
  | Online => snd (engine_online s)
  | Memory id x => (s <| st_xfers ::= <[id := x]> |>)
  | Device d => (s <| st_dev := d |>)
  end.

(** What is asked of the submitters: a transfer that is in the queue is not
    queued again, is not cyclic, and its memory is not reused.  The last is not
    something the code sees to in every case: [xdma_xfer_submit] frees a timed-out
    transfer that [xfer_timeout] could not take out of the queue. *)
Definition careful (a : action) (s : est) : Prop :=
  match a with
  | Submit id => id ∉ queue s /\ not_cyclic (st_xfers s) id
  | Memory id x => id ∉ queue s
  | _ => True
  end.

Definition estep (s s' : est) : Prop := exists a, careful a s /\ s' = act a s.

(** * Invariant *)

(** A queued transfer waits for the engine, or its submitter has given up on it
    while it was behind another one, where [transfer_abort] leaves it. *)
Definition submitted (xs : gmap nat xdma_transfer) (id : nat) : Prop :=
  exists st, state_of xs id = Some st /\
    (st = TRANSFER_STATE_SUBMITTED \/ st = TRANSFER_STATE_ABORTED).

Record sys_inv (s : est) : Prop := {
  inv_queue : queue_ok s;
  inv_submitted : Forall (submitted (st_xfers s)) (queue s);
  inv_running : e_running (st_eng s) = true -> queue s <> [];
  inv_eop : e_eop_flush (st_eng s) = false;
}.

(** What happened to a queued transfer: it is still queued, or the step woke its
    waiter with the transfer completed or failed. *)
Definition accounted (s s' : est) (id : nat) : Prop :=
  id ∈ queue s' \/
  (exists st, state_of (st_xfers s') id = Some st /\ settled st /\
     emitted (WakeTransfer id) (st_trace s) (st_trace s')).

(** Or the action is the time-out of this very transfer, which aborted it. *)
Definition accounted_by (a : action) (s s' : est) (id : nat) : Prop :=
  accounted s s' id \/
  a = TimeOut id /\ state_of (st_xfers s') id = Some TRANSFER_STATE_ABORTED.

(** * Preservation *)

Lemma retires_inv done s s' :
  retires done s s' -> sys_inv s ->
  (e_running (st_eng s') = true -> queue s' <> []) ->
  sys_inv s' /\ (forall id, id ∈ queue s -> accounted s s' id).
Proof.
  intros R [Hok Hsub Hrun Heop] Hrun'.
  pose proof R as [Hq Ho Hd Ht Hv He]. split; [split|].
  - by eapply retires_queue_ok.
  - rewrite Hq in Hsub. apply Forall_app in Hsub as [_ Hsub].
    destruct Hok as [Hnd _]. rewrite Hq in Hnd.
    apply NoDup_app in Hnd as (_ & Hdis & _).
    rewrite Forall_forall in Hsub |- *. intros id Hid.
    unfold submitted, state_of in *. rewrite Ho; [by apply Hsub|].
    intros Hid'. by apply (Hdis id Hid').
  - exact Hrun'.
  - congruence.
  - intros id Hid. rewrite Hq in Hid. apply elem_of_app in Hid as [Hid|Hid].
    + right. by apply Hd.
    + by left.
Qed.

Lemma only_trace_inv s s' :
  only_trace s s' -> sys_inv s ->
  sys_inv s' /\ (forall id, id ∈ queue s -> accounted s s' id).
Proof.
  intros [tr ->] Hinv. eapply (retires_inv []); [|done|by apply Hinv].
  apply retires_nil; try done. by exists tr.
Qed.

(** Steps of the engine that leave its queue and its transfers alone. *)
Lemma engine_only_inv s s' :
  queue s' = queue s -> st_xfers s' = st_xfers s ->
  e_eop_flush (st_eng s') = e_eop_flush (st_eng s) ->
  (e_running (st_eng s') = true -> queue s <> []) ->
  sys_inv s ->
  sys_inv s' /\ (forall id, id ∈ queue s -> accounted s s' id).
Proof.
  intros Hq Hx He Hr [[Hnd Hcy] Hsub Hrun Heop]. split; [split|].
  - unfold queue_ok. by rewrite Hq, Hx.
  - by rewrite Hq, Hx.
  - by rewrite Hq.
  - congruence.
  - intros id Hid. left. by rewrite Hq.
Qed.

Lemma service_inv wb s :
  sys_inv s ->
  sys_inv (snd (engine_service wb s)) /\
  (forall id, id ∈ queue s -> accounted s (snd (engine_service wb s)) id).
Proof.
  intros Hinv. pose proof Hinv as [Hok _ Hrun Heop].
  destruct (engine_service_retires wb s Hok Heop) as (done & R & Hr).
  eapply retires_inv; [exact R|done|]. by apply Hr.
Qed.

Lemma accounted_trace s s1 s2 id :
  only_trace s1 s2 -> accounted s s1 id -> accounted s s2 id.
Proof.
  intros [tr ->] [Hin|(st & ? & ? & ?)]; [by left|].
  right. exists st. split; [done|]. split; [done|].
  eapply emitted_l; [done|]. by exists tr.
Qed.

Lemma accounted_r s s1 s2 id :
  extends (st_trace s) (st_trace s1) -> accounted s1 s2 id -> accounted s s2 id.
Proof.
  intros He [Hin|(st & ? & ? & ?)]; [by left|].
  right. exists st. split; [done|]. split; [done|].
  by eapply emitted_r.
Qed.

Lemma work_inv s :
  sys_inv s ->
  sys_inv (snd (engine_service_work s)) /\
  (forall id, id ∈ queue s -> accounted s (snd (engine_service_work s)) id).
Proof.
  intros Hinv. unfold engine_service_work. exec.
  destruct (negb _); [by apply (only_trace_inv s s)|]. exec.
  destruct (service_inv 0 s Hinv) as [Hinv1 Hacc].
  set (s1 := snd (engine_service 0 s)) in *. clearbody s1.
  destruct (_ <? 0); [done|]. exec.
  match goal with |- sys_inv ?s2 /\ _ => assert (only_trace s1 s2) as Ht end.
  { destruct (xd_msix_enabled (st_dev s1)); [apply reg_write_trace|].
    unfold channel_interrupts_enable. exec. by eexists [_]. }
  split; [by apply (only_trace_inv s1)|].
  intros id Hid. eapply accounted_trace; [exact Ht|]. by apply Hacc.
Qed.

Lemma wb_poll_trace fuel timeout expected n s :
  only_trace s (snd (wb_poll fuel timeout expected n s)).
Proof.
  revert n s. induction fuel as [|fuel IH]; intros n s; cbn [wb_poll].
  { apply ret_trace. }
  apply bind_trace; [by eexists [_]|]. intros wb s1.
  apply bind_trace; [apply when_trace; intros; by eexists [_]|]. intros _ s2.
  destruct (has_bits _ _); [apply ret_trace|].
  destruct (_ <=? _); [apply ret_trace|].
  apply bind_trace; [by eexists [_]|]. intros j s3.
  destruct (time_after _ _); [apply ret_trace|].
  apply bind_trace; [|intros; apply IH].
  apply when_trace; intros. by eexists [_].
Qed.

Lemma poll_inv HZ fuel expected s :
  sys_inv s ->
  sys_inv (snd (engine_service_poll HZ fuel expected s)) /\
  (forall id, id ∈ queue s ->
     accounted s (snd (engine_service_poll HZ fuel expected s)) id).
Proof.
  intros Hinv. unfold engine_service_poll. exec.
  destruct (negb _); [by apply (only_trace_inv s s)|]. exec.
  assert (Ht : only_trace s (snd (engine_service_wb_monitor HZ fuel expected s))).
  { unfold engine_service_wb_monitor. apply bind_trace; [by eexists [_]|].
    intros j s1. destruct (_ =? _); [apply ret_trace|apply wb_poll_trace]. }
  destruct (engine_service_wb_monitor HZ fuel expected s) as [o s1].
  cbn [fst snd] in *. destruct (only_trace_inv _ _ Ht Hinv) as [Hinv1 Hacc1].
  destruct o as [wb|]; [|done].
  destruct (wb =? 0); [done|]. exec.
  destruct (service_inv (i32 wb) s1 Hinv1) as [Hinv2 Hacc2].
  split; [done|]. intros id Hid. eapply accounted_r; [|apply Hacc2].
  - destruct Ht as [tr ->]. by exists tr.
  - destruct Ht as [tr ->]. exact Hid.
Qed.

Lemma alter_insert_id {A} (f : A -> A) i x (m : gmap nat A) :
  m !! i = Some x -> alter f i m = <[i := f x]> m.
Proof.
  intros Hx. apply map_eq. intros j. rewrite lookup_alter, lookup_insert.
  case_decide; subst; [|done]. by rewrite Hx.
Qed.

(** A submitted transfer at the end of the queue. *)
Lemma append_inv id x s s2 :
  id ∉ queue s -> not_cyclic (st_xfers s) id -> st_xfers s !! id = Some x -> sys_inv s ->
  queue s2 = queue s ++ [id] ->
  st_xfers s2 = <[id := x <| x_state := TRANSFER_STATE_SUBMITTED |>]> (st_xfers s) ->
  e_eop_flush (st_eng s2) = false ->
  sys_inv s2 /\ (forall id', id' ∈ queue s -> accounted s s2 id').
Proof.
  intros Hnew (x' & Hx' & Hc & Hn) Hx [[Hnd Hcy] Hsub _ _] Eq2 Ex2 Heop.
  assert (Hother : forall id', id' ∈ queue s -> st_xfers s2 !! id' = st_xfers s !! id').
  { intros id' Hid'. rewrite Ex2, lookup_insert_ne; [done|]. set_solver. }
  rewrite Hx in Hx'. injection Hx' as <-.
  split; [split; [split| | |done]|]; rewrite ?Eq2.
  - apply NoDup_app. split; [done|]. split; [set_solver|]. apply NoDup_singleton.
  - apply Forall_app. split; [|constructor; [|done]].
    + rewrite Forall_forall in Hcy |- *. intros id' Hid'.
      destruct (Hcy id' Hid') as (y & ? & ?). exists y. by rewrite Hother.
    + eexists. by rewrite Ex2, lookup_insert_eq.
  - apply Forall_app. split; [|constructor; [|done]].
    + rewrite Forall_forall in Hsub |- *. intros id' Hid'.
      unfold submitted, state_of. rewrite Hother by done. by apply Hsub.
    + exists TRANSFER_STATE_SUBMITTED. unfold state_of.
      rewrite Ex2, lookup_insert_eq. by split; [|left].
  - intros _ E. by apply app_nil in E as [_ ?].
  - intros id' Hid'. left. rewrite Eq2. set_solver.
Qed.

Lemma queue_inv id s :
  id ∉ queue s -> not_cyclic (st_xfers s) id -> sys_inv s ->
  sys_inv (snd (transfer_queue id s)) /\
  (forall id', id' ∈ queue s -> accounted s (snd (transfer_queue id s)) id').
Proof.
  intros Hnew Hcy Hinv. pose proof Hcy as (x & Hx & _).
  assert (Hno : forall s', only_trace s s' ->
    sys_inv s' /\ (forall id', id' ∈ queue s -> accounted s s' id'))
    by (intros s' Ht; by apply only_trace_inv).
  unfold transfer_queue. exec. destruct (_ =? 0); [by apply Hno|]. exec.
  destruct (xdma_device_flag_check _ _); [by apply Hno|].
  unfold kcall, emit. exec. cbn [st_eng upd_field].
  set (s1 := upd_field st_eng _ _).
  assert (H1 : sys_inv s1 /\ (forall id', id' ∈ queue s -> accounted s s1 id')).
  { by apply engine_only_inv; try apply Hinv. }
  destruct H1 as [Hinv1 Hacc1].
  assert (Eq1 : queue s1 = queue s) by done.
  assert (Ex1 : st_xfers s1 = st_xfers s) by done.
  clearbody s1. destruct (has_bits _ _); [done|]. exec.
  set (s2 := upd_field st_eng _ (upd_field st_xfers _ s1)).
  assert (Eq2 : queue s2 = queue s ++ [id]) by by rewrite <- Eq1.
  destruct (append_inv id x s s2 Hnew Hcy Hx Hinv Eq2) as [Hinv2 Hacc2].
  { cbn. by rewrite Ex1, (alter_insert_id _ _ x). }
  { cbn. apply Hinv1. }
  clearbody s2.
  destruct (e_running (st_eng s2)) eqn:Er; cbn [negb]; [done|]. exec.
  destruct (queue s2) as [|h q] eqn:Eq; [by destruct (queue s)|].
  destruct (engine_start_run s2 h q Er Eq) as (st & tr & ->). cbn [snd].
  destruct (engine_only_inv s2 (s2 <| st_eng ::= fun e =>
     e <| e_shutdown := ENGINE_SHUTDOWN_NONE |> <| e_desc_dequeued := 0 |>
       <| e_status := st |> <| e_running := true |> |>
     <| st_trace := tr ++ st_trace s2 |>)) as [Hinv3 _]; try done.
  { by rewrite Eq. }
  split; [done|]. intros id' Hid'. left. unfold queue. cbn. fold (queue s2).
  rewrite Eq, Eq2. set_solver.
Qed.

Lemma engine_reg_dump_run s :
  exists rv tr, engine_reg_dump s = (rv, s <| st_trace := tr ++ st_trace s |>).
Proof.
  destruct (engine_reg_dump_trace s) as [tr E].
  exists (fst (engine_reg_dump s)), tr. rewrite <- E.
  apply surjective_pairing.
Qed.

(** What [transfer_abort] does to the queue and to the transfers. *)
Definition abort_list (id : nat) (l : list nat) : list nat :=
  if decide (head l = Some id) then tail l else l.
Definition abort_xfer (id : nat) (xs : gmap nat xdma_transfer)
    : gmap nat xdma_transfer :=
  if decide (state_of xs id = Some TRANSFER_STATE_SUBMITTED)
  then alter (fun x => x <| x_state := TRANSFER_STATE_ABORTED |>) id xs else xs.

Lemma upd_list_ext f g e :
  f (e_transfer_list e) = g (e_transfer_list e) ->
  e <| e_transfer_list ::= f |> = e <| e_transfer_list ::= g |>.
Proof. intros E. unfold upd_field. by rewrite E. Qed.

Lemma upd_list_same f e :
  f (e_transfer_list e) = e_transfer_list e -> e <| e_transfer_list ::= f |> = e.
Proof. intros E. unfold upd_field. rewrite E. by destruct e. Qed.

Lemma transfer_abort_run id s :
  x_desc_num (default zero_transfer (st_xfers s !! id)) <> 0 ->
  transfer_abort id s =
  (0, s <| st_eng ::= fun e => e <| e_transfer_list ::= abort_list id |> |>
        <| st_xfers ::= abort_xfer id |>).
Proof.
  intros Hn. destruct s as [e d xs t]. cbn in Hn.
  unfold transfer_abort. exec. cbn [st_xfers st_eng].
  destruct (Z.eqb_spec (x_desc_num (default zero_transfer (xs !! id))) 0);
    [done|]. exec. cbn [st_xfers st_eng].
  destruct (xs !! id) as [x|] eqn:Hx; [|done].
  assert (Ex : abort_xfer id xs = if bool_decide (x_state x =
      TRANSFER_STATE_SUBMITTED) then alter (fun x => x <| x_state :=
      TRANSFER_STATE_ABORTED |>) id xs else xs).
  { unfold abort_xfer, state_of. rewrite Hx. cbn.
    destruct (decide (x_state x = TRANSFER_STATE_SUBMITTED)) as [E|E].
    - rewrite decide_True, bool_decide_eq_true_2 by congruence. done.
    - rewrite decide_False, bool_decide_eq_false_2 by congruence. done. }
  change (default zero_transfer (Some x)) with x.
  assert (El : match list_first (e_transfer_list e) with
     | Some head => when (bool_decide (head = id)) list_del_first
     | None => ret tt end (Build_est e d xs t) =
     (tt, Build_est (e <| e_transfer_list ::= abort_list id |>) d xs t)).
  { destruct (e_transfer_list e) as [|h q] eqn:El; cbn [list_first head].
    - rewrite upd_list_same by (by rewrite El). done.
    - rewrite when_run. destruct (decide (h = id)) as [->|Hne].
      + rewrite bool_decide_eq_true_2, list_del_first_run by done.
        change ((Build_est ?e d xs t) <| st_eng ::= ?f |>)
          with (Build_est (f e) d xs t). cbv beta. do 2 f_equal.
        apply upd_list_ext. rewrite El. unfold abort_list.
        by rewrite decide_True by done.
      + rewrite bool_decide_eq_false_2, upd_list_same; [done| |done].
        rewrite El. unfold abort_list. rewrite decide_False; [done|].
        cbn. congruence. }
  rewrite El. cbn [fst snd].
  destruct (bool_decide (x_state x = _)) eqn:Eb; exec;
    unfold upd_field; cbn [st_eng st_dev st_xfers st_trace]; by rewrite Ex.
Qed.

Lemma abort_list_sublist id l : abort_list id l `sublist_of` l.
Proof.
  unfold abort_list. case_decide as Hd; [|done].
  destruct l as [|h l]; [done|]. by apply sublist_cons.
Qed.

Lemma abort_list_incl id id' l : id' ∈ abort_list id l -> id' ∈ l.
Proof.
  unfold abort_list. case_decide; [|done]. destruct l; [done|]. set_solver.
Qed.

Lemma abort_list_elem id id' l : id' ∈ l -> id' ∈ abort_list id l \/ id' = id.
Proof.
  unfold abort_list. case_decide as Hd; [|by left].
  destruct l as [|h l]; [done|]. injection Hd as ->.
  intros [->|Hin]%elem_of_cons; [by right|by left].
Qed.

Lemma abort_xfer_lookup id xs id' x :
  xs !! id' = Some x ->
  abort_xfer id xs !! id' = Some x \/
  (id' = id /\ x_state x = TRANSFER_STATE_SUBMITTED /\
   abort_xfer id xs !! id' = Some (x <| x_state := TRANSFER_STATE_ABORTED |>)).
Proof.
  intros Hx. unfold abort_xfer. case_decide as Hd; [|by left].
  destruct (decide (id' = id)) as [->|Hne].
  - right. unfold state_of in Hd. rewrite Hx in Hd. injection Hd as Hd.
    by rewrite lookup_alter_eq, Hx.
  - left. by rewrite lookup_alter_ne.
Qed.

Lemma abort_xfer_cyclic id xs id' :
  not_cyclic xs id' -> not_cyclic (abort_xfer id xs) id'.
Proof.
  intros (x & Hx & Hc). destruct (abort_xfer_lookup id xs id' x Hx) as
    [E|(_ & _ & E)]; by eexists.
Qed.

Lemma abort_xfer_submitted id xs id' :
  submitted xs id' -> submitted (abort_xfer id xs) id'.
Proof.
  intros (st & Hst & Hor). unfold submitted, state_of in *.
  destruct (xs !! id') as [x|] eqn:Hx; [|done]. injection Hst as <-.
  destruct (abort_xfer_lookup id xs id' x Hx) as [E|(_ & _ & E)]; rewrite E.
  - by eexists.
  - eexists. by split; [|right].
Qed.

Lemma abort_xfer_state id xs :
  submitted xs id -> state_of (abort_xfer id xs) id = Some TRANSFER_STATE_ABORTED.
Proof.
  intros (st & Hst & Hor). unfold abort_xfer.
  case_decide as Hd; [|by destruct Hor; subst].
  unfold state_of in *. rewrite lookup_alter_eq. by destruct (xs !! id).
Qed.

(** A transfer is aborted and the engine stopped. *)
Lemma abort_inv id s s' :
  sys_inv s ->
  queue s' = abort_list id (queue s) ->
  st_xfers s' = abort_xfer id (st_xfers s) ->
  e_running (st_eng s') = false ->
  e_eop_flush (st_eng s') = e_eop_flush (st_eng s) ->
  sys_inv s' /\ (forall s0 id', id' ∈ queue s -> accounted_by (TimeOut id) s0 s' id').
Proof.
  intros [[Hnd Hcy] Hsub _ Heop] Hq Hx Hr He.
  pose proof (abort_list_sublist id (queue s)) as Hl. rewrite <- Hq in Hl.
  split; [split; [split|..]|].
  - by eapply sublist_NoDup.
  - rewrite Forall_forall in Hcy |- *. intros id' Hin. rewrite Hx.
    by apply abort_xfer_cyclic, Hcy, (abort_list_incl id), (eq_ind _ (fun l => id' ∈ l) Hin _ Hq).
  - rewrite Forall_forall in Hsub |- *. intros id' Hin. rewrite Hx.
    by apply abort_xfer_submitted, Hsub, (abort_list_incl id), (eq_ind _ (fun l => id' ∈ l) Hin _ Hq).
  - congruence.
  - congruence.
  - intros s0 id' Hin. destruct (abort_list_elem id id' (queue s) Hin) as [Hin'| ->].
    + left; left. by rewrite Hq.
    + right. split; [done|]. rewrite Hx. apply abort_xfer_state.
      rewrite Forall_forall in Hsub. by apply Hsub.
Qed.

(** The queue, the transfers and the running flag stay. *)
Definition quiet (s s' : est) : Prop :=
  queue s' = queue s /\ st_xfers s' = st_xfers s /\
  e_eop_flush (st_eng s') = e_eop_flush (st_eng s) /\
  e_running (st_eng s') = e_running (st_eng s).

Lemma quiet_inv s s' :
  quiet s s' -> sys_inv s ->
  sys_inv s' /\ (forall id, id ∈ queue s -> accounted s s' id).
Proof.
  intros (Hq & Hx & He & Hr) Hinv. apply engine_only_inv; try done.
  rewrite Hr. apply Hinv.
Qed.

Lemma engine_status_read_quiet clear dump s :
  quiet s (snd (engine_status_read clear dump s)).
Proof.
  unfold engine_status_read. exec. destruct dump.
  - destruct (engine_reg_dump_run s) as (rv & tr & ->). cbn [fst snd].
    by destruct (rv <? 0).
  - by destruct (_ <? 0).
Qed.

Lemma timeout_inv id s :
  sys_inv s ->
  sys_inv (snd (xfer_timeout id s)) /\
  (forall id', id' ∈ queue s ->
     accounted_by (TimeOut id) s (snd (xfer_timeout id s)) id').
Proof.
  intros Hinv. unfold xfer_timeout. exec.
  pose proof (engine_status_read_quiet false true s) as Hquiet.
  destruct (engine_status_read false true s) as [rv s1]. cbn [fst snd] in *.
  destruct (quiet_inv _ _ Hquiet Hinv) as [Hinv1 Hacc1].
  assert (Hacc1' : forall id', id' ∈ queue s -> accounted_by (TimeOut id) s s1 id')
    by (intros id' Hid; left; by apply Hacc1).
  destruct (rv <? 0); [done|]. destruct (rv =? 0); [|done]. exec.
  destruct (Z.eq_dec (x_desc_num (default zero_transfer (st_xfers s1 !! id))) 0)
    as [E|E].
  { unfold transfer_abort. exec. by rewrite E. }
  rewrite transfer_abort_run by done. cbn [fst snd].
  change (0 <? 0) with false. change (0 =? 0) with true. cbv iota.
  match goal with |- context [xdma_engine_stop ?t] =>
    destruct (xdma_engine_stop_run t) as [tr ->] end. cbn [fst snd].
  destruct Hquiet as (Hq & _).
  edestruct (abort_inv id s1) as [Hinv2 Hacc2]; [done|..];
    cycle -1; [split; [exact Hinv2|]|done..].
  intros id' Hid'. apply Hacc2. by rewrite Hq.
Qed.

Lemma offline_inv s :
  sys_inv s ->
  sys_inv (snd (engine_offline s)) /\
  (forall id, id ∈ queue s -> accounted s (snd (engine_offline s)) id).
Proof.
  intros Hinv. unfold engine_offline. exec.
  match goal with |- context [xdma_engine_stop ?t] =>
    destruct (xdma_engine_stop_run t) as [tr ->] end.
  by apply engine_only_inv.
Qed.

Lemma online_inv s :
  sys_inv s ->
  sys_inv (snd (engine_online s)) /\
  (forall id, id ∈ queue s -> accounted s (snd (engine_online s)) id).
Proof. intros Hinv. by apply quiet_inv. Qed.

Lemma memory_inv id x s :
  id ∉ queue s -> sys_inv s ->
  let s' := s <| st_xfers ::= <[id := x]> |> in
  sys_inv s' /\ (forall id', id' ∈ queue s -> accounted s s' id').
Proof.
  intros Hid [[Hnd Hcy] Hsub Hrun Heop] s'.
  assert (Hsame : forall id', id' ∈ queue s ->
    st_xfers s' !! id' = st_xfers s !! id').
  { intros id' Hid'. cbn. rewrite lookup_insert_ne; [done|]. by intros ->. }
  split; [split; try done; change (queue s') with (queue s)|].
  - split; [done|]. change (queue s') with (queue s).
    rewrite Forall_forall in Hcy |- *. intros id' Hid'.
    destruct (Hcy id' Hid') as (y & ? & ?). exists y. by rewrite Hsame.
  - rewrite Forall_forall in Hsub |- *. intros id' Hid'.
    unfold submitted, state_of. rewrite Hsame by done. by apply Hsub.
  - intros id' Hid'. by left.
Qed.

(** Every step keeps the invariant and accounts for every queued transfer. *)
Lemma act_inv a s :
  careful a s -> sys_inv s ->
  sys_inv (act a s) /\ (forall id, id ∈ queue s -> accounted_by a s (act a s) id).
Proof.
  intros Hc Hinv.
  assert (Hone : forall s', sys_inv s' /\ (forall id, id ∈ queue s -> accounted s s' id) ->
    sys_inv s' /\ (forall id, id ∈ queue s -> accounted_by a s s' id))
    by (intros s' [? Ha]; split; [done|intros; left; by apply Ha]).
  destruct a; cbn [act careful] in *.
  - destruct Hc. by apply Hone, queue_inv.
  - by apply Hone, work_inv.
  - by apply Hone, poll_inv.
  - by apply timeout_inv.
  - by apply Hone, offline_inv.
  - by apply Hone, online_inv.
  - by apply Hone, memory_inv.
  - by apply Hone, quiet_inv.
Qed.

Lemma estep_inv s s' : estep s s' -> sys_inv s -> sys_inv s'.
Proof. intros (a & Hc & ->) Hinv. by apply act_inv. Qed.
End sys.
