(* ===== verification/ServiceFacts.v ===== *)
(** The engine's service routine when the device's count of completed
    descriptors is accurate. *)
From S2P Require Import Prelude Hw Desc Types Engine EngineFacts.

Definition desc_sum (xs : gmap nat xdma_transfer) (ids : list nat) : Z :=
  foldr (fun id n => desc_num_of xs id + n) 0 ids.

Definition completed (st : transfer_state) : Prop :=
  st = TRANSFER_STATE_COMPLETED.
Definition failed (st : transfer_state) : Prop := st = TRANSFER_STATE_FAILED.

Section exact.
Context `{Platform} `{ModParams}.
Implicit Types (s : est).

Lemma queue_head_present s id :
  queue_ok s -> head (queue s) = Some id ->
  exists x, st_xfers s !! id = Some x /\ 0 < x_desc_num x < 2 ^ 31.
Proof.
  intros [_ Hall] Hh. destruct (queue s) as [|h q]; [done|]. injection Hh as ->.
  inversion Hall as [|? ? (x & ? & ? & ?) _]; subst. eauto.
Qed.

(** The last transfer of a run of completed ones. *)
Lemma engine_service_final_exact s id :
  queue_ok s -> head (queue s) = Some id -> e_eop_flush (st_eng s) = false ->
  status_error (st_eng s) = false ->
  retires_to completed [id] s
    (snd (engine_service_final_transfer (Some id)
            (desc_num_of (st_xfers s) id) s)).
Proof.
  intros Hok Hh Hf Hst.
  destruct (queue_head_present s id Hok Hh) as (x & Hx & Hn).
  unfold engine_service_final_transfer, desc_num_of. exec. rewrite Hst, Hx. exec.
  rewrite Hx. change (default zero_transfer (Some x)) with x.
  rewrite u32_small by lia. rewrite Z.ltb_irrefl. exec.
  apply transfer_del_retires; try done; cbn.
  - intros id' Hne. by rewrite !lookup_alter_ne.
  - exists TRANSFER_STATE_COMPLETED. split; [|done].
    unfold state_of. by rewrite lookup_alter_eq, Hx.
Qed.

(** The transfer in progress when the status reports an error. *)
Lemma engine_service_final_failed s id c :
  queue_ok s -> head (queue s) = Some id ->
  status_error (st_eng s) = true ->
  retires_to failed [id] s
    (snd (engine_service_final_transfer (Some id) c s)) /\
  e_running (st_eng (snd (engine_service_final_transfer (Some id) c s))) = false.
Proof.
  intros Hok Hh Hst.
  destruct (queue_head_present s id Hok Hh) as (x & Hx & Hn).
  unfold engine_service_final_transfer. exec. rewrite Hst.
  unfold engine_err_handle. exec.
  set (s1 := snd (_ s)). assert (H1 : only_trace s s1).
  { subst s1. destruct (has_bits _ _); auto with prog. }
  destruct H1 as [tr1 E1]. rewrite E1. clear s1 E1.
  match goal with |- context [xdma_engine_stop ?t] =>
    destruct (xdma_engine_stop_run t) as [tr2 ->] end. cbn [snd]. split.
  - apply transfer_del_retires; try done.
    + intros id' Hne. cbn. by rewrite lookup_alter_ne.
    + exists TRANSFER_STATE_FAILED. split; [|done].
      cbn. by erewrite state_of_alter.
    + cbn. exists (tr2 ++ tr1). by rewrite app_assoc.
  - unfold transfer_del. exec. by rewrite engine_transfer_completion_run.
Qed.

Lemma status_error_complete_many s ids :
  status_error (st_eng (foldl complete_one s ids)) = status_error (st_eng s).
Proof.
  unfold status_error.
  destruct (complete_many_engine s ids) as (_ & -> & -> & _). done.
Qed.

Lemma desc_num_of_complete_many s ids id :
  desc_num_of (st_xfers (foldl complete_one s ids)) id =
  desc_num_of (st_xfers s) id.
Proof.
  revert s. induction ids as [|i ids IH]; intros s; [done|].
  cbn [foldl]. rewrite IH. apply desc_num_of_complete.
Qed.

Lemma head_drop {A} (l : list A) k d :
  (k < length l)%nat -> head (drop k l) = Some (nth k l d).
Proof.
  revert k. induction l as [|x l IH]; intros [|k] Hk; cbn in *; try lia; [done|].
  apply IH. lia.
Qed.

Lemma service_perf_run (o : option nat) n s :
  (match o with Some _ => engine_service_perf n | None => ret 0 end) s = (0, s).
Proof. by destruct o. Qed.

Lemma desc_sum_nonneg xs ids :
  Forall (fun id => 0 < desc_num_of xs id) ids -> 0 <= desc_sum xs ids.
Proof. unfold desc_sum. induction 1; cbn [foldr]; lia. Qed.

(** The descriptors of the first [k + 1] transfers have completed. *)
Lemma service_transfers_exact n k s :
  queue_ok s -> e_eop_flush (st_eng s) = false ->
  status_error (st_eng s) = false -> (k < length (queue s))%nat ->
  desc_sum (st_xfers s) (take (S k) (queue s)) < 2 ^ 32 ->
  n = u32 (e_desc_dequeued (st_eng s) +
           desc_sum (st_xfers s) (take (S k) (queue s))) ->
  let s' := snd (service_transfers n s) in
  retires_to completed (take (S k) (queue s)) s s' /\
  e_running (st_eng s') = negb (list_empty (queue s')).
Proof.
  intros Hok Hf Hst Hk Hn ->. unfold service_transfers.
  pose proof (proj2 Hok) as Hall.
  assert (Hpos : Forall (fun id => 0 < desc_num_of (st_xfers s) id) (queue s)).
  { eapply Forall_impl; [exact Hall|]. intros id (x & Hx & _ & ?).
    unfold desc_num_of. rewrite Hx. cbn. lia. }
  assert (Hsum : 0 <= desc_sum (st_xfers s) (take (S k) (queue s))).
  { by apply desc_sum_nonneg, Forall_take. }
  pose proof (retire_exact _ _ k Hpos Hk) as Er.
  fold (desc_sum (st_xfers s) (take (S k) (queue s))) in Er.
  set (n := u32 _). exec. rewrite service_perf_run. exec.
  replace (u32 (n - e_desc_dequeued (st_eng s)))
    with (desc_sum (st_xfers s) (take (S k) (queue s)))
    by (unfold n; rewrite u32_sub_l, u32_small; lia).
  fold (queue s).
  rewrite engine_service_transfer_list_run by (done || lia). exec.
  set (c := desc_sum _ _) in *. fold (after_list s c).
  destruct (after_list_retires completed s c eq_refl Hok) as [R1 Eq1].
  assert (Est : status_error (st_eng (after_list s c)) = false)
    by (unfold after_list; by rewrite status_error_complete_many).
  assert (Edn : desc_num_of (st_xfers (after_list s c)) (nth k (queue s) 0%nat) =
                desc_num_of (st_xfers s) (nth k (queue s) 0%nat))
    by apply desc_num_of_complete_many.
  rewrite Er in *. cbn [fst snd] in *. rewrite <- Edn.
  set (s1 := after_list s c) in *. clearbody s1.
  pose proof (head_drop (queue s) k 0%nat Hk) as Hh.
  assert (Hok1 : queue_ok s1) by (by eapply retires_queue_ok).
  assert (Hf1 : e_eop_flush (st_eng s1) = false)
    by (by rewrite (rt_eop _ _ _ _ R1)).
  unfold list_first. rewrite Hh.
  rewrite <- Eq1 in Hh.
  pose proof (engine_service_final_exact s1 _ Hok1 Hh Hf1 Est) as R2.
  set (s2 := snd (engine_service_final_transfer _ _ s1)) in *. clearbody s2.
  rewrite (rt_eop _ _ _ _ R2), Hf1. cbn [negb]. exec.
  pose proof (engine_service_resume_retires completed s2) as R3.
  assert (Etake : take (S k) (queue s) =
    (take k (queue s) ++ [nth k (queue s) 0%nat]) ++ []).
  { rewrite app_nil_r. clear - Hk. revert k Hk.
    induction (queue s) as [|x l IH]; intros [|k] Hk; cbn in Hk |- *; try lia;
      [by rewrite take_0|]. f_equal. apply IH. lia. }
  rewrite Etake. split.
  - eapply retires_trans; [apply Hok| |exact R3].
    eapply retires_trans; [apply Hok|exact R1|exact R2].
  - rewrite engine_service_resume_running. do 2 f_equal.
    pose proof (rt_queue _ _ _ _ R3) as E. by rewrite app_nil_l in E.
Qed.
End exact.

Section errors.
Context `{Platform} `{ModParams}.
Implicit Types (s : est).

(** The status reports an error: the transfers whose descriptors have all
    completed are complete, the next one has failed. *)
Lemma service_transfers_failed n s :
  queue_ok s -> e_eop_flush (st_eng s) = false ->
  status_error (st_eng s) = true ->
  let k := fst (retire (desc_num_of (st_xfers s)) (queue s)
                  (u32 (n - e_desc_dequeued (st_eng s)))) in
  (k < length (queue s))%nat ->
  let s' := snd (service_transfers n s) in
  exists s1, retires_to completed (take k (queue s)) s s1 /\
    retires_to failed [nth k (queue s) 0%nat] s1 s' /\
    e_running (st_eng s') = negb (list_empty (queue s')).
Proof.
  intros Hok Hf Hst k Hk. unfold service_transfers. exec.
  rewrite service_perf_run. exec. fold (queue s).
  set (c := u32 _) in *. pose proof (u32_range (n - e_desc_dequeued (st_eng s))).
  rewrite engine_service_transfer_list_run by done. exec.
  fold (after_list s c). fold k.
  destruct (after_list_retires completed s c eq_refl Hok) as [R1 Eq1].
  fold k in R1, Eq1.
  assert (Est : status_error (st_eng (after_list s c)) = true)
    by (unfold after_list; by rewrite status_error_complete_many).
  set (s1 := after_list s c) in *. clearbody s1.
  pose proof (head_drop (queue s) k 0%nat Hk) as Hh.
  assert (Hok1 : queue_ok s1) by (by eapply retires_queue_ok).
  unfold list_first. rewrite Hh. rewrite <- Eq1 in Hh.
  set (c' := snd (retire _ _ c)). clearbody c'.
  destruct (engine_service_final_failed s1 _ c' Hok1 Hh Est) as [R2 _].
  set (s2 := snd (engine_service_final_transfer _ _ s1)) in *. clearbody s2.
  rewrite (rt_eop _ _ _ _ R2), (rt_eop _ _ _ _ R1), Hf. cbn [negb]. exec.
  pose proof (engine_service_resume_retires failed s2) as R3.
  exists s1. split; [done|]. split.
  - rewrite <- (app_nil_r [_]).
    eapply retires_trans; [apply Hok1|exact R2|exact R3].
  - rewrite engine_service_resume_running. do 2 f_equal.
    pose proof (rt_queue _ _ _ _ R3) as E. by rewrite app_nil_l in E.
Qed.

(** The run of [engine_service] up to the count of completed descriptors, when
    it is called from the interrupt work. *)
Lemma engine_service_irq_run s st n :
  e_running (st_eng s) = true ->
  (forall t, mmio_answer t (u64 (e_regs (st_eng s) + R_status_rc)) = st) ->
  (forall t, mmio_answer t (u64 (e_regs (st_eng s) + R_completed_desc_count)) = n) ->
  0 <= n < 2 ^ 32 -> 0 <= st < 2 ^ 32 ->
  exists s1, retires_to completed [] s s1 /\
    e_status (st_eng s1) = st /\ e_dir (st_eng s1) = e_dir (st_eng s) /\
    e_desc_dequeued (st_eng s1) = e_desc_dequeued (st_eng s) /\
    engine_service 0 s =
      (0, if n =? 0 then s1 else snd (service_transfers n s1)).
Proof.
  intros Hr Hst Hn Hn0 Hst0. unfold engine_service.
  change (u32 (Z.land 0 WB_COUNT_MASK)) with 0.
  change (u32 (Z.land 0 WB_ERR_MASK)) with 0. exec. rewrite Hr. cbn [negb].
  change ((0 =? 0) || negb (0 =? 0)) with true. cbv iota. exec.
  unfold engine_status_read. exec.
  change (0 <? 0) with false. cbv iota. exec. rewrite reg_read_run.
  cbn [fst snd]. exec. rewrite Hst, (u32_small st) by done.
  set (s1 := upd_field st_eng _ _).
  assert (R1 : retires_to completed [] s s1).
  { apply retires_nil; try done. cbn. apply extends_cons. }
  assert (E1 : e_status (st_eng s1) = st) by done.
  assert (E2 : e_dir (st_eng s1) = e_dir (st_eng s)) by done.
  assert (E3 : e_desc_dequeued (st_eng s1) = e_desc_dequeued (st_eng s)) by done.
  assert (E4 : e_regs (st_eng s1) = e_regs (st_eng s)) by done.
  clearbody s1.
  change (0 <? 0) with false. cbv iota. exec.
  match goal with |- context [(if ?c then engine_service_shutdown else ret 0) s1] =>
    destruct (service_stop_run c completed s1) as (s2 & E & R2 & F1 & F2 & F3 & F4 & _)
  end.
  rewrite E. cbn [fst snd].
  change (0 <? 0) with false. cbv iota. exec.
  change (0 =? 0) with true. cbv iota. rewrite reg_read_run.
  cbn [fst snd]. rewrite F4, E4, Hn, (u32_small n) by done.
  set (s3 := s2 <| st_trace := _ |>).
  assert (R3 : retires_to completed [] s2 s3).
  { apply retires_nil; try done. cbn. apply extends_cons. }
  exists s3. split.
  - assert (Hnil : retires_to completed ([] ++ []) s s2).
    { apply (retires_nil_trans _ _ _ _ R1 R2). }
    exact (retires_nil_trans _ _ _ _ Hnil R3).
  - split; [exact (eq_trans F1 E1)|]. split; [exact (eq_trans F2 E2)|].
    split; [exact (eq_trans F3 E3)|]. by destruct (n =? 0).
Qed.
End errors.
