(* ===== verification/Transfer.v ===== *)
(** Building one transfer of a request in the engine's descriptor memory
    ([src/src/libxdma.c], [transfer_destroy] to [transfer_init]). *)
From S2P Require Import Prelude Hw Desc Types.

(** * Operations *)

(** The variables of the loop of [transfer_build]: the descriptor and result
    memory, [xfer->len], [req->ep_addr] and [bus]. *)
Record build_st := {
  b_mem : list xdma_desc;
  b_res : option (list xdma_result);
  b_len : Z;
  b_ep : Z;
  b_bus : Z;
}.

#[export] Instance eta_build_st : Eta build_st := fun r =>
  Build_build_st (b_mem r) (b_res r) (b_len r) (b_ep r) (b_bus r).

(** [desc_virt[j].src_addr] of a streaming C2H descriptor is the bus address of
    its result. *)
Definition desc_set_result (bus : Z) (d : xdma_desc) : xdma_desc :=
  d <| d_src_addr_lo := PCI_DMA_L bus |> <| d_src_addr_hi := PCI_DMA_H bus |>.

Definition streaming_c2h (e : xdma_engine) : bool :=
  e_streaming e && is_from_device (e_dir e).

(** One iteration; [None] when [sdesc] is read outside the request. *)
Definition build_step (e : xdma_engine) (req : xdma_request_cb)
    (xfer : xdma_transfer) (i : Z) (st : build_st) : option build_st :=
  sdesc ← zlookup (rq_sdesc req) (rq_sw_desc_idx req + i);
  let st :=
    st <| b_mem ::= zalter (xdma_desc_set (sd_addr sdesc) (b_ep st)
                              (sd_len sdesc) (x_dir xfer)) (x_desc_virt xfer + i) |>
       <| b_len ::= fun l => u32 (l + sd_len sdesc) |> in
  let st :=
    if e_non_incr_addr e then st
    else st <| b_ep ::= fun ep => u64 (ep + sd_len sdesc) |> in
  Some (if streaming_c2h e then
          st <| b_res ::= fmap (zset zero_result (x_res_virt xfer + i)) |>
             <| b_mem ::= zalter (desc_set_result (b_bus st)) (x_desc_virt xfer + i) |>
             <| b_bus ::= fun b => u64 (b + sizeof_xdma_result) |>
        else st).

Fixpoint build_loop (e : xdma_engine) (req : xdma_request_cb)
    (xfer : xdma_transfer) (n : nat) (i : Z) (st : build_st) : option build_st :=
  match n with
  | O => Some st
  | S n' => st' ← build_step e req xfer i st; build_loop e req xfer n' (i + 1) st'
  end.

(** [None]: the driver reads or writes outside its arrays, or the descriptor
    memory was never allocated. *)
Definition transfer_build (e : xdma_engine) (req : xdma_request_cb)
    (xfer : xdma_transfer) (desc_max : Z)
    : option (xdma_engine * xdma_request_cb * xdma_transfer) :=
  mem ← e_desc e;
  st ← build_loop e req xfer (Z.to_nat desc_max) 0
         (Build_build_st mem (e_cyclic_result e) (x_len xfer) (rq_ep_addr req)
            (x_res_bus xfer));
  Some (e <| e_desc := Some (b_mem st) |> <| e_cyclic_result := b_res st |>,
        req <| rq_ep_addr := b_ep st |>
            <| rq_sw_desc_idx ::= fun i => u32 (i + desc_max) |>,
        xfer <| x_len := b_len st |>).

(** The number of descriptors of the next transfer: what is left of the
    request, cut at the end of the descriptor array. *)
Definition transfer_desc_max (e : xdma_engine) (req : xdma_request_cb) : Z :=
  let desc_max :=
    Z.min (u32 (rq_sw_desc_cnt req - rq_sw_desc_idx req)) (e_desc_max e) in
  if e_desc_max e <=? u32 (e_desc_idx e + desc_max)
  then u32 (e_desc_max e - e_desc_idx e) else desc_max.

Definition last_control : Z :=
  Z.lor (Z.lor XDMA_DESC_STOPPED XDMA_DESC_EOP) XDMA_DESC_COMPLETED.

(** The control bits of the descriptors: interrupt and end of packet on the
    last one, completion events on all of them when flushing at EOP. *)
Definition transfer_controls (eop_flush : bool) (dv last : Z)
    (mem : list xdma_desc) : list xdma_desc :=
  let mem :=
    zalter (fun d => snd (xdma_desc_control_set last_control d)) (dv + last) mem in
  if eop_flush then
    for_upto (Z.to_nat last) 0 (fun i =>
      zalter (fun d => snd (xdma_desc_control_set XDMA_DESC_COMPLETED d))
        (dv + i)) mem
  else mem.

Definition transfer_adjacent (dv num : Z) (mem : list xdma_desc)
    : list xdma_desc :=
  for_upto (Z.to_nat num) 0 (fun i =>
    zalter (fun d =>
      xdma_desc_adjacent (xdma_get_next_adj (u32 (num - i - 1)) (d_next_lo d)) d)
      (dv + i)) mem.

Definition transfer_init (e : xdma_engine) (req : xdma_request_cb)
    : option (xdma_engine * xdma_request_cb * xdma_transfer) :=
  let xfer :=
    zero_transfer
      <| x_dir := e_dir e |>
      <| x_desc_virt := e_desc_idx e |>
      <| x_res_virt := e_desc_idx e |>
      <| x_desc_bus := u64 (e_desc_bus e + sizeof_xdma_desc * e_desc_idx e) |>
      <| x_res_bus :=
           u64 (e_cyclic_result_bus e + sizeof_xdma_result * e_desc_idx e) |>
      <| x_desc_index := e_desc_idx e |> in
  let desc_max := transfer_desc_max e req in
  let e :=
    e <| e_desc ::= fmap (transfer_desc_init (x_desc_virt xfer)
                            (x_desc_bus xfer) (i32 desc_max)) |> in
  '(e, req, xfer) ← transfer_build e req xfer desc_max;
  let xfer := xfer <| x_desc_adjacent := i32 desc_max |> in
  let last := i32 (desc_max - 1) in
  let e :=
    e <| e_desc ::= fmap (transfer_controls (e_eop_flush e)
                            (x_desc_virt xfer) last) |> in
  let xfer :=
    xfer <| x_desc_cmpl_th := if e_eop_flush e then 1 else i32 desc_max |>
         <| x_desc_num := i32 desc_max |> in
  let e :=
    e <| e_desc_idx ::= fun i => u32 (i + desc_max) mod e_desc_max e |>
      <| e_desc_used ::= fun u => i32 (u + desc_max) |>
      <| e_desc ::= fmap (transfer_adjacent (x_desc_virt xfer)
                            (x_desc_num xfer)) |> in
  Some (e, req, xfer).

(** The descriptors are cleared; the scatter-gather table is unmapped after
    the last transfer of a request that the driver mapped itself. *)
Definition transfer_destroy (xfer : xdma_transfer) (sgt : sg_table)
    (e : xdma_engine) : xdma_engine * sg_table * bool :=
  let e :=
    e <| e_desc ::= fmap (xdma_desc_done (x_desc_virt xfer) (x_desc_num xfer)) |> in
  if x_last_in_request xfer && has_bits (x_flags xfer) XFER_FLAG_NEED_UNMAP &&
     negb (nents sgt =? 0)
  then (e, sgt <| nents := 0 |>, true)
  else (e, sgt, false).
