(* ===== verification/TransferFacts.v ===== *)
(** The descriptors that [transfer_init] leaves in memory, one by one. *)
From S2P Require Import Prelude Hw Desc Types Transfer.

(** * Bytes before software descriptor [k] of the request *)

Definition sd_len_at (req : xdma_request_cb) (i : Z) : Z :=
  from_option sd_len 0 (zlookup (rq_sdesc req) i).

Fixpoint sum_len (req : xdma_request_cb) (i : Z) (n : nat) : Z :=
  match n with
  | O => 0
  | S n' => sd_len_at req i + sum_len req (i + 1) n'
  end.

Lemma sum_len_snoc req i n :
  sum_len req i (S n) = sum_len req i n + sd_len_at req (i + Z.of_nat n).
Proof.
  revert i. induction n as [|n IH]; intros i.
  - cbn [sum_len]. replace (i + Z.of_nat 0) with i by lia. lia.
  - cbn [sum_len] in *. rewrite IH.
    replace (i + 1 + Z.of_nat n) with (i + Z.of_nat (S n)) by lia. lia.
Qed.

(** The endpoint address of the [k]-th descriptor of the next transfer. *)
Definition ep_at (e : xdma_engine) (req : xdma_request_cb) (k : Z) : Z :=
  if e_non_incr_addr e then rq_ep_addr req
  else u64 (rq_ep_addr req + sum_len req (rq_sw_desc_idx req) (Z.to_nat k)).

Lemma ep_at_succ e req k :
  0 <= k -> e_non_incr_addr e = false ->
  u64 (ep_at e req k + sd_len_at req (rq_sw_desc_idx req + k)) =
  ep_at e req (k + 1).
Proof.
  intros Hk He. unfold ep_at. rewrite He, u64_add_l.
  replace (Z.to_nat (k + 1)) with (S (Z.to_nat k)) by lia.
  rewrite sum_len_snoc, Z2Nat.id by lia. f_equal. lia.
Qed.

(** * The build loop *)

(** What [transfer_build] does to its [k]-th descriptor. *)
Definition build_desc (e : xdma_engine) (req : xdma_request_cb)
    (xfer : xdma_transfer) (k : Z) (d : xdma_desc) : xdma_desc :=
  match zlookup (rq_sdesc req) (rq_sw_desc_idx req + k) with
  | None => d
  | Some sd =>
      let d := xdma_desc_set (sd_addr sd) (ep_at e req k) (sd_len sd)
                 (x_dir xfer) d in
      if streaming_c2h e
      then desc_set_result (u64 (x_res_bus xfer + sizeof_xdma_result * k)) d
      else d
  end.

Lemma build_loop_run e req xfer n i st :
  0 <= i ->
  (forall k, i <= k < i + Z.of_nat n ->
     is_Some (zlookup (rq_sdesc req) (rq_sw_desc_idx req + k))) ->
  b_ep st = ep_at e req i ->
  (streaming_c2h e = true ->
   b_bus st = u64 (x_res_bus xfer + sizeof_xdma_result * i)) ->
  exists st', build_loop e req xfer n i st = Some st' /\
    b_mem st' = for_upto n i (fun k =>
      zalter (build_desc e req xfer k) (x_desc_virt xfer + k)) (b_mem st) /\
    b_ep st' = ep_at e req (i + Z.of_nat n) /\
    b_len st' = (if decide (n = O) then b_len st else
      u32 (b_len st + sum_len req (rq_sw_desc_idx req + i) n)).
Proof.
  revert i st. induction n as [|n IH]; intros i st Hi Hsd Hep Hbus.
  { exists st. split; [done|]. split; [done|]. split; [|done].
    by rewrite Z.add_0_r. }
  cbn [build_loop for_upto].
  destruct (Hsd i ltac:(lia)) as [sd Esd].
  assert (Elen : sd_len sd = sd_len_at req (rq_sw_desc_idx req + i))
    by (unfold sd_len_at; by rewrite Esd).
  assert (Estep : exists st1, build_step e req xfer i st = Some st1 /\
    b_mem st1 = zalter (build_desc e req xfer i) (x_desc_virt xfer + i)
                  (b_mem st) /\
    b_len st1 = u32 (b_len st + sd_len sd) /\
    b_ep st1 = ep_at e req (i + 1) /\
    b_bus st1 = (if streaming_c2h e then u64 (b_bus st + sizeof_xdma_result)
                 else b_bus st)).
  { unfold build_step. rewrite Esd. cbn. eexists. split; [done|].
    unfold build_desc. rewrite Esd, <- Hep.
    assert (Eep : e_non_incr_addr e = false ->
      u64 (b_ep st + sd_len sd) = ep_at e req (i + 1))
      by (intros; by rewrite Hep, Elen, ep_at_succ).
    assert (Eep' : e_non_incr_addr e = true -> b_ep st = ep_at e req (i + 1))
      by (intros E; rewrite Hep; unfold ep_at; by rewrite E).
    destruct (streaming_c2h e); [rewrite <- Hbus by done|];
      destruct (e_non_incr_addr e); cbn; rewrite ?zalter_zalter; auto. }
  destruct Estep as (st1 & -> & Em & El & Ee & Eb). cbn.
  destruct (IH (i + 1) st1) as (st' & E & Em' & Ee' & El'); try done; try lia.
  { intros k Hk. apply Hsd. lia. }
  { intros Hc. rewrite Eb, Hc, Hbus, u64_add_l by done. f_equal. lia. }
  exists st'. split; [done|]. split; [by rewrite Em', Em|].
  split; [rewrite Ee'; f_equal; lia|].
  rewrite El', El, Elen. cbn [sum_len]. destruct (decide (n = O)) as [->|].
  - cbn. f_equal. lia.
  - rewrite decide_False by done. rewrite u32_add_l. f_equal.
    replace (rq_sw_desc_idx req + (i + 1)) with (rq_sw_desc_idx req + i + 1)
      by lia. lia.
Qed.

(** * A whole transfer *)

(** The engine's descriptor array as [engine_alloc_resource] leaves it. *)
Record engine_mem_ok (e : xdma_engine) (mem : list xdma_desc) : Prop := {
  em_desc : e_desc e = Some mem;
  em_len : zlength mem = e_desc_max e;
  em_max : 0 < e_desc_max e < 2 ^ 31;
  em_idx : 0 <= e_desc_idx e < e_desc_max e;
  em_bus : 0 < e_desc_bus e;
  em_bus_end : e_desc_bus e + 32 * e_desc_max e < 2 ^ 64;
}.

(** A request with software descriptors left. *)
Record req_ok (req : xdma_request_cb) : Prop := {
  ro_idx : 0 <= rq_sw_desc_idx req < rq_sw_desc_cnt req;
  ro_cnt : rq_sw_desc_cnt req = zlength (rq_sdesc req);
  ro_max : rq_sw_desc_cnt req < 2 ^ 31;
  ro_ep : 0 <= rq_ep_addr req < 2 ^ 64;
  ro_sdesc : Forall (fun sd => 0 <= sd_addr sd < 2 ^ 64 /\
                               0 < sd_len sd < 2 ^ 32) (rq_sdesc req);
}.

(** How many descriptors the next transfer has. *)
Definition transfer_count (e : xdma_engine) (req : xdma_request_cb) : Z :=
  Z.min (rq_sw_desc_cnt req - rq_sw_desc_idx req) (e_desc_max e - e_desc_idx e).

Lemma transfer_desc_max_eq e req mem :
  engine_mem_ok e mem -> req_ok req ->
  transfer_desc_max e req = transfer_count e req /\
  1 <= transfer_count e req /\
  e_desc_idx e + transfer_count e req <= e_desc_max e.
Proof.
  intros [] []. unfold transfer_desc_max, transfer_count.
  rewrite (u32_small (rq_sw_desc_cnt req - rq_sw_desc_idx req)) by lia.
  rewrite (u32_small (e_desc_max e - e_desc_idx e)) by lia.
  rewrite u32_small by lia.
  destruct (Z.leb_spec (e_desc_max e)
    (e_desc_idx e + Z.min (rq_sw_desc_cnt req - rq_sw_desc_idx req)
                      (e_desc_max e))); lia.
Qed.

(** The control word before the adjacency is filled in. *)
Definition init_control (e : xdma_engine) (n k : Z) : Z :=
  if decide (k = n - 1) then Z.lor DESC_MAGIC last_control
  else if e_eop_flush e then Z.lor DESC_MAGIC XDMA_DESC_COMPLETED
  else DESC_MAGIC.

(** Descriptor [k] of a transfer of [n] descriptors at bus address [bus]. *)
Definition init_desc (e : xdma_engine) (req : xdma_request_cb)
    (xfer : xdma_transfer) (n bus k : Z) (d : xdma_desc) : xdma_desc :=
  let next := if decide (k = n - 1) then 0 else bus + 32 * (k + 1) in
  let d := build_desc e req xfer k (desc_link next d) in
  xdma_desc_adjacent (xdma_get_next_adj (u32 (n - k - 1)) (d_next_lo d))
    (d <| d_control := init_control e n k |>).

Lemma build_desc_keeps e req xfer k d :
  let d' := build_desc e req xfer k d in
  d_control d' = d_control d /\ d_next_lo d' = d_next_lo d /\
  d_next_hi d' = d_next_hi d.
Proof.
  unfold build_desc. destruct (zlookup _ _); [|done].
  by destruct (streaming_c2h e), (x_dir xfer).
Qed.

Lemma upd_control_same d c : d_control d = c -> d <| d_control := c |> = d.
Proof. intros <-. by destruct d. Qed.

(** The transfer [transfer_init] fills in. *)
Definition init_xfer (e : xdma_engine) : xdma_transfer :=
  zero_transfer
    <| x_dir := e_dir e |>
    <| x_desc_virt := e_desc_idx e |>
    <| x_res_virt := e_desc_idx e |>
    <| x_desc_bus := u64 (e_desc_bus e + sizeof_xdma_desc * e_desc_idx e) |>
    <| x_res_bus := u64 (e_cyclic_result_bus e + sizeof_xdma_result * e_desc_idx e) |>
    <| x_desc_index := e_desc_idx e |>.

(** The control fields that [transfer_controls] sets in descriptors that have the
    magic number only. *)
Lemma zlookup_transfer_controls (e : xdma_engine) dv n mem j :
  1 <= n ->
  (forall d, dv <= j < dv + n -> zlookup mem j = Some d -> d_control d = DESC_MAGIC) ->
  zlookup (transfer_controls (e_eop_flush e) dv (n - 1) mem) j =
  if decide (dv <= j < dv + n)
  then (fun d => d <| d_control := init_control e n (j - dv) |>) <$> zlookup mem j
  else zlookup mem j.
Proof.
  intros Hn Hctl. unfold transfer_controls, init_control.
  assert (Hone : zlookup (zalter (fun d =>
      snd (xdma_desc_control_set last_control d)) (dv + (n - 1)) mem) j =
    if decide (j - dv = n - 1)
    then (fun d => snd (xdma_desc_control_set last_control d)) <$> zlookup mem j
    else zlookup mem j).
  { rewrite zlookup_zalter. repeat case_decide; try lia; done. }
  destruct (e_eop_flush e).
  1: rewrite (zlookup_for_alter _ _ (fun _ d =>
      snd (xdma_desc_control_set XDMA_DESC_COMPLETED d))); rewrite Z2Nat.id by lia.
  all: rewrite Hone; repeat case_decide; try lia; try done;
    (destruct (zlookup mem j) as [d|] eqn:Ed; cbn; [|done]); f_equal;
    specialize (Hctl d ltac:(lia) eq_refl);
    first [rewrite control_set_fresh by (done || (vm_compute; split; congruence)); done
          | symmetry; by apply upd_control_same].
Qed.

(** The three passes over the descriptors of a transfer, one descriptor. *)
Lemma passes_lookup (e : xdma_engine) (bld : Z -> xdma_desc -> xdma_desc)
    dv bus n mem j :
  1 <= n -> n < 2 ^ 31 -> 0 < bus -> bus + 32 * n < 2 ^ 64 ->
  (forall k d, d_control (bld k d) = d_control d) ->
  zlookup
    (transfer_adjacent dv n
       (transfer_controls (e_eop_flush e) dv (n - 1)
          (for_upto (Z.to_nat n) 0 (fun k => zalter (bld k) (dv + k))
             (transfer_desc_init dv bus n mem)))) j =
  if decide (dv <= j < dv + n)
  then (fun d =>
    let k := j - dv in
    let next := if decide (k = n - 1) then 0 else bus + 32 * (k + 1) in
    let d := bld k (desc_link next d) in
    xdma_desc_adjacent (xdma_get_next_adj (u32 (n - k - 1)) (d_next_lo d))
      (d <| d_control := init_control e n k |>)) <$> zlookup mem j
  else zlookup mem j.
Proof.
  intros Hn Hn1 Hb Hb1 Hbld.
  assert (Emem : zlookup (for_upto (Z.to_nat n) 0
      (fun k => zalter (bld k) (dv + k)) (transfer_desc_init dv bus n mem)) j =
    if decide (dv <= j < dv + n)
    then (fun d => bld (j - dv) (desc_link
            (if decide (j - dv = n - 1) then 0 else bus + 32 * (j - dv + 1)) d))
         <$> zlookup mem j
    else zlookup mem j).
  { rewrite (zlookup_for_alter _ _ bld), zlookup_transfer_desc_init by lia.
    rewrite Z2Nat.id by lia.
    destruct (decide (dv <= j < dv + n)) as [Hj|Hj].
    - rewrite decide_True by lia. destruct (zlookup mem j); cbn; [|done].
      do 3 f_equal.
      destruct (decide (j = dv + n - 1)), (decide (j - dv = n - 1)); try lia.
      rewrite u64_small; lia.
    - by rewrite decide_False by lia. }
  set (mem1 := for_upto (Z.to_nat n) 0 _ _) in *. clearbody mem1.
  pose proof (zlookup_transfer_controls e dv n mem1 j Hn) as Ectl.
  rewrite Emem in Ectl. specialize (Ectl ltac:(intros d Hj; rewrite decide_True by done;
    intros (d0 & _ & ->)%fmap_Some; by rewrite Hbld)).
  unfold transfer_adjacent.
  rewrite (zlookup_for_alter _ _ (fun i d => xdma_desc_adjacent
    (xdma_get_next_adj (u32 (n - i - 1)) (d_next_lo d)) d)), Ectl.
  rewrite Z2Nat.id by lia.
  repeat case_decide; try lia; try done; by destruct (zlookup mem j).
Qed.

Lemma zlength_transfer_controls b dv last mem :
  zlength (transfer_controls b dv last mem) = zlength mem.
Proof.
  unfold transfer_controls. destruct b; [|by rewrite zlength_zalter].
  apply (for_upto_inv (Z.to_nat last) 0 _ (fun _ m => zlength m = zlength mem)).
  - apply zlength_zalter.
  - intros j m _ Hm. by rewrite zlength_zalter.
Qed.

Lemma zlength_for_zalter {A} (g : Z -> A -> A) base n (l : list A) :
  zlength (for_upto n 0 (fun i => zalter (g i) (base + i)) l) = zlength l.
Proof.
  apply (for_upto_inv n 0 _ (fun _ m => zlength m = zlength l)); [done|].
  intros j m _ Hm. by rewrite zlength_zalter.
Qed.

(** What [transfer_init] returns and leaves behind. *)
Record init_result (e : xdma_engine) (req : xdma_request_cb)
    (mem : list xdma_desc) (e' : xdma_engine) (req' : xdma_request_cb)
    (x' : xdma_transfer) (mem' : list xdma_desc) : Prop := {
  ir_desc : e_desc e' = Some mem';
  ir_len : zlength mem' = zlength mem;
  ir_mem : forall j, zlookup mem' j =
    if decide (e_desc_idx e <= j < e_desc_idx e + transfer_count e req)
    then init_desc e req (init_xfer e) (transfer_count e req)
           (e_desc_bus e + 32 * e_desc_idx e) (j - e_desc_idx e) <$> zlookup mem j
    else zlookup mem j;
  ir_idx : e_desc_idx e' =
    (e_desc_idx e + transfer_count e req) mod e_desc_max e;
  ir_used : e_desc_used e' = i32 (e_desc_used e + transfer_count e req);
  ir_engine : e_desc_max e' = e_desc_max e /\ e_desc_bus e' = e_desc_bus e /\
    e_transfer_list e' = e_transfer_list e /\ e_running e' = e_running e /\
    e_dir e' = e_dir e /\ e_streaming e' = e_streaming e;
  ir_num : x_desc_num x' = transfer_count e req;
  ir_adjacent : x_desc_adjacent x' = transfer_count e req;
  ir_bus : x_desc_bus x' = e_desc_bus e + 32 * e_desc_idx e;
  ir_virt : x_desc_virt x' = e_desc_idx e;
  ir_xlen : x_len x' =
    u32 (sum_len req (rq_sw_desc_idx req) (Z.to_nat (transfer_count e req)));
  ir_xnew : x_state x' = TRANSFER_STATE_NEW /\ x_cyclic x' = false /\
    x_last_in_request x' = false /\ x_flags x' = 0 /\ x_dir x' = e_dir e;
  ir_req : rq_sw_desc_idx req' = rq_sw_desc_idx req + transfer_count e req;
  ir_ep : rq_ep_addr req' = ep_at e req (transfer_count e req);
  ir_reqsame : rq_sdesc req' = rq_sdesc req /\
    rq_sw_desc_cnt req' = rq_sw_desc_cnt req;
}.

Lemma transfer_init_run e req mem :
  engine_mem_ok e mem -> req_ok req ->
  exists e' req' x' mem', transfer_init e req = Some (e', req', x') /\
    init_result e req mem e' req' x' mem'.
Proof.
  intros He Hr. destruct (transfer_desc_max_eq e req mem He Hr) as (En & Hn & Hfit).
  destruct He as [Hmem Hlen Hmax Hidx Hbus Hend], Hr as [Hri Hrc Hrm Hre Hrs].
  assert (Hleft : transfer_count e req <= rq_sw_desc_cnt req - rq_sw_desc_idx req)
    by (unfold transfer_count; lia).
  unfold transfer_init. rewrite En. set (n := transfer_count e req) in *.
  set (x := init_xfer e).
  assert (Ebus : x_desc_bus x = e_desc_bus e + 32 * e_desc_idx e).
  { change (u64 (e_desc_bus e + 32 * e_desc_idx e) =
            e_desc_bus e + 32 * e_desc_idx e). apply u64_small. lia. }
  rewrite (i32_small n), (i32_small (n - 1)) by lia.
  set (e0 := e <| e_desc ::= _ |>).
  assert (Hmem0 : e_desc e0 = Some (transfer_desc_init (e_desc_idx e)
    (e_desc_bus e + 32 * e_desc_idx e) n mem))
    by (subst e0; cbn; rewrite Hmem; cbn; by rewrite <- Ebus).
  destruct (build_loop_run e0 req x (Z.to_nat n) 0
    (Build_build_st (transfer_desc_init (e_desc_idx e)
       (e_desc_bus e + 32 * e_desc_idx e) n mem) (e_cyclic_result e0) (x_len x)
       (rq_ep_addr req) (x_res_bus x))) as (st & Est & Em & Eep & Elen).
  - lia.
  - intros k Hk. apply zlookup_is_Some. lia.
  - cbn. unfold ep_at. cbn. destruct (e_non_incr_addr e); [done|].
    rewrite Z.add_0_r, u64_small by lia. done.
  - intros _. cbn [b_bus]. unfold sizeof_xdma_result. rewrite Z.mul_0_r, Z.add_0_r.
    subst x. cbn [x_res_bus init_xfer]. unfold init_xfer. cbn.
    symmetry. apply Z.mod_mod. lia.
  - unfold transfer_build. rewrite Hmem0. cbn [mbind option_bind].
    change (zero_transfer <| x_dir := e_dir e |> <| x_desc_virt := e_desc_idx e |>
      <| x_res_virt := e_desc_idx e |>
      <| x_desc_bus := u64 (e_desc_bus e + sizeof_xdma_desc * e_desc_idx e) |>
      <| x_res_bus := u64 (e_cyclic_result_bus e + sizeof_xdma_result * e_desc_idx e) |>
      <| x_desc_index := e_desc_idx e |>) with x.
    rewrite Est. cbn [mbind option_bind]. do 4 eexists. split; [reflexivity|].
    split; try done.
    + change (zlength (transfer_adjacent (e_desc_idx e) n
        (transfer_controls (e_eop_flush e) (e_desc_idx e) (n - 1) (b_mem st))) =
        zlength mem).
      unfold transfer_adjacent. rewrite zlength_for_zalter,
        zlength_transfer_controls, Em, zlength_for_zalter.
      apply zlength_transfer_desc_init.
    + intros j.
      change (zlookup (transfer_adjacent (e_desc_idx e) n
        (transfer_controls (e_eop_flush e) (e_desc_idx e) (n - 1) (b_mem st))) j =
        if decide (e_desc_idx e <= j < e_desc_idx e + n)
        then init_desc e req x n (e_desc_bus e + 32 * e_desc_idx e)
               (j - e_desc_idx e) <$> zlookup mem j
        else zlookup mem j).
      rewrite Em. apply passes_lookup; try lia.
      intros k d. apply build_desc_keeps.
    + cbn. rewrite u32_small by lia. done.
    + cbn. rewrite Elen. case_decide; [lia|]. cbn. by rewrite Z.add_0_r.
    + cbn. rewrite u32_small by lia. done.
    + cbn. rewrite Eep. unfold ep_at. cbn. destruct (e_non_incr_addr e); [done|].
      do 3 f_equal. lia.
Qed.
