(* ===== verification/Submit.v ===== *)
(** Submitting a request ([src/src/libxdma.c], [xdma_xfer_submit],
    [xdma_xfer_submit_nowait] and [xdma_xfer_completion]): the request is sent
    one transfer at a time through the engine's queue.

    [interfere] is what other code does to the state while the submitter does
    not hold [engine->lock]: the interrupt work, the polling thread, other
    submitters, the device writing results.  It is called wherever the
    submitter is about to take the lock. *)
From S2P Require Import Prelude Hw Desc Types Request Engine Transfer.

(** * Common parts *)

Definition dir_of (write : bool) : dma_data_direction :=
  if write then DMA_TO_DEVICE else DMA_FROM_DEVICE.

(** The guards on the device and the channel; the handle is the one the
    registry has for the device ([debug_check_dev_hndl]). *)
Definition check_channel (d : xdma_dev) (hndl_ok : bool) (channel : Z)
    (write : bool) : Z :=
  if negb hndl_ok then - EINVAL
  else if write
  then (if xd_h2c_channel_max d <=? channel then - EINVAL else 0)
  else (if xd_c2h_channel_max d <=? channel then - EINVAL else 0).

(** The guards on the engine. *)
Definition check_engine (e : xdma_engine) (d : xdma_dev) (write : bool) : Z :=
  if negb (e_magic e =? MAGIC_ENGINE) then - EINVAL
  else if xdma_device_flag_check XDEV_FLAG_OFFLINE d then - EBUSY
  else if bool_decide (e_dir e = dir_of write) then 0 else - EINVAL.

Section submit.
Context `{Platform} `{ModParams}.
Context (interfere : est -> est).

Definition others : M est unit := modify interfere.

Definition set_transfer (id : nat) (x : xdma_transfer) : M est unit :=
  modify (fun s => s <| st_xfers ::= <[id := x]> |>).

(** [dma_map_sg] and the check of the number of entries. *)
Definition map_sgt (dma_mapped : bool) (sgt : sg_table)
    : M est (Z * sg_table) :=
  if dma_mapped then
    ret (if nents sgt =? 0 then (- EIO, sgt) else (0, sgt))
  else
    let* n := kcall "dma_map_sg" [orig_nents sgt] in
    let n := i32 n in
    ret (if n =? 0 then (- EIO, sgt) else (0, sgt <| nents := u32 n |>)).

(** The label [unmap_sgl]. *)
Definition unmap_sgt (dma_mapped : bool) (sgt : sg_table) : M est sg_table :=
  if negb dma_mapped && negb (nents sgt =? 0) then
    let* _ := kcall "dma_unmap_sg" [orig_nents sgt] in
    ret (sgt <| nents := 0 |>)
  else ret sgt.

(** The request's next transfer, built under [engine->lock].  [None] where
    [transfer_init] leaves its arrays. *)
Definition init_transfer (id : nat) (req : xdma_request_cb)
    : M est (option (xdma_request_cb * xdma_transfer)) :=
  do* others in
  let* e := engine in
  match transfer_init e req with
  | None => ret None
  | Some (e, req, x) =>
      do* set_engine (fun _ => e) in
      do* set_transfer id x in
      ret (Some (req, x))
  end.

(** [transfer_destroy] and the descriptors given back. *)
Definition destroy_transfer (id : nat) (sgt : sg_table) : M est sg_table :=
  let* x := xfer id in
  let* e := engine in
  let '(e, sgt', unmapped) := transfer_destroy x sgt e in
  do* set_engine (fun _ => e) in
  do* when unmapped
        (let* _ := kcall "dma_unmap_sg" [nents sgt] in ret tt) in
  ret sgt'.

Definition release_descs (id : nat) : M est unit :=
  let* x := xfer id in
  set_engine (fun e => e <| e_desc_used ::= fun u => i32 (u - x_desc_num x) |>).

(** Bytes of the first [n] results of a streaming C2H transfer. *)
Fixpoint results_length (n : nat) (results : list xdma_result) (i : Z) : Z :=
  match n with
  | O => 0
  | S n' =>
      from_option r_length 0 (zlookup results i) +
      results_length n' results (i + 1)
  end.

(** What a completed transfer adds to [done]. *)
Definition transfer_bytes (e : xdma_engine) (x : xdma_transfer) (cmpl : Z) : Z :=
  if streaming_c2h e
  then results_length (Z.to_nat cmpl) (default [] (e_cyclic_result e))
         (x_res_virt x)
  else x_len x.

(** * [xdma_xfer_submit] *)

(** The [switch] on the state of the transfer: the result code, the bytes done
    and the software descriptors left. *)
Definition submit_result (id : nat) (done rest : Z) : M est (Z * Z * Z) :=
  let* x := xfer id in
  let* e := engine in
  match x_state x with
  | TRANSFER_STATE_COMPLETED =>
      ret (0, done + transfer_bytes e x (x_desc_cmpl x),
           if streaming_c2h e && e_eop_flush e then 0 else rest)
  | TRANSFER_STATE_FAILED => ret (- EIO, done, rest)
  | _ =>
      let* rv := xfer_timeout id in
      ret (rv, done, rest)
  end.

(** The flags of a built transfer; [rest]: the software descriptors left after
    it. *)
Definition mark_transfer (id : nat) (dma_mapped : bool) (rest : Z) : M est unit :=
  do* when (negb dma_mapped)
        (set_xfer id (fun x => x <| x_flags := XFER_FLAG_NEED_UNMAP |>)) in
  when (rest =? 0)
    (set_xfer id (fun x => x <| x_last_in_request := true |> <| x_sgt := true |>)).

Definition wake_thread : M est unit :=
  let* e := engine in
  match e_cmplthp e with
  | Some t => let* _ := kcall "xdma_kthread_wakeup" [Z.of_nat t] in ret tt
  | None => ret tt
  end.

(** From the busy-wait on the state of the queued transfer to the end of the
    iteration; [None]: the busy-wait never ends. *)
Definition finish_transfer (id : nat) (req : xdma_request_cb) (sgt : sg_table)
    (rest done : Z)
    : M est (option (Z * Z * Z * xdma_request_cb * sg_table)) :=
  let* x := xfer id in
  if bool_decide (x_state x = TRANSFER_STATE_NEW) then ret None
  else
    let* (rv, done, rest) := submit_result id done rest in
    do* release_descs id in
    let* sgt := destroy_transfer id sgt in
    ret (Some (rv, done, rest, req, sgt)).

(** One iteration of the [while (nents)] loop: the result code, the bytes
    done, the software descriptors left, the request and the table.  [None]:
    [transfer_init] leaves its arrays, or the busy-wait does not end. *)
Definition submit_transfer (id : nat) (dma_mapped : bool)
    (req : xdma_request_cb) (sgt : sg_table) (rest done : Z)
    : M est (option (Z * Z * Z * xdma_request_cb * sg_table)) :=
  let* built := init_transfer id req in
  match built with
  | None => ret None
  | Some (req, x) =>
      let rest := i32 (rest - x_desc_num x) in
      do* mark_transfer id dma_mapped rest in
      do* others in
      let* rv := transfer_queue id in
      if rv <? 0 then ret (Some (rv, done, rest, req, sgt))
      else
        do* wake_thread in
        do* others in
        finish_transfer id req sgt rest done
  end.

(** The loop. *)
Fixpoint submit_loop (fuel : nat) (id : nat) (dma_mapped : bool)
    (req : xdma_request_cb) (sgt : sg_table) (rest done : Z)
    : M est (option (Z * Z * sg_table)) :=
  match fuel with
  | O => ret None
  | S fuel' =>
      if rest =? 0 then ret (Some (0, done, sgt))
      else
        let* r := submit_transfer id dma_mapped req sgt rest done in
        match r with
        | None => ret None
        | Some (rv, done, rest, req, sgt) =>
            if rv <? 0 then ret (Some (rv, done, sgt))
            else submit_loop fuel' id dma_mapped req sgt rest done
        end
  end.

(** [tfer]: the request's two transfers, of which this function uses the
    first. *)
Definition xdma_xfer_submit (hndl_ok : bool) (channel : Z) (write : bool)
    (ep_addr : Z) (sgt : sg_table) (dma_mapped : bool) (tfer : nat * nat)
    : M est (option (Z * sg_table)) :=
  let* d := gets st_dev in
  let* e := engine in
  let rv := check_channel d hndl_ok channel write in
  if negb (rv =? 0) then ret (Some (rv, sgt))
  else
    let rv := check_engine e d write in
    if negb (rv =? 0) then ret (Some (rv, sgt))
    else
      let* (rv, sgt) := map_sgt dma_mapped sgt in
      if negb (rv =? 0) then ret (Some (rv, sgt))
      else
        let* req := xdma_init_request sgt ep_addr [fst tfer; snd tfer] in
        match req with
        | None => ret None
        | Some None =>
            let* sgt := unmap_sgt dma_mapped sgt in
            ret (Some (- ENOMEM, sgt))
        | Some (Some req) =>
            let rest := i32 (rq_sw_desc_cnt req) in
            let* r := submit_loop (S (Z.to_nat rest)) (fst tfer) dma_mapped
                        req sgt rest 0 in
            match r with
            | None => ret None
            | Some (rv, done, sgt) =>
                let* sgt := unmap_sgt dma_mapped sgt in
                do* xdma_request_free (rq_ptr req) in
                ret (Some (if done =? 0 then rv else done, sgt))
            end
        end.

(** * [xdma_xfer_submit_nowait] *)

(** [&req->tfer[tfer_idx]]: [None] beyond the two transfers of a request. *)
Definition tfer_at (req : xdma_request_cb) (i : Z) : option nat :=
  zlookup (rq_tfer req) i.

(** The loop queues every transfer; the request and the number queued. *)
Fixpoint nowait_loop (fuel : nat) (dma_mapped : bool) (cb : option Z)
    (req : xdma_request_cb) (rest tfer_idx : Z)
    : M est (option (Z * xdma_request_cb)) :=
  match fuel with
  | O => ret None
  | S fuel' =>
      if rest =? 0 then ret (Some (- EIOCBQUEUED, req))
      else
        match tfer_at req tfer_idx with
        | None => ret None
        | Some id =>
            let* built := init_transfer id req in
            match built with
            | None => ret None
            | Some (req, x) =>
                do* set_xfer id (fun x => x <| x_cb := cb |>) in
                let rest := i32 (rest - x_desc_num x) in
                do* mark_transfer id dma_mapped rest in
                do* others in
                let* rv := transfer_queue id in
                if rv <? 0 then ret (Some (rv, req))
                else nowait_loop fuel' dma_mapped cb req rest (tfer_idx + 1)
            end
        end
  end.

Definition xdma_xfer_submit_nowait (cb : option Z) (hndl_ok : bool)
    (channel : Z) (write : bool) (ep_addr : Z) (sgt : sg_table)
    (dma_mapped : bool) (tfer : nat * nat)
    : M est (option (Z * option xdma_request_cb * sg_table)) :=
  let* d := gets st_dev in
  let* e := engine in
  let rv := check_channel d hndl_ok channel write in
  if negb (rv =? 0) then ret (Some (rv, None, sgt))
  else
    let rv := check_engine e d write in
    if negb (rv =? 0) then ret (Some (rv, None, sgt))
    else
      let* (rv, sgt) := map_sgt dma_mapped sgt in
      if negb (rv =? 0) then ret (Some (rv, None, sgt))
      else
        let* req := xdma_init_request sgt ep_addr [fst tfer; snd tfer] in
        match req with
        | None => ret None
        | Some None =>
            let* sgt := unmap_sgt dma_mapped sgt in
            ret (Some (- ENOMEM, None, sgt))
        | Some (Some req) =>
            let req := req <| rq_cb := cb |> in
            let rest := i32 (rq_sw_desc_cnt req) in
            let* r := nowait_loop (S (Z.to_nat rest)) dma_mapped cb req rest 0 in
            match r with
            | None => ret None
            | Some (rv, req) =>
                if rv =? - EIOCBQUEUED then ret (Some (rv, Some req, sgt))
                else
                  let* sgt := unmap_sgt dma_mapped sgt in
                  do* xdma_request_free (rq_ptr req) in
                  ret (Some (rv, None, sgt))
            end
        end.

(** * [xdma_xfer_completion] *)

Definition completion_result (id : nat) (done : Z) : M est (Z * Z) :=
  let* x := xfer id in
  let* e := engine in
  match x_state x with
  | TRANSFER_STATE_COMPLETED =>
      ret (0, done + transfer_bytes e x (x_desc_num x))
  | TRANSFER_STATE_FAILED => ret (- EIO, done)
  | _ =>
      let* _ := engine_status_read false true in
      let* _ := transfer_abort id in
      let* _ := xdma_engine_stop in
      ret (- ERESTARTSYS, done)
  end.

Fixpoint completion_loop (fuel : nat) (req : xdma_request_cb) (sgt : sg_table)
    (rest done tfer_idx : Z) : M est (option (Z * sg_table)) :=
  match fuel with
  | O => ret None
  | S fuel' =>
      if rest =? 0 then ret (Some (done, sgt))
      else
        match tfer_at req tfer_idx with
        | None => ret None
        | Some id =>
            do* others in
            let* x := xfer id in
            let rest := i32 (rest - x_desc_num x) in
            let* (rv, done) := completion_result id done in
            let* sgt := destroy_transfer id sgt in
            do* release_descs id in
            if rv <? 0 then ret (Some (done, sgt))
            else completion_loop fuel' req sgt rest done (tfer_idx + 1)
        end
  end.

Definition xdma_xfer_completion (req : xdma_request_cb) (channel : Z)
    (write : bool) (sgt : sg_table) (dma_mapped : bool)
    : M est (option (Z * sg_table)) :=
  let* d := gets st_dev in
  let* e := engine in
  let rv := check_channel d true channel write in
  if negb (rv =? 0) then ret (Some (rv, sgt))
  else if negb (e_magic e =? MAGIC_ENGINE) then ret (Some (- EINVAL, sgt))
  else
    let rest := i32 (rq_sw_desc_cnt req) in
    let* r := completion_loop (S (Z.to_nat rest)) req sgt rest 0 0 in
    match r with
    | None => ret None
    | Some (done, sgt) =>
        let* sgt := unmap_sgt dma_mapped sgt in
        do* xdma_request_free (rq_ptr req) in
        ret (Some (done, sgt))
    end.
End submit.
