(* ===== verification/SubmitFacts.v ===== *)
(** What the submitter can rely on while other code runs. *)
From S2P Require Import Prelude Hw Desc Types Request Engine EngineFacts.
From S2P Require Import EngineSys Transfer TransferFacts Submit.

(** * What a submitter sees of a transfer *)

(** The queue refuses it with a code, or it is in some state when the submitter
    looks. *)
Definition outcome : Type := Z + transfer_state.

Definition outcome_code (o : outcome) : Z :=
  match o with
  | inl rv => rv
  | inr TRANSFER_STATE_COMPLETED => 0
  | inr TRANSFER_STATE_FAILED => - EIO
  | inr _ => - ERESTARTSYS
  end.

Definition is_completed (o : outcome) : Prop := o = inr TRANSFER_STATE_COMPLETED.

(** * The descriptor ring of an engine *)

(** The fields of the engine that only a submitter changes. *)
Definition ring (e : xdma_engine) :=
  (e_desc e, e_desc_max e, e_desc_idx e, e_desc_bus e,
   (e_dir e, e_streaming e, e_non_incr_addr e)).

(** The fields of a transfer that are fixed once it is built. *)
Definition x_shape (x : xdma_transfer) := (x_desc_num x, x_len x, x_desc_virt x).

(** Other code leaves the ring and the transfer's shape alone, and never makes
    the transfer new again. *)
Record keeps (id : nat) (s s' : est) : Prop := {
  k_ring : ring (st_eng s') = ring (st_eng s);
  k_shape : x_shape <$> st_xfers s' !! id = x_shape <$> st_xfers s !! id;
  k_state : state_of (st_xfers s) id <> Some TRANSFER_STATE_NEW ->
            state_of (st_xfers s') id <> Some TRANSFER_STATE_NEW;
}.

#[export] Instance keeps_preorder id : PreOrder (keeps id).
Proof.
  split.
  - intros s. by split.
  - intros s1 s2 s3 [A1 B1 C1] [A2 B2 C2]. split; [congruence|congruence|auto].
Qed.

Lemma keeps_set_xfer id f s :
  (forall x, x_shape (f x) = x_shape x) ->
  (forall x, x_state x <> TRANSFER_STATE_NEW ->
     x_state (f x) <> TRANSFER_STATE_NEW) ->
  keeps id s (snd (set_xfer id f s)).
Proof.
  intros Hf Hs. rewrite set_xfer_run. split; [done|..]; cbn.
  - rewrite lookup_alter_eq. destruct (st_xfers s !! id); cbn; [|done].
    by rewrite Hf.
  - unfold state_of. rewrite lookup_alter_eq. destruct (st_xfers s !! id) as [x|];
      cbn; [|done]. intros Hn E. apply (Hs x); congruence.
Qed.

Lemma keeps_trace id s t : keeps id s (s <| st_trace := t |>).
Proof. by split. Qed.

Section ops.
Context `{Platform} `{ModParams}.

Lemma kcall_run f args s :
  kcall f args s = (kernel_answer (st_trace s) f args,
    s <| st_trace := Call f args (kernel_answer (st_trace s) f args)
                       :: st_trace s |>).
Proof. done. Qed.

Lemma kcall_trace f args s : only_trace s (snd (kcall f args s)).
Proof. by eexists [_]. Qed.

Lemma map_sgt_trace dm sgt s : only_trace s (snd (map_sgt dm sgt s)).
Proof.
  unfold map_sgt. destruct dm; [apply ret_trace|].
  apply bind_trace; [apply kcall_trace|]. intros. apply ret_trace.
Qed.

Lemma unmap_sgt_trace dm sgt s : only_trace s (snd (unmap_sgt dm sgt s)).
Proof.
  unfold unmap_sgt. destruct (_ && _); [|apply ret_trace].
  apply bind_trace; [apply kcall_trace|]. intros. apply ret_trace.
Qed.

Lemma xdma_request_free_trace p s : only_trace s (snd (xdma_request_free p s)).
Proof.
  unfold xdma_request_free. destruct (_ && _);
    (apply bind_trace; [apply kcall_trace|]; intros; apply ret_trace).
Qed.

Lemma xdma_init_request_trace sgt ep tfer s :
  only_trace s (snd (xdma_init_request sgt ep tfer s)).
Proof.
  unfold xdma_init_request. apply bind_trace.
  - unfold xdma_request_alloc. apply bind_trace; [apply kcall_trace|]. intros.
    apply bind_trace; [|intros; apply ret_trace].
    destruct (_ =? 0); [apply kcall_trace|apply ret_trace].
  - intros [p|] s'; [|apply ret_trace].
    destruct (request_sdescs _); [|apply ret_trace].
    destruct (_ <? _); [|apply ret_trace]. unfold xdma_request_free.
    apply bind_trace; [|intros; apply ret_trace].
    apply bind_trace; [|intros; apply ret_trace].
    destruct (_ && _); apply kcall_trace.
Qed.

(** [transfer_queue] on any outcome; a queued transfer is not new. *)
Lemma transfer_queue_keeps id x s :
  st_xfers s !! id = Some x ->
  keeps id s (snd (transfer_queue id s)) /\
  (0 <= fst (transfer_queue id s) ->
   state_of (st_xfers (snd (transfer_queue id s))) id
     <> Some TRANSFER_STATE_NEW).
Proof.
  intros Hx. unfold transfer_queue. exec.
  destruct (_ =? 0); [by split|]. exec.
  destruct (xdma_device_flag_check _ _); [by split|].
  exec. rewrite kcall_run. exec.
  set (s1 := upd_field st_eng _ _).
  assert (K1 : keeps id s s1) by done.
  assert (Hx1 : st_xfers s1 !! id = Some x) by done.
  clearbody s1. destruct (has_bits _ _); [by split|]. exec.
  set (s2 := upd_field st_eng _ (upd_field st_xfers _ s1)).
  assert (K2 : keeps id s1 s2).
  { split; [done|..]; subst s2; cbn.
    - by rewrite lookup_alter_eq, Hx1.
    - intros _. unfold state_of. by rewrite lookup_alter_eq, Hx1. }
  assert (Hs2 : state_of (st_xfers s2) id <> Some TRANSFER_STATE_NEW).
  { subst s2. cbn. unfold state_of. by rewrite lookup_alter_eq, Hx1. }
  assert (Hq : queue s2 = queue s1 ++ [id]) by done.
  clearbody s2. destruct (e_running (st_eng s2)) eqn:Er; cbn [negb].
  { split; [by etransitivity|done]. }
  exec. destruct (queue s2) as [|h q] eqn:Eq; [by destruct (queue s1)|].
  destruct (engine_start_run s2 h q Er Eq) as (st & tr & ->). cbn [fst snd].
  split; [|done]. etransitivity; [exact K1|]. etransitivity; [exact K2|].
  by split.
Qed.

(** A transfer that an engine in service is given. *)
Lemma transfer_queue_accepts id x s :
  st_xfers s !! id = Some x -> x_desc_num x <> 0 ->
  xdma_device_flag_check XDEV_FLAG_OFFLINE (st_dev s) = false ->
  has_bits (e_shutdown (st_eng s)) ENGINE_SHUTDOWN_REQUEST = false ->
  fst (transfer_queue id s) = 0 /\
  state_of (st_xfers (snd (transfer_queue id s))) id = Some TRANSFER_STATE_SUBMITTED.
Proof.
  intros Hx Hn Hoff Hsd. unfold transfer_queue. exec. rewrite Hx.
  change (default zero_transfer (Some x)) with x.
  rewrite (proj2 (Z.eqb_neq _ _) Hn). exec. rewrite Hoff. exec. rewrite kcall_run.
  exec. set (s1 := upd_field st_eng _ _).
  assert (Hsd1 : has_bits (e_shutdown (st_eng s1)) ENGINE_SHUTDOWN_REQUEST = false)
    by done.
  assert (Hx1 : st_xfers s1 !! id = Some x) by done. clearbody s1.
  rewrite Hsd1. exec. set (s2 := upd_field st_eng _ (upd_field st_xfers _ s1)).
  assert (Hs2 : state_of (st_xfers s2) id = Some TRANSFER_STATE_SUBMITTED).
  { subst s2. cbn. unfold state_of. by rewrite lookup_alter_eq, Hx1. }
  assert (Hq : queue s2 = queue s1 ++ [id]) by done. clearbody s2.
  destruct (e_running (st_eng s2)) eqn:Er; cbn [negb]; [done|]. exec.
  destruct (queue s2) as [|h q] eqn:Eq; [by destruct (queue s1)|].
  by destruct (engine_start_run s2 h q Er Eq) as (st & tr & ->).
Qed.

Lemma xfer_timeout_keeps id s :
  keeps id s (snd (xfer_timeout id s)) /\ fst (xfer_timeout id s) = - ERESTARTSYS.
Proof.
  unfold xfer_timeout, engine_status_read. exec. split; [|done].
  destruct (engine_reg_dump_run s) as (rv & tr & ->). cbn [fst snd].
  destruct (rv <? 0) eqn:Erv; exec; rewrite ?Erv; [apply keeps_trace|].
  rewrite reg_read_run. cbn [fst snd]. destruct (rv =? 0); [|by split].
  set (s1 := upd_field st_eng _ _). assert (K1 : keeps id s s1) by done.
  clearbody s1. exec.
  destruct (Z.eq_dec (x_desc_num (default zero_transfer (st_xfers s1 !! id))) 0)
    as [E|E].
  { unfold transfer_abort. exec. by rewrite E. }
  rewrite transfer_abort_run by done. cbn [fst snd].
  change (0 <? 0) with false. change (0 =? 0) with true. cbv iota.
  match goal with |- context [xdma_engine_stop ?t] =>
    destruct (xdma_engine_stop_run t) as [tr2 ->] end. cbn [fst snd].
  etransitivity; [exact K1|]. split; [done|..]; cbn; unfold abort_xfer;
    (destruct (decide _) as [Hs|]; [|done]); unfold state_of in *;
    rewrite lookup_alter_eq; by destruct (st_xfers s1 !! id).
Qed.
End ops.

(** * Building the next transfer *)

Lemma init_result_mem_ok e req mem e' req' x' mem' :
  engine_mem_ok e mem -> req_ok req ->
  init_result e req mem e' req' x' mem' -> engine_mem_ok e' mem'.
Proof.
  intros He Hr R. destruct (transfer_desc_max_eq e req mem He Hr) as (_ & Hn & Hfit).
  destruct He, R as [? ? ? Hi ? (Em & Eb & _) ? ? ? ? ? ? ? ? ?].
  split; rewrite ?Em, ?Eb, ?Hi; try done; [congruence|].
  apply Z.mod_pos_bound. lia.
Qed.

Lemma init_result_req_ok e req mem e' req' x' mem' :
  engine_mem_ok e mem -> req_ok req ->
  init_result e req mem e' req' x' mem' ->
  rq_sw_desc_idx req' < rq_sw_desc_cnt req' -> req_ok req'.
Proof.
  intros He Hr R Hlt.
  destruct (transfer_desc_max_eq e req mem He Hr) as (_ & Hn & Hfit).
  pose proof (ir_ep _ _ _ _ _ _ _ R) as Eep.
  pose proof (ir_req _ _ _ _ _ _ _ R) as Eidx.
  destruct (ir_reqsame _ _ _ _ _ _ _ R) as [Es Ec].
  assert (Hep : 0 <= rq_ep_addr req' < 2 ^ 64).
  { rewrite Eep. unfold ep_at. destruct (e_non_incr_addr e); [apply Hr|].
    apply u64_range. }
  destruct Hr. split; rewrite ?Es, ?Ec; try done. rewrite Ec in Hlt. lia.
Qed.

Lemma ring_mem_ok e e' mem :
  ring e' = ring e -> engine_mem_ok e mem -> engine_mem_ok e' mem.
Proof.
  intros E []. injection E as E1 E2 E3 E4 _ _ _. split; congruence.
Qed.

(** * One transfer of a request *)

Lemma keeps_xfer id x s s' :
  keeps id s s' -> st_xfers s !! id = Some x ->
  exists x', st_xfers s' !! id = Some x' /\ x_shape x' = x_shape x.
Proof.
  intros [_ Hs _] Hx. rewrite Hx in Hs. cbn in Hs.
  destruct (st_xfers s' !! id) as [x'|]; [|done]. cbn in Hs.
  exists x'. split; [done|congruence].
Qed.

Lemma zlength_desc_done dv n mem : zlength (xdma_desc_done dv n mem) = zlength mem.
Proof.
  unfold xdma_desc_done.
  apply (for_upto_inv (Z.to_nat n) 0 _ (fun _ m => zlength m = zlength mem));
    [done|]. intros j m _ Hm. by rewrite zlength_zset.
Qed.

Section submit.
Context `{Platform} `{ModParams}.
Context (interfere : est -> est) (id : nat).
Hypothesis env : forall s, keeps id s (interfere s).

(** The descriptors given back and cleared. *)
Lemma destroy_run sgt mem s :
  engine_mem_ok (st_eng s) mem ->
  exists sgt' s' mem', bind (release_descs id)
      (fun _ => destroy_transfer id sgt) s = (sgt', s') /\
    engine_mem_ok (st_eng s') mem' /\
    streaming_c2h (st_eng s') = streaming_c2h (st_eng s).
Proof.
  intros [Hm Hl Hx Hi Hb He]. unfold release_descs, destroy_transfer. exec.
  set (x := default zero_transfer (st_xfers s !! id)).
  unfold transfer_destroy.
  assert (Hok : forall e, e_desc e = Some mem -> e_desc_max e = e_desc_max (st_eng s) ->
    e_desc_idx e = e_desc_idx (st_eng s) -> e_desc_bus e = e_desc_bus (st_eng s) ->
    engine_mem_ok (e <| e_desc ::= fmap (xdma_desc_done (x_desc_virt x)
       (x_desc_num x)) |>) (xdma_desc_done (x_desc_virt x) (x_desc_num x) mem)).
  { intros e E1 E2 E3 E4. split; cbn; rewrite ?zlength_desc_done, ?E2, ?E3, ?E4;
      try done. by rewrite E1. }
  destruct (_ && _); exec; do 2 eexists;
    exists (xdma_desc_done (x_desc_virt x) (x_desc_num x) mem);
    (split; [reflexivity|]); (split; [by apply Hok|done]).
Qed.

Lemma streaming_ring e e' : ring e' = ring e -> streaming_c2h e' = streaming_c2h e.
Proof. intros E. injection E as _ _ _ _ E1 E2 _. unfold streaming_c2h. congruence. Qed.

(** A memory-mapped engine whose descriptor ring is in order. *)
Definition engine_up (e : xdma_engine) : Prop :=
  (exists mem, engine_mem_ok e mem) /\ streaming_c2h e = false.

Lemma engine_up_ring e e' : ring e' = ring e -> engine_up e -> engine_up e'.
Proof.
  intros E [[mem Hm] Hs]. split; [exists mem; by eapply ring_mem_ok|].
  by rewrite (streaming_ring _ _ E).
Qed.

Lemma engine_up_trace s s' : only_trace s s' -> engine_up (st_eng s) -> engine_up (st_eng s').
Proof. by intros [tr ->]. Qed.

(** The transfer built and queued, up to the submitter's look at its state. *)
Lemma init_transfer_run req s mem :
  engine_mem_ok (st_eng s) mem -> req_ok req ->
  exists e' req' x' mem', transfer_init (st_eng (interfere s)) req
      = Some (e', req', x') /\
    init_result (st_eng (interfere s)) req mem e' req' x' mem' /\
    init_transfer interfere id req s =
    (Some (req', x'), (interfere s) <| st_eng := e' |>
                        <| st_xfers ::= <[id := x']> |>).
Proof using env.
  intros He Hr.
  assert (He1 : engine_mem_ok (st_eng (interfere s)) mem)
    by (eapply ring_mem_ok; [apply (k_ring id), env|done]).
  destruct (transfer_init_run _ req mem He1 Hr) as (e' & req' & x' & mem' & E & R).
  exists e', req', x', mem'. split; [exact E|]. split; [exact R|].
  unfold init_transfer, others, set_transfer. exec. rewrite E. exec. done.
Qed.

(** The [switch] on the state of a memory-mapped transfer. *)
Lemma submit_result_run x rest done s :
  st_xfers s !! id = Some x -> streaming_c2h (st_eng s) = false ->
  x_state x <> TRANSFER_STATE_NEW ->
  exists rv done' s', submit_result id done rest s = ((rv, done', rest), s') /\
    keeps id s s' /\
    (rv = 0 /\ done' = done + x_len x \/ rv < 0 /\ done' = done) /\
    (rv = 0 <-> x_state x = TRANSFER_STATE_COMPLETED) /\
    rv = outcome_code (inr (x_state x)).
Proof.
  intros Hx Hst Hnew. unfold submit_result. exec. rewrite Hx.
  change (default zero_transfer (Some x)) with x.
  unfold transfer_bytes. rewrite Hst. cbn [andb].
  destruct (x_state x) eqn:Es; try done; exec.
  - destruct (xfer_timeout_keeps id s) as [K ->].
    do 3 eexists. split; [reflexivity|]. split; [done|].
    split; [right; split; [reflexivity|done]|].
    split; [split; [vm_compute; congruence|done]|done].
  - do 3 eexists. split; [reflexivity|]. split; [done|].
    split; [by left|done].
  - do 3 eexists. split; [reflexivity|]. split; [done|].
    split; [right; split; [reflexivity|done]|].
    split; [split; [vm_compute; congruence|done]|done].
  - destruct (xfer_timeout_keeps id s) as [K ->].
    do 3 eexists. split; [reflexivity|]. split; [done|].
    split; [right; split; [reflexivity|done]|].
    split; [split; [vm_compute; congruence|done]|done].
Qed.

Lemma when_keeps b m s :
  (forall s, keeps id s (snd (m s))) -> keeps id s (snd (when b m s)).
Proof. destruct b; intros Hm; [apply Hm|reflexivity]. Qed.

Lemma mark_keeps dm rest s : keeps id s (snd (mark_transfer id dm rest s)).
Proof.
  unfold mark_transfer. rewrite bind_run.
  transitivity (snd (when (negb dm)
    (set_xfer id (fun x => x <| x_flags := XFER_FLAG_NEED_UNMAP |>)) s));
    apply when_keeps; intros; by apply keeps_set_xfer.
Qed.

Lemma wake_thread_trace s : only_trace s (snd (wake_thread s)).
Proof.
  unfold wake_thread. apply bind_trace; [apply ret_trace|]. intros e s'.
  destruct (e_cmplthp e); [|apply ret_trace].
  apply bind_trace; [apply kcall_trace|]. intros. apply ret_trace.
Qed.

(** The submitter's look at its queued transfer. *)
Lemma finish_run x req sgt rest done s mem :
  engine_mem_ok (st_eng s) mem -> streaming_c2h (st_eng s) = false ->
  st_xfers s !! id = Some x -> x_state x <> TRANSFER_STATE_NEW ->
  exists rv done' sgt' s' mem', finish_transfer id req sgt rest done s =
      (Some (rv, done', rest, req, sgt'), s') /\
    engine_mem_ok (st_eng s') mem' /\ streaming_c2h (st_eng s') = false /\
    (rv = 0 /\ done' = done + x_len x \/ rv < 0 /\ done' = done) /\
    (rv = 0 <-> x_state x = TRANSFER_STATE_COMPLETED) /\
    rv = outcome_code (inr (x_state x)).
Proof.
  intros Hm Hst Hx Hnew. unfold finish_transfer. exec. rewrite Hx.
  change (default zero_transfer (Some x)) with x.
  rewrite bool_decide_eq_false_2 by done. exec.
  destruct (submit_result_run x rest done s Hx Hst Hnew)
    as (rv & done' & s1 & -> & K & Hrv & Hc). cbn [fst snd].
  pose proof (k_ring _ _ _ K) as Kr.
  destruct (destroy_run sgt mem s1) as (sgt' & s' & mem' & E & Hm' & Hst').
  { by eapply ring_mem_ok. }
  rewrite bind_run in E. exec. rewrite E. cbn [fst snd].
  exists rv, done', sgt', s', mem'. split; [reflexivity|]. split; [done|].
  split; [|by split]. by rewrite Hst', (streaming_ring _ _ Kr).
Qed.

(** Every request the engine is given it carries out before the submitter
    looks. *)
Definition device_works : Prop := forall s,
  xdma_device_flag_check XDEV_FLAG_OFFLINE (st_dev (interfere s)) = false /\
  has_bits (e_shutdown (st_eng (interfere s))) ENGINE_SHUTDOWN_REQUEST = false /\
  (state_of (st_xfers s) id = Some TRANSFER_STATE_SUBMITTED ->
   state_of (st_xfers (interfere s)) id = Some TRANSFER_STATE_COMPLETED).

(** What the submitter sees of the transfer it is about to queue in state [s1]. *)
Definition queue_outcome (s1 : est) : outcome :=
  let (rv, s3) := transfer_queue id (interfere s1) in
  if rv <? 0 then inl rv
  else inr (default TRANSFER_STATE_NEW
              (state_of (st_xfers (interfere (snd (wake_thread s3)))) id)).

(** One pass of the loop: the bytes of its transfer and what is seen of it. *)
Definition submit_look (dm : bool) (req : xdma_request_cb) (rest : Z) (s : est)
    : option (Z * outcome) :=
  match init_transfer interfere id req s with
  | (Some (_, x), s1) =>
      Some (x_len x,
            queue_outcome (snd (mark_transfer id dm (i32 (rest - x_desc_num x)) s1)))
  | (None, _) => None
  end.

(** A transfer [x'] built in state [s1] and queued. *)
Lemma queue_run x' s1 :
  st_xfers s1 !! id = Some x' -> 0 < x_desc_num x' ->
  exists rv s3, transfer_queue id (interfere s1) = (rv, s3) /\ keeps id s1 s3 /\
    (0 <= rv -> state_of (st_xfers s3) id <> Some TRANSFER_STATE_NEW) /\
    (device_works -> rv = 0 /\
     state_of (st_xfers s3) id = Some TRANSFER_STATE_SUBMITTED).
Proof using env.
  intros Hx1 Hn. pose proof (env s1) as K1.
  destruct (keeps_xfer _ _ _ _ K1 Hx1) as (x2 & Hx2 & Ex2). injection Ex2 as En2 _ _.
  destruct (transfer_queue_keeps id x2 (interfere s1) Hx2) as [Kq Hnew].
  exists (fst (transfer_queue id (interfere s1))),
    (snd (transfer_queue id (interfere s1))).
  split; [by destruct (transfer_queue _ _)|]. split; [by etransitivity|].
  split; [done|]. intros W. destruct (W s1) as (Hoff & Hsd & _).
  apply (transfer_queue_accepts id x2); done || lia.
Qed.

(** The transfer after the wait that follows. *)
Lemma wait_run x' s1 s3 s4 :
  st_xfers s1 !! id = Some x' -> keeps id s1 s3 -> only_trace s3 s4 ->
  state_of (st_xfers s3) id <> Some TRANSFER_STATE_NEW ->
  exists x5, keeps id s1 (interfere s4) /\ st_xfers (interfere s4) !! id = Some x5 /\
    x_len x5 = x_len x' /\ x_state x5 <> TRANSFER_STATE_NEW /\
    (device_works -> state_of (st_xfers s3) id = Some TRANSFER_STATE_SUBMITTED ->
     x_state x5 = TRANSFER_STATE_COMPLETED).
Proof using env.
  intros Hx1 K3 [tr E4] Hns.
  assert (Hs4 : st_xfers s4 = st_xfers s3) by (by rewrite E4).
  assert (K4 : keeps id s3 s4) by (rewrite E4; apply keeps_trace). clear E4.
  assert (K5 : keeps id s1 (interfere s4)) by (do 2 (etransitivity; [done|]); apply env).
  destruct (keeps_xfer _ _ _ _ K5 Hx1) as (x5 & Hx5 & Ex5). injection Ex5 as _ El _.
  assert (Hst : state_of (st_xfers (interfere s4)) id = Some (x_state x5))
    by (unfold state_of; by rewrite Hx5).
  exists x5. do 3 (split; [done|]). split.
  - intros E. apply (k_state id s4 _ (env s4)); [by rewrite Hs4|].
    by rewrite Hst, E.
  - intros W Hsub. rewrite <- Hs4 in Hsub. apply W in Hsub. congruence.
Qed.

Lemma keeps_mem_ok s s' mem :
  keeps id s s' -> engine_mem_ok (st_eng s) mem -> engine_mem_ok (st_eng s') mem.
Proof using. intros [Kr _ _] Hm. by eapply ring_mem_ok. Qed.

Lemma keeps_streaming s s' :
  keeps id s s' -> streaming_c2h (st_eng s') = streaming_c2h (st_eng s).
Proof using. intros [Kr _ _]. by apply streaming_ring. Qed.

(** From the queue on, for a transfer [x'] built in state [s1]. *)
Lemma queue_finish_run x' req sgt rest done s1 mem :
  engine_mem_ok (st_eng s1) mem -> streaming_c2h (st_eng s1) = false ->
  st_xfers s1 !! id = Some x' -> 0 < x_desc_num x' ->
  exists rv done' sgt' s' mem',
    (do* others interfere in
     let* rv := transfer_queue id in
     if rv <? 0 then ret (Some (rv, done, rest, req, sgt))
     else
       do* wake_thread in
       do* others interfere in
       finish_transfer id req sgt rest done) s1 =
      (Some (rv, done', rest, req, sgt'), s') /\
    engine_mem_ok (st_eng s') mem' /\ streaming_c2h (st_eng s') = false /\
    (rv = 0 /\ done' = done + x_len x' \/ rv < 0 /\ done' = done) /\
    (device_works -> rv = 0) /\
    (rv = 0 <-> is_completed (queue_outcome s1)) /\
    rv = outcome_code (queue_outcome s1).
Proof using env.
  intros Hm1 Hst1 Hx1 Hn. unfold others, queue_outcome, is_completed. exec.
  destruct (queue_run x' s1 Hx1 Hn) as (rv & s3 & -> & K3 & Hnew & Hacc). cbn [fst snd].
  destruct (rv <? 0) eqn:Erv; bprop.
  { do 5 eexists. split; [reflexivity|]. split; [by eapply keeps_mem_ok|].
    split; [by rewrite (keeps_streaming _ _ K3)|]. split; [by right|].
    split; [intros W; destruct (Hacc W); lia|]. split; [|done].
    split; [lia|done]. }
  exec. destruct (wait_run x' s1 s3 _ Hx1 K3 (wake_thread_trace s3) (Hnew Erv))
    as (x5 & K5 & Hx5 & El & Hns & Hc5).
  set (s5 := interfere (snd (wake_thread s3))) in *. clearbody s5.
  destruct (finish_run x5 req sgt rest done s5 mem)
    as (rv6 & done6 & sgt6 & s6 & mem6 & E6 & ? & ? & Hrv & Hc & Hcode); try done.
  { by eapply keeps_mem_ok. }
  { by rewrite (keeps_streaming _ _ K5). }
  exists rv6, done6, sgt6, s6, mem6. split; [exact E6|]. do 2 (split; [done|]).
  split; [by rewrite <- El|].
  split; [intros W; apply Hc, Hc5, Hacc; done|].
  unfold state_of. rewrite Hx5.
  change (default _ (x_state <$> Some x5)) with (x_state x5).
  split; [rewrite Hc; split; congruence|exact Hcode].
Qed.

Lemma submit_transfer_run dm req sgt rest done s mem :
  engine_mem_ok (st_eng s) mem -> streaming_c2h (st_eng s) = false ->
  req_ok req -> rest = rq_sw_desc_cnt req - rq_sw_desc_idx req ->
  exists rv done' req' sgt' s' mem' n,
    submit_transfer interfere id dm req sgt rest done s =
      (Some (rv, done', rest - n, req', sgt'), s') /\
    1 <= n <= rest /\
    engine_mem_ok (st_eng s') mem' /\ streaming_c2h (st_eng s') = false /\
    rq_sw_desc_idx req' = rq_sw_desc_idx req + n /\
    rq_sdesc req' = rq_sdesc req /\ rq_sw_desc_cnt req' = rq_sw_desc_cnt req /\
    (n < rest -> req_ok req') /\
    (rv = 0 /\ done' = done + u32 (sum_len req (rq_sw_desc_idx req) (Z.to_nat n))
     \/ rv < 0 /\ done' = done) /\
    (device_works -> rv = 0) /\
    exists o, submit_look dm req rest s =
        Some (u32 (sum_len req (rq_sw_desc_idx req) (Z.to_nat n)), o) /\
      (rv = 0 <-> is_completed o) /\ rv = outcome_code o.
Proof using env.
  intros He Hst Hr Hrest.
  destruct (init_transfer_run req s mem He Hr) as (e' & req' & x' & mem' & _ & R & E).
  set (e0 := st_eng (interfere s)) in *.
  assert (Kr : ring e0 = ring (st_eng s)) by apply (k_ring id), env.
  assert (He0 : engine_mem_ok e0 mem) by (by eapply ring_mem_ok).
  pose proof (init_result_mem_ok _ _ _ _ _ _ _ He0 Hr R) as He'.
  pose proof (init_result_req_ok _ _ _ _ _ _ _ He0 Hr R) as Hr'.
  destruct (transfer_desc_max_eq e0 req mem He0 Hr) as (_ & Hn & _).
  assert (Hn' : transfer_count e0 req <= rest) by (unfold transfer_count; lia).
  destruct R as [_ _ _ _ _ (_ & _ & _ & _ & Rd & Rst) Rn _ _ _ Rl _ Ri _ [Rq Rc]].
  set (n := transfer_count e0 req) in *.
  assert (Hst' : streaming_c2h e' = false).
  { unfold streaming_c2h. rewrite Rd, Rst. change (streaming_c2h e0 = false).
    by rewrite (streaming_ring _ _ Kr). }
  unfold submit_transfer, submit_look. rewrite bind_run, E. cbn [fst snd].
  set (s1 := upd_field st_xfers _ _).
  assert (Hx1 : st_xfers s1 !! id = Some x') by apply lookup_insert_eq.
  assert (He1 : st_eng s1 = e') by done. clearbody s1. clear E.
  rewrite bind_run, Rn, (i32_small (rest - n)) by (destruct Hr; lia).
  pose proof (mark_keeps dm (rest - n) s1) as K.
  set (s2 := snd (mark_transfer _ _ _ s1)) in *. clearbody s2.
  destruct (keeps_xfer _ _ _ _ K Hx1) as (x2 & Hx2 & Ex2).
  injection Ex2 as En El _. pose proof (k_ring _ _ _ K) as Kr2. rewrite He1 in Kr2.
  destruct (queue_finish_run x2 req' sgt (rest - n) done s2 mem')
    as (rv & done' & sgt' & s' & memo & E & Hm & Hs & Hrv & Hw & Ho); try done.
  { by eapply ring_mem_ok. }
  { by rewrite (streaming_ring _ _ Kr2). }
  { rewrite En, Rn. lia. }
  exists rv, done', req', sgt', s', memo, n. rewrite E. rewrite El, Rl in Hrv.
  repeat (split; [done|]). split; [intros Hlt; apply Hr'; lia|].
  split; [done|]. split; [done|]. eexists. split; [by rewrite Rl|done].
Qed.
End submit.
