(* ===== verification/Aperture.v ===== *)
(** Transfers to a window of the card ([src/src/libxdma.c],
    [xdma_xfer_aperture]): the bytes of a scatter-gather table go to, or come
    from, endpoint addresses that wrap around inside an aperture of
    [aperture] bytes, one pass through the descriptor ring at a time.

    [interfere] is what other code does while the lock of the engine is free,
    as in Submit; the submitter's sleep is such a moment too. *)
From S2P Require Import Prelude Hw Desc Types Request Engine Transfer Submit.

(** * Filling descriptors *)

(** The variables of the loop: descriptor memory, [desc_idx], [desc_cnt],
    [sg_offset], [req->offset], [xfer->len] and [ep_addr]. *)
Record fill_st := {
  f_mem : list xdma_desc;
  f_idx : Z;
  f_cnt : Z;
  f_sg_offset : Z;
  f_offset : Z;
  f_len : Z;
  f_ep : Z;
}.

#[export] Instance eta_fill_st : Eta fill_st := fun r =>
  Build_fill_st (f_mem r) (f_idx r) (f_cnt r) (f_sg_offset r) (f_offset r)
    (f_len r) (f_ep r).

(** What does not change during a pass: [desc_max], [maxlen], [req->ep_addr],
    [ep_addr_max] and [dir]. *)
Record window := {
  w_desc_max : Z;
  w_maxlen : Z;
  w_ep : Z;
  w_ep_max : Z;
  w_dir : dma_data_direction;
}.

(** One descriptor: its length and the state after it. *)
Definition fill_step (w : window) (addr tlen : Z) (st : fill_st) : Z * fill_st :=
  let len := Z.min tlen (w_maxlen w) in
  let ep := if w_ep_max w <? f_ep st then w_ep w else f_ep st in
  let len :=
    if w_ep_max w <? u64 (ep + len) then u32 (w_ep_max w - ep + 1) else len in
  (len,
   st <| f_mem ::= zalter (xdma_desc_set addr ep len (w_dir w)) (f_idx st) |>
      <| f_sg_offset ::= fun o => u32 (o + len) |>
      <| f_offset ::= fun o => u32 (o + len) |>
      <| f_len ::= fun l => u32 (l + len) |>
      <| f_ep := u64 (ep + len) |>
      <| f_idx ::= fun i => u32 (i + 1) |>
      <| f_cnt ::= fun c => u32 (c + 1) |>).

(** The inner [while (tlen)]: what is left of the entry. *)
Fixpoint fill_entry (w : window) (fuel : nat) (addr tlen : Z) (st : fill_st)
    : option (Z * fill_st) :=
  match fuel with
  | O => None
  | S fuel' =>
      if tlen =? 0 then Some (0, st)
      else
        let (len, st) := fill_step w addr tlen st in
        let tlen := u32 (tlen - len) in
        if f_idx st =? w_desc_max w then Some (tlen, st)
        else fill_entry w fuel' (u64 (addr + len)) tlen st
  end.

(** A descriptor per iteration: the ring's end bounds the loop. *)
Definition entry_fuel (w : window) (st : fill_st) : nat :=
  S (Z.to_nat (w_desc_max w - f_idx st)).

(** The [for] loop over the table: [i] at its end.  [None]: [sg_next] of the
    last entry. *)
Fixpoint fill_table (w : window) (sg_max : Z) (sgs : list scatterlist) (i : Z)
    (st : fill_st) : option (Z * fill_st) :=
  if (i <? sg_max) && (f_idx st <? w_desc_max w) then
    match sgs with
    | [] => None
    | sg :: sgs' =>
        let addr := sg_dma_address sg in
        let tlen := sg_dma_len sg in
        let '(addr, tlen) :=
          if f_sg_offset st =? 0 then (addr, tlen)
          else (u64 (addr + f_sg_offset st), u32 (tlen - f_sg_offset st)) in
        '(tlen, st) ← fill_entry w (entry_fuel w st) addr tlen st;
        if tlen =? 0
        then fill_table w sg_max sgs' (i + 1) (st <| f_sg_offset := 0 |>)
        else Some (i, st)
    end
  else Some (i, st).

(** * Linking the descriptors *)

Definition chain_link (next control : Z) (d : xdma_desc) : xdma_desc :=
  d <| d_next_lo := PCI_DMA_L next |>
    <| d_next_hi := PCI_DMA_H next |>
    <| d_control := control |>.

Definition chain_step (desc_virt i : Z) (st : Z * list xdma_desc)
    : Z * list xdma_desc :=
  let '(bus, mem) := st in
  let bus := u64 (bus + sizeof_xdma_desc) in
  (bus, zalter (chain_link bus DESC_MAGIC) (desc_virt + i) mem).

(** The linked list, its terminator and the adjacent numbers of
    [desc_cnt > 0] descriptors. *)
Definition chain (desc_virt desc_bus desc_cnt : Z) (mem : list xdma_desc)
    : list xdma_desc :=
  let '(_, mem) :=
    for_upto (Z.to_nat (desc_cnt - 1)) 0 (chain_step desc_virt)
      (desc_bus, mem) in
  let mem :=
    zalter (chain_link 0 (Z.lor DESC_MAGIC last_control))
      (desc_virt + (desc_cnt - 1)) mem in
  transfer_adjacent desc_virt desc_cnt mem.

(** * One pass *)

(** [XFER_FLAG_NEED_UNMAP] if the driver has mapped the table. *)
Definition aperture_flags (dma_mapped : bool) : Z :=
  if dma_mapped then 0 else XFER_FLAG_NEED_UNMAP.

(** [req->sg] is the head of [sgs] in every pass.  [None]: the descriptor
    memory was never allocated, the loop leaves the table, or no descriptor was
    filled, when [desc_cnt - 1] wraps around and the loop that links them
    writes outside the ring. *)
Definition aperture_build (w : window) (dma_mapped : bool)
    (sgs : list scatterlist) (sg_max : Z) (e : xdma_engine)
    (req : xdma_request_cb)
    : option (xdma_engine * xdma_request_cb * xdma_transfer) :=
  let xfer :=
    zero_transfer
      <| x_dir := e_dir e |>
      <| x_flags := aperture_flags dma_mapped |>
      <| x_desc_virt := e_desc_idx e |>
      <| x_res_virt := e_desc_idx e |>
      <| x_desc_bus := u64 (e_desc_bus e + sizeof_xdma_desc * e_desc_idx e) |>
      <| x_res_bus :=
           u64 (e_cyclic_result_bus e + sizeof_xdma_result * e_desc_idx e) |>
      <| x_desc_index := e_desc_idx e |> in
  mem ← e_desc e;
  '(i, st) ← fill_table w sg_max sgs (rq_sg_idx req) {|
      f_mem := mem;
      f_idx := e_desc_idx e;
      f_cnt := 0;
      f_sg_offset := rq_sg_offset req;
      f_offset := rq_offset req;
      f_len := 0;
      f_ep := u64 (rq_ep_addr req +
                   Z.land (rq_offset req) (u32 (rq_aperture req - 1)));
    |};
  let req := req <| rq_sg_offset := f_sg_offset st |> <| rq_sg_idx := i |>
                 <| rq_offset := f_offset st |> in
  let desc_cnt := f_cnt st in
  if desc_cnt =? 0 then None
  else
    let xfer :=
      xfer <| x_len := f_len st |> <| x_desc_adjacent := i32 desc_cnt |>
           <| x_desc_num := i32 desc_cnt |>
           <| x_desc_cmpl_th := i32 desc_cnt |> in
    let xfer :=
      if rq_offset req =? rq_total_len req
      then xfer <| x_last_in_request := true |> <| x_sgt := true |> else xfer in
    let e :=
      e <| e_desc := Some (chain (x_desc_virt xfer) (x_desc_bus xfer) desc_cnt
                             (f_mem st)) |>
        <| e_desc_used ::= fun u => i32 (u + desc_cnt) |>
        <| e_desc_idx ::= fun i => u32 (i + desc_cnt) mod e_desc_max e |> in
    Some (e, req, xfer).

Section aperture.
Context `{Platform} `{ModParams}.
Context (interfere : est -> est).

(** * The request *)

(** [dma_map_sg] and the check of the number of entries. *)
Definition aperture_map (dma_mapped : bool) (sgt : sg_table)
    : M est (Z * sg_table) :=
  if dma_mapped then
    ret (if nents sgt =? 0 then (- EIO, sgt) else (0, sgt))
  else
    let* n := kcall "dma_map_sg" [orig_nents sgt] in
    let sgt := sgt <| nents := u32 n |> in
    ret (if nents sgt =? 0 then (- EIO, sgt) else (0, sgt)).

Definition aperture_request (p ep_addr aperture : Z) (sgt : sg_table)
    (tfer : nat * nat) : xdma_request_cb := {|
  rq_ptr := p;
  rq_ep_addr := ep_addr;
  rq_aperture := aperture;
  rq_total_len := request_total_len (mapped sgt);
  rq_offset := 0;
  rq_sg_idx := 0;
  rq_sg_offset := 0;
  rq_tfer := [fst tfer; snd tfer];
  rq_cb := None;
  rq_sw_desc_idx := 0;
  rq_sw_desc_cnt := 0;
  rq_sdesc := [];
|}.

(** * Queueing a pass and waiting for it *)

(** The [switch] on the state of the transfer: the result code and the bytes
    done. *)
Definition aperture_result (id : nat) (done : Z) : M est (Z * Z) :=
  let* x := xfer id in
  match x_state x with
  | TRANSFER_STATE_COMPLETED => ret (0, done + x_len x)
  | TRANSFER_STATE_FAILED => ret (- EIO, done)
  | _ =>
      let* rv := xfer_timeout id in
      ret (rv, done)
  end.

(** The sleep ends when the transfer is no longer submitted, with a signal or,
    if there is one, with the timeout. *)
Definition wait_transfer (timeout_ms : Z) : M est unit :=
  let* _ :=
    (if 0 <? timeout_ms
     then kcall "wait_event_interruptible_timeout" [timeout_ms]
     else kcall "wait_event_interruptible" []) in
  others interfere.

(** The window of a pass: [maxlen] and [ep_addr_max] of the arguments, the end
    of the ring of the engine. *)
Definition pass_window (e : xdma_engine) (dir : dma_data_direction)
    (ep_addr aperture : Z) : window := {|
  w_desc_max := e_desc_max e;
  w_maxlen := Z.min aperture desc_blen_max;
  w_ep := ep_addr;
  w_ep_max := u64 (ep_addr + aperture - 1);
  w_dir := dir;
|}.

(** A pass, under [engine->lock]. *)
Definition aperture_build_locked (dir : dma_data_direction) (id : nat)
    (dma_mapped : bool) (sgt : sg_table) (sg_max : Z) (req : xdma_request_cb)
    : M est (option xdma_request_cb) :=
  do* others interfere in
  let* e := engine in
  let w := pass_window e dir (rq_ep_addr req) (rq_aperture req) in
  match aperture_build w dma_mapped (sgl sgt) sg_max e req with
  | None => ret None
  | Some (e, req, x) =>
      do* set_engine (fun _ => e) in
      do* set_transfer id x in
      ret (Some req)
  end.

(** From the built transfer to the end of the iteration: the result code, the
    bytes done and the table. *)
Definition aperture_queue (id : nat) (timeout_ms : Z) (sgt : sg_table) (done : Z)
    : M est (Z * Z * sg_table) :=
  do* others interfere in
  let* rv := transfer_queue id in
  if rv <? 0 then ret (rv, done, sgt)
  else
    do* wake_thread in
    do* wait_transfer timeout_ms in
    let* (rv, done) := aperture_result id done in
    do* release_descs id in
    let* sgt := destroy_transfer id sgt in
    ret (rv, done, sgt).

(** The loop [while (req->offset < req->total_len)]. *)
Fixpoint aperture_loop (fuel : nat) (dir : dma_data_direction) (id : nat)
    (dma_mapped : bool) (timeout_ms sg_max : Z) (req : xdma_request_cb)
    (sgt : sg_table) (rv done : Z) : M est (option (Z * Z * sg_table)) :=
  if rq_offset req <? rq_total_len req then
    match fuel with
    | O => ret None
    | S fuel' =>
        let* built := aperture_build_locked dir id dma_mapped sgt sg_max req in
        match built with
        | None => ret None
        | Some req =>
            let* (rv, done, sgt) := aperture_queue id timeout_ms sgt done in
            if rv <? 0 then ret (Some (rv, done, sgt))
            else
              aperture_loop fuel' dir id dma_mapped timeout_ms sg_max req sgt
                rv done
        end
    end
  else ret (Some (rv, done, sgt)).

(** * [xdma_xfer_aperture] *)

(** [fuel] bounds the number of passes; [None]: it was not enough, or a pass
    leaves its arrays.  [tfer]: the request's two transfers, of which this
    function uses the first. *)
Definition xdma_xfer_aperture (fuel : nat) (write : bool) (ep_addr aperture : Z)
    (sgt : sg_table) (dma_mapped : bool) (timeout_ms : Z) (tfer : nat * nat)
    : M est (option (Z * sg_table)) :=
  let* e := engine in
  let* d := gets st_dev in
  let rv := check_engine e d write in
  if negb (rv =? 0) then ret (Some (rv, sgt))
  else if e_streaming e then ret (Some (- EINVAL, sgt))
  else
    let* (rv, sgt) := aperture_map dma_mapped sgt in
    if negb (rv =? 0) then ret (Some (rv, sgt))
    else
      let sg_max := nents sgt in
      let* p := kcall "kzalloc" [sizeof_xdma_request_cb] in
      if p =? 0 then
        let* sgt := unmap_sgt dma_mapped sgt in
        ret (Some (- ENOMEM, sgt))
      else
        let req := aperture_request p ep_addr aperture sgt tfer in
        let* r := aperture_loop fuel (dir_of write) (fst tfer) dma_mapped
                    timeout_ms sg_max req sgt 0 0 in
        match r with
        | None => ret None
        | Some (rv, done, sgt) =>
            let* sgt := unmap_sgt dma_mapped sgt in
            do* xdma_request_free p in
            ret (Some (if done =? 0 then rv else done, sgt))
        end.
End aperture.
