(* ===== verification/ApertureFacts.v ===== *)
(** The bytes that one pass of [xdma_xfer_aperture] moves, and the descriptors
    it leaves in memory. *)
From S2P Require Import Prelude Hw Desc Types Request Engine Transfer.
From S2P Require Import TransferFacts Submit Aperture.

(** * Moves *)

(** A host address, an address on the card and a length. *)
Definition move : Type := Z * Z * Z.

Definition move_bytes (m : move) : list (Z * Z) :=
  let '(addr, ep, len) := m in zip (seqZ addr len) (seqZ ep len).

Definition moves_bytes (ms : list move) : list (Z * Z) := mjoin (move_bytes <$> ms).

Definition move_ok (m : move) : Prop :=
  let '(addr, ep, len) := m in
  0 <= addr < 2 ^ 64 /\ 0 <= ep < 2 ^ 64 /\ 0 <= len < 2 ^ 32.

Definition set_move (dir : dma_data_direction) (m : move) (d : xdma_desc)
    : xdma_desc :=
  let '(addr, ep, len) := m in xdma_desc_set addr ep len dir d.

(** The moves written to the descriptors from [idx] on. *)
Fixpoint write_moves (dir : dma_data_direction) (idx : Z) (ms : list move)
    (mem : list xdma_desc) : list xdma_desc :=
  match ms with
  | [] => mem
  | m :: ms' => write_moves dir (idx + 1) ms' (zalter (set_move dir m) idx mem)
  end.

Lemma write_moves_app dir idx ms1 ms2 mem :
  write_moves dir idx (ms1 ++ ms2) mem =
  write_moves dir (idx + zlength ms1) ms2 (write_moves dir idx ms1 mem).
Proof.
  revert idx mem. induction ms1 as [|m ms1 IH]; intros idx mem.
  - by rewrite Z.add_0_r.
  - cbn [app write_moves]. rewrite IH, zlength_cons. f_equal. lia.
Qed.

Lemma zlookup_write_moves dir idx ms mem j :
  0 <= idx ->
  zlookup (write_moves dir idx ms mem) j =
  match zlookup ms (j - idx) with
  | Some m => set_move dir m <$> zlookup mem j
  | None => zlookup mem j
  end.
Proof.
  revert idx mem. induction ms as [|m ms IH]; intros idx mem Hidx.
  { cbn [write_moves]. destruct (zlookup [] (j - idx)) eqn:E; [|done].
    apply zlookup_lt_Some in E. unfold zlength in E. cbn in E. lia. }
  cbn [write_moves]. rewrite IH, zlookup_zalter by lia.
  destruct (decide (idx = j)) as [<-|Hne].
  - rewrite Z.sub_diag. destruct (zlookup ms (idx - (idx + 1))) eqn:E; [|done].
    apply zlookup_lt_Some in E. lia.
  - destruct (decide (0 <= j - (idx + 1) < zlength ms)) as [Hin|Hout].
    + replace (j - idx) with (j - (idx + 1) + 1) by lia.
      by rewrite (zlookup_cons m ms) by lia.
    + rewrite (proj2 (zlookup_None ms _)) by lia.
      rewrite (proj2 (zlookup_None (m :: ms) _)); [done|].
      rewrite zlength_cons. lia.
Qed.

Lemma zlength_write_moves dir idx ms mem :
  zlength (write_moves dir idx ms mem) = zlength mem.
Proof.
  revert idx mem. induction ms as [|m ms IH]; intros idx mem; [done|].
  cbn [write_moves]. by rewrite IH, zlength_zalter.
Qed.

Lemma moves_bytes_app ms1 ms2 :
  moves_bytes (ms1 ++ ms2) = moves_bytes ms1 ++ moves_bytes ms2.
Proof. unfold moves_bytes. by rewrite fmap_app, join_app. Qed.

(** * The window *)

Definition w_size (w : window) : Z := w_ep_max w - w_ep w + 1.

(** The card address of byte [k] of the request. *)
Definition w_addr (w : window) (k : Z) : Z := w_ep w + k mod w_size w.

(** The host bytes [host], starting with byte [k] of the request, and where
    they go on the card. *)
Definition placed (w : window) (k : Z) (host : list Z) : list (Z * Z) :=
  zip host (w_addr w <$> seqZ k (zlength host)).

Lemma placed_app w k host1 host2 :
  placed w k (host1 ++ host2) =
  placed w k host1 ++ placed w (k + zlength host1) host2.
Proof.
  unfold placed. rewrite zlength_app, seqZ_app by apply zlength_nonneg.
  rewrite fmap_app. apply zip_with_app. rewrite length_fmap, length_seqZ.
  unfold zlength. by rewrite Nat2Z.id.
Qed.

Lemma zlength_placed w k host : zlength (placed w k host) = zlength host.
Proof.
  unfold placed, zlength. rewrite length_zip_with, length_fmap, length_seqZ. lia.
Qed.

Record window_ok (w : window) : Prop := {
  wo_ep : 0 <= w_ep w;
  wo_size : 0 < w_size w < 2 ^ 32;
  wo_end : w_ep w + 2 * w_size w <= 2 ^ 64;
  wo_maxlen : 0 < w_maxlen w <= w_size w;
  wo_desc_max : 0 < w_desc_max w < 2 ^ 31;
}.

(** [ep_addr] in a state at byte [k] of the request: the address of the byte or,
    after a whole window, the end of the window. *)
Definition ep_ok (w : window) (k : Z) (st : fill_st) : Prop :=
  f_ep st <= w_ep_max w + 1 /\
  (if w_ep_max w <? f_ep st then w_ep w else f_ep st) = w_addr w k.

(** A bus address after a part of an entry: it wraps around at the end of the
    address space, where nothing is left of the entry. *)
Lemma bus_run a t :
  0 <= a -> 0 <= t -> a + t <= 2 ^ 64 ->
  0 <= u64 a /\ u64 a + t <= 2 ^ 64 /\
  forall n, 0 <= n <= t -> seqZ (u64 a) n = seqZ a n.
Proof.
  intros Ha Ht Hend. destruct (Z.eq_dec a (2 ^ 64)) as [Eq|].
  - rewrite Eq. change (u64 (2 ^ 64)) with 0. split; [lia|]. split; [lia|].
    intros n Hn. by replace n with 0 by lia.
  - rewrite u64_small by lia. done.
Qed.

Section window.
Context (w : window) (Hw : window_ok w).

Lemma w_addr_range k : w_ep w <= w_addr w k < w_ep w + w_size w.
Proof using Hw.
  destruct Hw. unfold w_addr.
  pose proof (Z.mod_pos_bound k (w_size w) ltac:(lia)). lia.
Qed.

(** Up to the end of the window the addresses are consecutive. *)
Lemma w_addr_run k len :
  0 <= len -> k mod w_size w + len <= w_size w ->
  seqZ (w_addr w k) len = w_addr w <$> seqZ k len.
Proof using Hw.
  intros Hl Hfit. destruct Hw. apply list_eq. intros i. rewrite list_lookup_fmap.
  destruct (decide (Z.of_nat i < len)).
  - rewrite !lookup_seqZ_lt by lia. cbn. f_equal. unfold w_addr.
    pose proof (Z.mod_pos_bound k (w_size w) ltac:(lia)).
    rewrite <- (Zplus_mod_idemp_l k), (Z.mod_small (k mod w_size w + Z.of_nat i))
      by lia. lia.
  - rewrite !lookup_seqZ_ge by lia. done.
Qed.

(** * One descriptor *)

(** Why a descriptor ends where it does: the end of the entry, the longest
    descriptor or the end of the window. *)
Definition ends (k tlen len : Z) : Prop :=
  len = tlen \/ len = w_maxlen w \/ (k + len) mod w_size w = 0.

Lemma fill_step_run addr tlen k st :
  ep_ok w k st -> 0 < tlen < 2 ^ 32 -> 0 <= k ->
  exists len st', fill_step w addr tlen st = (len, st') /\
    0 < len <= tlen /\ k mod w_size w + len <= w_size w /\ ends k tlen len /\
    f_mem st' = zalter (set_move (w_dir w) (addr, w_addr w k, len)) (f_idx st)
                  (f_mem st) /\
    f_idx st' = u32 (f_idx st + 1) /\ f_cnt st' = u32 (f_cnt st + 1) /\
    f_sg_offset st' = u32 (f_sg_offset st + len) /\
    f_offset st' = u32 (f_offset st + len) /\
    f_len st' = u32 (f_len st + len) /\ ep_ok w (k + len) st'.
Proof using Hw.
  intros [Hle Hep] Ht Hk. unfold fill_step. rewrite Hep.
  pose proof (w_addr_range k) as Hr. destruct Hw as [H0 Hs He Hm Hd].
  assert (Emax : w_ep_max w = w_ep w + w_size w - 1) by (unfold w_size; lia).
  set (l0 := Z.min tlen (w_maxlen w)).
  rewrite (u64_small (w_addr w k + l0)) by lia. rewrite Emax.
  set (r := w_size w - k mod w_size w).
  pose proof (Z.mod_pos_bound k (w_size w) ltac:(lia)) as Hmod.
  assert (Er : w_ep w + w_size w - 1 - w_addr w k + 1 = r)
    by (unfold w_addr, r; lia).
  rewrite Er, (u32_small r) by lia.
  assert (Elen : exists len, (if w_ep w + w_size w - 1 <? w_addr w k + l0
    then r else l0) = len /\ 0 < len <= tlen /\ len <= r /\
    (len = tlen \/ len = w_maxlen w \/ len = r)).
  { destruct (Z.ltb_spec (w_ep w + w_size w - 1) (w_addr w k + l0));
      eexists; (split; [reflexivity|]); lia. }
  destruct Elen as (len & -> & Hlen & Hlr & Hend).
  do 2 eexists. split; [reflexivity|].
  assert (Emod : (k + len) mod w_size w =
    if decide (len = r) then 0 else k mod w_size w + len).
  { rewrite <- Zplus_mod_idemp_l. case_decide as Hd'.
    - replace (k mod w_size w + len) with (1 * w_size w) by lia. apply Z.mod_mul. lia.
    - apply Z.mod_small. lia. }
  split; [lia|]. split; [lia|]. split.
  { destruct Hend as [?|[?|Hr']]; [by left|by right; left|].
    right; right. by rewrite Emod, decide_True. }
  cbn. repeat (split; [reflexivity|]).
  unfold ep_ok. cbn. rewrite u64_small by lia. rewrite Emax.
  split; [lia|].
  change (w_addr w (k + len)) with (w_ep w + (k + len) mod w_size w).
  rewrite Emod. assert (w_addr w k = w_ep w + k mod w_size w) by done.
  destruct (Z.ltb_spec (w_ep w + w_size w - 1) (w_addr w k + len));
    case_decide; lia.
Qed.

(** * Counting descriptors *)

(** [n] descriptors moved the bytes from [k] to [k + len]: all but [c] of them
    were the longest possible or ended with the window. *)
Definition counted (k len n c : Z) : Prop :=
  exists a b, n <= c + a + b /\ 0 <= a /\ 0 <= b /\ a * w_maxlen w <= len /\
    b <= (k + len) / w_size w - k / w_size w.

Lemma counted_nil k c : 0 <= c -> counted k 0 0 c.
Proof using. intros Hc. exists 0, 0. rewrite (Z.add_0_r k), Z.sub_diag. lia. Qed.

Lemma counted_app k len1 n1 c1 len2 n2 c2 :
  counted k len1 n1 c1 -> counted (k + len1) len2 n2 c2 ->
  counted k (len1 + len2) (n1 + n2) (c1 + c2).
Proof using.
  intros (a1 & b1 & ? & ? & ? & ? & ?) (a2 & b2 & ? & ? & ? & ? & ?).
  exists (a1 + a2), (b1 + b2).
  replace (k + (len1 + len2)) with (k + len1 + len2) by lia. lia.
Qed.

Lemma counted_le k len n c c' : c <= c' -> counted k len n c -> counted k len n c'.
Proof using. intros Hc (a & b & ? & ? & ? & ? & ?). exists a, b. lia. Qed.

Lemma counted_one k tlen len :
  0 < len <= tlen -> ends k tlen len ->
  counted k len 1 (if len =? tlen then 1 else 0).
Proof using Hw.
  intros Hl He. destruct Hw.
  assert (Hdiv : k / w_size w <= (k + len) / w_size w) by (apply Z.div_le_mono; lia).
  destruct (Z.eqb_spec len tlen).
  { exists 0, 0. lia. }
  destruct He as [?|[->|Hz]]; [done|exists 1, 0; lia|].
  exists 0, 1. split; [lia|]. do 3 (split; [lia|]).
  assert (k / w_size w < (k + len) / w_size w); [|lia].
  apply Z.div_lt_upper_bound; [lia|].
  apply Z.div_exact in Hz; lia.
Qed.

(** * One entry *)

Definition filled (k : Z) (ms : list move) (n : Z) (st st' : fill_st) : Prop :=
  f_mem st' = write_moves (w_dir w) (f_idx st) ms (f_mem st) /\
  f_idx st' = f_idx st + zlength ms /\ f_cnt st' = f_cnt st + zlength ms /\
  f_offset st' = f_offset st + n /\ f_len st' = f_len st + n /\
  Forall move_ok ms /\ ep_ok w (k + n) st'.

Lemma filled_trans k ms1 n1 ms2 n2 st st1 st2 :
  filled k ms1 n1 st st1 -> filled (k + n1) ms2 n2 st1 st2 ->
  filled k (ms1 ++ ms2) (n1 + n2) st st2.
Proof using.
  intros (M1 & I1 & C1 & O1 & L1 & F1 & E1) (M2 & I2 & C2 & O2 & L2 & F2 & E2).
  unfold filled. rewrite zlength_app, write_moves_app, M2, M1, I1.
  rewrite (Z.add_assoc k). repeat (split; [first [done | lia]|]).
  split; [by apply Forall_app|done].
Qed.

Lemma filled_nil k st : ep_ok w k st -> filled k [] 0 st st.
Proof using.
  intros He. unfold filled. change (@zlength move []) with 0. rewrite !Z.add_0_r.
  do 5 (split; [done|]). split; [constructor|done].
Qed.

(** What the inner loop leaves of an entry: [tl] of its bytes from [addr] on. *)
Record entry_filled (addr tlen k : Z) (st : fill_st) (tl : Z) (st' : fill_st)
    (ms : list move) : Prop := {
  ef_tl : 0 <= tl <= tlen;
  ef_filled : filled k ms (tlen - tl) st st';
  ef_bytes : moves_bytes ms = placed w k (seqZ addr (tlen - tl));
  ef_offset : f_sg_offset st' = f_sg_offset st + (tlen - tl);
  ef_idx : f_idx st' <= w_desc_max w;
  ef_end : tl = 0 \/ f_idx st' = w_desc_max w;
  ef_some : 0 < tlen -> 0 < tlen - tl;
  ef_counted : counted k (tlen - tl) (zlength ms)
    (if (tl =? 0) && negb (tlen =? 0) then 1 else 0);
}.

Lemma fill_entry_run fuel addr tlen k st :
  ep_ok w k st -> 0 <= tlen < 2 ^ 32 -> 0 <= addr -> addr + tlen <= 2 ^ 64 ->
  0 <= f_idx st < w_desc_max w -> w_desc_max w - f_idx st < Z.of_nat fuel ->
  0 <= f_cnt st <= f_idx st -> 0 <= k -> f_offset st = k ->
  k + tlen < 2 ^ 32 -> 0 <= f_len st <= k ->
  0 <= f_sg_offset st -> f_sg_offset st + tlen < 2 ^ 32 ->
  exists tl st' ms, fill_entry w fuel addr tlen st = Some (tl, st') /\
    entry_filled addr tlen k st tl st' ms.
Proof using Hw.
  revert addr tlen k st.
  induction fuel as [|fuel IH]; intros addr tlen k st He Ht Ha Hend Hi Hf Hc Hk Ho
    Hkt Hl Hs Hst; [lia|].
  cbn [fill_entry]. destruct (Z.eqb_spec tlen 0) as [->|Hnz].
  { exists 0, st, []. split; [done|].
    split; [lia|by apply filled_nil|done|lia|lia|by left|lia|by apply counted_nil]. }
  destruct (fill_step_run addr tlen k st He ltac:(lia) Hk)
    as (len & st1 & -> & Hlen & Hfit & Hends & Em & Ei & Ecn & Es & Eo & El & He1).
  rewrite u32_small in Ei, Ecn, Es, Eo, El by (destruct Hw; lia).
  assert (Hone : filled k [(addr, w_addr w k, len)] len st st1).
  { unfold filled. change (zlength [_]) with 1.
    pose proof (w_addr_range k). destruct Hw.
    split; [done|]. do 2 (split; [done|]). do 2 (split; [lia|]).
    split; [|done]. constructor; [|constructor]. unfold move_ok. lia. }
  assert (Hbytes : moves_bytes [(addr, w_addr w k, len)] =
                   placed w k (seqZ addr len)).
  { unfold moves_bytes, placed. cbn. rewrite app_nil_r, zlength_seqZ by lia.
    by rewrite w_addr_run by lia. }
  pose proof (counted_one k tlen len Hlen Hends) as Hcnt.
  rewrite (u32_small (tlen - len)) by lia.
  destruct (Z.eqb_spec (f_idx st1) (w_desc_max w)) as [Emax|Emax].
  - exists (tlen - len), st1, [(addr, w_addr w k, len)].
    split; [done|]. split; replace (tlen - (tlen - len)) with len by lia;
      try done; try lia.
    replace (_ && _) with (len =? tlen); [done|].
    destruct (Z.eqb_spec len tlen), (Z.eqb_spec (tlen - len) 0),
      (Z.eqb_spec tlen 0); lia || done.
  - destruct (bus_run (addr + len) (tlen - len)) as (Hu0 & Hu1 & Hseq); [lia..|].
    destruct (IH (u64 (addr + len)) (tlen - len) (k + len) st1)
      as (tl & st' & ms & E & [Htl Hfl Hb Eso Him Hor Hpos Hct]); try lia.
    { done. }
    rewrite Hseq in Hb by lia.
    exists tl, st', ((addr, w_addr w k, len) :: ms). split; [exact E|].
    split; replace (tlen - tl) with (len + (tlen - len - tl)) by lia; try done; try lia.
    + apply (filled_trans k [_] len _ _ st st1 st'); done.
    + change (moves_bytes ([(addr, w_addr w k, len)] ++ ms) =
              placed w k (seqZ addr (len + (tlen - len - tl)))).
      rewrite moves_bytes_app, Hbytes, Hb, seqZ_app, placed_app by lia.
      by rewrite zlength_seqZ by lia.
    + rewrite zlength_cons, (Z.add_comm (zlength ms)).
      eapply counted_le; [|apply counted_app; [exact Hcnt|exact Hct]].
      destruct (Z.eqb_spec len tlen), (Z.eqb_spec (tlen - len) 0),
        (Z.eqb_spec tlen 0), (Z.eqb_spec tl 0); cbn; lia.
Qed.

(** * The table *)

(** The host bytes of a list of entries. *)
Definition sgs_bytes (sgs : list scatterlist) : list Z := mjoin (sg_bytes <$> sgs).

(** The entries from number [i] on that the loop reads, starting at [sgs]. *)
Definition todo (sg_max i off : Z) (sgs : list scatterlist) : list Z :=
  drop (Z.to_nat off) (sgs_bytes (take (Z.to_nat (sg_max - i)) sgs)).

Lemma drop_seqZ a n m :
  0 <= m <= n -> drop (Z.to_nat m) (seqZ a n) = seqZ (a + m) (n - m).
Proof using.
  intros Hm. replace n with (m + (n - m)) at 1 by lia.
  rewrite seqZ_app by lia. apply drop_app_length'.
  rewrite length_seqZ. lia.
Qed.

Lemma take_seqZ a n m : 0 <= n <= m -> take (Z.to_nat n) (seqZ a m) = seqZ a n.
Proof using.
  intros Hn. replace m with (n + (m - n)) by lia.
  rewrite seqZ_app by lia. apply take_app_length'. rewrite length_seqZ. lia.
Qed.

Lemma todo_cons sg_max i off sg sgs :
  i < sg_max -> 0 <= off <= sg_dma_len sg ->
  todo sg_max i off (sg :: sgs) =
  seqZ (sg_dma_address sg + off) (sg_dma_len sg - off) ++
  todo sg_max (i + 1) 0 sgs.
Proof using.
  intros Hi Ho. unfold todo, sgs_bytes.
  replace (Z.to_nat (sg_max - i)) with (S (Z.to_nat (sg_max - (i + 1)))) by lia.
  cbn [take fmap list_fmap mjoin list_join].
  rewrite drop_app_le by (unfold sg_bytes; rewrite length_seqZ; lia).
  unfold sg_bytes at 1. by rewrite drop_seqZ.
Qed.

Lemma todo_end sg_max i off sgs : sg_max <= i -> todo sg_max i off sgs = [].
Proof using.
  intros Hi. unfold todo. replace (Z.to_nat (sg_max - i)) with O by lia.
  rewrite take_0. apply drop_nil.
Qed.

(** The position after [n] bytes of [todo], as an entry and an offset. *)
Definition position (sg_max i off : Z) (sgs : list scatterlist) (n i' off' : Z)
    : Prop :=
  i <= i' /\
  todo sg_max i' off' (drop (Z.to_nat (i' - i)) sgs) =
  drop (Z.to_nat n) (todo sg_max i off sgs).

(** What the loop leaves: it is at entry [i'] in state [st'] and has made the
    moves [ms] of [n] bytes. *)
Record table_filled (sg_max : Z) (sgs : list scatterlist) (i k : Z) (st : fill_st)
    (i' : Z) (st' : fill_st) (ms : list move) (n : Z) : Prop := {
  tf_n : 0 <= n <= zlength (todo sg_max i (f_sg_offset st) sgs);
  tf_filled : filled k ms n st st';
  tf_bytes : moves_bytes ms =
    placed w k (take (Z.to_nat n) (todo sg_max i (f_sg_offset st) sgs));
  tf_idx : f_idx st' <= w_desc_max w;
  tf_end : n = zlength (todo sg_max i (f_sg_offset st) sgs) \/
    f_idx st' = w_desc_max w /\
    counted k n (zlength ms) (Z.max 0 (sg_max - i - 1));
  tf_pos : position sg_max i (f_sg_offset st) sgs n i' (f_sg_offset st');
  tf_some : 0 < zlength (todo sg_max i (f_sg_offset st) sgs) ->
    f_idx st < w_desc_max w -> 0 < n;
}.

(** The loop does not start an entry. *)
Lemma fill_stop sg_max sgs i k st :
  ep_ok w k st -> f_idx st <= w_desc_max w ->
  sg_max <= i \/ w_desc_max w <= f_idx st ->
  table_filled sg_max sgs i k st i st [] 0.
Proof using.
  intros He Hm Hor.
  pose proof (zlength_nonneg (todo sg_max i (f_sg_offset st) sgs)).
  assert (Hz : sg_max <= i -> zlength (todo sg_max i (f_sg_offset st) sgs) = 0)
    by (intros; by rewrite todo_end).
  split; [lia|by apply filled_nil|done|done| | |].
  - destruct Hor; [left; symmetry; auto|right]. split; [lia|].
    apply counted_nil. lia.
  - split; [lia|]. by rewrite Z.sub_diag.
  - intros ? ?. destruct Hor; [specialize (Hz ltac:(done))|]; lia.
Qed.

Section entry.
Context (sg_max i : Z) (sg : scatterlist) (sgs : list scatterlist) (k addr : Z)
  (st st1 : fill_st) (ms1 : list move).
Let len := sg_dma_len sg.
Let off := f_sg_offset st.
Context (Hi : i < sg_max) (Hoff : 0 <= off <= len) (Hi0 : 0 <= i).
Context (Hseq : forall n, 0 <= n <= len - off ->
  seqZ addr n = seqZ (sg_dma_address sg + off) n).

(** The entry was used up and the loop went on with the next one. *)
Lemma table_next i' st' ms2 n :
  entry_filled addr (len - off) k st 0 st1 ms1 ->
  table_filled sg_max sgs (i + 1) (k + (len - off)) (st1 <| f_sg_offset := 0 |>)
    i' st' ms2 n ->
  table_filled sg_max (sg :: sgs) i k st i' st' (ms1 ++ ms2) (len - off + n).
Proof using Hw Hi Hoff Hi0 Hseq.
  intros [_ Hf1 Hb1 _ _ _ _ Hct] [Hn Hf2 Hb2 Him2 Hor2 Hp Hpos2].
  rewrite Z.sub_0_r in *.
  change (f_sg_offset (st1 <| f_sg_offset := 0 |>)) with 0 in *.
  change (f_idx (st1 <| f_sg_offset := 0 |>)) with (f_idx st1) in *.
  assert (Hcons : todo sg_max i (f_sg_offset st) (sg :: sgs) =
    seqZ (sg_dma_address sg + off) (len - off) ++ todo sg_max (i + 1) 0 sgs)
    by by apply todo_cons.
  set (B := todo sg_max (i + 1) 0 sgs) in *.
  split; rewrite ?Hcons, ?zlength_app, ?(zlength_seqZ _ (len - off)) by lia.
  - lia.
  - by apply (filled_trans k ms1 _ ms2 n st st1 st').
  - rewrite moves_bytes_app, Hb1, Hb2, Hseq by lia.
    rewrite take_app_ge by (rewrite length_seqZ; lia).
    rewrite length_seqZ, placed_app, zlength_seqZ by lia.
    by replace (Z.to_nat (len - off + n) - Z.to_nat (len - off))%nat
      with (Z.to_nat n) by lia.
  - done.
  - destruct Hor2 as [->|[Hfull Hct2]]; [left; lia|].
    destruct (Z.le_gt_cases sg_max (i + 1)) as [Hlast|Hmore].
    + left. assert (HB0 : zlength B = 0) by (subst B; by rewrite todo_end). lia.
    + right. split; [done|]. eapply counted_le; [|by apply counted_app].
      destruct (_ && _); lia.
  - destruct Hp as [Hp1 Hp2]. split; [lia|].
    replace (Z.to_nat (i' - i)) with (S (Z.to_nat (i' - (i + 1)))) by lia.
    cbn [drop]. rewrite Hp2, Hcons. fold B.
    rewrite drop_app_ge by (rewrite length_seqZ; lia).
    f_equal. rewrite length_seqZ. lia.
  - intros Hpos0 Hroom. destruct (Z.eq_dec (len - off) 0) as [Hz|]; [|lia].
    assert (0 < n); [|lia]. apply Hpos2; [lia|].
    destruct Hct as (a1 & b1 & Hc1 & Hc2 & Hc3 & Hc4 & Hc5).
    destruct Hf1 as (_ & I1 & _).
    rewrite Hz, Z.add_0_r, Z.sub_diag in *. destruct Hw. cbn in Hc1.
    assert (a1 = 0) by nia. lia.
Qed.

(** The ring was full before the entry was used up. *)
Lemma table_last tl :
  entry_filled addr (len - off) k st tl st1 ms1 -> tl <> 0 ->
  table_filled sg_max (sg :: sgs) i k st i st1 ms1 (len - off - tl).
Proof using Hi Hoff Hseq.
  intros [Htl Hf1 Hb1 Eso Him Hor Hpos Hct] Hne. fold off in Eso.
  assert (Hcons : todo sg_max i (f_sg_offset st) (sg :: sgs) =
    seqZ (sg_dma_address sg + off) (len - off) ++ todo sg_max (i + 1) 0 sgs)
    by by apply todo_cons.
  pose proof (zlength_nonneg (todo sg_max (i + 1) 0 sgs)).
  split; rewrite ?Hcons, ?zlength_app, ?(zlength_seqZ _ (len - off)) by lia.
  - lia.
  - done.
  - rewrite Hb1, take_app_le by (rewrite length_seqZ; lia).
    rewrite Hseq, take_seqZ by lia. done.
  - done.
  - right. split; [by destruct Hor|]. eapply counted_le; [|exact Hct].
    rewrite (proj2 (Z.eqb_neq tl 0) Hne). cbn. lia.
  - split; [lia|]. rewrite Z.sub_diag, Hcons, Eso.
    change (drop (Z.to_nat 0) (sg :: sgs)) with (sg :: sgs).
    rewrite todo_cons by (fold len; lia). fold len.
    rewrite drop_app_le by (rewrite length_seqZ; lia).
    rewrite drop_seqZ by lia. do 2 f_equal; lia.
  - intros _ _. lia.
Qed.
End entry.

Lemma fill_table_run sg_max sgs i k st :
  Forall sg_wf sgs -> sg_max - i <= zlength sgs -> 0 <= i ->
  0 <= f_sg_offset st ->
  (forall sg, head sgs = Some sg -> f_sg_offset st <= sg_dma_len sg) ->
  ep_ok w k st -> 0 <= f_idx st <= w_desc_max w -> 0 <= f_cnt st <= f_idx st ->
  0 <= k -> f_offset st = k -> 0 <= f_len st <= k ->
  k + zlength (todo sg_max i (f_sg_offset st) sgs) < 2 ^ 32 ->
  exists i' st' ms n, fill_table w sg_max sgs i st = Some (i', st') /\
    table_filled sg_max sgs i k st i' st' ms n.
Proof using Hw.
  revert i k st. induction sgs as [|sg sgs IH];
    intros i k st Hwf Hlen Hi Hs Hhead He Hidx Hc Hk Ho Hl Hb.
  all: cbn [fill_table]; destruct (Z.ltb_spec i sg_max) as [Hlt|Hge]; cbn [andb].
  1: { unfold zlength in Hlen; cbn in Hlen; lia. }
  1, 3: do 4 eexists; split; [reflexivity|]; apply fill_stop; [done|lia|by left].
  destruct (Z.ltb_spec (f_idx st) (w_desc_max w)) as [Hrm|Hfull]; cbn [andb];
    [|do 4 eexists; split; [reflexivity|]; apply fill_stop; [done|lia|by right]].
  apply Forall_cons in Hwf as [(Hsl & Hsa & Hse) Hwf'].
  specialize (Hhead sg eq_refl). rewrite zlength_cons in Hlen.
  set (off := f_sg_offset st) in *. set (len := sg_dma_len sg) in *.
  set (a := sg_dma_address sg) in *.
  assert (Hin : exists addr,
    (if off =? 0 then (a, len) else (u64 (a + off), u32 (len - off))) =
      (addr, len - off) /\ 0 <= addr /\ addr + (len - off) <= 2 ^ 64 /\
    forall n, 0 <= n <= len - off -> seqZ addr n = seqZ (a + off) n).
  { destruct (Z.eqb_spec off 0) as [->|].
    - exists a. rewrite Z.sub_0_r, Z.add_0_r. done.
    - exists (u64 (a + off)). rewrite u32_small by lia. split; [done|].
      apply bus_run; lia. }
  destruct Hin as (addr & -> & Ha0 & Ha1 & Hseq).
  rewrite todo_cons in Hb by lia. fold off len a in Hb.
  rewrite zlength_app, zlength_seqZ in Hb by lia.
  pose proof (zlength_nonneg (todo sg_max (i + 1) 0 sgs)) as HB.
  destruct (fill_entry_run (entry_fuel w st) addr (len - off) k st)
    as (tl & st1 & ms1 & -> & Hentry); try done; try (unfold entry_fuel; lia).
  cbn [mbind option_bind]. destruct (Z.eqb_spec tl 0) as [->|Hne].
  - pose proof Hentry as [_ (_ & I1 & C1 & O1 & L1 & _ & E1) _ _ Him _ _ _].
    rewrite Z.sub_0_r in *. pose proof (zlength_nonneg ms1).
    destruct (IH (i + 1) (k + (len - off)) (st1 <| f_sg_offset := 0 |>))
      as (i' & st' & ms2 & n & E & Hnext); try done; try (cbn; lia).
    { intros sg' Hsg'. cbn. destruct sgs; [done|]. injection Hsg' as <-.
      apply Forall_cons in Hwf' as [(? & _ & _) _]. lia. }
    do 4 eexists. split; [exact E|]. by apply (table_next sg_max i sg sgs k addr st st1 ms1).
  - do 4 eexists. split; [reflexivity|].
    by apply (table_last sg_max i sg sgs k addr st st1 ms1).
Qed.
End window.

(** * The linked descriptors *)

(** Descriptor [k] of a chain of [n], the first one at bus address [bus]. *)
Definition chain_desc (n bus k : Z) (d : xdma_desc) : xdma_desc :=
  let d :=
    if decide (k = n - 1) then chain_link 0 (Z.lor DESC_MAGIC last_control) d
    else chain_link (bus + 32 * (k + 1)) DESC_MAGIC d in
  xdma_desc_adjacent (xdma_get_next_adj (u32 (n - k - 1)) (d_next_lo d)) d.

Lemma chain_loop dv bus0 n i mem :
  for_upto n i (chain_step dv) (u64 (bus0 + 32 * i), mem) =
  (u64 (bus0 + 32 * (i + Z.of_nat n)),
   for_upto n i (fun i =>
     zalter (chain_link (u64 (bus0 + 32 * (i + 1))) DESC_MAGIC) (dv + i)) mem).
Proof.
  revert i mem. induction n as [|n IH]; intros i mem; cbn [for_upto].
  - do 3 f_equal. lia.
  - unfold chain_step at 2. unfold sizeof_xdma_desc. rewrite u64_add_l.
    replace (bus0 + 32 * i + 32) with (bus0 + 32 * (i + 1)) by lia.
    cbv zeta. rewrite IH. do 3 f_equal. lia.
Qed.

Lemma zlookup_chain dv bus n mem j :
  1 <= n -> 0 < bus -> bus + 32 * n < 2 ^ 64 ->
  zlookup (chain dv bus n mem) j =
  if decide (dv <= j < dv + n)
  then chain_desc n bus (j - dv) <$> zlookup mem j else zlookup mem j.
Proof.
  intros Hn Hb Hb1. unfold chain.
  pose proof (chain_loop dv bus (Z.to_nat (n - 1)) 0 mem) as E.
  rewrite Z.mul_0_r, Z.add_0_r, u64_small in E by lia. rewrite E; clear E.
  unfold transfer_adjacent.
  rewrite (zlookup_for_alter _ _ (fun i d => xdma_desc_adjacent
    (xdma_get_next_adj (u32 (n - i - 1)) (d_next_lo d)) d)).
  rewrite zlookup_zalter.
  rewrite (zlookup_for_alter _ _ (fun i =>
    chain_link (u64 (bus + 32 * (i + 1))) DESC_MAGIC)).
  rewrite !Z2Nat.id by lia. unfold chain_desc.
  destruct (decide (dv <= j < dv + n)) as [Hj|Hj].
  - rewrite decide_True by lia. destruct (decide (j - dv = n - 1)) as [El|El].
    + rewrite decide_True, decide_False by lia. by destruct (zlookup mem j).
    + rewrite decide_False, decide_True, u64_small by lia.
      by destruct (zlookup mem j).
  - by rewrite !decide_False by lia.
Qed.

Lemma zlength_chain dv bus n mem : zlength (chain dv bus n mem) = zlength mem.
Proof.
  unfold chain.
  pose proof (for_upto_inv (Z.to_nat (n - 1)) 0 (chain_step dv)
    (fun _ '(_, m) => zlength m = zlength mem) (bus, mem)) as H.
  destruct (for_upto _ _ _ _) as [b' m']. unfold transfer_adjacent.
  rewrite zlength_for_zalter, zlength_zalter. apply H; [done|].
  intros j [b'' m''] _ Hm. cbn. by rewrite zlength_zalter.
Qed.

Lemma chain_desc_fields n bus k d :
  1 <= n -> 0 <= k < n -> 0 < bus -> bus + 32 * n < 2 ^ 64 ->
  let d' := chain_desc n bus k d in
  desc_magic d' = 0xAD4B /\
  desc_next d' = (if decide (k = n - 1) then 0 else bus + 32 * (k + 1)) /\
  desc_src d' = desc_src d /\ desc_dst d' = desc_dst d /\ d_bytes d' = d_bytes d /\
  desc_ctl d' = (if decide (k = n - 1) then last_control else 0).
Proof.
  intros Hn Hk Hb Hb1 d'. subst d'. unfold chain_desc.
  set (d1 := if decide (k = n - 1) then _ else _).
  assert (Hc : d_control d1 =
    if decide (k = n - 1) then Z.lor DESC_MAGIC last_control else DESC_MAGIC)
    by (subst d1; by destruct (decide _)).
  assert (Hnext : desc_next d1 = if decide (k = n - 1) then 0 else bus + 32 * (k + 1)).
  { subst d1. destruct (decide _); [reflexivity|]. unfold desc_next. cbn.
    apply dma_split. lia. }
  assert (Hsame : desc_src d1 = desc_src d /\ desc_dst d1 = desc_dst d /\
    d_bytes d1 = d_bytes d) by (subst d1; by destruct (decide _)).
  clearbody d1.
  destruct (next_adj_range (u32 (n - k - 1)) (d_next_lo d1)) as [Ha _];
    [apply u32_range|].
  rewrite desc_adjacent_control;
    [|rewrite Hc; destruct (decide _); vm_compute; split; congruence|exact Ha].
  unfold desc_magic, desc_ctl. cbn [d_control upd_field]. rewrite control_magic by done.
  rewrite control_ctl, Hc. split; [done|]. split; [exact Hnext|].
  destruct Hsame as (? & ? & ?). do 3 (split; [done|]).
  by destruct (decide _).
Qed.

(** * One pass *)

(** The bytes that one descriptor moves: host address and card address. *)
Definition desc_bytes (dir : dma_data_direction) (d : xdma_desc) : list (Z * Z) :=
  match dir with
  | DMA_TO_DEVICE => zip (seqZ (desc_src d) (d_bytes d)) (seqZ (desc_dst d) (d_bytes d))
  | DMA_FROM_DEVICE => zip (seqZ (desc_dst d) (d_bytes d)) (seqZ (desc_src d) (d_bytes d))
  end.

Lemma chain_desc_bytes dir n bus k m d :
  1 <= n -> 0 <= k < n -> 0 < bus -> bus + 32 * n < 2 ^ 64 -> move_ok m ->
  desc_bytes dir (chain_desc n bus k (set_move dir m d)) = move_bytes m.
Proof.
  intros Hn Hk Hb Hb1. destruct m as [[addr ep] len]. intros (Ha & He & Hl).
  destruct (chain_desc_fields n bus k (set_move dir (addr, ep, len) d) Hn Hk Hb Hb1)
    as (_ & _ & Es & Ed & El & _).
  unfold desc_bytes. rewrite Es, Ed, El. clear Es Ed El.
  unfold desc_src, desc_dst, set_move, xdma_desc_set, move_bytes.
  destruct dir; cbn; by rewrite !dma_split, u32_small.
Qed.

(** What a pass needs: a window that the aperture and the ring give, and a
    table of which it reads [todo]. *)
Record pass_ok (w : window) (sgs : list scatterlist) (sg_max : Z)
    (e : xdma_engine) (req : xdma_request_cb) (mem : list xdma_desc) : Prop := {
  po_mem : engine_mem_ok e mem;
  po_window : window_ok w;
  po_desc_max : w_desc_max w = e_desc_max e;
  po_ep : w_ep w = rq_ep_addr req;
  po_size : w_size w = rq_aperture req;
  po_offset : 0 <= rq_offset req;
  po_pow2 : rq_offset req = 0 \/ exists p, 0 <= p /\ rq_aperture req = 2 ^ p;
  po_sgs : Forall sg_wf sgs;
  po_idx : 0 <= rq_sg_idx req;
  po_len : sg_max - rq_sg_idx req <= zlength sgs;
  po_sg_offset : 0 <= rq_sg_offset req;
  po_head : forall sg, head sgs = Some sg -> rq_sg_offset req <= sg_dma_len sg;
  po_total : rq_offset req +
    zlength (todo sg_max (rq_sg_idx req) (rq_sg_offset req) sgs) < 2 ^ 32;
  po_todo : 0 < zlength (todo sg_max (rq_sg_idx req) (rq_sg_offset req) sgs);
}.

(** What it leaves, [n] bytes further. *)
Record pass_result (w : window) (sgs : list scatterlist) (sg_max : Z)
    (e : xdma_engine) (req : xdma_request_cb) (mem : list xdma_desc)
    (e' : xdma_engine) (req' : xdma_request_cb) (x' : xdma_transfer)
    (mem' : list xdma_desc) (n : Z) : Prop := {
  pr_desc : e_desc e' = Some mem';
  pr_len : zlength mem' = zlength mem;
  pr_walk : desc_walk (Z.to_nat (x_desc_num x')) (e_desc_bus e) mem' (x_desc_bus x')
    = Some (slice mem' (x_desc_virt x') (x_desc_num x'));
  pr_bytes : mjoin (desc_bytes (w_dir w) <$>
      slice mem' (x_desc_virt x') (x_desc_num x')) =
    placed w (rq_offset req)
      (take (Z.to_nat n) (todo sg_max (rq_sg_idx req) (rq_sg_offset req) sgs));
  pr_outside : forall j, j < x_desc_virt x' \/ x_desc_virt x' + x_desc_num x' <= j ->
    zlookup mem' j = zlookup mem j;
  pr_virt : x_desc_virt x' = e_desc_idx e;
  pr_num : 1 <= x_desc_num x' /\ e_desc_idx e + x_desc_num x' <= e_desc_max e;
  pr_idx : e_desc_idx e' = (e_desc_idx e + x_desc_num x') mod e_desc_max e;
  pr_used : e_desc_used e' = i32 (e_desc_used e + x_desc_num x');
  pr_engine : e_desc_max e' = e_desc_max e /\ e_desc_bus e' = e_desc_bus e /\
    e_dir e' = e_dir e /\ e_streaming e' = e_streaming e /\
    e_non_incr_addr e' = e_non_incr_addr e;
  pr_xlen : x_len x' = n;
  pr_xstate : x_state x' = TRANSFER_STATE_NEW;
  pr_n : 0 < n <= zlength (todo sg_max (rq_sg_idx req) (rq_sg_offset req) sgs);
  pr_offset : rq_offset req' = rq_offset req + n;
  pr_position : position sg_max (rq_sg_idx req) (rq_sg_offset req) sgs n
    (rq_sg_idx req') (rq_sg_offset req');
  pr_req : rq_total_len req' = rq_total_len req /\
    rq_ep_addr req' = rq_ep_addr req /\ rq_aperture req' = rq_aperture req;
  pr_end : n = zlength (todo sg_max (rq_sg_idx req) (rq_sg_offset req) sgs) \/
    e_desc_idx e + x_desc_num x' = e_desc_max e /\
    counted w (rq_offset req) n (x_desc_num x')
      (Z.max 0 (sg_max - rq_sg_idx req - 1));
}.

(** The offset in the window where a pass starts. *)
Lemma pass_start w sgs sg_max e req mem :
  pass_ok w sgs sg_max e req mem ->
  u64 (rq_ep_addr req + Z.land (rq_offset req) (u32 (rq_aperture req - 1))) =
  w_addr w (rq_offset req).
Proof.
  intros [_ Hw _ Eep Esz Ho Hp _ _ _ _ _ _ _].
  pose proof (w_addr_range w Hw (rq_offset req)) as Hr.
  destruct Hw as [H0 Hs He _ _].
  assert (E : Z.land (rq_offset req) (u32 (rq_aperture req - 1)) =
              rq_offset req mod w_size w).
  { rewrite u32_small by lia. destruct Hp as [->|(p & Hp0 & Hp)].
    - by rewrite Z.land_0_l, Z.mod_0_l by lia.
    - rewrite Esz, Hp, <- Z.land_ones, Z.ones_equiv by done.
      by rewrite <- Z.sub_1_r. }
  rewrite E, <- Eep. fold (w_addr w (rq_offset req)). apply u64_small. lia.
Qed.

Lemma lookup_slice {A} (l : list A) i n k :
  0 <= i -> (k < Z.to_nat n)%nat -> slice l i n !! k = zlookup l (i + Z.of_nat k).
Proof.
  intros Hi Hk. unfold slice, zlookup. destruct (Z.ltb_spec (i + Z.of_nat k) 0); [lia|].
  rewrite lookup_take_lt, lookup_drop by done. f_equal. lia.
Qed.

(** The descriptors of a pass, read back. *)
Lemma slice_bytes dir mem dv bus ms mem' :
  0 <= dv -> dv + zlength ms <= zlength mem -> 1 <= zlength ms ->
  0 < bus -> bus + 32 * zlength ms < 2 ^ 64 -> Forall move_ok ms ->
  (forall j, zlookup mem' j = zlookup (chain dv bus (zlength ms)
                                (write_moves dir dv ms mem)) j) ->
  linked mem' dv bus (zlength ms) /\
  desc_bytes dir <$> slice mem' dv (zlength ms) = move_bytes <$> ms.
Proof.
  intros Hdv Hfit Hn Hb Hb1 Hok Hlk.
  assert (Hd : forall k m, zlookup ms k = Some m -> exists d,
    zlookup mem' (dv + k) = Some (chain_desc (zlength ms) bus k (set_move dir m d))).
  { intros k m Hm. pose proof (zlookup_lt_Some _ _ _ Hm) as Hk.
    rewrite Hlk, zlookup_chain, decide_True, zlookup_write_moves by lia.
    replace (dv + k - dv) with k by lia. rewrite Hm.
    destruct (proj2 (zlookup_is_Some mem (dv + k)) ltac:(lia)) as [d ->].
    by exists d. }
  split.
  - intros k Hk. destruct (proj2 (zlookup_is_Some ms k) Hk) as [m Hm].
    destruct (Hd k m Hm) as [d ->]. eexists. split; [done|].
    destruct (chain_desc_fields (zlength ms) bus k (set_move dir m d))
      as (? & ? & _); [lia..|done].
  - apply list_eq. intros i. rewrite !list_lookup_fmap.
    destruct (decide (Z.of_nat i < zlength ms)) as [Hi|Hi].
    + rewrite lookup_slice by lia.
      destruct (proj2 (zlookup_is_Some ms (Z.of_nat i)) ltac:(lia)) as [m Hm].
      destruct (Hd _ m Hm) as [d ->]. cbn [fmap option_fmap option_map].
      unfold zlookup in Hm. destruct (Z.ltb_spec (Z.of_nat i) 0); [lia|].
      rewrite Nat2Z.id in Hm. rewrite Hm. cbn. f_equal.
      apply chain_desc_bytes; try lia. rewrite Forall_forall in Hok. apply Hok.
      by eapply list_elem_of_lookup_2.
    + rewrite (lookup_ge_None_2 (slice _ _ _));
        [|unfold slice; rewrite length_take; lia].
      rewrite (lookup_ge_None_2 ms); [done|unfold zlength in Hi; lia].
Qed.

Lemma aperture_build_run w dm sgs sg_max e req mem :
  pass_ok w sgs sg_max e req mem ->
  exists e' req' x' mem' n,
    aperture_build w dm sgs sg_max e req = Some (e', req', x') /\
    pass_result w sgs sg_max e req mem e' req' x' mem' n.
Proof.
  intros Hp. pose proof (pass_start _ _ _ _ _ _ Hp) as Hstart.
  destruct Hp as [[Hmem Hlen Hmax Hidx Hbus Hend] Hw Edm Eep Esz Ho Hpow Hsgs Hi Hl
                  Hso Hhead Htot Htodo].
  unfold aperture_build. rewrite Hmem. cbn [mbind option_bind].
  rewrite Hstart. set (st0 := Build_fill_st _ _ _ _ _ _ _).
  assert (Hep : ep_ok w (rq_offset req) st0).
  { pose proof (w_addr_range w Hw (rq_offset req)). unfold w_size in *.
    split; cbn; [lia|]. destruct (Z.ltb_spec (w_ep_max w) (w_addr w (rq_offset req)));
      [lia|done]. }
  destruct (fill_table_run w Hw sg_max sgs (rq_sg_idx req) (rq_offset req) st0)
    as (i' & st' & ms & n & -> & [Hn Hf Hb Him Hor Hpos Hpos']);
    try done; try (cbn; lia).
  cbn [mbind option_bind].
  change (f_sg_offset st0) with (rq_sg_offset req) in *.
  change (f_idx st0) with (e_desc_idx e) in *.
  destruct Hf as (M & I & C & O & L & F & _).
  change (f_idx st0) with (e_desc_idx e) in *. change (f_cnt st0) with 0 in C.
  change (f_mem st0) with mem in M. change (f_offset st0) with (rq_offset req) in O.
  change (f_len st0) with 0 in L.
  specialize (Hpos' Htodo ltac:(lia)).
  assert (Hms : 1 <= zlength ms).
  { destruct ms; [|rewrite zlength_cons; pose proof (zlength_nonneg ms); lia].
    exfalso. apply (f_equal zlength) in Hb. rewrite zlength_placed in Hb.
    unfold zlength in Hb, Hn. rewrite length_take in Hb. cbn in Hb. lia. }
  rewrite C, Z.add_0_l, (proj2 (Z.eqb_neq (zlength ms) 0)) by lia.
  assert (Ebus : u64 (e_desc_bus e + sizeof_xdma_desc * e_desc_idx e) =
    e_desc_bus e + 32 * e_desc_idx e)
    by (unfold sizeof_xdma_desc; apply u64_small; lia).
  set (bus := e_desc_bus e + 32 * e_desc_idx e) in *.
  set (mem' := chain (e_desc_idx e) bus (zlength ms)
                 (write_moves (w_dir w) (e_desc_idx e) ms mem)).
  destruct (slice_bytes (w_dir w) mem (e_desc_idx e) bus ms mem')
    as [Hlink Hslice]; try done; try lia.
  set (x0 := if _ =? _ then _ else _).
  assert (Hx : x_desc_num x0 = zlength ms /\ x_desc_virt x0 = e_desc_idx e /\
    x_desc_bus x0 = bus /\ x_len x0 = n /\ x_state x0 = TRANSFER_STATE_NEW).
  { subst x0. rewrite (i32_small (zlength ms)) by lia.
    destruct (_ =? _); cbn; rewrite Ebus, L; auto with lia. }
  destruct Hx as (Xn & Xv & Xb & Xl & Xs).
  rewrite Xv, Xb, M. fold mem'. clearbody x0.
  do 5 eexists. split; [reflexivity|].
  split; rewrite ?Xn, ?Xv, ?Xb; cbn; try done; try lia.
  - unfold mem'. by rewrite zlength_chain, zlength_write_moves.
  - pose proof (desc_walk_linked (Z.to_nat (zlength ms)) mem' (e_desc_bus e)
      (e_desc_idx e) bus (zlength ms) 0 Hlink) as W.
    rewrite Z.mul_0_r, !Z.add_0_r, Z.sub_0_r in W. apply W; lia.
  - rewrite Hslice. exact Hb.
  - intros j Hj. unfold mem'. rewrite zlookup_chain, decide_False by lia.
    rewrite zlookup_write_moves by lia.
    by rewrite (proj2 (zlookup_None ms _)) by lia.
  - by rewrite u32_small by lia.
  - destruct Hor as [?|[? ?]]; [by left|right]. split; [lia|done].
Qed.
