(* ===== verification/Threads.v ===== *)
(** The completion threads of the polled mode ([src/src/xdma_thread.c]): each
    engine is a work item of one thread, which services the engine by polling
    its writeback location. *)
From S2P Require Import Prelude Hw Desc Types Engine EngineFacts EngineSys.

(** * State *)

(** [struct xdma_kthread]; a work item is the identifier of its engine, [task]
    the kernel's thread. *)
Record xdma_kthread := {
  k_cpu : Z;
  k_id : Z;
  k_timeout : Z;
  k_schedule : Z;
  k_task : option Z;
  k_work_cnt : Z;
  k_work_list : list nat;
  k_fproc : bool;
}.

#[export] Instance eta_kthread : Eta xdma_kthread := fun r =>
  Build_xdma_kthread (k_cpu r) (k_id r) (k_timeout r) (k_schedule r) (k_task r)
    (k_work_cnt r) (k_work_list r) (k_fproc r).

Definition zero_kthread : xdma_kthread :=
  Build_xdma_kthread 0 0 0 0 None 0 [] false.

(** The globals [cs_threads] and [thread_cnt], the engines by identifier and
    the trace of kernel calls. *)
Record tst := {
  t_threads : option (list xdma_kthread);
  t_thread_cnt : Z;
  t_engines : gmap nat est;
  t_trace : list event;
}.

#[export] Instance eta_tst : Eta tst := fun r =>
  Build_tst (t_threads r) (t_thread_cnt r) (t_engines r) (t_trace r).

#[export] Instance traced_tst : Traced tst := {|
  trace_of := t_trace;
  with_trace t s := s <| t_trace := t |>;
|}.

Definition threads (s : tst) : list xdma_kthread := default [] (t_threads s).

(** [engine->cmplthp] of engine [e]: the index of its thread. *)
Definition cmplthp (s : tst) (e : nat) : option nat :=
  t_engines s !! e ≫= fun es => e_cmplthp (st_eng es).

Definition upd_engine (e : nat) (f : xdma_engine -> xdma_engine) (s : tst)
    : tst :=
  s <| t_engines ::= alter (fun es => es <| st_eng ::= f |>) e |>.

Definition upd_thread (i : nat) (f : xdma_kthread -> xdma_kthread) (s : tst)
    : tst :=
  s <| t_threads ::= fmap (alter f i) |>.

(** * Assigning engines to threads *)

(** The loop of [xdma_thread_add_work] over the threads from index [i] on:
    [idx] is [None] until the first thread has been seen. *)
Fixpoint select_loop (ths : list xdma_kthread) (i : nat) (idx : option nat)
    (v : Z) : option nat :=
  match ths with
  | [] => idx
  | thp :: ths' =>
      match idx with
      | None => select_loop ths' (S i) (Some i) (k_work_cnt thp)
      | Some j =>
          if k_work_cnt thp =? 0 then Some i
          else if k_work_cnt thp <? v then select_loop ths' (S i) (Some i) v
          else select_loop ths' (S i) (Some j) v
      end
  end.

Definition select_thread (s : tst) : option nat :=
  select_loop (take (Z.to_nat (t_thread_cnt s)) (threads s)) 0 None 0.

(** [None]: there is no thread, and [cs_threads + idx] is not an element of
    the array. *)
Definition xdma_thread_add_work (e : nat) (s : tst) : option tst :=
  idx ← select_thread s;
  let s := upd_thread idx (fun thp =>
             thp <| k_work_list ::= fun l => l ++ [e] |>
                 <| k_work_cnt ::= fun n => u32 (n + 1) |>) s in
  Some (upd_engine e (fun eng =>
          eng <| e_intr_work_cpu := Z.of_nat idx |>
              <| e_cmplthp := Some idx |>) s).

Definition xdma_thread_remove_work (e : nat) (s : tst) : tst :=
  let cmpl_thread := cmplthp s e in
  let s := upd_engine e (fun eng => eng <| e_cmplthp := None |>) s in
  match cmpl_thread with
  | Some i =>
      upd_thread i (fun thp =>
        thp <| k_work_list ::= filter (fun x => x <> e) |>
            <| k_work_cnt ::= fun n => u32 (n - 1) |>) s
  | None => s
  end.

(** * The work *)

Definition xdma_thread_cmpl_status_pend (es : est) : bool :=
  negb (list_empty (queue es)).

Section work.
Context `{Platform} `{ModParams}.

(** The first transfer of an empty list is the list head taken for a transfer;
    [garbage] is what [desc_cmpl_th] then reads. *)
Definition xdma_thread_cmpl_status_proc (HZ : Z) (fuel : nat) (garbage : Z)
    : M est Z :=
  let* e := engine in
  let* th := (match list_first (e_transfer_list e) with
              | Some id => let* x := xfer id in ret (x_desc_cmpl_th x)
              | None => ret garbage
              end) in
  let* _ := engine_service_poll HZ fuel (u32 th) in
  ret 0.

(** [thp->fpending] is always set by [xdma_threads_create]. *)
Definition xthread_work_pending (thp : xdma_kthread) (s : tst) : bool :=
  negb (list_empty (k_work_list thp)) &&
  existsb (fun e => from_option xdma_thread_cmpl_status_pend false
                      (t_engines s !! e)) (k_work_list thp).

(** One pass of the loop of [xthread_main] of thread [i], after it has found
    work or has been woken. *)
Definition xthread_pass (HZ : Z) (fuel : nat) (garbage : Z) (i : nat) (s : tst)
    : tst :=
  let s := upd_thread i (fun thp => thp <| k_schedule := 0 |>) s in
  match threads s !! i with
  | None => s
  | Some thp =>
      if k_work_cnt thp =? 0 then s
      else
        foldl (fun s e =>
          s <| t_engines ::= alter (fun es =>
                 snd (xdma_thread_cmpl_status_proc HZ fuel garbage es)) e |>)
          s (k_work_list thp)
  end.

(** * Creating and destroying the threads *)

(** [kthread_create_on_node] answers with a task or with an error pointer,
    here a negative number. *)
Definition xdma_kthread_start (i : nat) (id : Z) : M tst Z :=
  let* s := gets (fun s : tst => s) in
  match threads s !! i with
  | None => ret (- EFAULT)
  | Some thp =>
      match k_task thp with
      | Some _ => ret (- EINVAL)
      | None =>
          do* modify (upd_thread i (fun thp =>
                thp <| k_id := u16 id |> <| k_work_list := [] |>)) in
          let* task := kcall "kthread_create_on_node" [k_cpu thp] in
          if task <? 0 then
            do* modify (upd_thread i (fun thp => thp <| k_task := None |>)) in
            ret (- EFAULT)
          else
            do* modify (upd_thread i (fun thp => thp <| k_task := Some task |>)) in
            let* _ := kcall "kthread_bind" [task; k_cpu thp] in
            let* _ := kcall "wake_up_process" [task] in
            ret 0
      end
  end.

Definition xdma_kthread_stop (i : nat) : M tst Z :=
  let* s := gets (fun s : tst => s) in
  match threads s !! i with
  | None => ret 0
  | Some thp =>
      match k_task thp with
      | None => ret 0
      | Some task =>
          do* modify (upd_thread i (fun thp => thp <| k_schedule := 1 |>)) in
          let* rv := kcall "kthread_stop" [task] in
          if rv <? 0 then ret rv
          else
            do* modify (upd_thread i (fun thp => thp <| k_task := None |>)) in
            ret 0
      end
  end.

Definition kfree_threads : M tst unit :=
  do* (let* _ := kcall "kfree" [] in ret tt) in
  modify (fun s => s <| t_threads := None |> <| t_thread_cnt := 0 |>).

(** The [for_each_online_cpu] loop. *)
Fixpoint create_loop (num_threads : Z) (cpus : list Z) : M tst Z :=
  match cpus with
  | [] => ret 0
  | cpu :: cpus' =>
      let* n := gets t_thread_cnt in
      let i := Z.to_nat n in
      do* modify (upd_thread i (fun thp =>
            thp <| k_cpu := cpu |> <| k_timeout := 0 |> <| k_fproc := true |>)) in
      let* rv := xdma_kthread_start i n in
      if rv <? 0 then
        do* kfree_threads in
        ret rv
      else
        do* modify (fun s => s <| t_thread_cnt ::= fun n => u32 (n + 1) |>) in
        let* n := gets t_thread_cnt in
        if n =? num_threads then ret 0 else create_loop num_threads cpus'
  end.

(** [cpus]: the online processors. *)
Definition xdma_threads_create (cpus : list Z) (num_threads : Z) : M tst Z :=
  let* n := gets t_thread_cnt in
  if negb (n =? 0) then ret 0
  else
    let* p := kcall "kzalloc" [num_threads] in
    if p =? 0 then
      do* modify (fun s => s <| t_threads := None |>) in
      ret (- ENOMEM)
    else
      do* modify (fun s =>
            s <| t_threads := Some (replicate (Z.to_nat num_threads) zero_kthread) |>) in
      create_loop num_threads cpus.

Fixpoint stop_loop (n : nat) (i : nat) : M tst unit :=
  match n with
  | O => ret tt
  | S n' =>
      let* s := gets (fun s : tst => s) in
      do* when (from_option k_fproc false (threads s !! i))
            (let* _ := xdma_kthread_stop i in ret tt) in
      stop_loop n' (S i)
  end.

Definition xdma_threads_destroy : M tst unit :=
  let* n := gets t_thread_cnt in
  if n =? 0 then ret tt
  else
    do* stop_loop (Z.to_nat n) 0 in
    kfree_threads.
End work.
