(* ===== verification/Nupa.v ===== *)
(** The network driver on top of the DMA library ([src/src/nupanet_main.c] and
    [nupanet_main.h]): hosts exchange packets through rings of descriptors in
    memory that the card shares between them, and move the packets with the
    DMA engines. *)
From S2P Require Import Prelude Hw Desc Types Request Engine Transfer Submit.

(** * The shared memory *)

Definition TOTAL_DMA_SIZE : Z := Eval cbv in Z.shiftl 64 12.
Definition USR_BAR_SHARING_SIZE : Z := Eval cbv in Z.shiftl 1 12.
Definition MAX_AGENT_NUM : Z := 2.
Definition INFO_SIZE : Z := Eval cbv in USR_BAR_SHARING_SIZE / MAX_AGENT_NUM.
Definition MAX_DESC_NUM : Z := 64.
Definition AGENT_TOTAL_DMA_SIZE : Z := Eval cbv in TOTAL_DMA_SIZE / MAX_AGENT_NUM.
Definition DESC_MAX_DMA_SIZE : Z :=
  Eval cbv in AGENT_TOTAL_DMA_SIZE / MAX_DESC_NUM.

Inductive packet_desc_status :=
| PACKET_INIT
| PACKET_FREEZING
| PACKET_SETTLED
| PACKET_RELEASED.

#[export] Instance packet_desc_status_eq_dec : EqDecision packet_desc_status.
Proof. solve_decision. Defined.

Record packet_desc := {
  pd_pos : Z;
  pd_offset : Z;
  pd_length : Z;
  pd_status : packet_desc_status;
}.

#[export] Instance eta_packet_desc : Eta packet_desc := fun r =>
  Build_packet_desc (pd_pos r) (pd_offset r) (pd_length r) (pd_status r).

Record packets_info := {
  pi_host_id : Z;
  pi_head : Z;
  pi_tail : Z;
  pi_total_len : Z;
  pi_ready : bool;
}.

#[export] Instance eta_packets_info : Eta packets_info := fun r =>
  Build_packets_info (pi_host_id r) (pi_head r) (pi_tail r) (pi_total_len r)
    (pi_ready r).

(** Bytes of the two structures. *)
Definition sizeof_packets_info : Z := 20.
Definition sizeof_packet_desc : Z := 16.

(** The [INFO_SIZE] bytes of one host: its [packets_info] and its packet
    descriptors. *)
Record area := {
  ar_info : packets_info;
  ar_descs : list packet_desc;
}.

#[export] Instance eta_area : Eta area := fun r =>
  Build_area (ar_info r) (ar_descs r).

(** Where they lie in the shared memory. *)
Definition host_base (host_id : Z) : Z := INFO_SIZE * host_id.
Definition desc_addr (host_id i : Z) : Z :=
  host_base host_id + sizeof_packets_info + sizeof_packet_desc * i.

(** The adapter: the areas of all hosts, its own host number, its debug
    switches, its two DMA engines ([engine_h2c[0]] and [engine_c2h[0]]) and the
    trace. *)
Record nst := {
  n_shm : list area;
  n_host_id : Z;
  n_dump_ctl : bool;
  n_hold_ic_ctl : bool;
  n_h2c : est;
  n_c2h : est;
  n_trace : list event;
}.

#[export] Instance eta_nst : Eta nst := fun r =>
  Build_nst (n_shm r) (n_host_id r) (n_dump_ctl r) (n_hold_ic_ctl r) (n_h2c r)
    (n_c2h r) (n_trace r).

#[export] Instance traced_nst : Traced nst := {|
  trace_of := n_trace;
  with_trace t s := s <| n_trace := t |>;
|}.

(** How a call ends: normally, in [BUG_ON], in an access outside the shared
    memory or through a null pointer, or not at all as long as no other host
    changes the shared memory. *)
Inductive outcome (A : Type) :=
| Done (a : A)
| Bug
| Fault
| Spin.
Arguments Done {A} a.
Arguments Bug {A}.
Arguments Fault {A}.
Arguments Spin {A}.

(** A call after a call that ended normally. *)
Definition obind {S A B} (m : M S (outcome A)) (k : A -> M S (outcome B))
    : M S (outcome B) :=
  let* r := m in
  match r with
  | Done a => k a
  | Bug => ret Bug
  | Fault => ret Fault
  | Spin => ret Spin
  end.

Notation "'try*' x ':=' m 'in' k" := (obind m (fun x => k))
  (at level 10, x name, m at level 100, k at level 200,
   format "'[v' 'try*'  x  ':='  m  'in' '/' k ']'") : prog_scope.

Definition get_area (host_id : Z) : M nst (outcome area) :=
  let* s := gets n_shm in
  ret (match zlookup s host_id with Some a => Done a | None => Fault end).
Definition set_area (host_id : Z) (f : area -> area) : M nst unit :=
  modify (fun s => s <| n_shm ::= zalter f host_id |>).
Definition get_desc (host_id i : Z) : M nst (outcome packet_desc) :=
  try* a := get_area host_id in
  ret (match zlookup (ar_descs a) i with Some d => Done d | None => Fault end).
Definition set_desc (host_id i : Z) (f : packet_desc -> packet_desc)
    : M nst unit :=
  set_area host_id (fun a => a <| ar_descs ::= zalter f i |>).

(** * Host numbers *)

(** The result is a [char]. *)
Definition device_id_to_host_id (dev_id : Z) : Z :=
  i8 (Z.land (Z.shiftr dev_id 8) 0xF).
Definition mac_addr_to_host_id (mac_addr : list Z) : Z :=
  i8 (default 0 (zlookup mac_addr 5)).

(** * Receiving *)

(** The index of the descriptor to process, or [None]. *)
Definition nupa_data_available (host_id : Z) : M nst (outcome (option Z)) :=
  if MAX_AGENT_NUM <=? host_id then ret Bug
  else
    try* a := get_area host_id in
    let head := pi_head (ar_info a) in
    let tail := pi_tail (ar_info a) in
    if head =? tail then ret (Done None)
    else
      try* d := get_desc host_id tail in
      match pd_status d with
      | PACKET_FREEZING => ret Spin
      | PACKET_SETTLED =>
          do* set_area host_id (fun a => a <| ar_info ::= fun info =>
                info <| pi_tail := Z.rem (tail + 1) MAX_DESC_NUM |>
                     <| pi_total_len ::= fun l => i32 (l - DESC_MAX_DMA_SIZE) |> |>) in
          ret (Done (Some tail))
      | PACKET_INIT | PACKET_RELEASED => ret (Done None)
      end.

(** * Sending *)

(** The index of the descriptor taken, or [None].  [total_len] is the value of
    the local variable, which the function never sets. *)
Definition fetch_packet_desc (total_len : Z) (dst_id length : Z)
    : M nst (outcome (option Z)) :=
  if MAX_AGENT_NUM <=? dst_id then ret Bug
  else
    try* a := get_area dst_id in
    let head := pi_head (ar_info a) in
    let tail := pi_tail (ar_info a) in
    if negb (pi_ready (ar_info a)) then ret (Done None)
    else
      let total_len := i32 (total_len + DESC_MAX_DMA_SIZE) in
      if total_len <=? AGENT_TOTAL_DMA_SIZE then
        if Z.land (head + 1) (MAX_DESC_NUM - 1) =? tail then ret (Done None)
        else
          try* d := get_desc dst_id head in
          do* set_area dst_id (fun a => a <| ar_info ::= fun info =>
                info <| pi_total_len ::= fun l => i32 (l + length) |>
                     <| pi_head := Z.rem (head + 1) MAX_DESC_NUM |> |>) in
          do* set_desc dst_id head (fun d =>
                d <| pd_status := PACKET_FREEZING |> <| pd_length := length |>
                  <| pd_offset := i32 (AGENT_TOTAL_DMA_SIZE * dst_id +
                                       pd_pos d * DESC_MAX_DMA_SIZE) |>) in
          ret (Done (Some head))
      else ret (Done None).

(** The adapter's own area when it starts. *)
Definition init_area (host_id : Z) : area := {|
  ar_info := Build_packets_info host_id 0 0 0 true;
  ar_descs := map (fun pos => Build_packet_desc pos 0 0 PACKET_INIT)
                (seqZ 0 MAX_DESC_NUM);
|}.

Definition adapter_info_init : M nst (outcome unit) :=
  let* host_id := gets n_host_id in
  if MAX_AGENT_NUM <=? host_id then ret Bug
  else
    try* a := get_area host_id in
    do* set_area host_id (fun _ => init_area host_id) in
    ret (Done tt).

Section nupa.
Context `{Platform} `{ModParams}.
Context (interfere : est -> est).

(** [PAGE_SIZE] of the host. *)
Definition PAGE_SIZE : Z := 4096.
Definition PAGE_SHIFT : Z := 12.
Definition PAGE_MASK : Z := - 4096.
Definition offset_in_page (p : Z) : Z := Z.land p (PAGE_SIZE - 1).

Definition pages_nr (buf length : Z) : Z :=
  u32 (Z.shiftr (u64 (u64 (buf + length + PAGE_SIZE - 1) - Z.land buf PAGE_MASK))
         PAGE_SHIFT).

(** The segments of the buffer, one per page. *)
Fixpoint buf_segments (n : nat) (buf length : Z) : list (Z * Z) :=
  match n with
  | O => []
  | S n' =>
      let offset := offset_in_page buf in
      let nbytes := Z.min (u32 (PAGE_SIZE - offset)) (u32 length) in
      (buf, nbytes) :: buf_segments n' (u64 (buf + nbytes)) (i32 (length - nbytes))
  end.

(** [sg_set_buf]; the bus address is what [dma_map_sg] will find for it. *)
Fixpoint sg_of_segments (segs : list (Z * Z)) : M est (list scatterlist) :=
  match segs with
  | [] => ret []
  | (buf, nbytes) :: segs' =>
      let* bus := kcall "sg_set_buf" [buf; nbytes] in
      let* sgs := sg_of_segments segs' in
      ret (Build_scatterlist bus nbytes :: sgs)
  end.

(** On one engine; the transfers of a request live at identifiers 0 and 1.
    [PAGE_SIZE] is unsigned, so a negative length is above it.  [None] where the
    table cannot be allocated, a null pointer [sg_alloc_table] writes through,
    and where [xdma_xfer_submit] has no result. *)
Definition xdma_transfer_data (offset length buf : Z) (is_write : bool)
    : M est (option Z) :=
  if PAGE_SIZE <? u64 length then ret (Some (- EINVAL))
  else
    let* sgt := kcall "kzalloc" [16] in
    let n := pages_nr buf length in
    if n =? 0 then ret (Some (- EINVAL))
    else if sgt =? 0 then ret None
    else
      let* rv := kcall "sg_alloc_table" [n] in
      if negb (rv =? 0) then ret (Some (- ENOMEM))
      else
        let* sgs := sg_of_segments (buf_segments (Z.to_nat n) buf length) in
        let* e := engine in
        let* r := xdma_xfer_submit interfere true (e_channel e) is_write
                    (u64 offset)
                    {| sgl := sgs; nents := 0; orig_nents := n |} false
                    (0, 1)%nat in
        ret (match r with Some (res, _) => Some (i32 res) | None => None end).

(** The engine's part of the adapter. *)
Definition on_h2c {A} (m : M est A) : M nst A := fun s =>
  let (a, e) := m (n_h2c s) in (a, s <| n_h2c := e |>).
Definition on_c2h {A} (m : M est A) : M nst A := fun s =>
  let (a, e) := m (n_c2h s) in (a, s <| n_c2h := e |>).

(** The frame in [skb] is copied into a buffer and sent. *)
Definition xdma_send_data (skb : Z) (d : packet_desc) : M nst (outcome Z) :=
  let* buf := kcall "kmalloc" [pd_length d] in
  if buf =? 0 then ret Fault
  else
    let* _ := kcall "memcpy" [buf; skb; pd_length d] in
    let* r := on_h2c (xdma_transfer_data (pd_offset d) (pd_length d) buf true) in
    match r with
    | None => ret Spin
    | Some res => let* _ := kcall "kfree" [buf] in ret (Done res)
    end.

(** The [skb], or [None] when no buffer could be had. *)
Definition xdma_receive_data (d : packet_desc) : M nst (outcome (option Z)) :=
  let* skb := kcall "napi_alloc_skb" [pd_length d] in
  let* buf := kcall "kmalloc" [pd_length d] in
  if buf =? 0 then ret (Done None)
  else
    let* r := on_c2h (xdma_transfer_data (pd_offset d) (pd_length d) buf false) in
    match r with
    | None => ret Spin
    | Some _ =>
        if skb =? 0 then ret Fault
        else
          let* _ := kcall "skb_put_data" [skb; buf; pd_length d] in
          let* _ := kcall "kfree" [buf] in
          ret (Done (Some skb))
    end.

(** * The network device *)

(** [is_multicast_ether_addr] holds of the broadcast address too. *)
Definition is_multicast (mac : list Z) : bool :=
  Z.testbit (default 0 (zlookup mac 0)) 0.

(** The first host that is not this one: the destination of a broadcast. *)
Fixpoint other_host (n : nat) (i host_id : Z) : option Z :=
  match n with
  | O => None
  | S n' => if i =? host_id then other_host n' (i + 1) host_id else Some i
  end.

(** [data]: the linear part of the frame, [skb] its buffer.  The result is
    always [NETDEV_TX_OK]; [total_len] as in [fetch_packet_desc]. *)
Definition nupanet_xmit_frame (total_len : Z) (skb : Z) (data : list Z)
    : M nst (outcome unit) :=
  let* hold := gets n_hold_ic_ctl in
  if hold then ret (Done tt)
  else
    let* host_id := gets n_host_id in
    let dst_id :=
      if is_multicast data
      then default 0 (other_host (Z.to_nat MAX_AGENT_NUM) 0 host_id)
      else mac_addr_to_host_id data in
    let free := let* _ := kcall "dev_kfree_skb" [skb] in ret (Done tt) in
    let length := zlength data in
    if DESC_MAX_DMA_SIZE <? length then free
    else
      try* r := fetch_packet_desc total_len dst_id length in
      match r with
      | None => free
      | Some i =>
          try* d := get_desc dst_id i in
          try* res := xdma_send_data skb d in
          do* set_desc dst_id i (fun d => d <| pd_status := PACKET_SETTLED |>) in
          free
      end.

(** The [while (1)] loop of [nupanet_poll]: [Spin] also when the fuel runs
    out. *)
Fixpoint poll_loop (fuel : nat) (host_id budget work_done : Z)
    : M nst (outcome Z) :=
  match fuel with
  | O => ret Spin
  | S fuel' =>
      try* r := nupa_data_available host_id in
      match r with
      | None => ret (Done work_done)
      | Some i =>
          try* d := get_desc host_id i in
          try* skb := xdma_receive_data d in
          match skb with
          | None => ret (Done work_done)
          | Some skb =>
              do* set_desc host_id i (fun d =>
                    d <| pd_status := PACKET_RELEASED |>) in
              let* _ := kcall "eth_type_trans" [skb] in
              let* _ := kcall "napi_gro_receive" [skb] in
              let work_done := work_done + 1 in
              if budget <? work_done then ret (Done work_done)
              else poll_loop fuel' host_id budget work_done
          end
      end
  end.

Definition nupanet_poll (budget : Z) : M nst (outcome Z) :=
  let* host_id := gets n_host_id in
  let* hold := gets n_hold_ic_ctl in
  if hold then ret (Done 0)
  else
    try* work_done := poll_loop (Z.to_nat budget + 2) host_id budget 0 in
    if work_done =? budget then ret (Done budget)
    else
      let* _ := kcall "napi_complete_done" [work_done] in
      ret (Done work_done).

(** The MAC address after [nupanet_set_mac]. *)
Definition base_mac_addr : list Z := [0xFC; 0xAF; 0xAC; 0; 0; 0].
Definition nupanet_set_mac (dev_id : Z) : list Z :=
  zset (u8 (device_id_to_host_id dev_id)) 5 base_mac_addr.
End nupa.
