(* ===== verification/NupaFacts.v ===== *)
(** The packet ring of a host as a queue. *)
From S2P Require Import Prelude Hw Desc Types Request Engine EngineFacts.
From S2P Require Import Transfer Submit Nupa.

(** * Outcomes *)

Lemma obind_run {S A B} (m : M S (outcome A)) (k : A -> M S (outcome B)) s :
  obind m k s =
  match fst (m s) with
  | Done a => k a (snd (m s))
  | Bug => (Bug, snd (m s))
  | Fault => (Fault, snd (m s))
  | Spin => (Spin, snd (m s))
  end.
Proof. unfold obind. rewrite bind_run. by destruct (fst (m s)). Qed.

Lemma get_area_run h a s :
  zlookup (n_shm s) h = Some a -> get_area h s = (Done a, s).
Proof. intros E. unfold get_area. exec. by rewrite E. Qed.

Lemma get_desc_run h a i d s :
  zlookup (n_shm s) h = Some a -> zlookup (ar_descs a) i = Some d ->
  get_desc h i s = (Done d, s).
Proof.
  intros Ea Ed. unfold get_desc. rewrite obind_run, (get_area_run h a) by done.
  cbn [fst snd]. exec. by rewrite Ed.
Qed.

Lemma set_area_run h f s :
  set_area h f s = (tt, s <| n_shm ::= zalter f h |>).
Proof. done. Qed.

Lemma set_desc_run h i f s :
  set_desc h i f s =
  (tt, s <| n_shm ::= zalter (fun a => a <| ar_descs ::= zalter f i |>) h |>).
Proof. done. Qed.

#[export] Hint Rewrite @obind_run set_area_run set_desc_run : run.

(** * Ring arithmetic *)

Lemma next_slot i : 0 <= i < 64 -> Z.rem (i + 1) MAX_DESC_NUM = (i + 1) mod 64.
Proof. intros Hi. apply Z.rem_mod_nonneg; unfold MAX_DESC_NUM; lia. Qed.

Lemma next_slot_land i : Z.land (i + 1) (MAX_DESC_NUM - 1) = (i + 1) mod 64.
Proof. change (MAX_DESC_NUM - 1) with (Z.ones 6). by rewrite Z.land_ones. Qed.

(** * The ring as a queue *)

Record ring_wf (a : area) : Prop := {
  rw_len : zlength (ar_descs a) = MAX_DESC_NUM;
  rw_head : 0 <= pi_head (ar_info a) < MAX_DESC_NUM;
  rw_tail : 0 <= pi_tail (ar_info a) < MAX_DESC_NUM;
  rw_pos : forall i d, zlookup (ar_descs a) i = Some d -> pd_pos d = i;
}.

(** The number of descriptors between tail and head. *)
Definition pending (a : area) : Z :=
  (pi_head (ar_info a) - pi_tail (ar_info a)) mod MAX_DESC_NUM.

Definition slot (a : area) (k : Z) : Z :=
  (pi_tail (ar_info a) + k) mod MAX_DESC_NUM.

(** [ring a q]: the packets [q], as offsets and lengths, wait in the ring, the
    oldest first. *)
Record ring (a : area) (q : list (Z * Z)) : Prop := {
  rg_wf : ring_wf a;
  rg_len : zlength q = pending a;
  rg_entry : forall k off len, zlookup q k = Some (off, len) ->
    exists d, zlookup (ar_descs a) (slot a k) = Some d /\
      pd_status d = PACKET_SETTLED /\ pd_offset d = off /\ pd_length d = len;
}.

Lemma slot_range a k : 0 <= slot a k < 64.
Proof. apply Z.mod_pos_bound. reflexivity. Qed.

Lemma ring_lookup a i :
  ring_wf a -> 0 <= i < 64 -> exists d, zlookup (ar_descs a) i = Some d /\ pd_pos d = i.
Proof.
  intros [Hl _ _ Hp] Hi. destruct (proj2 (zlookup_is_Some (ar_descs a) i)) as [d Hd].
  - rewrite Hl. unfold MAX_DESC_NUM. lia.
  - exists d. split; [done|]. by apply Hp.
Qed.

Lemma ring_empty a q : ring a q ->
  (pi_head (ar_info a) = pi_tail (ar_info a) <-> q = []).
Proof.
  intros [[_ Hh Ht _] Hl _]. unfold pending, MAX_DESC_NUM in *. split.
  - intros E. rewrite E, Z.sub_diag in Hl. destruct q; [done|].
    unfold zlength in Hl. cbn [length] in Hl.
    change (0 mod 64) with 0 in Hl. lia.
  - intros ->. change (zlength (@nil (Z * Z))) with 0 in Hl. dlia.
Qed.

Lemma ring_full a q : ring a q ->
  ((pi_head (ar_info a) + 1) mod 64 = pi_tail (ar_info a) <-> zlength q = 63).
Proof. intros [[_ Hh Ht _] Hl _]. unfold pending, MAX_DESC_NUM in *. dlia. Qed.

Lemma slot_pending a : ring_wf a -> slot a (pending a) = pi_head (ar_info a).
Proof. intros [_ Hh Ht _]. unfold slot, pending, MAX_DESC_NUM in *. dlia. Qed.

Lemma slot_0 a : ring_wf a -> slot a 0 = pi_tail (ar_info a).
Proof. intros [_ _ Ht _]. unfold slot, MAX_DESC_NUM in *. dlia. Qed.

Lemma slot_inj a j k : ring_wf a ->
  0 <= j < 64 -> 0 <= k < 64 -> slot a j = slot a k -> j = k.
Proof. intros [_ Hh Ht _]. unfold slot, MAX_DESC_NUM in *. dlia. Qed.

(** ** Changes to the ring *)

(** Where the packet in slot [i] of host [dst_id] lies in the card's memory. *)
Definition dma_slot (dst_id i : Z) : Z :=
  AGENT_TOTAL_DMA_SIZE * dst_id + i * DESC_MAX_DMA_SIZE.

Lemma dma_slot_offset dst_id i :
  0 <= dst_id < MAX_AGENT_NUM -> 0 <= i < MAX_DESC_NUM ->
  i32 (AGENT_TOTAL_DMA_SIZE * dst_id + i * DESC_MAX_DMA_SIZE) = dma_slot dst_id i.
Proof.
  intros. unfold dma_slot. apply i32_small. unfold AGENT_TOTAL_DMA_SIZE,
    DESC_MAX_DMA_SIZE, MAX_AGENT_NUM, MAX_DESC_NUM in *. lia.
Qed.

(** The area after [fetch_packet_desc] has taken the descriptor at the head. *)
Definition fetched (dst_id length : Z) (a : area) : area :=
  a <| ar_info ::= fun info =>
         info <| pi_total_len ::= fun l => i32 (l + length) |>
              <| pi_head := Z.rem (pi_head (ar_info a) + 1) MAX_DESC_NUM |> |>
    <| ar_descs ::= zalter (fun d =>
         d <| pd_status := PACKET_FREEZING |> <| pd_length := length |>
           <| pd_offset := i32 (AGENT_TOTAL_DMA_SIZE * dst_id +
                                pd_pos d * DESC_MAX_DMA_SIZE) |>)
         (pi_head (ar_info a)) |>.

Definition settle (i : Z) (a : area) : area :=
  a <| ar_descs ::= zalter (fun d => d <| pd_status := PACKET_SETTLED |>) i |>.

(** The area after a packet has been put in its ring. *)
Definition enqueue (dst_id length : Z) (a : area) : area :=
  settle (pi_head (ar_info a)) (fetched dst_id length a).

(** The area after the descriptor at the tail has been taken. *)
Definition dequeue (a : area) : area :=
  a <| ar_info ::= fun info =>
         info <| pi_tail := Z.rem (pi_tail info + 1) MAX_DESC_NUM |>
              <| pi_total_len ::= fun l => i32 (l - DESC_MAX_DMA_SIZE) |> |>.

Definition release (i : Z) (a : area) : area :=
  a <| ar_descs ::= zalter (fun d => d <| pd_status := PACKET_RELEASED |>) i |>.

Lemma alter_wf f i a :
  (forall d, pd_pos (f d) = pd_pos d) -> ring_wf a ->
  ring_wf (a <| ar_descs ::= zalter f i |>).
Proof.
  intros Hf [Hl Hh Ht Hp]. split; [..|]; try done.
  - cbn. by rewrite zlength_zalter.
  - intros j d. cbn. rewrite zlookup_zalter. case_decide; [|apply Hp].
    destruct (zlookup (ar_descs a) j) as [d0|] eqn:E; [|done].
    intros [= <-]. rewrite Hf. by apply Hp.
Qed.

Lemma fetched_head dst len a : ring_wf a ->
  pi_head (ar_info (fetched dst len a)) = (pi_head (ar_info a) + 1) mod 64.
Proof. intros Hwf. apply next_slot, Hwf. Qed.

Lemma fetched_wf dst len a : ring_wf a -> ring_wf (fetched dst len a).
Proof.
  intros Hwf. pose proof (fetched_head dst len a Hwf) as E. apply alter_wf; [done|].
  destruct Hwf as [Hl Hh Ht Hp]. split; try done.
  change (0 <= pi_head (ar_info (fetched dst len a)) < MAX_DESC_NUM).
  rewrite E. by apply Z.mod_pos_bound.
Qed.

Lemma fetched_pending dst len a : ring_wf a -> pending a < 63 ->
  pending (fetched dst len a) = pending a + 1.
Proof.
  intros Hwf Hp. unfold pending in *. rewrite (fetched_head dst len a Hwf).
  change (pi_tail (ar_info (fetched dst len a))) with (pi_tail (ar_info a)).
  destruct Hwf as [_ Hh Ht _]. unfold MAX_DESC_NUM in *. dlia.
Qed.

(** What the descriptor at the head is afterwards. *)
Lemma fetched_desc dst len a : 0 <= dst < MAX_AGENT_NUM -> ring_wf a ->
  exists d, zlookup (ar_descs (fetched dst len a)) (pi_head (ar_info a)) = Some d /\
    pd_status d = PACKET_FREEZING /\ pd_length d = len /\
    pd_offset d = dma_slot dst (pi_head (ar_info a)).
Proof.
  intros Hd Hwf. pose proof (rw_head a Hwf) as Hh.
  destruct (ring_lookup a _ Hwf Hh) as (d & E & Hp).
  unfold fetched. cbn. rewrite zlookup_zalter, decide_True, E by done.
  eexists. split; [reflexivity|]. cbn. split; [done|]. split; [done|].
  rewrite Hp. by apply dma_slot_offset.
Qed.

Lemma settle_desc i a j :
  zlookup (ar_descs (settle i a)) j =
  if decide (i = j)
  then (fun d => d <| pd_status := PACKET_SETTLED |>) <$> zlookup (ar_descs a) j
  else zlookup (ar_descs a) j.
Proof. apply zlookup_zalter. Qed.

Lemma settle_wf i a : ring_wf a -> ring_wf (settle i a).
Proof. by apply alter_wf. Qed.

Lemma release_wf i a : ring_wf a -> ring_wf (release i a).
Proof. by apply alter_wf. Qed.

Lemma dequeue_tail a : ring_wf a ->
  pi_tail (ar_info (dequeue a)) = (pi_tail (ar_info a) + 1) mod 64.
Proof. intros Hwf. apply next_slot, Hwf. Qed.

Lemma dequeue_wf a : ring_wf a -> ring_wf (dequeue a).
Proof.
  intros Hwf. pose proof (dequeue_tail a Hwf) as E. destruct Hwf as [Hl Hh Ht Hp].
  split; try done. rewrite E. by apply Z.mod_pos_bound.
Qed.

Lemma dequeue_pending a : ring_wf a -> 0 < pending a ->
  pending (dequeue a) = pending a - 1.
Proof.
  intros Hwf Hp. unfold pending in *. rewrite (dequeue_tail a Hwf).
  change (pi_head (ar_info (dequeue a))) with (pi_head (ar_info a)).
  destruct Hwf as [_ Hh Ht _]. unfold MAX_DESC_NUM in *. dlia.
Qed.

Lemma dequeue_slot a k : ring_wf a -> slot (dequeue a) k = slot a (k + 1).
Proof.
  intros Hwf. unfold slot, MAX_DESC_NUM. rewrite (dequeue_tail a Hwf).
  rewrite Zplus_mod_idemp_l. f_equal. lia.
Qed.

Lemma slot_64 a : ring_wf a -> slot a 64 = pi_tail (ar_info a).
Proof. intros [_ _ Ht _]. unfold slot, MAX_DESC_NUM in *. dlia. Qed.

(** ** The queue after the changes *)

Lemma enqueue_ring dst_id length a q :
  0 <= dst_id < MAX_AGENT_NUM -> ring a q -> zlength q < 63 ->
  ring (enqueue dst_id length a)
    (q ++ [(dma_slot dst_id (pi_head (ar_info a)), length)]).
Proof.
  intros Hdst [Hwf Hlen Hent] Hq. pose proof (slot_pending a Hwf) as Hs.
  set (head := pi_head (ar_info a)) in *.
  assert (Eslot : forall k, slot (enqueue dst_id length a) k = slot a k) by done.
  split; [by apply settle_wf, fetched_wf|..].
  - change (pending (enqueue dst_id length a)) with (pending (fetched dst_id length a)).
    rewrite fetched_pending, <- Hlen by (done || lia).
    unfold zlength. rewrite length_app. cbn [Datatypes.length]. lia.
  - intros k off len Hk. rewrite Eslot. unfold enqueue. rewrite settle_desc.
    fold head. apply zlookup_snoc in Hk as [[-> [= -> ->]]|Hk].
    + destruct (fetched_desc dst_id length a Hdst Hwf) as (d & Hd & _ & Hl & Ho).
      rewrite Hlen, Hs, decide_True by done. fold head in Hd, Ho. rewrite Hd.
      eexists. split; [reflexivity|]. done.
    + destruct (Hent k off len Hk) as (d & Hd & ?). exists d.
      apply zlookup_lt_Some in Hk. assert (Hne : head <> slot a k).
      { rewrite <- Hs. intros E. apply slot_inj in E; [lia|done|lia|lia]. }
      rewrite decide_False by done. cbn. rewrite zlookup_zalter, decide_False; done.
Qed.

Lemma dequeue_ring a x q :
  ring a (x :: q) -> ring (dequeue a) q /\
  slot (dequeue a) 63 = pi_tail (ar_info a).
Proof.
  intros [Hwf Hlen Hent]. rewrite zlength_cons in Hlen.
  pose proof (zlength_nonneg q) as Hnn.
  split; [|rewrite dequeue_slot by done; by apply slot_64].
  split; [by apply dequeue_wf|rewrite dequeue_pending by (done || lia); lia|].
  intros k off len Hk. rewrite dequeue_slot by done. apply Hent.
  by rewrite zlookup_cons by by eapply zlookup_lt_Some.
Qed.

Lemma release_ring i a q :
  (forall k, 0 <= k < zlength q -> slot a k <> i) -> ring a q ->
  ring (release i a) q.
Proof.
  intros Hi [Hwf Hlen Hent]. split; [by apply release_wf|done|].
  intros k off len Hk. change (slot (release i a) k) with (slot a k).
  destruct (Hent k off len Hk) as (d & Hd & ?). exists d.
  unfold release. cbn. rewrite zlookup_zalter, decide_False; [done|].
  intros E. apply (Hi k); [by eapply zlookup_lt_Some|done].
Qed.

(** ** The operations on the ring *)

Lemma zset_zalter_run {A} (f : A -> A) i (l : list A) x :
  zlookup l i = Some x -> zalter f i l = zset (f x) i l.
Proof.
  intros E. apply zlist_eq. intros j. unfold zset. rewrite !zlookup_zalter.
  case_decide; [subst; by rewrite E|done].
Qed.

Lemma zset_same {A} i (l : list A) x : zlookup l i = Some x -> zset x i l = l.
Proof.
  intros E. rewrite <- (zset_zalter_run (fun x => x) i l x E).
  apply zlist_eq. intros j. rewrite zlookup_zalter.
  case_decide; [by destruct (zlookup l j)|done].
Qed.

Lemma zlookup_zset_same {A} i (l : list A) x y :
  zlookup l i = Some x -> zlookup (zset y i l) i = Some y.
Proof. intros E. unfold zset. by rewrite zlookup_zalter, decide_True, E. Qed.

Lemma set_area_at h f a s :
  zlookup (n_shm s) h = Some a ->
  set_area h f s = (tt, s <| n_shm := zset (f a) h (n_shm s) |>).
Proof.
  intros E. rewrite set_area_run. unfold upd_field.
  by rewrite (zset_zalter_run f h (n_shm s) a).
Qed.

Lemma pending_range a : 0 <= pending a < 64.
Proof. apply Z.mod_pos_bound. reflexivity. Qed.

Lemma head_full a : ring_wf a ->
  ((pi_head (ar_info a) + 1) mod 64 = pi_tail (ar_info a) <-> pending a = 63).
Proof. intros [_ Hh Ht _]. unfold pending, MAX_DESC_NUM in *. dlia. Qed.

Lemma fetch_run total dst len s a :
  0 <= dst < MAX_AGENT_NUM -> zlookup (n_shm s) dst = Some a -> ring_wf a ->
  fetch_packet_desc total dst len s =
  if pi_ready (ar_info a) && (i32 (total + DESC_MAX_DMA_SIZE) <=? AGENT_TOTAL_DMA_SIZE)
     && (pending a <? 63)
  then (Done (Some (pi_head (ar_info a))),
        s <| n_shm := zset (fetched dst len a) dst (n_shm s) |>)
  else (Done None, s).
Proof.
  intros Hd Ha Hwf. unfold fetch_packet_desc.
  destruct (Z.leb_spec MAX_AGENT_NUM dst); [lia|].
  exec. rewrite (get_area_run dst a) by done. cbn [fst snd].
  destruct (pi_ready (ar_info a)); cbn [negb andb]; [|done].
  destruct (_ <=? _); [|done]. cbn [andb]. rewrite next_slot_land.
  pose proof (head_full a Hwf) as Hfull. pose proof (pending_range a).
  pose proof (rw_head a Hwf) as Hh. unfold MAX_DESC_NUM in Hh.
  destruct (Z.eqb_spec ((pi_head (ar_info a) + 1) mod 64) (pi_tail (ar_info a)))
    as [E|E].
  { apply Hfull in E. by rewrite E. }
  destruct (Z.ltb_spec (pending a) 63) as [_|Hge]; [|destruct E; apply Hfull; lia].
  destruct (ring_lookup a _ Hwf Hh) as (d & Hdd & _). exec.
  rewrite (get_desc_run dst a _ d) by done. exec.
  apply (f_equal (fun x => (_, x))).
  unfold fetched, upd_field. cbn [n_shm]. f_equal.
  by rewrite zalter_zalter, (zset_zalter_run _ dst (n_shm s) a Ha).
Qed.

(** [nupa_data_available] in terms of the descriptor at the tail. *)
Lemma available_run h a s :
  0 <= h < MAX_AGENT_NUM -> zlookup (n_shm s) h = Some a -> ring_wf a ->
  nupa_data_available h s =
  if pending a =? 0 then (Done None, s)
  else
    match pd_status <$> zlookup (ar_descs a) (pi_tail (ar_info a)) with
    | Some PACKET_SETTLED =>
        (Done (Some (pi_tail (ar_info a))),
         s <| n_shm := zset (dequeue a) h (n_shm s) |>)
    | Some PACKET_FREEZING => (Spin, s)
    | _ => (Done None, s)
    end.
Proof.
  intros Hh Ha Hwf. unfold nupa_data_available.
  destruct (Z.leb_spec MAX_AGENT_NUM h); [lia|]. exec.
  rewrite (get_area_run h a) by done. cbn [fst snd].
  assert (Hemp : pi_head (ar_info a) = pi_tail (ar_info a) <-> pending a = 0).
  { destruct Hwf as [_ Hhd Htl _]. unfold pending, MAX_DESC_NUM in *. dlia. }
  destruct (Z.eqb_spec (pi_head (ar_info a)) (pi_tail (ar_info a))) as [E|E];
    destruct (Z.eqb_spec (pending a) 0) as [E'|E']; try tauto.
  destruct (ring_lookup a (pi_tail (ar_info a)) Hwf) as (d & Hd & _);
    [apply Hwf|]. exec. rewrite (get_desc_run h a _ d) by done. rewrite Hd.
  cbn [fst snd fmap option_fmap option_map].
  destruct (pd_status d); exec; try done.
  unfold dequeue, upd_field. cbn [n_shm].
  rewrite (zset_zalter_run _ h (n_shm s) a Ha). cbn. do 3 f_equal.
Qed.

(** ** The ring at the start *)

Lemma init_area_wf h : ring_wf (init_area h).
Proof.
  split; try done. intros i d Hd. pose proof (zlookup_lt_Some _ _ _ Hd) as Hi.
  unfold zlookup in Hd. destruct (Z.ltb_spec i 0); [done|].
  apply list_lookup_fmap_Some in Hd as (p & -> & [-> _]%lookup_seqZ). cbn. lia.
Qed.

Lemma init_area_ring h : ring (init_area h) [].
Proof.
  split; [apply init_area_wf|done|].
  intros k off len Hk. apply zlookup_lt_Some in Hk. unfold zlength in Hk.
  cbn in Hk. lia.
Qed.

Lemma adapter_info_init_run s net :
  adapter_info_init s = (Done tt, net) ->
  zlookup (n_shm net) (n_host_id s) = Some (init_area (n_host_id s)).
Proof.
  unfold adapter_info_init. exec.
  destruct (MAX_AGENT_NUM <=? n_host_id s); [done|]. exec. unfold get_area. exec.
  destruct (zlookup (n_shm s) (n_host_id s)) as [a|] eqn:E; [|done]. cbn [fst snd].
  intros [= <-]. cbn. by rewrite zlookup_zalter, decide_True, E.
Qed.

(** * Buffers *)

Definition segment_bytes (s : Z * Z) : list Z := seqZ (fst s) (snd s).

Lemma offset_in_page_mod p : offset_in_page p = p mod 4096.
Proof.
  unfold offset_in_page, PAGE_SIZE. change (4096 - 1) with (Z.ones 12).
  by rewrite Z.land_ones.
Qed.

Lemma buf_segments_spec n buf len :
  0 <= buf -> 0 <= len < 2 ^ 31 -> buf + len < 2 ^ 64 ->
  len = 0 \/ buf mod 4096 + len <= 4096 * Z.of_nat n ->
  concat (map segment_bytes (buf_segments n buf len)) = seqZ buf len /\
  Forall (fun s => 0 <= snd s /\ fst s mod 4096 + snd s <= 4096)
    (buf_segments n buf len).
Proof.
  revert buf len. induction n as [|n IH]; intros buf len Hb Hl Hw Hn.
  { assert (len = 0) as -> by (pose proof (Z.mod_pos_bound buf 4096); lia).
    split; [done|constructor]. }
  cbn [buf_segments map concat]. rewrite offset_in_page_mod.
  unfold PAGE_SIZE. pose proof (Z.mod_pos_bound buf 4096 ltac:(lia)) as Hm.
  rewrite !u32_small by lia. set (k := Z.min (4096 - buf mod 4096) len).
  rewrite u64_small by lia. rewrite (i32_small (len - k)) by lia.
  destruct (IH (buf + k) (len - k)) as [Hc Hf]; try lia.
  { subst k. destruct (Z.le_gt_cases (4096 - buf mod 4096) len).
    - rewrite Z.min_l by lia.
      replace ((buf + (4096 - buf mod 4096)) mod 4096) with 0; [lia|].
      symmetry. dlia.
    - rewrite Z.min_r by lia. lia. }
  split.
  - rewrite Hc. unfold segment_bytes at 1. cbn [fst snd].
    rewrite <- seqZ_app by lia. f_equal. lia.
  - constructor; [cbn; lia|exact Hf].
Qed.

Lemma length_buf_segments n buf len : length (buf_segments n buf len) = n.
Proof. revert buf len. induction n as [|n IH]; intros; cbn; [done|by rewrite IH]. Qed.

Lemma pages_nr_eq buf len :
  0 <= buf -> 0 <= len <= 4096 -> buf + len + 4096 < 2 ^ 64 ->
  pages_nr buf len = (buf mod 4096 + len + 4095) / 4096.
Proof.
  intros Hb Hl Hw.
  assert (Hmask : Z.land buf PAGE_MASK = buf - buf mod 4096).
  { change PAGE_MASK with (Z.lnot (Z.ones 12)).
    rewrite <- Z.ldiff_land, Z.ldiff_ones_r by lia.
    rewrite Z.shiftr_div_pow2, Z.shiftl_mul_pow2 by lia.
    change (2 ^ 12) with 4096. dlia. }
  pose proof (Z.mod_pos_bound buf 4096 ltac:(lia)) as Hm.
  unfold pages_nr, PAGE_SIZE, PAGE_SHIFT. rewrite Hmask.
  rewrite (u64_small (buf + len + 4096 - 1)) by lia.
  rewrite u64_small by lia. rewrite Z.shiftr_div_pow2 by lia.
  change (2 ^ 12) with 4096. rewrite u32_small; [f_equal; lia|]. dlia.
Qed.

Lemma buf_segments_pages buf len :
  0 <= buf -> 0 <= len <= 4096 -> buf + len + 4096 < 2 ^ 64 ->
  let segs := buf_segments (Z.to_nat (pages_nr buf len)) buf len in
  concat (map segment_bytes segs) = seqZ buf len /\
  Forall (fun s => 0 <= snd s /\ fst s mod 4096 + snd s <= 4096) segs /\
  0 <= pages_nr buf len <= 2 /\ (0 < len -> 0 < pages_nr buf len).
Proof.
  intros Hb Hl Hw. rewrite pages_nr_eq by done.
  pose proof (Z.mod_pos_bound buf 4096 ltac:(lia)) as Hm.
  destruct (buf_segments_spec (Z.to_nat ((buf mod 4096 + len + 4095) / 4096)) buf len)
    as [H1 H2]; try lia.
  { right. rewrite Z2Nat.id; dlia. }
  split; [done|]. split; [done|]. split; [dlia|]. intros. dlia.
Qed.

(** * The DMA library as the network driver sees it *)

(** What the network driver relies on: a transfer of a buffer of up to a page
    returns, and the engine can be used again.  [up] is the condition the library
    keeps on its engine. *)
Class DmaService `{Platform} `{ModParams} (interfere : est -> est) (up : est -> Prop)
    : Prop :=
  dma_transfer : forall off len buf write s,
    up s -> 0 < len <= PAGE_SIZE -> 0 <= buf -> buf + len + PAGE_SIZE < 2 ^ 64 ->
    exists res s', xdma_transfer_data interfere off len buf write s = (Some res, s') /\
      up s'.
