(* ===== verification/Device.v ===== *)
(** The device with all its engines, and what its parts share
    ([struct xdma_dev] of [libxdma.h]). *)
From S2P Require Import Prelude Hw Desc Types Engine.

(** * State *)

(** [xdev], [xdev->engine_h2c], [xdev->engine_c2h], the transfers and the
    trace. *)
Record dvst := {
  v_dev : xdma_dev;
  v_h2c : list xdma_engine;
  v_c2h : list xdma_engine;
  v_xfers : gmap nat xdma_transfer;
  v_trace : list event;
}.

#[export] Instance eta_dvst : Eta dvst := fun r =>
  Build_dvst (v_dev r) (v_h2c r) (v_c2h r) (v_xfers r) (v_trace r).

#[export] Instance traced_dvst : Traced dvst := {|
  trace_of := v_trace;
  with_trace t s := s <| v_trace := t |>;
|}.

(** The engines of one direction, their number and the interrupt bits of that
    direction. *)
Definition engines (d : dma_data_direction) (s : dvst) : list xdma_engine :=
  if is_to_device d then v_h2c s else v_c2h s.
Definition set_engines (d : dma_data_direction)
    (f : list xdma_engine -> list xdma_engine) (s : dvst) : dvst :=
  if is_to_device d then s <| v_h2c ::= f |> else s <| v_c2h ::= f |>.
Definition channel_max (d : dma_data_direction) (dev : xdma_dev) : Z :=
  if is_to_device d then xd_h2c_channel_max dev else xd_c2h_channel_max dev.
Definition mask_irq (d : dma_data_direction) (dev : xdma_dev) : Z :=
  if is_to_device d then xd_mask_irq_h2c dev else xd_mask_irq_c2h dev.

Definition dev : M dvst xdma_dev := gets v_dev.
Definition upd_dev (f : xdma_dev -> xdma_dev) : M dvst unit :=
  modify (fun s => s <| v_dev ::= f |>).

(** The part of the state that the code of one engine works on, and back. *)
Definition engine_view (e : xdma_engine) (s : dvst) : est := {|
  st_eng := e;
  st_dev := v_dev s;
  st_xfers := v_xfers s;
  st_trace := v_trace s;
|}.

Definition put_view (d : dma_data_direction) (i : Z) (es : est) (s : dvst) : dvst :=
  set_engines d (zset (st_eng es) i)
    (s <| v_dev := st_dev es |> <| v_xfers := st_xfers es |>
       <| v_trace := st_trace es |>).

(** [m] on engine [i] of direction [d]; [None] outside the array. *)
Definition on_engine {A} (d : dma_data_direction) (i : Z) (m : M est A)
    : M dvst (option A) := fun s =>
  match zlookup (engines d s) i with
  | None => (None, s)
  | Some e =>
      let (a, es) := m (engine_view e s) in (Some a, put_view d i es s)
  end.

Definition engine_at (d : dma_data_direction) (s : dvst) (i : Z) : xdma_engine :=
  default zero_engine (zlookup (engines d s) i).

(** The engines of a device in service: every engine has interrupt bits of its
    own, which are among those of its direction. *)
Record irq_wf (s : dvst) : Prop := {
  iw_range : forall d i, 0 <= i < channel_max d (v_dev s) ->
    0 <= e_irq_bitmask (engine_at d s i) < 2 ^ 32;
  iw_disjoint : forall d i j, 0 <= i < channel_max d (v_dev s) ->
    0 <= j < channel_max d (v_dev s) -> i <> j ->
    Z.land (e_irq_bitmask (engine_at d s i)) (e_irq_bitmask (engine_at d s j)) = 0;
  iw_mask : forall d i, 0 <= i < channel_max d (v_dev s) ->
    Z.land (e_irq_bitmask (engine_at d s i)) (mask_irq d (v_dev s)) =
    e_irq_bitmask (engine_at d s i);
}.

(** * Lemmas *)

Lemma engines_set d f s : engines d (set_engines d f s) = f (engines d s).
Proof. by destruct d. Qed.

Lemma engines_set_other d d' f s :
  is_to_device d <> is_to_device d' -> engines d' (set_engines d f s) = engines d' s.
Proof. by destruct d, d'. Qed.

Lemma engines_put d i es s :
  engines d (put_view d i es s) = zset (st_eng es) i (engines d s).
Proof. by destruct d. Qed.

Lemma engines_put_other d d' i es s :
  is_to_device d <> is_to_device d' -> engines d' (put_view d i es s) = engines d' s.
Proof. by destruct d, d'. Qed.

Lemma put_view_dev d i es s : v_dev (put_view d i es s) = st_dev es.
Proof. by destruct d. Qed.

Lemma engines_trace d t s : engines d (s <| v_trace := t |>) = engines d s.
Proof. by destruct d. Qed.

Lemma on_engine_run {A} d i (m : M est A) e s :
  zlookup (engines d s) i = Some e ->
  on_engine d i m s =
  (Some (fst (m (engine_view e s))), put_view d i (snd (m (engine_view e s))) s).
Proof.
  intros E. unfold on_engine. rewrite E. by destruct (m (engine_view e s)).
Qed.

Lemma dev_run s : dev s = (v_dev s, s).
Proof. done. Qed.

Lemma upd_dev_run f s : upd_dev f s = (tt, s <| v_dev ::= f |>).
Proof. done. Qed.

Lemma kcall_dv `{Platform} f args (s : dvst) :
  kcall f args s = (kernel_answer (v_trace s) f args,
    s <| v_trace := Call f args (kernel_answer (v_trace s) f args) :: v_trace s |>).
Proof. done. Qed.

#[export] Hint Rewrite dev_run upd_dev_run : run.
