(* ===== verification/Irq.v ===== *)
(** Interrupts ([src/src/libxdma.c]): the controller's registers, the handlers
    and the vector tables. *)
From S2P Require Import Prelude Hw Desc Types Engine Device.

Definition IRQ_NONE : Z := 0.
Definition IRQ_HANDLED : Z := 1.

Definition build_u32 (hi lo : Z) : Z :=
  u32 (Z.lor (Z.shiftl (Z.land hi 0xFFFF) 16) (Z.land lo 0xFFFF)).
Definition build_u64 (hi lo : Z) : Z :=
  u64 (Z.lor (Z.shiftl (Z.land hi 0xFFFFFFF) 32) (Z.land lo 0xFFFFFFFF)).

Section irq.
Context `{Platform} `{ModParams}.

(** * The interrupt controller *)

Definition irq_read (off : Z) : M dvst Z :=
  let* d := dev in read_register (u64 (int_regs d + off)).
Definition irq_write (v off : Z) : M dvst unit :=
  let* d := dev in write_register v (u64 (int_regs d + off)).

Definition check_nonzero_interrupt_status : M dvst unit :=
  let* _ := irq_read R_user_int_enable in
  let* _ := irq_read R_channel_int_enable in
  let* _ := irq_read R_user_int_request in
  let* _ := irq_read R_channel_int_request in
  let* _ := irq_read R_user_int_pending in
  let* _ := irq_read R_channel_int_pending in
  ret tt.

Definition dev_channel_interrupts_enable (mask : Z) : M dvst unit :=
  irq_write mask R_channel_int_enable_w1s.
Definition channel_interrupts_disable (mask : Z) : M dvst unit :=
  irq_write mask R_channel_int_enable_w1c.
Definition user_interrupts_enable (mask : Z) : M dvst unit :=
  irq_write mask R_user_int_enable_w1s.
Definition user_interrupts_disable (mask : Z) : M dvst unit :=
  irq_write mask R_user_int_enable_w1c.

Definition read_interrupts : M dvst Z :=
  let* hi := irq_read R_user_int_request in
  let* lo := irq_read R_channel_int_request in
  ret (build_u32 hi lo).

(** * Handlers *)

Definition upd_user_irq (user : Z) (f : xdma_user_irq -> xdma_user_irq)
    : M dvst unit :=
  upd_dev (fun d => d <| xd_user_irq ::= zalter f user |>).

(** The handler registered for a user interrupt is not part of the driver. *)
Definition user_irq_service (user : Z) : M dvst Z :=
  let* d := dev in
  match zlookup (xd_user_irq d) user with
  | None => ret IRQ_NONE
  | Some u =>
      match u_handler u with
      | Some h => kcall "user_irq->handler" [h; u_user_idx u; u_dev u]
      | None =>
          do* when (u_events_irq u =? 0)
                (do* upd_user_irq user (fun u => u <| u_events_irq := 1 |>) in
                 let* _ := kcall "wake_up_interruptible" [user] in
                 ret tt) in
          ret IRQ_HANDLED
      end
  end.

(** [for (; user < max && user_irq; user++, mask <<= 1)] with [n] users to
    go. *)
Fixpoint user_loop (n : nat) (user mask user_irq : Z) : M dvst unit :=
  match n with
  | O => ret tt
  | S n' =>
      if user_irq =? 0 then ret tt
      else if has_bits user_irq mask then
        let* _ := user_irq_service user in
        user_loop n' (user + 1) (u32 (Z.shiftl mask 1)) (andn32 user_irq mask)
      else user_loop n' (user + 1) (u32 (Z.shiftl mask 1)) user_irq
  end.

(** The loop over the engines of one direction, from channel [channel] on. *)
Fixpoint channel_loop (d : dma_data_direction) (n : nat) (channel mask : Z)
    : M dvst unit :=
  match n with
  | O => ret tt
  | S n' =>
      if mask =? 0 then ret tt
      else
        let* s := gets (fun s : dvst => s) in
        let e := default zero_engine (zlookup (engines d s) channel) in
        if has_bits (e_irq_bitmask e) mask && (e_magic e =? MAGIC_ENGINE) then
          do* emit (ScheduleWork d channel) in
          channel_loop d n' (channel + 1) (andn32 mask (e_irq_bitmask e))
        else channel_loop d n' (channel + 1) mask
  end.

Definition dispatch (d : dma_data_direction) (ch_irq : Z) : M dvst unit :=
  let* xdev := dev in
  channel_loop d (Z.to_nat (channel_max d xdev)) 0
    (Z.land ch_irq (mask_irq d xdev)).

Definition xdma_isr : M dvst Z :=
  let* ch_irq := irq_read R_channel_int_request in
  do* when (negb (ch_irq =? 0)) (channel_interrupts_disable ch_irq) in
  let* user_irq := irq_read R_user_int_request in
  let* d := dev in
  do* user_loop (Z.to_nat (xd_user_max d)) 0 1 user_irq in
  do* dispatch DMA_TO_DEVICE ch_irq in
  do* dispatch DMA_FROM_DEVICE ch_irq in
  do* upd_dev (fun d => d <| xd_irq_count ::= fun n => i32 (n + 1) |>) in
  ret IRQ_HANDLED.

(** The MSI-X handlers. *)
Definition xdma_user_irq_handler (user : Z) : M dvst Z := user_irq_service user.

Definition xdma_channel_irq (d : dma_data_direction) (channel : Z) : M dvst Z :=
  let* _ := on_engine d channel
              (let* e := engine in
               reg_write (e_interrupt_enable_mask_value e)
                 R_interrupt_enable_mask_w1c) in
  let* _ := irq_read R_channel_int_pending in
  do* emit (ScheduleWork d channel) in
  do* upd_dev (fun d => d <| xd_irq_count ::= fun n => i32 (n + 1) |>) in
  ret IRQ_HANDLED.

(** * Vector tables *)

(** The word that holds the vectors from [i] on, at most four and below
    [max]: [for (k = 0; k < 4 && i < max; i++, k++, shift += 8)]. *)
Fixpoint vector_word (k : nat) (i max shift : Z) : Z :=
  match k with
  | O => 0
  | S k' =>
      if i <? max
      then Z.lor (Z.shiftl (Z.land i 0x1f) shift)
             (vector_word k' (i + 1) max (shift + 8))
      else 0
  end.

(** [for (j = 0; i < max; j++)] over the registers from offset [base] on; the
    inner loop leaves [i] four further or at [max], and [i += 4] in the other
    branch ends the outer loop all the same. *)
Fixpoint prog_vectors (fuel : nat) (base i max j : Z) (clear : bool)
    : M dvst unit :=
  match fuel with
  | O => ret tt
  | S fuel' =>
      if i <? max then
        do* irq_write (if clear then 0 else vector_word 4 i max 0) (base + 4 * j) in
        prog_vectors fuel' base (i + 4) max (j + 1) clear
      else ret tt
  end.

Definition prog_irq_msix_user (clear : bool) : M dvst unit :=
  let* d := dev in
  let i := xd_c2h_channel_max d + xd_h2c_channel_max d in
  prog_vectors (Z.to_nat (xd_user_max d)) R_user_msi_vector i
    (i + xd_user_max d) 0 clear.

Definition prog_irq_msix_channel (clear : bool) : M dvst unit :=
  let* d := dev in
  let max := xd_c2h_channel_max d + xd_h2c_channel_max d in
  prog_vectors (Z.to_nat max) R_channel_msi_vector 0 max 0 clear.

(** * Requesting and releasing interrupt lines *)

(** What the driver knows of the PCI device: [no_msi], the flags of its bus
    and the buses above, and its interrupt line. *)
Record pci_dev := {
  p_no_msi : bool;
  p_bus_no_msi : list bool;
  p_irq : Z;
}.

Definition PCI_CAP_ID_MSI : Z := 0x05.
Definition PCI_CAP_ID_MSIX : Z := 0x11.

Definition msi_msix_capable (p : pci_dev) (type : Z) : M dvst bool :=
  if p_no_msi p then ret false
  else if existsb (fun b => b) (p_bus_no_msi p) then ret false
  else
    let* pos := kcall "pci_find_capability" [type] in
    ret (negb (pos =? 0)).

Definition disable_msi_msix : M dvst unit :=
  let* d := dev in
  if xd_msix_enabled d then
    let* _ := kcall "pci_disable_msix" [] in
    upd_dev (fun d => d <| xd_msix_enabled := false |>)
  else if xd_msi_enabled d then
    let* _ := kcall "pci_disable_msi" [] in
    upd_dev (fun d => d <| xd_msi_enabled := false |>)
  else ret tt.

Definition enable_msi_msix (p : pci_dev) : M dvst Z :=
  let* msix := (if (interrupt_mode =? 3) || (interrupt_mode =? 0)
                then msi_msix_capable p PCI_CAP_ID_MSIX else ret false) in
  if msix then
    let* d := dev in
    let req_nvec := xd_c2h_channel_max d + xd_h2c_channel_max d + xd_user_max d in
    let* rv := kcall "pci_alloc_irq_vectors" [req_nvec] in
    do* upd_dev (fun d => d <| xd_msix_enabled := true |>) in
    ret rv
  else
    let* msi := (if (interrupt_mode =? 1) || (interrupt_mode =? 0)
                 then msi_msix_capable p PCI_CAP_ID_MSI else ret false) in
    if msi then
      let* rv := kcall "pci_enable_msi" [] in
      do* upd_dev (fun d => d <| xd_msi_enabled := true |>) in
      ret rv
    else ret 0.

(** The handlers, as the kernel sees them in [request_irq] and [free_irq]: the
    one of an engine, of a user interrupt, of the device. *)
Definition cookie_engine (d : dma_data_direction) (i : Z) : list Z :=
  [1; if is_to_device d then 0 else 1; i].
Definition cookie_user (i : Z) : list Z := [2; i].
Definition cookie_dev : list Z := [3].

Definition request_irq (vector : Z) (cookie : list Z) : M dvst Z :=
  kcall "request_irq" (vector :: cookie).
Definition free_irq (vector : Z) (cookie : list Z) : M dvst unit :=
  let* _ := kcall "free_irq" (vector :: cookie) in ret tt.

(** The loops over the engines of one direction: the first vector is number
    [j], and the loop of the release stops at an engine without a line. *)
Fixpoint channel_setup (d : dma_data_direction) (n : nat) (i j : Z)
    : M dvst Z :=
  match n with
  | O => ret 0
  | S n' =>
      let* vector := kcall "pci_irq_vector" [j] in
      let vector := u32 vector in
      let* rv := request_irq vector (cookie_engine d i) in
      if negb (rv =? 0) then ret rv
      else
        let* _ := on_engine d i
                    (set_engine (fun e => e <| e_msix_irq_line := vector |>)) in
        channel_setup d n' (i + 1) (j + 1)
  end.

Fixpoint channel_teardown (d : dma_data_direction) (n : nat) (i : Z)
    : M dvst unit :=
  match n with
  | O => ret tt
  | S n' =>
      let* s := gets (fun s : dvst => s) in
      let line := e_msix_irq_line (default zero_engine (zlookup (engines d s) i)) in
      if line =? 0 then ret tt
      else
        do* free_irq line (cookie_engine d i) in
        channel_teardown d n' (i + 1)
  end.

Definition irq_msix_channel_setup : M dvst Z :=
  let* d := dev in
  if negb (xd_msix_enabled d) then ret 0
  else
    let* rv := channel_setup DMA_TO_DEVICE (Z.to_nat (xd_h2c_channel_max d)) 0 0 in
    if negb (rv =? 0) then ret rv
    else
      channel_setup DMA_FROM_DEVICE (Z.to_nat (xd_c2h_channel_max d)) 0
        (xd_h2c_channel_max d).

Definition irq_msix_channel_teardown : M dvst unit :=
  let* d := dev in
  if negb (xd_msix_enabled d) then ret tt
  else
    do* prog_irq_msix_channel true in
    do* channel_teardown DMA_TO_DEVICE (Z.to_nat (xd_h2c_channel_max d)) 0 in
    channel_teardown DMA_FROM_DEVICE (Z.to_nat (xd_c2h_channel_max d)) 0.

(** [for (i--, j--; i >= 0; i--, j--)]: [n] is [i], [j] the last vector. *)
Fixpoint user_undo (n : nat) (j : Z) : M dvst unit :=
  match n with
  | O => ret tt
  | S n' =>
      let* vector := kcall "pci_irq_vector" [j] in
      do* free_irq (u32 vector) (cookie_user (Z.of_nat n')) in
      user_undo n' (j - 1)
  end.

Fixpoint user_setup (n : nat) (i j : Z) : M dvst Z :=
  match n with
  | O => ret 0
  | S n' =>
      let* vector := kcall "pci_irq_vector" [j] in
      let* rv := request_irq (u32 vector) (cookie_user i) in
      if negb (rv =? 0) then
        do* user_undo (Z.to_nat i) (j - 1) in
        ret rv
      else user_setup n' (i + 1) (j + 1)
  end.

Definition irq_msix_user_setup : M dvst Z :=
  let* d := dev in
  user_setup (Z.to_nat (xd_user_max d)) 0
    (xd_h2c_channel_max d + xd_c2h_channel_max d).

Fixpoint user_teardown (n : nat) (i j : Z) : M dvst unit :=
  match n with
  | O => ret tt
  | S n' =>
      let* vector := kcall "pci_irq_vector" [j] in
      do* free_irq (u32 vector) (cookie_user i) in
      user_teardown n' (i + 1) (j + 1)
  end.

Definition irq_msix_user_teardown : M dvst unit :=
  let* d := dev in
  if negb (xd_msix_enabled d) then ret tt
  else
    do* prog_irq_msix_user true in
    user_teardown (Z.to_nat (xd_user_max d)) 0
      (xd_h2c_channel_max d + xd_c2h_channel_max d).

Definition irq_msi_setup (p : pci_dev) : M dvst Z :=
  do* upd_dev (fun d => d <| xd_irq_line := i32 (p_irq p) |>) in
  request_irq (p_irq p) cookie_dev.

(** The interrupt pin the device has, from 1 on, in every field of the vector
    registers. *)
Definition legacy_word (val : Z) : Z :=
  u32 (Z.lor (Z.lor (Z.lor (Z.shiftl val 24) (Z.shiftl val 16)) (Z.shiftl val 8)) val).

Definition irq_legacy_setup (p : pci_dev) : M dvst Z :=
  let* v := kcall "pci_read_config_byte" [0x3d] in
  let val := u8 v in
  if val =? 0 then ret (- EINVAL)
  else
    let* d := dev in
    do* when (1 <? val)
          (let w := legacy_word (val - 1) in
           let base := config_base d in
           do* write_register w (u64 (base + 0x2080)) in
           do* write_register w (u64 (base + 0x2084)) in
           do* write_register w (u64 (base + 0x2088)) in
           do* write_register w (u64 (base + 0x208C)) in
           do* write_register w (u64 (base + 0x20A0)) in
           write_register w (u64 (base + 0x20A4))) in
    do* upd_dev (fun d => d <| xd_irq_line := i32 (p_irq p) |>) in
    request_irq (p_irq p) cookie_dev.

Definition irq_teardown : M dvst unit :=
  let* d := dev in
  if xd_msix_enabled d then
    do* irq_msix_channel_teardown in
    irq_msix_user_teardown
  else when (negb (xd_irq_line d =? -1)) (free_irq (xd_irq_line d) cookie_dev).

(** Clears INTX_DISABLE in the command word of the device. *)
Definition PCI_COMMAND_INTX_DISABLE : Z := 0x400.
Definition pci_keep_intx_enabled : M dvst unit :=
  let* v := kcall "pci_read_config_word" [0x04] in
  let pcmd := u16 v in
  let pcmd_new := Z.land pcmd (Z.lxor PCI_COMMAND_INTX_DISABLE 0xffff) in
  when (negb (pcmd_new =? pcmd))
    (let* _ := kcall "pci_write_config_word" [0x04; pcmd_new] in ret tt).

(** Acknowledges an interrupt that is pending in the status word. *)
Definition PCI_STATUS_INTERRUPT : Z := 0x08.
Definition pci_check_intr_pend : M dvst unit :=
  let* v := kcall "pci_read_config_word" [0x06] in
  when (has_bits (u16 v) PCI_STATUS_INTERRUPT)
    (let* _ := kcall "pci_write_config_word" [0x06; PCI_STATUS_INTERRUPT] in ret tt).

Definition irq_setup (p : pci_dev) : M dvst Z :=
  do* pci_keep_intx_enabled in
  let* d := dev in
  if xd_msix_enabled d then
    let* rv := irq_msix_channel_setup in
    if negb (rv =? 0) then ret rv
    else
      let* rv := irq_msix_user_setup in
      if negb (rv =? 0) then ret rv
      else
        do* prog_irq_msix_channel false in
        do* prog_irq_msix_user false in
        ret 0
  else if xd_msi_enabled d then irq_msi_setup p
  else irq_legacy_setup p.
End irq.
