(* ===== verification/Bars.v ===== *)
(** Mapping the BARs and telling which is which ([src/src/libxdma.c],
    [unmap_bars] to [map_bars]; [XDMA_CONFIG_BAR_NUM] is not defined). *)
From S2P Require Import Prelude Hw Desc Types Engine Device.

Definition INT_MAX : Z := Eval cbv in 2 ^ 31 - 1.

Section bars.
Context `{Platform}.

Definition set_bar (idx : Z) (p : option Z) : M dvst unit :=
  upd_dev (fun d => d <| xd_bar ::= zset p idx |>).

Definition unmap_bar (i : Z) : M dvst unit :=
  let* d := dev in
  match mjoin (zlookup (xd_bar d) i) with
  | Some p =>
      let* _ := kcall "pci_iounmap" [p] in
      set_bar i None
  | None => ret tt
  end.

Definition unmap_bars : M dvst unit := for_m (Z.to_nat XDMA_BAR_NUM) 0 unmap_bar.

Definition map_single_bar (idx : Z) : M dvst Z :=
  let* bar_start := kcall "pci_resource_start" [idx] in
  let* len := kcall "pci_resource_len" [idx] in
  let bar_len := u64 len in
  do* set_bar idx None in
  if bar_len =? 0 then ret 0
  else
    let map_len := if INT_MAX <? bar_len then INT_MAX else bar_len in
    let* p := kcall "pci_iomap" [idx; map_len] in
    do* set_bar idx (if p =? 0 then None else Some p) in
    if p =? 0 then ret (-1) else ret (i32 map_len).

Definition is_config_bar (idx : Z) : M dvst bool :=
  let* d := dev in
  let mask := 0xffff0000 in
  let* irq_id := read_register (u64 (bar_base d idx + XDMA_OFS_INT_CTRL)) in
  let* cfg_id := read_register (u64 (bar_base d idx + XDMA_OFS_CONFIG)) in
  ret ((Z.land irq_id mask =? IRQ_BLOCK_ID) && (Z.land cfg_id mask =? CONFIG_BLOCK_ID)).

(** [bar_id_list]: the first [num_bars] elements of the array. *)
Definition identify_bars (bar_id_list : list Z) (num_bars config_bar_pos : Z)
    (d : xdma_dev) : xdma_dev :=
  let bar_id i := default 0 (zlookup bar_id_list i) in
  if num_bars =? 2 then
    if config_bar_pos =? 0 then d <| xd_bypass_bar_idx := bar_id 1 |>
    else if config_bar_pos =? 1 then d <| xd_user_bar_idx := bar_id 0 |>
    else d
  else if (num_bars =? 3) || (num_bars =? 4) then
    if (config_bar_pos =? 1) || (config_bar_pos =? 2) then
      d <| xd_user_bar_idx := bar_id 0 |>
        <| xd_bypass_bar_idx := bar_id (num_bars - 1) |>
    else d
  else d.

(** The loop over the BARs, with [n] left: the list of those mapped so far and
    the position of the configuration BAR in it; [None] when one could not be
    mapped. *)
Fixpoint map_loop (n : nat) (i : Z) (bar_id_list : list Z) (config_bar_pos : Z)
    : M dvst (option (list Z * Z)) :=
  match n with
  | O => ret (Some (bar_id_list, config_bar_pos))
  | S n' =>
      let* bar_len := map_single_bar i in
      if bar_len =? 0 then map_loop n' (i + 1) bar_id_list config_bar_pos
      else if bar_len <? 0 then ret None
      else
        let* d := dev in
        let* found := (if (XDMA_BAR_SIZE <=? bar_len) && (xd_config_bar_idx d <? 0)
                       then is_config_bar i else ret false) in
        do* when found (upd_dev (fun d => d <| xd_config_bar_idx := i |>)) in
        map_loop n' (i + 1) (bar_id_list ++ [i])
          (if found then zlength bar_id_list else config_bar_pos)
  end.

Definition map_bars : M dvst Z :=
  let* r := map_loop (Z.to_nat XDMA_BAR_NUM) 0 [] 0 in
  match r with
  | None => do* unmap_bars in ret (- EINVAL)
  | Some (bar_id_list, config_bar_pos) =>
      let* d := dev in
      if xd_config_bar_idx d <? 0 then
        do* unmap_bars in
        ret (- EINVAL)
      else
        do* upd_dev (identify_bars bar_id_list (zlength bar_id_list)
                       config_bar_pos) in
        ret 0
  end.
End bars.
