(* ===== verification/Init.v ===== *)
(** Creating and destroying the engines of a device ([src/src/libxdma.c],
    [engine_alignments] to [engine_init] and [get_engine_channel_id] to
    [probe_engines]). *)
From stdpp Require Import pretty.
From S2P Require Import Prelude Hw Desc Types Engine Device.

Section init.
Context `{Platform} `{ModParams}.

(** * The registers of an engine *)

Definition engine_alignments : M est unit :=
  let* w := reg_read R_alignments in
  let align_bytes := Z.shiftr (Z.land w 0x00ff0000) 16 in
  let granularity_bytes := Z.shiftr (Z.land w 0x0000ff00) 8 in
  let address_bits := Z.land w 0x000000ff in
  set_engine (fun e =>
    if negb (w =? 0)
    then e <| e_addr_align := align_bytes |>
           <| e_len_granularity := granularity_bytes |>
           <| e_addr_bits := address_bits |>
    else e <| e_addr_align := 1 |> <| e_len_granularity := 1 |>
           <| e_addr_bits := 64 |>).

(** The writeback location is set to 0 and its bus address written to the
    device. *)
Definition engine_writeback_setup : M est Z :=
  let* e := engine in
  do* emit WbClear in
  do* reg_write (PCI_DMA_L (e_poll_mode_bus e)) R_poll_mode_wb_lo in
  do* reg_write (PCI_DMA_H (e_poll_mode_bus e)) R_poll_mode_wb_hi in
  ret 0.

(** The bit of the channel in the credit mode registers, in the common SGDMA
    block. *)
Definition credit_write (off : Z) : M est unit :=
  let* e := engine in
  let* d := gets st_dev in
  write_register (u32 (Z.shiftl (Z.shiftl 1 (e_channel e)) 16))
    (u64 (config_base d + 6 * TARGET_SPACING + off)).

Definition default_interrupts : Z :=
  Z.lor (Z.lor (Z.lor XDMA_CTRL_IE_DESC_ALIGN_MISMATCH XDMA_CTRL_IE_MAGIC_STOPPED)
           XDMA_CTRL_IE_READ_ERROR) XDMA_CTRL_IE_DESC_ERROR.

Definition engine_init_regs : M est Z :=
  do* reg_write XDMA_CTRL_NON_INCR_ADDR R_control_w1c in
  do* engine_alignments in
  let* rv := (if poll_mode then engine_writeback_setup else ret 0) in
  if negb (rv =? 0) then ret rv
  else
    let reg_value :=
      if poll_mode then default_interrupts
      else Z.lor (Z.lor default_interrupts XDMA_CTRL_IE_DESC_STOPPED)
             XDMA_CTRL_IE_DESC_COMPLETED in
    do* reg_write reg_value R_interrupt_enable_mask in
    do* set_engine (fun e => e <| e_interrupt_enable_mask_value := reg_value |>) in
    let* e := engine in
    do* when (enable_st_c2h_credit && is_st_c2h e)
          (credit_write R_credit_mode_enable_w1s) in
    ret 0.

(** * Memory *)

(** The virtual address, 0 without memory, and the bus address, of a block the
    device can reach. *)
Definition dma_alloc_coherent (size : Z) : M est (Z * Z) :=
  let* virt := kcall "dma_alloc_coherent" [size] in
  let* bus := kcall "dma_handle" [virt] in
  ret (virt, bus).
Definition dma_free_coherent (size bus : Z) : M est unit :=
  let* _ := kcall "dma_free_coherent" [size; bus] in ret tt.

Definition sizeof_xdma_poll_wb : Z := 32.

Definition engine_free_resource : M est unit :=
  let* e := engine in
  do* when (e_poll_mode_addr_virt e)
        (do* dma_free_coherent sizeof_xdma_poll_wb (e_poll_mode_bus e) in
         set_engine (fun e => e <| e_poll_mode_addr_virt := false |>)) in
  do* match e_desc e with
      | Some _ =>
          do* dma_free_coherent (e_desc_max e * sizeof_xdma_desc) (e_desc_bus e) in
          set_engine (fun e => e <| e_desc := None |>)
      | None => ret tt
      end in
  match e_cyclic_result e with
  | Some _ =>
      do* dma_free_coherent (e_desc_max e * sizeof_xdma_result)
            (e_cyclic_result_bus e) in
      set_engine (fun e => e <| e_cyclic_result := None |>)
  | None => ret tt
  end.

(** An array in fresh memory: [dma_alloc_coherent] clears it. *)
Definition alloc_array {A} (virt n : Z) (zero : A) : option (list A) :=
  if virt =? 0 then None else Some (repeat zero (Z.to_nat n)).

Definition engine_alloc_resource : M est Z :=
  let* e := engine in
  let* (virt, bus) := dma_alloc_coherent (e_desc_max e * sizeof_xdma_desc) in
  do* set_engine (fun e => e <| e_desc := alloc_array virt (e_desc_max e) zero_desc |>
                             <| e_desc_bus := bus |>) in
  if virt =? 0 then
    do* engine_free_resource in
    ret (- ENOMEM)
  else
    let* ok :=
      (if poll_mode then
         let* (virt, bus) := dma_alloc_coherent sizeof_xdma_poll_wb in
         do* set_engine (fun e => e <| e_poll_mode_addr_virt := negb (virt =? 0) |>
                                    <| e_poll_mode_bus := bus |>) in
         ret (negb (virt =? 0))
       else ret true) in
    if negb ok then
      do* engine_free_resource in
      ret (- ENOMEM)
    else if is_st_c2h e then
      let* (virt, bus) := dma_alloc_coherent (e_desc_max e * sizeof_xdma_result) in
      do* set_engine (fun e =>
            e <| e_cyclic_result := alloc_array virt (e_desc_max e) zero_result |>
              <| e_cyclic_result_bus := bus |>) in
      if virt =? 0 then
        do* engine_free_resource in
        ret (- ENOMEM)
      else ret 0
    else ret 0.

(** * Engines *)

(** [snprintf] into the 16 bytes of [engine->name]. *)
Definition engine_name (idx : Z) (dir : dma_data_direction) (channel : Z)
    (streaming : bool) : string :=
  String.substring 0 15
    (pretty idx +:+ "-" +:+ (if is_to_device dir then "H2C" else "C2H") +:+
     pretty channel +:+ "-" +:+ (if streaming then "ST" else "MM")).

(** The thread of a polled engine is chosen by [xdma_thread_add_work]
    (Threads); its answer is the number of the thread. *)
Definition thread_add_work : M est unit :=
  let* idx := kcall "xdma_thread_add_work" [] in
  set_engine (fun e => e <| e_intr_work_cpu := idx |>
                         <| e_cmplthp := Some (Z.to_nat idx) |>).
Definition thread_remove_work : M est unit :=
  let* _ := kcall "xdma_thread_remove_work" [] in
  set_engine (fun e => e <| e_cmplthp := None |>).

Definition engine_init (offset : Z) (dir : dma_data_direction) (channel : Z)
    : M est Z :=
  let* d := gets st_dev in
  let bit := u32 (Z.shiftl (Z.shiftl 1 XDMA_ENG_IRQ_NUM - 1)
                    (xd_engines_num d * XDMA_ENG_IRQ_NUM)) in
  do* set_engine (fun e =>
        e <| e_magic := MAGIC_ENGINE |> <| e_channel := channel |>
          <| e_irq_bitmask := bit |>
          <| e_bypass_offset := u32 (xd_engines_num d * BYPASS_MODE_SPACING) |>
          <| e_regs := config_base d + offset |>
          <| e_sgdma_regs := config_base d + offset + SGDMA_OFFSET_FROM_CHANNEL |>) in
  let* val := reg_read R_identifier in
  do* when (has_bits val 0x8000)
        (set_engine (fun e => e <| e_streaming := true |>)) in
  do* set_engine (fun e =>
        e <| e_dir := dir |>
          <| e_name := engine_name (xd_idx d) dir channel (e_streaming e) |>) in
  do* set_engine (fun e =>
        e <| e_desc_max :=
               if enable_st_c2h_credit && is_st_c2h e
               then XDMA_ENGINE_CREDIT_XFER_MAX_DESC
               else XDMA_ENGINE_XFER_MAX_DESC |>) in
  do* set_dev (fun d =>
        (if is_to_device dir
         then d <| xd_mask_irq_h2c ::= fun m => Z.lor m bit |>
         else d <| xd_mask_irq_c2h ::= fun m => Z.lor m bit |>)
          <| xd_engines_num ::= fun n => i32 (n + 1) |>) in
  let* rv := engine_alloc_resource in
  if negb (rv =? 0) then ret rv
  else
    let* rv := engine_init_regs in
    if negb (rv =? 0) then ret rv
    else
      do* when poll_mode thread_add_work in
      ret 0.

Definition engine_destroy : M est Z :=
  do* reg_write 0 R_interrupt_enable_mask in
  let* e := engine in
  do* when (enable_st_c2h_credit && is_st_c2h e)
        (credit_write R_credit_mode_enable_w1c) in
  do* when poll_mode thread_remove_work in
  do* engine_free_resource in
  do* set_engine (fun _ => zero_engine) in
  do* set_dev (fun d => d <| xd_engines_num ::= fun n => i32 (n - 1) |>) in
  ret 0.

(** The ioctl that switches the address mode; [arg] is what [get_user] reads,
    or [None] when it fails. *)
Definition engine_addrmode_set (arg : option Z) : M est Z :=
  do* match arg with
      | Some dst =>
          let non_incr := negb (dst =? 0) in
          do* set_engine (fun e => e <| e_non_incr_addr := non_incr |>) in
          reg_write XDMA_CTRL_NON_INCR_ADDR
            (if non_incr then R_control_w1s else R_control_w1c)
      | None => ret tt
      end in
  do* engine_alignments in
  ret (match arg with Some _ => 0 | None => - EFAULT end).

(** * Probing *)

Definition get_engine_channel_id (regs : Z) : M dvst Z :=
  let* value := read_register (u64 (regs + R_identifier)) in
  ret (Z.shiftr (Z.land value 0x00000f00) 8).
Definition get_engine_id (regs : Z) : M dvst Z :=
  let* value := read_register (u64 (regs + R_identifier)) in
  ret (Z.shiftr (Z.land value 0xffff0000) 16).

Definition channel_offset (dir : dma_data_direction) (channel : Z) : Z :=
  channel * CHANNEL_SPACING + (if is_to_device dir then 0 else H2C_CHANNEL_OFFSET).
Definition engine_id (dir : dma_data_direction) : Z :=
  if is_to_device dir then XDMA_ID_H2C else XDMA_ID_C2H.

Definition probe_for_engine (dir : dma_data_direction) (channel : Z)
    : M dvst Z :=
  let* d := dev in
  let regs := config_base d + channel_offset dir channel in
  let* id := get_engine_id regs in
  let* channel_id := get_engine_channel_id regs in
  if negb (id =? engine_id dir) || negb (channel_id =? u32 channel) then ret (- EINVAL)
  else
    let* rv := on_engine dir channel
                 (engine_init (channel_offset dir channel) dir channel) in
    ret (default (- EFAULT) rv).

(** [for (i = 0; i < max; i++)] until an engine is not there: the number of
    engines found. *)
Fixpoint probe_loop (dir : dma_data_direction) (n : nat) (i : Z) : M dvst Z :=
  match n with
  | O => ret i
  | S n' =>
      let* rv := probe_for_engine dir i in
      if negb (rv =? 0) then ret i else probe_loop dir n' (i + 1)
  end.

Definition probe_engines : M dvst Z :=
  let* d := dev in
  let* i := probe_loop DMA_TO_DEVICE (Z.to_nat (xd_h2c_channel_max d)) 0 in
  do* upd_dev (fun d => d <| xd_h2c_channel_max := i |>) in
  let* d := dev in
  let* i := probe_loop DMA_FROM_DEVICE (Z.to_nat (xd_c2h_channel_max d)) 0 in
  do* upd_dev (fun d => d <| xd_c2h_channel_max := i |>) in
  ret 0.

Definition remove_engine (dir : dma_data_direction) (i : Z) : M dvst unit :=
  let* s := gets (fun s : dvst => s) in
  let e := default zero_engine (zlookup (engines dir s) i) in
  when (e_magic e =? MAGIC_ENGINE)
    (let* _ := on_engine dir i engine_destroy in ret tt).

Definition remove_engines : M dvst unit :=
  let* d := dev in
  do* for_m (Z.to_nat (xd_h2c_channel_max d)) 0 (remove_engine DMA_TO_DEVICE) in
  let* d := dev in
  for_m (Z.to_nat (xd_c2h_channel_max d)) 0 (remove_engine DMA_FROM_DEVICE).
End init.
