(* ===== verification/InitFacts.v ===== *)
(** What creating an engine leaves behind. *)
From S2P Require Import Prelude Hw Desc Types Engine EngineFacts EngineSys.
From S2P Require Import TransferFacts SubmitFacts Device Init.

(** * Rules for code that works on one engine and its device *)

(** [at_ e d]: the engine is [e] and the device [d]. *)
Definition at_ (e : xdma_engine) (d : xdma_dev) (s : est) : Prop :=
  st_eng s = e /\ st_dev s = d.

Definition at_any (P : xdma_engine -> xdma_dev -> Prop) (s : est) : Prop :=
  P (st_eng s) (st_dev s).

Section rules.
Context `{Platform} `{ModParams}.

Lemma at_trace {A} e d (m : M est A) :
  (forall s, only_trace s (snd (m s))) -> hoare (at_ e d) m (fun _ => at_ e d).
Proof. intros Hm s [E1 E2]. destruct (Hm s) as [tr ->]. by split. Qed.

Lemma at_bind {A B} e d (m : M est A) (k : A -> M est B) Q R :
  hoare (at_ e d) m Q -> (forall a, hoare (Q a) (k a) R) ->
  hoare (at_ e d) (bind m k) R.
Proof. apply hoare_bind. Qed.

Lemma at_engine {B} e d (k : xdma_engine -> M est B) R :
  hoare (at_ e d) (k e) R -> hoare (at_ e d) (bind engine k) R.
Proof. intros Hk s Hs. rewrite bind_run. cbn. rewrite (proj1 Hs). by apply Hk. Qed.

Lemma at_dev {B} e d (k : xdma_dev -> M est B) R :
  hoare (at_ e d) (k d) R -> hoare (at_ e d) (bind (gets st_dev) k) R.
Proof. intros Hk s Hs. rewrite bind_run. cbn. rewrite (proj2 Hs). by apply Hk. Qed.

Lemma at_set_engine {B} e d f (k : unit -> M est B) R :
  hoare (at_ (f e) d) (k tt) R -> hoare (at_ e d) (bind (set_engine f) k) R.
Proof.
  intros Hk s [E1 E2]. rewrite bind_run. apply Hk. split; [|done].
  change (f (st_eng s) = f e). by rewrite E1.
Qed.

Lemma at_set_dev {B} e d f (k : unit -> M est B) R :
  hoare (at_ e (f d)) (k tt) R -> hoare (at_ e d) (bind (set_dev f) k) R.
Proof.
  intros Hk s [E1 E2]. rewrite bind_run. apply Hk. split; [done|].
  change (f (st_dev s) = f d). by rewrite E2.
Qed.

Lemma at_skip {A B} e d (m : M est A) (k : A -> M est B) R :
  (forall s, only_trace s (snd (m s))) ->
  (forall a, hoare (at_ e d) (k a) R) -> hoare (at_ e d) (bind m k) R.
Proof. intros Hm Hk. eapply at_bind; [by apply at_trace|exact Hk]. Qed.

(** A kernel call whose answer is known to satisfy [P]. *)
Lemma at_kcall {B} e d f args (P : Z -> Prop) (k : Z -> M est B) R :
  (forall t, P (kernel_answer t f args)) ->
  (forall v, P v -> hoare (at_ e d) (k v) R) ->
  hoare (at_ e d) (bind (kcall f args) k) R.
Proof.
  intros Hp Hk s Hs. rewrite bind_run. apply (Hk (fst (kcall f args s))).
  - apply Hp.
  - destruct Hs. by split.
Qed.

Lemma at_ret {A} e d (a : A) (Q : A -> est -> Prop) :
  (forall s, at_ e d s -> Q a s) -> hoare (at_ e d) (ret a) Q.
Proof. intros HQ s Hs. by apply HQ. Qed.

Lemma hoare_pure {S A} (p : Prop) (P : S -> Prop) (m : M S A) Q :
  (p -> hoare P m Q) -> hoare (fun s => p /\ P s) m Q.
Proof. intros Hm s [Hp Hs]. by apply Hm. Qed.

(** The engine is one of those that satisfy [Phi]. *)
Lemma at_ex {A} d (Phi : xdma_engine -> Prop) (m : M est A) Q :
  (forall e, Phi e -> hoare (at_ e d) m Q) ->
  hoare (fun s => exists e, at_ e d s /\ Phi e) m Q.
Proof. intros Hm s (e & Hs & He). by eapply Hm. Qed.

Lemma at_weaken {A} e d e' d' (m : M est A) Q :
  e = e' -> d = d' -> hoare (at_ e' d') m Q -> hoare (at_ e d) m Q.
Proof. by intros -> ->. Qed.
End rules.

(** * Creating an engine *)

Section init.
Context `{Platform} `{ModParams}.

(** The kernel has memory, at bus addresses an engine can use. *)
Record memory_ok : Prop := {
  mo_alloc : forall t size, kernel_answer t "dma_alloc_coherent" [size] <> 0;
  mo_handle : forall t v, 0 < kernel_answer t "dma_handle" [v] < 2 ^ 64 - 2 ^ 16;
}.
Context (mem_ok : memory_ok).

(** The engine that [engine_init] makes. *)
Record made (dir : dma_data_direction) (channel bit : Z) (e : xdma_engine) : Prop := {
  md_magic : e_magic e = MAGIC_ENGINE;
  md_channel : e_channel e = channel;
  md_dir : e_dir e = dir;
  md_bit : e_irq_bitmask e = bit;
  md_queue : e_transfer_list e = [];
  md_idle : e_running e = false /\ e_shutdown e = 0 /\ e_eop_flush e = false;
  md_mem : engine_mem_ok e (repeat zero_desc (Z.to_nat (e_desc_max e)));
  md_results : is_st_c2h e = true ->
    e_cyclic_result e = Some (repeat zero_result (Z.to_nat (e_desc_max e)));
  md_writeback : poll_mode = true -> e_poll_mode_addr_virt e = true;
  md_max : e_desc_max e = if enable_st_c2h_credit && is_st_c2h e
                          then XDMA_ENGINE_CREDIT_XFER_MAX_DESC
                          else XDMA_ENGINE_XFER_MAX_DESC;
}.

(** The same before its memory is allocated. *)
Record bare (dir : dma_data_direction) (channel bit : Z) (e : xdma_engine) : Prop := {
  br_magic : e_magic e = MAGIC_ENGINE;
  br_channel : e_channel e = channel;
  br_dir : e_dir e = dir;
  br_bit : e_irq_bitmask e = bit;
  br_queue : e_transfer_list e = [];
  br_idle : e_running e = false /\ e_shutdown e = 0 /\ e_eop_flush e = false;
  br_idx : e_desc_idx e = 0;
  br_max : e_desc_max e = if enable_st_c2h_credit && is_st_c2h e
                          then XDMA_ENGINE_CREDIT_XFER_MAX_DESC
                          else XDMA_ENGINE_XFER_MAX_DESC;
}.

Lemma at_alloc {B} e d size (k : Z * Z -> M est B) R :
  (forall virt bus, virt <> 0 -> 0 < bus < 2 ^ 64 - 2 ^ 16 ->
     hoare (at_ e d) (k (virt, bus)) R) ->
  hoare (at_ e d) (bind (dma_alloc_coherent size) k) R.
Proof using mem_ok.
  intros Hk s [E1 E2]. rewrite bind_run. unfold dma_alloc_coherent. exec.
  apply Hk; [apply mem_ok|apply mem_ok|by split].
Qed.

Lemma alloc_array_some {A} virt n (z : A) :
  virt <> 0 -> alloc_array virt n z = Some (repeat z (Z.to_nat n)).
Proof using. intros Hv. unfold alloc_array. by rewrite (proj2 (Z.eqb_neq _ _) Hv). Qed.

(** What is left to do once the descriptors are there. *)
Record with_descs (dir : dma_data_direction) (channel bit : Z) (e : xdma_engine)
    : Prop := {
  wd_bare : bare dir channel bit e;
  wd_mem : engine_mem_ok e (repeat zero_desc (Z.to_nat (e_desc_max e)));
}.

Lemma alloc_resource_made dir channel bit e d :
  bare dir channel bit e ->
  hoare (at_ e d) engine_alloc_resource (fun rv s =>
    rv = 0 /\ made dir channel bit (st_eng s) /\ st_dev s = d).
Proof using mem_ok.
  intros Hb. unfold engine_alloc_resource. apply at_engine, at_alloc.
  intros virt bus Hv Hbus. apply at_set_engine. rewrite (proj2 (Z.eqb_neq _ _) Hv).
  rewrite alloc_array_some by done. set (e1 := upd_field e_desc_bus _ _).
  assert (H1 : with_descs dir channel bit e1 /\ is_st_c2h e1 = is_st_c2h e /\
    e_desc_max e1 = e_desc_max e).
  { split; [|done]. split; [destruct Hb; by split|]. destruct Hb as [? ? ? ? ? ? Hi Hm].
    assert (Hr : 0 < e_desc_max e <= 2048) by (rewrite Hm; by destruct (_ && _)).
    split; cbn; rewrite ?Hi; try done; try lia.
    unfold zlength. rewrite repeat_length. lia. }
  clearbody e1. destruct H1 as (H1 & Est & Emax). clear Hb Hv Hbus.
  eapply hoare_bind with (Q := fun ok s => ok = true /\ exists e2, at_ e2 d s /\
    with_descs dir channel bit e2 /\ is_st_c2h e2 = is_st_c2h e /\
    e_desc_max e2 = e_desc_max e /\
    (poll_mode = true -> e_poll_mode_addr_virt e2 = true)).
  { destruct poll_mode; [|intros s Hs; split; [done|]; by exists e1].
    apply at_alloc. intros virt2 bus2 Hv2 _. apply at_set_engine.
    rewrite (proj2 (Z.eqb_neq _ _) Hv2). intros s Hs. split; [done|].
    eexists. split; [exact Hs|]. split; [|done].
    destruct H1 as [[] []]. by split; split. }
  intros ok. apply hoare_pure. intros ->. cbn [negb]. apply at_ex.
  intros e2 ([Hb Hm] & Est2 & Emax2 & Hpoll).
  destruct (is_st_c2h e) eqn:Ec.
  - apply at_alloc. intros virt3 bus3 Hv3 _. apply at_set_engine.
    rewrite (proj2 (Z.eqb_neq _ _) Hv3), alloc_array_some by done.
    intros s [E1 E2]. cbn. rewrite E1. split; [done|]. split; [|done].
    destruct Hb, Hm. split; try done.
  - intros s [E1 E2]. cbn. rewrite E1. split; [done|]. split; [|done].
    destruct Hb. split; try done. intros Hx. congruence.
Qed.

(** A change to other fields. *)
Ltac made_same H := destruct H as [? ? ? ? ? ? [] ? ? ?]; split; try done; by split.

(** The registers: only the alignment fields and the interrupt mask of the
    engine change. *)
Lemma init_regs_made dir channel bit e d :
  made dir channel bit e ->
  hoare (at_ e d) engine_init_regs (fun rv s =>
    rv = 0 /\ made dir channel bit (st_eng s) /\ st_dev s = d).
Proof using.
  intros Hmade. unfold engine_init_regs.
  apply at_skip; [intros; apply reg_write_trace|intros _].
  eapply hoare_bind with (Q := fun _ s => made dir channel bit (st_eng s) /\ st_dev s = d).
  { unfold engine_alignments. apply at_skip; [intros; apply reg_read_trace|].
    intros w s [E1 E2]. rewrite set_engine_run. cbn. rewrite E1. split; [|done].
    destruct (negb _); made_same Hmade. }
  intros _ s [Hm Hd]. exec.
  destruct poll_mode eqn:Ep.
  - unfold engine_writeback_setup. exec. cbn. destruct (enable_st_c2h_credit && _); cbn.
    + split; [done|]. split; [|done]. made_same Hm.
    + split; [done|]. split; [|done]. made_same Hm.
  - cbn. destruct (enable_st_c2h_credit && _); cbn;
      (split; [done|]; split; [|done]); made_same Hm.
Qed.

(** [engine_init] of an engine that has not been used. *)
Lemma engine_init_made offset dir channel d :
  0 <= xd_engines_num d < 32 ->
  let bit := 2 ^ xd_engines_num d in
  hoare (at_ zero_engine d) (engine_init offset dir channel) (fun rv s =>
    rv = 0 /\ made dir channel bit (st_eng s) /\
    st_dev s = (if is_to_device dir
                then d <| xd_mask_irq_h2c ::= fun m => Z.lor m bit |>
                else d <| xd_mask_irq_c2h ::= fun m => Z.lor m bit |>)
                 <| xd_engines_num ::= fun n => i32 (n + 1) |>).
Proof using mem_ok.
  intros Hn bit. unfold engine_init. apply at_dev.
  replace (u32 (Z.shiftl (Z.shiftl 1 XDMA_ENG_IRQ_NUM - 1)
                  (xd_engines_num d * XDMA_ENG_IRQ_NUM))) with bit.
  2:{ unfold XDMA_ENG_IRQ_NUM. change (Z.shiftl 1 1 - 1) with 1.
      rewrite Z.mul_1_r, Z.shiftl_mul_pow2, Z.mul_1_l by lia. rewrite u32_small; [done|].
      split; [apply Z.pow_nonneg; lia|apply Z.pow_lt_mono_r; lia]. }
  apply at_set_engine, at_skip; [intros; apply reg_read_trace|intros val].
  eapply hoare_bind with (Q := fun _ s => exists e1, at_ e1 d s /\ exists st, e1 =
    ((upd_field e_sgdma_regs (fun _ => config_base d + offset + SGDMA_OFFSET_FROM_CHANNEL)
       (zero_engine <| e_magic := MAGIC_ENGINE |> <| e_channel := channel |>
          <| e_irq_bitmask := bit |>
          <| e_bypass_offset := u32 (xd_engines_num d * BYPASS_MODE_SPACING) |>
          <| e_regs := config_base d + offset |>)) <| e_streaming := st |>)).
  { destruct (has_bits val 0x8000); intros s [E1 E2].
    - eexists. split; [split; [|done]|exists true]; [done|]. cbn. by rewrite E1.
    - eexists. split; [by split|]. by exists false. }
  intros _. apply at_ex. intros ? [st ->].
  apply at_set_engine, at_set_engine, at_set_dev.
  set (e1 := upd_field e_desc_max _ _). set (d1 := upd_field xd_engines_num _ _).
  assert (Hb : bare dir channel bit e1) by by split.
  clearbody e1. eapply hoare_bind; [by apply alloc_resource_made|].
  intros rv s (-> & Hm & Hd). cbn [negb Z.eqb].
  destruct (init_regs_made dir channel bit (st_eng s) d1 Hm s) as (E1 & E2 & E3);
    [by split|].
  rewrite bind_run, E1. cbn [negb Z.eqb]. set (s2 := snd (engine_init_regs s)) in *.
  clearbody s2. destruct poll_mode; exec; [|done]. unfold thread_add_work. exec. cbn.
  split; [done|]. split; [|done]. made_same E2.
Qed.
End init.
