(* ===== verification/Life.v ===== *)
(** The list of devices, and opening, closing, suspending and resuming one
    ([src/src/libxdma.c], [xdev_list_add] to [debug_check_dev_hndl] and
    [alloc_dev_instance] to [xdma_user_isr_disable]). *)
From S2P Require Import Prelude Hw Desc Types Engine Threads Device.
From S2P Require Import Irq Bars Init.

(** * State *)

(** [xdev_list] and [xdev_rcu_list] as lists of pointers, what the pointers
    point to, the globals of [xdma_thread.c] (whose engines are those of the
    devices) and the trace.  A [struct pci_dev] is a pointer as well. *)
Record lst := {
  y_list : list Z;
  y_rcu : list Z;
  y_devs : gmap Z dvst;
  y_threads : tst;
  y_trace : list event;
}.

#[export] Instance eta_lst : Eta lst := fun r =>
  Build_lst (y_list r) (y_rcu r) (y_devs r) (y_threads r) (y_trace r).

#[export] Instance traced_lst : Traced lst := {|
  trace_of := y_trace;
  with_trace t s := s <| y_trace := t |>;
|}.

#[export] Instance unit_inhabited : Inhabited unit := populate tt.

Definition xdev_of (h : Z) (s : lst) : option xdma_dev := v_dev <$> y_devs s !! h.

(** [m] on the device that [h] points to, or nothing when it points to none:
    the callers below hold a device. *)
Definition on_xdev {A} `{Inhabited A} (h : Z) (m : M dvst A) : M lst A := fun s =>
  match y_devs s !! h with
  | None => (inhabitant, s)
  | Some v =>
      let (a, v') := m (v <| v_trace := y_trace s |>) in
      (a, s <| y_devs ::= insert h v' |> <| y_trace := v_trace v' |>)
  end.

Lemma on_xdev_run {A} `{Inhabited A} h (m : M dvst A) s v :
  y_devs s !! h = Some v ->
  on_xdev h m s =
  (fst (m (v <| v_trace := y_trace s |>)),
   s <| y_devs ::= insert h (snd (m (v <| v_trace := y_trace s |>))) |>
     <| y_trace := v_trace (snd (m (v <| v_trace := y_trace s |>))) |>).
Proof. intros E. unfold on_xdev. rewrite E. by destruct (m _). Qed.

Definition on_threads {A} (m : M tst A) : M lst A := fun s =>
  let (a, t) := m ((y_threads s) <| t_trace := y_trace s |>) in
  (a, s <| y_threads := t |> <| y_trace := t_trace t |>).

Section life.
Context `{Platform} `{ModParams}.
(** What the PCI core knows of a device, and the online processors. *)
Context (pci : Z -> pci_dev) (cpus : list Z).

(** * The list of devices *)

Definition list_add (h : Z) : M lst unit :=
  do* modify (fun s => s <| y_list ::= fun l => l ++ [h] |>) in
  modify (fun s => s <| y_rcu ::= fun l => l ++ [h] |>).

Definition xdev_list_add (h : Z) : M lst Z :=
  let* s := gets (fun s : lst => s) in
  match last (y_list s) with
  | None =>
      do* on_xdev h (upd_dev (fun d => d <| xd_idx := 0 |>)) in
      let* d := on_xdev h (let* d := dev in
                  ret (xd_h2c_channel_max d + xd_c2h_channel_max d)) in
      let* rv := (if poll_mode then on_threads (xdma_threads_create cpus d) else ret 0) in
      if rv <? 0 then ret rv
      else do* list_add h in ret 0
  | Some l =>
      let idx := default 0 (xd_idx <$> xdev_of l s) in
      do* on_xdev h (upd_dev (fun d => d <| xd_idx := i32 (idx + 1) |>)) in
      do* list_add h in
      ret 0
  end.

Definition xdev_list_remove (h : Z) : M lst unit :=
  do* modify (fun s => s <| y_list ::= filter (fun x => x <> h) |>) in
  let* l := gets y_list in
  do* when (poll_mode && list_empty l) (on_threads xdma_threads_destroy) in
  do* modify (fun s => s <| y_rcu ::= filter (fun x => x <> h) |>) in
  let* _ := kcall "synchronize_rcu" [] in
  ret tt.

(** 0 is the null pointer. *)
Definition has_pdev (s : lst) (pdev h : Z) : bool :=
  if xdev_of h s is Some d then xd_pdev d =? pdev else false.

Definition xdev_find_by_pdev (pdev : Z) : M lst Z :=
  gets (fun s => default 0 (List.find (has_pdev s pdev) (y_list s))).

Definition debug_check_dev_hndl (pdev h : Z) : M lst Z :=
  if pdev =? 0 then ret (- EINVAL)
  else
    let* xdev := xdev_find_by_pdev pdev in
    if xdev =? 0 then ret (- EINVAL)
    else if negb (xdev =? h) then ret (- EINVAL)
    else ret 0.

(** * Opening *)

Definition fresh_dev (pdev : Z) : dvst := {|
  v_dev := Build_xdma_dev MAGIC_DEVICE pdev 0 0
    (repeat None (Z.to_nat XDMA_BAR_NUM)) (-1) (-1) (-1) false false 0 0 0 0 (-1)
    false false (map (fun i => Build_xdma_user_irq i 0 None 0) (seqZ 0 MAX_USER_IRQ))
    0 0 0 0;
  v_h2c := repeat zero_engine (Z.to_nat XDMA_CHANNEL_NUM_MAX);
  v_c2h := repeat zero_engine (Z.to_nat XDMA_CHANNEL_NUM_MAX);
  v_xfers := ∅;
  v_trace := [];
|}.

Definition alloc_dev_instance (pdev : Z) : M lst Z :=
  if pdev =? 0 then ret 0
  else
    let* xdev := kcall "kzalloc" [] in
    if xdev =? 0 then ret 0
    else
      do* modify (fun s => s <| y_devs ::= insert xdev (fresh_dev pdev) |>) in
      ret xdev.

Definition kfree_xdev (h : Z) : M lst unit :=
  let* _ := kcall "kfree" [h] in
  modify (fun s => s <| y_devs ::= delete h |>).

Definition request_regions (pdev : Z) : M dvst Z :=
  let* rv := kcall "pci_request_regions" [pdev] in
  do* upd_dev (fun d => if negb (rv =? 0) then d <| xd_regions_in_use := true |>
                        else d <| xd_got_regions := true |>) in
  ret rv.

(** With the interface of Linux 5.16 and later. *)
Definition set_dma_mask (pdev : Z) : M dvst Z :=
  let* rv := kcall "dma_set_mask_and_coherent" [pdev; 64] in
  if rv =? 0 then ret 0
  else
    let* rv := kcall "dma_set_mask_and_coherent" [pdev; 32] in
    if rv =? 0 then ret 0 else ret (- EINVAL).

Definition PCI_EXP_DEVCTL : Z := 8.
Definition PCI_EXP_DEVCTL_RELAX_EN : Z := 0x0010.
Definition PCI_EXP_DEVCTL_EXT_TAG : Z := 0x0100.
Definition pci_enable_capability (pdev cap : Z) : M dvst unit :=
  let* _ := kcall "pcie_capability_set_word" [pdev; PCI_EXP_DEVCTL; cap] in ret tt.

(** The limit for a parameter of the caller. *)
Definition clamp_max (n max : Z) : Z := if (n =? 0) || (max <? n) then max else n.

(** The interrupt set-up of [xdma_device_open] and of the suspension. *)
Definition all_bits : Z := 0xffffffff.
Definition interrupts_off : M dvst unit :=
  do* channel_interrupts_disable all_bits in
  do* user_interrupts_disable all_bits in
  let* _ := read_interrupts in
  ret tt.

(** The labels of [xdma_device_open], each of which runs into the next. *)
Definition free_xdev (h : Z) : M lst Z := do* kfree_xdev h in ret 0.
Definition err_enable (h : Z) : M lst Z := do* xdev_list_remove h in free_xdev h.
Definition err_regions (pdev h : Z) : M lst Z :=
  do* on_xdev h (let* d := dev in
        when (negb (xd_regions_in_use d))
          (let* _ := kcall "pci_disable_device" [pdev] in ret tt)) in
  err_enable h.
Definition err_map (pdev h : Z) : M lst Z :=
  do* on_xdev h (let* d := dev in
        when (xd_got_regions d)
          (let* _ := kcall "pci_release_regions" [pdev] in ret tt)) in
  err_regions pdev h.
Definition err_mask (pdev h : Z) : M lst Z :=
  do* on_xdev h unmap_bars in err_map pdev h.
Definition err_engines (pdev h : Z) : M lst Z :=
  do* on_xdev h remove_engines in err_mask pdev h.
Definition err_msix (pdev h : Z) : M lst Z :=
  do* on_xdev h disable_msi_msix in err_engines pdev h.

(** From [xdma_device_open]'s call of [probe_engines] on. *)
Definition open_engines (pdev h : Z) : M lst Z :=
  let* rv := on_xdev h probe_engines in
  if negb (rv =? 0) then err_mask pdev h
  else
    let* rv := on_xdev h (enable_msi_msix (pci pdev)) in
    if rv <? 0 then err_engines pdev h
    else
      let* rv := on_xdev h (irq_setup (pci pdev)) in
      if rv <? 0 then err_msix pdev h
      else
        do* on_xdev h
              (do* when (negb poll_mode) (dev_channel_interrupts_enable all_bits) in
               let* _ := read_interrupts in
               upd_dev (xdma_device_flag_clear XDEV_FLAG_OFFLINE)) in
        ret h.

(** From its call of [pci_enable_device] on. *)
Definition open_pci (pdev h : Z) : M lst Z :=
  let* rv := kcall "pci_enable_device" [pdev] in
  if negb (rv =? 0) then err_enable h
  else
    do* on_xdev h
          (do* pci_check_intr_pend in
           do* pci_enable_capability pdev PCI_EXP_DEVCTL_RELAX_EN in
           do* pci_enable_capability pdev PCI_EXP_DEVCTL_EXT_TAG in
           let* _ := kcall "pcie_set_readrq" [pdev; 512] in
           let* _ := kcall "pci_set_master" [pdev] in
           ret tt) in
    let* rv := on_xdev h (request_regions pdev) in
    if negb (rv =? 0) then err_regions pdev h
    else
      let* rv := on_xdev h map_bars in
      if negb (rv =? 0) then err_map pdev h
      else
        let* rv := on_xdev h (set_dma_mask pdev) in
        if negb (rv =? 0) then err_mask pdev h
        else
          do* on_xdev h (do* check_nonzero_interrupt_status in interrupts_off) in
          open_engines pdev h.

(** The rest, once there is memory for the device. *)
Definition open_xdev (pdev h user_max h2c_channel_max c2h_channel_max : Z)
    : M lst Z :=
  do* on_xdev h (upd_dev (fun d =>
        (xdma_device_flag_set XDEV_FLAG_OFFLINE d)
          <| xd_user_max := clamp_max user_max MAX_USER_IRQ |>
          <| xd_h2c_channel_max := clamp_max h2c_channel_max XDMA_CHANNEL_NUM_MAX |>
          <| xd_c2h_channel_max := clamp_max c2h_channel_max XDMA_CHANNEL_NUM_MAX |>)) in
  let* rv := xdev_list_add h in
  if rv <? 0 then free_xdev h else open_pci pdev h.

(** The handle, 0 for failure; the numbers that it stores through its pointer
    arguments are those of the device. *)
Definition xdma_device_open (pdev user_max h2c_channel_max c2h_channel_max : Z)
    : M lst Z :=
  let* h := alloc_dev_instance pdev in
  if h =? 0 then ret 0
  else open_xdev pdev h user_max h2c_channel_max c2h_channel_max.

(** * Closing *)

(** What closing does before it unregisters the device. *)
Definition close_dev (pdev : Z) : M dvst unit :=
  do* interrupts_off in
  do* irq_teardown in
  do* disable_msi_msix in
  do* remove_engines in
  do* unmap_bars in
  let* d := dev in
  do* when (xd_got_regions d)
        (let* _ := kcall "pci_release_regions" [pdev] in ret tt) in
  when (negb (xd_regions_in_use d))
    (let* _ := kcall "pci_disable_device" [pdev] in ret tt).

Definition xdma_device_close (pdev h : Z) : M lst unit :=
  if h =? 0 then ret tt
  else
    let* rv := debug_check_dev_hndl pdev h in
    if rv <? 0 then ret tt
    else
      do* on_xdev h (close_dev pdev) in
      do* xdev_list_remove h in
      kfree_xdev h.

(** * Suspending and resuming *)

(** [m] on every engine of direction [d] that has been created. *)
Definition each_engine (d : dma_data_direction) (m : M est unit) : M dvst unit :=
  let* xdev := dev in
  for_m (Z.to_nat (channel_max d xdev)) 0 (fun i =>
    let* s := gets (fun s : dvst => s) in
    when (e_magic (engine_at d s i) =? MAGIC_ENGINE)
      (let* _ := on_engine d i m in ret tt)).

Definition device_offline : M dvst unit :=
  do* upd_dev (xdma_device_flag_set XDEV_FLAG_OFFLINE) in
  do* each_engine DMA_TO_DEVICE engine_offline in
  do* each_engine DMA_FROM_DEVICE engine_offline in
  do* interrupts_off in
  irq_teardown.

Definition xdma_device_offline (pdev h : Z) : M lst unit :=
  if h =? 0 then ret tt
  else
    let* rv := debug_check_dev_hndl pdev h in
    if rv <? 0 then ret tt else on_xdev h device_offline.

Definition resume_engine : M est unit :=
  let* _ := engine_init_regs in engine_online.

Definition device_online (p : pci_dev) : M dvst unit :=
  do* each_engine DMA_TO_DEVICE resume_engine in
  do* each_engine DMA_FROM_DEVICE resume_engine in
  do* when (negb poll_mode)
        (let* _ := irq_setup p in
         do* dev_channel_interrupts_enable all_bits in
         let* d := dev in
         do* user_interrupts_enable (xd_mask_irq_user d) in
         let* _ := read_interrupts in
         ret tt) in
  upd_dev (xdma_device_flag_clear XDEV_FLAG_OFFLINE).

Definition xdma_device_online (pdev h : Z) : M lst unit :=
  if h =? 0 then ret tt
  else
    let* rv := debug_check_dev_hndl pdev h in
    if rv <? 0 then ret tt else on_xdev h (device_online (pci pdev)).

Definition xdma_device_restart (pdev h : Z) : M lst Z :=
  if h =? 0 then ret (- EINVAL)
  else
    let* rv := debug_check_dev_hndl pdev h in
    if rv <? 0 then ret (- EINVAL) else ret (- EINVAL).

(** * User interrupts *)

(** [m] on the device of a handle that is checked against its own PCI
    device. *)
Definition checked (h : Z) (m : M dvst unit) : M lst Z :=
  if h =? 0 then ret (- EINVAL)
  else
    let* pdev := on_xdev h (let* d := dev in ret (xd_pdev d)) in
    let* rv := debug_check_dev_hndl pdev h in
    if rv <? 0 then ret (- EINVAL)
    else do* on_xdev h m in ret 0.

(** [for (i = 0; i < user_max && mask; i++)] with [n] users to go. *)
Fixpoint register_loop (n : nat) (i mask : Z) (handler : option Z)
    (dev : Z) (d : xdma_dev) : xdma_dev :=
  match n with
  | O => d
  | S n' =>
      if mask =? 0 then d
      else
        let bit := u32 (Z.shiftl 1 i) in
        if Z.land bit mask =? 0 then register_loop n' (i + 1) mask handler dev d
        else
          register_loop n' (i + 1) (andn32 mask bit) handler dev
            (d <| xd_user_irq ::= zalter (fun u =>
               u <| u_handler := handler |> <| u_dev := dev |>) i |>)
  end.

Definition xdma_user_isr_register (h mask : Z) (handler : option Z) (dev : Z)
    : M lst Z :=
  checked h (upd_dev (fun d =>
    register_loop (Z.to_nat (xd_user_max d)) 0 mask handler dev d)).

Definition xdma_user_isr_enable (h mask : Z) : M lst Z :=
  checked h
    (do* upd_dev (fun d => d <| xd_mask_irq_user ::= fun m => Z.lor m mask |>) in
     do* user_interrupts_enable mask in
     let* _ := read_interrupts in
     ret tt).

Definition xdma_user_isr_disable (h mask : Z) : M lst Z :=
  checked h
    (do* upd_dev (fun d => d <| xd_mask_irq_user ::= fun m => andn32 m mask |>) in
     do* user_interrupts_disable mask in
     let* _ := read_interrupts in
     ret tt).
End life.
