(* ===== verification/LifeFacts.v ===== *)
(** What the operations on a device leave alone: its identity, and what it has
    taken from the PCI core. *)
From S2P Require Import Prelude Hw Desc Types Engine EngineFacts Threads Device.
From S2P Require Import Irq Bars Init Life.

(** * Code that keeps a part of the state *)

(** The calls that enable a PCI device and claim its regions. *)
Definition pci_call (f : string) : bool :=
  String.eqb f "pci_enable_device" || String.eqb f "pci_disable_device" ||
  String.eqb f "pci_request_regions" || String.eqb f "pci_release_regions".
Definition quiet_event (e : event) : bool :=
  if e is Call f _ _ then negb (pci_call f) else true.
Definition pci_calls (t : list event) : list event :=
  List.filter (fun e => negb (quiet_event e)) t.

Definition frames {S A X} (F : S -> X) (m : M S A) : Prop :=
  forall s, F (snd (m s)) = F s.

(** [F] does not see events other than these calls. *)
Class Framed {S X} `{Traced S} (F : S -> X) := frame_emit e s :
  quiet_event e = true -> F (with_trace (e :: trace_of s) s) = F s.

Section frames.
Context {S X : Type} (F : S -> X).

Lemma frames_ret {A} (a : A) : frames F (ret a).
Proof. done. Qed.

Lemma frames_gets {A} (f : S -> A) : frames F (gets f).
Proof. done. Qed.

Lemma frames_modify f : (forall s, F (f s) = F s) -> frames F (modify f).
Proof. intros Hf s. apply Hf. Qed.

Lemma frames_bind {A B} (m : M S A) (k : A -> M S B) :
  frames F m -> (forall a, frames F (k a)) -> frames F (bind m k).
Proof. intros Hm Hk s. rewrite bind_run, Hk. apply Hm. Qed.

Lemma frames_when b m : frames F m -> frames F (when b m).
Proof. by destruct b. Qed.

Lemma frames_for n i body :
  (forall j, frames F (body j)) -> frames F (for_m n i body).
Proof.
  intros Hb. revert i. induction n as [|n IH]; intros i; cbn [for_m]; [done|].
  apply frames_bind; [apply Hb|]. intros _. apply IH.
Qed.
End frames.

Section access.
Context `{Platform} {S X : Type} `{Traced S} (F : S -> X) `{!Framed F}.

Lemma frames_emit e : quiet_event e = true -> frames F (emit e).
Proof using Type*. intros He s. by apply frame_emit. Qed.

Lemma frames_kcall f args : pci_call f = false -> frames F (kcall f args).
Proof using Type*. intros Hf s. apply frame_emit. cbn. by rewrite Hf. Qed.

Lemma frames_read addr : frames F (read_register addr).
Proof using Type*. intros s. by apply frame_emit. Qed.

Lemma frames_write v addr : frames F (write_register v addr).
Proof using Type*. by apply frames_emit. Qed.
End access.

Create HintDb frames discriminated.

(** By the structure of the code; the operations that have a lemma of their own
    are in the database. *)
Ltac frame_op :=
  first
    [ apply frames_ret | apply frames_gets
    | apply frames_read; apply _ | apply frames_write; apply _
    | apply frames_kcall; [apply _|reflexivity]
    | apply frames_emit; [apply _|reflexivity]
    | solve [auto with frames] ].
Ltac frame :=
  repeat lazymatch goal with
  | |- frames _ (bind _ _) => apply frames_bind; [|intros ?]
  | |- frames _ (when _ _) => apply frames_when
  | |- frames _ (for_m _ _ _) => apply frames_for; intros ?
  | |- frames _ (let _ := _ in _) => cbv zeta
  | |- frames _ (if ?b then _ else _) => destruct b
  | |- frames _ (match ?x with _ => _ end) => destruct x
  | |- frames _ _ => solve [frame_op]
  end.

(** * The identity of a device and its hold on the PCI core *)

Definition dev_frame (d : xdma_dev) : Z * Z * bool * bool :=
  (xd_pdev d, xd_idx d, xd_regions_in_use d, xd_got_regions d).
Definition frame (v : dvst) : (Z * Z * bool * bool) * list event :=
  (dev_frame (v_dev v), pci_calls (v_trace v)).
Definition frame_e (s : est) : (Z * Z * bool * bool) * list event :=
  (dev_frame (st_dev s), pci_calls (st_trace s)).

#[export] Instance framed_frame : Framed frame.
Proof. intros e s He. unfold frame, pci_calls. cbn. by rewrite He. Qed.
#[export] Instance framed_frame_e : Framed frame_e.
Proof. intros e s He. unfold frame_e, pci_calls. cbn. by rewrite He. Qed.

Lemma frames_upd_dev f :
  (forall d, dev_frame (f d) = dev_frame d) -> frames frame (upd_dev f).
Proof. intros Hf s. unfold frame. cbn. by rewrite Hf. Qed.

Lemma frames_set_dev f :
  (forall d, dev_frame (f d) = dev_frame d) -> frames frame_e (set_dev f).
Proof. intros Hf s. unfold frame_e. cbn. by rewrite Hf. Qed.

Lemma frames_set_engine f : frames frame_e (set_engine f).
Proof. done. Qed.

Lemma frames_on_engine {A} d i (m : M est A) :
  frames frame_e m -> frames frame (on_engine d i m).
Proof.
  intros Hm s. unfold on_engine. destruct (zlookup _ _) as [e|]; [|done].
  specialize (Hm (engine_view e s)). destruct (m _) as [a es]. cbn in *.
  unfold frame_e in Hm. unfold frame. by destruct d.
Qed.

#[export] Hint Resolve frames_set_engine : frames.
#[export] Hint Extern 2 (frames frame (on_engine _ _ _)) =>
  apply frames_on_engine : frames.
#[export] Hint Extern 2 (frames frame (upd_dev _)) =>
  apply frames_upd_dev; intros ?; repeat split_case; reflexivity : frames.
#[export] Hint Extern 2 (frames frame_e (set_dev _)) =>
  apply frames_set_dev; intros ?; repeat split_case; reflexivity : frames.

Section keep.
Context `{Platform} `{ModParams}.

(** ** Engines *)

Lemma dma_alloc_frame size : frames frame_e (dma_alloc_coherent size).
Proof. unfold dma_alloc_coherent. frame. Qed.
Lemma dma_free_frame size bus : frames frame_e (dma_free_coherent size bus).
Proof. unfold dma_free_coherent. frame. Qed.
#[local] Hint Resolve dma_alloc_frame dma_free_frame : frames.

Lemma reg_read_frame off : frames frame_e (reg_read off).
Proof. unfold reg_read, engine. frame. Qed.
Lemma reg_write_frame v off : frames frame_e (reg_write v off).
Proof. unfold reg_write, engine. frame. Qed.
Lemma sgdma_write_frame v off : frames frame_e (sgdma_write v off).
Proof. unfold sgdma_write, engine. frame. Qed.
#[local] Hint Resolve reg_read_frame reg_write_frame sgdma_write_frame : frames.

Lemma engine_init_regs_frame : frames frame_e engine_init_regs.
Proof.
  unfold engine_init_regs, engine_alignments, engine_writeback_setup, credit_write, engine.
  frame.
Qed.
#[local] Hint Resolve engine_init_regs_frame : frames.

Lemma engine_free_frame : frames frame_e engine_free_resource.
Proof. unfold engine_free_resource, engine. frame. Qed.
#[local] Hint Resolve engine_free_frame : frames.

Lemma engine_alloc_frame : frames frame_e engine_alloc_resource.
Proof. unfold engine_alloc_resource, engine. frame. Qed.
#[local] Hint Resolve engine_alloc_frame : frames.

Lemma engine_init_frame offset d channel :
  frames frame_e (engine_init offset d channel).
Proof. unfold engine_init, thread_add_work. frame. Qed.

Lemma engine_destroy_frame : frames frame_e engine_destroy.
Proof. unfold engine_destroy, credit_write, thread_remove_work, engine. frame. Qed.

Lemma engine_offline_frame : frames frame_e engine_offline.
Proof. unfold engine_offline, xdma_engine_stop, engine. frame. Qed.

Lemma resume_engine_frame : frames frame_e resume_engine.
Proof. unfold resume_engine, engine_online. frame. Qed.
#[local] Hint Resolve engine_init_frame engine_destroy_frame engine_offline_frame
  resume_engine_frame : frames.

(** ** The device *)

Lemma probe_loop_frame d n i : frames frame (probe_loop d n i).
Proof.
  revert i. induction n as [|n IH]; intros i; cbn [probe_loop];
    unfold probe_for_engine, get_engine_id, get_engine_channel_id, dev; frame.
Qed.
#[local] Hint Resolve probe_loop_frame : frames.

Lemma probe_engines_frame : frames frame probe_engines.
Proof. unfold probe_engines, dev. frame. Qed.

Lemma remove_engines_frame : frames frame remove_engines.
Proof. unfold remove_engines, remove_engine, dev. frame. Qed.

Lemma each_engine_frame d m : frames frame_e m -> frames frame (each_engine d m).
Proof. intros Hm. unfold each_engine, dev. frame. Qed.

Lemma unmap_bars_frame : frames frame unmap_bars.
Proof. unfold unmap_bars, unmap_bar, set_bar, dev. frame. Qed.
#[local] Hint Resolve each_engine_frame unmap_bars_frame : frames.

Lemma map_loop_frame n i ids pos : frames frame (map_loop n i ids pos).
Proof.
  revert i ids pos. induction n as [|n IH]; intros i ids pos; cbn [map_loop];
    unfold map_single_bar, set_bar, is_config_bar, dev; frame.
Qed.
#[local] Hint Resolve map_loop_frame : frames.

Lemma identify_frame ids n pos d : dev_frame (identify_bars ids n pos d) = dev_frame d.
Proof. unfold identify_bars. by repeat split_case. Qed.

Lemma map_bars_frame : frames frame map_bars.
Proof.
  unfold map_bars, dev. frame. apply frames_upd_dev. intros d. apply identify_frame.
Qed.

(** ** Interrupts *)

Lemma irq_write_frame v off : frames frame (irq_write v off).
Proof. unfold irq_write, dev. frame. Qed.
Lemma irq_read_frame off : frames frame (irq_read off).
Proof. unfold irq_read, dev. frame. Qed.
#[local] Hint Resolve irq_write_frame irq_read_frame : frames.

Lemma interrupts_off_frame : frames frame interrupts_off.
Proof.
  unfold interrupts_off, channel_interrupts_disable, user_interrupts_disable,
    read_interrupts. frame.
Qed.

Lemma prog_vectors_frame fuel base i max j clear :
  frames frame (prog_vectors fuel base i max j clear).
Proof.
  revert i j. induction fuel as [|fuel IH]; intros i j; cbn [prog_vectors]; frame.
Qed.
#[local] Hint Resolve prog_vectors_frame : frames.

Lemma channel_setup_frame d n i j : frames frame (channel_setup d n i j).
Proof.
  revert i j. induction n as [|n IH]; intros i j; cbn [channel_setup];
    unfold request_irq; frame.
Qed.

Lemma channel_teardown_frame d n i : frames frame (channel_teardown d n i).
Proof.
  revert i. induction n as [|n IH]; intros i; cbn [channel_teardown];
    unfold free_irq; frame.
Qed.

Lemma user_undo_frame n j : frames frame (user_undo n j).
Proof.
  revert j. induction n as [|n IH]; intros j; cbn [user_undo]; unfold free_irq; frame.
Qed.
#[local] Hint Resolve channel_setup_frame channel_teardown_frame user_undo_frame : frames.

Lemma user_setup_frame n i j : frames frame (user_setup n i j).
Proof.
  revert i j. induction n as [|n IH]; intros i j; cbn [user_setup];
    unfold request_irq; frame.
Qed.

Lemma user_teardown_frame n i j : frames frame (user_teardown n i j).
Proof.
  revert i j. induction n as [|n IH]; intros i j; cbn [user_teardown];
    unfold free_irq; frame.
Qed.
#[local] Hint Resolve user_setup_frame user_teardown_frame : frames.

Lemma irq_setup_frame p : frames frame (irq_setup p).
Proof.
  unfold irq_setup, pci_keep_intx_enabled, irq_msix_channel_setup, irq_msix_user_setup,
    prog_irq_msix_channel, prog_irq_msix_user, irq_msi_setup, irq_legacy_setup,
    request_irq, dev. frame.
Qed.

Lemma irq_teardown_frame : frames frame irq_teardown.
Proof.
  unfold irq_teardown, irq_msix_channel_teardown, irq_msix_user_teardown,
    prog_irq_msix_channel, prog_irq_msix_user, free_irq, dev. frame.
Qed.

Lemma enable_msi_frame p : frames frame (enable_msi_msix p).
Proof. unfold enable_msi_msix, msi_msix_capable, dev. frame. Qed.

Lemma disable_msi_frame : frames frame disable_msi_msix.
Proof. unfold disable_msi_msix, dev. frame. Qed.

Lemma interrupts_enable_frame mask : frames frame (dev_channel_interrupts_enable mask).
Proof. unfold dev_channel_interrupts_enable. frame. Qed.
Lemma user_enable_frame mask : frames frame (user_interrupts_enable mask).
Proof. unfold user_interrupts_enable. frame. Qed.
Lemma user_disable_frame mask : frames frame (user_interrupts_disable mask).
Proof. unfold user_interrupts_disable. frame. Qed.
Lemma read_interrupts_frame : frames frame read_interrupts.
Proof. unfold read_interrupts. frame. Qed.
Lemma check_nonzero_frame : frames frame check_nonzero_interrupt_status.
Proof. unfold check_nonzero_interrupt_status. frame. Qed.
#[local] Hint Resolve interrupts_off_frame irq_setup_frame irq_teardown_frame
  interrupts_enable_frame user_enable_frame user_disable_frame read_interrupts_frame
  : frames.

(** ** Whole operations *)

Lemma offline_frame : frames frame device_offline.
Proof. unfold device_offline. frame. Qed.

Lemma online_frame p : frames frame (device_online p).
Proof. unfold device_online, dev. frame. Qed.

Lemma register_loop_frame n i mask handler d0 d :
  dev_frame (register_loop n i mask handler d0 d) = dev_frame d.
Proof.
  revert i mask d. induction n as [|n IH]; intros i mask d; cbn [register_loop]; [done|].
  repeat split_case; try done; by rewrite IH.
Qed.

Lemma set_dma_mask_frame pdev : frames frame (set_dma_mask pdev).
Proof. unfold set_dma_mask. frame. Qed.
End keep.

#[export] Hint Resolve engine_offline_frame resume_engine_frame probe_engines_frame
  remove_engines_frame unmap_bars_frame map_bars_frame interrupts_off_frame
  irq_setup_frame irq_teardown_frame enable_msi_frame disable_msi_frame
  interrupts_enable_frame user_enable_frame user_disable_frame read_interrupts_frame
  check_nonzero_frame offline_frame online_frame set_dma_mask_frame : frames.
