(* ===== verification/Adapter.v ===== *)
(** The adapter of the network driver and the state its PCI callbacks and its
    debug device work on ([src/src/nupanet_main.h], [struct nupanet_adapter];
    [src/src/debug.h], [struct debug_cdev]). *)
From S2P Require Import Prelude Hw Desc Types Engine Device Life Nupa.

(** [cdevno], [class], [buf] and [info_buf] are 0 while there is none. *)
Record debug_cdev := {
  dc_cdevno : Z;
  dc_class : Z;
  dc_buf : Z;
  dc_buf_size : Z;
  dc_info_buf : Z;
  dc_info_len : Z;
  dc_dump_ctl : bool;
  dc_hack_ctl : bool;
  dc_hold_ic_ctl : bool;
}.

#[export] Instance eta_debug_cdev : Eta debug_cdev := fun r =>
  Build_debug_cdev (dc_cdevno r) (dc_class r) (dc_buf r) (dc_buf_size r)
    (dc_info_buf r) (dc_info_len r) (dc_dump_ctl r) (dc_hack_ctl r)
    (dc_hold_ic_ctl r).

(** [a_xdev] is the handle of the device, [a_vaddr] the address of the shared
    memory; both are 0 before [probe_one] sets them.  [a_dev_addr]: whether
    [netdev->dev_addr] points to the static array of [nupanet_set_mac]. *)
Record nupanet_adapter := {
  a_magic : Z;
  a_pdev : Z;
  a_xdev : Z;
  a_user_max : Z;
  a_c2h_channel_max : Z;
  a_h2c_channel_max : Z;
  a_vaddr : Z;
  a_length : Z;
  a_netdev : Z;
  a_host_id : Z;
  a_debug : debug_cdev;
  a_dev_addr : bool;
}.

#[export] Instance eta_adapter : Eta nupanet_adapter := fun r =>
  Build_nupanet_adapter (a_magic r) (a_pdev r) (a_xdev r) (a_user_max r)
    (a_c2h_channel_max r) (a_h2c_channel_max r) (a_vaddr r) (a_length r)
    (a_netdev r) (a_host_id r) (a_debug r) (a_dev_addr r).

Definition zero_debug : debug_cdev :=
  Build_debug_cdev 0 0 0 0 0 0 false false false.
Definition zero_adapter : nupanet_adapter :=
  Build_nupanet_adapter 0 0 0 0 0 0 0 0 0 0 zero_debug false.

(** The devices of the DMA library, the adapters, the adapter that each PCI
    device carries ([dev_get_drvdata]), the shared memory of the card and the
    static array [mac_addr] of [nupanet_set_mac]. *)
Record gst := {
  g_lib : lst;
  g_adapters : gmap Z nupanet_adapter;
  g_drvdata : gmap Z Z;
  g_shm : list area;
  g_mac_addr : list Z;
}.

#[export] Instance eta_gst : Eta gst := fun r =>
  Build_gst (g_lib r) (g_adapters r) (g_drvdata r) (g_shm r)
    (g_mac_addr r).

#[export] Instance traced_gst : Traced gst := {|
  trace_of s := y_trace (g_lib s);
  with_trace t s := s <| g_lib ::= fun l => l <| y_trace := t |> |>;
|}.

(** Code of the library. *)
Definition on_lib {A} (m : M lst A) : M gst A := fun s =>
  let (a, l) := m (g_lib s) in (a, s <| g_lib := l |>).

(** The adapter that [p] points to. *)
Definition adapter (p : Z) : M gst nupanet_adapter :=
  gets (fun s => default zero_adapter (g_adapters s !! p)).
Definition set_adapter (p : Z) (f : nupanet_adapter -> nupanet_adapter) : M gst unit :=
  modify (fun s => s <| g_adapters ::= alter f p |>).
Definition set_debug (p : Z) (f : debug_cdev -> debug_cdev) : M gst unit :=
  set_adapter p (fun a => a <| a_debug ::= f |>).

(** A value written to the shared memory: a fault through a null pointer or
    past the areas. *)
Definition write_area (p host_id : Z) (v : area) : M gst (outcome unit) :=
  let* a := adapter p in
  let* shm := gets g_shm in
  if a_vaddr a =? 0 then ret Fault
  else match zlookup shm host_id with
  | None => ret Fault
  | Some _ =>
      do* modify (fun s => s <| g_shm ::= zset v host_id |>) in ret (Done tt)
  end.

(** [dev_get_drvdata]: 0 for none. *)
Definition dev_get_drvdata (pdev : Z) : M gst Z :=
  gets (fun s => default 0 (g_drvdata s !! pdev)).

Lemma on_lib_run {A} (m : M lst A) s :
  on_lib m s = (fst (m (g_lib s)), s <| g_lib := snd (m (g_lib s)) |>).
Proof. unfold on_lib. by destruct (m _). Qed.
Lemma set_adapter_run p f s :
  set_adapter p f s = (tt, s <| g_adapters ::= alter f p |>).
Proof. done. Qed.
Lemma adapter_run p s :
  adapter p s = (default zero_adapter (g_adapters s !! p), s).
Proof. done. Qed.
#[export] Hint Rewrite @on_lib_run set_adapter_run adapter_run : run.
