(* ===== verification/Debug.v ===== *)
(** The debug character device ([src/src/debug.c]): reads, writes and controls
    that move buffers with the DMA engines or set the switches of the network
    driver.

    [debug] is embedded in its adapter, so a pointer to it is the pointer to the
    adapter.  The [struct file] carries nothing else; a position in it is an
    argument and a result. *)
From S2P Require Import Prelude Hw Desc Types Engine Submit Device Life.
From S2P Require Import Nupa Adapter.

Definition BUF_LENGTH : Z := Eval cbv in Z.shiftl 8 12.

(** [_IO('D', n)] *)
Definition IOCTL (n : Z) : Z := Z.lor (Z.shiftl 0x44 8) n.
Definition IOCTL_RAW_WRITE : Z := Eval cbv in IOCTL 1.
Definition IOCTL_RAW_READ : Z := Eval cbv in IOCTL 2.
Definition IOCTL_DUMP_MSG_ON : Z := Eval cbv in IOCTL 3.
Definition IOCTL_DUMP_MSG_OFF : Z := Eval cbv in IOCTL 4.
Definition IOCTL_HACK_CTL_ON : Z := Eval cbv in IOCTL 5.
Definition IOCTL_HACK_CTL_OFF : Z := Eval cbv in IOCTL 6.
Definition IOCTL_HOLD_IC_ON : Z := Eval cbv in IOCTL 7.
Definition IOCTL_HOLD_IC_OFF : Z := Eval cbv in IOCTL 8.

Section debug.
Context `{Platform} `{ModParams}.
Context (interfere : est -> est).

(** * Moving a buffer *)

(** On the engine; [None]: the submission has no result. *)
Definition xfer_segments (hndl_ok : bool) (pos n : Z) (segs : list (Z * Z))
    (is_h2c : bool) : M est (option Z) :=
  let* sgs := sg_of_segments segs in
  let* e := engine in
  let* r := xdma_xfer_submit interfere hndl_ok (e_channel e) is_h2c (u64 pos)
              {| sgl := sgs; nents := 0; orig_nents := n |} false (0, 1)%nat in
  ret (match r with Some (res, _) => Some (i32 res) | None => None end).

(** The check of the handle in [xdma_xfer_submit]. *)
Definition handle_ok (h : Z) : M gst bool :=
  let* pdev := on_lib (on_xdev h (let* d := dev in ret (xd_pdev d))) in
  let* rv := on_lib (debug_check_dev_hndl pdev h) in
  ret (negb (rv <? 0)).

(** The label [out]. *)
Definition free_sgt (sgt res : Z) : M gst (outcome Z) :=
  let* _ := kcall "sg_free_table" [sgt] in
  let* _ := kcall "kfree" [sgt] in
  ret (Done res).

(** [Fault] when the adapter has no device, whose engine is read. *)
Definition dma_xfer_data (p pos buf length : Z) (is_h2c : bool)
    : M gst (outcome Z) :=
  let* sgt := kcall "kzalloc" [16] in
  if sgt =? 0 then ret (Done (- ENOMEM))
  else
    let* a := adapter p in
    let h := a_xdev a in
    let n := pages_nr buf length in
    if n =? 0 then ret (Done (- EINVAL))
    else
      let* rv := kcall "sg_alloc_table" [sgt; n] in
      if negb (rv =? 0) then free_sgt sgt (- ENOMEM)
      else
        let* ok := handle_ok h in
        let* r := on_lib (on_xdev h (on_engine (dir_of is_h2c) 0
                    (xfer_segments ok pos n
                       (buf_segments (Z.to_nat n) buf length) is_h2c))) in
        match r with
        | None => ret Fault
        | Some None => ret Spin
        | Some (Some res) => free_sgt sgt res
        end.

(** * Reading and writing *)

(** The result and the new position. *)
Definition debug_read (p dst count f_offset : Z) : M gst (outcome (Z * Z)) :=
  let* buf := kcall "kzalloc" [count] in
  if buf =? 0 then ret (Done (- ENOMEM, f_offset))
  else
    try* res := dma_xfer_data p (i32 f_offset) buf (i32 count) false in
    let* rest := kcall "copy_to_user" [dst; buf; count] in
    if negb (rest =? 0) then ret (Done (- EFAULT, f_offset))
    else
      let* _ := kcall "kfree" [buf] in
      ret (Done (count, f_offset + count)).

Definition debug_write (p src count f_offset : Z) : M gst (outcome (Z * Z)) :=
  let* a := adapter p in
  if u64 (dc_buf_size (a_debug a)) <? u64 (f_offset + count)
  then ret (Done (- EINVAL, f_offset))
  else
    let* buf := kcall "kzalloc" [count] in
    if buf =? 0 then ret (Done (- ENOMEM, f_offset))
    else
      let* rest := kcall "copy_from_user" [buf; src; count] in
      if negb (rest =? 0) then ret (Done (- EFAULT, f_offset))
      else
        try* res := dma_xfer_data p (i32 f_offset) buf (i32 count) true in
        ret (Done (count, f_offset + count)).

(** * Controls *)

Definition do_raw_read_test (p : Z) : M gst (outcome unit) :=
  let* buf := kcall "kmalloc" [4096] in
  try* res := dma_xfer_data p 0 buf 4096 false in
  let* _ := kcall "kfree" [buf] in
  ret (Done tt).

(** [memset] of a buffer that could not be had faults. *)
Definition do_raw_write_test (p : Z) : M gst (outcome unit) :=
  let* buf := kcall "kmalloc" [4096] in
  if buf =? 0 then ret Fault
  else
    try* res := dma_xfer_data p 0 buf 4096 true in
    let* _ := kcall "kfree" [buf] in
    ret (Done tt).

Definition debug_ioctl (p cmd : Z) : M gst (outcome Z) :=
  let switch f := do* set_debug p f in ret (Done 0) in
  if cmd =? IOCTL_RAW_WRITE then
    try* _ := do_raw_write_test p in ret (Done 0)
  else if cmd =? IOCTL_RAW_READ then
    try* _ := do_raw_read_test p in ret (Done 0)
  else if cmd =? IOCTL_DUMP_MSG_ON then switch (fun d => d <| dc_dump_ctl := true |>)
  else if cmd =? IOCTL_DUMP_MSG_OFF then switch (fun d => d <| dc_dump_ctl := false |>)
  else if cmd =? IOCTL_HACK_CTL_ON then switch (fun d => d <| dc_hack_ctl := true |>)
  else if cmd =? IOCTL_HACK_CTL_OFF then switch (fun d => d <| dc_hack_ctl := false |>)
  else if cmd =? IOCTL_HOLD_IC_ON then switch (fun d => d <| dc_hold_ic_ctl := true |>)
  else if cmd =? IOCTL_HOLD_IC_OFF then switch (fun d => d <| dc_hold_ic_ctl := false |>)
  else ret (Done 0).

Definition debug_mmap (p vm_start vm_end : Z) : M gst Z :=
  let* a := adapter p in
  let size := u64 (vm_end - vm_start) in
  let info_len := u64 (dc_info_len (a_debug a)) in
  let size := if info_len <=? size then info_len else size in
  let* rv := kcall "remap_pfn_range" [vm_start; dc_info_buf (a_debug a); size] in
  ret (if negb (rv =? 0) then -1 else 0).

(** * Creating and deleting the device *)

(** The pointers keep their values. *)
Definition free_resource (p : Z) : M gst unit :=
  let* a := adapter p in
  let d := a_debug a in
  do* when (negb (dc_buf d =? 0))
        (let* _ := kcall "kfree" [dc_buf d] in ret tt) in
  when (negb (dc_class d =? 0) && negb (dc_cdevno d =? 0))
    (let* _ := kcall "device_destroy" [dc_class d; dc_cdevno d] in
     let* _ := kcall "class_destroy" [dc_class d] in
     let* _ := kcall "unregister_chrdev_region" [dc_cdevno d] in
     ret tt).

Definition delete_debug_cdev (p : Z) : M gst unit := free_resource p.

(** A step that failed. *)
Definition create_failed (p : Z) : M gst Z :=
  do* free_resource p in ret (- ENOMEM).

(** From the allocation of the buffer on. *)
Definition create_buffer (p info_buf info_len : Z) : M gst Z :=
  do* set_debug p (fun d => d <| dc_buf_size := BUF_LENGTH |>) in
  let* buf := kcall "kcalloc" [BUF_LENGTH; 1] in
  do* set_debug p (fun d => d <| dc_buf := buf |>) in
  if buf =? 0 then create_failed p
  else
    do* when (negb (info_buf =? 0) && negb (info_len =? 0))
          (set_debug p (fun d => d <| dc_info_buf := info_buf |>
                                   <| dc_info_len := info_len |>)) in
    do* set_debug p (fun d => d <| dc_dump_ctl := false |> <| dc_hack_ctl := false |>
                                <| dc_hold_ic_ctl := false |>) in
    let* cdevno := (let* a := adapter p in ret (dc_cdevno (a_debug a))) in
    let* rv := kcall "cdev_add" [cdevno] in
    if negb (rv =? 0) then create_failed p else ret 0.

(** The number that [alloc_chrdev_region] stores is the answer of a call of its
    own. *)
Definition create_debug_cdev (p info_buf info_len : Z) : M gst Z :=
  let* rv := kcall "alloc_chrdev_region" [] in
  if rv <? 0 then ret (- ENOMEM)
  else
    let* no := kcall "chrdev_number" [] in
    do* set_debug p (fun d => d <| dc_cdevno := no |>) in
    let* class := kcall "class_create" [] in
    do* set_debug p (fun d => d <| dc_class := class |>) in
    if class =? 0 then create_failed p
    else
      let* device := kcall "device_create" [class; no] in
      if device =? 0 then create_failed p else create_buffer p info_buf info_len.
End debug.
