(* ===== verification/Pci.v ===== *)
(** The network driver as a PCI driver ([src/src/nupanet_main.c]): adding and
    removing a card, and recovering from errors of the bus. *)
From S2P Require Import Prelude Hw Desc Types Engine Device Irq Life.
From S2P Require Import Nupa Adapter Debug.

(** The parts of the kernel's enumerations that the driver uses. *)
Inductive pci_channel_state :=
| pci_channel_io_normal
| pci_channel_io_frozen
| pci_channel_io_perm_failure.

Inductive pci_ers_result :=
| PCI_ERS_RESULT_CAN_RECOVER
| PCI_ERS_RESULT_NEED_RESET
| PCI_ERS_RESULT_DISCONNECT
| PCI_ERS_RESULT_RECOVERED.

(** The bytes that [memset] leaves in an area. *)
Definition zero_area : area := {|
  ar_info := Build_packets_info 0 0 0 0 false;
  ar_descs := repeat (Build_packet_desc 0 0 0 PACKET_INIT) (Z.to_nat MAX_DESC_NUM);
|}.

Section pci.
Context `{Platform} `{ModParams}.
(** What the PCI core knows of a device, its device identifier, and the online
    processors. *)
Context (pci : Z -> pci_dev) (device_id : Z -> Z) (cpus : list Z).

(** * The adapter *)

Definition adapter_alloc (pdev : Z) : M gst Z :=
  let* netdev := kcall "alloc_etherdev" [] in
  if netdev =? 0 then ret 0
  else
    do* modify (fun s => s <| g_adapters ::= insert netdev
          (zero_adapter <| a_magic := MAGIC_DEVICE |> <| a_pdev := pdev |>
             <| a_user_max := MAX_USER_IRQ |>
             <| a_h2c_channel_max := XDMA_CHANNEL_NUM_MAX |>
             <| a_c2h_channel_max := XDMA_CHANNEL_NUM_MAX |>
             <| a_netdev := netdev |>) |>) in
    ret netdev.

Definition adapter_free (p : Z) : M gst (outcome unit) :=
  let* a := adapter p in
  do* set_adapter p (fun a => a <| a_xdev := 0 |>) in
  do* on_lib (xdma_device_close (a_pdev a) (a_xdev a)) in
  let* _ := kcall "netif_napi_del" [p] in
  try* _ := write_area p (a_host_id a) zero_area in
  let* _ := kcall "iounmap" [a_vaddr a] in
  let* _ := kcall "unregister_netdev" [a_netdev a] in
  let* _ := kcall "free_netdev" [a_netdev a] in
  do* modify (fun s => s <| g_adapters ::= delete p |>) in
  ret (Done tt).

Definition info_init (p : Z) : M gst (outcome unit) :=
  let* a := adapter p in
  if MAX_AGENT_NUM <=? a_host_id a then ret Bug
  else write_area p (a_host_id a) (init_area (a_host_id a)).

(** The array is the same for all adapters. *)
Definition set_mac (p : Z) : M gst unit :=
  let* a := adapter p in
  do* modify (fun s => s <| g_mac_addr := nupanet_set_mac (device_id (a_pdev a)) |>) in
  set_adapter p (fun a => a <| a_dev_addr := true |>).

Definition nupanet_poll_start (p : Z) : M gst unit :=
  let* _ := kcall "napi_enable" [p] in
  let* _ := kcall "kthread_run" [p] in
  ret tt.

(** * Adding a card *)

(** The label [err_out]. *)
Definition err_out (p err : Z) : M gst (outcome Z) :=
  try* _ := adapter_free p in ret (Done err).

(** The mask of the user interrupts to enable. *)
Definition user_mask (user_max : Z) : Z := u32 (i32 (Z.shiftl 1 (user_max + 1)) - 1).

Definition enable_users (p h : Z) : M gst Z :=
  let* a := adapter p in
  if a_user_max a =? 0 then ret 0
  else on_lib (xdma_user_isr_enable h (user_mask (a_user_max a))).

(** From [register_netdev] on. *)
Definition probe_netdev (pdev p : Z) : M gst (outcome Z) :=
  let* err := kcall "register_netdev" [p] in
  if negb (err =? 0) then err_out p err
  else
    do* modify (fun s => s <| g_drvdata ::= insert pdev p |>) in
    do* nupanet_poll_start p in
    ret (Done 0).

(** From [adapter->xdev = hndl] on. *)
Definition probe_adapter (pdev p h : Z) : M gst (outcome Z) :=
  do* set_adapter p (fun a => a <| a_xdev := h |>) in
  let* bar := on_lib (on_xdev h (let* d := dev in ret (xd_user_bar_idx d))) in
  let* vaddr := kcall "pci_ioremap_wc_bar" [pdev; bar] in
  let* len := kcall "pci_resource_len" [bar] in
  do* set_adapter p (fun a => a <| a_vaddr := vaddr |> <| a_length := i32 len |>) in
  let* _ := create_debug_cdev p vaddr (i32 len) in
  do* set_adapter p (fun a => a <| a_host_id := device_id_to_host_id (device_id pdev) |>) in
  try* _ := info_init p in
  do* set_mac p in
  let* _ := kcall "netif_napi_add" [p; 64] in
  probe_netdev pdev p.

(** The numbers [xdma_device_open] stores through its arguments. *)
Definition store_limits (p h : Z) : M gst unit :=
  let* d := on_lib (on_xdev h (let* d := dev in
      ret (xd_user_max d, (xd_h2c_channel_max d, xd_c2h_channel_max d)))) in
  set_adapter p (fun a => a <| a_user_max := fst d |>
                            <| a_h2c_channel_max := fst (snd d) |>
                            <| a_c2h_channel_max := snd (snd d) |>).

Definition limits_exceeded (a : nupanet_adapter) : bool :=
  (MAX_USER_IRQ <? a_user_max a) || (XDMA_CHANNEL_NUM_MAX <? a_h2c_channel_max a) ||
  (XDMA_CHANNEL_NUM_MAX <? a_c2h_channel_max a).

(** From the return of [xdma_device_open] on. *)
Definition probe_device (pdev p h : Z) : M gst (outcome Z) :=
  do* store_limits p h in
  let* a := adapter p in
  if limits_exceeded a then err_out p (- EINVAL)
  else
    let* err := enable_users p h in
    if negb (err =? 0) then err_out p err
    else
      let* xdev := on_lib (xdev_find_by_pdev pdev) in
      if xdev =? 0 then err_out p (- EINVAL)
      else if negb (h =? xdev) then err_out p (- EINVAL)
      else probe_adapter pdev p h.

Definition probe_one (pdev : Z) : M gst (outcome Z) :=
  let* p := adapter_alloc pdev in
  if p =? 0 then ret (Done (- ENOMEM))
  else
    let* a := adapter p in
    let* h := on_lib (xdma_device_open pci cpus pdev (a_user_max a)
                (a_h2c_channel_max a) (a_c2h_channel_max a)) in
    if h =? 0 then err_out p (- EINVAL) else probe_device pdev p h.

(** * Removing a card *)

Definition remove_one (pdev : Z) : M gst (outcome unit) :=
  if pdev =? 0 then ret (Done tt)
  else
    let* p := dev_get_drvdata pdev in
    if p =? 0 then ret (Done tt)
    else
      do* delete_debug_cdev p in
      do* modify (fun s => s <| g_drvdata ::= delete pdev |>) in
      adapter_free p.

(** * Errors of the bus *)

(** [m] on the handle of the device's adapter, through a null pointer when it
    has none. *)
Definition with_adapter {A} (pdev : Z) (m : Z -> M gst A) : M gst (outcome A) :=
  let* p := dev_get_drvdata pdev in
  if p =? 0 then ret Fault
  else let* a := adapter p in let* r := m (a_xdev a) in ret (Done r).

Definition xdma_error_detected (pdev : Z) (state : pci_channel_state)
    : M gst (outcome pci_ers_result) :=
  match state with
  | pci_channel_io_normal => ret (Done PCI_ERS_RESULT_CAN_RECOVER)
  | pci_channel_io_frozen =>
      with_adapter pdev (fun h =>
        do* on_lib (xdma_device_offline pdev h) in
        let* _ := kcall "pci_disable_device" [pdev] in
        ret PCI_ERS_RESULT_NEED_RESET)
  | pci_channel_io_perm_failure => ret (Done PCI_ERS_RESULT_DISCONNECT)
  end.

Definition xdma_slot_reset (pdev : Z) : M gst (outcome pci_ers_result) :=
  let* rv := kcall "pci_enable_device_mem" [pdev] in
  if negb (rv =? 0) then ret (Done PCI_ERS_RESULT_DISCONNECT)
  else
    let* _ := kcall "pci_set_master" [pdev] in
    let* _ := kcall "pci_restore_state" [pdev] in
    let* _ := kcall "pci_save_state" [pdev] in
    with_adapter pdev (fun h =>
      do* on_lib (xdma_device_online pci pdev h) in
      ret PCI_ERS_RESULT_RECOVERED).

Definition xdma_error_resume (pdev : Z) : M gst unit :=
  let* _ := kcall "pci_aer_clear_nonfatal_status" [pdev] in ret tt.

Definition xdma_reset_prepare (pdev : Z) : M gst (outcome unit) :=
  with_adapter pdev (fun h => on_lib (xdma_device_offline pdev h)).

Definition xdma_reset_done (pdev : Z) : M gst (outcome unit) :=
  with_adapter pdev (fun h => on_lib (xdma_device_online pci pdev h)).
End pci.
