(* ===== verification/Examples.v ===== *)
(** Concrete platforms, parameters and objects at which the theorems are
    instantiated. *)
From S2P Require Import Prelude Hw Desc Types Device EngineFacts SubmitFacts.

(** A device whose registers read as [v], and a kernel whose allocations
    succeed. *)
Definition platform_reading (v : Z) : Platform := {|
  mmio_answer _ _ := v;
  wb_answer _ := v;
  kernel_answer _ f _ :=
    if String.eqb f "kzalloc" then 0x10000 else 0;
  sizeof_xdma_request_cb := 256;
  VMALLOC_START := 2 ^ 47;
  VMALLOC_END := 2 ^ 48;
|}.

Definition idle_platform : Platform := platform_reading 0.

(** A device whose registers do not change: [f] gives their values by
    address. *)
Definition platform_regs (f : Z -> Z) : Platform := {|
  mmio_answer _ a := f a;
  wb_answer _ := 0;
  kernel_answer _ _ _ := 0;
  sizeof_xdma_request_cb := 256;
  VMALLOC_START := 2 ^ 47;
  VMALLOC_END := 2 ^ 48;
|}.

(** The defaults of the module parameters. *)
Definition irq_params : ModParams := {|
  poll_mode := false;
  interrupt_mode := 0;
  enable_st_c2h_credit := false;
  desc_blen_max := XDMA_DESC_BLEN_MAX;
|}.

Definition poll_params : ModParams := {|
  poll_mode := true;
  interrupt_mode := 0;
  enable_st_c2h_credit := false;
  desc_blen_max := XDMA_DESC_BLEN_MAX;
|}.

Definition zero_dev : xdma_dev :=
  Build_xdma_dev 0 0 0 0 [] 0 0 0 false false 0 0 0 0 0 false false [] 0 0 0 0.

(** A memory-mapped H2C engine of a device whose configuration BAR is mapped
    at 0x100000. *)
Definition ex_dev : xdma_dev :=
  zero_dev <| xd_magic := MAGIC_DEVICE |> <| xd_bar := [Some 0x100000] |>
    <| xd_user_bar_idx := -1 |> <| xd_bypass_bar_idx := -1 |>
    <| xd_h2c_channel_max := 1 |> <| xd_c2h_channel_max := 1 |>.

Definition ex_engine : xdma_engine :=
  zero_engine <| e_magic := MAGIC_ENGINE |> <| e_name := "0-H2C0-MM" |>
    <| e_regs := 0x100000 |> <| e_sgdma_regs := 0x104000 |>
    <| e_desc_max := 8 |> <| e_addr_align := 1 |> <| e_len_granularity := 1 |>
    <| e_addr_bits := 64 |> <| e_desc := Some (repeat zero_desc 8) |>
    <| e_desc_bus := 0x2000 |>.

(** A transfer of [n] descriptors, the first one at bus address [bus]. *)
Definition ex_xfer (bus n : Z) : xdma_transfer :=
  zero_transfer <| x_desc_bus := bus |> <| x_desc_num := n |>
    <| x_desc_adjacent := n |> <| x_last_in_request := true |>.

(** The engine with the transfers [1], of two descriptors, and [2], of three,
    in its queue. *)
Definition ex_state (running : bool) : est := {|
  st_eng := ex_engine <| e_transfer_list := [1; 2]%nat |>
              <| e_running := running |>;
  st_dev := ex_dev;
  st_xfers := <[1%nat := (ex_xfer 0x2000 2) <| x_state := TRANSFER_STATE_SUBMITTED |>]>
              (<[2%nat := (ex_xfer 0x2040 3) <| x_state := TRANSFER_STATE_SUBMITTED |>]> ∅);
  st_trace := [];
|}.

(** The same engine with an empty queue. *)
Definition ex_idle_state : est := {|
  st_eng := ex_engine;
  st_dev := ex_dev;
  st_xfers := <[1%nat := ex_xfer 0x2000 2]> ∅;
  st_trace := [];
|}.

(** An engine on which every transfer completes at once. *)
Definition complete_at_once (s : est) : est :=
  s <| st_xfers ::= fmap (fun x => x <| x_state := TRANSFER_STATE_COMPLETED |>) |>
    <| st_eng ::= fun e => e <| e_transfer_list := [] |> <| e_shutdown := 0 |> |>
    <| st_dev ::= fun d => d <| xd_flags := 0 |> |>.

Lemma complete_at_once_keeps id s : keeps id s (complete_at_once s).
Proof.
  split; [done|..]; cbn; unfold state_of; rewrite lookup_fmap;
    by destruct (st_xfers s !! id).
Qed.

Lemma complete_at_once_works id : device_works complete_at_once id.
Proof.
  intros s. split; [done|]. split; [done|]. unfold state_of. cbn.
  rewrite lookup_fmap. by destruct (st_xfers s !! id).
Qed.

(** A device with an engine per direction. *)
Definition ex_dv : dvst := {|
  v_dev := ex_dev <| xd_user_max := 16 |> <| xd_msix_enabled := true |>
    <| xd_mask_irq_h2c := 1 |> <| xd_mask_irq_c2h := 2 |>
    <| xd_user_irq := repeat (Build_xdma_user_irq 0 0 None 0) 16 |>;
  v_h2c := [ex_engine <| e_irq_bitmask := 1 |>];
  v_c2h := [ex_engine <| e_irq_bitmask := 2 |> <| e_dir := DMA_FROM_DEVICE |>];
  v_xfers := ∅;
  v_trace := [];
|}.
