(* ===== verification/DescProps.v ===== *)
(** What the descriptor operations promise to the SGDMA hardware. *)
From S2P Require Import Prelude Hw Desc.

(** C28: After [transfer_desc_init], hardware that fetches the descriptor at the
    transfer's bus address and follows the links reads exactly the [count]
    descriptors of the transfer and then stops, and the descriptors outside
    the transfer are as they were. *)
Theorem transfer_desc_init_chain mem base dv bus count :
  0 <= dv -> 1 <= count -> dv + count <= zlength mem ->
  bus = base + 32 * dv -> 0 < bus -> bus + 32 * count < 2 ^ 64 ->
  let mem' := transfer_desc_init dv bus count mem in
  desc_walk (Z.to_nat count) base mem' bus = Some (slice mem' dv count) /\
  zlength mem' = zlength mem /\
  (forall j, j < dv \/ dv + count <= j -> zlookup mem' j = zlookup mem j).
Proof.
  intros Hdv Hc Hm Hb Hb0 Hb1 mem'.
  assert (Hlk : forall j, zlookup mem' j = _)
    by (intros; apply zlookup_transfer_desc_init; lia).
  assert (Hlink : linked mem' dv bus count).
  { intros k Hk. rewrite Hlk, decide_True by lia.
    destruct (proj2 (zlookup_is_Some mem (dv + k)) ltac:(lia)) as [d ->].
    eexists; split; [done|]. split; [apply desc_magic_link|].
    rewrite desc_next_link.
    - repeat case_decide; try lia. rewrite u64_small; lia.
    - case_decide; [lia|]. apply u64_range. }
  split; [|split; [unfold mem'; by autorewrite with ints|]].
  - pose proof (desc_walk_linked (Z.to_nat count) mem' base dv bus count 0) as W.
    rewrite Z.mul_0_r, !Z.add_0_r, Z.sub_0_r in W. by apply W; try lia.
  - intros j Hj. rewrite Hlk, decide_False by lia. done.
Qed.

Lemma transfer_desc_init_chain_witness :
  let mem := transfer_desc_init 3 (0x2000 + 96) 4 (repeat zero_desc 8) in
  desc_walk 4 0x2000 mem (0x2000 + 96) = Some (slice mem 3 4).
Proof.
  exact (proj1 (transfer_desc_init_chain (repeat zero_desc 8) 0x2000 3
    (0x2000 + 96) 4 ltac:(lia) ltac:(lia) ltac:(vm_compute; congruence) eq_refl
    ltac:(lia) ltac:(lia))).
Defined.

(** C35: [xdma_get_next_adj] never announces more adjacent descriptors than the
    six-bit field holds, than remain in the transfer, or than lie before the
    end of the 2 KiB block of the next descriptor, and it announces as many as
    these bounds allow. *)
Theorem get_next_adj_bounds remaining next_lo :
  0 <= remaining < 2 ^ 32 -> 0 <= next_lo < 2 ^ 32 -> next_lo mod 32 = 0 ->
  let adj := xdma_get_next_adj remaining next_lo in
  0 <= adj < 64 /\ adj <= Z.max 0 (remaining - 1) /\
  next_lo mod 2048 + 32 * (adj + 1) <= 2048 /\
  (1 < remaining -> adj = remaining - 1 \/
                    next_lo mod 2048 + 32 * (adj + 1) = 2048).
Proof.
  intros Hr Hn Ha adj.
  assert (Hblk : next_lo mod 2048 = 32 * ((next_lo / 32) mod 64)).
  { change 2048 with (32 * 64). rewrite Z.rem_mul_r by lia. lia. }
  assert (Hidx : Z.shiftr (Z.land next_lo (XDMA_PAGE_SIZE - 1)) 5
                   mod XDMA_MAX_ADJ_BLOCK_SIZE = (next_lo / 32) mod 64).
  { change (XDMA_PAGE_SIZE - 1) with (Z.ones 12).
    rewrite Z.land_ones, Z.shiftr_div_pow2 by lia. unfold XDMA_MAX_ADJ_BLOCK_SIZE.
    change (2 ^ 12) with 4096. change (2 ^ 5) with 32. change 0x40 with 64. dlia. }
  pose proof (Z.mod_pos_bound (next_lo / 32) 64 ltac:(lia)) as Hi.
  subst adj. unfold xdma_get_next_adj. rewrite Hidx.
  unfold XDMA_MAX_ADJ_BLOCK_SIZE.
  destruct (Z.leb_spec remaining 1); [lia|].
  rewrite !u32_small by lia. lia.
Qed.

Lemma get_next_adj_bounds_witness :
  0 <= xdma_get_next_adj 100 0x27e0 < 64.
Proof.
  apply (get_next_adj_bounds 100 0x27e0); [lia|lia|reflexivity].
Defined.

(** [xdma_desc_adjacent] puts the number of adjacent descriptors and the
    magic number in the control word and keeps the control bits and every
    other field, provided the two low bits of the old Nxt_adj field that its
    mask does not clear were 0. *)
Lemma desc_adjacent_fields adj d :
  0 <= d_control d < 2 ^ 32 -> 0 <= adj < 64 ->
  Z.land (d_control d) 0x3000 = 0 ->
  let d' := xdma_desc_adjacent adj d in
  desc_adj d' = adj /\ desc_magic d' = 0xAD4B /\ desc_ctl d' = desc_ctl d /\
  d_bytes d' = d_bytes d /\ desc_src d' = desc_src d /\
  desc_dst d' = desc_dst d /\ desc_next d' = desc_next d.
Proof.
  intros Hc Ha H0 d'. subst d'. rewrite desc_adjacent_control by done.
  unfold desc_adj, desc_magic, desc_ctl. cbn.
  rewrite control_adj, control_magic, control_ctl by done. done.
Qed.

(** The mask of [xdma_desc_adjacent] keeps bits 12 and 13 of the old control
    word, so a descriptor that once had 63 adjacent ones and is given 1
    announces 49. *)
Lemma desc_adjacent_stale :
  let d := xdma_desc_adjacent 63 (desc_link 0 zero_desc) in
  desc_adj d = 63 /\ desc_adj (xdma_desc_adjacent 1 d) = 49.
Proof. split; reflexivity. Qed.

(** [xdma_desc_control_set] replaces the low byte of the control word by a
    byte-wide control field and keeps the rest; a wider field is refused and
    the descriptor left alone. *)
Lemma desc_control_set_spec c d :
  0 <= d_control d < 2 ^ 32 -> 0 <= c < 2 ^ 32 ->
  let (rv, d') := xdma_desc_control_set c d in
  (if decide (c < 256)
   then rv = 0 /\ desc_ctl d' = c /\
        Z.shiftr (d_control d') 8 = Z.shiftr (d_control d) 8 /\
        d' = d <| d_control := d_control d' |>
   else rv = - EINVAL /\ d' = d).
Proof.
  intros Hd Hc. unfold xdma_desc_control_set.
  assert (Hmask : forall v, 0 <= v < 2 ^ 32 ->
    andn32 v LS_BYTE_MASK = Z.shiftl (Z.shiftr v 8) 8).
  { intros v Hv. unfold andn32. apply Z.bits_inj'. intros i Hi.
    rewrite Z.land_spec, Z.lxor_spec. change (u32 LS_BYTE_MASK) with (Z.ones 8).
    rewrite !Z.testbit_ones_nonneg, Z.shiftl_spec by lia.
    destruct (Z.ltb_spec i 8).
    - rewrite Z.testbit_neg_r with (n := i - 8) by lia.
      destruct (Z.ltb_spec i 32); [|lia]. apply andb_false_r.
    - rewrite Z.shiftr_spec by lia. replace (i - 8 + 8) with i by lia.
      destruct (Z.ltb_spec i 32); [apply andb_true_r|].
      rewrite (testbit_small v 32) by lia. done. }
  rewrite !Hmask by done.
  assert (Hz : (Z.shiftl (Z.shiftr c 8) 8 =? 0) = bool_decide (c < 256)).
  { rewrite Z.shiftl_mul_pow2, Z.shiftr_div_pow2 by lia.
    destruct (Z.eqb_spec (c / 2 ^ 8 * 2 ^ 8) 0); symmetry.
    - apply bool_decide_eq_true_2. dlia.
    - apply bool_decide_eq_false_2. dlia. }
  rewrite Hz. case_decide as Hlt.
  - rewrite bool_decide_eq_true_2 by done. cbn [negb].
    unfold desc_ctl. cbn [d_control upd_field]. split; [done|].
    change 0xff with (Z.ones 8). rewrite Z.land_lor_distr_l.
    rewrite (land_shiftl_low _ (Z.ones 8) 8) by (try (vm_compute; split; congruence); lia).
    rewrite land_small by lia. split; [done|]. split; [|done].
    rewrite Z.shiftr_lor, Z.shiftr_shiftl_l, Z.shiftl_0_r by lia.
    rewrite (Z.shiftr_div_pow2 c), (Z.div_small c) by lia. apply Z.lor_0_r.
  - by rewrite bool_decide_eq_false_2.
Qed.

(** [xdma_desc_set] makes the hardware read from the host buffer and write
    to the endpoint address for a transfer to the device, the other way round
    from the device, with all 64 bits of both addresses, and leaves the link
    and the control word alone. *)
Lemma desc_set_addresses rc ep len dir d :
  0 <= rc < 2 ^ 64 -> 0 <= ep < 2 ^ 64 -> 0 <= len < 2 ^ 32 ->
  let d' := xdma_desc_set rc ep len dir d in
  desc_src d' = (if is_to_device dir then rc else ep) /\
  desc_dst d' = (if is_to_device dir then ep else rc) /\
  d_bytes d' = len /\ desc_next d' = desc_next d /\ d_control d' = d_control d.
Proof.
  intros Hrc Hep Hl d'. subst d'. unfold xdma_desc_set, desc_src, desc_dst.
  destruct dir; cbn [is_to_device]; cbn; rewrite !dma_split, u32_small by done;
    done.
Qed.

