(* ===== verification/RequestProps.v ===== *)
(** What a request built from a scatter-gather list covers. *)
From S2P Require Import Prelude Hw Desc Types Request Examples.

Section request.
Context `{Platform} `{ModParams} {S : Type} `{Traced S}.

(** The bytes that [xdma_init_request] asks for: the request and the number of
    software descriptors that the first pass over the table has counted, in 32
    bits. *)
Definition request_size (sgt : sg_table) : Z :=
  u32 (sizeof_xdma_request_cb + u32 (request_max sgt) * sizeof_sw_desc).

Lemma init_request_alloc sgt ep tfer (s : S) req s' :
  (forall t size, kernel_answer t "kzalloc" [size] <> 0) ->
  xdma_init_request sgt ep tfer s = (Some (Some req), s') ->
  (rq_ptr req, s') = kcall "kzalloc" [request_size sgt] s.
Proof.
  intros Hk. unfold xdma_init_request, xdma_request_alloc. cbv zeta. unfold bind.
  fold (request_size sgt).
  destruct (kcall "kzalloc" [request_size sgt] s) as [p s1] eqn:E.
  assert (Hp : p <> 0) by (injection E as <- _; apply Hk).
  rewrite (proj2 (Z.eqb_neq p 0)) by done. unfold ret.
  rewrite (proj2 (Z.eqb_neq p 0)) by done.
  destruct (request_sdescs _) as [sdesc|]; [|done].
  destruct (_ <? _); [|by intros [= <- <-]].
  by destruct (xdma_request_free p s1).
Qed.

(** C29: [xdma_init_request] builds a request whose software descriptors cover
    exactly the bytes of the mapped scatter-gather entries, in order; each is
    non-empty and at most [desc_blen_max] bytes long.  The one allocation asks
    for [request_size] bytes, in which the request and all its software
    descriptors have room.  Conditions: [kzalloc] succeeds; rounding up the
    length of no entry wraps around in 32 bits ([so_round] of [sgt_ok]; without
    it the room is too small, the finding at libxdma.c:3117); and
    the size of the allocation does not wrap around in 32 bits either
    (libxdma.c:3087). *)
Theorem init_request_covers sgt ep tfer (s : S) :
  1 <= desc_blen_max < 2 ^ 32 -> sgt_ok sgt ->
  (forall t size, kernel_answer t "kzalloc" [size] <> 0) ->
  0 <= sizeof_xdma_request_cb ->
  sizeof_xdma_request_cb + request_max sgt * sizeof_sw_desc < 2 ^ 32 ->
  exists req s', xdma_init_request sgt ep tfer s = (Some (Some req), s') /\
    concat (map sd_bytes (rq_sdesc req)) = concat (map sg_bytes (mapped sgt)) /\
    Forall (fun d => 0 < sd_len d <= desc_blen_max) (rq_sdesc req) /\
    rq_sw_desc_cnt req = zlength (rq_sdesc req) /\
    (rq_ptr req, s') = kcall "kzalloc" [request_size sgt] s /\
    sizeof_xdma_request_cb + zlength (rq_sdesc req) * sizeof_sw_desc
      <= request_size sgt /\
    rq_sw_desc_idx req = 0 /\ rq_ep_addr req = ep /\ rq_tfer req = tfer.
Proof.
  intros Hb Hsgt Hk Hs0 Hsize.
  destruct (init_request_run sgt ep tfer s Hb Hsgt Hk)
    as (req & s' & E & Hcov & Hall & Hcnt & Hmax & _ & Hrest).
  exists req, s'. split; [exact E|]. split; [done|].
  split; [eapply Forall_impl; [exact Hall|]; cbn; lia|]. split; [done|].
  split; [by eapply init_request_alloc|]. split; [|done].
  pose proof (zlength_nonneg (rq_sdesc req)). unfold request_size, sizeof_sw_desc in *.
  rewrite (u32_small (request_max sgt)), u32_small by lia. lia.
Qed.
End request.

(** Two mapped entries of 0x18000000 and 0x100 bytes. *)
Definition ex_sgt : sg_table := {|
  sgl := [Build_scatterlist 0x40000000 0x18000000;
          Build_scatterlist 0x90000000 0x100];
  nents := 2;
  orig_nents := 2;
|}.

Lemma init_request_covers_witness :
  exists req s', @xdma_init_request idle_platform irq_params est _ ex_sgt 0
    [1; 2]%nat ex_idle_state = (Some (Some req), s') /\
    256 + zlength (rq_sdesc req) * 16 <= @request_size idle_platform irq_params ex_sgt.
Proof.
  destruct (@init_request_covers idle_platform irq_params est _ ex_sgt 0
    [1; 2]%nat ex_idle_state) as (req & s' & E & _ & _ & _ & _ & Hle & _).
  - split; [|reflexivity]. vm_compute. congruence.
  - split; [repeat constructor; vm_compute; congruence
      |repeat constructor; vm_compute; congruence|reflexivity|reflexivity].
  - intros t size. vm_compute. congruence.
  - vm_compute. congruence.
  - vm_compute. reflexivity.
  - exact (ex_intro _ req (ex_intro _ s' (conj E Hle))).
Defined.

(** Rounding up the length of an entry of nearly 4 GiB wraps in 32 bits, so
    the first pass reserves one software descriptor where the second writes
    17: the check against the allocated number comes after the writes. *)
Lemma init_request_wraps :
  let sgt := {| sgl := [Build_scatterlist 0 0xffffffff]; nents := 1;
                orig_nents := 1 |} in
  @request_max irq_params sgt = 1 /\
  (zlength <$> @request_sdescs irq_params (mapped sgt)) = Some 17.
Proof. split; vm_compute; reflexivity. Qed.
