(* ===== verification/StatusProps.v ===== *)
(** The size of the status message of an engine. *)
From S2P Require Import Prelude Hw Desc Types StatusDump Examples.

(** * Upper bounds of lengths *)

Definition len_le (s : string) (n : nat) : Prop := (String.length s <= n)%nat.

Lemma len_le_refl s : len_le s (String.length s).
Proof. unfold len_le. lia. Qed.

Lemma len_le_append a b n m :
  len_le a n -> len_le b m -> len_le (a +:+ b) (n + m).
Proof.
  unfold len_le. pose proof (length_put b a) as E. unfold put in E. lia.
Qed.

Lemma len_le_put b s n : len_le b n -> len_le (put b s) (n + String.length s).
Proof. intros Hb. unfold put. apply len_le_append; [done|apply len_le_refl]. Qed.

Lemma len_le_put_if c b s n :
  len_le b n -> len_le (put_if c s b) (n + String.length s).
Proof.
  intros Hb. unfold put_if. destruct c; [by apply len_le_put|].
  unfold len_le in *. lia.
Qed.

Lemma len_le_set_last c b n : len_le b n -> len_le (set_last c b) n.
Proof. unfold len_le. by rewrite length_set_last. Qed.

Lemma len_le_if (c : bool) b b' n m :
  len_le b n -> len_le b' m -> len_le (if c then b else b') (n `max` m).
Proof. unfold len_le. destruct c; lia. Qed.

Lemma len_le_hex8 v : len_le (hex8 v) 8.
Proof. unfold len_le. by rewrite length_hex8. Qed.

(** A bound by the structure of the text. *)
Ltac len_bound :=
  repeat first
    [ assumption | apply len_le_hex8 | apply len_le_append
    | apply len_le_set_last | apply len_le_put_if | apply len_le_put
    | apply len_le_if | apply len_le_refl ].

(** C36: The status message of a C2H engine fits its buffer of 256 bytes,
    whatever the status register holds ([engine->name] has room for 15
    characters). *)
Theorem status_dump_c2h_fits e :
  e_dir e = DMA_FROM_DEVICE -> (String.length (e_name e) <= 15)%nat ->
  status_bytes e <= status_buffer_size.
Proof.
  intros Hd Hn. change (len_le (e_name e) 15) in Hn.
  unfold status_bytes, status_buffer_size, engine_status_buffer. rewrite Hd.
  cbv zeta.
  assert (Hlen : forall b n, len_le b n -> (n <= 255)%nat ->
    Z.of_nat (String.length b) + 1 <= 256) by (unfold len_le; lia).
  eapply Hlen; [len_bound|]. unfold len_le in Hn. cbn. lia.
Qed.

Lemma status_dump_c2h_fits_witness :
  status_bytes (zero_engine <| e_name := "0-C2H0-MM" |>
                  <| e_dir := DMA_FROM_DEVICE |> <| e_status := 0xffffffff |>)
  <= status_buffer_size.
Proof. apply status_dump_c2h_fits; [reflexivity|cbn; lia]. Defined.

(** The bits of the status register that the message of an H2C engine names. *)
Definition h2c_status_bits : Z :=
  Eval vm_compute in
  foldr Z.lor 0 [XDMA_STAT_BUSY; XDMA_STAT_DESC_STOPPED; XDMA_STAT_DESC_COMPLETED;
    XDMA_STAT_COMMON_ERR_MASK; XDMA_STAT_IDLE_STOPPED; XDMA_STAT_H2C_R_ERR_MASK; XDMA_STAT_H2C_W_ERR_MASK;
    XDMA_STAT_DESC_ERR_MASK].

Lemma has_bits_within v full m :
  Z.land v full = full -> Z.land m full = m -> m <> 0 -> has_bits v m = true.
Proof.
  intros Hv Hm Hne. unfold has_bits.
  assert (E : Z.land v m = m).
  { rewrite <- Hm at 1. rewrite (Z.land_comm m), Z.land_assoc, Hv.
    by rewrite Z.land_comm. }
  rewrite E. by destruct (Z.eqb_spec m 0).
Qed.

(** C40: The status message of an H2C engine does not fit its buffer of 256 bytes.
    When the status has all the bits the message names, as a register that reads
    as all ones has after the device has gone away, the composition writes
    253 bytes and the name of the engine: for every name of four characters
    or more it writes past the end of the buffer on the stack ([0-H2C0-MM] and
    every other name the driver makes has at least nine). *)
Theorem status_dump_h2c_overflows e :
  e_dir e = DMA_TO_DEVICE ->
  Z.land (e_status e) h2c_status_bits = h2c_status_bits ->
  status_bytes e = 253 + Z.of_nat (String.length (e_name e)) /\
  ((4 <= String.length (e_name e))%nat -> status_buffer_size < status_bytes e).
Proof.
  intros Hd Hv.
  assert (E : status_bytes e = 253 + Z.of_nat (String.length (e_name e))).
  { unfold status_bytes, engine_status_buffer. rewrite Hd. cbv zeta.
    repeat match goal with |- context [has_bits (e_status e) ?m] =>
      rewrite (has_bits_within (e_status e) h2c_status_bits m Hv) by (by vm_compute)
    end.
    autorewrite with strlen. cbn [String.length]. lia. }
  split; [exact E|]. rewrite E. unfold status_buffer_size. lia.
Qed.

Definition ex_gone_engine : xdma_engine :=
  zero_engine <| e_name := "0-H2C0-MM" |> <| e_dir := DMA_TO_DEVICE |>
    <| e_status := 0xffffffff |>.

Lemma status_dump_h2c_overflows_witness :
  status_bytes ex_gone_engine = 262 /\ status_buffer_size < status_bytes ex_gone_engine.
Proof.
  destruct (status_dump_h2c_overflows ex_gone_engine eq_refl eq_refl) as [E W].
  split; [exact E|]. apply W. cbn. lia.
Defined.
