(* ===== verification/EngineProps.v ===== *)
(** What the engine's code guarantees: to the hardware, to the waiters of the
    queued transfers, and to the code that starts it. *)
From S2P Require Import Prelude Hw Desc Types Engine EngineFacts EngineSys.
From S2P Require Import ServiceFacts Examples.

(** * The registers as the device sees them *)

(** The value last written to register [a]; the trace has the newest event
    first. *)
Fixpoint last_write (a : Z) (t : list event) : option Z :=
  match t with
  | [] => None
  | MmioWrite a' v :: t' => if a' =? a then Some v else last_write a t'
  | _ :: t' => last_write a t'
  end.

Definition is_write (e : event) : bool :=
  match e with MmioWrite _ _ => true | _ => false end.

(** The engine's two register blocks lie in the address space, one after the
    other. *)
Definition regs_apart (e : xdma_engine) : Prop :=
  0 <= e_regs e /\ e_regs e + 0x100 <= e_sgdma_regs e /\
  e_sgdma_regs e + 0x100 <= 2 ^ 64.

Lemma last_write_eq a v t : last_write a (MmioWrite a v :: t) = Some v.
Proof. cbn. by rewrite Z.eqb_refl. Qed.

Lemma last_write_ne a a' v t :
  a' <> a -> last_write a (MmioWrite a' v :: t) = last_write a t.
Proof. intros Hne. cbn. by rewrite (proj2 (Z.eqb_neq a' a)). Qed.

Lemma extends_step ev t t' : extends t t' -> extends t (ev :: t').
Proof. intros [tr ->]. by exists (ev :: tr). Qed.

(** Two registers of [regs_apart] blocks are different. *)
Ltac addr :=
  rewrite ?u64_small;
  unfold R_control, R_credits, R_first_desc_lo, R_first_desc_hi,
    R_first_desc_adjacent, R_interrupt_enable_mask; lia.

Ltac simpl_code :=
  cbn -[has_bits u32 u64 start_control perf_interrupts is_st_c2h
    xdma_get_next_adj PCI_DMA_L PCI_DMA_H R_control R_credits R_first_desc_lo
    R_first_desc_hi R_first_desc_adjacent R_interrupt_enable_mask R_status].

Section start.
Context `{Platform} `{ModParams}.

Lemma start_control_run na : has_bits (u32 (start_control na)) XDMA_CTRL_RUN_STOP = true.
Proof. unfold start_control. by destruct poll_mode, na. Qed.

Lemma start_control_u32 na : u32 (start_control na) = start_control na.
Proof. unfold start_control. by destruct poll_mode, na. Qed.

(** C24: [engine_start] first gives the device the bus address and the number
    of adjacent descriptors of the first queued transfer and only then sets
    the run bit; nothing is written after that.  It returns the transfer and
    marks the engine running with no descriptors dequeued. *)
Theorem engine_start_protocol s id q x :
  e_running (st_eng s) = false -> queue s = id :: q ->
  st_xfers s !! id = Some x -> 0 <= x_desc_bus x < 2 ^ 64 ->
  regs_apart (st_eng s) ->
  let e := st_eng s in
  let (r, s') := engine_start s in
  r = Some id /\ e_running (st_eng s') = true /\ queue s' = queue s /\
  e_desc_dequeued (st_eng s') = 0 /\
  e_shutdown (st_eng s') = ENGINE_SHUTDOWN_NONE /\
  exists after before c,
    st_trace s' = after ++ MmioWrite (u64 (e_regs e + R_control)) c :: before /\
    has_bits c XDMA_CTRL_RUN_STOP = true /\
    Forall (fun ev => is_write ev = false) after /\
    extends (st_trace s) before /\
    last_write (u64 (e_sgdma_regs e + R_first_desc_lo)) before
      = Some (PCI_DMA_L (x_desc_bus x)) /\
    last_write (u64 (e_sgdma_regs e + R_first_desc_hi)) before
      = Some (PCI_DMA_H (x_desc_bus x)) /\
    last_write (u64 (e_sgdma_regs e + R_first_desc_adjacent)) before
      = Some (u32 (xdma_get_next_adj (u32 (x_desc_adjacent x))
                     (PCI_DMA_L (x_desc_bus x)))).
Proof.
  intros Hr Hq Hx Hb Hap e. unfold queue in Hq.
  destruct (dma_halves_range _ Hb) as [HH HL].
  destruct s as [e0 d xs t]. cbn in Hr, Hq, Hx, e, Hap. subst e.
  unfold engine_start, engine_start_mode_config, engine_status_read, set_engine,
    sgdma_write, reg_write, reg_read, xfer, read_register, write_register, emit,
    engine, modify, gets, bind, ret, when.
  cbn [st_eng st_dev st_xfers st_trace fst snd].
  rewrite Hr, Hq. cbn [list_first head].
  destruct Hap as (H1 & H2 & H3).
  pose proof (u32_range (xdma_get_next_adj (u32 (x_desc_adjacent x))
                           (PCI_DMA_L (x_desc_bus x)))) as HA.
  destruct (enable_st_c2h_credit && is_st_c2h e0); simpl_code;
    rewrite Hx; simpl_code; destruct (e_xdma_perf e0); simpl_code;
    (do 5 (split; [done|]);
     eexists [_; _], _, _; split; [reflexivity|];
     split; [apply start_control_run|];
     split; [by repeat constructor|];
     split; [repeat apply extends_step; reflexivity|];
     rewrite ?(u32_small (PCI_DMA_L _)), ?(u32_small (PCI_DMA_H _)) by lia;
     repeat split; repeat (rewrite last_write_ne by addr); apply last_write_eq).
Qed.
End start.

Lemma engine_start_protocol_witness :
  fst (@engine_start idle_platform irq_params (ex_state false)) = Some 1%nat.
Proof.
  pose proof (@engine_start_protocol idle_platform irq_params (ex_state false)
    1%nat [2%nat] ((ex_xfer 0x2000 2) <| x_state := TRANSFER_STATE_SUBMITTED |>)
    eq_refl eq_refl eq_refl ltac:(vm_compute; split; congruence)
    ltac:(vm_compute; repeat split; congruence)) as W.
  destruct (@engine_start idle_platform irq_params (ex_state false)).
  exact (proj1 W).
Defined.

(** * Life of the queued transfers *)

Section system.
Context `{Platform} `{ModParams}.

(** C1: The engine's lock protects an invariant.  Take an engine that is stopped,
    with an empty queue and no flush at end of packet, and from there any sequence
    of critical sections and environment actions: transfers queued, the interrupt
    work, the polling thread, time-outs of any transfer wherever it is in the
    queue, the offline and online code, changes of other memory and of the device,
    with any answers of the device.  Then the queue holds distinct non-cyclic
    transfers, each submitted or given up by its submitter, and an engine marked
    running has a transfer to run.  What is assumed of the submitters is
    [careful]: a transfer they queue is not cyclic and not in the queue already,
    and the memory of a queued transfer is not reused.  The code itself breaks the
    last one when a time-out cannot take the transfer out of the queue (the
    finding at libxdma.c:2433): the invariant is not claimed after such a reuse.
    *)
Theorem engine_invariant s0 s :
  queue s0 = [] -> e_running (st_eng s0) = false ->
  e_eop_flush (st_eng s0) = false ->
  rtc (fun s1 s2 => exists a, careful a s1 /\ s2 = act a s1) s0 s -> sys_inv s.
Proof.
  intros Hq Hr He Hrun.
  assert (Hs0 : sys_inv s0).
  { split; [split|..]; rewrite ?Hq; try done; [constructor|].
    rewrite Hr. done. }
  revert Hs0. clear Hq Hr He. induction Hrun as [|s1 s2 s3 Hstep _ IH]; [done|].
  intros Hinv. apply IH. by eapply estep_inv.
Qed.

(** C2: No queued transfer is lost.  A critical section leaves it in the queue,
    or wakes its waiter with the transfer completed or failed; only the time-out
    of this very transfer may also take it out as aborted.  The time-out is that
    of any transfer, at any place in the queue.  The memory of queued transfers is
    not reused meanwhile ([careful], with the same reservation as C1). *)
Theorem no_transfer_lost a s id :
  careful a s -> sys_inv s -> id ∈ queue s ->
  id ∈ queue (act a s) \/
  (exists st, state_of (st_xfers (act a s)) id = Some st /\ settled st /\
     emitted (WakeTransfer id) (st_trace s) (st_trace (act a s))) \/
  (a = TimeOut id /\
   state_of (st_xfers (act a s)) id = Some TRANSFER_STATE_ABORTED).
Proof.
  intros Hc Hinv Hid. destruct (act_inv a s Hc Hinv) as [_ Hacc].
  unfold accounted_by, accounted in Hacc. specialize (Hacc id Hid). tauto.
Qed.

(** The time-out that cannot read the engine's registers leaves the transfer
    where it is: queued and submitted, although its submitter goes on to free it. *)
Lemma timeout_leaves_queued id s :
  fst (engine_status_read false true s) < 0 ->
  queue (snd (xfer_timeout id s)) = queue s /\
  st_xfers (snd (xfer_timeout id s)) = st_xfers s.
Proof.
  intros Hf. unfold xfer_timeout. exec.
  pose proof (engine_status_read_quiet false true s) as (Hq & Hx & _).
  destruct (engine_status_read false true s) as [rv s1]. cbn [fst snd] in *.
  rewrite (proj2 (Z.ltb_lt rv 0)) by done.
  by destruct (rv =? 0) eqn:E; [lia|].
Qed.

(** What the device answers: status [st], and as many completed descriptors as
    the first [k + 1] queued transfers have. *)
Record completes (k : nat) (st : Z) (s : est) : Prop := {
  cm_queued : (k < length (queue s))%nat;
  cm_sum : desc_sum (st_xfers s) (take (S k) (queue s)) < 2 ^ 32;
  cm_range : 0 <= st < 2 ^ 32;
  cm_status : forall t, mmio_answer t (u64 (e_regs (st_eng s) + R_status_rc)) = st;
  cm_count : forall t,
    mmio_answer t (u64 (e_regs (st_eng s) + R_completed_desc_count)) =
    u32 (e_desc_dequeued (st_eng s) + desc_sum (st_xfers s) (take (S k) (queue s)));
  cm_nonzero :
    u32 (e_desc_dequeued (st_eng s) + desc_sum (st_xfers s) (take (S k) (queue s))) <> 0;
  cm_no_error : status_error ((st_eng s) <| e_status := st |>) = false;
}.

Lemma service_completes_run k st s :
  sys_inv s -> e_running (st_eng s) = true -> completes k st s ->
  let (rv, s') := engine_service 0 s in
  rv = 0 /\ retires_to completed (take (S k) (queue s)) s s' /\
  queue s' = drop (S k) (queue s) /\
  e_running (st_eng s') = negb (list_empty (queue s')).
Proof.
  intros [Hok _ _ Hf] Hr [Hk Hsum Hst0 Hst Hc Hnz Herr].
  set (n := u32 _) in *. pose proof (u32_range (e_desc_dequeued (st_eng s) +
    desc_sum (st_xfers s) (take (S k) (queue s)))) as Hn. fold n in Hn.
  destruct (engine_service_irq_run s st n Hr Hst Hc) as
    (s1 & R1 & E1 & E2 & E3 & ->); [lia|lia|].
  rewrite (proj2 (Z.eqb_neq n 0)) by done.
  assert (Hx1 : st_xfers s1 = st_xfers s)
    by exact (map_eq _ _ (fun i => rt_others _ _ _ _ R1 i (not_elem_of_nil i))).
  pose proof (rt_queue _ _ _ _ R1) as Hq1. cbn in Hq1.
  destruct (service_transfers_exact n k s1) as [R2 Er].
  - by eapply retires_queue_ok.
  - by rewrite (rt_eop _ _ _ _ R1).
  - unfold status_error in *. by rewrite E1, E2.
  - by rewrite <- Hq1.
  - by rewrite Hx1, <- Hq1.
  - by rewrite E3, Hx1, <- Hq1.
  - split; [done|]. rewrite <- Hq1 in R2.
    pose proof (retires_trans _ _ _ _ _ _ (proj1 Hok) R1 R2) as R.
    split; [exact R|]. split; [|exact Er].
    pose proof (rt_queue _ _ _ _ R) as E. cbn [app] in E.
    rewrite <- (take_drop (S k) (queue s)) in E at 1.
    symmetry. by eapply app_inv_head.
Qed.

(** C3: When the completed-descriptor count of the device covers exactly the
    first [k + 1] queued transfers and the status has no error, the interrupt
    service completes these transfers and wakes their waiters, leaves the
    others queued and untouched, and restarts the engine if there are any. *)
Theorem engine_service_completes k st s :
  sys_inv s -> e_running (st_eng s) = true -> completes k st s ->
  let (rv, s') := engine_service 0 s in
  rv = 0 /\ retires_to completed (take (S k) (queue s)) s s' /\
  queue s' = drop (S k) (queue s) /\
  e_running (st_eng s') = negb (list_empty (queue s')).
Proof. apply service_completes_run. Qed.

(** C25: When the status has an error, the interrupt service of a running engine
    takes the transfers in the order of the queue and completes each one that
    is followed by at least one more completed descriptor (the comparison of the
    code is strict); the next one in the queue it fails, even when the count
    covers exactly all the descriptors of that one.  It wakes all their
    waiters and restarts the engine for what is left in the queue.  The device is
    assumed to report one status and one non-zero count during the service, and
    the queue not to be exhausted by the completed transfers. *)
Theorem engine_service_fails st n s :
  sys_inv s -> e_running (st_eng s) = true ->
  0 < n < 2 ^ 32 -> 0 <= st < 2 ^ 32 ->
  (forall t, mmio_answer t (u64 (e_regs (st_eng s) + R_status_rc)) = st) ->
  (forall t, mmio_answer t (u64 (e_regs (st_eng s) + R_completed_desc_count)) = n) ->
  status_error ((st_eng s) <| e_status := st |>) = true ->
  let k := fst (retire (desc_num_of (st_xfers s)) (queue s)
                  (u32 (n - e_desc_dequeued (st_eng s)))) in
  (k < length (queue s))%nat ->
  let (rv, s') := engine_service 0 s in
  rv = 0 /\ (exists s1, retires_to completed (take k (queue s)) s s1 /\
                        retires_to failed [nth k (queue s) 0%nat] s1 s') /\
  e_running (st_eng s') = negb (list_empty (queue s')).
Proof.
  intros [Hok _ _ Hf] Hr Hn Hst0 Hst Hc Herr k Hk.
  destruct (engine_service_irq_run s st n Hr Hst Hc) as
    (s1 & R1 & E1 & E2 & E3 & ->); [lia|lia|].
  destruct (Z.eqb_spec n 0); [lia|].
  assert (Hx1 : st_xfers s1 = st_xfers s)
    by exact (map_eq _ _ (fun i => rt_others _ _ _ _ R1 i (not_elem_of_nil i))).
  pose proof (rt_queue _ _ _ _ R1) as Hq1. cbn in Hq1.
  destruct (service_transfers_failed n s1) as (s2 & R2 & R3 & Er).
  - by eapply retires_queue_ok.
  - by rewrite (rt_eop _ _ _ _ R1).
  - unfold status_error in *. by rewrite E1, E2.
  - by rewrite E3, Hx1, <- Hq1.
  - rewrite E3, Hx1, <- Hq1 in R2, R3. fold k in R2, R3.
    split; [done|]. split; [|done]. exists s2. split; [|done].
    exact (retires_trans _ _ _ _ _ _ (proj1 Hok) R1 R2).
Qed.

(** C26: [transfer_queue] either refuses, because the transfer is empty, the
    device offline or the engine shutting down, and then leaves the queue and
    the transfers alone, or appends the transfer in the submitted state and
    leaves the engine running. *)
Theorem transfer_queue_spec id x s :
  st_xfers s !! id = Some x ->
  let (rv, s') := transfer_queue id s in
  if decide (x_desc_num x = 0) then rv = - EINVAL /\ s' = s
  else if decide (xdma_device_flag_check XDEV_FLAG_OFFLINE (st_dev s) = true \/
                  has_bits (e_shutdown (st_eng s)) ENGINE_SHUTDOWN_REQUEST = true)
  then rv = - EBUSY /\ queue s' = queue s /\ st_xfers s' = st_xfers s /\
       e_running (st_eng s') = e_running (st_eng s)
  else rv = 0 /\ queue s' = queue s ++ [id] /\
       st_xfers s' = <[id := x <| x_state := TRANSFER_STATE_SUBMITTED |>]>
                       (st_xfers s) /\
       e_running (st_eng s') = true.
Proof.
  intros Hx. unfold transfer_queue. exec. rewrite Hx.
  change (default zero_transfer (Some x)) with x.
  destruct (decide (x_desc_num x = 0)) as [E|E].
  { by rewrite E. }
  rewrite (proj2 (Z.eqb_neq _ _) E). exec.
  match goal with |- context [decide (?A \/ ?B)] =>
    destruct (decide (A \/ B)) as [Hbusy|Hfree] end.
  - destruct (xdma_device_flag_check _ _); [done|].
    unfold kcall, emit. exec. cbn [st_eng upd_field].
    destruct Hbusy as [?|Hsd]; [done|].
    match goal with |- context [has_bits ?v ENGINE_SHUTDOWN_REQUEST] =>
      change v with (e_shutdown (st_eng s)) end. by rewrite Hsd.
  - destruct (xdma_device_flag_check _ _); [by destruct Hfree; left|].
    apply Decidable.not_or in Hfree as [_ Hsd].
    apply not_true_is_false in Hsd.
    unfold kcall, emit. exec.
    set (s1 := upd_field st_eng _ _).
    assert (E1 : e_shutdown (st_eng s1) = e_shutdown (st_eng s)) by done.
    assert (E2 : queue s1 = queue s) by done.
    assert (E3 : st_xfers s1 = st_xfers s) by done.
    clearbody s1. rewrite E1, Hsd. exec.
    set (s2 := upd_field st_eng _ (upd_field st_xfers _ s1)).
    assert (F2 : queue s2 = queue s ++ [id])
      by (unfold queue in *; cbn; by rewrite E2).
    assert (F3 : st_xfers s2 =
      <[id := x <| x_state := TRANSFER_STATE_SUBMITTED |>]> (st_xfers s))
      by (cbn; by rewrite E3, (alter_insert_id _ _ x)).
    clearbody s2. destruct (e_running (st_eng s2)) eqn:Er; cbn [negb]; [done|].
    exec. destruct (queue s2) as [|h q] eqn:Eq; [by destruct (queue s)|].
    destruct (engine_start_run s2 h q Er Eq) as (st & tr & ->). cbn [snd].
    unfold queue in *. cbn. by rewrite F3, Eq.
Qed.

End system.

(** * Witnesses *)

Lemma ex_state_inv running : sys_inv (ex_state running).
Proof.
  split; [split|..]; unfold queue; cbn.
  - by repeat constructor; set_solver.
  - repeat constructor; (eexists; split; [reflexivity|cbn; lia]).
  - repeat constructor; (eexists; split; [reflexivity|by left]).
  - done.
  - done.
Qed.

Lemma engine_invariant_witness :
  sys_inv (snd (@transfer_queue idle_platform irq_params 1 ex_idle_state)).
Proof.
  apply (@engine_invariant idle_platform irq_params ex_idle_state);
    [reflexivity|reflexivity|reflexivity|].
  eapply rtc_l; [|apply rtc_refl]. exists (Submit 1). split; [|reflexivity]. split.
  - apply not_elem_of_nil.
  - exists (ex_xfer 0x2000 2). split; [reflexivity|cbn; lia].
Defined.

(** A device whose registers hold the engine's identifier. *)
Definition id_platform : Platform := platform_reading BLOCK_ID_HEAD.

(** The second of two queued transfers times out: it is marked, not removed. *)
Definition ex_timed_out : est :=
  @act id_platform irq_params (TimeOut 2) (ex_state true).

Lemma no_transfer_lost_witness :
  (queue ex_timed_out = [1; 2]%nat /\
   state_of (st_xfers ex_timed_out) 2 = Some TRANSFER_STATE_ABORTED) /\
  (2%nat ∈ queue ex_timed_out \/
   (exists st, state_of (st_xfers ex_timed_out) 2 = Some st /\ settled st /\
      emitted (WakeTransfer 2) (st_trace (ex_state true)) (st_trace ex_timed_out)) \/
   (TimeOut 2 = TimeOut 2 /\
    state_of (st_xfers ex_timed_out) 2 = Some TRANSFER_STATE_ABORTED)).
Proof.
  split; [split; vm_compute; reflexivity|].
  refine (@no_transfer_lost id_platform irq_params (TimeOut 2) (ex_state true) 2
    I (ex_state_inv true) _).
  unfold queue. cbn. set_solver.
Defined.

(** The first transfer of [ex_state], of two descriptors, has completed. *)
Definition ex_count_platform (status : Z) : Platform :=
  platform_regs (fun a =>
    if a =? 0x100000 + R_completed_desc_count then 2
    else if a =? 0x100000 + R_status_rc then status else 0).

Lemma engine_service_completes_witness :
  queue (snd (@engine_service (ex_count_platform 0) irq_params 0
                (ex_state true))) = [2%nat].
Proof.
  assert (Hc : @completes (ex_count_platform 0) 0 0 (ex_state true)).
  { split; [cbn; lia|reflexivity|lia|reflexivity|reflexivity| |reflexivity].
    vm_compute. congruence. }
  pose proof (@engine_service_completes (ex_count_platform 0) irq_params
    0 0 (ex_state true) (ex_state_inv true) eq_refl Hc) as W.
  destruct (@engine_service (ex_count_platform 0) irq_params 0 (ex_state true)).
  exact (proj1 (proj2 (proj2 W))).
Defined.

Lemma engine_service_fails_witness :
  exists s1, retires_to failed [1%nat] s1
    (snd (@engine_service (ex_count_platform XDMA_STAT_MAGIC_STOPPED) irq_params
            0 (ex_state true))).
Proof.
  pose proof (@engine_service_fails (ex_count_platform XDMA_STAT_MAGIC_STOPPED)
    irq_params XDMA_STAT_MAGIC_STOPPED 2 (ex_state true) (ex_state_inv true)
    eq_refl ltac:(lia) ltac:(vm_compute; split; congruence)
    ltac:(reflexivity) ltac:(reflexivity) eq_refl ltac:(vm_compute; lia)) as W.
  assert (Ek : fst (retire (desc_num_of (st_xfers (ex_state true)))
    (queue (ex_state true)) (u32 (2 - e_desc_dequeued (st_eng (ex_state true)))))
    = 0%nat) by reflexivity.
  rewrite Ek in W. clear Ek.
  destruct (@engine_service (ex_count_platform XDMA_STAT_MAGIC_STOPPED)
    irq_params 0 (ex_state true)).
  destruct W as (_ & (s1 & _ & R) & _). exists s1. exact R.
Defined.

Lemma transfer_queue_spec_witness :
  queue (snd (@transfer_queue idle_platform irq_params 1 ex_idle_state)) = [1%nat].
Proof.
  pose proof (@transfer_queue_spec idle_platform irq_params 1%nat
    (ex_xfer 0x2000 2) ex_idle_state eq_refl) as W.
  destruct (@transfer_queue idle_platform irq_params 1 ex_idle_state) as [rv s'].
  rewrite !decide_False in W by (vm_compute; intuition congruence).
  exact (proj1 (proj2 W)).
Defined.
