(* ===== verification/EngineLive.v ===== *)
(** The queue of an engine drains as long as its device makes progress. *)
From S2P Require Import Prelude Hw Desc Types Engine EngineFacts EngineSys.
From S2P Require Import ServiceFacts EngineProps Examples.

Section drains.
Context `{ModParams}.

(** The device in each state of the engine. *)
Context (device : est -> Platform).

(** An interrupt, if there is something to do, is serviced. *)
Definition round (s : est) : est :=
  if list_empty (queue s) then s else snd (@engine_service (device s) _ 0 s).

(** The device has completed the first queued transfers, one of them at least. *)
Definition progresses (s : est) : Prop :=
  exists k st, @completes (device s) k st s.

Lemma round_empty s : queue s = [] -> round s = s.
Proof. intros E. unfold round. by rewrite E. Qed.

Lemma rounds_empty n s : queue s = [] -> Nat.iter n round s = s.
Proof.
  intros E. induction n as [|n IH]; [done|].
  change (round (Nat.iter n round s) = s). by rewrite IH, round_empty.
Qed.

Lemma rounds_succ n s : Nat.iter (S n) round s = Nat.iter n round (round s).
Proof. apply Nat.iter_succ_r. Qed.

(** A round retires a transfer. *)
Lemma round_run s :
  sys_inv s -> e_running (st_eng s) = true -> queue s <> [] -> progresses s ->
  exists k, retires_to completed (take (S k) (queue s)) s (round s) /\
    queue (round s) = drop (S k) (queue s) /\ sys_inv (round s) /\
    e_running (st_eng (round s)) = negb (list_empty (queue (round s))).
Proof.
  intros Hinv Hr Hq (k & st & Hc). exists k.
  pose proof (@service_completes_run (device s) _ k st s Hinv Hr Hc) as Hs.
  pose proof (proj1 (@service_inv (device s) _ 0 s Hinv)) as Hinv1.
  unfold round. destruct (queue s) as [|h q]; [done|]. cbn [list_empty].
  destruct (@engine_service (device s) _ 0 s) as [rv s1].
  destruct Hs as (_ & R & E & Er). by split.
Qed.

Lemma rounds_drain n s :
  sys_inv s -> e_running (st_eng s) = negb (list_empty (queue s)) ->
  (length (queue s) <= n)%nat ->
  (forall i, queue (Nat.iter i round s) <> [] -> progresses (Nat.iter i round s)) ->
  let s' := Nat.iter n round s in
  queue s' = [] /\ e_running (st_eng s') = false /\ retires_to completed (queue s) s s'.
Proof.
  revert s. induction n as [|n IH]; intros s Hinv Hr Hn Hp;
    destruct (queue s) as [|h q] eqn:Eq.
  1,3: rewrite rounds_empty by done; split; [done|]; split; [by rewrite Hr|];
    apply retires_nil; try done; by exists [].
  - cbn in Hn. lia.
  - destruct (round_run s Hinv Hr) as (k & R & Eq1 & Hinv1 & Hr1);
      [by rewrite Eq|apply (Hp O); cbn; by rewrite Eq|].
    destruct (IH (round s) Hinv1 Hr1) as (E1 & E2 & R2).
    + rewrite Eq1, Eq, length_drop. cbn in Hn |- *. lia.
    + intros i. rewrite <- rounds_succ. apply (Hp (S i)).
    + rewrite rounds_succ. split; [exact E1|]. split; [exact E2|].
      rewrite <- Eq, <- (take_drop (S k) (queue s)), <- Eq1.
      eapply retires_trans; [apply Hinv|exact R|exact R2].
Qed.

(** C4: The queue of a running engine drains.  If in every state with queued
    transfers the device goes on to complete at least one of them before it
    raises its interrupt, whatever number it takes each time, then after at most
    one service per queued transfer the queue is empty and the engine stopped,
    and every one of the transfers is completed and its waiter has been woken. *)
Theorem engine_drains s :
  sys_inv s -> e_running (st_eng s) = true ->
  (forall i, queue (Nat.iter i round s) <> [] -> progresses (Nat.iter i round s)) ->
  let s' := Nat.iter (length (queue s)) round s in
  queue s' = [] /\ e_running (st_eng s') = false /\
  forall id, id ∈ queue s ->
    state_of (st_xfers s') id = Some TRANSFER_STATE_COMPLETED /\
    emitted (WakeTransfer id) (st_trace s) (st_trace s').
Proof.
  intros Hinv Hr Hp s'. destruct (rounds_drain (length (queue s)) s Hinv) as (E1 & E2 & R).
  - pose proof (inv_running _ Hinv Hr). rewrite Hr. by destruct (queue s).
  - done.
  - done.
  - split; [exact E1|]. split; [exact E2|]. intros id Hid.
    destruct (rt_done _ _ _ _ R id Hid) as (st & Est & Hst & He). by destruct st.
Qed.
End drains.

(** * Witness *)

(** A device that completes one transfer at a time. *)
Definition one_at_a_time (s : est) : Platform :=
  platform_regs (fun a =>
    if a =? 0x100000 + R_completed_desc_count
    then u32 (e_desc_dequeued (st_eng s) +
              desc_sum (st_xfers s) (take 1 (queue s))) else 0).

Lemma engine_drains_witness :
  state_of (st_xfers (Nat.iter 2 (@round irq_params one_at_a_time) (ex_state true)))
    2%nat = Some TRANSFER_STATE_COMPLETED.
Proof.
  apply (@engine_drains irq_params one_at_a_time (ex_state true)).
  - apply ex_state_inv.
  - reflexivity.
  - intros [|[|i]] Hq.
    + exists O, 0. split; [vm_compute; lia|vm_compute; reflexivity|lia| | | |].
      * intros t. vm_compute. reflexivity.
      * intros t. vm_compute. reflexivity.
      * vm_compute. congruence.
      * vm_compute. reflexivity.
    + exists O, 0. split; [vm_compute; lia|vm_compute; reflexivity|lia| | | |].
      * intros t. vm_compute. reflexivity.
      * intros t. vm_compute. reflexivity.
      * vm_compute. congruence.
      * vm_compute. reflexivity.
    + rewrite !rounds_succ, rounds_empty in Hq by (vm_compute; reflexivity).
      vm_compute in Hq. destruct Hq. reflexivity.
  - unfold queue. cbn. set_solver.
Defined.
