(* ===== verification/TransferProps.v ===== *)
(** A transfer built by [transfer_init] makes the hardware move exactly the
    next bytes of the request. *)
From S2P Require Import Prelude Hw Desc Types Transfer TransferFacts Examples.

(** * Moves *)

(** What the hardware does for one descriptor, and what the driver wants done
    for one software descriptor: source, destination and length. *)
Definition desc_move (d : xdma_desc) : Z * Z * Z :=
  (desc_src d, desc_dst d, d_bytes d).

Definition sw_move (e : xdma_engine) (req : xdma_request_cb) (k : Z)
    : Z * Z * Z :=
  let sd := default (Build_sw_desc 0 0)
              (zlookup (rq_sdesc req) (rq_sw_desc_idx req + k)) in
  match e_dir e with
  | DMA_TO_DEVICE => (sd_addr sd, ep_at e req k, sd_len sd)
  | DMA_FROM_DEVICE =>
      (if e_streaming e
       then u64 (x_res_bus (init_xfer e) + sizeof_xdma_result * k)
       else ep_at e req k,
       sd_addr sd, sd_len sd)
  end.

(** * Single descriptors *)

Lemma ep_at_range e req k : req_ok req -> 0 <= ep_at e req k < 2 ^ 64.
Proof.
  intros [_ _ _ He _]. unfold ep_at. destruct (e_non_incr_addr e); [done|].
  apply u64_range.
Qed.

Lemma init_control_range e n k :
  0 <= init_control e n k < 2 ^ 32 /\ Z.land (init_control e n k) 0x3000 = 0.
Proof.
  unfold init_control. repeat case_decide; [|destruct (e_eop_flush e)..];
    vm_compute; repeat split; congruence.
Qed.

Section desc.
Context (e : xdma_engine) (req : xdma_request_cb) (Hr : req_ok req).
Context (n bus : Z) (Hn : 1 <= n < 2 ^ 31) (Hb : 0 < bus)
  (Hb1 : bus + 32 * n < 2 ^ 64).
Context (k : Z) (Hk : 0 <= k < n)
  (Hfit : n <= rq_sw_desc_cnt req - rq_sw_desc_idx req).

Lemma init_desc_unfold d :
  let d0 := build_desc e req (init_xfer e) k
              (desc_link (if decide (k = n - 1) then 0 else bus + 32 * (k + 1)) d) in
  let adj := xdma_get_next_adj (u32 (n - k - 1)) (d_next_lo d0) in
  0 <= adj < 64 /\
  init_desc e req (init_xfer e) n bus k d =
  d0 <| d_control := Z.lor (Z.land (init_control e n k) 0xf0ff)
                       (Z.lor 0xAD4B0000 (Z.shiftl adj 8)) |>.
Proof using Hn Hk.
  intros d0 adj. unfold init_desc. fold d0.
  destruct (next_adj_range (u32 (n - k - 1)) (d_next_lo d0)) as [Ha _];
    [apply u32_range|]. split; [exact Ha|].
  rewrite desc_adjacent_control; [done| |exact Ha].
  apply init_control_range.
Qed.

Lemma init_desc_link d :
  desc_magic (init_desc e req (init_xfer e) n bus k d) = 0xAD4B /\
  desc_next (init_desc e req (init_xfer e) n bus k d) =
    (if decide (k = n - 1) then 0 else bus + 32 * (k + 1)).
Proof using Hn Hk Hb Hb1.
  destruct (init_desc_unfold d) as [Ha ->].
  set (next := if decide (k = n - 1) then 0 else bus + 32 * (k + 1)).
  destruct (build_desc_keeps e req (init_xfer e) k (desc_link next d))
    as (_ & El & Eh).
  unfold desc_magic, desc_next. cbn [d_control d_next_lo d_next_hi upd_field].
  rewrite control_magic, El, Eh by done. split; [done|].
  apply dma_split. subst next. case_decide; lia.
Qed.

Lemma init_desc_control d :
  let d' := init_desc e req (init_xfer e) n bus k d in
  desc_ctl d' = Z.land (init_control e n k) 0xff /\
  desc_adj d' = xdma_get_next_adj (n - k - 1) (d_next_lo d').
Proof using Hn Hk.
  destruct (init_desc_unfold d) as [Ha ->].
  unfold desc_ctl, desc_adj. cbn [d_control d_next_lo upd_field].
  rewrite control_ctl, control_adj by (done || apply init_control_range).
  by rewrite u32_small by lia.
Qed.

Lemma init_desc_move d :
  desc_move (init_desc e req (init_xfer e) n bus k d) = sw_move e req k.
Proof using Hr Hn Hk Hfit.
  destruct (init_desc_unfold d) as [_ ->].
  unfold desc_move, sw_move, build_desc, desc_src, desc_dst.
  pose proof (ep_at_range e req k Hr) as Hep.
  destruct Hr as [Hi Hc Hm He Hs].
  destruct (proj2 (zlookup_is_Some (rq_sdesc req) (rq_sw_desc_idx req + k)))
    as [sd Hsd]; [lia|]. rewrite Hsd. cbn [default from_option].
  assert (Hsdr : 0 <= sd_addr sd < 2 ^ 64 /\ 0 < sd_len sd < 2 ^ 32).
  { rewrite Forall_forall in Hs. apply Hs. unfold zlookup in Hsd.
    destruct (_ <? 0); [done|]. by eapply list_elem_of_lookup_2. }
  change (x_dir (init_xfer e)) with (e_dir e). unfold streaming_c2h.
  pose proof (u64_range (x_res_bus (init_xfer e) + sizeof_xdma_result * k)) as Hres.
  set (rb := u64 (_ + _)) in *. clearbody rb. set (ep := ep_at e req k) in *.
  clearbody ep. destruct (e_dir e), (e_streaming e); cbn; rewrite !dma_split, u32_small
    by lia; done.
Qed.
End desc.

(** * Properties *)

Section transfer.
Context (e : xdma_engine) (req : xdma_request_cb) (mem : list xdma_desc).
Context (He : engine_mem_ok e mem) (Hr : req_ok req).

Lemma transfer_init_lookup e' req' x' mem' k :
  init_result e req mem e' req' x' mem' -> 0 <= k < transfer_count e req ->
  exists d, zlookup mem' (e_desc_idx e + k) =
    Some (init_desc e req (init_xfer e) (transfer_count e req)
            (e_desc_bus e + 32 * e_desc_idx e) k d).
Proof using He Hr.
  intros R Hk. destruct (transfer_desc_max_eq e req mem He Hr) as (_ & _ & Hfit).
  destruct He. rewrite (ir_mem _ _ _ _ _ _ _ R), decide_True by lia.
  destruct (proj2 (zlookup_is_Some mem (e_desc_idx e + k))) as [d ->]; [lia|].
  exists d. cbn. do 2 f_equal. lia.
Qed.

(** C5: Following the descriptors of a new transfer from its bus address, the
    hardware makes exactly the moves of the request's next software
    descriptors, in order, and then stops: to the device, from the host
    buffer to consecutive (or fixed) endpoint addresses; from the device, the
    other way round, a streaming engine reporting to the results array. *)
Theorem transfer_init_moves :
  exists e' req' x' mem' ds, transfer_init e req = Some (e', req', x') /\
    e_desc e' = Some mem' /\
    desc_walk (Z.to_nat (x_desc_num x')) (e_desc_bus e) mem' (x_desc_bus x')
      = Some ds /\
    map desc_move ds = map (sw_move e req) (seqZ 0 (x_desc_num x')) /\
    x_len x' = u32 (sum_len req (rq_sw_desc_idx req) (Z.to_nat (x_desc_num x'))).
Proof using He Hr.
  destruct (transfer_init_run e req mem He Hr) as (e' & req' & x' & mem' & E & R).
  destruct (transfer_desc_max_eq e req mem He Hr) as (_ & Hn & Hfit).
  exists e', req', x', mem', (slice mem' (e_desc_idx e) (transfer_count e req)).
  split; [exact E|]. split; [apply R|].
  rewrite (ir_num _ _ _ _ _ _ _ R), (ir_bus _ _ _ _ _ _ _ R).
  set (n := transfer_count e req) in *.
  set (bus := e_desc_bus e + 32 * e_desc_idx e) in *.
  assert (Hleft : n <= rq_sw_desc_cnt req - rq_sw_desc_idx req)
    by (unfold n, transfer_count; lia).
  pose proof He as [Hmem Hlen Hmax Hidx Hbus Hend].
  assert (Hlk : forall k, 0 <= k < n -> exists d,
    zlookup mem' (e_desc_idx e + k) = Some (init_desc e req (init_xfer e) n bus k d))
    by (intros k Hk; by apply (transfer_init_lookup e' req' x')).
  split; [|split; [|apply R]].
  - replace bus with (bus + 32 * 0) at 1 by lia.
    rewrite (desc_walk_linked _ mem' _ (e_desc_idx e) bus n 0);
      try (lia || reflexivity).
    + by rewrite Z.add_0_r, Z.sub_0_r.
    + intros k Hk. destruct (Hlk k Hk) as [d Hd]. eexists. split; [exact Hd|].
      apply init_desc_link; lia.
  - apply list_eq. intros i. rewrite !list_lookup_fmap. unfold slice.
    destruct (decide (Z.of_nat i < n)).
    + destruct (Hlk (Z.of_nat i) ltac:(lia)) as [d Hd].
      rewrite lookup_take_lt, lookup_drop by lia.
      rewrite lookup_seqZ_lt by lia. unfold zlookup in Hd.
      destruct (Z.ltb_spec (e_desc_idx e + Z.of_nat i) 0); [lia|].
      replace (Z.to_nat (e_desc_idx e) + i)%nat
        with (Z.to_nat (e_desc_idx e + Z.of_nat i)) by lia.
      rewrite Hd. cbn. f_equal. apply init_desc_move; lia || done.
    + rewrite lookup_take_ge by lia. rewrite lookup_seqZ_ge by lia. done.
Qed.

(** C30: The control bits and the adjacency of a new transfer: only the last
    descriptor stops the engine with an interrupt and an end of packet (the
    others report their completion when the engine flushes at end of packet),
    and each one announces what [xdma_get_next_adj] allows for the next. *)
Theorem transfer_init_control :
  exists e' req' x' mem', transfer_init e req = Some (e', req', x') /\
    e_desc e' = Some mem' /\
    forall k, 0 <= k < x_desc_num x' ->
      exists d, zlookup mem' (x_desc_virt x' + k) = Some d /\
        desc_ctl d = (if decide (k = x_desc_num x' - 1) then last_control
                      else if e_eop_flush e then XDMA_DESC_COMPLETED else 0) /\
        desc_adj d = xdma_get_next_adj (x_desc_num x' - k - 1) (d_next_lo d) /\
        desc_magic d = 0xAD4B.
Proof using He Hr.
  destruct (transfer_init_run e req mem He Hr) as (e' & req' & x' & mem' & E & R).
  destruct (transfer_desc_max_eq e req mem He Hr) as (_ & Hn & Hfit).
  pose proof He as [Hmem Hlen Hmax Hidx Hbus Hend].
  exists e', req', x', mem'. split; [exact E|]. split; [apply R|].
  rewrite (ir_num _ _ _ _ _ _ _ R), (ir_virt _ _ _ _ _ _ _ R). intros k Hk.
  destruct (transfer_init_lookup e' req' x' mem' k R Hk) as [d Hd].
  eexists. split; [exact Hd|].
  destruct (init_desc_control e req (transfer_count e req)
    (e_desc_bus e + 32 * e_desc_idx e) ltac:(lia) k Hk d) as [-> ->].
  split; [|split; [done|]].
  - unfold init_control. repeat case_decide; try done. by destruct (e_eop_flush e).
  - apply init_desc_link; lia.
Qed.

(** C27: The ring bookkeeping of [transfer_init]: the transfer takes at least
    one descriptor, as many as the request has left and the array has up to
    its end, never passes that end, touches no other descriptor, and leaves
    the engine's index in range and the request advanced by as many. *)
Theorem transfer_init_ring :
  exists e' req' x' mem', transfer_init e req = Some (e', req', x') /\
    e_desc e' = Some mem' /\ zlength mem' = zlength mem /\
    1 <= x_desc_num x' /\ x_desc_virt x' = e_desc_idx e /\
    x_desc_num x' = Z.min (rq_sw_desc_cnt req - rq_sw_desc_idx req)
                      (e_desc_max e - e_desc_idx e) /\
    (forall j, j < x_desc_virt x' \/ x_desc_virt x' + x_desc_num x' <= j ->
       zlookup mem' j = zlookup mem j) /\
    0 <= e_desc_idx e' < e_desc_max e /\
    (e_desc_idx e' - (e_desc_idx e + x_desc_num x')) mod e_desc_max e = 0 /\
    rq_sw_desc_idx req' = rq_sw_desc_idx req + x_desc_num x' /\
    rq_sw_desc_idx req' <= rq_sw_desc_cnt req' /\
    x_state x' = TRANSFER_STATE_NEW.
Proof using He Hr.
  destruct (transfer_init_run e req mem He Hr) as (e' & req' & x' & mem' & E & R).
  destruct (transfer_desc_max_eq e req mem He Hr) as (_ & Hn & Hfit).
  pose proof He as [Hmem Hlen Hmax Hidx Hbus Hend].
  exists e', req', x', mem'. split; [exact E|].
  destruct R as [Rd Rl Rm Ri _ _ Rn _ _ Rv _ (Rx & _) Rr _ (_ & Rc)].
  rewrite Rn, Rv, Ri, Rr, Rc.
  split; [done|]. split; [done|]. split; [done|]. split; [done|]. split; [done|].
  split; [intros j Hj; rewrite Rm, decide_False by lia; done|].
  split; [apply Z.mod_pos_bound; lia|].
  split; [rewrite Zminus_mod_idemp_l, Z.sub_diag; apply Z.mod_0_l; lia|].
  split; [done|]. split; [|done]. unfold transfer_count. lia.
Qed.
End transfer.

(** * Witnesses *)

(** A request with ten software descriptors of which three are done. *)
Definition ex_req : xdma_request_cb := {|
  rq_ptr := 0x10000;
  rq_ep_addr := 0x3000;
  rq_aperture := 0;
  rq_total_len := 0xa000;
  rq_offset := 0;
  rq_sg_idx := 0;
  rq_sg_offset := 0;
  rq_tfer := [1; 2]%nat;
  rq_cb := None;
  rq_sw_desc_idx := 3;
  rq_sw_desc_cnt := 10;
  rq_sdesc := map (fun i => Build_sw_desc (0x40000000 + 0x2000 * i) 0x1000)
                (seqZ 0 10);
|}.

Lemma ex_req_ok : req_ok ex_req.
Proof.
  split; [vm_compute; split; congruence|reflexivity|reflexivity
    |vm_compute; split; congruence|].
  apply (bool_decide_unpack _). vm_compute. exact I.
Qed.

Lemma ex_engine_mem_ok :
  engine_mem_ok (ex_engine <| e_desc_idx := 2 |>) (repeat zero_desc 8).
Proof. split; vm_compute; (reflexivity || split; congruence). Qed.

Lemma transfer_init_moves_witness :
  exists e' req' x', transfer_init (ex_engine <| e_desc_idx := 2 |>) ex_req
    = Some (e', req', x').
Proof.
  destruct (transfer_init_moves _ _ _ ex_engine_mem_ok ex_req_ok)
    as (e' & req' & x' & _ & _ & E & _).
  exists e', req', x'. exact E.
Defined.

Lemma transfer_init_control_witness :
  exists e' req' x', transfer_init (ex_engine <| e_desc_idx := 2 |>) ex_req
    = Some (e', req', x').
Proof.
  destruct (transfer_init_control _ _ _ ex_engine_mem_ok ex_req_ok)
    as (e' & req' & x' & _ & E & _).
  exists e', req', x'. exact E.
Defined.

Lemma transfer_init_ring_witness :
  exists e' req' x', transfer_init (ex_engine <| e_desc_idx := 2 |>) ex_req
    = Some (e', req', x') /\ x_desc_num x' = 6.
Proof.
  destruct (transfer_init_ring _ _ _ ex_engine_mem_ok ex_req_ok)
    as (e' & req' & x' & _ & E & _ & _ & _ & _ & En & _).
  exists e', req', x'. exact (conj E En).
Defined.
