(* ===== verification/SubmitProps.v ===== *)
(** What a submitted request returns. *)
From S2P Require Import Prelude Hw Desc Types Request Engine EngineFacts.
From S2P Require Import EngineSys Transfer TransferFacts Submit.
From S2P Require Import SubmitFacts Examples.

(** * The bytes of a request *)

Lemma sum_len_app req i n m :
  sum_len req i (n + m) = sum_len req i n + sum_len req (i + Z.of_nat n) m.
Proof.
  revert i. induction n as [|n IH]; intros i.
  - cbn [sum_len Nat.add]. replace (i + Z.of_nat 0) with i by lia. lia.
  - cbn [sum_len Nat.add]. rewrite IH.
    replace (i + 1 + Z.of_nat n) with (i + Z.of_nat (S n)) by lia. lia.
Qed.

Lemma sum_len_ext req req' i n :
  rq_sdesc req' = rq_sdesc req -> sum_len req' i n = sum_len req i n.
Proof.
  intros E. revert i. induction n as [|n IH]; intros i; [done|].
  cbn [sum_len]. rewrite IH. unfold sd_len_at. by rewrite E.
Qed.

Lemma sum_len_nonneg req i n :
  Forall (fun sd => 0 <= sd_addr sd < 2 ^ 64 /\ 0 < sd_len sd < 2 ^ 32)
    (rq_sdesc req) -> 0 <= sum_len req i n.
Proof.
  intros Hall. revert i. induction n as [|n IH]; intros i; [done|].
  cbn [sum_len]. specialize (IH (i + 1)). unfold sd_len_at.
  destruct (zlookup (rq_sdesc req) i) as [sd|] eqn:E; cbn; [|lia].
  rewrite Forall_forall in Hall. unfold zlookup in E.
  destruct (_ <? 0); [done|]. apply list_elem_of_lookup_2, Hall in E. lia.
Qed.

(** * The loop *)

Section submit.
Context `{Platform} `{ModParams}.
Context (interfere : est -> est) (id : nat).
Context (env : forall s, keeps id s (interfere s)).

(** What the submitter sees, pass by pass: the bytes of each transfer and its
    outcome. *)
Fixpoint submit_log (fuel : nat) (dm : bool) (req : xdma_request_cb)
    (sgt : sg_table) (rest done : Z) (s : est) : list (Z * outcome) :=
  match fuel with
  | O => []
  | S fuel' =>
      if rest =? 0 then []
      else
        match submit_look interfere id dm req rest s,
              submit_transfer interfere id dm req sgt rest done s with
        | Some o, (Some (rv, done', rest', req', sgt'), s') =>
            o :: (if rv <? 0 then []
                  else submit_log fuel' dm req' sgt' rest' done' s')
        | _, _ => []
        end
  end.

Definition log_bytes (log : list (Z * outcome)) : Z :=
  foldr (fun p n => fst p + n) 0 log.

Definition all_completed (log : list (Z * outcome)) : Prop :=
  Forall (fun p => is_completed (snd p)) log.

(** The submission stops at the first transfer it does not see completed. *)
Definition stopped_at (log log' : list (Z * outcome)) (o : outcome) : Prop :=
  exists b, log = log' ++ [(b, o)] /\ all_completed log' /\ ~ is_completed o /\
    outcome_code o < 0.

Lemma stopped_cons p log log' o :
  is_completed (snd p) -> stopped_at log log' o -> stopped_at (p :: log) (p :: log') o.
Proof using.
  intros Hp (b & -> & Hc & Hn). exists b. split; [done|]. split; [by constructor|done].
Qed.

Lemma submit_loop_run fuel dm req sgt rest done s mem :
  engine_mem_ok (st_eng s) mem -> streaming_c2h (st_eng s) = false ->
  (0 < rest -> req_ok req) -> rest = rq_sw_desc_cnt req - rq_sw_desc_idx req ->
  0 <= rest < Z.of_nat fuel ->
  Forall (fun sd => 0 <= sd_addr sd < 2 ^ 64 /\ 0 < sd_len sd < 2 ^ 32)
    (rq_sdesc req) ->
  sum_len req (rq_sw_desc_idx req) (Z.to_nat rest) < 2 ^ 32 ->
  exists rv done' sgt' s', submit_loop interfere fuel id dm req sgt rest done s
      = (Some (rv, done', sgt'), s') /\
    engine_up (st_eng s') /\
    done <= done' <= done + sum_len req (rq_sw_desc_idx req) (Z.to_nat rest) /\
    (rv = 0 /\ done' = done + sum_len req (rq_sw_desc_idx req) (Z.to_nat rest)
     \/ rv < 0 /\ ~ device_works interfere id) /\
    let log := submit_log fuel dm req sgt rest done s in
    (rv = 0 /\ all_completed log /\ done' = done + log_bytes log \/
     exists log' o, stopped_at log log' o /\ rv = outcome_code o /\
       done' = done + log_bytes log').
Proof using env.
  revert req sgt rest done s mem.
  induction fuel as [|fuel IH]; intros req sgt rest done s mem He Hst Hr Hrest
    Hf Hall Hsum; [lia|].
  cbn [submit_loop submit_log]. destruct (Z.eqb_spec rest 0) as [E|E].
  { rewrite E. change (Z.to_nat 0) with O. cbn [sum_len]. exists 0, done, sgt, s.
    split; [reflexivity|]. split; [by split; [exists mem|]|]. split; [lia|].
    split; [left; lia|]. left. split; [done|]. split; [constructor|]. cbn. lia. }
  pose proof (sum_len_nonneg req (rq_sw_desc_idx req) (Z.to_nat rest) Hall) as H1.
  destruct (submit_transfer_run interfere id env dm req sgt rest done s mem He Hst
    (Hr ltac:(lia)) Hrest)
    as (rv & d1 & req1 & sgt1 & s1 & mem1 & n & E1 & Hn & He1 & Hst1 & Ei & Es &
        Ec & Hr1 & Hrv & Hw & o & Eo & Hco & Hcode).
  rewrite bind_run, E1, Eo. cbn [fst snd].
  assert (Esplit : sum_len req (rq_sw_desc_idx req) (Z.to_nat rest) =
    sum_len req (rq_sw_desc_idx req) (Z.to_nat n) +
    sum_len req1 (rq_sw_desc_idx req1) (Z.to_nat (rest - n))).
  { rewrite (sum_len_ext req req1), Ei by done.
    replace (Z.to_nat rest) with (Z.to_nat n + Z.to_nat (rest - n))%nat by lia.
    rewrite sum_len_app. do 2 f_equal. lia. }
  pose proof (sum_len_nonneg req (rq_sw_desc_idx req) (Z.to_nat n) Hall) as H2.
  assert (H3 : 0 <= sum_len req1 (rq_sw_desc_idx req1) (Z.to_nat (rest - n)))
    by (apply sum_len_nonneg; by rewrite Es).
  destruct Hrv as [[-> ->]|[Hneg ->]].
  - change (0 <? 0) with false. cbv iota.
    rewrite (u32_small (sum_len _ _ _)) by lia.
    destruct (IH req1 sgt1 (rest - n)
      (done + sum_len req (rq_sw_desc_idx req) (Z.to_nat n)) s1 mem1)
      as (rv & d2 & sgt2 & s2 & E2 & Hup & Hd & Hrv & Hlog); try done; try lia.
    { intros Hlt. apply Hr1. lia. }
    { by rewrite Es. }
    exists rv, d2, sgt2, s2. split; [exact E2|]. split; [done|]. rewrite Esplit.
    split; [lia|]. split; [destruct Hrv as [[-> ->]|?]; [left; lia|by right]|].
    pose proof (proj1 Hco eq_refl) as Hc.
    set (b := sum_len req _ (Z.to_nat n)) in *.
    assert (Eb : forall l, log_bytes ((b, o) :: l) = b + log_bytes l) by done.
    cbv zeta. destruct Hlog as [(-> & Hall' & Ed)|(log' & o' & Hs & -> & Ed)].
    + left. split; [done|]. split; [by constructor|]. rewrite Eb. lia.
    + right. exists ((b, o) :: log'), o'. split; [by apply stopped_cons|].
      split; [done|]. rewrite Eb. lia.
  - rewrite (proj2 (Z.ltb_lt _ _) Hneg). do 4 eexists. split; [reflexivity|].
    split; [by split; [exists mem1|]|]. split; [lia|].
    split; [right; split; [done|]; intros W; specialize (Hw W); lia|].
    right. exists [], o. split; [|split; [done|cbn; lia]].
    eexists. split; [reflexivity|]. split; [constructor|].
    split; [rewrite <- Hco; lia|by rewrite <- Hcode].
Qed.

(** The bytes of a request. *)
Definition request_bytes (req : xdma_request_cb) : Z :=
  sum_len req 0 (Z.to_nat (rq_sw_desc_cnt req)).

(** The passes over a request, from the state in which it has been built. *)
Definition request_log (dm : bool) (req : xdma_request_cb) (sgt : sg_table)
    (s : est) : list (Z * outcome) :=
  let rest := rq_sw_desc_cnt req in
  submit_log (S (Z.to_nat rest)) dm req sgt rest 0 s.

(** What a submission that gets past its guards returns: the bytes transferred
    or, if there are none, the result code. *)
Lemma xfer_submit_run ep sgt tfer channel write dm s mem req s1 :
  engine_mem_ok (st_eng s) mem -> streaming_c2h (st_eng s) = false ->
  fst tfer = id ->
  check_channel (st_dev s) true channel write = 0 ->
  check_engine (st_eng s) (st_dev s) write = 0 ->
  fst (fst (map_sgt dm sgt s)) = 0 ->
  xdma_init_request (snd (fst (map_sgt dm sgt s))) ep [fst tfer; snd tfer]
    (snd (map_sgt dm sgt s)) = (Some (Some req), s1) ->
  req_ok req -> rq_sw_desc_idx req = 0 -> request_bytes req < 2 ^ 32 ->
  exists rv d sgt' s', xdma_xfer_submit interfere true channel write ep sgt dm tfer s
      = (Some (if d =? 0 then rv else d, sgt'), s') /\
    engine_up (st_eng s') /\ 0 <= d <= request_bytes req /\
    (rv = 0 /\ d = request_bytes req \/ rv < 0 /\ ~ device_works interfere id) /\
    let log := request_log dm req (snd (fst (map_sgt dm sgt s))) s1 in
    (rv = 0 /\ all_completed log /\ d = log_bytes log \/
     exists log' o, stopped_at log log' o /\ rv = outcome_code o /\ d = log_bytes log').
Proof using env.
  intros He Hst Hid Hchan Heng Hmap Hreq Hr Hi Hsum.
  unfold xdma_xfer_submit. exec. rewrite Hchan, Heng. cbn [negb Z.eqb].
  rewrite bind_run. destruct (map_sgt dm sgt s) as [[rv0 sgt0] s0] eqn:Em.
  cbn [fst snd] in *. subst rv0. cbn [negb Z.eqb].
  rewrite bind_run, Hreq. cbn [fst snd].
  assert (Keep : ring (st_eng s1) = ring (st_eng s)).
  { pose proof (map_sgt_trace dm sgt s) as [tr1 E1]. rewrite Em in E1.
    pose proof (xdma_init_request_trace sgt0 ep [fst tfer; snd tfer] s0)
      as [tr2 E2]. rewrite Hreq in E2. cbn in E1, E2. by rewrite E2, E1. }
  pose proof (streaming_ring _ _ Keep) as Hst1. rewrite Hst in Hst1.
  assert (He1 : engine_mem_ok (st_eng s1) mem) by (by eapply ring_mem_ok).
  pose proof Hr as [Hidx _ Hmax _ Hall]. unfold request_bytes in *.
  rewrite (i32_small (rq_sw_desc_cnt req)) by lia.
  set (cnt := rq_sw_desc_cnt req) in *.
  destruct (submit_loop_run (S (Z.to_nat cnt)) dm req sgt0 cnt 0 s1 mem He1 Hst1
    (fun _ => Hr) ltac:(lia) ltac:(lia) Hall ltac:(by rewrite Hi))
    as (rv & d & sgt1 & s2 & E2 & Hup & Hd & Hrv & Hlog). rewrite Hi in Hd, Hrv.
  rewrite bind_run, Hid, E2. cbn [fst snd].
  rewrite bind_run. pose proof (unmap_sgt_trace dm sgt1 s2) as Ht.
  set (s3 := snd (unmap_sgt dm sgt1 s2)) in *. clearbody s3. rewrite bind_run.
  exists rv, d. do 2 eexists. split; [reflexivity|]. split;
    [|split; [lia|split; [exact Hrv|exact Hlog]]].
  apply (engine_up_trace s3); [apply xdma_request_free_trace|].
  by apply (engine_up_trace s2).
Qed.

Lemma request_bytes_pos req : req_ok req -> 0 < request_bytes req.
Proof using.
  intros Hr. pose proof Hr as [Hidx _ Hmax _ Hall]. unfold request_bytes.
  destruct (proj2 (zlookup_is_Some (rq_sdesc req) 0)) as [sd Hsd].
  { destruct Hr. lia. }
  assert (Hlen : 0 < sd_len sd).
  { rewrite Forall_forall in Hall. apply (Hall sd).
    change (rq_sdesc req !! 0%nat = Some sd) in Hsd.
    by eapply list_elem_of_lookup_2. }
  replace (Z.to_nat (rq_sw_desc_cnt req))
    with (S (Z.to_nat (rq_sw_desc_cnt req - 1))) by lia.
  cbn [sum_len]. unfold sd_len_at at 1. rewrite Hsd. cbn.
  pose proof (sum_len_nonneg req (0 + 1) (Z.to_nat (rq_sw_desc_cnt req - 1)) Hall).
  lia.
Qed.

(** C6: A submission of fewer than 2^32 bytes to a memory-mapped engine returns,
    whatever other code and the device do meanwhile.  Assumed: the handle, the
    channel and the engine pass the checks, the table has been mapped and the
    request built, the ring is in order, and other code leaves the descriptor ring
    and the shape of the transfer alone.  [request_log] is what the submitter sees
    in each pass: the bytes of the transfer, and the code with which the queue
    refuses it or its state at the submitter's look.  If all passes see a
    completed transfer, the result is the length of the request.  Otherwise the
    submission stops at the first pass that does not, the transfers before it were
    seen completed, and the result is the number of their bytes, or, if that is
    none, the code of the last pass: that of the queue, [-EIO] for a failed
    transfer and [-ERESTARTSYS] for any other state, in particular a transfer that
    is still in flight, for which the code does not wait.  The ring is in order
    for the next submission. *)
Theorem xfer_submit_returns ep sgt tfer channel write dm s mem req s1 :
  engine_mem_ok (st_eng s) mem -> streaming_c2h (st_eng s) = false ->
  fst tfer = id ->
  check_channel (st_dev s) true channel write = 0 ->
  check_engine (st_eng s) (st_dev s) write = 0 ->
  fst (fst (map_sgt dm sgt s)) = 0 ->
  xdma_init_request (snd (fst (map_sgt dm sgt s))) ep [fst tfer; snd tfer]
    (snd (map_sgt dm sgt s)) = (Some (Some req), s1) ->
  req_ok req -> rq_sw_desc_idx req = 0 -> request_bytes req < 2 ^ 32 ->
  let log := request_log dm req (snd (fst (map_sgt dm sgt s))) s1 in
  exists rv sgt' s', xdma_xfer_submit interfere true channel write ep sgt dm tfer s
      = (Some (rv, sgt'), s') /\
    engine_up (st_eng s') /\ rv <> 0 /\ rv <= request_bytes req /\
    ((all_completed log /\ log_bytes log = request_bytes req /\
      rv = request_bytes req) \/
     (exists log' o, stopped_at log log' o /\
        0 <= log_bytes log' <= request_bytes req /\
        rv = if log_bytes log' =? 0 then outcome_code o else log_bytes log')).
Proof using env.
  intros He Hst Hid Hchan Heng Hmap Hreq Hr Hi Hsum log.
  pose proof (request_bytes_pos req Hr).
  destruct (xfer_submit_run ep sgt tfer channel write dm s mem req s1)
    as (rv & d & sgt' & s' & E & Hup & Hd & Hrv & Hlog); try done.
  do 3 eexists. split; [exact E|]. split; [done|]. fold log in Hlog.
  split; [destruct (Z.eqb_spec d 0); lia|].
  split; [destruct (Z.eqb_spec d 0); lia|].
  destruct Hlog as [(-> & Hall & Ed)|(log' & o & Hs & -> & Ed)].
  - left. split; [done|]. rewrite (proj2 (Z.eqb_neq d 0)); lia.
  - right. exists log', o. split; [done|]. rewrite <- Ed. by split.
Qed.

(** C10: A submission transfers the whole request and returns its length, however
    many transfers it takes to pass it through the descriptor ring, under the
    conditions of C6 and one more ([device_works]): the engine is neither offline
    nor shutting down, and each transfer is already completed when the submitter
    looks at it.  The code does not wait for that (USE_WAKE_UP is 0,
    libxdma.c:3607): a transfer that completes a moment after the look ends the
    submission with [-ERESTARTSYS] or a short count, as C6 states for the general
    case. *)
Theorem xfer_submit_total ep sgt tfer channel write dm s mem req s1 :
  device_works interfere id ->
  engine_mem_ok (st_eng s) mem -> streaming_c2h (st_eng s) = false ->
  fst tfer = id ->
  check_channel (st_dev s) true channel write = 0 ->
  check_engine (st_eng s) (st_dev s) write = 0 ->
  fst (fst (map_sgt dm sgt s)) = 0 ->
  xdma_init_request (snd (fst (map_sgt dm sgt s))) ep [fst tfer; snd tfer]
    (snd (map_sgt dm sgt s)) = (Some (Some req), s1) ->
  req_ok req -> rq_sw_desc_idx req = 0 -> request_bytes req < 2 ^ 32 ->
  exists sgt' s', xdma_xfer_submit interfere true channel write ep sgt dm tfer s
      = (Some (request_bytes req, sgt'), s').
Proof using env.
  intros W He Hst Hid Hchan Heng Hmap Hreq Hr Hi Hsum.
  pose proof (request_bytes_pos req Hr).
  destruct (xfer_submit_run ep sgt tfer channel write dm s mem req s1)
    as (rv & d & sgt' & s' & E & _ & Hd & [[-> ->]|[_ Hno]] & _); try done.
  do 2 eexists. rewrite E. by rewrite (proj2 (Z.eqb_neq _ 0)) by lia.
Qed.
End submit.

(** * Witness *)

Definition ex_submit_sgt : sg_table := {|
  sgl := [Build_scatterlist 0x40000000 0x1000; Build_scatterlist 0x50000000 0x800];
  nents := 2;
  orig_nents := 2;
|}.

Definition ex_submit_req : xdma_request_cb := {|
  rq_ptr := 0x10000;
  rq_ep_addr := 0;
  rq_aperture := 0;
  rq_total_len := 0x1800;
  rq_offset := 0;
  rq_sg_idx := 0;
  rq_sg_offset := 0;
  rq_tfer := [1; 2]%nat;
  rq_cb := None;
  rq_sw_desc_idx := 0;
  rq_sw_desc_cnt := 2;
  rq_sdesc := [Build_sw_desc 0x40000000 0x1000; Build_sw_desc 0x50000000 0x800];
|}.

(** The state in which the request has been built. *)
Definition ex_submit_start : est :=
  snd (@xdma_init_request idle_platform irq_params _ _ ex_submit_sgt 0 [1; 2]%nat ex_idle_state).

Lemma ex_submit_req_ok : req_ok ex_submit_req.
Proof.
  split; [vm_compute; split; congruence|reflexivity|reflexivity
    |vm_compute; split; congruence|].
  apply (bool_decide_unpack _). vm_compute. exact I.
Qed.

Lemma ex_idle_mem_ok : engine_mem_ok (st_eng ex_idle_state) (repeat zero_desc 8).
Proof. split; vm_compute; (reflexivity || split; congruence). Qed.

(** The engine stays busy: the transfer is still in flight when the submitter
    looks, and the submission returns [-ERESTARTSYS]. *)
Lemma xfer_submit_returns_witness :
  @request_log idle_platform irq_params (fun s => s) 1 true ex_submit_req
    ex_submit_sgt ex_submit_start = [(0x1800, inr TRANSFER_STATE_SUBMITTED)] /\
  exists rv sgt' s', @xdma_xfer_submit idle_platform irq_params (fun s => s) true 0
    true 0 ex_submit_sgt true (1, 2)%nat ex_idle_state = (Some (rv, sgt'), s') /\
    engine_up (st_eng s') /\ rv = - ERESTARTSYS.
Proof.
  assert (El : @request_log idle_platform irq_params (fun s => s) 1 true ex_submit_req
    ex_submit_sgt ex_submit_start = [(0x1800, inr TRANSFER_STATE_SUBMITTED)])
    by (vm_compute; reflexivity).
  split; [exact El|].
  destruct (@xfer_submit_returns idle_platform irq_params (fun s => s) 1
    (fun s => reflexivity s) 0 ex_submit_sgt (1, 2)%nat 0 true true ex_idle_state
    (repeat zero_desc 8) ex_submit_req ex_submit_start ex_idle_mem_ok eq_refl eq_refl
    eq_refl eq_refl eq_refl eq_refl ex_submit_req_ok eq_refl eq_refl)
    as (rv & sgt' & s' & E & Hup & _ & _ & Hor).
  exists rv, sgt', s'. split; [exact E|]. split; [exact Hup|].
  change (snd (fst (@map_sgt idle_platform true ex_submit_sgt ex_idle_state)))
    with ex_submit_sgt in Hor. rewrite El in Hor.
  destruct Hor as [(Hall & _)|(log' & o & (b & El' & _) & _ & ->)].
  - inversion Hall as [|? ? Hc _]. discriminate Hc.
  - destruct log' as [|? [|? ?]]; [|discriminate..]. by injection El' as <- <-.
Defined.

Lemma xfer_submit_total_witness :
  exists sgt' s', @xdma_xfer_submit idle_platform irq_params complete_at_once true 0
    true 0 ex_submit_sgt true (1, 2)%nat ex_idle_state = (Some (0x1800, sgt'), s').
Proof.
  exact (@xfer_submit_total idle_platform irq_params complete_at_once 1
    (complete_at_once_keeps 1) 0 ex_submit_sgt (1, 2)%nat 0 true true ex_idle_state
    (repeat zero_desc 8) ex_submit_req _ (complete_at_once_works 1) ex_idle_mem_ok
    eq_refl eq_refl eq_refl eq_refl eq_refl eq_refl ex_submit_req_ok eq_refl eq_refl).
Defined.
