(* ===== verification/ApertureProps.v ===== *)
(** What [xdma_xfer_aperture] moves and what it returns. *)
From S2P Require Import Prelude Hw Desc Types Request Engine EngineFacts.
From S2P Require Import Transfer TransferFacts Submit SubmitFacts.
From S2P Require Import Aperture ApertureFacts Examples.


Lemma sgs_bytes_app l1 l2 : sgs_bytes (l1 ++ l2) = sgs_bytes l1 ++ sgs_bytes l2.
Proof. unfold sgs_bytes. by rewrite fmap_app, join_app. Qed.

Lemma take_app_drop {A} (l : list A) i m :
  (i <= m)%nat -> take m l = take i l ++ take (m - i) (drop i l).
Proof.
  intros Hi. rewrite <- (take_drop i (take m l)), take_take, Nat.min_l by done.
  by rewrite skipn_firstn_comm.
Qed.

(** The position in which a first pass leaves the request, when it has not come
    to the end of the table. *)
Lemma position_first sg_max sgs n i' off' :
  position sg_max 0 0 sgs n i' off' -> 0 <= n -> 0 <= off' ->
  n < zlength (todo sg_max 0 0 sgs) ->
  n = zlength (sgs_bytes (take (Z.to_nat i') sgs)) + off'.
Proof.
  intros [Hi E] Hn Hoff Hlt. unfold todo in *. rewrite !Z.sub_0_r, drop_0 in *.
  apply (f_equal length) in E. rewrite !length_drop in E. unfold zlength in *.
  assert (Hle : i' <= sg_max).
  { destruct (Z.le_gt_cases i' sg_max); [done|].
    replace (Z.to_nat (sg_max - i')) with O in E by lia.
    rewrite take_0 in E. cbn in E. lia. }
  rewrite (take_app_drop sgs (Z.to_nat i')) in E, Hlt by lia.
  rewrite sgs_bytes_app, length_app in E, Hlt.
  replace (Z.to_nat (sg_max - i')) with (Z.to_nat sg_max - Z.to_nat i')%nat in E by lia.
  lia.
Qed.


(** * Requests that fit into the ring *)

(** The bytes of a mapped table. *)
Definition table_bytes (sgt : sg_table) : list Z := sgs_bytes (mapped sgt).
Definition table_len (sgt : sg_table) : Z := zlength (table_bytes sgt).

Lemma total_len_run sgs t :
  Forall sg_wf sgs -> 0 <= t -> t + zlength (sgs_bytes sgs) < 2 ^ 32 ->
  fold_left (fun t sg => u32 (t + sg_dma_len sg)) sgs t = t + zlength (sgs_bytes sgs).
Proof.
  intros Hwf. revert t. induction Hwf as [|sg sgs (Hl & _) _ IH]; intros t Ht Hs.
  { unfold zlength. cbn. lia. }
  change (sgs_bytes (sg :: sgs)) with (sg_bytes sg ++ sgs_bytes sgs) in *.
  cbn [fold_left]. rewrite zlength_app in *. unfold sg_bytes in Hs |- * at 1.
  rewrite zlength_seqZ in * by lia. pose proof (zlength_nonneg (sgs_bytes sgs)).
  rewrite u32_small, IH by lia. lia.
Qed.

Section fits.
Context `{ModParams}.

(** The window does not reach the end of the address space, and from the
    engine's index on the ring has a descriptor for every entry, for every
    [maxlen] bytes and for every wrap-around of the window. *)
Record aperture_fits (e : xdma_engine) (mem : list xdma_desc) (ep_addr aperture : Z)
    (sgt : sg_table) : Prop := {
  af_mem : engine_mem_ok e mem;
  af_ep : 0 <= ep_addr;
  af_size : 0 < aperture < 2 ^ 32;
  af_end : ep_addr + 2 * aperture <= 2 ^ 64;
  af_blen : 0 < desc_blen_max;
  af_sgs : Forall sg_wf (sgl sgt);
  af_nents : 0 <= nents sgt <= zlength (sgl sgt);
  af_total : 0 < table_len sgt < 2 ^ 32;
  af_room : nents sgt + table_len sgt / Z.min aperture desc_blen_max +
            table_len sgt / aperture <= e_desc_max e - e_desc_idx e;
}.

Lemma aperture_window_ok e mem dir ep_addr aperture sgt :
  aperture_fits e mem ep_addr aperture sgt ->
  let w := pass_window e dir ep_addr aperture in
  window_ok w /\ w_size w = aperture /\ w_ep w = ep_addr.
Proof using.
  intros [Hm He Hs Hend Hb _ _ _ _] w.
  assert (Ew : w_size w = aperture).
  { unfold w_size, w. cbn. rewrite u64_small by lia. lia. }
  split; [|done]. destruct Hm. split; rewrite ?Ew; cbn; lia.
Qed.

Lemma first_todo sgt : todo (nents sgt) 0 0 (sgl sgt) = table_bytes sgt.
Proof using. unfold todo. rewrite Z.sub_0_r. by rewrite drop_0. Qed.

Lemma aperture_total_len e mem p ep_addr aperture sgt tfer :
  aperture_fits e mem ep_addr aperture sgt ->
  rq_total_len (aperture_request p ep_addr aperture sgt tfer) = table_len sgt.
Proof using.
  intros [_ _ _ _ _ Hsgs _ Htot _]. cbn. unfold request_total_len.
  rewrite total_len_run; [done| |done|].
  - unfold mapped. by apply Forall_take.
  - unfold table_len, table_bytes in Htot. lia.
Qed.

Lemma first_pass_ok e mem dir p ep_addr aperture sgt tfer :
  aperture_fits e mem ep_addr aperture sgt ->
  pass_ok (pass_window e dir ep_addr aperture) (sgl sgt) (nents sgt) e
    (aperture_request p ep_addr aperture sgt tfer) mem.
Proof using.
  intros Hf. destruct (aperture_window_ok e mem dir ep_addr aperture sgt Hf)
    as (Hw & Esz & Eep).
  destruct Hf as [Hm He Hs Hend Hb Hsgs Hne Htot Hroom].
  unfold table_len in Htot.
  split; cbn [rq_sg_idx rq_sg_offset rq_offset aperture_request];
    rewrite ?first_todo; try done; try lia; try (by left).
  intros sg Hsg. destruct (sgl sgt) as [|sg' sgs]; [done|]. injection Hsg as <-.
  apply Forall_cons in Hsgs as [(? & _) _]. lia.
Qed.

(** The first pass takes the whole table. *)
Lemma first_pass_run `{Platform} e mem dm dir p ep_addr aperture sgt tfer :
  aperture_fits e mem ep_addr aperture sgt ->
  let req := aperture_request p ep_addr aperture sgt tfer in
  exists e' req' x' mem',
    aperture_build (pass_window e dir ep_addr aperture) dm (sgl sgt) (nents sgt) e req
      = Some (e', req', x') /\
    engine_mem_ok e' mem' /\ x_len x' = table_len sgt /\ 0 < x_desc_num x' /\
    rq_offset req' = table_len sgt /\ rq_total_len req' = table_len sgt.
Proof using.
  intros Hf req. pose proof (aperture_total_len e mem p ep_addr aperture sgt tfer Hf) as Etl.
  destruct (aperture_window_ok e mem dir ep_addr aperture sgt Hf)
    as (Hw & Esz & Eep).
  set (w := pass_window e dir ep_addr aperture) in *.
  pose proof Hf as [Hm He Hs Hend Hb Hsgs Hne Htot Hroom].
  assert (Etodo : todo (nents sgt) (rq_sg_idx req) (rq_sg_offset req) (sgl sgt) =
    table_bytes sgt) by apply first_todo.
  pose proof Htot as Htot'. unfold table_len in Htot'.
  destruct (aperture_build_run w dm (sgl sgt) (nents sgt) e req mem)
    as (e' & req' & x' & mem' & n & E & R).
  { by apply first_pass_ok. }
  exists e', req', x', mem'. split; [exact E|].
  assert (En : n = table_len sgt).
  { destruct (pr_end _ _ _ _ _ _ _ _ _ _ _ R) as [->|[Hfull Hc]]; [by rewrite Etodo|].
    exfalso. pose proof (pr_n _ _ _ _ _ _ _ _ _ _ _ R) as Hn. rewrite Etodo in Hn.
    destruct Hc as (a & b & Hc & Ha & Hb0 & Hab & Hbb). rewrite Esz in Hbb.
    change (rq_offset req) with 0 in Hbb. change (rq_sg_idx req) with 0 in Hc.
    rewrite Z.div_0_l, Z.add_0_l in Hbb by lia.
    change (w_maxlen w) with (Z.min aperture desc_blen_max) in Hab.
    assert (a <= table_len sgt / Z.min aperture desc_blen_max)
      by (apply Z.div_le_lower_bound; unfold table_len; lia).
    assert (n / aperture <= table_len sgt / aperture)
      by (apply Z.div_le_mono; unfold table_len; lia).
    destruct (Z.eq_dec (nents sgt) 0) as [Hz|]; [|lia].
    unfold table_bytes, mapped in Htot'. rewrite Hz in Htot'.
    destruct Htot' as [Hbad _]. by vm_compute in Hbad. }
  destruct (pr_engine _ _ _ _ _ _ _ _ _ _ _ R) as (E1 & E2 & _).
  destruct (pr_num _ _ _ _ _ _ _ _ _ _ _ R) as [Hx1 _].
  pose proof (pr_offset _ _ _ _ _ _ _ _ _ _ _ R) as Eo.
  destruct (pr_req _ _ _ _ _ _ _ _ _ _ _ R) as [Et _].
  split; [|split; [|split; [lia|split; [by rewrite Eo, En|by rewrite Et]]]].
  - destruct Hm. split; rewrite ?E1, ?E2, ?(pr_len _ _ _ _ _ _ _ _ _ _ _ R),
      ?(pr_idx _ _ _ _ _ _ _ _ _ _ _ R); try done; [apply R|].
    apply Z.mod_pos_bound. lia.
  - by rewrite (pr_xlen _ _ _ _ _ _ _ _ _ _ _ R).
Qed.
End fits.

(** * The whole function *)

Section aperture.
Context `{Platform} `{ModParams}.
Context (interfere : est -> est) (id : nat).
Context (env : forall s, keeps id s (interfere s)).

Lemma wait_transfer_run t s :
  exists s4, only_trace s s4 /\
    snd (wait_transfer interfere t (snd (wake_thread s))) = interfere s4.
Proof using.
  unfold wait_transfer. destruct (wake_thread_trace s) as [tr ->].
  destruct (0 <? t); exec; eexists; split;
    [|reflexivity| |reflexivity]; by eexists (_ :: _).
Qed.

(** The [switch] on the state of the transfer. *)
Lemma aperture_result_run x done s :
  st_xfers s !! id = Some x -> x_state x <> TRANSFER_STATE_NEW ->
  exists rv done' s', aperture_result id done s = ((rv, done'), s') /\
    keeps id s s' /\ (rv = 0 /\ done' = done + x_len x \/ rv < 0 /\ done' = done) /\
    (x_state x = TRANSFER_STATE_COMPLETED -> rv = 0).
Proof using.
  intros Hx Hnew. unfold aperture_result. exec. rewrite Hx.
  change (default zero_transfer (Some x)) with x.
  destruct (xfer_timeout_keeps id s) as [K Ert].
  destruct (x_state x) eqn:Es; try done; exec; rewrite ?Ert;
    (do 3 eexists; split; [reflexivity|]; split; [done|]);
    (split; [first [by left | by right]|done]).
Qed.

(** From the queue to the end of the iteration. *)
Lemma aperture_queue_run x' t sgt done s1 mem :
  engine_mem_ok (st_eng s1) mem ->
  st_xfers s1 !! id = Some x' -> 0 < x_desc_num x' ->
  exists rv done' sgt' s', aperture_queue interfere id t sgt done s1 =
      ((rv, done', sgt'), s') /\
    (rv = 0 /\ done' = done + x_len x' \/ rv < 0 /\ done' = done) /\
    (device_works interfere id -> rv = 0).
Proof using env.
  intros Hm1 Hx1 Hn. unfold aperture_queue, others. exec.
  destruct (queue_run interfere id env x' s1 Hx1 Hn) as (rv & s3 & -> & K3 & Hnew & Hacc).
  cbn [fst snd]. destruct (rv <? 0) eqn:Erv; bprop.
  { do 4 eexists. split; [reflexivity|]. split; [by right|].
    intros W. destruct (Hacc W). lia. }
  exec. destruct (wait_transfer_run t s3) as (s4 & K4 & ->).
  destruct (wait_run interfere id env x' s1 s3 s4 Hx1 K3 K4 (Hnew Erv))
    as (x5 & K5 & Hx5 & El & Hns & Hc5).
  destruct (aperture_result_run x5 done (interfere s4) Hx5 Hns)
    as (rv6 & done6 & s6 & -> & K6 & Hrv & Hc). cbn [fst snd].
  destruct (destroy_run id sgt mem s6) as (sgt' & s' & mem' & E & _ & _).
  { eapply (keeps_mem_ok id); [exact K6|]. by eapply (keeps_mem_ok id). }
  rewrite bind_run in E. exec. rewrite E. cbn [fst snd].
  exists rv6, done6, sgt', s'. split; [reflexivity|]. split; [by rewrite <- El|].
  intros W. apply Hc, Hc5, Hacc; done.
Qed.

(** The loop, when the first pass takes the whole table. *)
Lemma aperture_loop_run fuel dir dm t p ep_addr aperture sgt tfer s mem :
  aperture_fits (st_eng s) mem ep_addr aperture sgt ->
  exists rv done sgt' s',
    aperture_loop interfere (S fuel) dir id dm t (nents sgt)
      (aperture_request p ep_addr aperture sgt tfer) sgt 0 0 s =
      (Some (rv, done, sgt'), s') /\
    (rv = 0 /\ done = table_len sgt \/ rv < 0 /\ done = 0) /\
    (device_works interfere id -> rv = 0).
Proof using env.
  intros Hf.
  assert (Hf1 : aperture_fits (st_eng (interfere s)) mem ep_addr aperture sgt).
  { pose proof (k_ring _ _ _ (env s)) as Kr. injection Kr as K1 K2 K3 K4 _ _ _.
    destruct Hf as [[]]. split; rewrite ?K1, ?K2, ?K3, ?K4; try done.
    split; rewrite ?K1, ?K2, ?K3, ?K4; done. }
  destruct (first_pass_run (st_eng (interfere s)) mem dm dir p ep_addr aperture sgt tfer
    Hf1) as (e' & req' & x' & mem' & E & Hm' & El & Hn & Eo & Et).
  cbn [aperture_loop].
  assert (Elt : (rq_offset (aperture_request p ep_addr aperture sgt tfer) <?
    rq_total_len (aperture_request p ep_addr aperture sgt tfer)) = true).
  { rewrite (aperture_total_len _ _ _ _ _ _ _ Hf). apply Z.ltb_lt. apply Hf. }
  rewrite Elt. unfold aperture_build_locked, others, set_transfer. exec.
  change (rq_ep_addr (aperture_request p ep_addr aperture sgt tfer)) with ep_addr.
  change (rq_aperture (aperture_request p ep_addr aperture sgt tfer)) with aperture.
  rewrite E. exec. set (s1 := upd_field st_xfers _ _).
  destruct (aperture_queue_run x' t sgt 0 s1 mem')
    as (rv & d & sgt' & s' & Eq & Hrv & Hw); try done.
  { apply lookup_insert_eq. }
  rewrite Eq. cbn [fst snd]. rewrite El in Hrv.
  destruct Hrv as [[-> ->]|[Hneg ->]].
  - change (0 <? 0) with false. cbv iota.
    exists 0, (table_len sgt), sgt', s'. split; [|split; [by left|done]].
    destruct fuel; cbn [aperture_loop]; by rewrite Eo, Et, Z.ltb_irrefl.
  - rewrite (proj2 (Z.ltb_lt _ _) Hneg). do 4 eexists. split; [reflexivity|].
    split; [by right|done].
Qed.

(** C14: A request whose descriptors fit into the ring takes one pass:
    [xdma_xfer_aperture] returns the length of the table when the engine carries
    out what it is given, and otherwise the length or an error code, whatever
    other code and the device do meanwhile, provided they leave the descriptor
    ring and the shape of the transfer alone, the engine passes the checks and is
    not streaming, the table has been mapped and the request could be allocated.
    *)
Theorem xfer_aperture_total fuel write ep_addr aperture sgt dm t tfer s mem sgt1 s1 :
  fst tfer = id ->
  check_engine (st_eng s) (st_dev s) write = 0 -> e_streaming (st_eng s) = false ->
  aperture_map dm sgt s = ((0, sgt1), s1) ->
  fst (kcall "kzalloc" [sizeof_xdma_request_cb] s1) <> 0 ->
  aperture_fits (st_eng s) mem ep_addr aperture sgt1 ->
  exists rv sgt' s',
    xdma_xfer_aperture interfere (S fuel) write ep_addr aperture sgt dm t tfer s
      = (Some (rv, sgt'), s') /\
    (rv = table_len sgt1 \/ rv < 0) /\
    (device_works interfere id -> rv = table_len sgt1).
Proof using env.
  intros Hid Hck Hst Hmap Hp Hf. unfold xdma_xfer_aperture. exec. rewrite Hck, Hst.
  cbn [negb Z.eqb]. rewrite bind_run, Hmap. cbn [fst snd negb Z.eqb].
  assert (E1 : st_eng s1 = st_eng s).
  { apply (f_equal (fun r => st_eng (snd r))) in Hmap. cbn in Hmap.
    rewrite <- Hmap. unfold aperture_map. by destruct dm. }
  rewrite bind_run. destruct (kcall _ _ s1) as [p s2] eqn:Ek. cbn [fst snd] in *.
  assert (E2 : st_eng s2 = st_eng s) by (injection Ek as _ <-; exact E1).
  rewrite (proj2 (Z.eqb_neq p 0)) by done. rewrite <- E2 in Hf.
  destruct (aperture_loop_run fuel (dir_of write) dm t p ep_addr aperture sgt1 tfer s2
    mem Hf) as (rv & d & sgt' & s' & E & Hrv & Hw).
  rewrite bind_run, Hid, E. cbn [fst snd]. exec.
  pose proof (af_total _ _ _ _ _ Hf).
  do 3 eexists. split; [reflexivity|]. destruct Hrv as [[-> ->]|[Hneg ->]].
  - rewrite (proj2 (Z.eqb_neq _ 0)) by lia. by split; [left|].
  - cbn [Z.eqb]. split; [by right|]. intros W. specialize (Hw W). lia.
Qed.
End aperture.

(** * Witnesses *)

(** Two buffers of 64 and 32 bytes. *)
Definition ex_table : sg_table := {|
  sgl := [Build_scatterlist 0x40000000 64; Build_scatterlist 0x50000000 32];
  nents := 2;
  orig_nents := 2;
|}.

Lemma ex_table_len : table_len ex_table = 96.
Proof. vm_compute. reflexivity. Qed.

Lemma ex_table_fits :
  @aperture_fits irq_params (st_eng ex_idle_state) (repeat zero_desc 8) 0x3000 48
    ex_table.
Proof.
  split; rewrite ?ex_table_len.
  - split; vm_compute; (reflexivity || split; congruence).
  - lia.
  - lia.
  - lia.
  - vm_compute. reflexivity.
  - apply (bool_decide_unpack _). vm_compute. exact I.
  - vm_compute. split; congruence.
  - lia.
  - vm_compute. congruence.
Qed.


Lemma xfer_aperture_total_witness :
  exists sgt' s', @xdma_xfer_aperture idle_platform irq_params complete_at_once 1 true
    0x3000 48 ex_table true 0 (1, 2)%nat ex_idle_state = (Some (96, sgt'), s').
Proof.
  destruct (@xfer_aperture_total idle_platform irq_params complete_at_once 1
    (complete_at_once_keeps 1) 0 true 0x3000 48 ex_table true 0 (1, 2)%nat
    ex_idle_state (repeat zero_desc 8) ex_table ex_idle_state eq_refl eq_refl eq_refl
    eq_refl ltac:(vm_compute; congruence) ex_table_fits) as (rv & sgt' & s' & E & _ & W).
  exists sgt', s'. rewrite E, (W (complete_at_once_works 1)), ex_table_len. reflexivity.
Defined.

(** * A request that takes more than one pass *)

(** The same buffers in the other order. *)
Definition ex_table_rev : sg_table := ex_table <| sgl ::= reverse |>.

(** What a request on an idle engine returns when its ring has one descriptor
    left before the end. *)
Definition aperture_at_end (sgt : sg_table) : option Z :=
  fst <$> fst (@xdma_xfer_aperture idle_platform irq_params complete_at_once 8 true
    0x3000 64 sgt true 0 (1, 2)%nat (ex_idle_state <| st_eng ::= fun e => e <| e_desc_idx := 7 |> |>)).

(** A whole request on a ring that ends after one descriptor: of two buffers of 64
    and 32 bytes it moves the first one twice and reports 128 bytes of 96; with
    the buffers swapped its third pass finds no entry and links descriptors
    outside the ring. *)
Lemma aperture_second_pass_request :
  table_len ex_table = 96 /\ aperture_at_end ex_table = Some 128 /\
  table_len ex_table_rev = 96 /\ aperture_at_end ex_table_rev = None.
Proof. repeat split; vm_compute; reflexivity. Qed.

Definition ex_end_engine : xdma_engine := ex_engine <| e_desc_idx := 7 |>.
Definition ex_end_window : window :=
  @pass_window irq_params ex_engine DMA_TO_DEVICE 0x3000 64.
Definition ex_end_request : xdma_request_cb :=
  aperture_request 0x10000 0x3000 64 ex_table (1, 2)%nat.
Definition ex_first_pass : xdma_engine * xdma_request_cb * xdma_transfer :=
  default (ex_end_engine, ex_end_request, zero_transfer)
    (aperture_build ex_end_window true (sgl ex_table) 2 ex_end_engine ex_end_request).

Lemma ex_pass_ok e req mem :
  engine_mem_ok e mem -> e_desc_max e = 8 ->
  rq_ep_addr req = 0x3000 -> rq_aperture req = 64 -> 0 <= rq_offset req < 2 ^ 31 ->
  rq_sg_offset req = 0 -> 0 <= rq_sg_idx req <= 1 ->
  pass_ok ex_end_window (sgl ex_table) 2 e req mem.
Proof.
  intros Hm Hmax Hep Hap Hoff Hsg Hidx.
  assert (Htodo : 0 < zlength (todo 2 (rq_sg_idx req) (rq_sg_offset req) (sgl ex_table))
                    <= 96).
  { rewrite Hsg. assert (rq_sg_idx req = 0 \/ rq_sg_idx req = 1) as [-> | ->] by lia;
      by vm_compute. }
  split; try done; try lia.
  - right. exists 6. by rewrite Hap.
  - apply (bool_decide_unpack _). vm_compute. exact I.
  - cbn. unfold zlength. cbn. lia.
  - intros sg [= <-]. rewrite Hsg. cbn. lia.
Qed.

