(* ===== verification/PollProps.v ===== *)
(** The polling loop: it ends on a clock that wraps around, and what it returns
    and services. *)
From S2P Require Import Prelude Hw Desc Types Engine EngineFacts EngineSys.
From S2P Require Import ServiceFacts Examples.

(** * Time *)

(** How often the time has been read. *)
Fixpoint ticks (t : list event) : Z :=
  match t with
  | [] => 0
  | Call f _ _ :: t' =>
      if String.eqb f "jiffies" then 1 + ticks t' else ticks t'
  | _ :: t' => ticks t'
  end.

(** [jiffies] is the low 64 bits of a time that never goes back.  Time passes: it
    does not stay at one value for more than [K] readings.  And no more than
    [2 ^ 62] ticks pass between two readings, so that a reading after the
    deadline is not taken for one before it. *)
Record clock_ok `{Platform} (K : Z) (time : list event -> Z) : Prop := {
  ck_reads : forall t, u64 (kernel_answer t "jiffies" []) = u64 (time t);
  ck_monotone : forall t t', extends t t' -> time t <= time t';
  ck_passes : forall t t', extends t t' ->
    ticks t' - ticks t <= K * (time t' - time t + 1);
  ck_steps : forall t t', extends t t' -> ticks t' <= ticks t + 1 ->
    time t' <= time t + 2 ^ 62;
}.

Lemma time_after_wrapped x y :
  Z.abs (x - y) < 2 ^ 63 -> time_after (u64 x) (u64 y) = (y <? x).
Proof.
  intros Hd. unfold time_after.
  assert (E : u64 (u64 y - u64 x) = u64 (y - x)).
  { unfold u64. by rewrite Zminus_mod_idemp_l, Zminus_mod_idemp_r. }
  rewrite E. unfold u64. destruct (Z.ltb_spec y x) as [Hlt|Hge].
  - rewrite <- (Z_mod_plus_full (y - x) 1 (2 ^ 64)), Z.mod_small by lia.
    apply Z.leb_le. lia.
  - rewrite Z.mod_small by lia. apply Z.leb_gt. lia.
Qed.

(** * The loop *)

Section poll.
Context `{Platform} `{ModParams}.

(** A writeback the poll ends with before its time-out. *)
Definition poll_done (expected_wb desc_wb : Z) : Prop :=
  has_bits desc_wb WB_ERR_MASK = true \/ expected_wb <= desc_wb.

Lemma ticks_event e t : ticks t <= ticks (e :: t) <= ticks t + 1.
Proof. cbn. destruct e; try lia. destruct (String.eqb _ _); lia. Qed.

Section ends.
Context (K : Z) (time : list event -> Z) (clock : clock_ok K time) (HK : 1 <= K).

(** A poll that began at the trace [t0], with the deadline [limit], goes on from
    [s]; [tp] is its last reading of the clock. *)
Record polling (limit : Z) (t0 tp : list event) (s : est) : Prop := {
  pg_began : extends t0 tp;
  pg_last : extends tp (st_trace s);
  pg_ticks : ticks (st_trace s) <= ticks tp + 1;
  pg_before : time tp <= limit;
  pg_range : limit < time t0 + 2 ^ 62;
}.

(** What a poll ended with: the last writeback it saw, and why it ended. *)
Definition poll_ended (limit expected v : Z) (s s' : est) : Prop :=
  only_trace s s' /\
  (exists tr, extends (st_trace s) tr /\ extends tr (st_trace s') /\
     v = u32 (wb_answer tr)) /\
  (poll_done expected v \/ (~ poll_done expected v /\ limit < time (st_trace s'))).

Lemma polling_fuel limit t0 tp s :
  polling limit t0 tp s ->
  ticks (st_trace s) - ticks t0 <= K * (limit - time t0 + 1) + 1.
Proof using clock HK.
  intros [H1 H2 H3 H4 H5]. pose proof (ck_passes _ _ clock _ _ H1). nia.
Qed.

Lemma land_mask_le v : 0 <= v -> Z.land v WB_COUNT_MASK <= v.
Proof.
  intros Hv. unfold WB_COUNT_MASK. change 16777215 with (Z.ones 24).
  rewrite Z.land_ones by lia. apply Z.mod_le; lia.
Qed.

Lemma poll_ended_step limit expected v s s1 s' :
  only_trace s s1 -> poll_ended limit expected v s1 s' ->
  poll_ended limit expected v s s'.
Proof using.
  intros [tr ->] ([tr' ->] & (t & H1 & H2 & ->) & Hor). split; [|split; [|done]].
  - exists (tr' ++ tr). unfold upd_field. cbn. by rewrite app_assoc.
  - exists t. split; [|done]. destruct H1 as [u ->]. cbn. exists (u ++ tr).
    by rewrite app_assoc.
Qed.

(** One look at the writeback. *)
Lemma wb_poll_step fuel timeout expected n s :
  exists s1,
    (only_trace s s1 /\ ticks (st_trace s1) = ticks (st_trace s) /\
     extends (st_trace s) (st_trace s1)) /\
    let v := u32 (wb_answer (st_trace s)) in
    wb_poll (S fuel) timeout expected n s =
    if has_bits v WB_ERR_MASK then (Some v, s1)
    else if expected <=? v then (Some v, s1)
    else
      let j := kernel_answer (st_trace s1) "jiffies" [] in
      let s2 := s1 <| st_trace ::= cons (Call "jiffies" [] j) |> in
      if time_after (u64 j) timeout
      then (Some (if expected <? Z.land v WB_COUNT_MASK
                  then Z.lor expected WB_ERR_MASK else v), s2)
      else wb_poll fuel timeout expected (u32 (n + 1))
             (snd (when (negb (n =? 0) && (n mod NUM_POLLS_PER_SCHED =? 0))
                     (let* _ := kcall "schedule" [] in ret tt) s2)).
Proof using.
  cbn [wb_poll]. unfold read_writeback, emit. exec. cbn [trace_of traced_est].
  set (v := u32 (wb_answer (st_trace s))).
  exists (s <| st_trace ::= fun t =>
            (if v =? 0 then [WbRead v] else [WbClear; WbRead v]) ++ t |>).
  split; [|].
  - split; [by eexists|]. split; [by cbn; destruct (v =? 0)|].
    cbn. by eexists.
  - destruct (v =? 0); cbn [negb snd app];
      (destruct (has_bits v WB_ERR_MASK); [done|]);
      (destruct (expected <=? v); [done|]); unfold kcall, emit; exec;
      (destruct (negb (n =? 0) && _); destruct (time_after _ _); reflexivity).
Qed.

(** On a clock that obeys [clock_ok] the poll ends, with enough fuel. *)
Lemma wb_poll_ends fuel limit expected n t0 tp s :
  polling limit t0 tp s ->
  K * (limit - time t0 + 1) + 2 <= Z.of_nat fuel + (ticks (st_trace s) - ticks t0) ->
  exists v s', wb_poll fuel (u64 limit) expected n s = (Some v, s') /\
    poll_ended limit expected v s s'.
Proof using clock HK.
  revert n tp s. induction fuel as [|fuel IH]; intros n tp s Hp Hf.
  { pose proof (polling_fuel _ _ _ _ Hp). lia. }
  destruct (wb_poll_step fuel (u64 limit) expected n s) as (s1 & (Ho & Htk & Hx) & E).
  rewrite E. clear E. set (v := u32 (wb_answer (st_trace s))) in *.
  pose proof (u32_range (wb_answer (st_trace s))) as Hv. fold v in Hv.
  assert (Hend : forall s', only_trace s1 s' ->
    poll_done expected v \/ (~ poll_done expected v /\ limit < time (st_trace s')) ->
    poll_ended limit expected v s s').
  { intros s' Ho' Hor. eapply poll_ended_step; [reflexivity|].
    split; [by etrans|]. split; [|done]. exists (st_trace s).
    split; [by exists []|]. split; [|done]. etrans; [exact Hx|].
    destruct Ho' as [tr ->]. by exists tr. }
  destruct (has_bits v WB_ERR_MASK) eqn:Eerr.
  { exists v, s1. split; [done|]. apply Hend; [reflexivity|]. by left; left. }
  destruct (Z.leb_spec expected v) as [Hle|Hgt].
  { exists v, s1. split; [done|]. apply Hend; [reflexivity|]. by left; right. }
  pose proof Hp as [Hb Hl Ht Hbef Hrng].
  assert (Hl1 : extends tp (st_trace s1)) by (by etrans).
  assert (Hb1 : extends t0 (st_trace s1)) by (by etrans).
  pose proof (ck_steps _ _ clock _ _ Hl1 ltac:(lia)) as Hstep.
  pose proof (ck_monotone _ _ clock _ _ Hb1) as Hmono.
  cbv zeta. rewrite (ck_reads _ _ clock), time_after_wrapped by lia.
  set (s2 := upd_field st_trace _ s1).
  destruct (Z.ltb_spec limit (time (st_trace s1))) as [Hlate|Hearly].
  - pose proof (land_mask_le v ltac:(lia)) as Hm.
    rewrite (proj2 (Z.ltb_ge _ _)) by lia. do 2 eexists. split; [reflexivity|].
    apply Hend; [by eexists [_]|]. right. split.
    + intros [Herr|Hle]; [congruence|lia].
    + pose proof (ck_monotone _ _ clock _ _ (extends_cons
        (Call "jiffies" [] (kernel_answer (st_trace s1) "jiffies" [])) (st_trace s1))).
      cbn in *. lia.
  - match goal with |- context [snd (?f s2)] => set (s3 := snd (f s2)) end.
    assert (Ho3 : only_trace s1 s3 /\
              ticks (st_trace s3) = ticks (st_trace s1) + 1).
    { subst s3. destruct (negb _ && _).
      - split; [by eexists [_; _]|]. cbn. lia.
      - split; [by eexists [_]|]. cbn. lia. }
    destruct Ho3 as [Ho3 Htk3]. clearbody s3.
    destruct (IH (u32 (n + 1)) (st_trace s1) s3) as (v' & s' & E & He).
    + split; [done| |lia|done|lia]. destruct Ho3 as [tr ->]. by exists tr.
    + lia.
    + exists v', s'. split; [exact E|]. eapply poll_ended_step; [|exact He].
      by etrans.
Qed.

Lemma wb_monitor_ends HZ fuel expected s :
  expected <> 0 -> 0 <= POLL_TIMEOUT_SECONDS * HZ < 2 ^ 62 ->
  K * (POLL_TIMEOUT_SECONDS * HZ + 1) + 1 <= Z.of_nat fuel ->
  exists v s1, engine_service_wb_monitor HZ fuel expected s = (Some v, s1) /\
    poll_ended (time (st_trace s) + POLL_TIMEOUT_SECONDS * HZ) expected v s s1.
Proof using clock HK.
  intros Hexp HHZ Hf. unfold engine_service_wb_monitor, kcall, emit. exec.
  rewrite (proj2 (Z.eqb_neq _ _)) by done.
  cbn [trace_of traced_est with_trace].
  set (j := kernel_answer (st_trace s) "jiffies" []).
  assert (Ej : u64 j = u64 (time (st_trace s))) by apply (ck_reads _ _ clock).
  rewrite Ej, u64_add_l. set (limit := _ + _ * HZ) in *.
  set (s1 := upd_field st_trace _ s).
  destruct (wb_poll_ends fuel limit expected 0 (st_trace s) (st_trace s) s1)
    as (v & s2 & E & He).
  - split; [by exists []|by apply extends_cons|cbn; lia|lia|lia].
  - cbn. lia.
  - exists v, s2. split; [exact E|]. eapply poll_ended_step; [|exact He].
    by eexists [_].
Qed.

(** C33: The busy-wait of the polled mode, for an expected count that is not 0. On
    a clock that wraps around at 64 bits ([clock_ok]: time passes at least once in
    [K] readings, and less than [2 ^ 62] ticks between two of them)
    [engine_service_wb_monitor] returns, and with the fuel that the time limit
    allows for: the value is the last one the device wrote back, and either it has
    an error or at least the expected count, or it has neither and more than
    [POLL_TIMEOUT_SECONDS] have passed since the start.  [engine_service_poll]
    then services the engine with this value, unless it is 0, and returns the
    result of the service. *)
Theorem engine_service_poll_returns HZ fuel expected s :
  e_magic (st_eng s) = MAGIC_ENGINE -> expected <> 0 ->
  0 <= POLL_TIMEOUT_SECONDS * HZ < 2 ^ 62 ->
  K * (POLL_TIMEOUT_SECONDS * HZ + 1) + 1 <= Z.of_nat fuel ->
  exists v s1,
    engine_service_wb_monitor HZ fuel expected s = (Some v, s1) /\
    only_trace s s1 /\
    (exists tr, extends (st_trace s) tr /\ extends tr (st_trace s1) /\
       v = u32 (wb_answer tr)) /\
    (poll_done expected v \/
     (~ poll_done expected v /\
      time (st_trace s) + POLL_TIMEOUT_SECONDS * HZ < time (st_trace s1))) /\
    engine_service_poll HZ fuel expected s =
      if v =? 0 then (Some 0, s1)
      else let (rv, s2) := engine_service (i32 v) s1 in (Some rv, s2).
Proof using clock HK.
  intros Hm Hexp HHZ Hf.
  destruct (wb_monitor_ends HZ fuel expected s Hexp HHZ Hf) as (v & s1 & E & He).
  destruct He as (Ho & Htr & Hor). exists v, s1. repeat (split; [done|]).
  unfold engine_service_poll. exec. rewrite Hm, Z.eqb_refl. cbn [negb]. exec.
  rewrite E. cbn [fst snd]. destruct (v =? 0); [done|]. exec.
  by destruct (engine_service (i32 v) s1).
Qed.
End ends.
End poll.

(** * Polled completion *)

Section polled.
Context `{Platform} `{ModParams}.

(** The first look at the writeback shows the completed descriptors of the first
    [k + 1] queued transfers, at least [expected] of them, and no error. *)
Record polled (expected : Z) (k : nat) (s : est) : Prop := {
  pl_queued : (k < length (queue s))%nat;
  pl_running : e_running (st_eng s) = true;
  pl_magic : e_magic (st_eng s) = MAGIC_ENGINE;
  pl_no_error : status_error (st_eng s) = false;
  pl_sum : desc_sum (st_xfers s) (take (S k) (queue s)) < 2 ^ 32;
  pl_expected : 0 < expected <=
    u32 (e_desc_dequeued (st_eng s) + desc_sum (st_xfers s) (take (S k) (queue s)));
  pl_writeback : forall v,
    wb_answer (Call "jiffies" [] v :: st_trace s) =
    u32 (e_desc_dequeued (st_eng s) + desc_sum (st_xfers s) (take (S k) (queue s)));
  pl_width :
    u32 (e_desc_dequeued (st_eng s) + desc_sum (st_xfers s) (take (S k) (queue s)))
    < 2 ^ 24;
}.

Lemma small_count n :
  0 <= n < 2 ^ 24 ->
  i32 n = n /\ u32 (Z.land n WB_COUNT_MASK) = n /\ u32 (Z.land n WB_ERR_MASK) = 0 /\
  has_bits n WB_ERR_MASK = false.
Proof.
  intros Hn. assert (E : Z.land n WB_ERR_MASK = 0).
  { apply Z.bits_inj'. intros i Hi. rewrite Z.land_spec, Z.bits_0.
    change WB_ERR_MASK with (2 ^ 31). rewrite Z.pow2_bits_eqb by lia.
    destruct (Z.eqb_spec 31 i) as [<-|]; [|by rewrite andb_false_r].
    rewrite andb_true_r. apply Z.testbit_false; [lia|]. by rewrite Z.div_small by lia. }
  split; [apply i32_small; lia|]. split; [|split].
  - change WB_COUNT_MASK with (Z.ones 24). rewrite Z.land_ones, Z.mod_small by lia.
    apply u32_small. lia.
  - by rewrite E.
  - unfold has_bits. by rewrite E.
Qed.

(** The service with a count from the writeback. *)
Lemma service_polled_run n k s :
  sys_inv s -> e_running (st_eng s) = true ->
  status_error (st_eng s) = false -> (k < length (queue s))%nat ->
  desc_sum (st_xfers s) (take (S k) (queue s)) < 2 ^ 32 ->
  n = u32 (e_desc_dequeued (st_eng s) +
           desc_sum (st_xfers s) (take (S k) (queue s))) ->
  0 < n < 2 ^ 24 ->
  let s' := snd (engine_service n s) in
  retires_to completed (take (S k) (queue s)) s s' /\
  queue s' = drop (S k) (queue s) /\
  e_running (st_eng s') = negb (list_empty (queue s')).
Proof.
  intros [Hok _ _ Hf] Hr Herr Hk Hsum Hn Hn0. unfold engine_service.
  destruct (small_count n ltac:(lia)) as (_ & -> & -> & _). exec. rewrite Hr.
  cbn [negb]. rewrite (proj2 (Z.eqb_neq n 0)) by lia.
  change (0 =? 0) with true. cbn [orb negb]. exec.
  change (0 <? 0) with false. cbv iota. exec.
  match goal with |- context [(if ?c then engine_service_shutdown else ret 0) s] =>
    destruct (service_stop_run c completed s) as (s1 & E & R1 & F1 & F2 & F3 & _)
  end.
  rewrite E. cbn [fst snd]. change (0 <? 0) with false. cbv iota. exec.
  rewrite (proj2 (Z.eqb_neq n 0)) by lia. cbn [negb].
  assert (Hx1 : st_xfers s1 = st_xfers s)
    by exact (map_eq _ _ (fun i => rt_others _ _ _ _ R1 i (not_elem_of_nil i))).
  pose proof (rt_queue _ _ _ _ R1) as Hq1. cbn in Hq1.
  destruct (service_transfers_exact n k s1) as [R2 Er].
  - by eapply retires_queue_ok.
  - by rewrite (rt_eop _ _ _ _ R1).
  - unfold status_error in *. by rewrite F1, F2.
  - by rewrite <- Hq1.
  - by rewrite Hx1, <- Hq1.
  - by rewrite F3, Hx1, <- Hq1.
  - rewrite <- Hq1 in R2.
    pose proof (retires_trans _ _ _ _ _ _ (proj1 Hok) R1 R2) as R.
    split; [exact R|]. split; [|exact Er].
    pose proof (rt_queue _ _ _ _ R) as Eq. cbn [app] in Eq.
    rewrite <- (take_drop (S k) (queue s)) in Eq at 1.
    symmetry. by eapply app_inv_head.
Qed.

(** A poll whose first look succeeds completes the transfers. *)
Lemma poll_completes_run HZ fuel expected k s :
  sys_inv s -> polled expected k s -> (0 < fuel)%nat ->
  let s' := snd (engine_service_poll HZ fuel expected s) in
  retires_to completed (take (S k) (queue s)) s s' /\
  queue s' = drop (S k) (queue s) /\
  e_running (st_eng s') = negb (list_empty (queue s')).
Proof.
  intros Hinv [Hk Hr Hm Herr Hsum Hexp Hwb Hw] Hfuel.
  destruct fuel as [|fuel]; [lia|].
  set (n := u32 _) in *. 
  assert (Hn : 0 < n < 2 ^ 24) by lia.
  destruct (small_count n ltac:(lia)) as (Ei & _ & _ & Eb).
  unfold engine_service_poll. exec. rewrite Hm, Z.eqb_refl. cbn [negb]. exec.
  unfold engine_service_wb_monitor, kcall, emit. exec.
  rewrite (proj2 (Z.eqb_neq expected 0)) by lia. cbn [trace_of traced_est with_trace].
  set (s1 := upd_field st_trace _ s).
  destruct (wb_poll_step fuel (u64 (u64 (kernel_answer (st_trace s) "jiffies" []) +
    POLL_TIMEOUT_SECONDS * HZ)) expected 0 s1) as (s2 & (Ho & _) & ->).
  change (st_trace s1) with
    (Call "jiffies" [] (kernel_answer (st_trace s) "jiffies" []) :: st_trace s).
  rewrite Hwb, (u32_small n), Eb, (proj2 (Z.leb_le expected n)) by lia.
  cbn [fst snd]. rewrite (proj2 (Z.eqb_neq n 0)) by lia. exec. rewrite Ei.
  assert (Ho' : only_trace s s2) by (etrans; [by eexists [_]|exact Ho]).
  destruct (only_trace_inv _ _ Ho' Hinv) as [Hinv2 _].
  destruct Ho' as [tr E2]. 
  assert (R0 : retires_to completed [] s s2).
  { apply retires_nil; try (by rewrite E2). rewrite E2. by exists tr. }
  destruct (service_polled_run n k s2) as (R & Hq & Hrun); try (by rewrite E2);
    [done|lia|].
  assert (Eq2 : queue s2 = queue s) by (by rewrite E2).
  rewrite Eq2 in R, Hq. split; [|by split].
  exact (retires_trans _ _ _ _ _ _ (proj1 (inv_queue _ Hinv)) R0 R).
Qed.
End polled.

(** A clock two ticks before it wraps, that advances at each reading, and a device
    that never writes back. *)
Definition stuck_platform : Platform := {|
  mmio_answer _ _ := 0;
  wb_answer _ := 0;
  kernel_answer t f _ :=
    (if String.eqb f "jiffies" then u64 (2 ^ 64 - 2 + ticks t) else 0);
  sizeof_xdma_request_cb := 256;
  VMALLOC_START := 2 ^ 47;
  VMALLOC_END := 2 ^ 48;
|}.

Lemma ticks_extends t t' : extends t t' -> ticks t <= ticks t'.
Proof.
  intros [tr ->]. induction tr as [|e tr IH]; cbn [app]; [lia|].
  pose proof (ticks_event e (tr ++ t)). lia.
Qed.

Lemma stuck_clock : @clock_ok stuck_platform 1 (fun t => 2 ^ 64 - 2 + ticks t).
Proof.
  split; intros t; cbn [kernel_answer stuck_platform String.eqb].
  - apply Zmod_mod.
  - intros t' Ht%ticks_extends. lia.
  - intros t' Ht. lia.
  - intros t' Ht. lia.
Qed.

Lemma engine_service_poll_returns_witness :
  exists v s1,
    @engine_service_wb_monitor stuck_platform 1 12 2 (ex_state true)
    = (Some v, s1).
Proof.
  destruct (@engine_service_poll_returns stuck_platform poll_params 1 _
    stuck_clock ltac:(lia) 1 12 2 (ex_state true)) as (v & s1 & E & _).
  - reflexivity.
  - lia.
  - vm_compute; split; congruence.
  - vm_compute. congruence.
  - by exists v, s1.
Defined.
