(* ===== verification/ThreadsProps.v ===== *)
(** The completion threads share out the engines consistently. *)
From S2P Require Import Prelude Hw Desc Types Engine EngineFacts EngineSys.
From S2P Require Import ServiceFacts Threads Examples PollProps.

(** * Invariant *)

(** Every thread counts the items of its list, and an engine is in the list of
    exactly the thread it names. *)
Record threads_inv (s : tst) : Prop := {
  ti_cnt : 0 <= t_thread_cnt s <= zlength (threads s);
  ti_work : forall i thp, threads s !! i = Some thp ->
    k_work_cnt thp = zlength (k_work_list thp) /\ NoDup (k_work_list thp) /\
    zlength (k_work_list thp) < 2 ^ 31;
  ti_assign : forall i thp e, threads s !! i = Some thp ->
    e ∈ k_work_list thp <-> cmplthp s e = Some i;
  ti_range : forall e i, cmplthp s e = Some i -> is_Some (threads s !! i);
}.

Lemma threads_upd_thread i f s j :
  threads (upd_thread i f s) !! j =
  if decide (i = j) then f <$> threads s !! j else threads s !! j.
Proof.
  unfold threads, upd_thread. cbn. destruct (t_threads s) as [l|]; cbn.
  - destruct (decide (i = j)) as [->|].
    + by rewrite list_lookup_alter_eq.
    + by rewrite list_lookup_alter_ne.
  - by case_decide.
Qed.

Lemma zlength_upd_thread i f s :
  zlength (threads (upd_thread i f s)) = zlength (threads s).
Proof.
  unfold threads, upd_thread, zlength. cbn.
  destruct (t_threads s); cbn; [by rewrite length_alter|done].
Qed.

Lemma cmplthp_upd_thread i f s e : cmplthp (upd_thread i f s) e = cmplthp s e.
Proof. done. Qed.

Lemma cmplthp_upd_engine e f s e' :
  cmplthp (upd_engine e f s) e' =
  if decide (e = e')
  then t_engines s !! e' ≫= fun es => e_cmplthp (f (st_eng es))
  else cmplthp s e'.
Proof.
  unfold cmplthp, upd_engine. cbn. rewrite lookup_alter.
  case_decide; subst; [|done]. by destruct (t_engines s !! e').
Qed.

Lemma filter_ne_perm (e : nat) (l : list nat) :
  NoDup l -> e ∈ l -> l ≡ₚ e :: filter (fun x => x <> e) l.
Proof.
  induction 1 as [|x l Hx Hnd IH]; intros Hin; [by apply not_elem_of_nil in Hin|].
  destruct (decide (x = e)) as [->|Hne].
  - rewrite filter_cons_False by (by intros ?). by rewrite filter_ne_id.
  - rewrite filter_cons_True by done.
    apply elem_of_cons in Hin as [?|Hin]; [done|].
    rewrite (IH Hin) at 1. by rewrite Permutation_swap.
Qed.

(** * Choosing a thread *)

Lemma select_loop_spec ths i j v :
  exists k, select_loop ths i (Some j) v = Some k /\
    (k = j \/ (i <= k < i + length ths)%nat) /\
    (k <> j -> exists thp, ths !! (k - i)%nat = Some thp /\
                 (k_work_cnt thp = 0 \/ k_work_cnt thp < v)) /\
    (Exists (fun thp => k_work_cnt thp = 0) ths -> 0 < v ->
     exists thp, (i <= k)%nat /\ ths !! (k - i)%nat = Some thp /\
                 k_work_cnt thp = 0) /\
    (v = 0 -> Forall (fun thp => 0 <= k_work_cnt thp) ths ->
     k = j \/ exists thp, (i <= k)%nat /\ ths !! (k - i)%nat = Some thp /\
                          k_work_cnt thp = 0).
Proof.
  revert i j. induction ths as [|thp ths IH]; intros i j; cbn [select_loop].
  { exists j. repeat split; try done; [by left|intros Hex; by inversion Hex|].
    by left. }
  destruct (Z.eqb_spec (k_work_cnt thp) 0) as [Hz|Hz].
  { exists i. cbn [length]. rewrite Nat.sub_diag.
    split; [done|]. split; [right; lia|]. split; [intros _; exists thp; auto|].
    split; [intros _ _; exists thp; auto|]. intros _ _. right. exists thp. auto. }
  assert (Hshift : forall k, (S i <= k)%nat ->
    (thp :: ths) !! (k - i)%nat = ths !! (k - S i)%nat).
  { intros k Hk. replace (k - i)%nat with (S (k - S i))%nat by lia. done. }
  destruct (Z.ltb_spec (k_work_cnt thp) v) as [Hlt|Hge].
  - destruct (IH (S i) i) as (k & E & Hr & Hk & He & H0). exists k.
    split; [done|]. cbn [length]. split; [right; lia|]. split; [|split].
    + intros _. destruct (decide (k = i)) as [->|Hne].
      * exists thp. rewrite Nat.sub_diag. auto.
      * destruct (Hk Hne) as (t & Ht & ?). exists t. rewrite Hshift by lia. auto.
    + intros Hex Hv. apply Exists_cons in Hex as [?|Hex]; [done|].
      destruct (He Hex Hv) as (t & ? & Ht & ?). exists t.
      rewrite Hshift by lia. split; [lia|done].
    + intros -> Hall. inversion Hall; subst. lia.
  - destruct (IH (S i) j) as (k & E & Hr & Hk & He & H0). exists k.
    split; [done|]. cbn [length]. split; [lia|]. split; [|split].
    + intros Hne. destruct (Hk Hne) as (t & Ht & ?). exists t.
      rewrite Hshift by lia. auto.
    + intros Hex Hv. apply Exists_cons in Hex as [?|Hex]; [done|].
      destruct (He Hex Hv) as (t & ? & Ht & ?). exists t.
      rewrite Hshift by lia. split; [lia|done].
    + intros Hv Hall. inversion Hall; subst.
      destruct (H0 eq_refl) as [?|(t & ? & Ht & ?)]; [done|by left|right].
      exists t. rewrite Hshift by lia. split; [lia|done].
Qed.

(** An idle thread is chosen if there is one. *)
Lemma select_loop_idle ths :
  ths <> [] -> Forall (fun thp => 0 <= k_work_cnt thp) ths ->
  exists k thp, select_loop ths 0 None 0 = Some k /\ ths !! k = Some thp /\
    (Exists (fun thp => k_work_cnt thp = 0) ths -> k_work_cnt thp = 0).
Proof.
  intros Hne Hall. destruct ths as [|t0 ths]; [done|]. cbn [select_loop].
  inversion Hall as [|? ? H0 Hall']; subst.
  destruct (select_loop_spec ths 1 0 (k_work_cnt t0)) as (k & E & Hr & Hk & He & Hz).
  exists k. destruct (decide (k = 0%nat)) as [->|Hk0].
  - exists t0. split; [done|]. split; [done|]. intros Hex.
    apply Exists_cons in Hex as [?|Hex]; [done|].
    destruct (Z.eq_dec (k_work_cnt t0) 0); [done|].
    destruct (He Hex ltac:(lia)) as (t & ? & _). lia.
  - destruct (Hk Hk0) as (t & Ht & Hcnt). exists t. split; [done|].
    assert (Hlk : (t0 :: ths) !! k = Some t).
    { replace k with (S (k - 1))%nat by lia. done. }
    split; [done|]. intros Hex.
    destruct (Z.eq_dec (k_work_cnt t0) 0) as [E0|E0].
    + destruct (Hz E0 Hall') as [?|(t' & ? & Ht' & ?)]; [done|]. congruence.
    + apply Exists_cons in Hex as [?|Hex]; [done|].
      destruct (He Hex ltac:(lia)) as (t' & ? & Ht' & ?). congruence.
Qed.

(** * Properties *)

Definition work_list_of (s : tst) (i : nat) : list nat :=
  from_option k_work_list [] (threads s !! i).

(** An engine moves from the thread it has to the thread [o], if any: the lists of
    the other threads stay as they are. *)
Lemma reassign_inv e o s s' :
  threads_inv s -> t_thread_cnt s' = t_thread_cnt s ->
  zlength (threads s') = zlength (threads s) ->
  (forall e', cmplthp s' e' = if decide (e = e') then o else cmplthp s e') ->
  (forall i, o = Some i -> is_Some (threads s !! i)) ->
  (forall j t', threads s' !! j = Some t' -> exists t, threads s !! j = Some t /\
     (t' = t /\ (o = Some j <-> cmplthp s e = Some j) \/
      k_work_cnt t' = zlength (k_work_list t') /\ NoDup (k_work_list t') /\
      zlength (k_work_list t') < 2 ^ 31 /\
      forall e', e' ∈ k_work_list t' <->
        if decide (e = e') then o = Some j else e' ∈ k_work_list t)) ->
  threads_inv s'.
Proof.
  intros [Hc Hw Ha Hr] Ecnt Elen Hcm Ho Ht.
  assert (Hsome : forall i, is_Some (threads s !! i) -> is_Some (threads s' !! i)).
  { intros i. rewrite !lookup_lt_is_Some. unfold zlength in Elen. lia. }
  split.
  - by rewrite Ecnt, Elen.
  - intros j t' Hj. destruct (Ht j t' Hj) as (t & Et & [[-> _]|(? & ? & ? & _)]);
      [by apply (Hw j)|done].
  - intros j t' e' Hj. destruct (Ht j t' Hj) as (t & Et & [[-> He]|(_ & _ & _ & He)]).
    + rewrite (Ha j t e' Et), Hcm. case_decide; subst; naive_solver.
    + rewrite He, Hcm. case_decide; [done|by apply Ha].
  - intros e' j. rewrite Hcm. intros Hj. apply Hsome.
    case_decide; [by apply Ho|by apply (Hr e')].
Qed.

(** [e] at the end of a list it is not in. *)
Lemma appended_work e thp :
  k_work_cnt thp = zlength (k_work_list thp) -> NoDup (k_work_list thp) ->
  e ∉ k_work_list thp -> zlength (k_work_list thp) + 1 < 2 ^ 31 ->
  u32 (k_work_cnt thp + 1) = zlength (k_work_list thp ++ [e]) /\
  NoDup (k_work_list thp ++ [e]) /\ zlength (k_work_list thp ++ [e]) < 2 ^ 31.
Proof.
  intros -> Hnd Hin Hl. pose proof (zlength_nonneg (k_work_list thp)).
  rewrite zlength_app. change (zlength [e]) with 1. rewrite u32_small by lia.
  split; [done|]. split; [|lia]. apply NoDup_app. split; [done|].
  split; [set_solver|apply NoDup_singleton].
Qed.

(** [e] out of a list it is in. *)
Lemma removed_work e thp :
  k_work_cnt thp = zlength (k_work_list thp) -> NoDup (k_work_list thp) ->
  e ∈ k_work_list thp -> zlength (k_work_list thp) < 2 ^ 31 ->
  let l := filter (fun x => x <> e) (k_work_list thp) in
  u32 (k_work_cnt thp - 1) = zlength l /\ NoDup l /\ zlength l < 2 ^ 31.
Proof.
  intros -> Hnd Hin Hl l. pose proof (filter_ne_perm e _ Hnd Hin) as Hperm.
  assert (Hlen : zlength (k_work_list thp) = 1 + zlength l).
  { unfold zlength. rewrite Hperm at 1. cbn [length]. fold l. lia. }
  pose proof (zlength_nonneg l). rewrite Hlen, u32_small by lia.
  split; [lia|]. split; [by apply NoDup_filter|lia].
Qed.

(** C31: Giving an unassigned engine to a thread: the choice is always one of the
    running threads, an idle one if there is any; exactly this thread's list
    grows by the engine, the engine names it, and the lists, the counts and
    the engines' own records stay consistent. *)
Theorem thread_add_work_spec e es s :
  threads_inv s -> 0 < t_thread_cnt s -> t_engines s !! e = Some es ->
  cmplthp s e = None ->
  (forall i, zlength (work_list_of s i) + 1 < 2 ^ 31) ->
  exists s' i thp, xdma_thread_add_work e s = Some s' /\
    threads s !! i = Some thp /\ Z.of_nat i < t_thread_cnt s /\
    (Exists (fun thp => k_work_cnt thp = 0)
       (take (Z.to_nat (t_thread_cnt s)) (threads s)) -> k_work_cnt thp = 0) /\
    cmplthp s' e = Some i /\
    work_list_of s' i = work_list_of s i ++ [e] /\
    (forall j, j <> i -> threads s' !! j = threads s !! j) /\
    threads_inv s'.
Proof.
  intros Hinv Hpos He Hnone Hroom. pose proof Hinv as [Hc Hw Ha Hr].
  set (ths := take (Z.to_nat (t_thread_cnt s)) (threads s)).
  assert (Hne : ths <> []).
  { subst ths. unfold zlength in Hc. destruct (threads s); cbn in *; [lia|].
    destruct (Z.to_nat (t_thread_cnt s)) eqn:E; [lia|done]. }
  assert (Hall : Forall (fun thp => 0 <= k_work_cnt thp) ths).
  { apply Forall_take, Forall_forall. intros t Ht.
    apply list_elem_of_lookup in Ht as [i Ht].
    destruct (Hw i t Ht) as (-> & _). apply zlength_nonneg. }
  destruct (select_loop_idle ths Hne Hall) as (i & thp & Esel & Ht & Hidle).
  unfold ths in Ht. apply lookup_take_Some in Ht as [Ht Hi].
  destruct (Hw i thp Ht) as (Ecnt & Hnd & Hlt).
  assert (Hnin : e ∉ k_work_list thp).
  { intros Hin. apply (Ha i thp e Ht) in Hin. congruence. }
  specialize (Hroom i) as Hri. unfold work_list_of in Hri. rewrite Ht in Hri.
  cbn in Hri.
  unfold xdma_thread_add_work, select_thread. fold ths. rewrite Esel. cbn.
  do 3 eexists. split; [reflexivity|]. split; [exact Ht|]. split; [lia|].
  split; [exact Hidle|].
  set (s1 := upd_thread i _ s).
  assert (Hthr : forall f, threads (upd_engine e f s1) = threads s1) by done.
  assert (Hcm : forall e', cmplthp (upd_engine e (fun eng =>
      eng <| e_intr_work_cpu := Z.of_nat i |> <| e_cmplthp := Some i |>) s1) e' =
      if decide (e = e') then Some i else cmplthp s e').
  { intros e'. rewrite cmplthp_upd_engine. case_decide; subst; [|done].
    cbn. by rewrite He. }
  assert (Hlk : forall j, threads s1 !! j = if decide (i = j)
    then (fun t => t <| k_work_list ::= fun l => l ++ [e] |>
                     <| k_work_cnt ::= fun n => u32 (n + 1) |>) <$> threads s !! j
    else threads s !! j) by (intros; apply threads_upd_thread).
  split; [by rewrite Hcm, decide_True|].
  split; [unfold work_list_of; rewrite Hthr, Hlk, decide_True, Ht by done; done|].
  split; [intros j Hj; by rewrite Hthr, Hlk, decide_False|].
  apply (reassign_inv e (Some i) s); [done|done|by apply zlength_upd_thread|exact Hcm| |].
  - intros ? [= <-]. by rewrite Ht.
  - intros j t. rewrite Hthr, Hlk. case_decide as Hij; [subst j|].
    + rewrite Ht. intros [= <-]. exists thp. split; [done|]. right. cbn.
      destruct (appended_work e thp Ecnt Hnd Hnin ltac:(lia)) as (? & ? & ?).
      do 3 (split; [done|]). intros e'. rewrite elem_of_app, list_elem_of_singleton.
      case_decide; subst; naive_solver.
    + intros Htj. exists t. split; [done|]. left. split; [done|]. naive_solver congruence.
Qed.

(** C32: Taking an engine back: it names no thread afterwards, it is in no
    thread's list, the other engines keep their threads, and the records stay
    consistent. *)
Theorem thread_remove_work_spec e s :
  threads_inv s ->
  let s' := xdma_thread_remove_work e s in
  cmplthp s' e = None /\ (forall i, e ∉ work_list_of s' i) /\
  (forall e', e' <> e -> cmplthp s' e' = cmplthp s e') /\ threads_inv s'.
Proof.
  intros Hinv s'. pose proof Hinv as [Hc Hw Ha Hr].
  unfold xdma_thread_remove_work in s'.
  set (s1 := upd_engine e (fun eng => eng <| e_cmplthp := None |>) s).
  assert (Hcm : forall e', cmplthp s1 e' =
    if decide (e = e') then None else cmplthp s e').
  { intros e'. subst s1. rewrite cmplthp_upd_engine. case_decide; [|done].
    by destruct (t_engines s !! e'). }
  set (f := fun thp : xdma_kthread => thp
    <| k_work_list ::= filter (fun x => x <> e) |>
    <| k_work_cnt ::= fun n => u32 (n - 1) |>).
  assert (Hs' : (forall e', cmplthp s' e' = cmplthp s1 e') /\
    t_thread_cnt s' = t_thread_cnt s /\ zlength (threads s') = zlength (threads s) /\
    forall j, threads s' !! j =
      if decide (cmplthp s e = Some j) then f <$> threads s !! j
      else threads s !! j).
  { subst s'. fold s1. destruct (cmplthp s e) as [i|].
    - split; [done|]. split; [done|].
      split; [exact (zlength_upd_thread i f s1)|].
      intros j. rewrite threads_upd_thread.
      repeat case_decide; try congruence; done.
    - split; [done|]. split; [done|]. split; [done|]. intros j.
      by case_decide. }
  destruct Hs' as (Hcm' & Hcnt' & Hlen' & Hlk). clearbody s'.
  split; [by rewrite Hcm', Hcm, decide_True|]. split; [|split].
  - intros j Hin. unfold work_list_of in Hin. rewrite Hlk in Hin.
    destruct (threads s !! j) as [t|] eqn:Ht; [|by case_decide; apply not_elem_of_nil in Hin].
    case_decide as Hd; cbn in Hin.
    + apply list_elem_of_filter in Hin as [? _]. done.
    + by apply (Ha j t e Ht) in Hin.
  - intros e' Hne. by rewrite Hcm', Hcm, decide_False.
  - apply (reassign_inv e None s); [done|done|done| |done|].
    + intros e'. by rewrite Hcm', Hcm.
    + intros j t. rewrite Hlk. case_decide as Hd.
      * destruct (threads s !! j) as [t0|] eqn:Ht; [|done]. intros [= <-].
        exists t0. split; [done|]. right. destruct (Hw j t0 Ht) as (Ecnt & Hnd & Hlt).
        apply (Ha j t0 e Ht) in Hd. cbn.
        destruct (removed_work e t0 Ecnt Hnd Hd Hlt) as (? & ? & ?).
        do 3 (split; [done|]). intros e'. rewrite list_elem_of_filter.
        case_decide; naive_solver.
      * intros Ht. exists t. split; [done|]. left. split; [done|]. naive_solver.
Qed.

(** The loop that looks for a thread compares with the load of the first
    thread only: of loads 3, 1 and 2 it takes the 2. *)
Lemma thread_choice_not_least :
  select_loop [zero_kthread <| k_work_cnt := 3 |>;
               zero_kthread <| k_work_cnt := 1 |>;
               zero_kthread <| k_work_cnt := 2 |>] 0 None 0 = Some 2%nat.
Proof. reflexivity. Qed.

Section pass.
Context `{Platform} `{ModParams}.

(** The count of completed descriptors that the thread polls engine [es] for: the
    threshold of its first queued transfer. *)
Definition polled_count (es : est) : Z :=
  match queue es with
  | [] => 0
  | id :: _ => u32 (x_desc_cmpl_th (default zero_transfer (st_xfers es !! id)))
  end.

Lemma cmpl_status_proc_run HZ fuel garbage es :
  queue es <> [] ->
  snd (xdma_thread_cmpl_status_proc HZ fuel garbage es) =
  snd (engine_service_poll HZ fuel (polled_count es) es).
Proof.
  intros Hq. unfold xdma_thread_cmpl_status_proc, polled_count, queue in *. exec.
  destruct (e_transfer_list (st_eng es)) as [|id q]; [done|]. cbn [list_first head].
  by exec.
Qed.

Lemma pass_loop HZ fuel garbage l s :
  NoDup l ->
  let s' := foldl (fun s e =>
    s <| t_engines ::= alter (fun es =>
           snd (xdma_thread_cmpl_status_proc HZ fuel garbage es)) e |>) s l in
  forall e, t_engines s' !! e =
    if decide (e ∈ l)
    then (fun es => snd (xdma_thread_cmpl_status_proc HZ fuel garbage es)) <$>
           t_engines s !! e
    else t_engines s !! e.
Proof.
  revert s. induction l as [|h l IH]; intros s Hnd s' e.
  { by rewrite decide_False by apply not_elem_of_nil. }
  apply NoDup_cons in Hnd as [Hh Hnd]. subst s'. cbn [foldl].
  rewrite IH by done. cbn. rewrite lookup_alter.
  repeat case_decide; subst; set_solver.
Qed.

Lemma pass_run HZ fuel garbage i thp s e :
  threads_inv s -> threads s !! i = Some thp ->
  t_engines (xthread_pass HZ fuel garbage i s) !! e =
    if decide (e ∈ k_work_list thp)
    then (fun es => snd (xdma_thread_cmpl_status_proc HZ fuel garbage es)) <$>
           t_engines s !! e
    else t_engines s !! e.
Proof.
  intros [_ Hw _ _] Ht. destruct (Hw i thp Ht) as (Ecnt & Hnd & Hlt).
  unfold xthread_pass. rewrite threads_upd_thread, decide_True, Ht by done.
  cbn [fmap option_fmap option_map].
  change (k_work_cnt (thp <| k_schedule := 0 |>)) with (k_work_cnt thp).
  change (k_work_list (thp <| k_schedule := 0 |>)) with (k_work_list thp).
  destruct (Z.eqb_spec (k_work_cnt thp) 0) as [E|E].
  - destruct (k_work_list thp); [|unfold zlength in Ecnt; cbn in Ecnt; lia].
    by rewrite decide_False by apply not_elem_of_nil.
  - by rewrite pass_loop by done.
Qed.

(** C34: One pass of a completion thread.  It polls every engine of the thread's
    work list that has a transfer queued, each one for the threshold of its
    first transfer, and touches no engine outside the list.  An engine whose
    writeback shows at the first look the descriptors of its first [k + 1]
    transfers, at least the threshold and no error, has these transfers
    completed and their waiters woken by the pass; the others stay queued, and
    the engine goes on running if there are any. *)
Theorem thread_pass_polls HZ fuel garbage i thp s :
  threads_inv s -> threads s !! i = Some thp -> (0 < fuel)%nat ->
  let s' := xthread_pass HZ fuel garbage i s in
  (forall e, e ∉ k_work_list thp -> t_engines s' !! e = t_engines s !! e) /\
  (forall e es, e ∈ k_work_list thp -> t_engines s !! e = Some es ->
     queue es <> [] ->
     t_engines s' !! e =
       Some (snd (engine_service_poll HZ fuel (polled_count es) es))) /\
  (forall e es k, e ∈ k_work_list thp -> t_engines s !! e = Some es ->
     sys_inv es -> polled (polled_count es) k es ->
     exists es', t_engines s' !! e = Some es' /\
       (forall id, id ∈ take (S k) (queue es) ->
          state_of (st_xfers es') id = Some TRANSFER_STATE_COMPLETED /\
          emitted (WakeTransfer id) (st_trace es) (st_trace es')) /\
       queue es' = drop (S k) (queue es) /\
       e_running (st_eng es') = negb (list_empty (queue es'))).
Proof.
  intros Hinv Ht Hfuel s'.
  assert (Hrun : forall e es, e ∈ k_work_list thp -> t_engines s !! e = Some es ->
    queue es <> [] ->
    t_engines s' !! e =
      Some (snd (engine_service_poll HZ fuel (polled_count es) es))).
  { intros e es He Hes Hq. subst s'.
    rewrite (pass_run _ _ _ _ thp), decide_True, Hes by done.
    cbn [fmap option_fmap option_map]. by rewrite cmpl_status_proc_run. }
  split; [|split; [exact Hrun|]].
  - intros e He. subst s'. by rewrite (pass_run _ _ _ _ thp), decide_False by done.
  - intros e es k He Hes Hsys Hp. eexists. split; [apply (Hrun e es He Hes)|].
    + destruct Hp as [Hk _ _ _ _ _ _ _]. intros E. rewrite E in Hk. cbn in Hk. lia.
    + destruct (poll_completes_run HZ fuel (polled_count es) k es Hsys Hp Hfuel)
        as (R & Hq & Hr). split; [|by split]. intros id Hid.
      destruct (rt_done _ _ _ _ R id Hid) as (st & Est & Hst & He'). by destruct st.
Qed.
End pass.

(** * Witnesses *)

(** Two threads and one engine that has none. *)
Definition ex_tst : tst := {|
  t_threads := Some [zero_kthread; zero_kthread];
  t_thread_cnt := 2;
  t_engines := {[ 7%nat := ex_idle_state ]};
  t_trace := [];
|}.

Lemma ex_cmplthp e : cmplthp ex_tst e = None.
Proof.
  unfold cmplthp, ex_tst. cbn [t_engines].
  destruct (decide (e = 7%nat)) as [->|]; [done|].
  by rewrite lookup_singleton_ne.
Qed.

Lemma ex_tst_inv : threads_inv ex_tst.
Proof.
  split; [vm_compute; split; congruence|..].
  - intros [|[|i]] thp E; try (by injection E as <-; repeat split; constructor).
    done.
  - intros i thp e E. rewrite ex_cmplthp.
    assert (k_work_list thp = []) as ->
      by (destruct i as [|[|i]]; [by injection E as <-..|done]).
    split; [by intros ?%not_elem_of_nil|done].
  - intros e i. by rewrite ex_cmplthp.
Qed.

Lemma thread_add_work_spec_witness :
  exists s', xdma_thread_add_work 7 ex_tst = Some s' /\ threads_inv s'.
Proof.
  destruct (thread_add_work_spec 7 ex_idle_state ex_tst ex_tst_inv ltac:(done)
    eq_refl (ex_cmplthp 7)) as (s' & _ & _ & E & _ & _ & _ & _ & _ & _ & Hinv).
  - intros [|[|i]]; reflexivity.
  - exists s'. exact (conj E Hinv).
Defined.

Lemma thread_remove_work_spec_witness :
  cmplthp (xdma_thread_remove_work 7 ex_tst) 7 = None.
Proof. exact (proj1 (thread_remove_work_spec 7 ex_tst ex_tst_inv)). Defined.

(** A thread with the engine 7, whose two queued transfers have two and three
    descriptors; the device has written back the first two. *)
Definition ex_polled : est :=
  (ex_state true) <| st_xfers ::= fmap (fun x => x <| x_desc_cmpl_th := x_desc_num x |>) |>
    <| st_eng ::= fun e => e <| e_cmplthp := Some 0%nat |> |>.

Definition ex_busy_tst : tst := {|
  t_threads := Some [zero_kthread <| k_work_list := [7%nat] |> <| k_work_cnt := 1 |>];
  t_thread_cnt := 1;
  t_engines := {[ 7%nat := ex_polled ]};
  t_trace := [];
|}.

Definition wb_platform (n : Z) : Platform := {|
  mmio_answer _ _ := 0;
  wb_answer _ := n;
  kernel_answer _ _ _ := 0;
  sizeof_xdma_request_cb := 256;
  VMALLOC_START := 2 ^ 47;
  VMALLOC_END := 2 ^ 48;
|}.

Lemma ex_busy_inv : threads_inv ex_busy_tst.
Proof.
  assert (Hc : forall e, cmplthp ex_busy_tst e = if decide (e = 7%nat) then Some O else None).
  { intros e. unfold cmplthp, ex_busy_tst. cbn [t_engines].
    case_decide; [by subst|]. by rewrite lookup_singleton_ne by done. }
  split; [vm_compute; split; congruence|..].
  - intros [|i] thp E; [|done]. injection E as <-.
    repeat split. apply NoDup_singleton.
  - intros i thp e E. rewrite Hc. destruct i as [|i]; [|done]. injection E as <-.
    cbn. rewrite list_elem_of_singleton. by case_decide.
  - intros e i. rewrite Hc. case_decide; [|done]. intros [= <-]. by eexists.
Qed.

Lemma ex_polled_inv : sys_inv ex_polled.
Proof.
  split; [split|..]; unfold queue; cbn.
  - by repeat constructor; set_solver.
  - repeat constructor; (eexists; split; [reflexivity|cbn; lia]).
  - repeat constructor; (eexists; split; [reflexivity|by left]).
  - done.
  - done.
Qed.

Lemma thread_pass_polls_witness :
  exists es',
    t_engines (@xthread_pass (wb_platform 2) poll_params 250 10 0 0 ex_busy_tst)
      !! 7%nat = Some es' /\
    state_of (st_xfers es') 1 = Some TRANSFER_STATE_COMPLETED /\
    queue es' = [2%nat] /\ e_running (st_eng es') = true.
Proof.
  destruct (@thread_pass_polls (wb_platform 2) poll_params 250 10 0 0 _
    ex_busy_tst ex_busy_inv eq_refl ltac:(lia)) as (_ & _ & W).
  destruct (W 7%nat ex_polled O) as (es' & E & Hd & Hq & Hr).
  - cbn. set_solver.
  - reflexivity.
  - exact ex_polled_inv.
  - split; try (vm_compute; reflexivity); try (vm_compute; lia).
    + vm_compute. split; congruence.
  - exists es'. split; [exact E|]. split; [|split; [exact Hq|by rewrite Hr, Hq]].
    apply (Hd 1%nat). unfold queue. cbn. set_solver.
Defined.
