(* ===== verification/NupaDma.v ===== *)
(** The network driver's use of the DMA library: [xdma_transfer_data] moves its
    whole buffer. *)
From S2P Require Import Prelude Hw Desc Types Request Engine EngineFacts.
From S2P Require Import EngineSys Transfer TransferFacts Submit.
From S2P Require Import SubmitFacts SubmitProps Nupa NupaFacts Examples.

(** * Lengths *)

Lemma sum_len_bytes req ds pre :
  rq_sdesc req = pre ++ ds -> Forall (fun sd => 0 <= sd_len sd) ds ->
  sum_len req (zlength pre) (length ds) = zlength (concat (map sd_bytes ds)).
Proof.
  revert pre. induction ds as [|sd ds IH]; intros pre E Hall; [done|].
  apply Forall_cons in Hall as [Hsd Hall].
  cbn [sum_len length map concat]. rewrite zlength_app. unfold sd_bytes at 1.
  rewrite zlength_seqZ by done. rewrite <- (IH (pre ++ [sd])).
  - rewrite zlength_app. f_equal. unfold sd_len_at, zlookup, zlength. rewrite E.
    destruct (Z.ltb_spec (Z.of_nat (length pre)) 0); [lia|].
    by rewrite Nat2Z.id, list_lookup_middle.
  - by rewrite <- app_assoc.
  - done.
Qed.

Lemma request_bytes_covered req n :
  rq_sw_desc_cnt req = zlength (rq_sdesc req) ->
  Forall (fun sd => 0 < sd_len sd) (rq_sdesc req) ->
  zlength (concat (map sd_bytes (rq_sdesc req))) = n -> request_bytes req = n.
Proof.
  intros Hc Hall <-. unfold request_bytes. rewrite Hc. unfold zlength at 1.
  rewrite Nat2Z.id. apply (sum_len_bytes req (rq_sdesc req) []); [done|].
  eapply Forall_impl; [exact Hall|]. cbn. lia.
Qed.

(** * The scatter-gather table of a buffer *)

Section table.
Context `{Platform}.

(** A kernel with memory to spare, which maps every page at a bus address of
    its own. *)
Record kernel_ok : Prop := {
  ko_alloc : forall t size, kernel_answer t "kzalloc" [size] <> 0;
  ko_table : forall t n, kernel_answer t "sg_alloc_table" [n] = 0;
  ko_bus : forall t buf n, 0 <= kernel_answer t "sg_set_buf" [buf; n] < 2 ^ 64 - 4096;
  ko_map : forall t n, kernel_answer t "dma_map_sg" [n] = n;
}.

Lemma sg_of_segments_run segs s :
  kernel_ok -> Forall (fun seg => 0 <= snd seg <= 4096) segs ->
  exists sgs s', sg_of_segments segs s = (sgs, s') /\ only_trace s s' /\
    Forall sg_wf sgs /\ Forall (fun sg => sg_dma_len sg <= 4096) sgs /\
    zlength sgs = zlength segs /\
    zlength (concat (map sg_bytes sgs)) = zlength (concat (map segment_bytes segs)).
Proof.
  intros Hk. revert s. induction segs as [|[buf n] segs IH]; intros s Hall.
  { exists [], s. split; [done|]. split; [reflexivity|]. by repeat constructor. }
  apply Forall_cons in Hall as [Hn Hall]. cbn [snd] in Hn.
  cbn [sg_of_segments]. exec. rewrite kcall_run. cbn [fst snd].
  set (s1 := upd_field st_trace _ s).
  destruct (IH s1 Hall) as (sgs & s' & -> & Ht & Hwf & Hmax & Hl & Hb). cbn [fst snd].
  pose proof (ko_bus Hk (st_trace s) buf n) as Hbus.
  set (bus := kernel_answer _ _ _) in *.
  exists (Build_scatterlist bus n :: sgs), s'. split; [done|]. split.
  { destruct Ht as [tr ->]. exists (tr ++ [Call "sg_set_buf" [buf; n] bus]).
    subst s1. cbn. by rewrite <- app_assoc. }
  split; [constructor; [split; cbn; lia|done]|].
  split; [constructor; [cbn; lia|done]|]. rewrite !zlength_cons, Hl.
  split; [done|]. cbn [map concat]. rewrite !zlength_app, Hb.
  unfold sg_bytes, segment_bytes. cbn [fst snd sg_dma_address sg_dma_len].
  rewrite !zlength_seqZ by lia. done.
Qed.
End table.

(** * The transfer *)

Section transfer.
Context `{Platform} `{ModParams}.
Context (interfere : est -> est).
Context (env : forall s, keeps 0 s (interfere s)).
Context (kernel : kernel_ok).
Context (blen : 1 <= desc_blen_max <= XDMA_DESC_BLEN_MAX).

(** A memory-mapped engine of a device in service. *)
Record engine_ready (write : bool) (s : est) : Prop := {
  er_mem : exists mem, engine_mem_ok (st_eng s) mem;
  er_mm : streaming_c2h (st_eng s) = false;
  er_channel : check_channel (st_dev s) true (e_channel (st_eng s)) write = 0;
  er_engine : check_engine (st_eng s) (st_dev s) write = 0;
}.

Lemma sg_descs_small sgs :
  Forall sg_wf sgs -> Forall (fun sg => sg_dma_len sg <= 4096) sgs ->
  0 <= sg_descs sgs <= 4096 * zlength sgs.
Proof using blen.
  intros Hwf Hmax. induction sgs as [|sg sgs IH]; [done|].
  apply Forall_cons in Hwf as [[Hl _] Hwf]. apply Forall_cons in Hmax as [Hm Hmax].
  rewrite zlength_cons. specialize (IH Hwf Hmax). cbn [sg_descs foldr].
  fold (sg_descs sgs). destruct blen as [H1 _].
  assert (0 <= (sg_dma_len sg + desc_blen_max - 1) / desc_blen_max <= 4096); [|lia].
  split; [apply Z.div_pos; lia|].
  assert ((sg_dma_len sg + desc_blen_max - 1) / desc_blen_max < 4097); [|lia].
  apply Z.div_lt_upper_bound; nia.
Qed.

(** The table of a buffer is one the driver can split. *)
Lemma sgt_of_buffer sgs n :
  Forall sg_wf sgs -> Forall (fun sg => sg_dma_len sg <= 4096) sgs ->
  zlength sgs = n -> n <= 2 ->
  let sgt := {| sgl := sgs; nents := n; orig_nents := n |} in
  mapped sgt = sgs /\ sgt_ok sgt.
Proof using blen.
  intros Hwf Hmax Hl Hn sgt. pose proof (zlength_nonneg sgs) as Hnn.
  assert (E : mapped sgt = sgs).
  { unfold mapped. cbn. apply take_ge. unfold zlength in Hl. lia. }
  split; [done|]. split; rewrite ?E; try done.
  - eapply Forall_impl; [exact Hmax|]. cbn. intros sg ?.
    unfold XDMA_DESC_BLEN_MAX in blen. lia.
  - cbn [nents sgt]. pose proof (sg_descs_small sgs Hwf Hmax). lia.
Qed.

Lemma map_run sgs n s :
  0 < n <= 2 ->
  exists s', map_sgt false {| sgl := sgs; nents := 0; orig_nents := n |} s =
    ((0, {| sgl := sgs; nents := n; orig_nents := n |}), s') /\ only_trace s s'.
Proof using kernel.
  intros Hn. unfold map_sgt. exec. rewrite kcall_run, (ko_map kernel).
  cbn [orig_nents fst snd]. rewrite i32_small by lia.
  rewrite (proj2 (Z.eqb_neq n 0)) by lia. rewrite u32_small by lia.
  eexists. split; [reflexivity|]. by eexists [_].
Qed.

Lemma request_is_ok req len :
  rq_sw_desc_cnt req = zlength (rq_sdesc req) -> rq_sw_desc_cnt req < 2 ^ 31 ->
  rq_sw_desc_idx req = 0 -> 0 <= rq_ep_addr req < 2 ^ 64 ->
  Forall (fun d => 0 < sd_len d <= desc_blen_max /\ 0 <= sd_addr d /\
                   sd_addr d + sd_len d <= 2 ^ 64) (rq_sdesc req) ->
  zlength (concat (map sd_bytes (rq_sdesc req))) = len -> 0 < len -> req_ok req.
Proof using blen.
  intros Hc H31 Hi Hep Hall Hb Hlen. split; try done.
  - rewrite Hi, Hc. destruct (rq_sdesc req) as [|sd ds]; [|rewrite zlength_cons].
    + change (zlength (concat (map sd_bytes []))) with 0 in Hb. lia.
    + pose proof (zlength_nonneg ds). lia.
  - eapply Forall_impl; [exact Hall|]. cbn. unfold XDMA_DESC_BLEN_MAX in blen. lia.
Qed.

(** The request made of a buffer's table. *)
Lemma buffer_request off len sgs n s :
  Forall sg_wf sgs -> Forall (fun sg => sg_dma_len sg <= 4096) sgs ->
  zlength sgs = n -> 0 < n <= 2 -> 0 < len <= 4096 ->
  zlength (concat (map sg_bytes sgs)) = len ->
  let r := map_sgt false {| sgl := sgs; nents := 0; orig_nents := n |} s in
  exists req s', fst (fst r) = 0 /\ only_trace s (snd r) /\
    xdma_init_request (snd (fst r)) (u64 off) [0; 1]%nat (snd r) =
      (Some (Some req), s') /\
    req_ok req /\ rq_sw_desc_idx req = 0 /\ request_bytes req = len.
Proof using kernel blen.
  intros Hwf Hmax Hn Hn2 Hlen Hbytes r.
  destruct (sgt_of_buffer sgs n Hwf Hmax Hn ltac:(lia)) as [Hmapped Hok].
  rewrite <- Hmapped in Hbytes.
  destruct (map_run sgs n s Hn2) as (s1 & E & Ht). unfold r. rewrite E. cbn [fst snd].
  destruct (init_request_run {| sgl := sgs; nents := n; orig_nents := n |} (u64 off)
    [0; 1]%nat s1) as (req & s2 & Ereq & Hb & Hall & Hcnt & _ & Hmax31 & Hidx & Hep & _).
  { unfold XDMA_DESC_BLEN_MAX in blen. lia. }
  { done. }
  { apply (ko_alloc kernel). }
  exists req, s2. do 3 (split; [done|]). split; [|split; [done|]].
  - apply request_is_ok with len; try done; [|by rewrite Hb|lia].
    rewrite Hep. apply u64_range.
  - apply request_bytes_covered; [done| |by rewrite Hb].
    eapply Forall_impl; [exact Hall|]. cbn. lia.
Qed.

(** A submission, whether or not it gets past its guards. *)
Lemma submit_up ep sgt channel write s req s1 :
  engine_up (st_eng s) -> fst (fst (map_sgt false sgt s)) = 0 ->
  xdma_init_request (snd (fst (map_sgt false sgt s))) ep [0; 1]%nat
    (snd (map_sgt false sgt s)) = (Some (Some req), s1) ->
  req_ok req -> rq_sw_desc_idx req = 0 -> request_bytes req < 2 ^ 32 ->
  exists rv sgt' s',
    xdma_xfer_submit interfere true channel write ep sgt false (0, 1)%nat s =
      (Some (rv, sgt'), s') /\ engine_up (st_eng s') /\
    (device_works interfere 0 -> check_channel (st_dev s) true channel write = 0 ->
     check_engine (st_eng s) (st_dev s) write = 0 -> rv = request_bytes req).
Proof using env.
  intros Hup Hmap Hreq Hr Hi Hb. pose proof Hup as [[mem Hm] Hmm].
  assert (Hpos := request_bytes_pos req Hr).
  destruct (Z.eq_dec (check_channel (st_dev s) true channel write) 0) as [Hc|Hc].
  2:{ unfold xdma_xfer_submit. exec. rewrite (proj2 (Z.eqb_neq _ 0) Hc). cbn [negb].
      do 3 eexists. split; [reflexivity|]. by split. }
  destruct (Z.eq_dec (check_engine (st_eng s) (st_dev s) write) 0) as [He|He].
  2:{ unfold xdma_xfer_submit. exec. rewrite Hc, (proj2 (Z.eqb_neq _ 0) He).
      cbn [negb Z.eqb]. do 3 eexists. split; [reflexivity|]. by split. }
  destruct (xfer_submit_run interfere 0 env ep sgt (0, 1)%nat channel write false s mem
    req s1) as (rv & d & sgt' & s' & E & Hup' & Hd & Hrv & _); try done.
  do 3 eexists. split; [exact E|]. split; [done|]. intros W _ _.
  destruct Hrv as [[_ ->]|[_ Hno]]; [|done].
  by rewrite (proj2 (Z.eqb_neq _ 0)) by lia.
Qed.

Lemma transfer_data_run off len buf write s :
  engine_up (st_eng s) -> 0 < len <= PAGE_SIZE -> 0 <= buf ->
  buf + len + PAGE_SIZE < 2 ^ 64 ->
  exists res s', xdma_transfer_data interfere off len buf write s = (Some res, s') /\
    engine_up (st_eng s') /\
    (device_works interfere 0 ->
     check_channel (st_dev s) true (e_channel (st_eng s)) write = 0 ->
     check_engine (st_eng s) (st_dev s) write = 0 -> res = len).
Proof using env kernel blen.
  intros Hup Hlen Hbuf Hw. unfold xdma_transfer_data.
  rewrite u64_small by (unfold PAGE_SIZE in *; lia).
  destruct (Z.ltb_spec PAGE_SIZE len); [lia|]. unfold PAGE_SIZE in Hlen, Hw.
  destruct (buf_segments_pages buf len) as (Hcov & Hseg & Hpages & Hpos); [lia..|].
  specialize (Hpos ltac:(lia)). set (n := pages_nr buf len) in *.
  exec. rewrite kcall_run. cbn [fst snd].
  rewrite (proj2 (Z.eqb_neq n 0)) by lia.
  rewrite (proj2 (Z.eqb_neq _ 0) (ko_alloc kernel _ _)). exec.
  rewrite kcall_run, (ko_table kernel). cbn [fst snd negb Z.eqb].
  set (s1 := upd_field st_trace _ _).
  assert (Ht1 : only_trace s s1) by by eexists [_; _].
  clearbody s1. exec.
  destruct (sg_of_segments_run (buf_segments (Z.to_nat n) buf len) s1 kernel)
    as (sgs & s2 & -> & Ht & Hwf & Hmax & Hl & Hbytes).
  { eapply Forall_impl; [exact Hseg|]. cbn. intros seg [].
    pose proof (Z.mod_pos_bound (fst seg) 4096). lia. }
  cbn [fst snd]. rewrite Hcov, zlength_seqZ in Hbytes by lia.
  assert (Hn : zlength sgs = n).
  { rewrite Hl. unfold zlength. rewrite length_buf_segments. lia. }
  destruct (buffer_request off len sgs n s2 Hwf Hmax Hn ltac:(lia) Hlen Hbytes)
    as (req & s4 & Em & Ht3 & Ereq & Hreq & Hidx & Hb).
  assert (Es2 : only_trace s s2) by by transitivity s1.
  destruct (submit_up (u64 off) {| sgl := sgs; nents := 0; orig_nents := n |}
    (e_channel (st_eng s2)) write s2 req s4) as (rv & sgt' & s' & E & Hup' & Hrv);
    try done; [by apply (engine_up_trace s)|lia|].
  unfold engine. exec. rewrite E. cbn [fst snd]. do 2 eexists. split; [reflexivity|].
  split; [done|]. intros W Hc He. destruct Es2 as [tr ->]. rewrite Hrv by done.
  rewrite Hb. apply i32_small. lia.
Qed.

(** The library serves the network driver. *)
#[export] Instance dma_service : DmaService interfere (fun s => engine_up (st_eng s)).
Proof using env kernel blen.
  intros off len buf write s Hup Hlen Hbuf Hw.
  destruct (transfer_data_run off len buf write s) as (res & s' & E & Hup' & _); eauto.
Qed.

End transfer.

(** * Witness *)

Definition dma_platform : Platform := {|
  mmio_answer _ _ := 0;
  wb_answer _ := 0;
  kernel_answer _ f args :=
    if String.eqb f "sg_alloc_table" then 0
    else if String.eqb f "dma_map_sg" then default 0 (head args)
    else 0x10000;
  sizeof_xdma_request_cb := 256;
  VMALLOC_START := 2 ^ 47;
  VMALLOC_END := 2 ^ 48;
|}.

Lemma dma_platform_ok : @kernel_ok dma_platform.
Proof. split; done. Qed.

