(* ===== verification/NupaProps.v ===== *)
(** Packets arrive in order, slots do not clash, and budgets and memory bounds
    hold. *)
From S2P Require Import Prelude Hw Desc Types Request Engine EngineFacts.
From S2P Require Import Transfer TransferFacts Submit SubmitFacts SubmitProps Nupa NupaFacts.
From S2P Require Import NupaDma Examples.

(** * Memory layout *)

(** The areas of the hosts lie one after the other in the shared memory,
    each with room for its header and its 64 descriptors, and no two
    descriptors, of the same or of different hosts, share a byte. *)
Lemma shm_layout h i h' i' :
  0 <= h < MAX_AGENT_NUM -> 0 <= i < MAX_DESC_NUM ->
  0 <= h' < MAX_AGENT_NUM -> 0 <= i' < MAX_DESC_NUM ->
  host_base h + sizeof_packets_info <= desc_addr h i /\
  desc_addr h i + sizeof_packet_desc <= host_base h + INFO_SIZE /\
  host_base h + INFO_SIZE <= USR_BAR_SHARING_SIZE /\
  (h <> h' \/ i <> i' ->
   desc_addr h i + sizeof_packet_desc <= desc_addr h' i' \/
   desc_addr h' i' + sizeof_packet_desc <= desc_addr h i).
Proof.
  unfold desc_addr, host_base, sizeof_packets_info, sizeof_packet_desc, INFO_SIZE,
    MAX_AGENT_NUM, MAX_DESC_NUM, USR_BAR_SHARING_SIZE. lia.
Qed.

(** Packets of at most [DESC_MAX_DMA_SIZE] bytes in different slots, of the
    same or of different hosts, occupy disjoint parts of the card's DMA
    memory, all within its [TOTAL_DMA_SIZE] bytes. *)
Lemma dma_slots_disjoint h i len h' i' len' :
  0 <= h < MAX_AGENT_NUM -> 0 <= i < MAX_DESC_NUM -> 0 <= len <= DESC_MAX_DMA_SIZE ->
  0 <= h' < MAX_AGENT_NUM -> 0 <= i' < MAX_DESC_NUM ->
  0 <= len' <= DESC_MAX_DMA_SIZE ->
  0 <= dma_slot h i /\ dma_slot h i + len <= TOTAL_DMA_SIZE /\
  (h <> h' \/ i <> i' ->
   dma_slot h i + len <= dma_slot h' i' \/ dma_slot h' i' + len' <= dma_slot h i).
Proof.
  unfold dma_slot, AGENT_TOTAL_DMA_SIZE, DESC_MAX_DMA_SIZE, TOTAL_DMA_SIZE,
    MAX_AGENT_NUM, MAX_DESC_NUM. lia.
Qed.

(** * Buffers *)

(** The scatter-gather segments of a buffer of at most a page are exactly
    the bytes of the buffer, in order, each segment within one page. *)
Lemma buf_segments_cover buf len :
  0 <= buf -> 0 <= len <= PAGE_SIZE -> buf + len + PAGE_SIZE < 2 ^ 64 ->
  let segs := buf_segments (Z.to_nat (pages_nr buf len)) buf len in
  concat (map segment_bytes segs) = seqZ buf len /\
  Forall (fun s => fst s mod PAGE_SIZE + snd s <= PAGE_SIZE) segs /\
  0 <= pages_nr buf len <= 2.
Proof.
  intros Hb Hl Hw segs.
  destruct (buf_segments_pages buf len Hb Hl Hw) as (H1 & H2 & H3 & _).
  split; [done|]. split; [|done]. eapply Forall_impl; [exact H2|]. by intros ? [].
Qed.

(** * Sending *)

(** [kmalloc] gives a buffer, below the last pages of the address space. *)
Definition kmalloc_ok `{Platform} : Prop :=
  forall t n, 0 < kernel_answer t "kmalloc" [n] < 2 ^ 64 - 2 * PAGE_SIZE.

(** An event at the front of the trace. *)
Ltac in_trace :=
  repeat (apply elem_of_cons; first [by left; reflexivity | right]).

Section sending.
Context `{Platform} `{ModParams}.
Context (interfere : est -> est).
(** The DMA library behind the engines. *)
Context (up : est -> Prop) `{!DmaService interfere up}.
Context (kmalloc : kmalloc_ok).

Lemma kcall_nst f args (s : nst) :
  kcall f args s = (kernel_answer (n_trace s) f args,
    s <| n_trace := Call f args (kernel_answer (n_trace s) f args) :: n_trace s |>).
Proof. done. Qed.

(** Sending through the engine does not touch the shared memory. *)
Lemma send_data_run skb d (s : nst) :
  up (n_h2c s) -> 0 < pd_length d <= PAGE_SIZE ->
  exists res s' buf, xdma_send_data interfere skb d s = (Done res, s') /\
    n_shm s' = n_shm s /\ up (n_h2c s') /\
    n_h2c s' = snd (xdma_transfer_data interfere (pd_offset d) (pd_length d) buf true
                      (n_h2c s)) /\
    (exists v, emitted (Call "memcpy" [buf; skb; pd_length d] v) (n_trace s) (n_trace s')).
Proof using kmalloc DmaService0.
  intros Hup Hl. unfold xdma_send_data. exec. rewrite kcall_nst.
  pose proof (kmalloc (n_trace s) (pd_length d)) as Hb.
  cbn [fst snd]. rewrite (proj2 (Z.eqb_neq _ 0)) by lia. exec. rewrite kcall_nst.
  cbn [fst snd]. exec. unfold on_h2c. cbn [n_h2c upd_field].
  destruct (dma_transfer (pd_offset d) (pd_length d) (kernel_answer (n_trace s) "kmalloc"
    [pd_length d]) true (n_h2c s)) as (res & e' & E & Hup'); [done|done|lia|lia|].
  match goal with |- context [xdma_transfer_data interfere ?o ?l ?b true ?e] =>
    change e with (n_h2c s) end.
  rewrite E. cbn [fst snd]. exec. do 3 eexists. split; [reflexivity|].
  split; [done|]. split; [exact Hup'|]. split; [by rewrite E|].
  eexists. eexists [_; _; _]. split; [reflexivity|]. in_trace.
Qed.

(** C8: Sending a frame of one to [DESC_MAX_DMA_SIZE] bytes to one destination host
    that has announced its ring.  If the ring holds fewer than 63 packets, the
    frame is copied into a buffer, one transfer moves the buffer to the slot of the
    packet in the DMA memory of the card, through the host's H2C engine, and
    the packet is appended to the destination's ring, settled.  With 63
    packets in the ring the frame is dropped, and neither the shared memory nor
    the engine changes.  The frame is freed, the ring of no other host changes,
    and the engine is ready for the next frame.  Assumed: transmission is
    not on hold, [kmalloc] succeeds (its result is not tested), the transfers of
    the DMA library return ([DmaService]; their result is ignored by the
    code, so it may be an error), and the uninitialised [total_len] of
    [fetch_packet_desc] happens to be within its bound. *)
Theorem xmit_frame_enqueues total skb data a q s :
  let dst := mac_addr_to_host_id data in
  let len := zlength data in
  n_hold_ic_ctl s = false -> is_multicast data = false ->
  0 <= dst < MAX_AGENT_NUM -> 0 < len <= DESC_MAX_DMA_SIZE ->
  zlookup (n_shm s) dst = Some a -> ring a q -> pi_ready (ar_info a) = true ->
  i32 (total + DESC_MAX_DMA_SIZE) <= AGENT_TOTAL_DMA_SIZE -> up (n_h2c s) ->
  exists s', nupanet_xmit_frame interfere total skb data s = (Done tt, s') /\
    up (n_h2c s') /\
    (exists v, emitted (Call "dev_kfree_skb" [skb] v) (n_trace s) (n_trace s')) /\
    if decide (zlength q < 63)
    then n_shm s' = zset (enqueue dst len a) dst (n_shm s) /\
         ring (enqueue dst len a) (q ++ [(dma_slot dst (pi_head (ar_info a)), len)]) /\
         exists buf v,
           emitted (Call "memcpy" [buf; skb; len] v) (n_trace s) (n_trace s') /\
           n_h2c s' = snd (xdma_transfer_data interfere
             (dma_slot dst (pi_head (ar_info a))) len buf true (n_h2c s))
    else n_shm s' = n_shm s /\ n_h2c s' = n_h2c s.
Proof using kmalloc DmaService0.
  intros dst len Hhold Hmc Hdst Hlen Ha Hring Hready Htot Hup.
  pose proof Hring as [Hwf _ _]. pose proof (rw_head a Hwf) as Hh.
  unfold nupanet_xmit_frame. exec. rewrite Hhold. exec. rewrite Hmc.
  fold dst len. destruct (Z.ltb_spec DESC_MAX_DMA_SIZE len); [lia|]. exec.
  rewrite (fetch_run total dst len s a) by done.
  rewrite Hready, (proj2 (Z.leb_le _ _) Htot), <- (rg_len a q Hring). cbn [andb].
  destruct (decide (zlength q < 63)) as [Hq|Hq];
    [rewrite (proj2 (Z.ltb_lt _ _) Hq)|rewrite (proj2 (Z.ltb_ge _ _)) by lia].
  2:{ cbn [fst snd]. exec. rewrite kcall_nst. eexists. split; [reflexivity|].
      split; [done|]. split; [|done].
      eexists. eexists [_]. split; [reflexivity|]. in_trace. }
  cbn [fst snd]. set (s1 := upd_field n_shm _ s).
  destruct (fetched_desc dst len a Hdst Hwf) as (d1 & Hd & _ & Elen & Eoff).
  assert (Ha1 : zlookup (n_shm s1) dst = Some (fetched dst len a))
    by by eapply zlookup_zset_same.
  assert (Hd1 : get_desc dst (pi_head (ar_info a)) s1 = (Done d1, s1)).
  { by eapply get_desc_run. }
  exec. rewrite Hd1. cbn [fst snd]. exec.
  destruct (send_data_run skb d1 s1)
    as (res & s2 & buf & -> & Hshm & Hup2 & Hh2c & v & Hcopy); [done| |].
  { rewrite Elen. unfold DESC_MAX_DMA_SIZE in Hlen. unfold PAGE_SIZE. lia. }
  cbn [fst snd]. exec. rewrite kcall_nst. eexists. split; [reflexivity|].
  split; [done|]. split.
  { destruct Hcopy as (tr & Etr & _). change (n_trace s1) with (n_trace s) in Etr.
    eexists. eexists (_ :: tr). cbn. rewrite Etr. split; [reflexivity|]. in_trace. }
  cbn [fst snd n_shm n_h2c n_trace upd_field]. rewrite Hshm. split; [|split].
  - rewrite (zset_zalter_run _ dst _ _ Ha1). cbn. by rewrite zset_zset.
  - by apply enqueue_ring.
  - rewrite Eoff, Elen in Hh2c. rewrite Elen in Hcopy.
    exists buf, v. split; [|exact Hh2c].
    eapply emitted_l; [exact Hcopy|]. by eexists [_].
Qed.

(** A unicast frame whose destination MAC address ends in a byte from 2 to
    127 stops the kernel: its host number is looked up in the shared memory,
    which has two areas, and the check is a [BUG_ON]. *)
Lemma xmit_foreign_mac_bug total skb data s :
  n_hold_ic_ctl s = false -> is_multicast data = false ->
  MAX_AGENT_NUM <= mac_addr_to_host_id data -> zlength data <= DESC_MAX_DMA_SIZE ->
  nupanet_xmit_frame interfere total skb data s = (Bug, s).
Proof.
  intros Hhold Hmc Hdst Hlen. unfold nupanet_xmit_frame. exec. rewrite Hhold. exec.
  rewrite Hmc. destruct (Z.ltb_spec DESC_MAX_DMA_SIZE (zlength data)); [lia|].
  exec. unfold fetch_packet_desc.
  by rewrite (proj2 (Z.leb_le _ _) Hdst).
Qed.
End sending.

(** * Receiving *)

(** The buffer and the length of what was last put into [skb]. *)
Fixpoint skb_data (skb : Z) (t : list event) : option (Z * Z) :=
  match t with
  | [] => None
  | Call f [skb'; buf; len] _ :: t' =>
      if String.eqb f "skb_put_data" && (skb' =? skb) then Some (buf, len)
      else skb_data skb t'
  | _ :: t' => skb_data skb t'
  end.

(** What has been handed to the network stack: the contents of each [skb] given to
    [napi_gro_receive], newest first. *)
Fixpoint delivered (t : list event) : list (option (Z * Z)) :=
  match t with
  | [] => []
  | Call f [skb] _ :: t' =>
      if String.eqb f "napi_gro_receive" then skb_data skb t' :: delivered t'
      else delivered t'
  | _ :: t' => delivered t'
  end.

Section receiving.
Context `{Platform} `{ModParams}.
Context (interfere : est -> est).

(** The DMA library behind the engines. *)
Context (up : est -> Prop) `{!DmaService interfere up}.
(** The memory allocations succeed. *)
Context (kmalloc : kmalloc_ok)
  (skb_ok : forall t len, kernel_answer t "napi_alloc_skb" [len] <> 0).

Lemma available_ring h a q s :
  0 <= h < MAX_AGENT_NUM -> zlookup (n_shm s) h = Some a -> ring a q ->
  nupa_data_available h s =
  match q with
  | [] => (Done None, s)
  | _ => (Done (Some (pi_tail (ar_info a))),
          s <| n_shm := zset (dequeue a) h (n_shm s) |>)
  end.
Proof using.
  intros Hh Ha Hring. pose proof (rg_wf a q Hring) as Hwf.
  rewrite (available_run h a) by done. rewrite <- (rg_len a q Hring).
  destruct q as [|[off len] q]; [done|]. unfold zlength. cbn [length].
  rewrite (proj2 (Z.eqb_neq _ _)) by lia.
  destruct (rg_entry a _ Hring 0 off len eq_refl) as (d & Hd & Hst & _).
  rewrite slot_0 in Hd by done. rewrite Hd. cbn. by rewrite Hst.
Qed.

Lemma receive_data_run d s :
  up (n_c2h s) -> 0 < pd_length d <= PAGE_SIZE ->
  exists skb s' buf, xdma_receive_data interfere d s = (Done (Some skb), s') /\
    n_shm s' = n_shm s /\ up (n_c2h s') /\
    n_c2h s' = snd (xdma_transfer_data interfere (pd_offset d) (pd_length d) buf false
                      (n_c2h s)) /\
    skb_data skb (n_trace s') = Some (buf, pd_length d) /\
    delivered (n_trace s') = delivered (n_trace s).
Proof using kmalloc skb_ok DmaService0.
  intros Hup Hl. unfold xdma_receive_data. exec. rewrite kcall_nst. cbn [fst snd].
  exec. rewrite kcall_nst. cbn [fst snd].
  match goal with |- context [kernel_answer ?t "kmalloc" [?n] =? 0] =>
    pose proof (kmalloc t n) as Hb; set (buf := kernel_answer t "kmalloc" [n]) in *
  end.
  rewrite (proj2 (Z.eqb_neq buf 0)) by lia. exec. unfold on_c2h.
  destruct (dma_transfer (pd_offset d) (pd_length d) buf false (n_c2h s))
    as (res & es & E & Hup'); [done|done|lia|lia|].
  match goal with |- context [xdma_transfer_data interfere ?o ?l ?b false ?e] =>
    change e with (n_c2h s) end.
  rewrite E. cbn [fst snd].
  rewrite (proj2 (Z.eqb_neq _ _) (skb_ok _ _)). exec.
  rewrite kcall_nst. cbn [fst snd]. exec. rewrite kcall_nst. cbn [fst snd].
  do 3 eexists. split; [reflexivity|]. split; [done|]. split; [exact Hup'|].
  split; [by rewrite E|]. split; [|reflexivity]. cbn. by rewrite Z.eqb_refl.
Qed.

(** The packets of a ring are not longer than a page. *)
Definition sized (q : list (Z * Z)) : Prop :=
  Forall (fun p => 0 < snd p <= PAGE_SIZE) q.

(** The engine after the transfer of the packet at [off] on the card into [buf]. *)
Definition fetch_one (e : est) (p : Z * (Z * Z)) : est :=
  let '(buf, (off, len)) := p in
  snd (xdma_transfer_data interfere off len buf false e).

(** An iteration that finds a packet. *)
Lemma poll_next fuel h budget work off len q a s :
  0 <= h < MAX_AGENT_NUM -> zlookup (n_shm s) h = Some a -> ring a ((off, len) :: q) ->
  0 < len <= PAGE_SIZE -> up (n_c2h s) ->
  exists s' a' buf,
    poll_loop interfere (S fuel) h budget work s =
      (if budget <? work + 1 then (Done (work + 1), s')
       else poll_loop interfere fuel h budget (work + 1) s') /\
    n_shm s' = zset a' h (n_shm s) /\ ring a' q /\ up (n_c2h s') /\
    n_c2h s' = fetch_one (n_c2h s) (buf, (off, len)) /\
    delivered (n_trace s') = Some (buf, len) :: delivered (n_trace s).
Proof using kmalloc skb_ok DmaService0.
  intros Hh Ha Hring Hl Hinv.
  cbn [poll_loop]. exec. rewrite (available_ring h a ((off, len) :: q)) by done.
  cbn [fst snd]. set (s1 := upd_field n_shm _ s).
  assert (Ha1 : zlookup (n_shm s1) h = Some (dequeue a))
    by by eapply zlookup_zset_same.
  destruct (dequeue_ring a _ q Hring) as [Hring1 Hslot].
  destruct (rg_entry a _ Hring 0 off len eq_refl) as (d & Hd & Hst & Hoff & Hlen).
  rewrite slot_0 in Hd by apply Hring. set (t := pi_tail (ar_info a)) in *.
  exec. rewrite (get_desc_run h (dequeue a) t d) by done. cbn [fst snd]. exec.
  destruct (receive_data_run d s1 Hinv ltac:(by rewrite Hlen)) as
    (skb & s2 & buf & -> & Hshm2 & Hinv2 & Hc2h & Hskb & Hdel2).
  cbn [fst snd]. exec. rewrite kcall_nst. cbn [fst snd]. exec. rewrite kcall_nst.
  cbn [fst snd]. set (s3 := upd_field n_trace _ _).
  pose proof (rg_len _ _ Hring1) as Hlen1.
  assert (Hcap : zlength q < 63).
  { pose proof (rg_len _ _ Hring) as Hpend. rewrite zlength_cons in Hpend. unfold pending in Hpend.
    pose proof (Z.mod_pos_bound (pi_head (ar_info a) - pi_tail (ar_info a))
      MAX_DESC_NUM ltac:(reflexivity)). unfold MAX_DESC_NUM in *. lia. }
  exists s3, (release t (dequeue a)), buf.
  split; [by destruct (budget <? work + 1)|].
  split; [|split; [|split; [done|split; [by rewrite <- Hoff, <- Hlen|]]]].
  - subst s3. cbn. rewrite Hshm2. rewrite (zset_zalter_run _ h _ _ Ha1).
    apply zset_zset.
  - apply release_ring; [|done]. intros k Hk E. rewrite <- Hslot in E.
    apply slot_inj in E; [lia|apply Hring1|lia|lia].
  - subst s3. cbn. by rewrite Hskb, Hdel2, Hlen.
Qed.

Lemma poll_loop_run fuel h budget work q a s :
  0 <= h < MAX_AGENT_NUM -> zlookup (n_shm s) h = Some a -> ring a q -> sized q ->
  up (n_c2h s) -> 0 <= work <= budget -> budget + 1 - work < Z.of_nat fuel ->
  let n := Z.min (zlength q) (budget + 1 - work) in
  exists s' a' bufs,
    poll_loop interfere fuel h budget work s = (Done (work + n), s') /\
    n_shm s' = zset a' h (n_shm s) /\ ring a' (drop (Z.to_nat n) q) /\
    up (n_c2h s') /\ zlength bufs = n /\
    n_c2h s' = foldl fetch_one (n_c2h s) (zip bufs q) /\
    delivered (n_trace s') =
      rev (zip_with (fun buf p => Some (buf, snd p)) bufs q) ++ delivered (n_trace s).
Proof using kmalloc skb_ok DmaService0.
  revert work q a s. induction fuel as [|fuel IH]; intros work q a s Hh Ha Hring Hsz
    Hinv Hwork Hfuel n; [lia|].
  destruct q as [|[off len] q].
  { cbn [poll_loop]. exec. rewrite (available_ring h a []) by done.
    cbn [fst snd]. exec. exists s, a, [].
    replace n with 0 by (unfold n; change (zlength (@nil (Z * Z))) with 0; lia).
    rewrite Z.add_0_r. split; [done|]. split; [|done].
    by rewrite zset_same. }
  apply Forall_cons in Hsz as [Hlen Hsz]. cbn [snd] in Hlen.
  destruct (poll_next fuel h budget work off len q a s Hh Ha Hring Hlen Hinv)
    as (s3 & a3 & buf & -> & Hshm3 & Hring3 & Hinv3 & Hc3 & Hdel3).
  assert (Ha3 : zlookup (n_shm s3) h = Some a3)
    by (rewrite Hshm3; by eapply zlookup_zset_same).
  unfold n. rewrite zlength_cons. clear n. pose proof (zlength_nonneg q) as Hnn.
  destruct (Z.ltb_spec budget (work + 1)) as [Hover|Hgo].
  - exists s3, a3, [buf]. replace (Z.min _ _) with 1 by lia.
    split; [done|]. split; [done|]. split; [done|]. split; [done|].
    split; [done|]. split; [by rewrite Hc3; destruct q|]. rewrite Hdel3. by destruct q.
  - destruct (IH (work + 1) q _ s3 Hh Ha3 Hring3 Hsz Hinv3 ltac:(lia) ltac:(lia))
      as (s' & a' & bufs & E & Hs' & Hr' & Hup' & Hl' & Hc' & Hd').
    exists s', a', (buf :: bufs). set (n1 := Z.min (zlength q) (budget + 1 - (work + 1))) in *.
    replace (Z.min _ _) with (n1 + 1) by (unfold n1; lia).
    assert (Hn1 : 0 <= n1) by (unfold n1; lia).
    rewrite E. replace (Z.to_nat (n1 + 1)) with (S (Z.to_nat n1)) by lia.
    split; [do 2 f_equal; lia|]. split; [by rewrite Hs', Hshm3, zset_zset|].
    split; [done|]. split; [done|]. split; [rewrite zlength_cons; lia|].
    split; [by rewrite Hc', Hc3|].
    rewrite Hd', Hdel3. cbn [zip_with rev snd]. by rewrite <- app_assoc.
Qed.

(** C7: A poll takes the packets of this host's ring in order and hands them to
    the network stack: all of them if there are at most [budget + 1], else the
    first [budget + 1]; the rest stay in the ring, and no other host's area
    changes.  For each packet one transfer of the C2H engine reads the packet's
    slot of the card into a buffer, the packet's length of that buffer is put
    into an [skb], and the [skb] is given to [napi_gro_receive], in the order of
    the ring.  The result is the number delivered, and the engine is ready for
    the next poll.  Assumed: reception is not on hold, the packets have one to
    [PAGE_SIZE] bytes, [kmalloc] and [napi_alloc_skb] succeed (otherwise a
    packet is lost, as C9 allows for), and the transfers of the DMA library
    return ([DmaService]; the code ignores whether they succeeded). *)
Theorem poll_delivers budget q a s :
  0 <= n_host_id s < MAX_AGENT_NUM -> n_hold_ic_ctl s = false ->
  zlookup (n_shm s) (n_host_id s) = Some a -> ring a q -> sized q ->
  up (n_c2h s) -> 0 <= budget ->
  let n := Z.min (zlength q) (budget + 1) in
  exists s' a' bufs, nupanet_poll interfere budget s = (Done n, s') /\
    n_shm s' = zset a' (n_host_id s) (n_shm s) /\
    ring a' (drop (Z.to_nat n) q) /\ up (n_c2h s') /\ zlength bufs = n /\
    n_c2h s' = foldl fetch_one (n_c2h s) (zip bufs q) /\
    delivered (n_trace s') =
      rev (zip_with (fun buf p => Some (buf, snd p)) bufs q) ++ delivered (n_trace s).
Proof using kmalloc skb_ok DmaService0.
  intros Hh Hhold Ha Hring Hsz Hinv Hb n. unfold nupanet_poll. exec. rewrite Hhold.
  destruct (poll_loop_run (Z.to_nat budget + 2) (n_host_id s) budget 0 q a s)
    as (s' & a' & bufs & E & Hs & Hr & Hup & Hl & Hc & Hd); try done; try lia.
  rewrite Z.sub_0_r in *. fold n in E, Hr, Hl. exec. rewrite E. cbn [fst snd].
  change (0 + n) with n. destruct (Z.eqb_spec n budget) as [En|En].
  - exists s', a', bufs. rewrite En at 1. by rewrite <- En.
  - exec. rewrite kcall_nst.
    exists (snd (kcall (S := nst) "napi_complete_done" [n] s')), a', bufs. by split.
Qed.
End receiving.

(** * Witnesses *)

Definition ex_c2h_state : est :=
  ex_idle_state <| st_eng ::= fun e =>
    e <| e_dir := DMA_FROM_DEVICE |> <| e_name := "0-C2H0-MM" |> |>.

(** The library's service at a platform where everything works. *)
#[local] Instance ex_service :
  @DmaService dma_platform irq_params complete_at_once (fun s => engine_up (st_eng s)).
Proof.
  apply dma_service; [exact (complete_at_once_keeps 0)|exact dma_platform_ok|].
  split; by vm_compute.
Defined.

Lemma dma_platform_kmalloc : @kmalloc_ok dma_platform.
Proof. intros t n. by vm_compute. Qed.

(** Host 0 of two: its ring holds packets of 60 and 1514 bytes, that of
    host 1 one of 60 bytes. *)
Definition ex_net : nst := {|
  n_shm := [enqueue 0 1514 (enqueue 0 60 (init_area 0));
            enqueue 1 60 (init_area 1)];
  n_host_id := 0;
  n_dump_ctl := false;
  n_hold_ic_ctl := false;
  n_h2c := ex_idle_state;
  n_c2h := ex_c2h_state;
  n_trace := [];
|}.

Lemma ex_ring_1 : ring (enqueue 1 60 (init_area 1)) [(dma_slot 1 0, 60)].
Proof. apply (enqueue_ring 1 60 (init_area 1) []); [done|apply init_area_ring|done]. Qed.

Lemma ex_ring_0 :
  ring (enqueue 0 1514 (enqueue 0 60 (init_area 0)))
    [(dma_slot 0 0, 60); (dma_slot 0 1, 1514)].
Proof.
  apply (enqueue_ring 0 1514 (enqueue 0 60 (init_area 0)) [(dma_slot 0 0, 60)]);
    [done| |done].
  apply (enqueue_ring 0 60 (init_area 0) []); [done|apply init_area_ring|done].
Qed.

(** A frame of 64 bytes from host 0 to host 1. *)
Definition ex_frame : list Z := [0xFC; 0xAF; 0xAC; 0; 0; 1] ++ repeat 0 58.

Lemma ex_idle_up : engine_up (st_eng ex_idle_state).
Proof. split; [exists (repeat zero_desc 8); exact ex_idle_mem_ok|reflexivity]. Qed.

Lemma ex_c2h_up : engine_up (st_eng ex_c2h_state).
Proof. split; [exists (repeat zero_desc 8); by split|reflexivity]. Qed.

Lemma xmit_frame_enqueues_witness :
  exists s', @nupanet_xmit_frame dma_platform irq_params complete_at_once
      0 0x30000 ex_frame ex_net = (Done tt, s') /\
    n_shm s' = zset (enqueue 1 64 (enqueue 1 60 (init_area 1))) 1 (n_shm ex_net).
Proof.
  destruct (@xmit_frame_enqueues dma_platform irq_params complete_at_once _ ex_service
    dma_platform_kmalloc 0 0x30000 ex_frame _ _ ex_net eq_refl eq_refl
    ltac:(split; reflexivity || discriminate) ltac:(split; reflexivity || discriminate)
    eq_refl ex_ring_1 eq_refl ltac:(discriminate) ex_idle_up) as (s' & E & _ & _ & Hs).
  exists s'. split; [exact E|]. exact (proj1 Hs).
Defined.

Lemma poll_delivers_witness :
  exists s' a' buf, @nupanet_poll dma_platform irq_params complete_at_once 0 ex_net =
      (Done 1, s') /\
    ring a' [(dma_slot 0 1, 1514)] /\ delivered (n_trace s') = [Some (buf, 60)].
Proof.
  destruct (@poll_delivers dma_platform irq_params complete_at_once _ ex_service
    dma_platform_kmalloc ltac:(discriminate) 0
    [(dma_slot 0 0, 60); (dma_slot 0 1, 1514)] _ ex_net
    ltac:(split; reflexivity || discriminate) eq_refl eq_refl ex_ring_0
    ltac:(repeat constructor; discriminate) ex_c2h_up ltac:(discriminate))
    as (s' & a' & bufs & E & _ & Hr & _ & Hl & _ & Hd).
  destruct bufs as [|buf [|? bufs]]; [discriminate Hl| |].
  - exists s', a', buf. split; [exact E|]. split; [exact Hr|exact Hd].
  - exfalso. unfold zlength in Hl. cbn [length] in Hl.
    change (Z.min (zlength [(dma_slot 0 0, 60); (dma_slot 0 1, 1514)]) (0 + 1)) with 1 in Hl.
    lia.
Defined.
