(* ===== verification/NupaSys.v ===== *)
(** A ring between two hosts as a concurrent system: the sender's and the
    receiver's parts of [nupanet_main.c] in any order, around the DMA transfers
    that move the bytes. *)
From S2P Require Import Prelude Hw Desc Types Request Engine EngineFacts.
From S2P Require Import Transfer Submit SubmitFacts Nupa NupaFacts NupaDma.
From S2P Require Import NupaProps Examples.

(** * The card's memory *)

Definition card : Type := Z -> Z.

Definition card_write (off : Z) (bytes : list Z) (m : card) : card :=
  fun a => default (m a) (zlookup bytes (a - off)).
Definition card_read (off len : Z) (m : card) : list Z := map m (seqZ off len).

Lemma card_read_ext off len m m' :
  (forall a, off <= a < off + len -> m a = m' a) ->
  card_read off len m = card_read off len m'.
Proof.
  intros E. apply map_ext_in. intros a Ha. apply E.
  apply list_elem_of_In, elem_of_seqZ in Ha. lia.
Qed.

Lemma card_read_other off len off' bytes m :
  off + len <= off' \/ off' + zlength bytes <= off ->
  card_read off len (card_write off' bytes m) = card_read off len m.
Proof.
  intros Hdis. apply card_read_ext. intros a Ha. unfold card_write.
  destruct (zlookup bytes (a - off')) eqn:E; [|done].
  apply zlookup_lt_Some in E. lia.
Qed.

Lemma card_read_write off bytes m :
  card_read off (zlength bytes) (card_write off bytes m) = bytes.
Proof.
  apply list_eq. intros i. unfold card_read. rewrite list_lookup_fmap.
  destruct (decide (i < length bytes)%nat) as [Hi|Hi].
  - rewrite lookup_seqZ_lt by (unfold zlength; lia). cbn. unfold card_write, zlookup.
    replace (off + Z.of_nat i - off) with (Z.of_nat i) by lia.
    destruct (Z.ltb_spec (Z.of_nat i) 0); [lia|]. rewrite Nat2Z.id.
    destruct (proj2 (lookup_lt_is_Some bytes i) Hi) as [b ->]. done.
  - rewrite lookup_seqZ_ge by (unfold zlength; lia).
    rewrite (lookup_ge_None_2 bytes) by lia. done.
Qed.

(** * The system *)

(** A frame handed over, and whether the engine reported that all its bytes have
    been moved to the card. *)
Definition sent_frame : Type := list Z * bool.

(** What the receiver made of a packet it took: nothing, when a buffer could not be
    allocated, or the bytes it passed on and whether the engine reported
    that all of them have been moved from the card. *)
Definition got_frame : Type := option (list Z * bool).

(** [r_net]: the shared memory, the sender's H2C engine and the receiver's C2H
    engine.  [r_sending]: the slot and the frame of a [nupanet_xmit_frame]
    between [fetch_packet_desc] and its end, and the outcome of
    [xdma_send_data] once it has returned; [r_reading]: the slot of a
    [nupanet_poll] between [nupa_data_available] and its
    [PACKET_RELEASED], and the bytes once [xdma_receive_data] has returned.
    [r_sent] and [r_received] are the frames handed over so far and the
    packets taken so far. *)
Record rst := {
  r_net : nst;
  r_card : card;
  r_sending : option (Z * list Z * option bool);
  r_reading : option (Z * option (list Z * bool));
  r_sent : list sent_frame;
  r_received : list got_frame;
}.

#[export] Instance eta_rst : Eta rst := fun r =>
  Build_rst (r_net r) (r_card r) (r_sending r) (r_reading r) (r_sent r)
    (r_received r).

Section ring_sys.
Context {platform : Platform} {params : ModParams}.
Context (interfere : est -> est).
Context (h : Z) (Hh : 0 <= h < MAX_AGENT_NUM).

(** The result of the transfer inside [xdma_receive_data], which ignores it. *)
Definition receive_result (d : packet_desc) (net : nst) : option Z :=
  let skb := kernel_answer (n_trace net) "napi_alloc_skb" [pd_length d] in
  let t := Call "napi_alloc_skb" [pd_length d] skb :: n_trace net in
  let buf := kernel_answer t "kmalloc" [pd_length d] in
  fst (xdma_transfer_data interfere (pd_offset d) (pd_length d) buf false (n_c2h net)).

(** The kernel runs one transmit and one poll of a device at a time.  Nothing is
    assumed of the transfers but this: one that reports all the bytes has moved
    them, and one that has been reported does not write any more.  While a
    transfer to the card runs, and when it fails, any bytes may be in its
    slot; a failed transfer from the card gives any bytes. *)
Inductive rstep : rst -> rst -> Prop :=
| rs_fetch total frame i net r :
    r_sending r = None -> zlength frame <= DESC_MAX_DMA_SIZE ->
    fetch_packet_desc total h (zlength frame) (r_net r) = (Done (Some i), net) ->
    rstep r (r <| r_net := net |> <| r_sending := Some (i, frame, None) |>)
| rs_write i frame d part r :
    r_sending r = Some (i, frame, None) ->
    fst (get_desc h i (r_net r)) = Done d -> zlength part <= pd_length d ->
    rstep r (r <| r_card ::= card_write (pd_offset d) part |>)
| rs_send skb i frame d res net r :
    r_sending r = Some (i, frame, None) ->
    fst (get_desc h i (r_net r)) = Done d ->
    xdma_send_data interfere skb d (r_net r) = (Done res, net) ->
    rstep r (r <| r_net := net |>
               <| r_card ::= (if res =? zlength frame
                              then card_write (pd_offset d) frame else id) |>
               <| r_sending := Some (i, frame, Some (res =? zlength frame)) |>)
| rs_settle i frame moved r :
    r_sending r = Some (i, frame, Some moved) ->
    rstep r (r <| r_net ::= fun net => snd (set_desc h i (fun d =>
                    d <| pd_status := PACKET_SETTLED |>) net) |>
               <| r_sending := None |>
               <| r_sent ::= fun l => l ++ [(frame, moved)] |>)
| rs_take i net r :
    r_reading r = None ->
    nupa_data_available h (r_net r) = (Done (Some i), net) ->
    rstep r (r <| r_net := net |> <| r_reading := Some (i, None) |>)
| rs_receive i d skb bytes net r :
    r_reading r = Some (i, None) ->
    fst (get_desc h i (r_net r)) = Done d ->
    xdma_receive_data interfere d (r_net r) = (Done (Some skb), net) ->
    zlength bytes = pd_length d ->
    (receive_result d (r_net r) = Some (pd_length d) ->
     bytes = card_read (pd_offset d) (pd_length d) (r_card r)) ->
    rstep r (r <| r_net := net |>
               <| r_reading := Some (i, Some (bytes,
                    bool_decide (receive_result d (r_net r) = Some (pd_length d)))) |>)
| rs_lost i d net r :
    r_reading r = Some (i, None) ->
    fst (get_desc h i (r_net r)) = Done d ->
    xdma_receive_data interfere d (r_net r) = (Done None, net) ->
    rstep r (r <| r_net := net |> <| r_reading := None |>
               <| r_received ::= fun l => l ++ [None] |>)
| rs_release i got r :
    r_reading r = Some (i, Some got) ->
    rstep r (r <| r_net ::= fun net => snd (set_desc h i (fun d =>
                    d <| pd_status := PACKET_RELEASED |>) net) |>
               <| r_reading := None |>
               <| r_received ::= fun l => l ++ [Some got] |>)
| rs_other h' i' part r :
    (* a transfer to a slot of another host *)
    0 <= h' < MAX_AGENT_NUM -> h' <> h -> 0 <= i' < MAX_DESC_NUM ->
    zlength part <= DESC_MAX_DMA_SIZE ->
    rstep r (r <| r_card ::= card_write (dma_slot h' i') part |>)
| rs_engines net r :
    (* the engines and the kernels of the two hosts go on *)
    n_shm net = n_shm (r_net r) -> rstep r (r <| r_net := net |>).

(** After [adapter_info_init] of the receiver. *)
Definition rinit (r : rst) : Prop :=
  (exists s, n_host_id s = h /\ adapter_info_init s = (Done tt, r_net r)) /\
  r_sending r = None /\ r_reading r = None /\ r_sent r = [] /\ r_received r = [].

(** * The invariant *)

(** The descriptor of slot [i] and, once settled, the bytes of its packet. *)
Definition slot_has (a : area) (i : Z) (st : packet_desc_status) (len : Z)
    : Prop :=
  exists d, zlookup (ar_descs a) i = Some d /\ pd_status d = st /\
    pd_offset d = dma_slot h i /\ pd_length d = len.

Definition stored (m : card) (i : Z) (f : sent_frame) : Prop :=
  zlength (fst f) <= DESC_MAX_DMA_SIZE /\
  (snd f = true -> card_read (dma_slot h i) (zlength (fst f)) m = fst f).

Definition holds (a : area) (m : card) (i : Z) (f : sent_frame) : Prop :=
  slot_has a i PACKET_SETTLED (zlength (fst f)) /\ stored m i f.

(** What a receiver may have got of a frame: nothing, or as many bytes, and the very
    bytes if both transfers reported all of them. *)
Definition matches (f : sent_frame) (got : got_frame) : Prop :=
  match got with
  | None => True
  | Some (bytes, ok) =>
      zlength bytes = zlength (fst f) /\
      (snd f = true -> ok = true -> bytes = fst f)
  end.

(** [p]: the settled packets of the ring. *)
Record rinv (r : rst) (a : area) (p : list sent_frame) : Prop := {
  ri_area : zlookup (n_shm (r_net r)) h = Some a;
  ri_wf : ring_wf a;
  ri_pending : pending a = zlength p + (if r_sending r is Some _ then 1 else 0);
  ri_entry : forall k f, zlookup p k = Some f -> holds a (r_card r) (slot a k) f;
  ri_sending : forall i frame o, r_sending r = Some (i, frame, o) ->
    i = slot a (zlength p) /\ slot_has a i PACKET_FREEZING (zlength frame) /\
    zlength frame <= DESC_MAX_DMA_SIZE /\
    (forall moved, o = Some moved -> stored (r_card r) i (frame, moved));
  ri_reading : forall i o, r_reading r = Some (i, o) -> i = slot a 63 /\
    exists f taken, holds a (r_card r) i f /\ r_sent r = taken ++ f :: p /\
      Forall2 matches taken (r_received r) /\
      (forall got, o = Some got -> matches f (Some got));
  ri_idle : r_reading r = None -> exists taken, r_sent r = taken ++ p /\
    Forall2 matches taken (r_received r);
}.

Lemma slot_has_ext a a' i st len :
  zlookup (ar_descs a') i = zlookup (ar_descs a) i ->
  slot_has a i st len -> slot_has a' i st len.
Proof using. intros E (d & ?). exists d. by rewrite E. Qed.

Lemma slot_has_alter a a' i f st len j :
  ar_descs a' = zalter f j (ar_descs a) -> i <> j ->
  slot_has a i st len -> slot_has a' i st len.
Proof using.
  intros E Hij. apply slot_has_ext. rewrite E, zlookup_zalter.
  by rewrite decide_False.
Qed.

Lemma stored_write m i h' i' part f :
  0 <= i < 64 -> 0 <= h' < MAX_AGENT_NUM -> 0 <= i' < 64 ->
  h <> h' \/ i <> i' -> zlength part <= DESC_MAX_DMA_SIZE ->
  stored m i f -> stored (card_write (dma_slot h' i') part m) i f.
Proof using Hh.
  intros Hi Hh' Hi' Hne Hp [Hf E]. split; [done|]. intros Hm.
  rewrite card_read_other; [by apply E|].
  unfold dma_slot, AGENT_TOTAL_DMA_SIZE, DESC_MAX_DMA_SIZE, MAX_AGENT_NUM in *. lia.
Qed.

Lemma holds_write a m i h' i' part frame :
  0 <= i < 64 -> 0 <= h' < MAX_AGENT_NUM -> 0 <= i' < 64 ->
  h <> h' \/ i <> i' -> zlength part <= DESC_MAX_DMA_SIZE ->
  holds a m i frame -> holds a (card_write (dma_slot h' i') part m) i frame.
Proof using Hh. intros ????? [??]. split; [done|]. by apply stored_write. Qed.

Lemma holds_alter a a' m i f j frame :
  ar_descs a' = zalter f j (ar_descs a) -> i <> j ->
  holds a m i frame -> holds a' m i frame.
Proof using.
  intros E Hij [? ?]. split; [|done]. by eapply slot_has_alter.
Qed.

Lemma slot_get_desc r a i d st len :
  zlookup (n_shm (r_net r)) h = Some a -> slot_has a i st len ->
  fst (get_desc h i (r_net r)) = Done d ->
  zlookup (ar_descs a) i = Some d /\ pd_status d = st /\
  pd_offset d = dma_slot h i /\ pd_length d = len.
Proof using.
  intros Ha (d' & Hd & H). rewrite (get_desc_run h a i d') by done.
  intros [= <-]. done.
Qed.

(** A packet's slot is none of the other slots in use. *)
Lemma pending_bound r a p : rinv r a p ->
  0 <= zlength p <= 63 /\ (is_Some (r_sending r) -> zlength p <= 62).
Proof using.
  intros H. pose proof (ri_pending _ _ _ H). pose proof (pending_range a).
  pose proof (zlength_nonneg p). destruct (r_sending r); split; try lia.
  by intros [? [=]].
Qed.

Lemma slots_differ a j k : ring_wf a ->
  0 <= j < 64 -> 0 <= k < 64 -> j <> k -> slot a j <> slot a k.
Proof using. intros Hwf Hj Hk Hne E. by apply slot_inj in E. Qed.

(** A write to the slot of another host, or to the slot that is being filled. *)
Lemma rinv_write_card r a p h' i' part :
  rinv r a p -> 0 <= h' < MAX_AGENT_NUM -> 0 <= i' < 64 ->
  zlength part <= DESC_MAX_DMA_SIZE ->
  h <> h' \/ (exists frame, r_sending r = Some (i', frame, None)) ->
  rinv (r <| r_card ::= card_write (dma_slot h' i') part |>) a p.
Proof using Hh.
  intros Hinv Hh' Hi' Hpart Hne. pose proof (pending_bound _ _ _ Hinv) as [Hb Hb'].
  assert (Hne' : h <> h' \/ (i' = slot a (zlength p) /\ zlength p <= 62)).
  { destruct Hne as [?|[frame Hs]]; [by left|right].
    destruct (ri_sending _ _ _ Hinv _ _ _ Hs) as (-> & _). split; [done|].
    apply Hb'. rewrite Hs. by eexists. }
  destruct Hinv as [Ha Hwf Hp Hent Hs Hr Hid]. split; try done.
  - intros k f Hk. pose proof (zlookup_lt_Some _ _ _ Hk).
    apply holds_write; try done; [apply slot_range| |by apply Hent].
    destruct Hne' as [?|[-> ?]]; [by left|right]. apply slots_differ; try done; lia.
  - intros i frame o E. destruct (Hs i frame o E) as (Ei & Hhas & Hl & Ho).
    do 3 (split; [done|]). intros moved ->.
    apply stored_write; try done; [rewrite Ei; apply slot_range| |by apply Ho].
    destruct Hne as [?|[frame' Hs']]; [by left|]. cbn in E. congruence.
  - intros i o E. destruct (Hr i o E) as (-> & f & taken & Hf & Hl). split; [done|].
    exists f, taken. split; [|done].
    apply holds_write; try done; [apply slot_range|].
    destruct Hne' as [?|[-> ?]]; [by left|right]. apply slots_differ; try done; lia.
Qed.

Lemma rinv_net r a p net :
  rinv r a p -> n_shm net = n_shm (r_net r) -> rinv (r <| r_net := net |>) a p.
Proof using.
  intros [Ha Hwf Hp Hent Hs Hr Hid] E. split; try done. cbn. by rewrite E.
Qed.

Lemma rinv_fetch r a p total frame i net :
  rinv r a p -> r_sending r = None -> zlength frame <= DESC_MAX_DMA_SIZE ->
  fetch_packet_desc total h (zlength frame) (r_net r) = (Done (Some i), net) ->
  rinv (r <| r_net := net |> <| r_sending := Some (i, frame, None) |>)
    (fetched h (zlength frame) a) p.
Proof using Hh.
  intros Hinv Hs Hlen E. pose proof (pending_bound _ _ _ Hinv) as [Hb _].
  destruct Hinv as [Ha Hwf Hp Hent _ Hr Hid]. rewrite Hs in Hp. cbn in Hp.
  rewrite (fetch_run total h _ _ a) in E by done.
  destruct (_ && (pending a <? 63)) eqn:Eb; [|done]. bprop.
  injection E as <- <-. pose proof (slot_pending a Hwf) as Hhead.
  assert (Epz : pending a = zlength p) by lia. rewrite Epz in Hhead.
  assert (Hother : forall k f, 0 <= k < 64 -> k <> zlength p ->
    holds a (r_card r) (slot a k) f ->
    holds (fetched h (zlength frame) a) (r_card r) (slot a k) f).
  { intros k f Hk Hne. eapply holds_alter; [reflexivity|]. rewrite <- Hhead.
    apply slots_differ; done || lia. }
  split; try done.
  - by eapply zlookup_zset_same.
  - by apply fetched_wf.
  - rewrite fetched_pending by (done || lia). cbn. lia.
  - intros k f Hk. apply Hother; [..|by apply Hent]; apply zlookup_lt_Some in Hk; lia.
  - intros j f o [= <- <- <-]. split; [done|]. split; [|done].
    destruct (fetched_desc h (zlength frame) a Hh Hwf) as (d & ? & ? & ? & ?).
    by exists d.
  - intros j o Hj. destruct (Hr j o Hj) as (-> & f & taken & Hf & Hl). split; [done|].
    exists f, taken. split; [|done]. apply Hother; done || lia.
Qed.

(** The transfer of a frame returns. *)
Lemma rinv_moved r a p i frame moved d :
  rinv r a p -> r_sending r = Some (i, frame, None) ->
  fst (get_desc h i (r_net r)) = Done d ->
  rinv (r <| r_card ::= (if moved then card_write (pd_offset d) frame else id) |>
          <| r_sending := Some (i, frame, Some moved) |>) a p.
Proof using Hh.
  intros Hinv Hs Hd.
  destruct (ri_sending _ _ _ Hinv _ _ _ Hs) as (Ei & Hhas & Hlen & _).
  destruct (slot_get_desc _ _ _ _ _ _ (ri_area _ _ _ Hinv) Hhas Hd) as (_ & _ & Eo & _).
  assert (Hi : 0 <= i < 64) by (rewrite Ei; apply slot_range).
  assert (Hinv' : rinv (r <| r_card ::= (if moved then card_write (pd_offset d) frame
                                         else id) |>) a p).
  { destruct moved; [|by destruct r]. rewrite Eo. apply rinv_write_card; try done.
    right. by exists frame. }
  destruct Hinv' as [Ha Hwf Hp Hent _ Hr Hid]. cbn in Ha, Hp, Hent, Hr, Hid.
  rewrite Hs in Hp. split; try done.
  intros j f o [= <- <- <-]. do 3 (split; [done|]). intros moved' [= <-].
  split; [done|]. cbn. intros ->. rewrite Eo. apply card_read_write.
Qed.

Lemma rinv_settle r a p i frame moved :
  rinv r a p -> r_sending r = Some (i, frame, Some moved) ->
  rinv (r <| r_net ::= fun net => snd (set_desc h i (fun d =>
               d <| pd_status := PACKET_SETTLED |>) net) |>
          <| r_sending := None |> <| r_sent ::= fun l => l ++ [(frame, moved)] |>)
    (settle i a) (p ++ [(frame, moved)]).
Proof using Hh.
  intros Hinv Hs. pose proof (pending_bound _ _ _ Hinv) as [Hb Hb'].
  rewrite Hs in Hb'. specialize (Hb' ltac:(by eexists)).
  destruct (ri_sending _ _ _ Hinv _ _ _ Hs) as (Ei & (d & Hd & Hst & Eo & El) & Hlen & Ho).
  specialize (Ho moved eq_refl).
  destruct Hinv as [Ha Hwf Hp Hent _ Hr Hid]. rewrite Hs in Hp.
  assert (Hother : forall k f, 0 <= k < 64 -> k <> zlength p ->
    holds a (r_card r) (slot a k) f -> holds (settle i a) (r_card r) (slot a k) f).
  { intros k f Hk Hne. eapply holds_alter; [reflexivity|]. rewrite Ei.
    apply slots_differ; done || lia. }
  split.
  - cbn. by rewrite zlookup_zalter, decide_True, Ha.
  - by apply settle_wf.
  - change (pending (settle i a)) with (pending a). rewrite Hp.
    unfold zlength. rewrite length_app. cbn. lia.
  - intros k f Hk. change (slot (settle i a) k) with (slot a k).
    apply zlookup_snoc in Hk as [[-> ->]|Hk].
    + rewrite <- Ei. split; [|exact Ho].
      exists (d <| pd_status := PACKET_SETTLED |>).
      by rewrite settle_desc, decide_True, Hd.
    + pose proof (zlookup_lt_Some _ _ _ Hk). apply Hother; [lia|lia|by apply Hent].
  - done.
  - intros j o Hj. destruct (Hr j o Hj) as (-> & f & taken & Hf & Hl & Hm).
    split; [done|]. exists f, taken. split; [apply Hother; done || lia|].
    split; [|done]. cbn. rewrite Hl. by rewrite <- app_assoc.
  - intros Hj. destruct (Hid Hj) as (taken & Hl & Hm). exists taken.
    split; [|done]. cbn. rewrite Hl. by rewrite <- app_assoc.
Qed.

Lemma rinv_take r a p i net :
  rinv r a p -> r_reading r = None ->
  nupa_data_available h (r_net r) = (Done (Some i), net) ->
  exists p', rinv (r <| r_net := net |> <| r_reading := Some (i, None) |>) (dequeue a) p'.
Proof using Hh.
  intros Hinv Hr E. pose proof (pending_bound _ _ _ Hinv) as [Hb Hb'].
  destruct Hinv as [Ha Hwf Hp Hent Hs _ Hid].
  rewrite (available_run h a) in E by done.
  destruct (Z.eqb_spec (pending a) 0) as [|Hpos]; [done|].
  rewrite <- (slot_0 a Hwf) in E. destruct p as [|f p].
  { change (zlength (@nil sent_frame)) with 0 in *.
    destruct (r_sending r) as [[[j f] o]|]; [|lia].
    destruct (Hs j f o eq_refl) as (-> & (d & Hd & Hst & _) & _).
    rewrite Hd in E. cbn in E. by rewrite Hst in E. }
  destruct (Hent 0 f eq_refl) as [(d & Hd & Hst & ?) Hf].
  rewrite Hd in E. cbn in E. rewrite Hst in E. injection E as <- <-.
  rewrite zlength_cons in *. pose proof (zlength_nonneg p).
  exists p. split.
  - by eapply zlookup_zset_same.
  - by apply dequeue_wf.
  - pose proof (pending_range a). rewrite dequeue_pending by (done || lia). cbn. lia.
  - intros k g Hk. rewrite dequeue_slot by done.
    apply (Hent (k + 1)). by rewrite zlookup_cons by by eapply zlookup_lt_Some.
  - intros j g o Hj. destruct (Hs j g o Hj) as (-> & ? & ?). by rewrite dequeue_slot.
  - intros j o [= <- <-]. rewrite dequeue_slot, slot_64, slot_0 by done. split; [done|].
    destruct (Hid Hr) as (taken & Hl & Hm). exists f, taken.
    split; [|by split]. rewrite <- (slot_0 a Hwf). by apply (Hent 0 f).
  - done.
Qed.

(** The bytes of the packet have been read. *)
Lemma rinv_receive r a p i d bytes ok :
  rinv r a p -> r_reading r = Some (i, None) ->
  fst (get_desc h i (r_net r)) = Done d -> zlength bytes = pd_length d ->
  (ok = true -> bytes = card_read (pd_offset d) (pd_length d) (r_card r)) ->
  rinv (r <| r_reading := Some (i, Some (bytes, ok)) |>) a p.
Proof using.
  intros [Ha Hwf Hp Hent Hs Hr Hid] Hi Hd Hlen Hok. split; try done.
  intros j o [= <- <-].
  destruct (Hr i None Hi) as (Ei & f & taken & [Hhas [Hmax Hread]] & Hl & Hm & _).
  destruct (slot_get_desc _ _ _ _ _ _ Ha Hhas Hd) as (_ & _ & Eo & El).
  split; [done|]. exists f, taken. repeat (split; [done|]). intros got [= <-].
  split; [congruence|]. intros Hmv Hk. by rewrite (Hok Hk), Eo, El, Hread.
Qed.

(** The poll is done with the packet. *)
Lemma rinv_done r a p i o got :
  rinv r a p -> r_reading r = Some (i, o) -> got = None \/ o = got ->
  rinv (r <| r_reading := None |> <| r_received ::= fun l => l ++ [got] |>) a p.
Proof using.
  intros [Ha Hwf Hp Hent Hs Hr Hid] Hi Hgot. split; try done.
  intros _. destruct (Hr i o Hi) as (_ & f & taken & _ & Hl & Hm & Hf).
  exists (taken ++ [f]). cbn. split; [by rewrite Hl, <- app_assoc|].
  apply Forall2_app; [done|]. constructor; [|constructor].
  destruct Hgot as [->| ->]; [done|]. destruct got as [g|]; [by apply Hf|done].
Qed.

Lemma rinv_release r a p i o :
  rinv r a p -> r_reading r = Some (i, o) ->
  exists a', rinv (r <| r_net ::= fun net => snd (set_desc h i (fun d =>
               d <| pd_status := PACKET_RELEASED |>) net) |> <| r_reading := None |>
     <| r_received ::= fun l => l ++ [o] |>) a' p.
Proof using Hh.
  intros Hinv Hi. pose proof (pending_bound _ _ _ Hinv) as [Hb Hb'].
  destruct (ri_reading _ _ _ Hinv i o Hi) as (Ei & _).
  assert (Hinv' := rinv_done r a p i o o Hinv Hi
    ltac:(by right)).
  exists (release i a). destruct Hinv' as [Ha Hwf Hp Hent Hs _ Hid].
  cbn in Ha, Hp, Hent, Hs, Hid. split; try done.
  - cbn. by rewrite zlookup_zalter, decide_True, Ha.
  - by apply release_wf.
  - intros k g Hk. change (slot (release i a) k) with (slot a k).
    pose proof (zlookup_lt_Some _ _ _ Hk). eapply holds_alter; [reflexivity|..].
    + rewrite Ei. apply slots_differ; done || lia.
    + by apply Hent.
  - intros j g o' Hj. destruct (Hs j g o' Hj) as (-> & ? & ?). split; [done|].
    split; [|done]. cbn in Hj. rewrite Hj in Hb'. specialize (Hb' ltac:(by eexists)).
    eapply slot_has_alter; [reflexivity| |done].
    rewrite Ei. apply slots_differ; done || lia.
Qed.

Lemma send_data_shm skb d net r net' :
  xdma_send_data interfere skb d net = (r, net') -> n_shm net' = n_shm net.
Proof using.
  unfold xdma_send_data. exec. unfold on_h2c.
  destruct (_ =? 0); [by intros [= <- <-]|]. exec.
  destruct (xdma_transfer_data _ _ _ _ _ _) as [[res|] e]; cbn [fst snd]; exec;
    by intros [= <- <-].
Qed.

Lemma receive_data_shm d net r net' :
  xdma_receive_data interfere d net = (r, net') -> n_shm net' = n_shm net.
Proof using.
  unfold xdma_receive_data. exec. unfold on_c2h.
  destruct (_ =? 0); [by intros [= <- <-]|]. exec.
  destruct (xdma_transfer_data _ _ _ _ _ _) as [[res|] e]; cbn [fst snd];
    [|by intros [= <- <-]].
  destruct (_ =? 0); exec; by intros [= <- <-].
Qed.

Lemma rinv_step r r' a p :
  rinv r a p -> rstep r r' -> exists a' p', rinv r' a' p'.
Proof using Hh.
  intros Hinv Hstep. destruct Hstep as [total frame i net r Hs Hl E
    |i frame d part r Hs Hd Hpart|skb i frame d res net r Hs Hd E
    |i frame moved r Hs|i net r Hr E|i d skb bytes net r Hr Hd E Hlen Hok
    |i d net r Hr Hd E|i got r Hr|h' i' part r Hh' Hne Hi' Hpart|net r E].
  - do 2 eexists. by eapply rinv_fetch.
  - destruct (ri_sending _ _ _ Hinv _ _ _ Hs) as (Ei & Hhas & Hlen & _).
    destruct (slot_get_desc _ _ _ _ _ _ (ri_area _ _ _ Hinv) Hhas Hd) as (_ & _ & -> & El).
    exists a, p. apply rinv_write_card; try done; [rewrite Ei; apply slot_range|lia|].
    right. by exists frame.
  - exists a, p. apply send_data_shm in E.
    pose proof (rinv_moved r a p i frame (res =? zlength frame) d Hinv Hs Hd) as H1.
    exact (rinv_net _ _ _ net H1 E).
  - do 2 eexists. by eapply rinv_settle.
  - eexists. by eapply rinv_take.
  - exists a, p. apply receive_data_shm in E.
    assert (H1 : rinv (r <| r_reading := Some (i, Some (bytes, bool_decide
      (receive_result d (r_net r) = Some (pd_length d)))) |>) a p).
    { eapply rinv_receive; try done. intros Ek%bool_decide_eq_true. by apply Hok. }
    exact (rinv_net _ _ _ net H1 E).
  - exists a, p. apply receive_data_shm in E.
    assert (H1 := rinv_done r a p i None None Hinv Hr ltac:(by left)).
    exact (rinv_net _ _ _ net H1 E).
  - destruct (rinv_release r a p i (Some got) Hinv Hr) as [a' H']. by exists a', p.
  - exists a, p. apply rinv_write_card; try done. by left.
  - exists a, p. by apply rinv_net.
Qed.

Lemma rinv_reachable r0 r :
  rinit r0 -> rtc rstep r0 r -> exists a p, rinv r a p.
Proof using Hh.
  intros [(s & Es & Hinit) (Hs & Hr & Hsent & Hrec)] Hsteps.
  assert (H0 : exists a p, rinv r0 a p).
  { exists (init_area h), []. apply adapter_info_init_run in Hinit. rewrite Es in Hinit.
    split; try done; rewrite ?Hs, ?Hr, ?Hsent, ?Hrec; try done.
    - apply init_area_wf.
    - intros k f Hk. by apply zlookup_lt_Some in Hk as [? ?%Z.lt_nge].
    - exists []. by split. }
  clear Hinit Hs Hr Hsent Hrec. revert H0.
  induction Hsteps as [|r0 r1 r Hstep _ IH]; [done|].
  intros (a & p & Hinv). apply IH. by eapply rinv_step.
Qed.

End ring_sys.

(** * Witness *)

Definition ex_ring_net : nst := {|
  n_shm := [init_area 0; init_area 1];
  n_host_id := 1;
  n_dump_ctl := false;
  n_hold_ic_ctl := false;
  n_h2c := ex_idle_state;
  n_c2h := ex_c2h_state;
  n_trace := [];
|}.

Definition ex_ring : rst := {|
  r_net := snd (adapter_info_init ex_ring_net);
  r_card := fun _ => 0;
  r_sending := None;
  r_reading := None;
  r_sent := [];
  r_received := [];
|}.

(** A frame of three bytes goes to host 1: fetched, moved, settled, taken, read. *)
Definition ex_slot_desc (st : packet_desc_status) : packet_desc :=
  Build_packet_desc 0 (dma_slot 1 0) 3 st.

Definition ex_r1 : rst := ex_ring
  <| r_net := snd (fetch_packet_desc 0 1 3 (r_net ex_ring)) |>
  <| r_sending := Some (0, [7; 8; 9], None) |>.

Definition ex_r2 : rst := ex_r1
  <| r_net := snd (@xdma_send_data dma_platform irq_params complete_at_once 0x30000
                     (ex_slot_desc PACKET_FREEZING) (r_net ex_r1)) |>
  <| r_card ::= card_write (dma_slot 1 0) [7; 8; 9] |>
  <| r_sending := Some (0, [7; 8; 9], Some true) |>.

Definition ex_r3 : rst := ex_r2
  <| r_net ::= fun net => snd (set_desc 1 0 (fun d =>
       d <| pd_status := PACKET_SETTLED |>) net) |>
  <| r_sending := None |> <| r_sent ::= fun l => l ++ [([7; 8; 9], true)] |>.

Definition ex_r4 : rst := ex_r3
  <| r_net := snd (nupa_data_available 1 (r_net ex_r3)) |>
  <| r_reading := Some (0, None) |>.

Definition ex_r5 : rst := ex_r4
  <| r_net := snd (@xdma_receive_data dma_platform irq_params complete_at_once
                     (ex_slot_desc PACKET_SETTLED) (r_net ex_r4)) |>
  <| r_reading := Some (0, Some ([7; 8; 9], true)) |>.

Definition ex_r6 : rst := ex_r5
  <| r_net ::= fun net => snd (set_desc 1 0 (fun d =>
       d <| pd_status := PACKET_RELEASED |>) net) |>
  <| r_reading := None |> <| r_received ::= fun l => l ++ [Some ([7; 8; 9], true)] |>.

Notation ex_rstep := (@rstep dma_platform irq_params complete_at_once 1).

Lemma run_done {S A} (m : M S (outcome A)) s a :
  fst (m s) = Done a -> m s = (Done a, snd (m s)).
Proof. destruct (m s). cbn. by intros ->. Qed.

Lemma ex_ring_run : rtc ex_rstep ex_ring ex_r6.
Proof.
  apply rtc_l with ex_r1.
  { apply (rs_fetch complete_at_once 1 0 [7; 8; 9] 0); by vm_compute. }
  apply rtc_l with ex_r2.
  { apply (rs_send complete_at_once 1 0x30000 0 [7; 8; 9]
      (ex_slot_desc PACKET_FREEZING) 3); [by vm_compute|by vm_compute|].
    apply run_done. by vm_compute. }
  apply rtc_l with ex_r3; [by apply (rs_settle complete_at_once 1 0 [7; 8; 9] true)|].
  apply rtc_l with ex_r4.
  { apply (rs_take complete_at_once 1 0); [by vm_compute|].
    apply run_done. by vm_compute. }
  apply rtc_l with ex_r5.
  { assert (Eok : bool_decide (@receive_result dma_platform irq_params complete_at_once
      (ex_slot_desc PACKET_SETTLED) (r_net ex_r4) = Some 3) = true) by by vm_compute.
    unfold ex_r5. rewrite <- Eok.
    apply (rs_receive complete_at_once 1 0 (ex_slot_desc PACKET_SETTLED) 0x10000
      [7; 8; 9]); [by vm_compute|by vm_compute| |by vm_compute|by vm_compute].
    apply run_done. by vm_compute. }
  apply rtc_l with ex_r6; [by apply (rs_release complete_at_once 1 0 ([7; 8; 9], true))|].
  apply rtc_refl.
Qed.

