(* ===== verification/IrqProps.v ===== *)
(** What the interrupt handlers do, and the vector tables. *)
From S2P Require Import Prelude Hw Desc Types Engine EngineFacts Device Irq.
From S2P Require Import Examples.

(** * The interrupt handler against a plain description *)

(** [m] on every element of a list, in order. *)
Fixpoint each {S A} (m : A -> M S unit) (l : list A) : M S unit :=
  match l with
  | [] => ret tt
  | a :: l' => do* m a in each m l'
  end.

Lemma each_app {S A} (m : A -> M S unit) l1 l2 s :
  each m (l1 ++ l2) s = each m l2 (snd (each m l1 s)).
Proof.
  revert s. induction l1 as [|a l1 IH]; intros s; [done|].
  cbn [each app]. rewrite !bind_run. apply IH.
Qed.

(** The users whose interrupt is set, and the channels of direction [d] that
    have an engine whose interrupt is set. *)
Definition fired_users (dev : xdma_dev) (user_irq : Z) : list Z :=
  List.filter (Z.testbit user_irq) (seqZ 0 (xd_user_max dev)).

Definition fires (d : dma_data_direction) (s : dvst) (ch_irq i : Z) : bool :=
  has_bits (e_irq_bitmask (engine_at d s i)) ch_irq &&
  (e_magic (engine_at d s i) =? MAGIC_ENGINE).

Definition fired (d : dma_data_direction) (s : dvst) (ch_irq : Z) : list Z :=
  List.filter (fires d s ch_irq) (seqZ 0 (channel_max d (v_dev s))).

(** * The loops *)

Lemma seqZ_S i n : seqZ i (Z.of_nat (S n)) = i :: seqZ (i + 1) (Z.of_nat n).
Proof. rewrite seqZ_cons by lia. f_equal. unfold Z.succ. f_equal. lia. Qed.

Lemma filter_none {A} (f : A -> bool) l :
  (forall x, In x l -> f x = false) -> List.filter f l = [].
Proof.
  induction l as [|x l IH]; intros Hf; cbn; [done|].
  rewrite (Hf x) by by left. apply IH. intros y Hy. apply Hf. by right.
Qed.

Section irq.
Context `{Platform} `{ModParams}.

Definition serve (u : Z) : M dvst unit :=
  let* _ := user_irq_service u in ret tt.

Lemma user_loop_run n u w s :
  0 <= u -> u + Z.of_nat n <= 32 ->
  user_loop n u (u32 (2 ^ u)) w s =
  each serve (List.filter (Z.testbit w) (seqZ u (Z.of_nat n))) s.
Proof.
  revert u w s. induction n as [|n IH]; intros u w s Hu Hn; [done|].
  rewrite seqZ_S. cbn [user_loop List.filter]. rewrite u32_small by
    (split; [apply Z.pow_nonneg; lia|apply Z.pow_lt_mono_r; lia]).
  assert (Hnext : u32 (Z.shiftl (2 ^ u) 1) = u32 (2 ^ (u + 1))).
  { by rewrite Z.shiftl_mul_pow2, Z.pow_add_r by lia. }
  rewrite Hnext, has_bits_pow2 by lia.
  destruct (Z.eqb_spec w 0) as [->|Hw].
  { rewrite Z.bits_0, filter_none; [done|]. intros. apply Z.bits_0. }
  destruct (Z.testbit w u) eqn:E; cbn [each]; [|apply IH; lia].
  unfold serve at 1. exec. rewrite IH by lia. f_equal.
  apply filter_ext_in. intros j Hj%in_seqZ. apply testbit_andn32; lia.
Qed.

(** The loop over the channels changes nothing but the trace. *)
Lemma engine_at_trace d s t i : engine_at d (s <| v_trace := t |>) i = engine_at d s i.
Proof. by destruct d. Qed.

Lemma channel_loop_run d n c m s :
  0 <= c ->
  (forall i, c <= i < c + Z.of_nat n -> 0 <= e_irq_bitmask (engine_at d s i) < 2 ^ 32) ->
  (forall i j, c <= i < c + Z.of_nat n -> c <= j < c + Z.of_nat n -> i <> j ->
     Z.land (e_irq_bitmask (engine_at d s i)) (e_irq_bitmask (engine_at d s j)) = 0) ->
  channel_loop d n c m s =
  each (fun i => emit (ScheduleWork d i))
    (List.filter (fires d s m) (seqZ c (Z.of_nat n))) s.
Proof.
  revert c m s. induction n as [|n IH]; intros c m s Hc Hrange Hdis; [done|].
  rewrite seqZ_S. cbn [channel_loop List.filter].
  destruct (Z.eqb_spec m 0) as [->|Hm].
  { assert (Hno : forall i, fires d s 0 i = false).
    { intros i. unfold fires, has_bits. by rewrite Z.land_0_r. }
    by rewrite Hno, filter_none. }
  exec. fold (engine_at d s c). fold (fires d s m c).
  destruct (fires d s m c) eqn:E; cbn [each]; [|apply IH; [lia|..]; intros;
    [apply Hrange|apply Hdis]; lia].
  exec. set (s1 := snd (emit _ s)).
  assert (Es : forall i, engine_at d s1 i = engine_at d s i) by (intros; by destruct d).
  rewrite IH; [|lia|intros i Hi; rewrite Es; apply Hrange; lia
    |intros i j Hi Hj Hij; rewrite !Es; apply Hdis; lia].
  f_equal. apply filter_ext_in. intros i Hi%in_seqZ. unfold fires. rewrite Es.
  unfold has_bits. rewrite land_andn32; [done|apply Hrange; lia|apply Hdis; lia].
Qed.

(** What a handler for a user interrupt leaves alone. *)
Definition same_engines (s s' : dvst) : Prop := forall d,
  engines d s' = engines d s /\
  channel_max d (v_dev s') = channel_max d (v_dev s) /\
  mask_irq d (v_dev s') = mask_irq d (v_dev s).

#[local] Instance same_engines_preorder : PreOrder same_engines.
Proof.
  split; [by repeat split|]. intros s1 s2 s3 A B d.
  destruct (A d) as (?&?&?), (B d) as (?&?&?). repeat split; congruence.
Qed.

Lemma irq_wf_same s s' : same_engines s s' -> irq_wf s -> irq_wf s'.
Proof.
  intros E [Hr Hd Hm].
  assert (Ee : forall d i, engine_at d s' i = engine_at d s i).
  { intros d i. unfold engine_at. by rewrite (proj1 (E d)). }
  split; intros d; destruct (E d) as (_ & Ec & Emask); intros *; rewrite ?Ee, ?Ec, ?Emask;
    [apply Hr|apply Hd|apply Hm].
Qed.

Lemma serve_same u s : same_engines s (snd (serve u s)).
Proof.
  unfold serve, user_irq_service. exec.
  destruct (zlookup (xd_user_irq (v_dev s)) u) as [x|]; [|reflexivity].
  destruct (u_handler x); [by repeat (intros [])|]. exec.
  destruct (_ =? 0); [|reflexivity]. exec. by intros [].
Qed.

Lemma serve_all_same l s : same_engines s (snd (each serve l s)).
Proof.
  revert s. induction l as [|u l IH]; intros s; [reflexivity|].
  cbn [each]. exec. etransitivity; [apply serve_same|apply IH].
Qed.

Lemma each_schedule_run d l s :
  each (fun i => emit (ScheduleWork d i)) l s =
  (tt, s <| v_trace ::= app (rev (map (ScheduleWork d) l)) |>).
Proof.
  revert s. induction l as [|i l IH]; intros s; [by destruct s|].
  cbn [each]. exec. rewrite IH. cbn [map rev]. unfold emit. exec.
  apply (f_equal (fun x => (tt, x))). unfold upd_field. cbn. f_equal.
  by rewrite <- app_assoc.
Qed.

(** [dispatch] schedules the work of the engines whose interrupt is set. *)
Lemma dispatch_run d ch s :
  irq_wf s ->
  dispatch d ch s = each (fun i => emit (ScheduleWork d i)) (fired d s ch) s.
Proof.
  intros [Hr Hd Hm]. unfold dispatch, dev. exec. rewrite channel_loop_run; [|lia|..].
  - rewrite seqZ_to_nat. f_equal. apply filter_ext_in. intros i Hi%in_seqZ.
    unfold fires, has_bits. specialize (Hm d i ltac:(lia)).
    rewrite <- Hm at 2. rewrite (Z.land_comm ch), Z.land_assoc. done.
  - intros i Hi. apply Hr. lia.
  - intros i j Hi Hj. apply Hd; lia.
Qed.

(** The handler as it is meant: acknowledge what fired, run the handlers of
    the users, schedule the engines. *)
Definition isr_reference : M dvst Z :=
  let* ch_irq := irq_read R_channel_int_request in
  do* when (negb (ch_irq =? 0)) (channel_interrupts_disable ch_irq) in
  let* user_irq := irq_read R_user_int_request in
  let* d := dev in
  do* each serve (fired_users d user_irq) in
  let* s := gets (fun s : dvst => s) in
  do* each (fun i => emit (ScheduleWork DMA_TO_DEVICE i))
        (fired DMA_TO_DEVICE s ch_irq) in
  do* each (fun i => emit (ScheduleWork DMA_FROM_DEVICE i))
        (fired DMA_FROM_DEVICE s ch_irq) in
  do* upd_dev (fun d => d <| xd_irq_count ::= fun n => i32 (n + 1) |>) in
  ret IRQ_HANDLED.

(** C15: The interrupt handler of the device serves exactly the user interrupts
    and schedules the work of exactly the engines that fired, each once and in
    channel order, after it has disabled the channel interrupts that fired:
    the bit masks that its loops shift and clear, and their early ends, lose
    and repeat nothing. *)
Theorem isr_dispatch s :
  irq_wf s -> 0 <= xd_user_max (v_dev s) <= 32 -> xdma_isr s = isr_reference s.
Proof.
  intros Hwf Hu. unfold xdma_isr, isr_reference. exec.
  set (ch := fst (irq_read R_channel_int_request s)).
  set (s1 := snd (irq_read R_channel_int_request s)).
  assert (H1 : same_engines s s1 /\ xd_user_max (v_dev s1) = xd_user_max (v_dev s))
    by (by split; [intros []|]).
  clearbody ch s1. destruct H1 as [H1 Hu1].
  set (s2 := snd (if negb (ch =? 0) then _ else _)).
  assert (H2 : same_engines s1 s2 /\ xd_user_max (v_dev s2) = xd_user_max (v_dev s1))
    by (subst s2; destruct (negb _); split; [by intros []|done|done|done]).
  clearbody s2. destruct H2 as [H2 Hu2].
  set (w := fst (irq_read R_user_int_request s2)).
  set (s3 := snd (irq_read R_user_int_request s2)).
  assert (H3 : same_engines s2 s3 /\ xd_user_max (v_dev s3) = xd_user_max (v_dev s2))
    by (by split; [intros []|]).
  clearbody w s3. destruct H3 as [H3 Hu3]. unfold dev. exec.
  change 1 with (u32 (2 ^ 0)) at 1.
  rewrite user_loop_run, seqZ_to_nat by lia. fold (fired_users (v_dev s3) w).
  pose proof (serve_all_same (fired_users (v_dev s3) w) s3) as H4.
  set (s4 := snd (each serve _ s3)) in *. clearbody s4.
  assert (Hwf4 : irq_wf s4).
  { eapply irq_wf_same; [|exact Hwf]. repeat (etransitivity; [eassumption|]). done. }
  rewrite (dispatch_run _ _ s4) by done. rewrite each_schedule_run. cbn [fst snd].
  set (s5 := upd_field v_trace _ s4).
  assert (H5 : same_engines s4 s5) by (by intros []).
  rewrite (dispatch_run _ _ s5) by (by eapply irq_wf_same). done.
Qed.
End irq.

(** * Vectors *)

Lemma testbit_1f v t : 0 <= t -> Z.testbit (Z.land v 0x1f) t = (t <? 5) && Z.testbit v t.
Proof.
  intros Ht. rewrite Z.land_spec. change 0x1f with (Z.ones 5).
  rewrite Z.testbit_ones_nonneg by lia. apply andb_comm.
Qed.

Lemma vector_word_low k i max sh t :
  0 <= sh -> 0 <= t < sh -> Z.testbit (vector_word k i max sh) t = false.
Proof.
  revert i sh. induction k as [|k IH]; intros i sh Hsh Ht; cbn [vector_word];
    [apply Z.bits_0|].
  destruct (i <? max); [|apply Z.bits_0].
  rewrite Z.lor_spec, Z.shiftl_spec_low, IH by lia. done.
Qed.

Lemma vector_word_field k i max sh b t :
  0 <= sh -> 0 <= b < Z.of_nat k -> i + b < max -> 0 <= t < 8 ->
  Z.testbit (vector_word k i max sh) (sh + 8 * b + t) = (t <? 5) && Z.testbit (i + b) t.
Proof.
  revert i sh b. induction k as [|k IH]; intros i sh b Hsh Hb Hmax Ht; [lia|].
  cbn [vector_word]. destruct (Z.ltb_spec i max); [|lia].
  rewrite Z.lor_spec, Z.shiftl_spec by lia.
  replace (sh + 8 * b + t - sh) with (8 * b + t) by lia.
  rewrite testbit_1f by lia. destruct (Z.eq_dec b 0) as [->|Hb0].
  - rewrite vector_word_low by lia. rewrite orb_false_r, Z.add_0_r. done.
  - destruct (Z.ltb_spec (8 * b + t) 5); [lia|]. cbn [andb orb].
    replace (sh + 8 * b + t) with (sh + 8 + 8 * (b - 1) + t) by lia.
    rewrite IH by lia. do 2 f_equal. lia.
Qed.

Lemma vector_word_range k i max sh :
  0 <= i -> 0 <= sh -> 0 <= vector_word k i max sh < 2 ^ (sh + 8 * Z.of_nat k).
Proof.
  revert i sh. induction k as [|k IH]; intros i sh Hi Hsh; cbn [vector_word].
  { split; [lia|apply Z.pow_pos_nonneg; lia]. }
  destruct (i <? max); [|split; [lia|apply Z.pow_pos_nonneg; lia]].
  apply lor_range; [lia|..].
  - pose proof (land_range_r i 0x1f ltac:(lia)) as Hr.
    rewrite Z.shiftl_mul_pow2 by lia.
    pose proof (Z.pow_pos_nonneg 2 sh ltac:(lia) Hsh).
    split; [apply Z.mul_nonneg_nonneg; lia|].
    apply Z.lt_le_trans with (2 ^ 8 * 2 ^ sh);
      [apply Z.mul_lt_mono_pos_r; lia|].
    rewrite <- Z.pow_add_r by lia. apply Z.pow_le_mono_r; lia.
  - specialize (IH (i + 1) (sh + 8) ltac:(lia) ltac:(lia)).
    by replace (sh + 8 * Z.of_nat (S k)) with (sh + 8 + 8 * Z.of_nat k) by lia.
Qed.

(** Field [k] of a vector register. *)
Definition vector_field (w k : Z) : Z := Z.land (Z.shiftr w (8 * k)) 0x1f.

Lemma vector_word_vector i max b :
  0 <= i -> 0 <= b < 4 -> i + b < max -> i + b < 32 ->
  vector_field (u32 (vector_word 4 i max 0)) b = i + b.
Proof.
  intros Hi Hb Hmax H32. pose proof (vector_word_range 4 i max 0 Hi ltac:(lia)).
  rewrite u32_small by lia. unfold vector_field. apply Z.bits_inj'. intros t Ht.
  rewrite testbit_1f, Z.shiftr_spec by lia.
  destruct (Z.ltb_spec t 5) as [H5|H5]; cbn [andb].
  - replace (t + 8 * b) with (0 + 8 * b + t) by lia.
    rewrite vector_word_field by lia. by rewrite (proj2 (Z.ltb_lt _ _) H5).
  - symmetry. apply (testbit_small (i + b) 5); lia.
Qed.

(** The last value written to a register. *)
Fixpoint last_written (t : list event) (a : Z) : option Z :=
  match t with
  | [] => None
  | MmioWrite b v :: t' => if b =? a then Some v else last_written t' a
  | _ :: t' => last_written t' a
  end.

Section vectors.
Context `{Platform} `{ModParams}.

Lemma prog_vectors_run fuel base i max j s :
  let A := int_regs (v_dev s) + base in
  0 <= i -> 0 <= j -> max - i <= 4 * Z.of_nat fuel ->
  0 <= A -> A + 4 * (j + Z.of_nat fuel) < 2 ^ 64 ->
  let s' := snd (prog_vectors fuel base i max j false s) in
  v_dev s' = v_dev s /\
  (forall e, In e (v_trace s) -> In e (v_trace s')) /\
  (forall k, 0 <= k -> i + 4 * k < max ->
     last_written (v_trace s') (A + 4 * (j + k)) =
     Some (u32 (vector_word 4 (i + 4 * k) max 0))) /\
  (forall a, a < A + 4 * j \/ A + 4 * j + (max - i + 3) <= a ->
     last_written (v_trace s') a = last_written (v_trace s) a).
Proof.
  revert i j s. induction fuel as [|fuel IH]; intros i j s A Hi Hj Hf HA Hw.
  { cbn. repeat split; auto. intros k Hk. lia. }
  cbn [prog_vectors]. destruct (Z.ltb_spec i max) as [Hlt|Hge].
  2:{ cbn. repeat split; auto. intros k Hk. lia. }
  exec. unfold irq_write. exec. unfold write_register. set (s1 := snd (emit _ s)).
  assert (E1 : v_trace s1 = MmioWrite (A + 4 * j) (u32 (vector_word 4 i max 0)) ::
    v_trace s).
  { subst s1. cbn. rewrite u64_small by lia. do 2 f_equal. unfold A. lia. }
  assert (Ed : v_dev s1 = v_dev s) by done. clearbody s1.
  destruct (IH (i + 4) (j + 1) s1) as (Hd & Hin & Hset & Hkeep);
    rewrite ?Ed; fold A; try lia.
  rewrite Ed in Hd, Hset, Hkeep. fold A in Hset, Hkeep.
  split; [done|]. split; [intros e He; apply Hin; rewrite E1; by right|]. split.
  - intros k Hk Hmax. destruct (Z.eq_dec k 0) as [->|Hk0].
    + rewrite Hkeep by lia. rewrite E1. cbn [last_written].
      rewrite (proj2 (Z.eqb_eq _ _)) by lia. do 3 f_equal. lia.
    + replace (A + 4 * (j + k)) with (A + 4 * (j + 1 + (k - 1))) by lia.
      rewrite Hset by lia. do 3 f_equal. lia.
  - intros a Ha. rewrite Hkeep by lia. rewrite E1. cbn [last_written].
    by rewrite (proj2 (Z.eqb_neq _ _)) by lia.
Qed.

(** The kernel grants every line that is asked for; vector number [j] of the
    device is line [vec j]. *)
Context (vec : Z -> Z)
  (vec_ok : forall t j, kernel_answer t "pci_irq_vector" [j] = vec j)
  (request_ok : forall t args, kernel_answer t "request_irq" args = 0).

Definition requested (s : dvst) (j : Z) (cookie : list Z) : Prop :=
  In (Call "request_irq" (u32 (vec j) :: cookie) 0) (v_trace s).

Lemma channel_setup_run d n i j s :
  exists s', channel_setup d n i j s = (0, s') /\ v_dev s' = v_dev s /\
    (forall e, In e (v_trace s) -> In e (v_trace s')) /\
    (forall k, 0 <= k < Z.of_nat n -> requested s' (j + k) (cookie_engine d (i + k))).
Proof using vec_ok request_ok.
  revert i j s. induction n as [|n IH]; intros i j s.
  { exists s. repeat split; auto. intros k Hk. lia. }
  cbn [channel_setup]. unfold request_irq. exec.
  rewrite (kcall_dv "pci_irq_vector"), vec_ok. cbn [fst snd].
  rewrite kcall_dv, request_ok.
  cbn [fst snd negb Z.eqb]. exec. set (s1 := upd_field v_trace _ (upd_field _ _ _)).
  assert (H1 : requested s1 j (cookie_engine d i)) by by left.
  assert (Hm1 : forall e, In e (v_trace s) -> In e (v_trace s1))
    by (intros e He; by right; right).
  assert (Hd1 : v_dev s1 = v_dev s) by done. clearbody s1.
  set (s2 := snd (on_engine _ _ _ s1)).
  assert (H2 : v_trace s2 = v_trace s1 /\ v_dev s2 = v_dev s1).
  { subst s2. unfold on_engine. destruct (zlookup (engines d s1) i); [|done].
    by destruct d. }
  clearbody s2. destruct H2 as [Ht2 Hd2].
  destruct (IH (i + 1) (j + 1) s2) as (s' & E & Hd & Hm & Hr).
  exists s'. split; [exact E|]. split; [congruence|].
  split; [intros e He; apply Hm; rewrite Ht2; by apply Hm1|].
  intros k Hk. destruct (Z.eq_dec k 0) as [->|Hk0].
  - rewrite !Z.add_0_r. apply Hm. rewrite Ht2. exact H1.
  - replace (j + k) with (j + 1 + (k - 1)) by lia.
    replace (i + k) with (i + 1 + (k - 1)) by lia. apply Hr. lia.
Qed.

Lemma user_setup_run n i j s :
  exists s', user_setup n i j s = (0, s') /\ v_dev s' = v_dev s /\
    (forall e, In e (v_trace s) -> In e (v_trace s')) /\
    (forall k, 0 <= k < Z.of_nat n -> requested s' (j + k) (cookie_user (i + k))).
Proof using vec_ok request_ok.
  revert i j s. induction n as [|n IH]; intros i j s.
  { exists s. repeat split; auto. intros k Hk. lia. }
  cbn [user_setup]. unfold request_irq. exec.
  rewrite (kcall_dv "pci_irq_vector"), vec_ok. cbn [fst snd].
  rewrite kcall_dv, request_ok.
  cbn [fst snd negb Z.eqb]. exec. set (s1 := upd_field v_trace _ (upd_field _ _ _)).
  assert (H1 : requested s1 j (cookie_user i)) by by left.
  assert (Hm1 : forall e, In e (v_trace s) -> In e (v_trace s1))
    by (intros e He; by right; right).
  assert (Hd1 : v_dev s1 = v_dev s) by done. clearbody s1.
  destruct (IH (i + 1) (j + 1) s1) as (s' & E & Hd & Hm & Hr).
  exists s'. split; [exact E|]. split; [congruence|].
  split; [intros e He; by apply Hm, Hm1|].
  intros k Hk. destruct (Z.eq_dec k 0) as [->|Hk0].
  - rewrite !Z.add_0_r. by apply Hm.
  - replace (j + k) with (j + 1 + (k - 1)) by lia.
    replace (i + k) with (i + 1 + (k - 1)) by lia. apply Hr. lia.
Qed.

Lemma keep_intx_dev s :
  v_dev (snd (pci_keep_intx_enabled s)) = v_dev s.
Proof using.
  unfold pci_keep_intx_enabled. exec. destruct (negb _); done.
Qed.

(** Register [base + 4 * (i / 4)] of the interrupt block holds [v] in its field
    [i mod 4]. *)
Definition vector_set (s : dvst) (base i v : Z) : Prop :=
  exists w, last_written (v_trace s) (int_regs (v_dev s) + base + 4 * (i / 4)) = Some w /\
    vector_field w (i mod 4) = v.

Lemma vectors_set s s' base i max j fuel :
  s' = snd (prog_vectors fuel base i max 0 false s) ->
  0 <= i -> max - i <= 4 * Z.of_nat fuel -> max <= 32 ->
  0 <= int_regs (v_dev s) + base ->
  int_regs (v_dev s) + base + 4 * Z.of_nat fuel < 2 ^ 64 ->
  0 <= j -> i + j < max -> vector_set s' base j (i + j).
Proof using.
  intros -> Hi Hf H32 HA Hw Hj Hlt.
  destruct (prog_vectors_run fuel base i max 0 s) as (Hd & _ & Hset & _); try lia.
  pose proof (Z.div_mod j 4 ltac:(lia)). pose proof (Z.mod_pos_bound j 4 ltac:(lia)).
  pose proof (Z.div_pos j 4 ltac:(lia) ltac:(lia)). eexists. split.
  - rewrite Hd. rewrite <- (Z.add_0_l (j / 4)). apply Hset; lia.
  - rewrite vector_word_vector by lia. lia.
Qed.

(** The lines of the engines, then those of the user interrupts. *)
Lemma channel_lines s :
  let d := v_dev s in
  xd_msix_enabled d = true -> 0 <= xd_h2c_channel_max d -> 0 <= xd_c2h_channel_max d ->
  exists s', irq_msix_channel_setup s = (0, s') /\ v_dev s' = d /\
    (forall i, 0 <= i < xd_c2h_channel_max d + xd_h2c_channel_max d ->
       requested s' i (if i <? xd_h2c_channel_max d then cookie_engine DMA_TO_DEVICE i
                       else cookie_engine DMA_FROM_DEVICE (i - xd_h2c_channel_max d))).
Proof using vec_ok request_ok.
  intros d Hmsix Hh Hc. unfold irq_msix_channel_setup. exec. fold d. rewrite Hmsix.
  cbn [negb]. exec.
  destruct (channel_setup_run DMA_TO_DEVICE (Z.to_nat (xd_h2c_channel_max d)) 0 0 s)
    as (s1 & E1 & Hd1 & Hm1 & Hr1).
  rewrite E1. cbn [fst snd negb Z.eqb].
  destruct (channel_setup_run DMA_FROM_DEVICE (Z.to_nat (xd_c2h_channel_max d)) 0
    (xd_h2c_channel_max d) s1) as (s2 & E2 & Hd2 & Hm2 & Hr2).
  exists s2. split; [exact E2|]. split; [by rewrite Hd2, Hd1|]. intros i Hi.
  destruct (Z.ltb_spec i (xd_h2c_channel_max d)).
  - apply Hm2, Hr1. lia.
  - replace i with (xd_h2c_channel_max d + (i - xd_h2c_channel_max d)) at 1 by lia.
    apply Hr2. lia.
Qed.

(** The vector registers of the engines, then those of the user interrupts. *)
Lemma vectors_programmed s :
  let d := v_dev s in
  let channels := xd_c2h_channel_max d + xd_h2c_channel_max d in
  xd_msix_enabled d = true -> 0 <= channels <= 8 -> 0 <= xd_user_max d <= 16 ->
  0 <= int_regs d -> int_regs d + 0x200 < 2 ^ 64 ->
  exists s', snd ((do* prog_irq_msix_channel false in prog_irq_msix_user false) s) = s' /\
    v_dev s' = d /\ (forall e, In e (v_trace s) -> In e (v_trace s')) /\
    (forall i, 0 <= i < channels -> vector_set s' R_channel_msi_vector i i) /\
    (forall u, 0 <= u < xd_user_max d ->
       vector_set s' R_user_msi_vector u (channels + u)).
Proof using.
  intros d channels Hmsix Hch Huser HA Hw.
  unfold prog_irq_msix_channel, prog_irq_msix_user. exec. fold d. fold channels.
  destruct (prog_vectors_run (Z.to_nat channels) R_channel_msi_vector 0 channels 0 s)
    as (Hd4 & Hm4 & _); fold d; unfold R_channel_msi_vector in *; try lia.
  pose proof (fun j => vectors_set s _ R_channel_msi_vector 0 channels j
    (Z.to_nat channels) eq_refl) as Hv4.
  set (s4 := snd (prog_vectors _ _ 0 channels 0 false s)) in *. clearbody s4.
  fold d in Hd4, Hv4. rewrite Hd4. fold channels.
  destruct (prog_vectors_run (Z.to_nat (xd_user_max d)) R_user_msi_vector channels
    (channels + xd_user_max d) 0 s4) as (Hd5 & Hm5 & _ & Hk5);
    rewrite ?Hd4; unfold R_user_msi_vector in *; try lia.
  pose proof (fun j => vectors_set s4 _ R_user_msi_vector channels
    (channels + xd_user_max d) j (Z.to_nat (xd_user_max d)) eq_refl) as Hv5.
  set (s5 := snd (prog_vectors _ _ channels _ 0 false s4)) in *. clearbody s5.
  rewrite Hd4 in Hd5, Hk5, Hv5. unfold R_user_msi_vector, R_channel_msi_vector in *.
  exists s5. split; [reflexivity|]. split; [done|]. split; [auto|]. split.
  - intros i Hi. destruct (Hv4 i) as (w & Hlast & Hf); try lia. exists w.
    rewrite Hd5, Hk5 by (pose proof (Z.div_pos i 4); lia). by rewrite Hd4 in Hlast.
  - intros u Hu. apply Hv5; lia.
Qed.

(** C20: In MSI-X mode [irq_setup] connects every source of interrupts with its
    handler: channel [i] of the interrupt block (the engines to the device first)
    and user interrupt [u] are programmed with vectors of their own, and on the
    line of that vector the handler is requested for exactly that engine or user.
    The kernel is assumed to grant every line. *)
Theorem msix_routing p s :
  let d := v_dev s in
  let h2c := xd_h2c_channel_max d in
  let channels := xd_c2h_channel_max d + h2c in
  xd_msix_enabled d = true ->
  0 <= h2c <= XDMA_CHANNEL_NUM_MAX -> 0 <= xd_c2h_channel_max d <= XDMA_CHANNEL_NUM_MAX ->
  0 <= xd_user_max d <= MAX_USER_IRQ ->
  0 <= int_regs d -> int_regs d + 0x200 < 2 ^ 64 ->
  exists s', irq_setup p s = (0, s') /\ v_dev s' = d /\
    (forall i, 0 <= i < channels ->
       vector_set s' R_channel_msi_vector i i /\
       requested s' i (if i <? h2c then cookie_engine DMA_TO_DEVICE i
                       else cookie_engine DMA_FROM_DEVICE (i - h2c))) /\
    (forall u, 0 <= u < xd_user_max d ->
       vector_set s' R_user_msi_vector u (channels + u) /\
       requested s' (channels + u) (cookie_user u)).
Proof using vec_ok request_ok.
  intros d h2c channels Hmsix Hh2c Hc2h Huser HA Hw.
  unfold XDMA_CHANNEL_NUM_MAX, MAX_USER_IRQ in *.
  unfold irq_setup. exec. pose proof (keep_intx_dev s) as Hd0.
  change (v_dev s) with d in Hd0.
  set (s0 := snd (pci_keep_intx_enabled s)) in *. clearbody s0. rewrite Hd0, Hmsix.
  destruct (channel_lines s0) as (s1 & E1 & Hd1 & Hr1); rewrite ?Hd0; try done; try lia.
  rewrite Hd0 in Hd1, Hr1. fold h2c channels in Hr1. exec. rewrite E1.
  cbn [fst snd negb Z.eqb]. unfold irq_msix_user_setup. exec. rewrite Hd1.
  destruct (user_setup_run (Z.to_nat (xd_user_max d)) 0
    (xd_h2c_channel_max d + xd_c2h_channel_max d) s1) as (s2 & E2 & Hd2 & Hm2 & Hr2).
  rewrite E2. cbn [fst snd negb Z.eqb]. rewrite Hd1 in Hd2.
  destruct (vectors_programmed s2) as (s3 & E3 & Hd3 & Hm3 & Hv & Hu);
    rewrite ?Hd2; try done; try (subst channels h2c; lia).
  rewrite Hd2 in Hd3, Hv, Hu. fold h2c channels in Hv, Hu.
  rewrite bind_run in E3. exec.
  rewrite E3. exists s3. split; [done|]. split; [done|]. split.
  - intros i Hi. split; [by apply Hv|]. by apply Hm3, Hm2, Hr1.
  - intros u Hu'. split; [by apply Hu|]. apply Hm3.
    replace (channels + u) with (xd_h2c_channel_max d + xd_c2h_channel_max d + u)
      by (subst channels h2c; lia).
    apply Hr2. lia.
Qed.
End vectors.

(** * Witnesses *)

(** One engine per direction, on a device whose registers all read 3. *)
Lemma ex_dv_wf : irq_wf ex_dv.
Proof.
  split; intros []; cbn; intros.
  all: repeat match goal with
  | H : 0 <= ?i < 1 |- _ => assert (i = 0) as -> by lia; clear H
  end.
  all: first [done | by vm_compute].
Qed.

Lemma isr_dispatch_witness :
  v_trace (snd (@xdma_isr (platform_reading 3) ex_dv)) =
  v_trace (snd (@isr_reference (platform_reading 3) ex_dv)).
Proof.
  rewrite (@isr_dispatch (platform_reading 3) ex_dv ex_dv_wf
    ltac:(split; by vm_compute)). reflexivity.
Defined.

Definition irq_platform : Platform := {|
  mmio_answer _ _ := 0;
  wb_answer _ := 0;
  kernel_answer _ f args :=
    if String.eqb f "pci_irq_vector" then 40 + default 0 (head args) else 0;
  sizeof_xdma_request_cb := 256;
  VMALLOC_START := 2 ^ 47;
  VMALLOC_END := 2 ^ 48;
|}.

Lemma msix_routing_witness :
  exists s', @irq_setup irq_platform (Build_pci_dev false [] 0) ex_dv = (0, s') /\
    vector_set s' R_user_msi_vector 5 7.
Proof.
  destruct (@msix_routing irq_platform (fun j => 40 + j)
    (fun _ _ => eq_refl) (fun _ _ => eq_refl) (Build_pci_dev false [] 0) ex_dv
    eq_refl ltac:(split; by vm_compute) ltac:(split; by vm_compute)
    ltac:(split; by vm_compute) ltac:(by vm_compute) ltac:(by vm_compute))
    as (s' & E & _ & _ & Hu).
  exists s'. split; [exact E|]. apply (Hu 5). split; by vm_compute.
Defined.
