(* ===== verification/BarsProps.v ===== *)
(** Which BARs are mapped, and what they are taken for. *)
From S2P Require Import Prelude Hw Desc Types Engine EngineFacts Device Bars Examples.

Section bars.
Context `{Platform}.

(** The BARs that are mapped, in order. *)
Definition is_mapped (d : xdma_dev) (i : Z) : bool :=
  if mjoin (zlookup (xd_bar d) i) is Some _ then true else false.
Definition mapped_bars (d : xdma_dev) : list Z :=
  List.filter (is_mapped d) (seqZ 0 XDMA_BAR_NUM).

(** The identification registers of BAR [c] have been read as those of the
    interrupt and the configuration blocks. *)
Definition recognised (s : dvst) (c : Z) : Prop :=
  exists v w,
    In (MmioRead (u64 (bar_base (v_dev s) c + XDMA_OFS_INT_CTRL)) v) (v_trace s) /\
    In (MmioRead (u64 (bar_base (v_dev s) c + XDMA_OFS_CONFIG)) w) (v_trace s) /\
    Z.land v 0xffff0000 = IRQ_BLOCK_ID /\ Z.land w 0xffff0000 = CONFIG_BLOCK_ID.

(** The user and the bypass BAR, [-1] for none, by the BARs before and after
    the configuration BAR [c]. *)
Definition roles (before : list Z) (c : Z) (after : list Z) : Z * Z :=
  match before, after with
  | [], [b] => (-1, b)
  | [u], [] => (u, -1)
  | [u], [b] => (u, b)
  | [u], [_; b] => (u, b)
  | [u; _], [b] => (u, b)
  | [u; _], [] => (u, c)
  | _, _ => (-1, -1)
  end.

Lemma identify_roles before c after d :
  xd_user_bar_idx d = -1 -> xd_bypass_bar_idx d = -1 ->
  (length (before ++ c :: after) <= 6)%nat ->
  let ids := before ++ c :: after in
  let d' := identify_bars ids (zlength ids) (zlength before) d in
  (xd_user_bar_idx d', xd_bypass_bar_idx d') = roles before c after /\
  xd_bar d' = xd_bar d /\ xd_config_bar_idx d' = xd_config_bar_idx d.
Proof using.
  intros Hu Hb Hl. rewrite length_app in Hl. cbn [length] in Hl.
  destruct before as [|? [|? [|? [|? [|? [|? ?]]]]]],
    after as [|? [|? [|? [|? [|? [|? ?]]]]]]; cbn [length] in Hl; try lia; clear Hl.
  all: destruct d; cbn in Hu, Hb; subst; by vm_compute.
Qed.

(** * Unmapping *)

Lemma is_mapped_set i j p d :
  is_mapped (d <| xd_bar ::= zset p i |>) j =
  if decide (i = j /\ 0 <= i < zlength (xd_bar d))
  then (if p is Some _ then true else false) else is_mapped d j.
Proof using.
  unfold is_mapped. change (xd_bar (d <| xd_bar ::= _ |>)) with (zset p i (xd_bar d)).
  rewrite zlookup_zset. by case_decide; [destruct p|].
Qed.

Lemma unmap_bar_dev i s :
  0 <= i < zlength (xd_bar (v_dev s)) ->
  exists bars, v_dev (snd (unmap_bar i s)) = (v_dev s) <| xd_bar := bars |> /\
    zlength bars = zlength (xd_bar (v_dev s)) /\
    forall j, is_mapped (v_dev (snd (unmap_bar i s))) j =
      if decide (j = i) then false else is_mapped (v_dev s) j.
Proof using.
  intros Hi. unfold unmap_bar. rewrite bind_run, dev_run. cbn [fst snd].
  destruct (mjoin _) as [p|] eqn:E.
  - exists (zset None i (xd_bar (v_dev s))). exec. split; [done|].
    split; [apply zlength_zset|]. intros j.
    etransitivity; [apply (is_mapped_set i j None (v_dev s))|].
    repeat case_decide; done || lia.
  - exists (xd_bar (v_dev s)). split; [by destruct s as [[]]|].
    split; [done|].
    intros j. case_decide as Hj; [|done]. subst j. unfold is_mapped. cbn.
    by rewrite E.
Qed.

Lemma unmap_loop n i s :
  0 <= i -> i + Z.of_nat n <= zlength (xd_bar (v_dev s)) ->
  let d' := v_dev (snd (for_m n i unmap_bar s)) in
  forall j, is_mapped d' j =
    if decide (i <= j < i + Z.of_nat n) then false else is_mapped (v_dev s) j.
Proof using.
  cbv zeta. revert i s. induction n as [|n IH]; intros i s Hi Hn j; cbn [for_m].
  { rewrite decide_False by lia. done. }
  rewrite bind_run. destruct (unmap_bar_dev i s) as (bars & Ed & El & Em); [lia|].
  assert (El' : zlength (xd_bar (v_dev (snd (unmap_bar i s)))) = zlength (xd_bar (v_dev s)))
    by by rewrite Ed.
  rewrite IH by (rewrite ?El'; lia). rewrite Em. repeat case_decide; done || lia.
Qed.

Lemma unmap_bars_all s :
  zlength (xd_bar (v_dev s)) = XDMA_BAR_NUM ->
  mapped_bars (v_dev (snd (unmap_bars s))) = [].
Proof using.
  intros Hl. unfold XDMA_BAR_NUM in Hl. unfold mapped_bars, unmap_bars.
  erewrite filter_ext_in with (g := fun _ => false); [by vm_compute|].
  intros j Hj%in_seqZ. unfold XDMA_BAR_NUM in *. rewrite unmap_loop by lia.
  by rewrite decide_True by lia.
Qed.

(** * Mapping *)

(** Since the trace [t] the length of BAR [i] has been asked for, and the BAR is
    mapped if it exists, that is, if its length is not 0. *)
Definition mapped_as_found (t : list event) (s : dvst) (i : Z) : Prop :=
  exists len, emitted (Call "pci_resource_len" [i] len) t (v_trace s) /\
    is_mapped (v_dev s) i = negb (u64 len =? 0).

(** After the first [i] BARs, in a call that began at the trace [t0]. *)
Record mapping (t0 : list event) (i : Z) (ids : list Z) (pos : Z) (s : dvst) : Prop := {
  mp_found : forall j, 0 <= j < i -> mapped_as_found t0 s j;
  mp_trace : extends t0 (v_trace s);
  mp_length : zlength (xd_bar (v_dev s)) = XDMA_BAR_NUM;
  mp_ids : ids = List.filter (is_mapped (v_dev s)) (seqZ 0 i);
  mp_user : xd_user_bar_idx (v_dev s) = -1;
  mp_bypass : xd_bypass_bar_idx (v_dev s) = -1;
  mp_config :
    xd_config_bar_idx (v_dev s) = -1 \/
    (exists before after, ids = before ++ xd_config_bar_idx (v_dev s) :: after /\
      zlength before = pos /\ recognised s (xd_config_bar_idx (v_dev s)));
}.

(** [s] after BAR [i] has become [p] and some events. *)
Definition bar_set (p : option Z) (i : Z) (tr : list event) (s : dvst) : dvst :=
  s <| v_dev ::= fun d => d <| xd_bar ::= zset p i |> |> <| v_trace ::= app tr |>.

Lemma bar_set_again p q i tr s :
  (bar_set p i tr s) <| v_dev ::= fun d => d <| xd_bar ::= zset q i |> |> =
  bar_set q i tr s.
Proof using.
  destruct s as [[] ? ? ? ?]. unfold bar_set, upd_field. cbn. by rewrite zset_zset.
Qed.

Lemma map_single_bar_run i s :
  exists v p tr len, map_single_bar i s = (v, bar_set p i tr s) /\
    Call "pci_resource_len" [i] len ∈ tr /\
    ((v = 0 /\ p = None /\ u64 len = 0) \/ (v = -1 /\ p = None) \/
     (0 < v /\ u64 len <> 0 /\ exists a, p = Some a)).
Proof using.
  unfold map_single_bar, set_bar. exec. cbn [fst snd].
  match goal with |- context [u64 ?l] => set (len0 := l) end.
  set (len := u64 len0). assert (Hlen : 0 <= len) by (apply Z.mod_pos_bound; lia).
  destruct (Z.eqb_spec len 0) as [E|E].
  - eexists 0, None, [_; _], len0. split; [done|]. split; [by apply elem_of_cons; left|].
    by left.
  - exec. cbn [fst snd]. set (p := fst (kcall "pci_iomap" _ _)).
    clearbody p. set (m := if INT_MAX <? len then INT_MAX else len).
    assert (Hm : 0 < m < 2 ^ 31).
    { unfold m, INT_MAX. destruct (Z.ltb_spec 2147483647 len); lia. }
    set (sn := snd (kcall "pci_iomap" _ _)).
    assert (Hl : exists tr, sn = bar_set None i tr s /\
      Call "pci_resource_len" [i] len0 ∈ tr).
    { eexists [_; _; _]. split; [done|]. apply elem_of_cons. right.
      by apply elem_of_cons; left. }
    destruct Hl as (tr & -> & Htr). rewrite bar_set_again. destruct (Z.eqb_spec p 0).
    + eexists _, _, _, len0. split; [done|]. split; [done|]. by right; left.
    + eexists _, _, _, len0. split; [done|]. split; [done|]. right; right.
      rewrite i32_small by lia. split; [lia|]. split; [exact E|]. by eexists.
Qed.

(** Setting BAR [i] leaves what has been found below [i]. *)
Lemma bar_set_recognised p i tr s c :
  c <> i -> recognised s c -> recognised (bar_set p i tr s) c.
Proof using.
  intros Hc (v & w & Hv & Hw & Ev & Ew).
  assert (Eb : bar_base (v_dev (bar_set p i tr s)) c = bar_base (v_dev s) c).
  { unfold bar_base, bar_set. cbn. by rewrite zlookup_zset, decide_False by (intros [<- _]; done). }
  exists v, w. rewrite Eb. split; [|split; [|done]]; cbn; apply in_or_app; by right.
Qed.

Lemma mapped_next d d' i :
  0 <= i -> (forall j, 0 <= j < i -> is_mapped d' j = is_mapped d j) ->
  List.filter (is_mapped d') (seqZ 0 (i + 1)) =
  List.filter (is_mapped d) (seqZ 0 i) ++ (if is_mapped d' i then [i] else []).
Proof using.
  intros Hi Hsame. rewrite seqZ_app, List.filter_app by lia. f_equal.
  apply filter_ext_in. intros j Hj%in_seqZ. apply Hsame. lia.
Qed.

Lemma found_later t0 s s' j :
  extends (v_trace s) (v_trace s') ->
  is_mapped (v_dev s') j = is_mapped (v_dev s) j ->
  mapped_as_found t0 s j -> mapped_as_found t0 s' j.
Proof using.
  intros Ht Hm (len & He & Hj). exists len. rewrite Hm. split; [|done].
  by eapply emitted_l.
Qed.

Lemma mapping_set t0 i ids pos p tr len s :
  mapping t0 i ids pos s -> 0 <= i < XDMA_BAR_NUM ->
  Call "pci_resource_len" [i] len ∈ tr ->
  (if p is Some _ then true else false) = negb (u64 len =? 0) ->
  mapping t0 (i + 1) (ids ++ (if p is Some _ then [i] else [])) pos (bar_set p i tr s).
Proof using.
  intros [Hf Ht Hl Hi Hu Hb Hc] Hr Hcall Hlen.
  assert (Hm : forall j, is_mapped (v_dev (bar_set p i tr s)) j =
    if decide (i = j) then (if p is Some _ then true else false)
    else is_mapped (v_dev s) j).
  { intros j. etransitivity; [apply (is_mapped_set i j p (v_dev s))|].
    rewrite Hl. repeat case_decide; done || lia. }
  assert (Hext : extends (v_trace s) (v_trace (bar_set p i tr s))) by by exists tr.
  split; try done.
  - intros j Hj. destruct (decide (j = i)) as [->|Hne].
    + exists len. rewrite Hm, decide_True by done. split; [|exact Hlen].
      destruct Ht as [tr0 Et]. exists (tr ++ tr0). cbn. rewrite Et.
      split; [by rewrite app_assoc|].
      by apply elem_of_app; left.
    + apply (found_later t0 s); [done| |apply Hf; lia].
      by rewrite Hm, decide_False.
  - by transitivity (v_trace s).
  - unfold bar_set. cbn. by rewrite zlength_zset.
  - rewrite mapped_next with (d := v_dev s), <- Hi, Hm by
      (intros; rewrite ?Hm, ?decide_False by lia; done || lia).
    rewrite decide_True by done. by destruct p.
  - destruct Hc as [Hc|(before & after & E & Hp & Hrec)]; [by left|right].
    exists before, (after ++ (if p is Some _ then [i] else [])).
    split; [by rewrite E, <- app_assoc|]. split; [done|].
    apply bar_set_recognised; [|done].
    change (xd_config_bar_idx _) with (xd_config_bar_idx (v_dev s)).
    assert (Hin : In (xd_config_bar_idx (v_dev s)) (seqZ 0 i)); [|apply in_seqZ in Hin; lia].
    eapply proj1, filter_In. rewrite <- Hi, E. apply in_elt.
Qed.

Lemma recognised_trace tr s c :
  recognised s c -> recognised (s <| v_trace ::= app tr |>) c.
Proof using.
  intros (v & w & Hv & Hw & Hid). exists v, w.
  split; [|split; [|done]]; cbn; apply in_or_app; by right.
Qed.

Lemma is_config_bar_run i s :
  exists b tr, is_config_bar i s = (b, s <| v_trace ::= app tr |>) /\
    (b = true -> recognised (s <| v_trace ::= app tr |>) i).
Proof using.
  unfold is_config_bar, read_register. exec. cbn [fst snd].
  eexists _, [_; _]. split; [reflexivity|]. intros [Hv Hw]%andb_true_iff.
  apply Z.eqb_eq in Hv, Hw. eexists _, _. split; [|split; [|split; [exact Hv|exact Hw]]].
  - by right; left.
  - by left.
Qed.

Lemma mapping_trace t0 i ids pos tr s :
  mapping t0 i ids pos s -> mapping t0 i ids pos (s <| v_trace ::= app tr |>).
Proof using.
  intros [Hf Ht Hl Hi Hu Hb Hc].
  assert (Hext : extends (v_trace s) (v_trace (s <| v_trace ::= app tr |>)))
    by by exists tr.
  split; try done.
  { intros j Hj. apply (found_later t0 s); [done|done|by apply Hf]. }
  { by transitivity (v_trace s). }
  destruct Hc as [Hc|(before & after & E & Hp & Hrec)]; [by left|right].
  exists before, after. split; [done|]. split; [done|]. by apply recognised_trace.
Qed.

Lemma mapping_found t0 i ids pos s :
  mapping t0 (i + 1) (ids ++ [i]) pos s -> recognised s i ->
  mapping t0 (i + 1) (ids ++ [i]) (zlength ids)
    (s <| v_dev ::= fun d => d <| xd_config_bar_idx := i |> |>).
Proof using.
  intros [Hf Ht Hl Hi Hu Hb _] Hrec. split; try done. right. by exists ids, [].
Qed.

(** The loop, whether or not it maps every BAR. *)
Lemma map_loop_run t0 n i ids pos s :
  mapping t0 i ids pos s -> 0 <= i -> i + Z.of_nat n = XDMA_BAR_NUM ->
  let r := map_loop n i ids pos s in
  zlength (xd_bar (v_dev (snd r))) = XDMA_BAR_NUM /\
  match fst r with
  | Some (ids', pos') => mapping t0 XDMA_BAR_NUM ids' pos' (snd r)
  | None => True
  end.
Proof using.
  cbv zeta. revert i ids pos s. induction n as [|n IH]; intros i ids pos s Hm Hi Hn; cbn [map_loop].
  { rewrite Z.add_0_r in Hn. subst i. split; [apply Hm|exact Hm]. }
  assert (Hr : 0 <= i < XDMA_BAR_NUM) by lia.
  rewrite bind_run. destruct (map_single_bar_run i s)
    as (v & p & tr & len & -> & Hcall & Hv). cbn [fst snd].
  destruct Hv as [(-> & -> & Hlen) | [[-> ->] | (Hv & Hlen & a & ->)]].
  - assert (Hm1 := mapping_set t0 i ids pos None tr len s Hm Hr Hcall
      ltac:(by rewrite Hlen)).
    rewrite app_nil_r in Hm1. apply IH; [exact Hm1|lia|lia].
  - split; [|done]. cbn [fst snd ret]. unfold bar_set. cbn. rewrite zlength_zset.
    apply Hm.
  - assert (Hm1 := mapping_set t0 i ids pos (Some a) tr len s Hm Hr Hcall
      ltac:(by rewrite (proj2 (Z.eqb_neq _ _) Hlen))).
    rewrite (proj2 (Z.eqb_neq v 0)), (proj2 (Z.ltb_ge v 0)) by lia.
    rewrite bind_run, dev_run. cbn [fst snd]. set (s1 := bar_set _ _ _ _) in *. clearbody s1.
    rewrite bind_run. set (m := if (XDMA_BAR_SIZE <=? v) && (xd_config_bar_idx (v_dev s1) <? 0)
               then is_config_bar i else ret false).
    assert (Hf : exists b tr', m s1 = (b, s1 <| v_trace ::= app tr' |>) /\
      (b = true -> recognised (s1 <| v_trace ::= app tr' |>) i)).
    { unfold m. destruct (_ && _); [apply is_config_bar_run|].
      exists false, []. split; [by destruct s1|done]. }
    destruct Hf as (b & tr' & -> & Hrec). cbn [fst snd].
    apply (mapping_trace _ _ _ _ tr') in Hm1. set (s2 := s1 <| v_trace ::= _ |>) in *.
    clearbody s2. rewrite bind_run. destruct b; cbn [when].
    + rewrite upd_dev_run. cbn [fst snd]. apply IH; try lia.
      apply (mapping_found _ _ _ pos); [exact Hm1|by apply Hrec].
    + apply IH; [exact Hm1|lia|lia].
Qed.

(** C21: [map_bars] either succeeds, with a configuration BAR found and every BAR
    that exists mapped (its length, which has been asked for, is not 0), or
    fails with [-EINVAL] and leaves none mapped.  In the first case both
    identification registers of the configuration BAR have been read as an
    XDMA's, and the user and the bypass BAR follow from the position of the
    configuration BAR.  With two BARs the other one is the bypass BAR when it
    comes second and the user BAR when it comes first.  With three or four,
    when the configuration BAR is the second or the third, the user BAR is
    the first and the bypass BAR the last; of three BARs with the configuration
    BAR last, that is the configuration BAR itself, against the comment in
    [identify_bars].  In all other cases there is neither. *)
Theorem map_bars_roles s :
  zlength (xd_bar (v_dev s)) = XDMA_BAR_NUM ->
  xd_config_bar_idx (v_dev s) = -1 -> xd_user_bar_idx (v_dev s) = -1 ->
  xd_bypass_bar_idx (v_dev s) = -1 ->
  let r := map_bars s in
  let d' := v_dev (snd r) in
  (fst r = - EINVAL /\ mapped_bars d' = []) \/
  (fst r = 0 /\ exists before after,
     mapped_bars d' = before ++ xd_config_bar_idx d' :: after /\
     recognised (snd r) (xd_config_bar_idx d') /\
     (xd_user_bar_idx d', xd_bypass_bar_idx d') =
       roles before (xd_config_bar_idx d') after /\
     forall i, 0 <= i < XDMA_BAR_NUM -> exists len,
       emitted (Call "pci_resource_len" [i] len) (v_trace s) (v_trace (snd r)) /\
       is_mapped d' i = negb (u64 len =? 0)).
Proof using.
  intros Hl Hc Hu Hb. cbv zeta. unfold map_bars. rewrite bind_run.
  destruct (map_loop_run (v_trace s) (Z.to_nat XDMA_BAR_NUM) 0 [] 0 s) as [Hl1 Hm].
  { split; try done; [intros j Hj; lia|by left]. }
  { done. }
  { done. }
  set (s1 := snd (map_loop _ _ _ _ s)) in *. clearbody s1.
  set (r1 := fst (map_loop _ _ _ _ s)) in *. clearbody r1.
  destruct r1 as [[ids pos]|].
  2:{ left. rewrite bind_run. split; [done|]. by apply unmap_bars_all. }
  rewrite bind_run, dev_run. cbn [fst snd].
  destruct Hm as [Hf _ _ Hi Hu1 Hb1 Hc1].
  destruct (Z.ltb_spec (xd_config_bar_idx (v_dev s1)) 0) as [Hneg|Hpos].
  { left. rewrite bind_run. split; [done|]. by apply unmap_bars_all. }
  destruct Hc1 as [Hc1|(before & after & E & <- & Hrec)]; [lia|]. right.
  rewrite bind_run, upd_dev_run. split; [done|]. exists before, after.
  destruct (identify_roles before (xd_config_bar_idx (v_dev s1)) after (v_dev s1) Hu1 Hb1)
    as (Hroles & Ebar & Ecfg).
  { rewrite <- E, Hi. etransitivity; [apply filter_length_le|]. by vm_compute. }
  rewrite <- E in Hroles, Ebar, Ecfg. set (d := identify_bars _ _ _ _) in *.
  set (s2 := snd (ret 0 _)). assert (Ed : v_dev s2 = d) by done.
  assert (Et : v_trace s2 = v_trace s1) by done. clearbody s2 d.
  rewrite Ed, Ecfg. split; [|split; [|split; [done|]]].
  3:{ intros i Hr. destruct (Hf i Hr) as (len & He & Hm). exists len. rewrite Et.
      split; [done|]. unfold is_mapped in *. by rewrite Ebar. }
  - unfold mapped_bars, is_mapped. by rewrite Ebar, <- E.
  - destruct Hrec as (v & w & Hrec). exists v, w.
    by rewrite Et, Ed; unfold bar_base in *; rewrite Ebar.
Qed.
End bars.

(** * A card with a user BAR and a configuration BAR *)

Definition bars_platform : Platform := {|
  mmio_answer _ a :=
    if a =? 0x302000 then 0x1fc20006 else
    if a =? 0x303000 then 0x1fc30006 else 0xffffffff;
  wb_answer _ := 0;
  kernel_answer _ f args :=
    let i := default 0 (head args) in
    if String.eqb f "pci_resource_len" then
      (if i =? 0 then 0x1000000 else if i =? 2 then 0x10000 else 0)
    else if String.eqb f "pci_iomap" then 0x100000 + i * 0x100000
    else 0;
  sizeof_xdma_request_cb := 256;
  VMALLOC_START := 2 ^ 47;
  VMALLOC_END := 2 ^ 48;
|}.

Definition unmapped_dv : dvst := {|
  v_dev := zero_dev <| xd_bar := repeat None 6 |> <| xd_config_bar_idx := -1 |>
    <| xd_user_bar_idx := -1 |> <| xd_bypass_bar_idx := -1 |>;
  v_h2c := []; v_c2h := []; v_xfers := ∅; v_trace := [];
|}.

Lemma map_bars_roles_witness :
  fst (@map_bars bars_platform unmapped_dv) = 0 /\
  xd_user_bar_idx (v_dev (snd (@map_bars bars_platform unmapped_dv))) = 0 /\
  @recognised (snd (@map_bars bars_platform unmapped_dv)) 2.
Proof.
  destruct (@map_bars_roles bars_platform unmapped_dv eq_refl eq_refl eq_refl eq_refl)
    as [[E _]|(E & before & after & _ & Hr & _)]; [by vm_compute in E|].
  split; [exact E|]. split; [by vm_compute|].
  assert (Ec : xd_config_bar_idx (v_dev (snd (@map_bars bars_platform unmapped_dv))) = 2)
    by by vm_compute.
  by rewrite Ec in Hr.
Defined.
