(* ===== verification/InitProps.v ===== *)
(** What probing a device finds and creates. *)
From S2P Require Import Prelude Hw Desc Types Engine EngineFacts EngineSys.
From S2P Require Import Device Init InitFacts Examples.

Section probe.
Context `{Platform} `{ModParams} (mem_ok : memory_ok).

(** * One engine *)

(** What the identifier register of engine [i] of a direction reads, always. *)
Definition identifier (base : Z) (dir : dma_data_direction) (t : list event)
    (i : Z) : Z :=
  u32 (mmio_answer t (u64 (base + channel_offset dir i + R_identifier))).

Definition says_engine (dir : dma_data_direction) (i v : Z) : Prop :=
  Z.shiftr (Z.land v 0xffff0000) 16 = engine_id dir /\
  Z.shiftr (Z.land v 0x00000f00) 8 = i.

Definition present (base : Z) (dir : dma_data_direction) (i : Z) : Prop :=
  exists v, says_engine dir i v /\ forall t, identifier base dir t i = v.
Definition absent (base : Z) (dir : dma_data_direction) (i : Z) : Prop :=
  exists v, ~ says_engine dir i v /\ forall t, identifier base dir t i = v.

(** A device on which [k] engines of direction [dir] have been created, the
    first one with bit [n0]. *)
Definition grown (dir : dma_data_direction) (n0 k : Z) (d : xdma_dev) : xdma_dev :=
  (if is_to_device dir
   then d <| xd_mask_irq_h2c := Z.shiftl (Z.ones k) n0 |>
   else d <| xd_mask_irq_c2h := Z.shiftl (Z.ones k) n0 |>)
    <| xd_engines_num := n0 + k |>.

Lemma ones_shift_lor n0 k :
  0 <= n0 -> 0 <= k ->
  Z.lor (Z.shiftl (Z.ones k) n0) (2 ^ (n0 + k)) = Z.shiftl (Z.ones (k + 1)) n0.
Proof using.
  intros Hn Hk. rewrite Z.pow_add_r, (Z.mul_comm (2 ^ n0)) by lia.
  rewrite <- Z.shiftl_mul_pow2, <- Z.shiftl_lor by lia. f_equal.
  apply Z.bits_inj'. intros j Hj. rewrite Z.lor_spec, Z.pow2_bits_eqb by lia.
  rewrite !Z.testbit_ones by lia.
  destruct (Z.leb_spec 0 j), (Z.ltb_spec j k), (Z.ltb_spec j (k + 1)),
    (Z.eqb_spec k j); cbn; done || lia.
Qed.

Lemma grown_next dir n0 k d :
  0 <= n0 -> 0 <= k -> n0 + k < 32 ->
  (if is_to_device dir
   then (grown dir n0 k d) <| xd_mask_irq_h2c ::= fun m => Z.lor m (2 ^ (n0 + k)) |>
   else (grown dir n0 k d) <| xd_mask_irq_c2h ::= fun m => Z.lor m (2 ^ (n0 + k)) |>)
    <| xd_engines_num ::= fun n => i32 (n + 1) |>
  = grown dir n0 (k + 1) d.
Proof using.
  intros Hn Hk Hlt. unfold grown.
  rewrite <- ones_shift_lor by done.
  replace (n0 + (k + 1)) with (i32 (n0 + k + 1)) by (rewrite i32_small; lia).
  by destruct dir.
Qed.

Lemma grown_base dir n0 k d : config_base (grown dir n0 k d) = config_base d.
Proof using. by destruct dir. Qed.
Lemma grown_num dir n0 k d : xd_engines_num (grown dir n0 k d) = n0 + k.
Proof using. by destruct dir. Qed.

(** * The loop *)

(** From [s0], [k] engines of direction [dir] have been created. *)
Record probed (dir : dma_data_direction) (n0 k : Z) (s0 s : dvst) : Prop := {
  pb_dev : v_dev s = grown dir n0 k (v_dev s0);
  pb_other : forall dir', is_to_device dir <> is_to_device dir' ->
    engines dir' s = engines dir' s0;
  pb_made : forall i, 0 <= i < k -> made dir i (2 ^ (n0 + i)) (engine_at dir s i);
  pb_rest : forall i, k <= i -> zlookup (engines dir s) i = zlookup (engines dir s0) i;
}.

Lemma probe_present dir k s :
  present (config_base (v_dev s)) dir k -> 0 <= k < 2 ^ 32 -> exists tr,
  probe_for_engine dir k s =
  (let* rv := on_engine dir k (engine_init (channel_offset dir k) dir k) in
   ret (default (- EFAULT) rv)) (s <| v_trace := tr |>).
Proof using.
  intros (v & [Hid Hch] & Hv) Hk. unfold identifier in Hv.
  unfold probe_for_engine, get_engine_id, get_engine_channel_id, read_register.
  exec. cbn [fst snd trace_of traced_dvst]. rewrite !Hv, Hid, Hch, u32_small by lia.
  rewrite !Z.eqb_refl. by eexists.
Qed.

Lemma probe_absent dir k s :
  absent (config_base (v_dev s)) dir k -> 0 <= k < 2 ^ 32 -> exists tr,
  probe_for_engine dir k s = (- EINVAL, s <| v_trace := tr |>).
Proof using.
  intros (v & Hno & Hv) Hk. unfold identifier in Hv. unfold says_engine in Hno.
  unfold probe_for_engine, get_engine_id, get_engine_channel_id, read_register.
  exec. cbn [fst snd trace_of traced_dvst]. rewrite !Hv, (u32_small k) by lia.
  destruct (Z.eqb_spec (Z.shiftr (Z.land v 0xffff0000) 16) (engine_id dir)),
    (Z.eqb_spec (Z.shiftr (Z.land v 0x00000f00) 8) k); cbn; first [by eexists|tauto].
Qed.

Lemma probed_step dir n0 k s0 s :
  probed dir n0 k s0 s -> 0 <= n0 -> 0 <= k -> n0 + k < 32 ->
  zlookup (engines dir s0) k = Some zero_engine ->
  present (config_base (v_dev s0)) dir k ->
  fst (probe_for_engine dir k s) = 0 /\
  probed dir n0 (k + 1) s0 (snd (probe_for_engine dir k s)).
Proof using mem_ok.
  intros [Hd Ho Hm Hr] Hn Hk Hlt Hz Hp.
  destruct (probe_present dir k s) as [tr ->];
    [by rewrite Hd, grown_base|lia|].
  set (s1 := s <| v_trace := tr |>).
  assert (Hz1 : zlookup (engines dir s1) k = Some zero_engine).
  { rewrite <- Hz, <- Hr by lia. by destruct dir. }
  rewrite bind_run, (on_engine_run _ _ _ _ _ Hz1). cbn [fst snd].
  destruct (engine_init_made mem_ok (channel_offset dir k) dir k (v_dev s)
    ltac:(rewrite Hd, grown_num; lia) (engine_view zero_engine s1)) as (E & Hmade & Hdev);
    [done|].
  rewrite Hd, grown_num in Hmade, Hdev. rewrite grown_next in Hdev by lia.
  set (es := snd (engine_init _ _ _ _)) in *. clearbody es. rewrite E. split; [done|].
  change (snd (ret _ ?x)) with x.
  assert (Hl : forall i, zlookup (engines dir (put_view dir k es s1)) i =
    if i =? k then Some (st_eng es) else zlookup (engines dir s) i).
  { intros i. rewrite engines_put, zlookup_zset. apply zlookup_lt_Some in Hz1.
    destruct (Z.eqb_spec i k) as [->|Hne].
    - by rewrite decide_True by tauto.
    - rewrite decide_False by (intros []; lia). unfold s1. by rewrite engines_trace. }
  split.
  - by rewrite put_view_dev.
  - intros dir' Hne. rewrite engines_put_other by done. unfold s1.
    rewrite engines_trace. by apply Ho.
  - intros i Hi. unfold engine_at. rewrite Hl. destruct (Z.eqb_spec i k) as [->|Hne]; [done|].
    apply Hm. lia.
  - intros i Hi. rewrite Hl, (proj2 (Z.eqb_neq i k)) by lia. apply Hr. lia.
Qed.

(** The loop over the engines of one direction finds the [k] that are there. *)
Lemma probe_loop_made dir n0 h s0 k n s :
  probed dir n0 k s0 s -> 0 <= n0 -> 0 <= k <= h -> n0 + h <= 32 ->
  h <= k + Z.of_nat n ->
  (forall i, k <= i < h -> zlookup (engines dir s0) i = Some zero_engine) ->
  (forall i, k <= i < h -> present (config_base (v_dev s0)) dir i) ->
  (h = k + Z.of_nat n \/ absent (config_base (v_dev s0)) dir h) ->
  fst (probe_loop dir n k s) = h /\ probed dir n0 h s0 (snd (probe_loop dir n k s)).
Proof using mem_ok.
  revert k s. induction n as [|n IH]; intros k s Hp Hn Hk Hlt Hmax Hz Hpres Hend.
  { assert (k = h) as -> by lia. done. }
  cbn [probe_loop]. rewrite bind_run. destruct (Z.eq_dec k h) as [->|Hne].
  - destruct Hend as [?|Habs]; [lia|].
    destruct (probe_absent dir h s) as [tr E];
      [by rewrite (pb_dev _ _ _ _ _ Hp), grown_base|lia|].
    rewrite E. split; [done|]. change (probed dir n0 h s0 (s <| v_trace := tr |>)).
    destruct Hp as [Hd Ho Hm Hr]. split.
    + done.
    + intros dir' Hne. rewrite engines_trace. by apply Ho.
    + intros i Hi. unfold engine_at. rewrite engines_trace. by apply Hm.
    + intros i Hi. rewrite engines_trace. by apply Hr.
  - destruct (probed_step dir n0 k s0 s) as [E1 E2]; try done; try lia;
      [apply Hz; lia|apply Hpres; lia|].
    rewrite E1. cbn [negb Z.eqb]. apply IH; try done; try lia.
    + intros i Hi. apply Hz. lia.
    + intros i Hi. apply Hpres. lia.
    + destruct Hend as [->|?]; [left; lia|by right].
Qed.

(** * Both directions *)

(** A device of which no engine has been created, that has [h] H2C and [c] C2H
    engines. *)
Record unprobed (s : dvst) (h c : Z) : Prop := {
  up_num : xd_engines_num (v_dev s) = 0;
  up_mask : forall dir, mask_irq dir (v_dev s) = 0;
  up_zero : forall dir i, 0 <= i < XDMA_CHANNEL_NUM_MAX ->
    zlookup (engines dir s) i = Some zero_engine;
  up_max : forall dir, channel_max dir (v_dev s) <= XDMA_CHANNEL_NUM_MAX;
  up_h2c : 0 <= h <= xd_h2c_channel_max (v_dev s);
  up_c2h : 0 <= c <= xd_c2h_channel_max (v_dev s);
  up_present : forall dir i, 0 <= i < (if is_to_device dir then h else c) ->
    present (config_base (v_dev s)) dir i;
  up_absent : forall dir, let n := if is_to_device dir then h else c in
    n = channel_max dir (v_dev s) \/ absent (config_base (v_dev s)) dir n;
}.

Lemma pow2_land a b : 0 <= a -> 0 <= b -> a <> b -> Z.land (2 ^ a) (2 ^ b) = 0.
Proof using.
  intros Ha Hb Hne. apply Z.bits_inj'. intros j Hj.
  rewrite Z.land_spec, !Z.pow2_bits_eqb, Z.bits_0 by lia.
  destruct (Z.eqb_spec a j), (Z.eqb_spec b j); done || lia.
Qed.

Lemma pow2_in_ones n0 k i :
  0 <= n0 -> 0 <= i < k ->
  Z.land (2 ^ (n0 + i)) (Z.shiftl (Z.ones k) n0) = 2 ^ (n0 + i).
Proof using.
  intros Hn Hi. apply Z.bits_inj'. intros j Hj.
  rewrite Z.land_spec, Z.pow2_bits_eqb, Z.shiftl_spec by lia.
  destruct (Z.eqb_spec (n0 + i) j) as [<-|]; [|done].
  rewrite Z.testbit_ones by lia. cbn.
  destruct (Z.leb_spec 0 (n0 + i - n0)), (Z.ltb_spec (n0 + i - n0) k); done || lia.
Qed.

(** Consecutive bits for the engines of each direction. *)
Lemma irq_wf_consecutive (n0 : dma_data_direction -> Z) s :
  (forall d, 0 <= n0 d) -> (forall d, n0 d + channel_max d (v_dev s) <= 32) ->
  (forall d i, 0 <= i < channel_max d (v_dev s) ->
     e_irq_bitmask (engine_at d s i) = 2 ^ (n0 d + i)) ->
  (forall d, mask_irq d (v_dev s) = Z.shiftl (Z.ones (channel_max d (v_dev s))) (n0 d)) ->
  irq_wf s.
Proof using.
  intros Hn Hmax Hbit Hmask.
  split; intros d i; specialize (Hn d); specialize (Hmax d).
  - intros Hi. rewrite Hbit by done.
    split; [apply Z.pow_nonneg; lia|apply Z.pow_lt_mono_r; lia].
  - intros j Hi Hj Hne. rewrite !Hbit by done. apply pow2_land; lia.
  - intros Hi. rewrite Hbit, Hmask by done. by apply pow2_in_ones.
Qed.

Lemma probed_start dir n0 s :
  xd_engines_num (v_dev s) = n0 -> mask_irq dir (v_dev s) = 0 ->
  probed dir n0 0 s s.
Proof using.
  intros Hn Hm. split; try done; [|lia]. unfold grown. change (Z.ones 0) with 0.
  rewrite Z.shiftl_0_l, Z.add_0_r, <- Hn, <- Hm. by destruct (v_dev s), dir.
Qed.

(** The two loops, and the numbers left in the device. *)
Lemma probe_engines_run s h c :
  unprobed s h c -> exists s1 s2,
  probed DMA_TO_DEVICE 0 h s s1 /\
  probed DMA_FROM_DEVICE h c (s1 <| v_dev ::= fun d => d <| xd_h2c_channel_max := h |> |>) s2 /\
  probe_engines s = (0, s2 <| v_dev ::= fun d => d <| xd_c2h_channel_max := c |> |>).
Proof using mem_ok.
  intros [Hnum Hmask Hz Hmax Hh Hc Hp Ha]. unfold XDMA_CHANNEL_NUM_MAX in *.
  pose proof (Hmax DMA_TO_DEVICE) as Mh. pose proof (Hmax DMA_FROM_DEVICE) as Mc.
  cbn in Mh, Mc. unfold probe_engines. rewrite bind_run, dev_run. cbn [fst snd].
  destruct (probe_loop_made DMA_TO_DEVICE 0 h s 0
    (Z.to_nat (xd_h2c_channel_max (v_dev s))) s) as [E1 P1]; try done; try lia.
  { by apply probed_start. }
  { intros i Hi. apply Hz. lia. }
  { apply (Hp DMA_TO_DEVICE). }
  { pose proof (Ha DMA_TO_DEVICE) as Ha'. cbn in Ha'.
    destruct Ha' as [?|?]; [left; lia|by right]. }
  rewrite bind_run, E1. set (s1 := snd (probe_loop _ _ _ _)) in *. clearbody s1.
  rewrite bind_run, upd_dev_run. cbn [fst snd].
  set (s1' := s1 <| v_dev ::= _ |>). rewrite bind_run, dev_run. cbn [fst snd].
  assert (Ed : v_dev s1' = (grown DMA_TO_DEVICE 0 h (v_dev s)) <| xd_h2c_channel_max := h |>).
  { unfold s1'. by rewrite <- (pb_dev _ _ _ _ _ P1). }
  assert (Ec : xd_c2h_channel_max (v_dev s1') = xd_c2h_channel_max (v_dev s)) by by rewrite Ed.
  assert (Eb : config_base (v_dev s1') = config_base (v_dev s)) by by rewrite Ed.
  rewrite Ec. destruct (probe_loop_made DMA_FROM_DEVICE h c s1' 0
    (Z.to_nat (xd_c2h_channel_max (v_dev s))) s1') as [E2 P2]; try done; try lia.
  { apply probed_start; rewrite Ed; [done|]. apply (Hmask DMA_FROM_DEVICE). }
  { intros i Hi. change (engines DMA_FROM_DEVICE s1') with (engines DMA_FROM_DEVICE s1).
    rewrite (pb_other _ _ _ _ _ P1) by done. apply Hz. lia. }
  { rewrite Eb. apply (Hp DMA_FROM_DEVICE). }
  { rewrite Eb. pose proof (Ha DMA_FROM_DEVICE) as Ha'. cbn in Ha'.
    destruct Ha' as [?|?]; [left; lia|by right]. }
  exists s1, (snd (probe_loop DMA_FROM_DEVICE
    (Z.to_nat (xd_c2h_channel_max (v_dev s))) 0 s1')).
  split; [done|]. split; [done|]. by rewrite bind_run, E2.
Qed.

(** C16: Probing creates the engines that the device has and no other, when all
    memory allocations succeed ([memory_ok]; otherwise it goes wrong, the
    finding at libxdma.c:2886).  Their number per direction is left in the
    device; each one is initialised, is idle, has its descriptor memory (and its
    result buffer and its writeback location when it uses them) and an
    interrupt bit of its own, the H2C engines first.  The mask of each
    direction is exactly the bits of its engines.  The device is then fit for
    the interrupt handler.  Nothing has been probed before ([unprobed]), and the
    channels in use are numbered from 0 without a gap. *)
Theorem probe_engines_made s h c :
  unprobed s h c ->
  let r := probe_engines s in
  let s' := snd r in
  fst r = 0 /\ xd_h2c_channel_max (v_dev s') = h /\
  xd_c2h_channel_max (v_dev s') = c /\ xd_engines_num (v_dev s') = h + c /\
  (forall i, 0 <= i < h -> made DMA_TO_DEVICE i (2 ^ i) (engine_at DMA_TO_DEVICE s' i)) /\
  (forall i, 0 <= i < c ->
     made DMA_FROM_DEVICE i (2 ^ (h + i)) (engine_at DMA_FROM_DEVICE s' i)) /\
  xd_mask_irq_h2c (v_dev s') = Z.ones h /\
  xd_mask_irq_c2h (v_dev s') = Z.shiftl (Z.ones c) h /\
  irq_wf s'.
Proof using mem_ok.
  intros Hu. destruct (probe_engines_run s h c Hu) as (s1 & s2 & P1 & P2 & E).
  cbv zeta. rewrite E. cbn [fst snd]. clear E.
  pose proof (pb_dev _ _ _ _ _ P1) as E1. pose proof (pb_dev _ _ _ _ _ P2) as E2.
  set (s' := s2 <| v_dev ::= _ |>).
  assert (Ed : v_dev s' = (grown DMA_FROM_DEVICE h c
    ((grown DMA_TO_DEVICE 0 h (v_dev s)) <| xd_h2c_channel_max := h |>))
      <| xd_c2h_channel_max := c |>) by (rewrite <- E1; unfold s'; cbn; by rewrite E2).
  assert (Hh : forall i, 0 <= i < h ->
    made DMA_TO_DEVICE i (2 ^ i) (engine_at DMA_TO_DEVICE s' i)).
  { intros i Hi. unfold engine_at. change (engines _ s') with (engines DMA_TO_DEVICE s2).
    rewrite (pb_other _ _ _ _ _ P2) by done. by apply (pb_made _ _ _ _ _ P1). }
  assert (Hc : forall i, 0 <= i < c ->
    made DMA_FROM_DEVICE i (2 ^ (h + i)) (engine_at DMA_FROM_DEVICE s' i)).
  { apply (pb_made _ _ _ _ _ P2). }
  clearbody s'. do 4 (split; [by rewrite ?Ed|]). split; [done|]. split; [done|].
  split; [rewrite Ed; cbn; apply Z.shiftl_0_r|]. split; [by rewrite Ed|].
  destruct Hu. unfold XDMA_CHANNEL_NUM_MAX in *.
  pose proof (up_max0 DMA_TO_DEVICE). pose proof (up_max0 DMA_FROM_DEVICE).
  apply irq_wf_consecutive with (n0 := fun d => if is_to_device d then 0 else h);
    rewrite ?Ed; intros []; cbn in *; try lia.
  - intros i Hi. apply Hh, Hi.
  - intros i Hi. apply Hc, Hi.
Qed.
End probe.

(** * A device with two H2C engines and one C2H engine *)

Definition probe_platform : Platform := {|
  mmio_answer _ a :=
    if a =? 0x100000 then 0x1fc00006 else
    if a =? 0x100100 then 0x1fc00106 else
    if a =? 0x101000 then 0x1fc18006 else 0;
  wb_answer _ := 0;
  kernel_answer _ f args :=
    if String.eqb f "dma_alloc_coherent" then 0x80000000 else
    if String.eqb f "dma_handle" then 0x1000 else 0;
  sizeof_xdma_request_cb := 256;
  VMALLOC_START := 2 ^ 47;
  VMALLOC_END := 2 ^ 48;
|}.

Lemma probe_platform_memory : @memory_ok probe_platform.
Proof. split; by intros. Qed.

Definition unprobed_dv : dvst := {|
  v_dev := ex_dev <| xd_h2c_channel_max := 4 |> <| xd_c2h_channel_max := 4 |>;
  v_h2c := repeat zero_engine 4;
  v_c2h := repeat zero_engine 4;
  v_xfers := ∅;
  v_trace := [];
|}.

Lemma unprobed_dv_ok : @unprobed probe_platform unprobed_dv 2 1.
Proof.
  split; try done; try by intros [].
  - intros dir i Hi. unfold XDMA_CHANNEL_NUM_MAX in Hi.
    assert (i = 0 \/ i = 1 \/ i = 2 \/ i = 3) as [-> | [-> | [-> | ->]]] by lia;
      by destruct dir.
  - intros dir i Hi. exists (@identifier probe_platform 0x100000 dir [] i).
    split; [|done]. destruct dir; cbn in Hi.
    + assert (i = 0 \/ i = 1) as [-> | ->] by lia; by split.
    + assert (i = 0) as -> by lia. by split.
  - intros dir. right.
    exists (@identifier probe_platform 0x100000 dir [] (if is_to_device dir then 2 else 1)).
    split; [|done]. by destruct dir; intros [].
Qed.

Lemma probe_engines_made_witness :
  let s' := snd (@probe_engines probe_platform irq_params unprobed_dv) in
  xd_engines_num (v_dev s') = 3 /\ xd_mask_irq_h2c (v_dev s') = 3 /\
  xd_mask_irq_c2h (v_dev s') = 4 /\ irq_wf s'.
Proof.
  destruct (@probe_engines_made probe_platform irq_params probe_platform_memory
    unprobed_dv 2 1 unprobed_dv_ok) as (_ & _ & _ & Hn & _ & _ & Hm1 & Hm2 & Hw).
  exact (conj Hn (conj Hm1 (conj Hm2 Hw))).
Defined.
