(* ===== verification/LifeInv.v ===== *)
(** The list of devices and what the devices in it hold, on a summary of the
    state: what opening and closing a device do to it, and its invariant. *)
From stdpp Require Import sorting.
From S2P Require Import Prelude Hw Desc Types Engine EngineFacts Threads Device.
From S2P Require Import Irq Bars Init Life LifeFacts.

(** * A summary of the state *)

Definition count (p : event -> bool) (t : list event) : Z :=
  zlength (List.filter p t).
Definition is_call (f : string) (ok : Z -> bool) (e : event) : bool :=
  if e is Call g _ rv then String.eqb f g && ok rv else false.

(** The PCI devices whose calls are counted. *)
Class Selection := selected : Z -> bool.
#[global] Arguments selected {_} _ : simpl never.

(** A call for a selected PCI device, which is the first argument. *)
Definition is_pci_call `{Selection} (f : string) (ok : Z -> bool) (e : event) : bool :=
  if e is Call g args rv
  then String.eqb f g && (ok rv && selected (default 0 (head args))) else false.

(** PCI devices enabled and not disabled since, claims of regions not released
    since, and claims that were refused. *)
Definition enabled `{Selection} (t : list event) : Z :=
  count (is_pci_call "pci_enable_device" (fun rv => rv =? 0)) t -
  count (is_pci_call "pci_disable_device" (fun _ => true)) t.
Definition claimed `{Selection} (t : list event) : Z :=
  count (is_pci_call "pci_request_regions" (fun rv => rv =? 0)) t -
  count (is_pci_call "pci_release_regions" (fun _ => true)) t.
Definition refused `{Selection} (t : list event) : Z :=
  count (is_pci_call "pci_request_regions" (fun rv => negb (rv =? 0))) t.

Record lview := {
  w_list : list Z;
  w_rcu : list Z;
  w_devs : gmap Z (Z * Z * bool * bool);
  w_enabled : Z;
  w_claimed : Z;
  w_refused : Z;
}.

#[export] Instance eta_lview : Eta lview := fun r =>
  Build_lview (w_list r) (w_rcu r) (w_devs r) (w_enabled r) (w_claimed r) (w_refused r).

Definition lview_of `{Selection} (s : lst) : lview := {|
  w_list := y_list s;
  w_rcu := y_rcu s;
  w_devs := (fun v => dev_frame (v_dev v)) <$> y_devs s;
  w_enabled := enabled (y_trace s);
  w_claimed := claimed (y_trace s);
  w_refused := refused (y_trace s);
|}.

Definition seen `{Selection} (V : lview) (s : lst) : Prop := lview_of s = V.

Lemma count_cons p e t : count p (e :: t) = (if p e then 1 else 0) + count p t.
Proof. unfold count. cbn. destruct (p e); unfold zlength; cbn [length]; lia. Qed.

(** The counts see these calls only. *)
Lemma count_calls `{Selection} f ok t :
  pci_call f = true ->
  count (is_pci_call f ok) t = count (is_pci_call f ok) (pci_calls t).
Proof.
  intros Hf. induction t as [|e t IH]; [done|]. unfold pci_calls. cbn.
  fold (pci_calls t). rewrite count_cons. destruct (negb (quiet_event e)) eqn:Eq.
  - by rewrite count_cons, IH.
  - rewrite IH. destruct e as [| | | | | | | |g args rv]; try done. cbn in *.
    destruct (String.eqb_spec f g) as [->|]; [|done]. by rewrite Hf in Eq.
Qed.

Lemma view_eq `{Selection} s s' :
  y_list s' = y_list s -> y_rcu s' = y_rcu s ->
  (fun v => dev_frame (v_dev v)) <$> y_devs s' = (fun v => dev_frame (v_dev v)) <$> y_devs s ->
  pci_calls (y_trace s') = pci_calls (y_trace s) -> lview_of s' = lview_of s.
Proof.
  intros E1 E2 E3 E4. unfold lview_of, enabled, claimed, refused.
  rewrite E1, E2, E3, !(count_calls _ _ (y_trace s')), !(count_calls _ _ (y_trace s)), E4
    by done. done.
Qed.

(** ** Rules *)

Section rules.
Context `{Platform} `{Selection}.

Lemma seen_bind {A B} V (m : M lst A) (k : A -> M lst B) Q R :
  hoare (seen V) m Q -> (forall a, hoare (Q a) (k a) R) -> hoare (seen V) (bind m k) R.
Proof. apply hoare_bind. Qed.

Lemma seen_ret {A} V (a : A) : hoare (seen V) (ret a) (fun b s => b = a /\ seen V s).
Proof. by intros s Hs. Qed.

(** Work on a device that keeps its identity and its hold on the PCI core. *)
Lemma on_xdev_seen {A} `{Inhabited A} V h (m : M dvst A) :
  frames frame m -> hoare (seen V) (on_xdev h m) (fun _ => seen V).
Proof.
  intros Hm s <-. destruct (y_devs s !! h) as [v|] eqn:E.
  2:{ unfold on_xdev. by rewrite E. }
  rewrite (on_xdev_run h m s v E). specialize (Hm (v <| v_trace := y_trace s |>)).
  apply pair_equal_spec in Hm as [Ed Et]. apply view_eq; try done. cbn.
  rewrite fmap_insert, Ed. apply insert_id. by rewrite lookup_fmap, E.
Qed.

Lemma seen_xdev {A B} `{Inhabited A} V h (m : M dvst A) (k : A -> M lst B) R :
  frames frame m -> (forall a, hoare (seen V) (k a) R) ->
  hoare (seen V) (bind (on_xdev h m) k) R.
Proof. intros Hm. apply hoare_bind. by apply on_xdev_seen. Qed.

(** Code that does not touch the devices. *)
Lemma seen_quiet {A B} V (m : M lst A) (k : A -> M lst B) R :
  (forall s, lview_of (snd (m s)) = lview_of s) ->
  (forall a, hoare (seen V) (k a) R) -> hoare (seen V) (bind m k) R.
Proof. intros Hm. apply hoare_bind. intros s <-. apply Hm. Qed.

Lemma seen_modify {B} V f g (k : unit -> M lst B) R :
  (forall s, lview_of (f s) = g (lview_of s)) -> hoare (seen (g V)) (k tt) R ->
  hoare (seen V) (bind (modify f) k) R.
Proof. intros Hf Hk s <-. rewrite bind_run, modify_run. apply Hk. apply Hf. Qed.

Lemma kcall_quiet f args s :
  pci_call f = false -> lview_of (snd (kcall f args s)) = lview_of s.
Proof.
  intros Hf. apply view_eq; try done. cbn. unfold pci_calls. cbn. by rewrite Hf.
Qed.

Lemma threads_quiet {A} (m : M tst A) s :
  (forall t, pci_calls (t_trace (snd (m t))) = pci_calls (t_trace t)) ->
  lview_of (snd (on_threads m s)) = lview_of s.
Proof.
  intros Hm. unfold on_threads. specialize (Hm ((y_threads s) <| t_trace := y_trace s |>)).
  destruct (m _) as [a t]. by apply view_eq.
Qed.
End rules.

(** ** The completion threads *)

Definition frame_t (t : tst) : list event := pci_calls (t_trace t).
#[export] Instance framed_frame_t : Framed frame_t.
Proof. intros e s He. unfold frame_t, pci_calls. cbn. by rewrite He. Qed.

Lemma frames_modify_t f :
  (forall t, t_trace (f t) = t_trace t) -> frames frame_t (modify f).
Proof. intros Hf t. unfold frame_t. cbn. by rewrite Hf. Qed.
#[export] Hint Extern 2 (frames frame_t (modify _)) =>
  apply frames_modify_t; intros ?; reflexivity : frames.

Section threads.
Context `{Platform}.

Lemma kthread_start_frame i id : frames frame_t (xdma_kthread_start i id).
Proof. unfold xdma_kthread_start. frame. Qed.
Lemma kthread_stop_frame i : frames frame_t (xdma_kthread_stop i).
Proof. unfold xdma_kthread_stop. frame. Qed.
#[local] Hint Resolve kthread_start_frame kthread_stop_frame : frames.

Lemma create_loop_frame n cpus : frames frame_t (create_loop n cpus).
Proof.
  induction cpus as [|cpu cpus IH]; cbn [create_loop]; unfold kfree_threads; frame.
Qed.
#[local] Hint Resolve create_loop_frame : frames.

Lemma threads_create_frame cpus n : frames frame_t (xdma_threads_create cpus n).
Proof. unfold xdma_threads_create. frame. Qed.

Lemma stop_loop_frame n i : frames frame_t (stop_loop n i).
Proof. revert i. induction n as [|n IH]; intros i; cbn [stop_loop]; frame. Qed.
#[local] Hint Resolve stop_loop_frame : frames.

Lemma threads_destroy_frame : frames frame_t xdma_threads_destroy.
Proof. unfold xdma_threads_destroy, kfree_threads. frame. Qed.
End threads.

(** * Opening, on the summary *)

Section open.
Context `{Platform} `{ModParams} `{Selection}.
Context (pci : Z -> pci_dev) (cpus : list Z).

Definition delisted (h : Z) (V : lview) : lview :=
  V <| w_list ::= filter (fun x => x <> h) |> <| w_rcu ::= filter (fun x => x <> h) |>.
Definition freed (h : Z) (V : lview) : lview := V <| w_devs ::= delete h |>.

Lemma free_xdev_seen V h :
  hoare (seen V) (free_xdev h) (fun r s => r = 0 /\ seen (freed h V) s).
Proof.
  intros s Hs. unfold free_xdev, kfree_xdev. exec. split; [done|]. rewrite <- Hs.
  unfold seen, freed, lview_of. cbn. unfold upd_field. cbn. by rewrite fmap_delete.
Qed.

Lemma list_remove_seen V h :
  hoare (seen V) (xdev_list_remove h) (fun _ => seen (delisted h V)).
Proof.
  unfold xdev_list_remove.
  apply seen_modify with (g := fun V => V <| w_list ::= filter (fun x => x <> h) |>);
    [done|].
  apply seen_quiet; [done|]. intros l. apply seen_quiet.
  { intros s. unfold when. destruct (_ && _); [|done].
    apply threads_quiet, threads_destroy_frame. }
  intros _. apply seen_modify with (g := fun V => V <| w_rcu ::= filter (fun x => x <> h) |>);
    [done|].
  apply seen_quiet; [intros; by apply kcall_quiet|]. intros ? s Hs. apply Hs.
Qed.

Lemma err_enable_seen V h :
  hoare (seen V) (err_enable h) (fun r s => r = 0 /\ seen (freed h (delisted h V)) s).
Proof.
  unfold err_enable. eapply hoare_bind; [apply list_remove_seen|].
  intros ?. apply free_xdev_seen.
Qed.

(** What [m] does to a device and to the counts, on the summary. *)
Definition effect (h : Z) (v v' : dvst) (V : lview) : lview :=
  V <| w_devs ::= insert h (dev_frame (v_dev v')) |>
    <| w_enabled ::= fun n => n + (enabled (v_trace v') - enabled (v_trace v)) |>
    <| w_claimed ::= fun n => n + (claimed (v_trace v') - claimed (v_trace v)) |>
    <| w_refused ::= fun n => n + (refused (v_trace v') - refused (v_trace v)) |>.

Lemma xdev_effect {A} `{Inhabited A} V h (m : M dvst A) fr (Q : A -> lview -> Prop) :
  w_devs V !! h = Some fr ->
  (forall v, dev_frame (v_dev v) = fr -> Q (fst (m v)) (effect h v (snd (m v)) V)) ->
  hoare (seen V) (on_xdev h m) (fun a s => exists V', Q a V' /\ seen V' s).
Proof.
  intros E HQ s Hs. unfold seen in Hs. subst V. cbn in E. rewrite lookup_fmap in E.
  destruct (y_devs s !! h) as [v|] eqn:Ev; [|done]. cbn in E. injection E as E.
  rewrite (on_xdev_run h m s v Ev). eexists. split; [apply HQ; exact E|].
  set (v' := snd (m _)). unfold seen, lview_of, effect, upd_field. cbn.
  rewrite fmap_insert. f_equal; lia.
Qed.

(** The part of a PCI device in the counts. *)
Definition one (p : Z) : Z := if selected p then 1 else 0.

(** A device [h] in the list, with so many PCI devices enabled and claims. *)
Definition entered (h : Z) (fr : Z * Z * bool * bool) (en cl rf : Z) (V : lview)
    : lview := {|
  w_list := w_list V ++ [h];
  w_rcu := w_rcu V ++ [h];
  w_devs := <[h := fr]> (w_devs V);
  w_enabled := w_enabled V + en;
  w_claimed := w_claimed V + cl;
  w_refused := w_refused V + rf;
|}.

Definition counted (en cl rf : Z) (V : lview) : lview :=
  V <| w_enabled ::= fun n => n + en |> <| w_claimed ::= fun n => n + cl |>
    <| w_refused ::= fun n => n + rf |>.

Record new_handle (V : lview) (h : Z) : Prop := {
  nh_devs : w_devs V !! h = None;
  nh_list : h ∉ w_list V;
  nh_rcu : h ∉ w_rcu V;
}.

Lemma filter_new (h : Z) l : h ∉ l -> filter (fun x => x <> h) (l ++ [h]) = l.
Proof using.
  intros Hh. rewrite filter_app, filter_ne_id by done.
  rewrite filter_cons_False by (by intros []). rewrite filter_nil. apply app_nil_r.
Qed.

Lemma entered_gone h fr en cl rf V :
  new_handle V h -> freed h (delisted h (entered h fr en cl rf V)) = counted en cl rf V.
Proof using.
  intros [Hd Hl Hr]. unfold freed, delisted, entered, counted, upd_field. cbn.
  rewrite !filter_new by done. by rewrite delete_insert_id.
Qed.

Lemma entered_effect h fr en cl rf V v v' en' cl' rf' fr' :
  dev_frame (v_dev v') = fr' ->
  enabled (v_trace v') = enabled (v_trace v) + (en' - en) ->
  claimed (v_trace v') = claimed (v_trace v) + (cl' - cl) ->
  refused (v_trace v') = refused (v_trace v) + (rf' - rf) ->
  effect h v v' (entered h fr en cl rf V) = entered h fr' en' cl' rf' V.
Proof.
  intros <- E1 E2 E3. unfold effect, entered, upd_field. cbn.
  rewrite insert_insert_eq. f_equal; lia.
Qed.

(** ** The exits of [xdma_device_open] *)

Lemma err_enable_entered V h fr en cl rf :
  new_handle V h ->
  hoare (seen (entered h fr en cl rf V)) (err_enable h)
    (fun r s => r = 0 /\ seen (counted en cl rf V) s).
Proof.
  intros Hn s Hs. rewrite <- (entered_gone h fr) by done. by apply err_enable_seen.
Qed.

Ltac counts :=
  unfold enabled, claimed, refused, one;
  try match goal with
  | |- context [v_trace (snd (kcall ?f ?a ?v))] =>
      change (v_trace (snd (kcall f a v)))
        with (Call f a (kernel_answer (v_trace v) f a) :: v_trace v)
  end;
  rewrite ?count_cons; cbn; try destruct (selected _); cbn; lia.

Lemma err_regions_entered V h p i u g en cl rf :
  new_handle V h ->
  hoare (seen (entered h (p, i, u, g) en cl rf V)) (err_regions p h)
    (fun r s => r = 0 /\ seen (counted (en - if u then 0 else one p) cl rf V) s).
Proof.
  intros Hn. unfold err_regions. eapply hoare_bind.
  { eapply (xdev_effect _ h _ (p, i, u, g) (fun _ V' =>
      V' = entered h (p, i, u, g) (en - if u then 0 else one p) cl rf V));
      [apply lookup_insert_eq|].
    intros v Hv. exec. cbn [fst snd].
    assert (Hu : xd_regions_in_use (v_dev v) = u) by by injection Hv. rewrite Hu.
    apply entered_effect; destruct u; cbn [negb snd]; first [exact Hv | counts]. }
  intros ? s (V' & -> & Hs). by eapply err_enable_entered.
Qed.

Lemma err_map_entered V h p i u g en cl rf :
  new_handle V h ->
  hoare (seen (entered h (p, i, u, g) en cl rf V)) (err_map p h)
    (fun r s => r = 0 /\
       seen (counted (en - if u then 0 else one p) (cl - if g then one p else 0) rf V) s).
Proof.
  intros Hn. unfold err_map. eapply hoare_bind.
  { eapply (xdev_effect _ h _ (p, i, u, g) (fun _ V' =>
      V' = entered h (p, i, u, g) en (cl - if g then one p else 0) rf V));
      [apply lookup_insert_eq|].
    intros v Hv. exec. cbn [fst snd].
    assert (Hg : xd_got_regions (v_dev v) = g) by by injection Hv. rewrite Hg.
    apply entered_effect; destruct g; cbn [negb snd]; first [exact Hv | counts]. }
  intros ? s (V' & -> & Hs). by eapply err_regions_entered.
Qed.

(** With the device enabled and its regions claimed. *)
Definition opened (h p i : Z) : lview -> lview := entered h (p, i, false, true) (one p) (one p) 0.

Lemma counted_0 V : counted 0 0 0 V = V.
Proof. destruct V. unfold counted, upd_field. cbn. f_equal; lia. Qed.

Lemma err_map_opened V h p i :
  new_handle V h ->
  hoare (seen (opened h p i V)) (err_map p h) (fun r s => r = 0 /\ seen V s).
Proof.
  intros Hn s Hs. destruct (err_map_entered V h p i false true (one p) (one p) 0 Hn s Hs)
    as [Hr E]. rewrite !Z.sub_diag, counted_0 in E. by split.
Qed.

Lemma err_mask_opened V h p i :
  new_handle V h ->
  hoare (seen (opened h p i V)) (err_mask p h) (fun r s => r = 0 /\ seen V s).
Proof.
  intros Hn. apply seen_xdev; [auto with frames|]. intros _. by eapply err_map_opened.
Qed.

Lemma err_engines_opened V h p i :
  new_handle V h ->
  hoare (seen (opened h p i V)) (err_engines p h) (fun r s => r = 0 /\ seen V s).
Proof.
  intros Hn. apply seen_xdev; [auto with frames|]. intros _. by eapply err_mask_opened.
Qed.

Lemma err_msix_opened V h p i :
  new_handle V h ->
  hoare (seen (opened h p i V)) (err_msix p h) (fun r s => r = 0 /\ seen V s).
Proof.
  intros Hn. apply seen_xdev; [auto with frames|]. intros _. by eapply err_engines_opened.
Qed.

(** ** The way in *)

(** What [xdma_device_open] makes of the summary [V] when it answers [r]. *)
Definition open_result (V : lview) (h p i r : Z) (s : lst) : Prop :=
  (r = 0 /\ (seen V s \/ seen (counted (one p) 0 (one p) V) s)) \/ (r = h /\ seen (opened h p i V) s).

Lemma open_engines_opened V h p i :
  new_handle V h ->
  hoare (seen (opened h p i V)) (open_engines pci p h) (open_result V h p i).
Proof.
  intros Hn. unfold open_engines, open_result.
  apply seen_xdev; [auto with frames|]. intros rv1. destruct (negb _).
  { intros s Hs. left. edestruct err_mask_opened; eauto. }
  apply seen_xdev; [auto with frames|]. intros rv2. destruct (_ <? _).
  { intros s Hs. left. edestruct err_engines_opened; eauto. }
  apply seen_xdev; [auto with frames|]. intros rv3. destruct (_ <? _).
  { intros s Hs. left. edestruct err_msix_opened; eauto. }
  apply seen_xdev; [frame|]. intros _ s Hs. by right.
Qed.

Lemma enable_entered V h fr p :
  hoare (seen (entered h fr 0 0 0 V)) (kcall "pci_enable_device" [p])
    (fun rv => seen (entered h fr (if rv =? 0 then one p else 0) 0 0 V)).
Proof.
  intros s Hs. set (rv := fst (kcall _ _ s)).
  assert (E : lview_of (snd (kcall "pci_enable_device" [p] s)) =
    (lview_of s) <| w_enabled ::= fun n => n + (if rv =? 0 then one p else 0) |>).
  { change (snd (kcall "pci_enable_device" [p] s))
      with (s <| y_trace := Call "pci_enable_device" [p] rv :: y_trace s |>).
    unfold lview_of, upd_field, enabled, claimed, refused. cbn.
    rewrite !count_cons. cbn. unfold one.
    f_equal; destruct (kernel_answer _ _ _ =? 0), (selected p); cbn; lia. }
  unfold seen. rewrite E, Hs. unfold entered, upd_field. cbn. f_equal. lia.
Qed.

Lemma regions_entered V h p i :
  hoare (seen (entered h (p, i, false, false) (one p) 0 0 V)) (on_xdev h (request_regions p))
    (fun rv s => exists V', V' = (if rv =? 0 then opened h p i V
       else entered h (p, i, true, false) (one p) 0 (one p) V) /\ seen V' s).
Proof.
  eapply (xdev_effect _ h _ (p, i, false, false) (fun rv V' => V' = if rv =? 0
    then opened h p i V else entered h (p, i, true, false) (one p) 0 (one p) V));
    [apply lookup_insert_eq|].
  intros v Hv. unfold request_regions. rewrite bind_run, bind_run.
  set (rv := fst (kcall _ _ v)). cbn [fst snd ret].
  change (snd (kcall _ _ v)) with
    (v <| v_trace := Call "pci_request_regions" [p] rv :: v_trace v |>).
  clearbody rv. rewrite upd_dev_run. cbn [fst snd]. unfold dev_frame in Hv.
  destruct (rv =? 0) eqn:Erv; apply entered_effect; cbn; unfold dev_frame; cbn;
    unfold enabled, claimed, refused, one; rewrite ?count_cons; cbn; rewrite ?Erv; cbn;
    first [congruence | destruct (selected p); lia].
Qed.

Lemma open_pci_entered V h p i :
  new_handle V h ->
  hoare (seen (entered h (p, i, false, false) 0 0 0 V)) (open_pci pci p h)
    (open_result V h p i).
Proof.
  intros Hn. unfold open_pci. eapply hoare_bind; [apply enable_entered|].
  intros rv. cbv beta. destruct (rv =? 0) eqn:Erv; cbn [negb].
  2:{ intros s Hs. left. destruct (err_enable_entered V h _ _ _ _ Hn s Hs) as [? E].
      rewrite counted_0 in E. eauto. }
  apply seen_xdev.
  { unfold pci_check_intr_pend, pci_enable_capability. frame. }
  intros _. eapply hoare_bind; [apply regions_entered|].
  intros rv2. cbv beta. destruct (rv2 =? 0); cbn [negb]; intros s (V' & -> & Hs).
  2:{ left. edestruct (err_regions_entered V h p i true false (one p) 0 (one p)) as [? E]; eauto.
    rewrite Z.sub_0_r in E. eauto. }
  revert s Hs. change (hoare (seen (opened h p i V)) (
    let* rv0 := on_xdev h map_bars in
    if negb (rv0 =? 0) then err_map p h
    else
      let* rv1 := on_xdev h (set_dma_mask p) in
      if negb (rv1 =? 0) then err_mask p h
      else
        do* on_xdev h (do* check_nonzero_interrupt_status in interrupts_off) in
        open_engines pci p h) (open_result V h p i)).
  apply seen_xdev; [auto with frames|]. intros rv3. destruct (negb _).
  { intros s Hs. left. edestruct err_map_opened; eauto. }
  apply seen_xdev; [auto with frames|]. intros rv4. destruct (negb _).
  { intros s Hs. left. edestruct err_mask_opened; eauto. }
  apply seen_xdev; [frame|]. intros _. by apply open_engines_opened.
Qed.

(** ** The list *)

Definition next_idx (V : lview) : Z :=
  match last (w_list V) with
  | None => 0
  | Some l => i32 (from_option (fun d => snd (fst (fst d))) 0 (w_devs V !! l) + 1)
  end.

Lemma set_idx_seen V h p i j u g :
  hoare (seen (V <| w_devs ::= insert h (p, i, u, g) |>))
    (on_xdev h (upd_dev (fun d => d <| xd_idx := j |>)))
    (fun _ => seen (V <| w_devs ::= insert h (p, j, u, g) |>)).
Proof.
  intros s Hs. edestruct (xdev_effect (V <| w_devs ::= insert h (p, i, u, g) |>) h
    (upd_dev (fun d => d <| xd_idx := j |>))
    (p, i, u, g) (fun _ V' => V' = V <| w_devs ::= insert h (p, j, u, g) |>))
    as (V' & -> & HV); [apply lookup_insert_eq| |exact Hs|exact HV].
  intros v Hv. unfold effect, upd_field. cbn. unfold dev_frame in *. cbn.
  rewrite insert_insert_eq. destruct V. cbn. f_equal; [|lia..]. f_equal. congruence.
Qed.

Lemma list_add_seen V h p i :
  hoare (seen (V <| w_devs ::= insert h (p, i, false, false) |>)) (list_add h)
    (fun _ => seen (entered h (p, i, false, false) 0 0 0 V)).
Proof.
  unfold list_add. apply seen_modify with (g := fun V => V <| w_list ::= fun l => l ++ [h] |>);
    [done|].
  intros s Hs. unfold seen in *. destruct V. unfold lview_of, entered, upd_field in *.
  cbn in *. injection Hs as E1 E2 E3 E4 E5 E6. rewrite E1, E2, E3, E4, E5, E6. f_equal; lia.
Qed.

(** The last steps of [xdev_list_add]. *)
Lemma add_ret V h p i W :
  hoare (seen (V <| w_devs ::= insert h (p, i, false, false) |>))
    (do* list_add h in ret 0)
    (fun rv s => if rv <? 0 then seen W s
                 else seen (entered h (p, i, false, false) 0 0 0 V) s).
Proof. eapply hoare_bind; [apply list_add_seen|]. by intros ? s Hs. Qed.

Lemma idx_seen V s l :
  seen V s ->
  default 0 (xd_idx <$> xdev_of l s) =
  from_option (fun d => snd (fst (fst d))) 0 (w_devs V !! l).
Proof.
  intros Hs. unfold seen in Hs. subst V. cbn. rewrite lookup_fmap. unfold xdev_of.
  by destruct (y_devs s !! l).
Qed.

Lemma xdev_list_add_seen V h p :
  new_handle V h ->
  hoare (seen (V <| w_devs ::= insert h (p, 0, false, false) |>)) (xdev_list_add cpus h)
    (fun rv s => if rv <? 0 then seen (V <| w_devs ::= insert h (p, 0, false, false) |>) s
                 else seen (entered h (p, next_idx V, false, false) 0 0 0 V) s).
Proof.
  intros Hn. unfold xdev_list_add. intros s Hs. rewrite bind_run, gets_run. cbn [fst snd].
  assert (El : y_list s = w_list V) by by injection Hs.
  unfold next_idx. rewrite El. destruct (last (w_list V)) as [l|] eqn:Elast.
  - assert (Hl : l <> h).
    { intros ->. apply last_Some in Elast as [l' E]. apply (nh_list _ _ Hn).
      rewrite E. set_solver. }
    rewrite (idx_seen _ _ _ Hs). cbn. rewrite lookup_insert_ne by done.
    set (j := i32 _). clearbody j. revert s Hs El.
    enough (Hh : hoare (seen (V <| w_devs ::= insert h (p, 0, false, false) |>))
      (do* on_xdev h (upd_dev (fun d => d <| xd_idx := j |>)) in do* list_add h in ret 0)
      (fun rv s => if rv <? 0
         then seen (V <| w_devs ::= insert h (p, 0, false, false) |>) s
         else seen (entered h (p, j, false, false) 0 0 0 V) s)) by (intros s Hs _; by apply Hh).
    eapply hoare_bind; [apply set_idx_seen|]. intros ?. apply add_ret.
  - clear El. revert s Hs.
    enough (Hh : hoare (seen (V <| w_devs ::= insert h (p, 0, false, false) |>))
      (do* on_xdev h (upd_dev (fun d => d <| xd_idx := 0 |>)) in
       let* d := on_xdev h (let* d := dev in
                   ret (xd_h2c_channel_max d + xd_c2h_channel_max d)) in
       let* rv := (if poll_mode then on_threads (xdma_threads_create cpus d) else ret 0) in
       if rv <? 0 then ret rv else do* list_add h in ret 0)
      (fun rv s => if rv <? 0
         then seen (V <| w_devs ::= insert h (p, 0, false, false) |>) s
         else seen (entered h (p, 0, false, false) 0 0 0 V) s)) by exact Hh.
    eapply hoare_bind; [apply set_idx_seen|]. intros ?.
    apply seen_xdev; [unfold dev; frame|]. intros d. apply seen_quiet.
    { intros s. destruct poll_mode; [|done]. apply threads_quiet, threads_create_frame. }
    intros rv. destruct (rv <? 0) eqn:Erv; [|apply add_ret].
    intros s Hs. cbn. by rewrite Erv.
Qed.

(** [kzalloc] gives memory that is not in use. *)
Definition kzalloc_new (s : lst) : Prop :=
  let h := kernel_answer (y_trace s) "kzalloc" [] in
  h = 0 \/ (y_devs s !! h = None /\ (h ∉ y_list s) /\ (h ∉ y_rcu s)).

Lemma kzalloc_handle s :
  let h := kernel_answer (y_trace s) "kzalloc" [] in
  kzalloc_new s -> h <> 0 -> new_handle (lview_of s) h.
Proof.
  intros h [?|(E1 & E2 & E3)] Hh; [done|]. split; [|done..].
  cbn. rewrite lookup_fmap. fold h in E1. by rewrite E1.
Qed.

Lemma alloc_run pdev s :
  pdev <> 0 ->
  let h := kernel_answer (y_trace s) "kzalloc" [] in
  let s1 := snd (kcall "kzalloc" [] s) in
  alloc_dev_instance pdev s =
  if h =? 0 then (0, s1) else (h, s1 <| y_devs ::= insert h (fresh_dev pdev) |>).
Proof.
  intros Hp h s1. unfold alloc_dev_instance. rewrite (proj2 (Z.eqb_neq _ _) Hp), bind_run.
  change (fst (kcall "kzalloc" [] s)) with h. fold s1. by destruct (h =? 0).
Qed.

Lemma open_xdev_seen V pdev h um hm cm :
  new_handle V h ->
  hoare (seen (V <| w_devs ::= insert h (pdev, 0, false, false) |>))
    (open_xdev pci cpus pdev h um hm cm) (open_result V h pdev (next_idx V)).
Proof.
  intros Hn. unfold open_xdev. apply seen_xdev.
  { apply frames_upd_dev. by intros d. }
  intros _. eapply hoare_bind; [by apply xdev_list_add_seen|].
  intros rv. cbv beta. destruct (rv <? 0); [|by apply open_pci_entered].
  intros s Hs. destruct (free_xdev_seen _ h s Hs) as [E1 E2]. left. split; [done|]. left.
  unfold seen in *. rewrite E2. destruct V, Hn. unfold freed, upd_field. cbn in *.
  by rewrite delete_insert_id.
Qed.

(** The whole function: 0, with everything taken given back, except that a
    device whose regions are in use by another driver stays enabled; or the
    handle, in the list with an index above the last one. *)
Lemma xdma_device_open_run pdev um hm cm s :
  kzalloc_new s -> pdev <> 0 ->
  let V := lview_of s in
  let r := xdma_device_open pci cpus pdev um hm cm s in
  let h := kernel_answer (y_trace s) "kzalloc" [] in
  (fst r = 0 /\ (seen V (snd r) \/ seen (counted (one pdev) 0 (one pdev) V) (snd r))) \/
  (fst r = h /\ h <> 0 /\ new_handle V h /\ seen (opened h pdev (next_idx V) V) (snd r)).
Proof.
  intros Hk Hp V r h. unfold r, xdma_device_open. rewrite bind_run, (alloc_run _ _ Hp).
  fold h. assert (E1 : lview_of (snd (kcall "kzalloc" [] s)) = V) by by apply kcall_quiet.
  destruct (Z.eqb_spec h 0) as [E|E]; cbn [fst snd].
  { left. split; [done|]. by left. }
  rewrite (proj2 (Z.eqb_neq _ _) E). apply kzalloc_handle in Hk; [|done]. fold h V in Hk.
  set (s1 := _ <| y_devs ::= _ |>).
  assert (Hs1 : seen (V <| w_devs ::= insert h (pdev, 0, false, false) |>) s1).
  { rewrite <- E1. unfold seen, lview_of, upd_field. cbn. by rewrite fmap_insert. }
  clearbody s1. destruct (open_xdev_seen V pdev h um hm cm Hk s1 Hs1) as [[E2 [?|?]]|[E2 ?]];
    [left..|right]; auto.
Qed.
End open.

(** * The invariant *)

(** The sum of [f] over a list. *)
Definition weight (f : Z -> Z) (l : list Z) : Z := foldr (fun h n => f h + n) 0 l.

Definition idx_of (V : lview) (h : Z) : Z :=
  from_option (fun d => snd (fst (fst d))) 0 (w_devs V !! h).
Definition idx_lt (V : lview) (a b : Z) : Prop := idx_of V a < idx_of V b.
Definition pdev_of (V : lview) (h : Z) : option Z :=
  (fun d => fst (fst (fst d))) <$> w_devs V !! h.

(** The devices of [l] that are for selected PCI devices. *)
Definition held_by `{Selection} (V : lview) (l : list Z) : Z :=
  weight (fun h => from_option one 0 (pdev_of V h)) l.

(** The devices that exist are those of the list, each one once, with indices
    that grow along the list and each one for a PCI device of its own; what is
    enabled and claimed belongs to them. *)
Record linv `{Selection} (V : lview) : Prop := {
  li_nodup : NoDup (w_list V);
  li_rcu : w_rcu V = w_list V;
  li_devs : forall h, h ∈ w_list V <-> is_Some (w_devs V !! h);
  li_null : 0 ∉ w_list V;
  li_hold : forall h d, w_devs V !! h = Some d -> exists p i, d = (p, i, false, true) /\ p <> 0;
  li_idx : forall h, h ∈ w_list V -> 0 <= idx_of V h;
  li_sorted : StronglySorted (idx_lt V) (w_list V);
  li_pdev : forall h1 h2, h1 ∈ w_list V -> h2 ∈ w_list V ->
    pdev_of V h1 = pdev_of V h2 -> h1 = h2;
  li_enabled : w_enabled V = held_by V (w_list V) + w_refused V;
  li_claimed : w_claimed V = held_by V (w_list V);
}.

(** *** Sums over a list *)

Lemma weight_app f l1 l2 : weight f (l1 ++ l2) = weight f l1 + weight f l2.
Proof. unfold weight in *. induction l1 as [|a l1 IH]; cbn; [done|]. rewrite IH. lia. Qed.

Lemma weight_ext f g l : (forall a, a ∈ l -> f a = g a) -> weight f l = weight g l.
Proof.
  induction l as [|a l IH]; intros Hf; [done|]. cbn [weight foldr].
  f_equal; [apply Hf; set_solver|].
  apply IH. intros b Hb. apply Hf. set_solver.
Qed.

Lemma weight_filter_ne f (h : Z) l :
  NoDup l -> h ∈ l -> weight f (filter (fun x => x <> h) l) = weight f l - f h.
Proof.
  induction 1 as [|a l Ha Hl IH]; intros Hh; [by apply not_elem_of_nil in Hh|].
  destruct (decide (a = h)) as [->|Hne].
  - rewrite filter_cons_False, filter_ne_id by (done || tauto). unfold weight. cbn. lia.
  - rewrite filter_cons_True by done. assert (Hin : h ∈ l) by set_solver.
    specialize (IH Hin). unfold weight in *. cbn. lia.
Qed.

(** Every element counts. *)
Lemma weight_all f l : (forall a, a ∈ l -> f a = 1) -> weight f l = zlength l.
Proof.
  unfold zlength. induction l as [|a l IH]; intros Hf; [done|]. cbn [weight foldr length].
  fold (weight f l). rewrite (Hf a) by set_solver. rewrite IH; [lia|].
  intros b Hb. apply Hf. set_solver.
Qed.

(** At most one element counts. *)
Lemma weight_unique (b : Z -> bool) l :
  NoDup l -> (forall x y, x ∈ l -> y ∈ l -> b x = true -> b y = true -> x = y) ->
  weight (fun x => if b x then 1 else 0) l = if existsb b l then 1 else 0.
Proof.
  induction 1 as [|a l Ha Hl IH]; intros Hu; [done|]. cbn [weight foldr existsb].
  fold (weight (fun x => if b x then 1 else 0) l).
  rewrite IH by (intros; apply Hu; set_solver). destruct (b a) eqn:Ea; cbn; [|done].
  destruct (existsb b l) eqn:Eb; [|done]. apply existsb_exists in Eb as (c & Hc & Ec).
  apply list_elem_of_In in Hc. assert (a = c) by (apply Hu; set_solver). by subst c.
Qed.

Lemma sorted_ext {A} (R R' : A -> A -> Prop) l :
  (forall a b, a ∈ l -> b ∈ l -> R a b -> R' a b) ->
  StronglySorted R l -> StronglySorted R' l.
Proof.
  intros HR Hl. induction Hl as [|a l Hl IH Ha]; constructor.
  - apply IH. intros. apply HR; [set_solver..|done].
  - apply Forall_forall. intros b Hb. rewrite Forall_forall in Ha.
    apply HR; [set_solver..|]. by apply Ha.
Qed.

Lemma sorted_filter {A} (R : A -> A -> Prop) P `{forall x, Decision (P x)} l :
  StronglySorted R l -> StronglySorted R (filter P l).
Proof.
  induction 1 as [|a l Hl IH Ha]; [constructor|]. rewrite filter_cons.
  case_decide; [|done]. constructor; [done|].
  rewrite Forall_forall in *. intros b Hb%list_elem_of_filter. apply Ha, Hb.
Qed.

Lemma idx_entered h fr en cl rf V a :
  a <> h -> idx_of (entered h fr en cl rf V) a = idx_of V a.
Proof. intros Ha. unfold idx_of. cbn. by rewrite lookup_insert_ne. Qed.

Lemma pdev_entered h fr en cl rf V a :
  a <> h -> pdev_of (entered h fr en cl rf V) a = pdev_of V a.
Proof. intros Ha. unfold pdev_of. cbn. by rewrite lookup_insert_ne. Qed.

Lemma next_idx_above `{Selection} V a :
  linv V -> (forall l, last (w_list V) = Some l -> idx_of V l < 2 ^ 31 - 1) ->
  a ∈ w_list V -> idx_of V a < next_idx V.
Proof.
  intros Hv Hroom Ha. unfold next_idx. destruct (last (w_list V)) as [l|] eqn:E.
  - specialize (Hroom l eq_refl). fold (idx_of V l).
    assert (Hl : l ∈ w_list V) by (apply last_Some_elem_of in E; done).
    pose proof (li_idx V Hv l Hl). rewrite i32_small by lia.
    apply last_Some in E as [l' El]. pose proof (li_sorted V Hv) as Hs.
    rewrite El in Hs, Ha. apply elem_of_app in Ha as [Ha|Ha%list_elem_of_singleton].
    + apply StronglySorted_app_1_elem_of with (x1 := a) (x2 := l) in Hs; [|set_solver..].
      unfold idx_lt in Hs. lia.
    + subst. lia.
  - apply last_None in E. rewrite E in Ha. by apply not_elem_of_nil in Ha.
Qed.

Lemma opened_inv `{Selection} V h p :
  linv V -> new_handle V h -> h <> 0 -> p <> 0 ->
  (forall a, pdev_of V a <> Some p) ->
  (forall l, last (w_list V) = Some l -> idx_of V l < 2 ^ 31 - 1) ->
  linv (opened h p (next_idx V) V).
Proof.
  intros Hv [Hd Hl Hr] H0 Hp Hpd Hroom.
  assert (Hne : forall a, a ∈ w_list V -> a <> h) by (by intros a Ha ->).
  assert (Hh : idx_of (opened h p (next_idx V) V) h = next_idx V).
  { unfold idx_of. cbn. by rewrite lookup_insert_eq. }
  assert (Hph : pdev_of (opened h p (next_idx V) V) h = Some p).
  { unfold pdev_of. cbn. by rewrite lookup_insert_eq. }
  assert (Hidx : 0 <= next_idx V).
  { unfold next_idx. destruct (last (w_list V)) as [l|] eqn:E; [|done].
    fold (idx_of V l). specialize (Hroom l eq_refl).
    pose proof (li_idx V Hv l (last_Some_elem_of _ _ E)). rewrite i32_small; lia. }
  assert (Hheld : held_by (entered h (p, next_idx V, false, true) (one p) (one p) 0 V)
    (w_list V ++ [h]) = held_by V (w_list V) + one p).
  { unfold held_by. rewrite weight_app. f_equal.
    - apply weight_ext. intros a Ha. by rewrite pdev_entered by auto.
    - cbn. fold (opened h p (next_idx V) V). rewrite Hph. cbn. lia. }
  destruct Hv as [Hnd Hrcu Hdv Hnull Hhold Hi Hs Hpu Hen Hcl] eqn:Ev.
  split; unfold opened; cbn [w_list w_rcu w_devs w_enabled w_claimed w_refused entered].
  - apply NoDup_app. split; [done|]. split; [set_solver|apply NoDup_singleton].
  - by rewrite Hrcu.
  - intros a. rewrite elem_of_app, list_elem_of_singleton, Hdv, lookup_insert_is_Some'.
    split; intros [?|?]; auto.
  - set_solver.
  - intros a d. rewrite lookup_insert_Some. intros [[_ <-]|[_ E]]; [by eauto|by eapply Hhold].
  - intros a [Ha|Ha%list_elem_of_singleton]%elem_of_app.
    + rewrite idx_entered by auto. by apply Hi.
    + subst a. fold (opened h p (next_idx V) V). by rewrite Hh.
  - apply StronglySorted_app. split; [|split].
    + intros a b Ha ->%list_elem_of_singleton. unfold idx_lt.
      rewrite idx_entered by auto. fold (opened h p (next_idx V) V). rewrite Hh.
      by apply next_idx_above.
    + eapply sorted_ext; [|exact Hs]. intros a b Ha Hb Hab. unfold idx_lt.
      by rewrite !idx_entered by auto.
    + repeat constructor.
  - intros a b [Ha|Ha%list_elem_of_singleton]%elem_of_app [Hb|Hb%list_elem_of_singleton]%elem_of_app;
      try subst a; try subst b; try done; fold (opened h p (next_idx V) V); rewrite ?Hph.
    + unfold opened. rewrite !pdev_entered by auto. by apply Hpu.
    + unfold opened. rewrite pdev_entered by auto. intros E. by destruct (Hpd a).
    + unfold opened. rewrite pdev_entered by auto. intros E. by destruct (Hpd b).
  - rewrite Hheld. lia.
  - rewrite Hheld. lia.
Qed.

Lemma counted_inv `{Selection} n V : linv V -> linv (counted n 0 n V).
Proof.
  intros [Hnd Hrcu Hdv Hnull Hhold Hi Hs Hpu Hen Hcl]. split; try done;
    unfold held_by, pdev_of, weight in *; cbn; lia.
Qed.

(** ** Removing a device *)

Definition closed `{Selection} (h : Z) (V : lview) : lview :=
  let n := from_option one 0 (pdev_of V h) in
  freed h (delisted h (counted (- n) (- n) 0 V)).

Lemma idx_closed `{Selection} h V a : a <> h -> idx_of (closed h V) a = idx_of V a.
Proof. intros Ha. unfold idx_of. cbn. by rewrite lookup_delete_ne. Qed.

Lemma closed_inv `{Selection} V h : linv V -> h ∈ w_list V -> linv (closed h V).
Proof.
  intros [Hnd Hrcu Hdv Hnull Hhold Hi Hs Hpu Hen Hcl] Hh.
  assert (Hin : forall a, a ∈ filter (fun x => x <> h) (w_list V) <-> a ∈ w_list V /\ a <> h).
  { intros a. rewrite list_elem_of_filter. tauto. }
  assert (Hp : forall a, a <> h -> pdev_of (closed h V) a = pdev_of V a).
  { intros a Ha. unfold pdev_of. cbn. by rewrite lookup_delete_ne. }
  assert (Hheld : held_by (closed h V) (filter (fun x => x <> h) (w_list V)) =
    held_by V (w_list V) - from_option one 0 (pdev_of V h)).
  { unfold held_by. rewrite <- (weight_filter_ne (fun a => from_option one 0 (pdev_of V a)))
      by done. apply weight_ext.
    intros a [_ Ha]%Hin. by rewrite Hp. }
  split; cbn [w_list w_rcu w_devs w_enabled w_claimed w_refused closed freed delisted
    counted upd_field].
  - by apply NoDup_filter.
  - by rewrite Hrcu.
  - intros a. rewrite Hin, Hdv, lookup_delete_is_Some. split; intros []; auto.
  - rewrite Hin. tauto.
  - intros a d [_ E]%lookup_delete_Some. by eapply Hhold.
  - intros a [Ha Hne]%Hin. rewrite idx_closed by done. by apply Hi.
  - eapply sorted_ext; [|by apply sorted_filter]. intros a b [_ Ha]%Hin [_ Hb]%Hin Hab.
    unfold idx_lt. by rewrite !idx_closed.
  - intros a b [Ha Hane]%Hin [Hb Hbne]%Hin. rewrite !Hp by done. by apply Hpu.
  - rewrite Hheld. lia.
  - rewrite Hheld. lia.
Qed.

(** ** The check of a handle *)

Section steps.
Context `{Platform} `{ModParams} `{Selection}.

Lemma has_pdev_seen s V p h : seen V s -> has_pdev s p h = bool_decide (pdev_of V h = Some p).
Proof.
  intros Hs. unfold seen in Hs. subst V. unfold has_pdev, pdev_of, xdev_of. cbn.
  rewrite lookup_fmap. destruct (y_devs s !! h) as [v|]; cbn.
  - destruct (Z.eqb_spec (xd_pdev (v_dev v)) p) as [->|Hne].
    + by rewrite bool_decide_true.
    + by rewrite bool_decide_false by congruence.
  - by rewrite bool_decide_false.
Qed.

(** A handle passes for the PCI device that it was opened for, and for that
    one only. *)
Lemma debug_check_seen V s p h :
  linv V -> seen V s -> h <> 0 ->
  debug_check_dev_hndl p h s =
  (if bool_decide (p <> 0 /\ pdev_of V h = Some p) then 0 else - EINVAL, s).
Proof.
  intros Hv Hs Hh. unfold debug_check_dev_hndl, xdev_find_by_pdev.
  destruct (Z.eqb_spec p 0) as [->|Hp].
  { rewrite bool_decide_false by tauto. done. }
  rewrite bind_run, gets_run. cbn [fst snd].
  assert (El : y_list s = w_list V) by by rewrite <- Hs.
  rewrite El. destruct (List.find _ (w_list V)) as [x|] eqn:Ef.
  - change (default 0 (Some x)) with x. apply find_some in Ef as [Hx%list_elem_of_In Hxp].
    rewrite (has_pdev_seen _ V) in Hxp by done. apply bool_decide_eq_true in Hxp.
    assert (Hx0 : x <> 0) by (intros ->; by apply (li_null V Hv)).
    rewrite (proj2 (Z.eqb_neq _ _) Hx0). destruct (Z.eqb_spec x h) as [->|Hne]; cbn.
    + by rewrite bool_decide_true.
    + rewrite bool_decide_false; [done|]. intros [_ E]. apply Hne.
      apply (li_pdev V Hv); [done| |congruence].
      apply (li_devs V Hv). unfold pdev_of in E. by destruct (w_devs V !! h).
  - rewrite bool_decide_false; [done|]. intros [_ E].
    assert (Hin : h ∈ w_list V).
    { apply (li_devs V Hv). unfold pdev_of in E. by destruct (w_devs V !! h). }
    apply list_elem_of_In in Hin. pose proof (find_none _ _ Ef _ Hin) as Hf.
    rewrite (has_pdev_seen _ V) in Hf by done. by apply bool_decide_eq_false in Hf.
Qed.

(** ** Closing *)

Lemma count_frame v v' :
  frame v' = frame v -> dev_frame (v_dev v') = dev_frame (v_dev v) /\
  enabled (v_trace v') = enabled (v_trace v) /\
  claimed (v_trace v') = claimed (v_trace v) /\
  refused (v_trace v') = refused (v_trace v).
Proof.
  unfold frame. intros [Ed Et]%pair_equal_spec. split; [done|].
  unfold enabled, claimed, refused.
  by rewrite !(count_calls _ _ (v_trace v')), !(count_calls _ _ (v_trace v)), Et.
Qed.

Lemma close_dev_run p i v :
  dev_frame (v_dev v) = (p, i, false, true) ->
  exists v1 rv1 rv2, frame v1 = frame v /\
    snd (close_dev p v) = v1 <| v_trace := Call "pci_disable_device" [p] rv2 ::
      Call "pci_release_regions" [p] rv1 :: v_trace v1 |>.
Proof.
  intros Hd.
  assert (Hm : frames frame (do* interrupts_off in do* irq_teardown in
    do* disable_msi_msix in do* remove_engines in unmap_bars)) by frame.
  set (v1 := snd ((do* interrupts_off in do* irq_teardown in
    do* disable_msi_msix in do* remove_engines in unmap_bars) v)).
  assert (E1 : frame v1 = frame v) by apply Hm. clear Hm.
  assert (Ec : snd (close_dev p v) = snd ((let* d := dev in
    do* when (xd_got_regions d) (let* _ := kcall "pci_release_regions" [p] in ret tt) in
    when (negb (xd_regions_in_use d))
      (let* _ := kcall "pci_disable_device" [p] in ret tt)) v1)).
  { unfold close_dev, v1. by rewrite !bind_run. }
  rewrite Ec. clearbody v1. destruct (count_frame _ _ E1) as [Ed _].
  rewrite Hd in Ed. injection Ed as _ _ Eu Eg.
  rewrite bind_run, dev_run. cbn [fst snd]. rewrite Eu, Eg.
  exists v1. by eexists _, _.
Qed.

Lemma close_seen V s p h :
  linv V -> seen V s -> h <> 0 ->
  seen (if bool_decide (p <> 0 /\ pdev_of V h = Some p) then closed h V else V)
    (snd (xdma_device_close p h s)).
Proof.
  intros Hv Hs Hh. unfold xdma_device_close. rewrite (proj2 (Z.eqb_neq _ _) Hh), bind_run.
  rewrite (debug_check_seen V) by done. cbn [fst snd].
  case_bool_decide as Hc; cbn [Z.ltb Z.compare]; [|done]. destruct Hc as [_ Hp].
  unfold pdev_of in Hp. destruct (w_devs V !! h) as [d|] eqn:Ed; [|done]. cbn in Hp.
  destruct (li_hold V Hv h d Ed) as (p' & i & -> & _). injection Hp as ->.
  assert (Ec : closed h V = freed h (delisted h (counted (- one p) (- one p) 0 V)))
    by (unfold closed, pdev_of; by rewrite Ed).
  rewrite Ec. clear Ec. set (V1 := counted (- one p) (- one p) 0 V).
  revert s Hs. enough (Hh' : hoare (seen V) (do* on_xdev h (close_dev p) in
    do* xdev_list_remove h in kfree_xdev h) (fun _ => seen (freed h (delisted h V1))))
    by (intros s Hs; by apply Hh').
  eapply hoare_bind.
  { eapply (xdev_effect V h _ _ (fun _ V' => V' = V1) Ed).
    intros v Hd. destruct (close_dev_run p i v Hd) as (v1 & r1 & r2 & Ef & ->).
    destruct (count_frame _ _ Ef) as (E1 & E2 & E3 & E4).
    unfold V1, effect, counted, upd_field. cbn. rewrite E1, Hd, insert_id by done.
    f_equal; unfold enabled, claimed, refused in *; rewrite !count_cons; cbn;
      unfold one; destruct (selected p); cbn; lia. }
  intros ? s (V' & -> & Hs). revert s Hs.
  enough (Hh' : hoare (seen V1) (do* xdev_list_remove h in kfree_xdev h)
    (fun _ => seen (freed h (delisted h V1)))) by exact Hh'.
  eapply hoare_bind; [apply list_remove_seen|]. intros ? s Hs.
  by destruct (free_xdev_seen _ h s Hs).
Qed.
End steps.

(** Without a selection every PCI device is counted. *)
#[export] Instance every_device : Selection := fun _ => true.
