(* ===== verification/LifeProps.v ===== *)
(** The devices over the life of the driver. *)
From stdpp Require Import sorting relations.
From S2P Require Import Prelude Hw Desc Types Engine EngineFacts Threads Device.
From S2P Require Import Irq Bars Init Life LifeFacts LifeInv Examples.

(** * The driver as a system *)

Section life.
Context `{Platform} `{ModParams}.
Context (pci : Z -> pci_dev) (cpus : list Z).

(** The operations in any order and with any arguments.  The PCI core opens a
    device that is not open, [kzalloc] gives memory that is not in use, and the
    indices do not reach the end of an [int]; a handle given to the other
    operations is not null.  [ls_work] is any other code that works on a device
    ([xdma_isr], transfers): it keeps the device's identity and makes no calls
    that enable or disable a PCI device or claim or release its regions. *)
Inductive lstep : lst -> lst -> Prop :=
| ls_open pdev user_max h2c_max c2h_max s :
    kzalloc_new s -> pdev <> 0 -> (forall h, has_pdev s pdev h = false) ->
    (forall h, h ∈ y_list s -> default 0 (xd_idx <$> xdev_of h s) < 2 ^ 31 - 1) ->
    lstep s (snd (xdma_device_open pci cpus pdev user_max h2c_max c2h_max s))
| ls_close pdev h s : h <> 0 -> lstep s (snd (xdma_device_close pdev h s))
| ls_offline pdev h s : h <> 0 -> lstep s (snd (xdma_device_offline pdev h s))
| ls_online pdev h s : h <> 0 -> lstep s (snd (xdma_device_online pci pdev h s))
| ls_restart pdev h s : h <> 0 -> lstep s (snd (xdma_device_restart pdev h s))
| ls_register h mask handler dev s :
    h <> 0 -> lstep s (snd (xdma_user_isr_register h mask handler dev s))
| ls_enable h mask s : h <> 0 -> lstep s (snd (xdma_user_isr_enable h mask s))
| ls_disable h mask s : h <> 0 -> lstep s (snd (xdma_user_isr_disable h mask s))
| ls_work h (m : M dvst unit) s : frames frame m -> lstep s (snd (on_xdev h m s)).

Definition linit (s : lst) : Prop :=
  y_list s = [] /\ y_rcu s = [] /\ y_devs s = ∅ /\ y_trace s = [].

(** What is counted for the PCI device [p] alone. *)
Definition enabled_of (p : Z) (t : list event) : Z := @enabled (Z.eqb p) t.
Definition claimed_of (p : Z) (t : list event) : Z := @claimed (Z.eqb p) t.
Definition refused_of (p : Z) (t : list event) : Z := @refused (Z.eqb p) t.

Section inv.
Context `{Selection}.

Lemma linit_inv s : linit s -> linv (lview_of s).
Proof.
  intros (E1 & E2 & E3 & E4). unfold lview_of. rewrite E1, E2, E3, E4, fmap_empty.
  split; cbn; try set_solver; try constructor.
  - by intros ?%not_elem_of_nil.
  - rewrite lookup_empty. by intros [].
Qed.

(** Checked work on a device, or nothing. *)
Lemma guarded_seen V p h (m : M dvst unit) :
  linv V -> h <> 0 -> frames frame m ->
  hoare (seen V) (let* rv := debug_check_dev_hndl p h in
    if rv <? 0 then ret tt else on_xdev h m) (fun _ => seen V).
Proof.
  intros Hv Hh Hm s Hs. rewrite bind_run, (debug_check_seen V) by done. cbn [fst snd].
  case_bool_decide; cbn; [|done]. by apply on_xdev_seen.
Qed.

Lemma checked_seen V h (m : M dvst unit) :
  linv V -> h <> 0 -> frames frame m ->
  hoare (seen V) (checked h m) (fun _ => seen V).
Proof.
  intros Hv Hh Hm. unfold checked. rewrite (proj2 (Z.eqb_neq _ _) Hh).
  apply seen_xdev; [unfold dev; frame|]. intros p s Hs.
  rewrite bind_run, (debug_check_seen V) by done. cbn [fst snd].
  case_bool_decide; cbn; [|done].
  enough (Hg : hoare (seen V) (do* on_xdev h m in ret 0) (fun _ => seen V)) by by apply Hg.
  apply seen_xdev; [done|]. by intros ? s' Hs'.
Qed.

Lemma open_room V s :
  seen V s -> (forall h, h ∈ y_list s -> default 0 (xd_idx <$> xdev_of h s) < 2 ^ 31 - 1) ->
  forall l, last (w_list V) = Some l -> idx_of V l < 2 ^ 31 - 1.
Proof.
  intros Hs Hroom l Hl. unfold idx_of. rewrite <- (idx_seen V s) by done.
  apply Hroom. apply last_Some_elem_of in Hl.
  unfold seen in Hs. by subst V.
Qed.

Lemma open_inv p um hm cm s :
  kzalloc_new s -> p <> 0 -> (forall h, has_pdev s p h = false) ->
  (forall h, h ∈ y_list s -> default 0 (xd_idx <$> xdev_of h s) < 2 ^ 31 - 1) ->
  linv (lview_of s) ->
  linv (lview_of (snd (xdma_device_open pci cpus p um hm cm s))).
Proof.
  intros Hk Hp Hnew Hroom Hv.
  destruct (xdma_device_open_run pci cpus p um hm cm s Hk Hp)
    as [[_ [E|E]]|(_ & Hh0 & Hn & E)]; unfold seen in E; rewrite E.
  - done.
  - by apply counted_inv.
  - apply opened_inv; try done; [|by eapply open_room].
    intros a Ha. specialize (Hnew a). rewrite (has_pdev_seen s (lview_of s)) in Hnew by done.
    by apply bool_decide_eq_false in Hnew.
Qed.

Lemma lstep_inv s s' : lstep s s' -> linv (lview_of s) -> linv (lview_of s').
Proof.
  intros Hstep Hv.
  assert (Hkeep : forall s', seen (lview_of s) s' -> linv (lview_of s')) by by intros ? ->.
  destruct Hstep as [p um hm cm s Hk Hp Hnew Hroom|p h s Hh|p h s Hh|p h s Hh|p h s Hh
    |h mask handler d s Hh|h mask s Hh|h mask s Hh|h m s Hm].
  - by apply open_inv.
  - pose proof (close_seen (lview_of s) s p h Hv eq_refl Hh) as E. unfold seen in E. rewrite E.
    case_bool_decide as Hc; [|done]. apply closed_inv; [done|].
    apply (li_devs _ Hv). destruct Hc as [_ Hp]. unfold pdev_of in Hp.
    by destruct (w_devs _ !! h).
  - apply Hkeep. unfold xdma_device_offline. rewrite (proj2 (Z.eqb_neq _ _) Hh).
    apply guarded_seen; try done; frame.
  - apply Hkeep. unfold xdma_device_online. rewrite (proj2 (Z.eqb_neq _ _) Hh).
    apply guarded_seen; try done; frame.
  - apply Hkeep. unfold xdma_device_restart. rewrite (proj2 (Z.eqb_neq _ _) Hh), bind_run.
    rewrite (debug_check_seen (lview_of s)) by done. cbn [fst snd]. by destruct (_ <? 0).
  - apply Hkeep. apply checked_seen; try done. apply frames_upd_dev. intros d0.
    apply register_loop_frame.
  - apply Hkeep. apply checked_seen; try done; frame.
  - apply Hkeep. apply checked_seen; try done; frame.
  - apply Hkeep. by apply on_xdev_seen.
Qed.

Lemma reachable_inv s0 s : linit s0 -> rtc lstep s0 s -> linv (lview_of s).
Proof.
  intros Hi%linit_inv Hr. induction Hr as [|s0 s1 s2 Hstep _ IH]; [done|].
  apply IH. by eapply lstep_inv.
Qed.

Lemma pdev_seen s h : pdev_of (lview_of s) h = xd_pdev <$> xdev_of h s.
Proof. unfold pdev_of, xdev_of. cbn. rewrite lookup_fmap. by destruct (y_devs s !! h). Qed.
End inv.

(** All the devices in the list are counted, or the one for [p] if there is one. *)
Lemma held_all s :
  linv (lview_of s) -> held_by (lview_of s) (y_list s) = zlength (y_list s).
Proof.
  intros Hv. apply weight_all. intros a Ha%(li_devs _ Hv). unfold pdev_of.
  destruct Ha as [d Ed]. by rewrite Ed.
Qed.

Lemma held_one p s :
  @linv (Z.eqb p) (@lview_of (Z.eqb p) s) ->
  @held_by (Z.eqb p) (@lview_of (Z.eqb p) s) (y_list s) =
  if existsb (has_pdev s p) (y_list s) then 1 else 0.
Proof.
  intros Hv.
  assert (Hb : forall a, has_pdev s p a = bool_decide (pdev_of (@lview_of (Z.eqb p) s) a = Some p)).
  { intros a. by apply (@has_pdev_seen (Z.eqb p)). }
  rewrite <- weight_unique.
  - unfold held_by. apply weight_ext. intros a _. rewrite Hb.
    destruct (pdev_of _ a) as [q|]; cbn; [|done]. unfold one, selected.
    destruct (Z.eqb_spec p q) as [->|Hne]; [by rewrite bool_decide_true|].
    by rewrite bool_decide_false by congruence.
  - apply Hv.
  - intros a b Ha Hc. rewrite !Hb, !bool_decide_eq_true. intros E1 E2.
    apply (li_pdev _ Hv); [done..|congruence].
Qed.

(** C17: However devices have been opened, used and closed, in any order and with
    any arguments, the devices that exist are those of the list, each one once;
    their indices grow along the list, so no two have the same; a handle is
    accepted together with the PCI device that it was opened for and with no
    other, and nothing else is.  The regions left claimed are those of the devices
    in the list: of a PCI device there is one claim if a device in the list is
    for it, and none if not.  Likewise for the PCI devices left enabled, but each
    open that found the regions in use leaves its PCI device enabled once more.
    This supposes of the kernel that the PCI core probes no PCI device that is
    open already, that [kzalloc] gives memory that is not in use and that there
    are fewer than 2^31 - 1 indices; of the callers that the PCI device of an
    open and the handles are not null; and of the rest of the driver, which may
    work on a device at any time, that it keeps the device's PCI device, index
    and record of its regions and leaves enabling and claiming alone. *)
Theorem registry_invariant s0 s :
  linit s0 -> rtc lstep s0 s ->
  (forall h, h ∈ y_list s <-> is_Some (y_devs s !! h)) /\
  NoDup (y_list s) /\ y_rcu s = y_list s /\
  StronglySorted (fun a b => default 0 (xd_idx <$> xdev_of a s) <
                             default 0 (xd_idx <$> xdev_of b s)) (y_list s) /\
  (forall p h, h <> 0 ->
     debug_check_dev_hndl p h s =
     (if bool_decide (p <> 0 /\ xd_pdev <$> xdev_of h s = Some p)
      then 0 else - EINVAL, s)) /\
  (claimed (y_trace s) = zlength (y_list s) /\
   enabled (y_trace s) = zlength (y_list s) + refused (y_trace s)) /\
  (forall p, let held := if existsb (has_pdev s p) (y_list s) then 1 else 0 in
     claimed_of p (y_trace s) = held /\
     enabled_of p (y_trace s) = held + refused_of p (y_trace s)).
Proof.
  intros Hi Hr. pose proof (reachable_inv _ _ Hi Hr) as Hv.
  assert (Hs : seen (lview_of s) s) by done.
  split; [|split; [apply Hv|split; [apply (li_rcu _ Hv)|split; [|split; [|split]]]]].
  - intros h. change (y_list s) with (w_list (lview_of s)). rewrite (li_devs _ Hv). cbn.
    by rewrite lookup_fmap, fmap_is_Some.
  - eapply sorted_ext; [|apply Hv]. intros a b _ _. unfold idx_lt, idx_of.
    by rewrite !(idx_seen (lview_of s) s).
  - intros p h Hh. rewrite (debug_check_seen (lview_of s)) by done. by rewrite pdev_seen.
  - rewrite <- held_all by done. split; [apply (li_claimed _ Hv)|apply (li_enabled _ Hv)].
  - intros p. pose proof (@reachable_inv (Z.eqb p) _ _ Hi Hr) as Hp. cbv zeta.
    rewrite <- held_one by done. split; [apply (li_claimed _ Hp)|apply (li_enabled _ Hp)].
Qed.

(** C18: An open that fails leaves nothing behind in the list, among the devices
    or in the PCI core: the list is as before, no device has appeared or gone,
    no claim of regions is left, and no PCI device is left enabled unless the
    reason was that its regions are in use by another driver. *)
Theorem open_failure_undone pdev user_max h2c_max c2h_max s :
  kzalloc_new s -> pdev <> 0 ->
  let r := xdma_device_open pci cpus pdev user_max h2c_max c2h_max s in
  fst r = 0 ->
  y_list (snd r) = y_list s /\ y_rcu (snd r) = y_rcu s /\
  dom (y_devs (snd r)) = dom (y_devs s) /\
  claimed (y_trace (snd r)) = claimed (y_trace s) /\
  enabled (y_trace (snd r)) - refused (y_trace (snd r)) =
  enabled (y_trace s) - refused (y_trace s).
Proof.
  intros Hk Hp r Hr.
  assert (Hd : forall t, dom (w_devs (lview_of t)) = dom (y_devs t))
    by (intros t; apply dom_fmap_L).
  destruct (xdma_device_open_run pci cpus pdev user_max h2c_max c2h_max s Hk Hp)
    as [[_ [E|E]]|(E & Hh0 & _)]; [..|unfold r in Hr; congruence];
    fold r in E; unfold seen in E; rewrite <- !Hd, E;
    apply (f_equal w_list) in E as E1; apply (f_equal w_rcu) in E as E2;
    apply (f_equal w_claimed) in E as E3; apply (f_equal w_enabled) in E as E4;
    apply (f_equal w_refused) in E as E5; cbn in E1, E2, E3, E4, E5;
    (split; [done|split; [done|split; [done|split; lia]]]).
Qed.
End life.

(** * A card with one engine per direction *)

Definition life_platform (irq_ok : Z) : Platform := {|
  mmio_answer _ a :=
    if a =? 0x100000 then 0x1fc00006 else
    if a =? 0x101000 then 0x1fc18006 else
    if a =? 0x102000 then 0x1fc20006 else
    if a =? 0x103000 then 0x1fc30006 else 0;
  wb_answer _ := 0;
  kernel_answer t f args :=
    let i := default 0 (head args) in
    if String.eqb f "kzalloc" then 0x5000 + zlength t else
    if String.eqb f "pci_resource_len" then (if i =? 0 then 0x10000 else 0) else
    if String.eqb f "pci_iomap" then 0x100000 else
    if String.eqb f "dma_alloc_coherent" then 0x80000000 else
    if String.eqb f "dma_handle" then 0x1000 else
    if String.eqb f "pci_find_capability" then 0x60 else
    if String.eqb f "pci_irq_vector" then 40 + i else
    if String.eqb f "request_irq" then (if i <? 40 + irq_ok then 0 else -16) else 0;
  sizeof_xdma_request_cb := 256;
  VMALLOC_START := 2 ^ 47;
  VMALLOC_END := 2 ^ 48;
|}.

Definition pci_plain (p : Z) : pci_dev := Build_pci_dev false [false] 11.

Definition no_devices : lst := {|
  y_list := []; y_rcu := []; y_devs := ∅;
  y_threads := Build_tst None 0 ∅ [];
  y_trace := [];
|}.

Definition life_open (irq_ok : Z) : Z * lst :=
  @xdma_device_open (life_platform irq_ok) irq_params pci_plain [0] 0x77 2 0 0 no_devices.

Lemma no_devices_kzalloc irq_ok : @kzalloc_new (life_platform irq_ok) no_devices.
Proof. right. split; [done|]. cbn. split; set_solver. Qed.

Lemma no_devices_init : linit no_devices.
Proof. repeat split. Qed.

Lemma life_open_step irq_ok :
  @lstep (life_platform irq_ok) irq_params pci_plain [0] no_devices (snd (life_open irq_ok)).
Proof.
  apply (@ls_open (life_platform irq_ok) irq_params pci_plain [0] 0x77 2 0 0 no_devices);
    [apply no_devices_kzalloc|done|..].
  - intros h. unfold has_pdev, xdev_of. cbn. by rewrite lookup_empty.
  - intros h Hh. by apply not_elem_of_nil in Hh.
Qed.

(** The card is opened, and closed by a mistaken caller for another PCI device. *)
Definition ex_mistaken : lst :=
  snd (@xdma_device_close (life_platform 32) irq_params 0x78 0x5000 (snd (life_open 32))).

Lemma ex_mistaken_run :
  rtc (@lstep (life_platform 32) irq_params pci_plain [0]) no_devices ex_mistaken.
Proof.
  eapply rtc_l; [apply life_open_step|]. apply rtc_once.
  by apply (@ls_close (life_platform 32) irq_params).
Qed.

Lemma registry_invariant_witness :
  y_list ex_mistaken = [0x5000] /\ NoDup (y_list ex_mistaken) /\
  (claimed (y_trace ex_mistaken) = 1 /\
   enabled (y_trace ex_mistaken) = 1 + refused (y_trace ex_mistaken)) /\
  claimed_of 0x77 (y_trace ex_mistaken) = 1 /\ claimed_of 0x78 (y_trace ex_mistaken) = 0.
Proof.
  assert (El : y_list ex_mistaken = [0x5000]) by (vm_compute; reflexivity).
  assert (E1 : existsb (has_pdev ex_mistaken 0x77) (y_list ex_mistaken) = true)
    by (vm_compute; reflexivity).
  assert (E2 : existsb (has_pdev ex_mistaken 0x78) (y_list ex_mistaken) = false)
    by (vm_compute; reflexivity).
  destruct (@registry_invariant (life_platform 32) irq_params pci_plain [0] no_devices
    ex_mistaken no_devices_init ex_mistaken_run) as (_ & Hn & _ & _ & _ & Hc & Hp).
  pose proof (Hp 0x77) as [H1 _]. pose proof (Hp 0x78) as [H2 _]. cbv zeta in H1, H2.
  rewrite E1 in H1. rewrite E2 in H2. clear Hp E1 E2.
  generalize dependent ex_mistaken. intros s El Hn Hc H1 H2.
  rewrite El in *. by repeat split; try apply Hc.
Defined.

Lemma open_failure_undone_witness :
  fst (life_open 1) = 0 /\ y_list (snd (life_open 1)) = [] /\
  claimed (y_trace (snd (life_open 1))) = 0.
Proof.
  assert (E : fst (life_open 1) = 0) by (vm_compute; reflexivity).
  destruct (@open_failure_undone (life_platform 1) irq_params pci_plain [0] 0x77 2 0 0
    no_devices (no_devices_kzalloc 1) ltac:(done) E) as (E1 & _ & _ & E2 & _).
  split; [exact E|]. split; [exact E1|exact E2].
Defined.

(** Interrupt lines requested and not freed. *)
Definition lines_held (t : list event) : Z :=
  count (is_call "request_irq" (fun rv => rv =? 0)) t -
  count (is_call "free_irq" (fun _ => true)) t.

(** An open that fails because the second interrupt line is refused does
    leave something behind: the line that it was given for the first engine. *)
Lemma open_failure_keeps_line :
  fst (life_open 1) = 0 /\ lines_held (y_trace (snd (life_open 1))) = 1.
Proof. vm_compute. split; reflexivity. Qed.
