(* ===== verification/SuspendProps.v ===== *)
(** Suspending and resuming a device, and the handlers of user interrupts. *)
From S2P Require Import Prelude Hw Desc Types Engine EngineFacts Submit Threads Device.
From S2P Require Import Irq Bars Init Life LifeFacts LifeInv Examples.

(** * Code that touches the interrupt lines only *)

Definition unline (e : xdma_engine) : xdma_engine := e <| e_msix_irq_line := 0 |>.
Definition core (v : dvst) : xdma_dev * list xdma_engine * list xdma_engine :=
  ((v_dev v) <| xd_irq_line := 0 |>, map unline (v_h2c v), map unline (v_c2h v)).

#[export] Instance framed_core : Framed core.
Proof. done. Qed.

Lemma map_zset {A B} (g : A -> B) x y i l :
  zlookup l i = Some y -> g x = g y -> map g (zset x i l) = map g l.
Proof.
  unfold zlookup, zset, zalter. destruct (i <? 0); [done|]. generalize (Z.to_nat i) as n.
  intros n. revert n. induction l as [|a l IH]; intros [|n] E Hg; try done; cbn in *.
  - by injection E as ->; rewrite Hg.
  - f_equal. by apply IH.
Qed.

Lemma core_line d i f :
  frames core (on_engine d i (set_engine (fun e => e <| e_msix_irq_line := f |>))).
Proof.
  intros v. destruct (zlookup (engines d v) i) as [e|] eqn:E.
  2:{ unfold on_engine. by rewrite E. }
  rewrite (on_engine_run _ _ _ _ _ E). cbn [fst snd]. rewrite set_engine_run.
  destruct d; unfold core; cbn; by rewrite (map_zset unline _ e).
Qed.

Lemma core_upd_dev f :
  (forall d, (f d) <| xd_irq_line := 0 |> = d <| xd_irq_line := 0 |>) ->
  frames core (upd_dev f).
Proof. intros Hf v. unfold core. cbn. by rewrite Hf. Qed.

#[local] Hint Resolve core_line : frames.
#[local] Hint Extern 2 (frames core (upd_dev _)) =>
  apply core_upd_dev; intros []; reflexivity : frames.

Section core.
Context `{Platform} `{ModParams}.

Lemma irq_access_core off v : frames core (irq_write v off) /\ frames core (irq_read off).
Proof. unfold irq_write, irq_read, dev. split; frame. Qed.

#[local] Hint Extern 2 (frames core (irq_write _ _)) => apply irq_access_core : frames.
#[local] Hint Extern 2 (frames core (irq_read _)) => apply (irq_access_core _ 0) : frames.

Lemma prog_vectors_core fuel base i max j clear :
  frames core (prog_vectors fuel base i max j clear).
Proof.
  revert i j. induction fuel as [|fuel IH]; intros i j; cbn [prog_vectors]; frame.
Qed.

Lemma channel_setup_core d n i j : frames core (channel_setup d n i j).
Proof.
  revert i j. induction n as [|n IH]; intros i j; cbn [channel_setup];
    unfold request_irq; frame.
Qed.

Lemma channel_teardown_core d n i : frames core (channel_teardown d n i).
Proof.
  revert i. induction n as [|n IH]; intros i; cbn [channel_teardown];
    unfold free_irq; frame.
Qed.

Lemma user_undo_core n j : frames core (user_undo n j).
Proof.
  revert j. induction n as [|n IH]; intros j; cbn [user_undo]; unfold free_irq; frame.
Qed.
#[local] Hint Resolve prog_vectors_core channel_setup_core channel_teardown_core
  user_undo_core : frames.

Lemma user_setup_core n i j : frames core (user_setup n i j).
Proof.
  revert i j. induction n as [|n IH]; intros i j; cbn [user_setup];
    unfold request_irq; frame.
Qed.

Lemma user_teardown_core n i j : frames core (user_teardown n i j).
Proof.
  revert i j. induction n as [|n IH]; intros i j; cbn [user_teardown];
    unfold free_irq; frame.
Qed.
#[local] Hint Resolve user_setup_core user_teardown_core : frames.

Lemma irq_setup_core p : frames core (irq_setup p).
Proof.
  unfold irq_setup, pci_keep_intx_enabled, irq_msix_channel_setup, irq_msix_user_setup,
    prog_irq_msix_channel, prog_irq_msix_user, irq_msi_setup, irq_legacy_setup,
    request_irq, dev. frame.
Qed.

Lemma irq_teardown_core : frames core irq_teardown.
Proof.
  unfold irq_teardown, irq_msix_channel_teardown, irq_msix_user_teardown,
    prog_irq_msix_channel, prog_irq_msix_user, free_irq, dev. frame.
Qed.

Lemma interrupts_off_core : frames core interrupts_off.
Proof.
  unfold interrupts_off, channel_interrupts_disable, user_interrupts_disable,
    read_interrupts. frame.
Qed.
#[local] Hint Resolve irq_setup_core irq_teardown_core interrupts_off_core : frames.

(** The last part of suspending and of resuming. *)
Lemma offline_tail_core : frames core (do* interrupts_off in irq_teardown).
Proof. frame. Qed.

Lemma online_tail_core p : frames core (when (negb poll_mode)
  (let* _ := irq_setup p in
   do* dev_channel_interrupts_enable all_bits in
   let* d := dev in
   do* user_interrupts_enable (xd_mask_irq_user d) in
   let* _ := read_interrupts in
   ret tt)).
Proof.
  unfold dev_channel_interrupts_enable, user_interrupts_enable, read_interrupts, dev. frame.
Qed.
End core.

(** * Every engine *)

(** Code on an engine that relates the engine before to the engine after and
    leaves the device. *)
Definition engine_step (R : xdma_engine -> xdma_engine -> Prop) (m : M est unit) : Prop :=
  forall s, R (st_eng s) (st_eng (snd (m s))) /\ st_dev (snd (m s)) = st_dev s.

(** [l'] is [l] with a step for each engine that exists, from number [i] to
    [j]. *)
Definition stepped (R : xdma_engine -> xdma_engine -> Prop) (i j : Z)
    (l l' : list xdma_engine) : Prop :=
  forall k e, zlookup l k = Some e -> exists e', zlookup l' k = Some e' /\
    if bool_decide (i <= k < j /\ e_magic e = MAGIC_ENGINE) then R e e' else e' = e.

Section each.
Context (R : xdma_engine -> xdma_engine -> Prop) (m : M est unit).
Context (Hm : engine_step R m).

Definition each_body (d : dma_data_direction) (i : Z) : M dvst unit :=
  let* s := gets (fun s : dvst => s) in
  when (e_magic (engine_at d s i) =? MAGIC_ENGINE)
    (let* _ := on_engine d i m in ret tt).

Lemma each_body_run d i v :
  0 <= i ->
  let v' := snd (each_body d i v) in
  v_dev v' = v_dev v /\ stepped R i (i + 1) (engines d v) (engines d v') /\
  (forall d', is_to_device d <> is_to_device d' -> engines d' v' = engines d' v).
Proof using Hm.
  intros Hi. cbv zeta. unfold each_body. rewrite bind_run, gets_run. cbn [fst snd].
  assert (Hsame : (e_magic (engine_at d v i) =? MAGIC_ENGINE) = false ->
    stepped R i (i + 1) (engines d v) (engines d v)).
  { intros Hf k e Hk. exists e. split; [done|]. case_bool_decide as Hc; [|done].
    destruct Hc as [Hr Hmg]. assert (k = i) as -> by lia. unfold engine_at in Hf.
    rewrite Hk in Hf. cbn in Hf. by rewrite Hmg in Hf. }
  destruct (Z.eqb_spec (e_magic (engine_at d v i)) MAGIC_ENGINE) as [Hmg|Hmg]; cbn [when].
  2:{ split; [done|]. split; [|done]. by apply Hsame. }
  destruct (zlookup (engines d v) i) as [e|] eqn:E.
  2:{ unfold engine_at in Hmg. by rewrite E in Hmg. }
  rewrite bind_run, (on_engine_run _ _ _ _ _ E). cbn [fst snd ret].
  destruct (Hm (engine_view e v)) as [HR Hd]. cbn in HR, Hd.
  set (es := snd (m _)) in *. clearbody es. split; [by rewrite put_view_dev|].
  split; [|by intros d' Hne; rewrite engines_put_other].
  intros k e0 Hk. rewrite engines_put, zlookup_zset. apply zlookup_lt_Some in E as Hl.
  destruct (decide (i = k /\ 0 <= i < zlength (engines d v))) as [[<- _]|Hne].
  - exists (st_eng es). split; [done|]. assert (e0 = e) as -> by congruence.
    unfold engine_at in Hmg. rewrite E in Hmg. cbn in Hmg.
    by rewrite bool_decide_true by lia.
  - exists e0. split; [done|]. rewrite bool_decide_false; [done|]. intros []. lia.
Qed.

Lemma each_loop_run d n i v :
  0 <= i ->
  let v' := snd (for_m n i (each_body d) v) in
  v_dev v' = v_dev v /\ stepped R i (i + Z.of_nat n) (engines d v) (engines d v') /\
  (forall d', is_to_device d <> is_to_device d' -> engines d' v' = engines d' v).
Proof using Hm.
  cbv zeta. revert i v. induction n as [|n IH]; intros i v Hi; cbn [for_m].
  { split; [done|]. split; [|done]. intros k e Hk. exists e. split; [done|].
    rewrite bool_decide_false; [done|]. intros []. lia. }
  rewrite bind_run. destruct (each_body_run d i v Hi) as (E1 & S1 & O1).
  set (v1 := snd (each_body d i v)) in *. clearbody v1.
  destruct (IH (i + 1) v1 ltac:(lia)) as (E2 & S2 & O2).
  split; [congruence|]. split; [|by intros d' Hne; rewrite O2, O1].
  intros k e Hk. destruct (S1 k e Hk) as (e1 & Hk1 & H1).
  destruct (S2 k e1 Hk1) as (e2 & Hk2 & H2). exists e2. split; [done|].
  destruct (decide (k = i)) as [->|Hne].
  - rewrite bool_decide_false in H2 by (intros []; lia). subst e2.
    destruct (decide (e_magic e = MAGIC_ENGINE)).
    + rewrite bool_decide_true in * by lia. done.
    + rewrite bool_decide_false in * by tauto. done.
  - rewrite bool_decide_false in H1 by (intros []; lia). subst e1.
    replace (bool_decide (i <= k < i + Z.of_nat (S n) /\ e_magic e = MAGIC_ENGINE))
      with (bool_decide (i + 1 <= k < i + 1 + Z.of_nat n /\ e_magic e = MAGIC_ENGINE));
      [done|].
    apply bool_decide_ext. lia.
Qed.

Lemma each_engine_run d v :
  let v' := snd (each_engine d m v) in
  v_dev v' = v_dev v /\
  stepped R 0 (channel_max d (v_dev v)) (engines d v) (engines d v') /\
  (forall d', is_to_device d <> is_to_device d' -> engines d' v' = engines d' v).
Proof using Hm.
  cbv zeta. unfold each_engine. rewrite bind_run, dev_run. cbn [fst snd].
  destruct (each_loop_run d (Z.to_nat (channel_max d (v_dev v))) 0 v ltac:(lia))
    as (E & S & O). split; [done|]. split; [|done].
  intros k e Hk. destruct (S k e Hk) as (e' & Hk' & H'). exists e'. split; [done|].
  apply zlookup_lt_Some in Hk.
  erewrite bool_decide_ext; [exact H'|]. lia.
Qed.
End each.

(** * What happens to one engine *)

(** An engine without what suspending and resuming it may change: its state, the
    registers read and written when it is set up again, its interrupt line. *)
Definition settings (e : xdma_engine) : xdma_engine :=
  e <| e_shutdown := 0 |> <| e_running := false |> <| e_addr_align := 0 |>
    <| e_len_granularity := 0 |> <| e_addr_bits := 0 |>
    <| e_interrupt_enable_mask_value := 0 |> <| e_msix_irq_line := 0 |>.

Definition kept (s : est) : xdma_engine * Z * bool * xdma_dev :=
  (settings (st_eng s), e_shutdown (st_eng s), e_running (st_eng s), st_dev s).

#[export] Instance framed_kept : Framed kept.
Proof. done. Qed.

Lemma kept_set_engine f :
  (forall e, settings (f e) = settings e /\ e_shutdown (f e) = e_shutdown e /\
     e_running (f e) = e_running e) -> frames kept (set_engine f).
Proof.
  intros Hf s. rewrite set_engine_run. unfold kept. cbn.
  destruct (Hf (st_eng s)) as (E1 & E2 & E3). by rewrite E1, E2, E3.
Qed.
#[local] Hint Extern 2 (frames kept (set_engine _)) =>
  apply kept_set_engine; intros []; repeat split_case; by repeat split : frames.

Definition stops (e e' : xdma_engine) : Prop :=
  e' = e <| e_shutdown ::= fun v => Z.lor v ENGINE_SHUTDOWN_REQUEST |>
         <| e_running := false |>.
Definition resumes (e e' : xdma_engine) : Prop :=
  settings e' = settings e /\ e_running e' = e_running e /\
  e_shutdown e' = andn32 (e_shutdown e) ENGINE_SHUTDOWN_REQUEST.

Section engine.
Context `{Platform} `{ModParams}.

Lemma engine_offline_step : engine_step stops engine_offline.
Proof.
  intros s. unfold engine_offline. rewrite bind_run, set_engine_run. cbn [fst snd].
  rewrite bind_run. match goal with |- context [xdma_engine_stop ?t] =>
    destruct (xdma_engine_stop_run t) as [tr ->] end. by split.
Qed.

Lemma engine_init_regs_kept : frames kept engine_init_regs.
Proof.
  unfold engine_init_regs, engine_alignments, engine_writeback_setup, credit_write,
    reg_read, reg_write, engine. frame.
Qed.

Lemma resume_engine_step : engine_step resumes resume_engine.
Proof.
  intros s. unfold resume_engine. rewrite bind_run. pose proof (engine_init_regs_kept s) as E.
  set (s1 := snd (engine_init_regs s)) in *. clearbody s1. unfold kept in E.
  apply pair_equal_spec in E as [[[E1 E2]%pair_equal_spec E3]%pair_equal_spec E4].
  unfold engine_online. rewrite set_engine_run. cbn. split; [|done].
  split; [exact E1|]. split; [exact E3|]. cbn. by rewrite E2.
Qed.
End engine.

(** * The device *)

Definition created (v : dvst) (d : dma_data_direction) (i : Z) (e : xdma_engine) : Prop :=
  zlookup (engines d v) i = Some e /\ 0 <= i < channel_max d (v_dev v) /\
  e_magic e = MAGIC_ENGINE.

Lemma stepped_both R m v :
  engine_step R m ->
  let v' := snd ((do* each_engine DMA_TO_DEVICE m in each_engine DMA_FROM_DEVICE m) v) in
  v_dev v' = v_dev v /\
  forall d i e, created v d i e -> exists e', zlookup (engines d v') i = Some e' /\ R e e'.
Proof.
  intros Hm. cbv zeta. rewrite bind_run.
  destruct (each_engine_run R m Hm DMA_TO_DEVICE v) as (E1 & S1 & O1).
  set (v1 := snd (each_engine DMA_TO_DEVICE m v)) in *. clearbody v1.
  destruct (each_engine_run R m Hm DMA_FROM_DEVICE v1) as (E2 & S2 & O2).
  set (v2 := snd (each_engine DMA_FROM_DEVICE m v1)) in *. clearbody v2.
  split; [congruence|]. intros d i e (Hk & Hi & Hmg). destruct d.
  - rewrite O2 by done. destruct (S1 i e Hk) as (e' & Hk' & H').
    rewrite bool_decide_true in H' by done. eauto.
  - rewrite <- O1 in Hk by done. destruct (S2 i e Hk) as (e' & Hk' & H').
    rewrite E1, bool_decide_true in H' by done. eauto.
Qed.

Lemma core_lookup v v' d i e :
  core v' = core v -> zlookup (engines d v) i = Some e ->
  exists e', zlookup (engines d v') i = Some e' /\ unline e' = unline e.
Proof.
  unfold core. intros [[_ E1]%pair_equal_spec E2]%pair_equal_spec Hk.
  assert (E : map unline (engines d v') = map unline (engines d v)) by by destruct d.
  unfold zlookup in *. destruct (i <? 0); [done|].
  apply (f_equal (fun l => l !! Z.to_nat i)) in E.
  rewrite !list_lookup_fmap, Hk in E. cbn in E.
  destruct (engines d v' !! Z.to_nat i) as [e'|]; [|done]. cbn in E.
  exists e'. split; [done|]. congruence.
Qed.

Lemma has_bit_set v : has_bits (Z.lor v 1) 1 = true.
Proof. change 1 with (2 ^ 0) at 2. by rewrite has_bits_pow2, Z.lor_spec, orb_true_r. Qed.

Lemma has_bit_clear v : has_bits (andn32 v 1) 1 = false.
Proof.
  change 1 with (2 ^ 0) at 2. rewrite has_bits_pow2 by done. unfold andn32.
  by rewrite Z.land_spec, andb_false_r.
Qed.

Section device.
Context `{Platform} `{ModParams}.

Lemma offline_run v d i e :
  created v d i e ->
  let v1 := snd (device_offline v) in
  xd_flags (v_dev v1) = Z.lor (xd_flags (v_dev v)) XDEV_FLAG_OFFLINE /\
  (forall d, channel_max d (v_dev v1) = channel_max d (v_dev v)) /\
  exists e', zlookup (engines d v1) i = Some (e' : xdma_engine) /\
    exists e1, stops e e1 /\ unline e' = unline e1.
Proof.
  intros Hc. cbv zeta. set (v0 := v <| v_dev ::= xdma_device_flag_set XDEV_FLAG_OFFLINE |>).
  destruct (stepped_both stops engine_offline v0 engine_offline_step) as [Ed Es].
  assert (Hc0 : created v0 d i e) by (by destruct d).
  destruct (Es d i e Hc0) as (e1 & Hk1 & He1). revert Ed Hk1.
  assert (E : snd (device_offline v) = snd ((do* interrupts_off in irq_teardown)
    (snd ((do* each_engine DMA_TO_DEVICE engine_offline in
           each_engine DMA_FROM_DEVICE engine_offline) v0)))).
  { unfold device_offline. by rewrite !bind_run, upd_dev_run. }
  rewrite E. generalize (snd ((do* each_engine DMA_TO_DEVICE engine_offline in
           each_engine DMA_FROM_DEVICE engine_offline) v0)). intros v2 Ed Hk1.
  pose proof (offline_tail_core v2) as Ec.
  destruct (core_lookup _ _ _ _ _ Ec Hk1) as (e' & Hk' & Hu).
  unfold core in Ec. apply pair_equal_spec in Ec as [[Ec _]%pair_equal_spec _].
  set (v1 := snd _) in *. clearbody v1. rewrite Ed in Ec.
  split; [apply (f_equal xd_flags Ec)|]. split; [|by eauto 10].
  intros []; [apply (f_equal xd_h2c_channel_max Ec)|apply (f_equal xd_c2h_channel_max Ec)].
Qed.

Lemma online_run p v d i e :
  created v d i e ->
  let v1 := snd (device_online p v) in
  xd_flags (v_dev v1) = andn32 (xd_flags (v_dev v)) XDEV_FLAG_OFFLINE /\
  exists e', zlookup (engines d v1) i = Some (e' : xdma_engine) /\
    exists e1, resumes e e1 /\ unline e' = unline e1.
Proof.
  intros Hc. cbv zeta.
  destruct (stepped_both resumes resume_engine v resume_engine_step) as [Ed Es].
  destruct (Es d i e Hc) as (e1 & Hk1 & He1). revert Ed Hk1.
  set (tail := when (negb poll_mode)
    (let* _ := irq_setup p in
     do* dev_channel_interrupts_enable all_bits in
     let* d := dev in
     do* user_interrupts_enable (xd_mask_irq_user d) in
     let* _ := read_interrupts in
     ret tt)).
  assert (E : snd (device_online p v) = (snd (tail
    (snd ((do* each_engine DMA_TO_DEVICE resume_engine in
           each_engine DMA_FROM_DEVICE resume_engine) v))))
    <| v_dev ::= xdma_device_flag_clear XDEV_FLAG_OFFLINE |>).
  { unfold device_online. by rewrite !bind_run, upd_dev_run. }
  rewrite E. generalize (snd ((do* each_engine DMA_TO_DEVICE resume_engine in
           each_engine DMA_FROM_DEVICE resume_engine) v)). intros v2 Ed Hk1.
  pose proof (online_tail_core p v2) as Ec. fold tail in Ec.
  destruct (core_lookup _ _ _ _ _ Ec Hk1) as (e' & Hk' & Hu).
  unfold core in Ec. apply pair_equal_spec in Ec as [[Ec _]%pair_equal_spec _].
  set (v1 := snd _) in *. clearbody v1. rewrite Ed in Ec.
  split; [|by exists e'; destruct d; eauto]. apply (f_equal xd_flags) in Ec. cbn in *.
  by rewrite Ec.
Qed.

(** C19: Suspending a device and resuming it.  While the device is suspended
    every engine is stopped and refuses transfers, and a submission is refused
    as busy; afterwards every engine is as it was, but for the registers that
    have been read and written anew and the interrupt line, is stopped and
    accepts transfers again. *)
Theorem suspend_resume p v d i e :
  created v d i e ->
  let v1 := snd (device_offline v) in
  let v2 := snd (device_online p v1) in
  (exists e1, zlookup (engines d v1) i = Some e1 /\ e_running e1 = false /\
     has_bits (e_shutdown e1) ENGINE_SHUTDOWN_REQUEST = true /\
     forall write, check_engine e1 (v_dev v1) write = - EBUSY) /\
  (exists e2, zlookup (engines d v2) i = Some e2 /\ e_running e2 = false /\
     has_bits (e_shutdown e2) ENGINE_SHUTDOWN_REQUEST = false /\
     settings e2 = settings e /\
     xdma_device_flag_check XDEV_FLAG_OFFLINE (v_dev v2) = false).
Proof.
  intros Hc v1 v2. destruct (offline_run v d i e Hc) as (Ef & Em & e1 & Hk1 & e1' & Hs & Hu).
  fold v1 in Ef, Em, Hk1.
  assert (Hr1 : e_running e1 = false /\ e_shutdown e1 = Z.lor (e_shutdown e) 1 /\
    settings e1 = settings e /\ e_magic e1 = MAGIC_ENGINE).
  { rewrite Hs in Hu. split; [apply (f_equal e_running Hu)|].
    split; [apply (f_equal e_shutdown Hu)|].
    split; [apply (f_equal settings Hu)|]. rewrite <- (proj2 (proj2 Hc)).
    apply (f_equal e_magic Hu). }
  destruct Hr1 as (Hrun & Hsh & Hset & Hmg).
  assert (Hc1 : created v1 d i e1) by (split; [done|split; [by rewrite Em; apply Hc|done]]).
  destruct (online_run p v1 d i e1 Hc1) as (Ef2 & e2 & Hk2 & e2' & (S1 & S2 & S3) & Hu2).
  fold v2 in Ef2, Hk2. split.
  - exists e1. split; [done|]. split; [done|]. rewrite Hsh. split; [apply has_bit_set|].
    intros write. unfold check_engine, xdma_device_flag_check. rewrite Hmg, Ef, Z.eqb_refl.
    unfold XDEV_FLAG_OFFLINE. by rewrite has_bit_set.
  - exists e2. split; [done|].
    assert (E2 : e_running e2 = e_running e2' /\ e_shutdown e2 = e_shutdown e2' /\
      settings e2 = settings e2').
    { split; [apply (f_equal e_running Hu2)|]. split; [apply (f_equal e_shutdown Hu2)|].
      apply (f_equal settings Hu2). }
    destruct E2 as (-> & -> & ->). split; [congruence|]. rewrite S3.
    split; [apply has_bit_clear|]. split; [congruence|].
    unfold xdma_device_flag_check. rewrite Ef2. apply has_bit_clear.
Qed.
End device.

(** * The handlers of user interrupts *)

Section handlers.
Context (handler : option Z) (hdev : Z).

Definition set_handler (u : xdma_user_irq) : xdma_user_irq :=
  u <| u_handler := handler |> <| u_dev := hdev |>.

(** What the loop is for: the users from [i] to [j] whose bit is set. *)
Definition registered (i j mask : Z) (l l' : list xdma_user_irq) : Prop :=
  forall k, zlookup l' k =
    (if bool_decide (i <= k < j) && Z.testbit mask k then set_handler else id)
      <$> zlookup l k.

Lemma registered_none i j mask l :
  (forall k, i <= k < j -> Z.testbit mask k = false) -> registered i j mask l l.
Proof.
  intros Hm k. case_bool_decide as Hk; cbn; [rewrite Hm by done|];
    symmetry; apply option_fmap_id.
Qed.

Lemma register_loop_run n i mask d :
  0 <= i -> i + Z.of_nat n <= 32 ->
  let d' := register_loop n i mask handler hdev d in
  d' = d <| xd_user_irq := xd_user_irq d' |> /\
  registered i (i + Z.of_nat n) mask (xd_user_irq d) (xd_user_irq d').
Proof.
  cbv zeta. revert i mask d. induction n as [|n IH]; intros i mask d Hi Hn;
    cbn [register_loop].
  { split; [by destruct d|]. apply registered_none. lia. }
  destruct (Z.eqb_spec mask 0) as [->|Hz].
  { split; [by destruct d|]. apply registered_none. intros. apply Z.bits_0. }
  assert (Ebit : u32 (Z.shiftl 1 i) = 2 ^ i).
  { rewrite Z.shiftl_mul_pow2, Z.mul_1_l by lia.
    apply u32_small. split; [lia|apply Z.pow_lt_mono_r; lia]. }
  rewrite Ebit, Z.land_comm. fold (has_bits mask (2 ^ i)).
  assert (Eb : (Z.land mask (2 ^ i) =? 0) = negb (Z.testbit mask i)).
  { rewrite <- has_bits_pow2 by done. unfold has_bits. by rewrite negb_involutive. }
  rewrite Eb. destruct (Z.testbit mask i) eqn:Et; cbn [negb].
  - set (d1 := d <| xd_user_irq ::= _ |>).
    destruct (IH (i + 1) (andn32 mask (2 ^ i)) d1) as [E1 E2]; [lia..|].
    split; [rewrite E1 at 1; by destruct d|]. intros k. rewrite (E2 k).
    change (xd_user_irq d1) with (zalter set_handler i (xd_user_irq d)).
    rewrite zlookup_zalter. destruct (decide (i = k)) as [<-|Hne].
    + rewrite bool_decide_false, bool_decide_true, Et by lia. cbn.
      by rewrite option_fmap_id.
    + rewrite (bool_decide_ext (i + 1 <= k < i + 1 + Z.of_nat n)
        (i <= k < i + Z.of_nat (S n))) by lia.
      case_bool_decide; cbn; [|done]. by rewrite testbit_andn32 by lia.
  - destruct (IH (i + 1) mask d) as [E1 E2]; [lia..|].
    split; [done|]. intros k. rewrite (E2 k). destruct (decide (k = i)) as [->|Hne].
    + by rewrite Et, !andb_false_r.
    + by rewrite (bool_decide_ext (i + 1 <= k < i + 1 + Z.of_nat n)
        (i <= k < i + Z.of_nat (S n))) by lia.
Qed.
End handlers.

Section register.
Context `{Platform} `{ModParams}.

(** A handle of the list is accepted with its own PCI device. *)
Lemma checked_run h m s v :
  linv (lview_of s) -> y_devs s !! h = Some v ->
  checked h m s = (0, snd (on_xdev h m
    (s <| y_devs ::= insert h (v <| v_trace := y_trace s |>) |>))).
Proof.
  intros Hv Ev.
  assert (Hin : h ∈ w_list (lview_of s)).
  { apply (li_devs _ Hv). cbn. by rewrite lookup_fmap, Ev. }
  assert (Hh : h <> 0) by (intros ->; by apply (li_null _ Hv)).
  assert (Ed : w_devs (lview_of s) !! h = Some (dev_frame (v_dev v))).
  { cbn. by rewrite lookup_fmap, Ev. }
  destruct (li_hold _ Hv h _ Ed) as (p & i & Efr & Hp).
  unfold checked. rewrite (proj2 (Z.eqb_neq _ _) Hh), bind_run.
  set (m0 := let* d := dev in ret (xd_pdev d)).
  assert (Hs1 : seen (lview_of s) (snd (on_xdev h m0 s))).
  { apply on_xdev_seen; [|done]. unfold m0, dev. frame. }
  rewrite (on_xdev_run _ _ _ _ Ev) in *. cbn [fst snd] in *.
  change (fst (m0 ?w)) with (xd_pdev (v_dev v)).
  rewrite bind_run, (debug_check_seen (lview_of s)) by done. cbn [fst snd].
  rewrite bool_decide_true.
  - cbn [Z.ltb Z.compare]. rewrite bind_run. by destruct s.
  - injection Efr as E1 _ _ _. unfold pdev_of. rewrite Ed. split; [by rewrite E1|done].
Qed.

(** Registering a handler with the handle of an open device changes the
    users whose bit is set in [mask], up to the number of users of the device,
    and nothing else. *)
Lemma user_isr_register_sets h mask handler hdev s v :
  linv (lview_of s) -> y_devs s !! h = Some v ->
  0 <= xd_user_max (v_dev v) <= MAX_USER_IRQ ->
  let r := xdma_user_isr_register h mask handler hdev s in
  fst r = 0 /\ y_list (snd r) = y_list s /\ y_trace (snd r) = y_trace s /\
  exists irqs,
    y_devs (snd r) = <[h := v <| v_trace := y_trace s |>
      <| v_dev ::= fun d => d <| xd_user_irq := irqs |> |>]> (y_devs s) /\
    forall u, zlookup irqs u =
      (if bool_decide (0 <= u < xd_user_max (v_dev v)) && Z.testbit mask u
       then set_handler handler hdev else id) <$> zlookup (xd_user_irq (v_dev v)) u.
Proof.
  intros Hv Ev Hmax. cbv zeta. unfold MAX_USER_IRQ in Hmax.
  unfold xdma_user_isr_register. rewrite (checked_run _ _ _ _ Hv Ev).
  erewrite on_xdev_run by apply lookup_insert_eq. cbn [fst snd]. split; [done|].
  split; [done|]. split; [done|]. rewrite upd_dev_run.
  destruct (register_loop_run handler hdev (Z.to_nat (xd_user_max (v_dev v))) 0 mask
    (v_dev v)) as [E1 E2]; [lia..|]. rewrite Z2Nat.id in E2 by lia.
  exists (xd_user_irq (register_loop (Z.to_nat (xd_user_max (v_dev v))) 0 mask handler hdev
    (v_dev v))). split; [|exact E2]. cbn. rewrite insert_insert_eq. f_equal.
  unfold upd_field. cbn. by rewrite E1 at 1.
Qed.
End register.

(** * Witnesses *)

Lemma suspend_resume_witness :
  exists e1 e2,
    zlookup (engines DMA_TO_DEVICE (snd (@device_offline idle_platform irq_params ex_dv))) 0 = Some e1 /\
    has_bits (e_shutdown e1) ENGINE_SHUTDOWN_REQUEST = true /\
    zlookup (engines DMA_TO_DEVICE (snd (@device_online idle_platform irq_params
      (Build_pci_dev false [] 0) (snd (@device_offline idle_platform irq_params ex_dv))))) 0
      = Some e2 /\
    has_bits (e_shutdown e2) ENGINE_SHUTDOWN_REQUEST = false.
Proof.
  destruct (@suspend_resume idle_platform irq_params (Build_pci_dev false [] 0) ex_dv
    DMA_TO_DEVICE 0 (ex_engine <| e_irq_bitmask := 1 |>))
    as [(e1 & E1 & _ & R1 & _) (e2 & E2 & _ & R2 & _)].
  - split; [reflexivity|]. split; [|reflexivity]. split; reflexivity.
  - exists e1, e2. split; [exact E1|]. split; [exact R1|]. split; [exact E2|exact R2].
Defined.

(** One open device, with two users. *)
Definition ex_life_dev : dvst :=
  (fresh_dev 0x77) <| v_dev ::= fun d => d <| xd_got_regions := true |> <| xd_user_max := 2 |> |>.
Definition ex_life : lst := {|
  y_list := [0x5000]; y_rcu := [0x5000];
  y_devs := {[0x5000 := ex_life_dev]};
  y_threads := Build_tst None 0 ∅ [];
  y_trace := [Call "pci_request_regions" [0x77] 0; Call "pci_enable_device" [0x77] 0];
|}.

Lemma ex_life_inv : linv (lview_of ex_life).
Proof.
  assert (Hin : forall h, h ∈ w_list (lview_of ex_life) -> h = 0x5000)
    by (intros h Hh; by apply list_elem_of_singleton in Hh).
  assert (Hd : forall h, w_devs (lview_of ex_life) !! h =
    (fun v => dev_frame (v_dev v)) <$> ({[0x5000 := ex_life_dev]} : gmap Z dvst) !! h)
    by (intros h; apply lookup_fmap).
  split.
  - apply NoDup_singleton.
  - done.
  - intros h. rewrite Hd, fmap_is_Some, lookup_singleton_is_Some.
    split; [by intros ->%Hin|intros <-]. by apply list_elem_of_singleton.
  - by intros ?%Hin.
  - intros h d. rewrite Hd, fmap_Some. intros (v & Hv & ->).
    apply lookup_singleton_Some in Hv as [_ <-]. by exists 0x77, 0.
  - intros h ->%Hin. by vm_compute.
  - repeat constructor.
  - by intros h1 h2 ->%Hin ->%Hin.
  - by vm_compute.
  - by vm_compute.
Qed.

