(* ===== verification/PciProps.v ===== *)
(** A card added to and removed from the machine. *)
From S2P Require Import Prelude Hw Desc Types Engine Device Irq Life LifeFacts.
From S2P Require Import LifeInv LifeProps Nupa Adapter Debug Pci Examples.

(** * What the callbacks leave alone *)

(** Everything but the adapter [p], and of that the fields the removal uses. *)
Definition ids (a : nupanet_adapter) : Z * Z * Z * Z * Z :=
  (a_pdev a, a_xdev a, a_vaddr a, a_host_id a, a_netdev a).
Definition others_of (p : Z) (s : gst) :=
  (lview_of (g_lib s), g_drvdata s, g_shm s, delete p (g_adapters s)).
Definition keep (p : Z) (s : gst) := (others_of p s, ids <$> g_adapters s !! p).

Lemma lview_quiet e l :
  quiet_event e = true -> lview_of (l <| y_trace := e :: y_trace l |>) = lview_of l.
Proof. intros He. apply view_eq; try done. unfold pci_calls. cbn. by rewrite He. Qed.

#[export] Instance framed_keep p : Framed (keep p).
Proof.
  intros e s He. unfold keep, others_of. cbn.
  by rewrite (lview_quiet e (g_lib s) He).
Qed.

#[export] Instance framed_lview : Framed lview_of.
Proof. intros e s He. by apply lview_quiet. Qed.

Lemma frames_on_xdev {A} `{Inhabited A} `{Platform} h (m : M dvst A) :
  frames frame m -> frames lview_of (on_xdev h m).
Proof. intros Hm s. by apply (on_xdev_seen (lview_of s) h m Hm s). Qed.

Lemma frames_on_lib {A} p (m : M lst A) :
  frames lview_of m -> frames (keep p) (on_lib m).
Proof. intros Hm s. rewrite on_lib_run. unfold keep, others_of. cbn. by rewrite Hm. Qed.

Lemma frames_set_adapter p f :
  (forall a, ids (f a) = ids a) -> frames (keep p) (set_adapter p f).
Proof.
  intros Hf s. rewrite set_adapter_run. unfold keep, others_of. cbn.
  rewrite delete_alter_eq, lookup_alter_eq. f_equal.
  destruct (g_adapters s !! p); cbn; [by rewrite Hf|done].
Qed.

#[export] Hint Extern 2 (frames lview_of (on_xdev _ _)) =>
  apply frames_on_xdev : frames.
#[export] Hint Extern 2 (frames (keep _) (on_lib _)) => apply frames_on_lib : frames.
#[export] Hint Extern 2 (frames (keep _) (set_adapter _ _)) =>
  apply frames_set_adapter; intros ?; reflexivity : frames.
#[export] Hint Extern 2 (frames (keep _) (set_debug _ _)) =>
  apply frames_set_adapter; intros ?; reflexivity : frames.
#[export] Hint Extern 1 (frames (keep _) (adapter _)) => apply frames_gets : frames.
#[export] Hint Extern 1 (frames frame dev) => apply frames_gets : frames.
#[export] Hint Extern 1 (frames frame (bind dev _)) =>
  apply frames_bind; [apply frames_gets|intros ?; apply frames_ret] : frames.

Section facts.
Context `{Platform} `{ModParams}.
Context (pci : Z -> pci_dev) (device_id : Z -> Z) (cpus : list Z).

Lemma free_resource_keep p : frames (keep p) (free_resource p).
Proof. unfold free_resource. frame. Qed.
#[local] Hint Resolve free_resource_keep : frames.

Lemma create_debug_keep p buf len : frames (keep p) (create_debug_cdev p buf len).
Proof. unfold create_debug_cdev, create_buffer, create_failed. frame. Qed.

Lemma store_limits_keep p h : frames (keep p) (store_limits p h).
Proof. unfold store_limits. frame. Qed.

Lemma set_mac_keep p : frames (keep p) (set_mac device_id p).
Proof.
  unfold set_mac. apply frames_bind; [frame|intros a].
  apply frames_bind; [by apply frames_modify|intros _; frame].
Qed.

Lemma poll_start_keep p : frames (keep p) (nupanet_poll_start p).
Proof. unfold nupanet_poll_start. frame. Qed.

(** ** Writes *)

(** The adapter [p] of a state, as its parts are known. *)
Definition held (p : Z) (i : Z * Z * Z * Z * Z) (o : lview * gmap Z Z * list area *
    gmap Z nupanet_adapter) (s : gst) : Prop := keep p s = (o, Some i).

Lemma held_adapter p i o s :
  held p i o s -> exists a, g_adapters s !! p = Some a /\ ids a = i.
Proof using.
  intros E. apply (f_equal snd) in E. cbn in E.
  destruct (g_adapters s !! p) as [a|]; [|done]. exists a. by injection E.
Qed.

Lemma held_parts p i V drv shm ads s :
  held p i (V, drv, shm, ads) s ->
  lview_of (g_lib s) = V /\ g_drvdata s = drv /\ g_shm s = shm /\
  delete p (g_adapters s) = ads.
Proof using.
  unfold held, keep, others_of. intros [[[[? ?]%pair_equal_spec ?]%pair_equal_spec
    ?]%pair_equal_spec _]%pair_equal_spec. done.
Qed.

Lemma held_keep {A} p i o s (m : M gst A) :
  frames (keep p) m -> held p i o s -> held p i o (snd (m s)).
Proof using. intros Hm Hs. unfold held. by rewrite Hm. Qed.

Lemma held_set p f g i o s :
  (forall a, ids (f a) = g (ids a)) -> held p i o s ->
  held p (g i) o (snd (set_adapter p f s)).
Proof using.
  intros Hf Hs. unfold held, keep in *. injection Hs as Ho Hi. rewrite set_adapter_run.
  unfold others_of in *. cbn. rewrite delete_alter_eq, Ho, lookup_alter_eq. f_equal.
  destruct (g_adapters s !! p); [|done]. cbn in *. injection Hi as <-. by rewrite Hf.
Qed.

Lemma write_area_run p hid v i V drv shm ads s :
  held p i (V, drv, shm, ads) s ->
  if negb (snd (fst (fst i)) =? 0) && bool_decide (is_Some (zlookup shm hid))
  then fst (write_area p hid v s) = Done tt /\
       held p i (V, drv, zset v hid shm, ads) (snd (write_area p hid v s))
  else write_area p hid v s = (Fault, s).
Proof using.
  intros Hs. destruct (held_adapter _ _ _ _ Hs) as (a & Ea & Ei).
  pose proof Hs as E. apply (f_equal (fun k => snd (fst (fst k)))) in E. cbn in E.
  unfold write_area. exec. rewrite Ea, E.
  change (default zero_adapter (Some a)) with a.
  replace (snd (fst (fst i))) with (a_vaddr a) by by rewrite <- Ei.
  destruct (a_vaddr a =? 0); cbn [negb andb]; [done|].
  destruct (zlookup shm hid) as [x|] eqn:Ex.
  - rewrite bool_decide_eq_true_2 by by exists x. exec. split; [done|].
    unfold held, keep, others_of in *. cbn. injection Hs as <- <- <- <- Hi.
    by rewrite Hi.
  - rewrite bool_decide_eq_false_2 by by intros [].
    done.
Qed.

(** ** Library calls *)

Lemma held_lib {A} p i V V' drv shm ads s (m : M lst A) :
  held p i (V, drv, shm, ads) s -> (lview_of (g_lib s) = V -> seen V' (snd (m (g_lib s)))) ->
  held p i (V', drv, shm, ads) (snd (on_lib m s)).
Proof using.
  intros Hs Hm. unfold held, keep, others_of, seen in *. injection Hs as Hv <- <- <- Hi.
  rewrite on_lib_run. cbn. by rewrite Hi, Hm.
Qed.

(** Freeing the adapter of a device in service. *)
Lemma adapter_free_run p pdev h vaddr hid nd V drv shm ads s :
  held p (pdev, h, vaddr, hid, nd) (V, drv, shm, ads) s ->
  linv V -> h <> 0 -> pdev <> 0 -> pdev_of V h = Some pdev ->
  vaddr <> 0 -> is_Some (zlookup shm hid) ->
  fst (adapter_free p s) = Done tt /\
  lview_of (g_lib (snd (adapter_free p s))) = closed h V /\
  g_drvdata (snd (adapter_free p s)) = drv /\
  g_shm (snd (adapter_free p s)) = zset zero_area hid shm /\
  g_adapters (snd (adapter_free p s)) = ads.
Proof using.
  intros Hs Hv Hh Hp Hpd Hva Hsh. destruct (held_adapter _ _ _ _ Hs) as (a & Ea & Ei).
  injection Ei as <- <- <- <- <-. unfold adapter_free.
  rewrite bind_run, adapter_run, Ea. cbn [fst snd].
  change (default zero_adapter (Some a)) with a.
  rewrite bind_run. apply (held_set p (fun a => a <| a_xdev := 0 |>)
    (fun '(x1, _, x3, x4, x5) => (x1, 0, x3, x4, x5))) in Hs; [|done].
  set (s1 := snd (set_adapter p _ s)) in *. clearbody s1. rewrite bind_run.
  eapply (held_lib p _ V (closed (a_xdev a) V) drv shm ads s1
    (xdma_device_close (a_pdev a) (a_xdev a))) in Hs.
  2:{ intros E. pose proof (close_seen V (g_lib s1) (a_pdev a) (a_xdev a) Hv E Hh) as Hc.
      by rewrite bool_decide_eq_true_2 in Hc. }
  set (s2 := snd (on_lib _ s1)) in *. clearbody s2. rewrite bind_run.
  apply (held_keep p _ _ s2 (kcall "netif_napi_del" [p])) in Hs; [|frame].
  set (s3 := snd (kcall "netif_napi_del" [p] s2)) in *. clearbody s3.
  pose proof (write_area_run p (a_host_id a) zero_area _ _ _ _ _ _ Hs) as Hw.
  cbn [fst snd] in Hw. rewrite (proj2 (Z.eqb_neq _ 0)) in Hw by done.
  rewrite bool_decide_eq_true_2 in Hw by done. cbn [negb andb] in Hw.
  destruct Hw as [Ew Hw]. unfold obind. rewrite bind_run, Ew.
  set (s4 := snd (write_area _ _ _ s3)) in *. clearbody s4.
  assert (Hk : held p (a_pdev a, 0, a_vaddr a, a_host_id a, a_netdev a)
    (closed (a_xdev a) V, drv, zset zero_area (a_host_id a) shm, ads)
    (snd ((let* _ := kcall "iounmap" [a_vaddr a] in
           let* _ := kcall "unregister_netdev" [a_netdev a] in
           kcall "free_netdev" [a_netdev a]) s4)))
    by (apply held_keep; [frame|done]).
  rewrite !bind_run in *. cbn [fst snd] in *.
  set (s5 := snd (kcall "free_netdev" _ _)) in *. clearbody s5.
  rewrite modify_run. cbn [fst snd]. destruct (held_parts _ _ _ _ _ _ _ Hk) as (?&?&?&?).
  done.
Qed.

(** ** Adding a card *)

Lemma obind_done {A B} (m : M gst (outcome A)) (k : A -> M gst (outcome B)) s b :
  fst (obind m k s) = Done b ->
  exists a, fst (m s) = Done a /\ obind m k s = k a (snd (m s)).
Proof using.
  unfold obind. rewrite bind_run. destruct (fst (m s)) as [a| | |]; try done.
  by exists a.
Qed.

Lemma err_out_not_done p err s : err <> 0 -> fst (err_out p err s) <> Done 0.
Proof using.
  intros He E. unfold err_out in E. destruct (obind_done _ _ _ _ E) as (u & _ & E'). rewrite E' in E.
  by injection E.
Qed.

Definition host_of (pdev : Z) : Z := device_id_to_host_id (device_id pdev).

(** What an adapter that [probe_one] has brought up holds. *)
Record brought_up (pdev p h nd : Z) (V : lview) (drv : gmap Z Z) (shm : list area)
    (ads : gmap Z nupanet_adapter) (s : gst) : Prop := {
  bu_host : 0 <= host_of pdev < MAX_AGENT_NUM;
  bu_area : is_Some (zlookup shm (host_of pdev));
  bu_held : exists vaddr, vaddr <> 0 /\
    held p (pdev, h, vaddr, host_of pdev, nd)
      (V, <[pdev := p]> drv, zset (init_area (host_of pdev)) (host_of pdev) shm, ads) s;
}.

Lemma probe_netdev_run pdev p h vaddr nd V drv shm0 shm ads s :
  shm = zset (init_area (host_of pdev)) (host_of pdev) shm0 ->
  0 <= host_of pdev < MAX_AGENT_NUM -> is_Some (zlookup shm0 (host_of pdev)) ->
  vaddr <> 0 -> held p (pdev, h, vaddr, host_of pdev, nd) (V, drv, shm, ads) s ->
  fst (probe_netdev pdev p s) = Done 0 ->
  brought_up pdev p h nd V drv shm0 ads (snd (probe_netdev pdev p s)).
Proof using.
  intros -> Hhost Harea Hva Hs. unfold probe_netdev. rewrite bind_run.
  apply (held_keep p _ _ s (kcall "register_netdev" [p])) in Hs; [|frame].
  destruct (Z.eqb_spec (fst (kcall "register_netdev" [p] s)) 0) as [E|E]; cbn [negb].
  2:{ intros Ho. by destruct (err_out_not_done p _ _ E Ho). }
  set (s1 := snd _) in *. clearbody s1. intros _.
  rewrite bind_run, modify_run. cbn [fst snd]. set (s2 := s1 <| g_drvdata ::= _ |>).
  assert (Hs2 : held p (pdev, h, vaddr, host_of pdev, nd) (V, <[pdev := p]> drv,
    zset (init_area (host_of pdev)) (host_of pdev) shm0, ads) s2).
  { destruct (held_parts _ _ _ _ _ _ _ Hs) as (E1 & E2 & E3 & E4).
    unfold held, keep in *. apply pair_equal_spec in Hs as [_ Hi].
    unfold others_of. cbn. by rewrite E1, E2, E3, E4, Hi. }
  clearbody s2. rewrite bind_run. cbn [snd ret].
  split; try done. exists vaddr. split; [done|].
  apply (held_keep p _ _ s2 (nupanet_poll_start p)); [apply poll_start_keep|done].
Qed.

Lemma held_skip {A B} p i o (m : M gst A) (k : A -> M gst B) Q :
  frames (keep p) m -> (forall a, hoare (held p i o) (k a) Q) ->
  hoare (held p i o) (bind m k) Q.
Proof using. intros Hm Hk s Hs. rewrite bind_run. apply Hk. by apply held_keep. Qed.

Lemma held_update {B} p f g i o (k : unit -> M gst B) Q :
  (forall a, ids (f a) = g (ids a)) -> hoare (held p (g i) o) (k tt) Q ->
  hoare (held p i o) (bind (set_adapter p f) k) Q.
Proof using. intros Hf Hk s Hs. rewrite bind_run. apply Hk. by apply held_set. Qed.

Lemma info_init_run p pdev h va hid nd V drv shm ads s :
  held p (pdev, h, va, hid, nd) (V, drv, shm, ads) s ->
  fst (info_init p s) = Done tt ->
  va <> 0 /\ 0 <= hid < MAX_AGENT_NUM /\ is_Some (zlookup shm hid) /\
  held p (pdev, h, va, hid, nd) (V, drv, zset (init_area hid) hid shm, ads)
    (snd (info_init p s)).
Proof using.
  intros Hs. destruct (held_adapter _ _ _ _ Hs) as (a & Ea & Ei).
  unfold info_init. rewrite bind_run, adapter_run, Ea. cbn [fst snd].
  change (default zero_adapter (Some a)) with a. injection Ei as <- <- <- <- <-.
  destruct (Z.leb_spec MAX_AGENT_NUM (a_host_id a)); [done|].
  pose proof (write_area_run p (a_host_id a) (init_area (a_host_id a)) _ _ _ _ _ _ Hs)
    as Hw. cbn [fst snd] in Hw. intros Hr.
  destruct (Z.eqb_spec (a_vaddr a) 0) as [E|E]; cbn [negb andb] in Hw;
    [by rewrite Hw in Hr|].
  case_bool_decide as Hd; [|by rewrite Hw in Hr]. destruct Hw as [_ Hw].
  split; [done|]. pose proof Hd as Hd'. apply zlookup_is_Some in Hd'. split; [lia|].
  by split.
Qed.

Lemma probe_adapter_run pdev p h nd x va hid V drv shm ads :
  hoare (held p (pdev, x, va, hid, nd) (V, drv, shm, ads))
    (probe_adapter device_id pdev p h)
    (fun r s => r = Done 0 -> brought_up pdev p h nd V drv shm ads s).
Proof using.
  unfold probe_adapter.
  apply (held_update p _ (fun '(x1, _, x3, x4, x5) => (x1, h, x3, x4, x5))); [done|].
  apply held_skip; [frame|intros bar]. apply held_skip; [frame|intros vaddr].
  apply held_skip; [frame|intros len].
  apply (held_update p _ (fun '(x1, x2, _, x4, x5) => (x1, x2, vaddr, x4, x5))); [done|].
  apply held_skip; [apply create_debug_keep|intros _].
  apply (held_update p _ (fun '(x1, x2, x3, _, x5) => (x1, x2, x3, host_of pdev, x5)));
    [done|].
  intros s Hs Hr. destruct (obind_done _ _ _ _ Hr) as ([] & Ei & Er). rewrite Er in *.
  destruct (info_init_run _ _ _ _ _ _ _ _ _ _ _ Hs Ei) as (Hva & Hhost & Harea & Hs1).
  set (s1 := snd (info_init p s)) in *. clearbody s1. clear Er Ei.
  revert s1 Hs1 Hr. change (hoare (held p (pdev, h, vaddr, host_of pdev, nd)
    (V, drv, zset (init_area (host_of pdev)) (host_of pdev) shm, ads))
    (do* set_mac device_id p in
     let* _ := kcall "netif_napi_add" [p; 64] in
     probe_netdev pdev p) (fun r s => r = Done 0 -> brought_up pdev p h nd V drv shm ads s)).
  apply held_skip; [apply set_mac_keep|intros _].
  apply held_skip; [frame|intros _]. intros s1 Hs1. by eapply probe_netdev_run.
Qed.

Lemma enable_users_held p h i V drv shm ads s :
  linv V -> h <> 0 -> held p i (V, drv, shm, ads) s ->
  held p i (V, drv, shm, ads) (snd (enable_users p h s)).
Proof using.
  intros Hv Hh Hs. unfold enable_users. rewrite bind_run, adapter_run. cbn [fst snd].
  destruct (_ =? 0); [done|]. apply (held_lib p _ V V); [done|]. intros E.
  apply (checked_seen V h _ Hv Hh); [frame|done].
Qed.

Lemma probe_device_run pdev p h nd x va hid V drv shm ads :
  linv V -> h <> 0 ->
  hoare (held p (pdev, x, va, hid, nd) (V, drv, shm, ads))
    (probe_device device_id pdev p h)
    (fun r s => r = Done 0 -> brought_up pdev p h nd V drv shm ads s).
Proof using.
  intros Hv Hh. unfold probe_device.
  apply held_skip; [apply store_limits_keep|intros _].
  apply held_skip; [frame|intros a].
  destruct (limits_exceeded a).
  { intros s _ Hr. by apply err_out_not_done in Hr. }
  intros s Hs. rewrite bind_run.
  pose proof (enable_users_held p h _ _ _ _ _ s Hv Hh Hs) as Hs1.
  destruct (Z.eqb_spec (fst (enable_users p h s)) 0) as [E|E]; cbn [negb].
  2:{ intros Hr. by apply err_out_not_done in Hr. }
  set (s1 := snd _) in *. clearbody s1. clear E Hs s. revert s1 Hs1.
  change (hoare (held p (pdev, x, va, hid, nd) (V, drv, shm, ads))
    (let* xdev := on_lib (xdev_find_by_pdev pdev) in
     if xdev =? 0 then err_out p (- EINVAL)
     else if negb (h =? xdev) then err_out p (- EINVAL)
     else probe_adapter device_id pdev p h)
    (fun r s => r = Done 0 -> brought_up pdev p h nd V drv shm ads s)).
  apply held_skip; [apply frames_on_lib; by apply frames_gets|intros xdev].
  destruct (xdev =? 0); [intros s _ Hr; by apply err_out_not_done in Hr|].
  destruct (negb _); [intros s _ Hr; by apply err_out_not_done in Hr|].
  apply probe_adapter_run.
Qed.

(** A card that is not in the machine yet: [kzalloc] and [alloc_etherdev] give
    memory that is not in use. *)
Record new_card (pdev : Z) (s : gst) : Prop := {
  nc_inv : linv (lview_of (g_lib s));
  nc_pdev : pdev <> 0;
  nc_new : forall h, has_pdev (g_lib s) pdev h = false;
  nc_room : forall h, h ∈ y_list (g_lib s) ->
    default 0 (xd_idx <$> xdev_of h (g_lib s)) < 2 ^ 31 - 1;
  nc_netdev : g_adapters s !! kernel_answer (trace_of s) "alloc_etherdev" [] = None;
  nc_kzalloc : kzalloc_new (g_lib (snd (adapter_alloc pdev s)));
}.

Lemma adapter_alloc_run pdev s :
  new_card pdev s ->
  let p := kernel_answer (trace_of s) "alloc_etherdev" [] in
  fst (adapter_alloc pdev s) = p /\
  (p <> 0 -> held p (pdev, 0, 0, 0, p)
    (lview_of (g_lib s), g_drvdata s, g_shm s, g_adapters s)
    (snd (adapter_alloc pdev s))).
Proof using.
  intros [_ _ _ _ Hn _] p. unfold adapter_alloc. rewrite bind_run.
  change (fst (kcall "alloc_etherdev" [] s)) with p.
  destruct (Z.eqb_spec p 0) as [E|E]; [by split|]. split; [done|]. intros _.
  rewrite bind_run, modify_run. unfold held, keep, others_of. cbn.
  rewrite lview_quiet by done. fold p in Hn |- *.
  by rewrite lookup_insert_eq, delete_insert_id.
Qed.

Lemma closed_opened h p i V : new_handle V h -> closed h (opened h p i V) = V.
Proof using.
  intros Hn. rewrite <- (counted_0 V) at 2. rewrite <- (entered_gone h (p, i, false, true)) by done.
  assert (Ep : pdev_of (opened h p i V) h = Some p)
    by (unfold pdev_of; cbn; by rewrite lookup_insert_eq).
  unfold closed. rewrite Ep. do 2 f_equal. unfold opened, entered, counted, upd_field.
  cbn. f_equal; lia.
Qed.

Lemma new_device_inv pdev h s :
  new_card pdev s -> new_handle (lview_of (g_lib s)) h -> h <> 0 ->
  linv (opened h pdev (next_idx (lview_of (g_lib s))) (lview_of (g_lib s))).
Proof using.
  intros Hc Hn Hh. apply opened_inv; try done; try apply Hc.
  - intros b Hb. pose proof (nc_new _ _ Hc b) as Hnew.
    rewrite (has_pdev_seen (g_lib s) (lview_of (g_lib s))) in Hnew by done.
    by apply bool_decide_eq_false in Hnew.
  - apply (open_room _ (g_lib s)); [done|apply Hc].
Qed.

(** [probe_one] up to the return of [xdma_device_open]. *)
Lemma probe_one_run pdev s :
  new_card pdev s ->
  let V := lview_of (g_lib s) in
  let p := kernel_answer (trace_of s) "alloc_etherdev" [] in
  fst (probe_one pci device_id cpus pdev s) = Done 0 ->
  p <> 0 /\ exists h, h <> 0 /\ new_handle V h /\
    brought_up pdev p h p (opened h pdev (next_idx V) V) (g_drvdata s) (g_shm s)
      (g_adapters s) (snd (probe_one pci device_id cpus pdev s)).
Proof using.
  intros Hc V p. destruct (adapter_alloc_run pdev s Hc) as [Ep Hs].
  fold p V in Ep, Hs. unfold probe_one. rewrite bind_run, Ep.
  destruct (Z.eqb_spec p 0) as [E|E]; [done|]. specialize (Hs E). intros Hr.
  split; [done|]. revert Hr. pose proof (nc_kzalloc _ _ Hc) as Hk.
  set (s1 := snd (adapter_alloc pdev s)) in *.
  assert (Hl : lview_of (g_lib s1) = V) by by destruct (held_parts _ _ _ _ _ _ _ Hs).
  clearbody s1. rewrite bind_run, adapter_run. cbn [fst snd].
  set (a := default zero_adapter (g_adapters s1 !! p)). rewrite bind_run, on_lib_run.
  cbn [fst snd].
  destruct (xdma_device_open_run pci cpus pdev (a_user_max a) (a_h2c_channel_max a)
    (a_c2h_channel_max a) (g_lib s1) Hk (nc_pdev _ _ Hc)) as [[-> _]|(E1 & Hh & Hn & Ho)].
  { cbn [Z.eqb]. intros Hr. by apply err_out_not_done in Hr. }
  rewrite E1. set (h := kernel_answer (y_trace (g_lib s1)) "kzalloc" []) in *.
  rewrite (proj2 (Z.eqb_neq h 0)) by done. intros Hr. exists h. rewrite Hl in Hn, Ho.
  split; [done|]. split; [done|].
  assert (Hv : linv (opened h pdev (next_idx V) V)).
  { by apply new_device_inv. }
  eapply (probe_device_run pdev p h p 0 0 0); [exact Hv|done| |exact Hr].
  destruct (held_parts _ _ _ _ _ _ _ Hs) as (_ & E2 & E3 & E4).
  unfold held, keep, others_of in *. apply pair_equal_spec in Hs as [_ Hi].
  unfold seen in Ho. cbn [g_lib g_drvdata g_shm g_adapters upd_field].
  cbn. rewrite Ho. cbn. by rewrite E2, E3, E4, Hi.
Qed.

Lemma remove_one_run pdev p h nd V drv shm ads s :
  pdev <> 0 -> p <> 0 -> h <> 0 -> linv V -> pdev_of V h = Some pdev ->
  brought_up pdev p h nd V drv shm ads s ->
  let r := remove_one pdev s in
  fst r = Done tt /\ lview_of (g_lib (snd r)) = closed h V /\
  g_drvdata (snd r) = delete pdev drv /\
  g_shm (snd r) = zset zero_area (host_of pdev) shm /\ g_adapters (snd r) = ads.
Proof using.
  intros Hp Hp0 Hh Hv Hpd [Hhost Harea (va & Hva & Hs)] r.
  destruct (held_parts _ _ _ _ _ _ _ Hs) as (_ & Ed & _).
  assert (Er : r = adapter_free p ((snd (free_resource p s)) <| g_drvdata ::= delete pdev |>)).
  { unfold r, remove_one. rewrite (proj2 (Z.eqb_neq pdev 0)) by done.
    rewrite bind_run. unfold dev_get_drvdata. rewrite gets_run. cbn [fst snd].
    rewrite Ed, lookup_insert_eq. change (default 0 (Some p)) with p.
    by rewrite (proj2 (Z.eqb_neq p 0)), bind_run by done. }
  rewrite Er. clear Er r.
  apply (held_keep p _ _ s (free_resource p)) in Hs; [|apply free_resource_keep].
  set (s1 := snd (free_resource p s)) in *. clearbody s1.
  set (s2 := s1 <| g_drvdata ::= delete pdev |>).
  assert (Hs2 : held p (pdev, h, va, host_of pdev, nd)
    (V, delete pdev drv, zset (init_area (host_of pdev)) (host_of pdev) shm, ads) s2).
  { destruct (held_parts _ _ _ _ _ _ _ Hs) as (E1 & E2 & E3 & E4).
    unfold held, keep in *. apply pair_equal_spec in Hs as [_ Hi].
    unfold others_of. cbn. by rewrite E1, E2, E3, E4, Hi, delete_insert_eq. }
  clearbody s2.
  destruct (adapter_free_run p _ _ _ _ _ _ _ _ _ s2 Hs2 Hv Hh Hp Hpd Hva)
    as (E1 & E2 & E3 & E4 & E5).
  { apply zlookup_is_Some. rewrite zlength_zset. by apply zlookup_is_Some in Harea. }
  rewrite zset_zset in E4. done.
Qed.

(** C12: Adding a card and removing it again.  The card is not in the machine yet,
    and the kernel gives memory that is not in use ([new_card]).  When [probe_one]
    succeeds the new device is at the end of the library's list, its handle is the
    one the adapter holds and passes the library's check, the PCI device carries
    the adapter and the host's own area of the shared memory is initialised, with
    the other areas as they were; [remove_one] then ends normally and leaves the
    library with the devices, claims and enabled PCI devices that it had before,
    no adapter, and the host's area cleared.  This includes a [probe_one] that has
    ignored a failure of [create_debug_cdev]; what [remove_one] then frees twice
    is not among these, see C22. *)
Theorem probe_remove pdev s :
  new_card pdev s ->
  fst (probe_one pci device_id cpus pdev s) = Done 0 ->
  let s1 := snd (probe_one pci device_id cpus pdev s) in
  let s2 := snd (remove_one pdev s1) in
  let host := host_of pdev in
  (exists p h, g_drvdata s1 = <[pdev := p]> (g_drvdata s) /\
     y_list (g_lib s1) = y_list (g_lib s) ++ [h] /\
     a_xdev <$> g_adapters s1 !! p = Some h /\
     fst (debug_check_dev_hndl pdev h (g_lib s1)) = 0 /\
     0 <= host < MAX_AGENT_NUM /\ g_shm s1 = zset (init_area host) host (g_shm s)) /\
  fst (remove_one pdev s1) = Done tt /\
  y_list (g_lib s2) = y_list (g_lib s) /\ dom (y_devs (g_lib s2)) = dom (y_devs (g_lib s)) /\
  claimed (y_trace (g_lib s2)) = claimed (y_trace (g_lib s)) /\
  enabled (y_trace (g_lib s2)) = enabled (y_trace (g_lib s)) /\
  g_adapters s2 = g_adapters s /\ g_drvdata s2 = delete pdev (g_drvdata s) /\
  g_shm s2 = zset zero_area host (g_shm s).
Proof using.
  intros Hc Hr s1 s2 host.
  destruct (probe_one_run pdev s Hc Hr) as (Hp & h & Hh & Hn & Hb). fold s1 in Hb.
  set (V := lview_of (g_lib s)) in *. set (V1 := opened h pdev (next_idx V) V) in *.
  assert (Hv : linv V1) by by apply new_device_inv.
  assert (Hpd : pdev_of V1 h = Some pdev)
    by (unfold pdev_of; cbn; by rewrite lookup_insert_eq).
  destruct (remove_one_run _ _ _ _ _ _ _ _ _ (nc_pdev _ _ Hc) Hp Hh Hv Hpd Hb)
    as (E1 & E2 & E3 & E4 & E5). fold s2 in E2, E3, E4, E5.
  unfold V1 in E2. rewrite closed_opened in E2 by done.
  destruct Hb as [Hhost Harea (va & _ & Hs)].
  destruct (held_parts _ _ _ _ _ _ _ Hs) as (F1 & F2 & F3 & _).
  destruct (held_adapter _ _ _ _ Hs) as (a & Ea & Ei). clearbody s1 s2.
  split.
  - eexists _, h. split; [exact F2|].
    split; [by apply (f_equal w_list) in F1|]. rewrite Ea. cbn.
    split; [by injection Ei as _ <- _ _ _|]. split; [|done].
    rewrite (debug_check_seen V1) by done. cbn [fst].
    rewrite bool_decide_eq_true_2; [done|]. split; [apply Hc|done].
  - split; [exact E1|].
    apply (f_equal w_list) in E2 as G1. apply (f_equal (fun v => dom (w_devs v))) in E2 as G2.
    apply (f_equal w_claimed) in E2 as G3. apply (f_equal w_enabled) in E2 as G4.
    cbn in G1, G2, G3, G4. rewrite !dom_fmap_L in G2. done.
Qed.

(** C37: When [xdma_device_open] fails, [probe_one] does not return its error
    code: the clean-up clears the shared memory through the null pointer that
    the adapter still has. *)
Theorem probe_failure_faults pdev s :
  let s0 := snd (adapter_alloc pdev s) in
  fst (adapter_alloc pdev s) <> 0 ->
  fst (xdma_device_open pci cpus pdev MAX_USER_IRQ XDMA_CHANNEL_NUM_MAX
         XDMA_CHANNEL_NUM_MAX (g_lib s0)) = 0 ->
  fst (probe_one pci device_id cpus pdev s) = Fault.
Proof using.
  intros s0 Hp Ho. unfold probe_one. rewrite bind_run. fold s0.
  set (p := fst (adapter_alloc pdev s)) in *.
  assert (Ea : g_adapters s0 !! p = Some (zero_adapter <| a_magic := MAGIC_DEVICE |>
    <| a_pdev := pdev |> <| a_user_max := MAX_USER_IRQ |>
    <| a_h2c_channel_max := XDMA_CHANNEL_NUM_MAX |>
    <| a_c2h_channel_max := XDMA_CHANNEL_NUM_MAX |> <| a_netdev := p |>)).
  { unfold p, s0, adapter_alloc. rewrite !bind_run.
    unfold p, adapter_alloc in Hp. rewrite bind_run in Hp.
    destruct (Z.eqb_spec (fst (kcall "alloc_etherdev" [] s)) 0) as [E|E]; [done|].
    rewrite bind_run, modify_run. cbn [fst snd ret]. apply lookup_insert_eq. }
  clearbody s0 p. rewrite (proj2 (Z.eqb_neq p 0)) by done.
  rewrite bind_run, adapter_run, Ea. cbn [fst snd].
  set (a := zero_adapter <| a_magic := _ |> <| a_pdev := _ |> <| a_user_max := _ |>
    <| a_h2c_channel_max := _ |> <| a_c2h_channel_max := _ |> <| a_netdev := _ |>) in *.
  change (default zero_adapter (Some a)) with a. rewrite bind_run, on_lib_run.
  change (a_user_max a) with MAX_USER_IRQ.
  change (a_h2c_channel_max a) with XDMA_CHANNEL_NUM_MAX.
  change (a_c2h_channel_max a) with XDMA_CHANNEL_NUM_MAX.
  cbn [fst snd]. rewrite Ho. cbn [Z.eqb]. set (s1 := s0 <| g_lib := _ |>).
  assert (Ea1 : g_adapters s1 !! p = Some a) by exact Ea. clearbody s1.
  unfold err_out, obind. rewrite bind_run.
  enough (Ef : fst (adapter_free p s1) = Fault) by by rewrite Ef.
  unfold adapter_free. rewrite bind_run, adapter_run, Ea1. cbn [fst snd].
  change (default zero_adapter (Some a)) with a.
  rewrite bind_run, set_adapter_run. cbn [fst snd]. change (a_xdev a) with 0.
  change (on_lib (xdma_device_close (a_pdev a) 0)) with (on_lib (ret tt)).
  rewrite bind_run, on_lib_run. cbn [fst snd]. unfold obind. rewrite !bind_run.
  set (s2 := snd (kcall _ _ _)).
  assert (Ea2 : g_adapters s2 !! p = Some (a <| a_xdev := 0 |>)).
  { unfold s2. cbn. by rewrite lookup_alter_eq, Ea1. }
  clearbody s2. unfold write_area. rewrite bind_run, adapter_run, Ea2. done.
Qed.
End facts.

(** * A card in an empty machine *)

(** [irq_ok]: the number of interrupt lines that can be had. *)
Definition card_platform (irq_ok : Z) : Platform := {|
  mmio_answer := @mmio_answer (life_platform irq_ok);
  wb_answer _ := 0;
  kernel_answer t f args :=
    if String.eqb f "alloc_etherdev" then 0x9000 else
    if String.eqb f "pci_ioremap_wc_bar" then 0xA0000 else
    @kernel_answer (life_platform irq_ok) t f args;
  sizeof_xdma_request_cb := 256;
  VMALLOC_START := 2 ^ 47;
  VMALLOC_END := 2 ^ 48;
|}.

Definition no_cards : gst := {|
  g_lib := no_devices;
  g_adapters := ∅;
  g_drvdata := ∅;
  g_shm := [zero_area; zero_area];
  g_mac_addr := base_mac_addr;
|}.

Lemma no_cards_new irq_ok : @new_card (card_platform irq_ok) 0x77 no_cards.
Proof.
  split.
  - apply linit_inv, no_devices_init.
  - done.
  - intros h. unfold has_pdev, xdev_of. cbn. by rewrite lookup_empty.
  - intros h Hh. by apply not_elem_of_nil in Hh.
  - cbn. by rewrite lookup_empty.
  - right. split; [done|]. cbn. split; set_solver.
Qed.

Lemma probe_remove_witness :
  let s1 := snd (@probe_one (card_platform 32) irq_params pci_plain (fun _ => 0x9148) [0]
                   0x77 no_cards) in
  y_list (g_lib (snd (@remove_one (card_platform 32) irq_params 0x77 s1))) = [] /\
  g_shm (snd (@remove_one (card_platform 32) irq_params 0x77 s1)) = [zero_area; zero_area].
Proof.
  destruct (@probe_remove (card_platform 32) irq_params pci_plain (fun _ => 0x9148) [0]
    0x77 no_cards (no_cards_new 32) ltac:(vm_compute; reflexivity))
    as (_ & _ & E1 & _ & _ & _ & _ & _ & E2).
  split; [exact E1|exact E2].
Defined.

Lemma probe_failure_faults_witness :
  fst (@probe_one (card_platform 1) irq_params pci_plain (fun _ => 0x9148) [0]
         0x77 no_cards) = Fault.
Proof.
  apply (@probe_failure_faults (card_platform 1) irq_params pci_plain (fun _ => 0x9148) [0]
    0x77 no_cards); vm_compute; [congruence|reflexivity].
Defined.
