(* ===== verification/DebugProps.v ===== *)
(** What the debug device gives back, and where it writes. *)
From S2P Require Import Prelude Hw Desc Types Engine Submit Threads Device Life.
From S2P Require Import LifeFacts LifeInv Nupa Adapter Debug Examples.

(** * Resources of the device *)

(** A pointer that is neither null nor an error number ([IS_ERR]), which is how
    [class_create] reports its failure and what [class_destroy] ignores. *)
Definition MAX_ERRNO : Z := 4095.
Definition is_pointer (v : Z) : bool := negb (v =? 0) && (u64 v <? 2 ^ 64 - MAX_ERRNO).
#[global] Arguments is_pointer : simpl never.
Definition destroys_class (e : event) : bool :=
  if e is Call f args _
  then String.eqb f "class_destroy" && is_pointer (default 0 (head args)) else false.

(** Regions of device numbers, classes and buffers taken and not given back. *)
Definition regions_held (t : list event) : Z :=
  count (is_call "alloc_chrdev_region" (fun rv => 0 <=? rv)) t -
  count (is_call "unregister_chrdev_region" (fun _ => true)) t.
Definition classes_held (t : list event) : Z :=
  count (is_call "class_create" is_pointer) t - count destroys_class t.
Definition buffers_held (t : list event) : Z :=
  count (is_call "kcalloc" (fun rv => negb (rv =? 0))) t -
  count (is_call "kfree" (fun _ => true)) t.

Section debug.
Context `{Platform} `{ModParams}.
Context (p : Z).

(** The debug device is [d] and the trace [t]. *)
Definition at_debug (d : debug_cdev) (t : list event) (s : gst) : Prop :=
  a_debug <$> g_adapters s !! p = Some d /\ trace_of s = t.

Lemma dbg_kcall {B} d t f args (P : Z -> Prop) (k : Z -> M gst B) Q :
  (forall t, P (kernel_answer t f args)) ->
  (forall v, P v -> hoare (at_debug d (Call f args v :: t)) (k v) Q) ->
  hoare (at_debug d t) (bind (kcall f args) k) Q.
Proof.
  intros HP Hk s [Hd Ht]. rewrite bind_run. apply Hk; [apply HP|].
  split; [done|]. cbn in *. by rewrite Ht.
Qed.

Lemma dbg_call {B} d t f args (k : Z -> M gst B) Q :
  (forall v, hoare (at_debug d (Call f args v :: t)) (k v) Q) ->
  hoare (at_debug d t) (bind (kcall f args) k) Q.
Proof. intros Hk. by apply (dbg_kcall _ _ _ _ (fun _ => True)). Qed.

(** The answer is the one to the call. *)
Lemma dbg_answer {B} d t f args (k : Z -> M gst B) Q :
  hoare (at_debug d (Call f args (kernel_answer t f args) :: t))
    (k (kernel_answer t f args)) Q ->
  hoare (at_debug d t) (bind (kcall f args) k) Q.
Proof.
  intros Hk s [Hd Ht]. rewrite bind_run.
  assert (E : fst (kcall f args s) = kernel_answer t f args) by by rewrite <- Ht.
  rewrite E. apply Hk. split; [done|]. cbn in *. by rewrite Ht.
Qed.

Lemma dbg_set {B} d t f (k : unit -> M gst B) Q :
  hoare (at_debug (f d) t) (k tt) Q ->
  hoare (at_debug d t) (bind (set_debug p f) k) Q.
Proof.
  intros Hk s [Hd Ht]. rewrite bind_run. apply Hk. split; [|done]. cbn.
  rewrite lookup_alter_eq. destruct (g_adapters s !! p); [|done]. cbn in *.
  by injection Hd as <-.
Qed.

Lemma dbg_adapter {B} d t (k : nupanet_adapter -> M gst B) Q :
  (forall a, a_debug a = d -> hoare (at_debug d t) (k a) Q) ->
  hoare (at_debug d t) (bind (adapter p) k) Q.
Proof.
  intros Hk s [Hd Ht]. rewrite bind_run, adapter_run. cbn [fst snd].
  destruct (g_adapters s !! p) as [a|] eqn:E; [|done]. cbn in Hd. injection Hd as Hd.
  apply Hk; [done|]. split; [by rewrite E; cbn; rewrite Hd|done].
Qed.

Lemma dbg_no {B} d t (k : Z -> M gst B) Q :
  (forall no, hoare (at_debug d t) (k no) Q) ->
  hoare (at_debug d t)
    (bind (let* a := adapter p in ret (dc_cdevno (a_debug a))) k) Q.
Proof. intros Hk s Hs. rewrite !bind_run, adapter_run. by apply Hk. Qed.

Lemma dbg_end {A} d t (a : A) (Q : A -> gst -> Prop) :
  (forall s, at_debug d t s -> Q a s) -> hoare (at_debug d t) (ret a) Q.
Proof. intros HQ s Hs. by apply HQ. Qed.

(** The number of a region is not 0. *)
Definition numbered : Prop := forall t, kernel_answer t "chrdev_number" [] <> 0.

Definition bit (b : bool) : Z := if b then 1 else 0.

(** Between the traces [t] and [t'] the driver has taken [r] regions, [c] classes
    and [b] buffers more than it has given back. *)
Definition took (t : list event) (r c b : Z) (t' : list event) : Prop :=
  regions_held t' = regions_held t + r /\ classes_held t' = classes_held t + c /\
  buffers_held t' = buffers_held t + b.

Lemma took_trans t r c b t1 r' c' b' t2 :
  took t r c b t1 -> took t1 r' c' b' t2 -> took t (r + r') (c + c') (b + b') t2.
Proof. unfold took. lia. Qed.

Ltac took := unfold took, regions_held, classes_held, buffers_held, bit in *;
  rewrite ?count_cons in *; cbn in *;
  rewrite ?andb_true_l in *;
  repeat match goal with
    E : (_ =? _) = _ |- _ => rewrite E in *; clear E
  | E : (_ <=? _) = _ |- _ => rewrite E in *; clear E
  end; cbn in *; lia.

Definition has_node (d : debug_cdev) : bool :=
  negb (dc_class d =? 0) && negb (dc_cdevno d =? 0).

(** The class that goes with the region. *)
Definition has_class (d : debug_cdev) : bool := has_node d && is_pointer (dc_class d).

Lemma free_node_run d t :
  hoare (at_debug d t)
    (when (has_node d)
      (let* _ := kcall "device_destroy" [dc_class d; dc_cdevno d] in
       let* _ := kcall "class_destroy" [dc_class d] in
       let* _ := kcall "unregister_chrdev_region" [dc_cdevno d] in ret tt))
    (fun _ s => at_debug d (trace_of s) s /\
       took t (- bit (has_node d)) (- bit (has_class d)) 0 (trace_of s)).
Proof.
  unfold has_class. destruct (has_node d); cbn [when andb].
  - apply dbg_call; intros v1. apply dbg_call; intros v2. apply dbg_call; intros v3.
    apply dbg_end. intros s [Hd Ht]. cbv beta. rewrite Ht. split; [by split|]. took.
  - apply dbg_end. intros s [Hd Ht]. cbv beta. rewrite Ht. split; [by split|]. took.
Qed.

(** [free_resource] gives back the buffer, and the class with the region of device
    numbers, if there are any. *)
Lemma free_resource_run d t :
  hoare (at_debug d t) (free_resource p) (fun _ s =>
    at_debug d (trace_of s) s /\
    took t (- bit (has_node d)) (- bit (has_class d)) (- bit (negb (dc_buf d =? 0)))
      (trace_of s)).
Proof.
  unfold free_resource. apply dbg_adapter. intros a ->. fold (has_node d).
  destruct (negb (dc_buf d =? 0)) eqn:Eb; cbn [when]; intros s Hs; rewrite bind_run.
  - assert (Hs1 : exists v, at_debug d (Call "kfree" [dc_buf d] v :: t)
      (snd ((let* _ := kcall "kfree" [dc_buf d] in ret tt) s))).
    { destruct Hs as [Hd Ht]. eexists. split; [exact Hd|]. cbn in *. by rewrite Ht. }
    destruct Hs1 as [v Hs1]. destruct (free_node_run _ _ _ Hs1) as (E0 & E).
    split; [exact E0|]. clear E0 Hs1. took.
  - destruct (free_node_run d t s Hs) as (E0 & E). split; [exact E0|]. clear E0. took.
Qed.

(** * Creation *)

(** What the kernel answers to the first calls. *)
Definition region_answer (t : list event) : Z := kernel_answer t "alloc_chrdev_region" [].
Definition numbers_trace (t : list event) : list event :=
  let t1 := Call "alloc_chrdev_region" [] (region_answer t) :: t in
  Call "chrdev_number" [] (kernel_answer t1 "chrdev_number" []) :: t1.
Definition class_answer (t : list event) : Z :=
  kernel_answer (numbers_trace t) "class_create" [].

(** How [create_debug_cdev] ends. *)
Inductive created (t : list event) (d : debug_cdev) (t' : list event) : Z -> Prop :=
| created_all :
    0 <= region_answer t -> dc_class d = class_answer t -> has_node d = true ->
    dc_buf d <> 0 -> took t 1 (bit (has_class d)) 1 t' -> created t d t' 0
| created_no_region :
    region_answer t < 0 -> has_node d = false -> dc_buf d = 0 -> took t 0 0 0 t' ->
    created t d t' (- ENOMEM)
| created_no_class :
    0 <= region_answer t -> class_answer t = 0 -> has_node d = false -> dc_buf d = 0 ->
    took t 1 0 0 t' -> created t d t' (- ENOMEM)
| created_freed :
    0 <= region_answer t -> dc_class d = class_answer t -> has_node d = true ->
    took t 0 0 0 t' -> created t d t' (- ENOMEM).

Lemma create_failed_run d t t0 :
  0 <= region_answer t0 -> dc_class d = class_answer t0 ->
  took t0 (bit (has_node d)) (bit (has_class d)) (bit (negb (dc_buf d =? 0))) t ->
  has_node d = true ->
  hoare (at_debug d t) (create_failed p)
    (fun r s => at_debug d (trace_of s) s /\ created t0 d (trace_of s) r).
Proof.
  intros Hrv Hc Ht Hn s Hs. unfold create_failed. rewrite bind_run. cbn [fst snd ret].
  destruct (free_resource_run d t s Hs) as [H1 H2]. split; [exact H1|].
  apply created_freed; [done..|]. pose proof (took_trans _ _ _ _ _ _ _ _ _ Ht H2) as H3.
  clear -H3. unfold took in *. lia.
Qed.

Lemma has_node_iff d : dc_class d <> 0 -> dc_cdevno d <> 0 -> has_node d = true.
Proof. unfold has_node. intros ? ?. by rewrite !(proj2 (Z.eqb_neq _ _)). Qed.

Lemma create_buffer_run ib il d t t0 :
  0 <= region_answer t0 -> dc_class d = class_answer t0 ->
  dc_class d <> 0 -> dc_cdevno d <> 0 -> took t0 1 (bit (is_pointer (dc_class d))) 0 t ->
  hoare (at_debug d t) (create_buffer p ib il)
    (fun r s => exists d', at_debug d' (trace_of s) s /\ created t0 d' (trace_of s) r).
Proof.
  intros Hrv Hca Hc Hn Ht. unfold create_buffer. apply dbg_set. apply dbg_call. intros v.
  apply dbg_set. destruct (Z.eqb_spec v 0) as [->|Hv].
  { intros s Hs. eexists. eapply create_failed_run; [exact Hrv|..|exact Hs]; [exact Hca|..];
      unfold has_class; rewrite has_node_iff by done; [|done]. cbn. took. }
  apply Z.eqb_neq in Hv as Hvb.
  assert (Hrest : forall d', dc_class d' = dc_class d -> dc_cdevno d' = dc_cdevno d ->
    dc_buf d' = v ->
    hoare (at_debug d' (Call "kcalloc" [BUF_LENGTH; 1] v :: t))
      (do* set_debug p (fun d => d <| dc_dump_ctl := false |> <| dc_hack_ctl := false |>
                                <| dc_hold_ic_ctl := false |>) in
       let* cdevno := (let* a := adapter p in ret (dc_cdevno (a_debug a))) in
       let* rv := kcall "cdev_add" [cdevno] in
       if negb (rv =? 0) then create_failed p else ret 0)
      (fun r s => exists d', at_debug d' (trace_of s) s /\ created t0 d' (trace_of s) r)).
  { intros d' Hc' Hn' Hb'. apply dbg_set. apply dbg_no. intros no. apply dbg_call. intros w.
    destruct (negb (w =? 0)).
    - intros s Hs. eexists. eapply create_failed_run; [exact Hrv|..|exact Hs];
        [cbn; congruence|..]; unfold has_class; rewrite has_node_iff by (cbn; congruence); [|done].
      cbn. rewrite Hb', Hc'. clear -Hvb Ht. took.
    - apply dbg_end. intros s [Hd Hs]. eexists. split; [split; [exact Hd|done]|].
      apply created_all; [done|cbn; congruence|rewrite has_node_iff; cbn; congruence
        |cbn; by rewrite Hb'|].
      unfold has_class. rewrite has_node_iff by (cbn; congruence). rewrite Hs. cbn.
      rewrite Hc'. clear -Hvb Ht. took. }
  destruct (negb (ib =? 0) && negb (il =? 0)); cbn [when].
  - apply dbg_set. by apply Hrest.
  - intros s. rewrite bind_run. by apply Hrest.
Qed.

Lemma create_run ib il d t :
  numbered -> dc_class d = 0 -> dc_cdevno d = 0 -> dc_buf d = 0 ->
  hoare (at_debug d t) (create_debug_cdev p ib il)
    (fun r s => exists d', at_debug d' (trace_of s) s /\ created t d' (trace_of s) r).
Proof.
  intros Hnum Hc Hn Hb. unfold create_debug_cdev. apply dbg_answer. fold (region_answer t).
  destruct (Z.ltb_spec (region_answer t) 0) as [Hrv|Hrv].
  { apply dbg_end. intros s [Hd Ht]. exists d. rewrite Ht. split; [by split|].
    apply created_no_region; [done|unfold has_node; by rewrite Hc|done|].
    apply Z.leb_gt in Hrv. clear -Hrv. took. }
  apply dbg_answer. pose proof (Hnum (Call "alloc_chrdev_region" [] (region_answer t) :: t))
    as Hno.
  change (Call "chrdev_number" [] _ :: _) with (numbers_trace t).
  set (no := kernel_answer _ "chrdev_number" []) in *. clearbody no.
  apply dbg_set. apply dbg_answer. fold (class_answer t).
  apply dbg_set. apply Z.leb_le in Hrv as Hrvb.
  assert (Ht : took t 1 (bit (is_pointer (class_answer t))) 0
    (Call "class_create" [] (class_answer t) :: numbers_trace t)).
  { unfold numbers_trace. clear -Hrvb. set (c := class_answer t). clearbody c.
    generalize dependent (region_answer t). intros rv Hrvb. took. }
  destruct (Z.eqb_spec (class_answer t) 0) as [E|Hclass].
  { intros s Hs. unfold create_failed. rewrite bind_run. cbn [fst snd ret].
    destruct (free_resource_run _ _ s Hs) as [H1 H2]. eexists. split; [exact H1|].
    assert (En : forall d', dc_class d' = 0 -> has_node d' = false)
      by (intros d' E'; unfold has_node; by rewrite E').
    apply created_no_class; [done|done|by apply En|done|].
    unfold has_class in H2. rewrite En in H2 by done. cbn in H2. rewrite Hb, E in *.
    pose proof (took_trans _ _ _ _ _ _ _ _ _ Ht H2) as H3.
    change (is_pointer 0) with false in H3. clear -H3. took. }
  apply dbg_call. intros dv.
  set (t1 := Call "device_create" _ _ :: _).
  assert (Ht1 : took t 1 (bit (is_pointer (class_answer t))) 0 t1).
  { unfold t1. clear -Ht. set (t2 := numbers_trace t) in *. clearbody t2. took. }
  clearbody t1. destruct (dv =? 0).
  - intros s Hs. eexists. eapply create_failed_run; [done|..|exact Hs]; [done|..];
      unfold has_class; rewrite has_node_iff by done; [|done]. cbn. by rewrite Hb.
  - by apply create_buffer_run.
Qed.

(** C22: Creating and deleting the debug device, from a debug record without
    numbers, class and buffer, as the adapter's allocation leaves it, and with
    region numbers that are not 0.  If [create_debug_cdev] succeeds, the
    driver holds one region of device numbers and one buffer more, and one class
    more if the pointer that [class_create] answered is one (an error number
    passes the test for null), and [delete_debug_cdev] gives all of them back.
    If it fails for want of a region, nothing is held before or after; if
    because [class_create] answered null, the region stays taken, also after
    [delete_debug_cdev], since [free_resource] looks at the class first.  If it
    fails in any later step, everything has been given back, but the debug record
    keeps its pointers.  [probe_one] ignores the failure, so
    [remove_one] deletes the device all the same, and [free_resource] then gives
    back the region, the class and the buffer of the record a second time. *)
Theorem debug_create_delete ib il d t s :
  numbered -> dc_class d = 0 -> dc_cdevno d = 0 -> dc_buf d = 0 -> at_debug d t s ->
  let r := fst (create_debug_cdev p ib il s) in
  let s1 := snd (create_debug_cdev p ib il s) in
  let s2 := snd (delete_debug_cdev p s1) in
  let rv := region_answer t in
  let class := class_answer t in
  let held := bit (is_pointer class) in
  (r = 0 /\ 0 <= rv /\ class <> 0 /\
     took t 1 held 1 (trace_of s1) /\ took t 0 0 0 (trace_of s2)) \/
  (r = - ENOMEM /\ rv < 0 /\
     took t 0 0 0 (trace_of s1) /\ took t 0 0 0 (trace_of s2)) \/
  (r = - ENOMEM /\ 0 <= rv /\ class = 0 /\
     took t 1 0 0 (trace_of s1) /\ took t 1 0 0 (trace_of s2)) \/
  (r = - ENOMEM /\ 0 <= rv /\ class <> 0 /\ took t 0 0 0 (trace_of s1) /\
     exists d1, a_debug <$> g_adapters s1 !! p = Some d1 /\
       took t (-1) (- held) (- bit (negb (dc_buf d1 =? 0))) (trace_of s2)).
Proof.
  intros Hnum Hc Hn Hb Hs r s1 s2 rv class held.
  destruct (create_run ib il d t Hnum Hc Hn Hb s Hs) as (d' & Hd & Hr).
  fold r s1 in Hd, Hr. destruct (free_resource_run _ _ _ Hd) as [_ H2].
  change (snd (free_resource p s1)) with s2 in H2. clearbody r s1 s2.
  assert (Hnz : has_node d' = true -> dc_class d' <> 0)
    by (unfold has_node; intros [E%negb_true_iff _]%andb_true_iff; by apply Z.eqb_neq).
  destruct Hr as [Hrv Hcl Hnode Hbuf Ht|Hrv Hnode Hbuf Ht|Hrv Hcl Hnode Hbuf Ht
    |Hrv Hcl Hnode Ht]; unfold has_class in *; rewrite Hnode in *; cbn [andb] in *;
    pose proof (took_trans _ _ _ _ _ _ _ _ _ Ht H2) as H3; clear H2.
  - left. apply Z.eqb_neq in Hbuf. rewrite Hbuf in H3. rewrite Hcl in *. fold class held in Ht, H3.
    repeat (split; [by auto|]). clear -H3. unfold took, bit in *. cbn [negb] in *. lia.
  - right; left. rewrite Hbuf in H3. by repeat (split; [done|]).
  - right; right; left. rewrite Hbuf in H3. by repeat (split; [done|]).
  - right; right; right. rewrite Hcl in *. fold class held in H3.
    repeat (split; [by auto|]). exists d'. split; [apply Hd|].
    clear -H3. unfold took in *. unfold bit in H3 at 1. lia.
Qed.

(** * Writing *)

Context (interfere : est -> est).

Definition buf_size_of (s : gst) : Z :=
  dc_buf_size (a_debug (default zero_adapter (g_adapters s !! p))).

(** C23: [debug_write] takes no more than fits in the debug device: beyond its size it
    refuses without a step.  When it returns, either it has failed and the position
    of the file is where it was, or it reports all of [count] and the position has
    moved by as much and is inside the device. *)
Theorem debug_write_bounds src count off s r off' :
  0 <= count -> 0 <= off -> off + count < 2 ^ 64 -> 0 <= buf_size_of s < 2 ^ 31 ->
  (buf_size_of s < off + count ->
   debug_write interfere p src count off s = (Done (- EINVAL, off), s)) /\
  (fst (debug_write interfere p src count off s) = Done (r, off') ->
   (r = count /\ off' = off + count /\ off' <= buf_size_of s) \/ (r < 0 /\ off' = off)).
Proof.
  intros Hc Ho Hoc Hb. unfold debug_write. rewrite bind_run, adapter_run. cbn [fst snd].
  fold (buf_size_of s). rewrite !u64_small by lia.
  destruct (Z.ltb_spec (buf_size_of s) (off + count)) as [E|E].
  { split; [done|]. intros [= <- <-]. by right. }
  split; [lia|]. rewrite bind_run. destruct (_ =? 0).
  { intros [= <- <-]. by right. }
  rewrite bind_run. destruct (negb _).
  { intros [= <- <-]. by right. }
  unfold obind. rewrite bind_run. destruct (fst (dma_xfer_data _ _ _ _ _ _ _)); try done.
  intros [= <- <-]. by left.
Qed.

(** Only calls of the kernel have been made since [s0]. *)
Definition calls_since (s0 s : gst) : Prop :=
  exists t, s = with_trace (t ++ trace_of s0) s0 /\
    Forall (fun e => exists f a v, e = Call f a v) t.

Lemma since_refl s : calls_since s s.
Proof. exists []. split; [by destruct s as [[] ? ? ? ?]|done]. Qed.

Lemma since_call {B} s0 f args (P : Z -> Prop) (k : Z -> M gst B) Q :
  (forall t, P (kernel_answer t f args)) ->
  (forall v, P v -> hoare (calls_since s0) (k v) Q) ->
  hoare (calls_since s0) (bind (kcall f args) k) Q.
Proof.
  intros HP Hk s (t & -> & Ht). rewrite bind_run. apply Hk; [apply HP|].
  eexists (Call f args _ :: t). split; [reflexivity|]. constructor; [by do 3 eexists|done].
Qed.

Lemma since_adapter {B} s0 (k : nupanet_adapter -> M gst B) Q :
  hoare (calls_since s0) (k (default zero_adapter (g_adapters s0 !! p))) Q ->
  hoare (calls_since s0) (bind (adapter p) k) Q.
Proof.
  intros Hk s Hs. rewrite bind_run, adapter_run. cbn [fst snd].
  destruct Hs as (t & E & Ht). replace (g_adapters s) with (g_adapters s0) by by rewrite E.
  apply Hk. by exists t.
Qed.

Lemma since_ret {B} s0 (b : B) (P : B -> Prop) :
  P b -> hoare (calls_since s0) (ret b) (fun r s => P r /\ calls_since s0 s).
Proof. intros HP s Hs. by split. Qed.

(** Without memory for a table of segments [dma_xfer_data] does nothing. *)
Lemma dma_xfer_no_table s0 pos buf n is_h2c :
  (forall t a, kernel_answer t "sg_alloc_table" a <> 0) ->
  hoare (calls_since s0) (dma_xfer_data interfere p pos buf n is_h2c)
    (fun r s => (exists res, r = Done res) /\ calls_since s0 s).
Proof.
  intros Hsg. unfold dma_xfer_data, free_sgt.
  apply (since_call _ _ _ (fun _ => True)); [done|]. intros sgt _.
  destruct (sgt =? 0); [apply since_ret; by eexists|]. apply since_adapter.
  destruct (_ =? 0); [apply since_ret; by eexists|].
  apply (since_call _ _ _ (fun v => v <> 0)); [done|]. intros v Hv.
  apply Z.eqb_neq in Hv. rewrite Hv. cbn [negb].
  apply (since_call _ _ _ (fun _ => True)); [done|]. intros ? _.
  apply (since_call _ _ _ (fun _ => True)); [done|]. intros ? _.
  apply since_ret. by eexists.
Qed.

(** C38: [debug_write] drops the result of the transfer: on a machine that has
    memory for the buffer but none for tables of segments, a write that fits,
    whose bytes could be copied, reports all of [count] and moves the position,
    but it has only made calls of the kernel: no register of any device has been
    read or written. *)
Theorem debug_write_lost src count off s :
  (forall t a, kernel_answer t "kzalloc" a <> 0) ->
  (forall t a, kernel_answer t "copy_from_user" a = 0) ->
  (forall t a, kernel_answer t "sg_alloc_table" a <> 0) ->
  0 <= count -> 0 <= off -> off + count <= buf_size_of s -> buf_size_of s < 2 ^ 31 ->
  fst (debug_write interfere p src count off s) = Done (count, off + count) /\
  calls_since s (snd (debug_write interfere p src count off s)).
Proof.
  intros Hk Hcp Hsg Hc Ho Hsz Hb.
  cut (hoare (calls_since s) (debug_write interfere p src count off)
    (fun r s' => r = Done (count, off + count) /\ calls_since s s')).
  { intros Hw. apply (Hw s (since_refl s)). }
  unfold debug_write. apply since_adapter. fold (buf_size_of s).
  rewrite !u64_small by lia. rewrite (proj2 (Z.ltb_ge _ _)) by lia.
  apply (since_call _ _ _ (fun v => v <> 0)); [done|]. intros v Hv.
  rewrite (proj2 (Z.eqb_neq _ 0)) by done.
  apply (since_call _ _ _ (fun v => v = 0)); [done|]. intros w ->.
  cbn [Z.eqb negb]. intros s1 Hs1. unfold obind. rewrite bind_run.
  destruct (dma_xfer_no_table s (i32 off) v (i32 count) true Hsg s1 Hs1) as [[res ->] Hend].
  by apply (since_ret s _ (fun r => r = Done (count, off + count))).
Qed.
End debug.

(** * Witnesses *)

Definition ex_debug : debug_cdev :=
  zero_debug <| dc_cdevno := 1 |> <| dc_class := 2 |> <| dc_buf := 3 |>
    <| dc_buf_size := BUF_LENGTH |>.
Definition debug_gst (d : debug_cdev) : gst := {|
  g_lib := Build_lst [] [] ∅ (Build_tst None 0 ∅ []) [];
  g_adapters := {[ 1 := zero_adapter <| a_debug := d |> ]};
  g_drvdata := ∅;
  g_shm := [];
  g_mac_addr := [];
|}.

(** A kernel that answers [v] when asked for what [f] gives, and 0 otherwise. *)
Definition platform_kernel (f : list (string * Z)) : Platform := {|
  mmio_answer _ _ := 0;
  wb_answer _ := 0;
  kernel_answer _ g _ :=
    default 0 (snd <$> find (fun q => String.eqb (fst q) g) f);
  sizeof_xdma_request_cb := 256;
  VMALLOC_START := 2 ^ 47;
  VMALLOC_END := 2 ^ 48;
|}.

(** No character device can be added. *)
Definition ex_kernel : Platform := platform_kernel
  [("chrdev_number", 1); ("class_create", 2); ("device_create", 3); ("kcalloc", 4);
   ("kzalloc", 5); ("sg_alloc_table", -12); ("cdev_add", -12)].

Lemma debug_create_delete_witness :
  let create := @create_debug_cdev ex_kernel 1 9 64 (debug_gst zero_debug) in
  let s2 := snd (@delete_debug_cdev ex_kernel 1 (snd create)) in
  fst create = - ENOMEM /\ took [] 0 0 0 (trace_of (snd create)) /\
  took [] (-1) (-1) (-1) (trace_of s2).
Proof.
  assert (H1 : @numbered ex_kernel) by by intros t.
  assert (H2 : at_debug 1 zero_debug [] (debug_gst zero_debug)) by done.
  pose proof (@debug_create_delete ex_kernel 1 9 64 zero_debug [] (debug_gst zero_debug)
    H1 eq_refl eq_refl eq_refl H2) as [H|[H|[H|H]]].
  - destruct H as [H _]. vm_compute in H. done.
  - destruct H as (_ & H & _). vm_compute in H. done.
  - destruct H as (_ & _ & H & _). vm_compute in H. done.
  - destruct H as (Hr & _ & _ & Ht & d1 & Hd1 & Ht2). split; [exact Hr|].
    split; [exact Ht|]. vm_compute in Hd1. injection Hd1 as <-. exact Ht2.
Defined.

Lemma debug_write_bounds_witness :
  @debug_write ex_kernel irq_params (fun s => s) 1 7 40000 0 (debug_gst ex_debug) =
    (Done (- EINVAL, 0), debug_gst ex_debug) /\
  fst (@debug_write ex_kernel irq_params (fun s => s) 1 7 100 0 (debug_gst ex_debug)) =
    Done (100, 100) /\ 100 <= buf_size_of 1 (debug_gst ex_debug).
Proof.
  split; [|split; [vm_compute; reflexivity|]].
  - apply (@debug_write_bounds ex_kernel irq_params 1 (fun s => s) 7 40000 0
      (debug_gst ex_debug) 0 0); change (buf_size_of _ _) with 32768; lia.
  - destruct (@debug_write_bounds ex_kernel irq_params 1 (fun s => s) 7 100 0
      (debug_gst ex_debug) 100 100) as [_ H];
      [lia|lia|lia|change (buf_size_of _ _) with 32768; lia|].
    assert (E : fst (@debug_write ex_kernel irq_params (fun s => s) 1 7 100 0
      (debug_gst ex_debug)) = Done (100, 100)) by (vm_compute; reflexivity).
    specialize (H E). destruct H as [(_ & _ & Hin)|[Hneg _]]; [exact Hin|lia].
Defined.

Lemma debug_write_lost_witness :
  fst (@debug_write ex_kernel irq_params (fun s => s) 1 7 100 0 (debug_gst ex_debug)) =
    Done (100, 0 + 100) /\
  calls_since (debug_gst ex_debug)
    (snd (@debug_write ex_kernel irq_params (fun s => s) 1 7 100 0 (debug_gst ex_debug))).
Proof.
  apply (@debug_write_lost ex_kernel irq_params 1 (fun s => s) 7 100 0
    (debug_gst ex_debug)).
  - by intros t a.
  - by intros t a.
  - by intros t a.
  - lia.
  - lia.
  - vm_compute. congruence.
  - vm_compute. reflexivity.
Defined.
